(* ===== verification/_CoqProject ===== *)
-Q . S2P
Prelude.v
Paths.v
KVStore.v
KVConc.v
KVClient.v
KVRef.v
KVModule.v
KVTests.v
KVLua.v
VdsoMap.v
VdsoFault.v
VdsoPatch.v
TaskState.v
SchedSleep.v
SchedTask.v
CLayout.v
TaskStruct.v
TaskLayout.v
ForkState.v
ForkTask.v
ForkMm.v
ForkArgs.v
ForkCopy.v
ForkLogic.v
ForkTaskSpec.v
ForkMmSpec.v
ForkErrno.v
ForkLevels.v
ForkUnwind.v
ForkChild.v
ForkDemo.v
ForkClone.v
ForkUnshare.v
ForkTree.v
ForkAreas.v
ForkArgsSpec.v
ForkStacks.v
ForkBoot.v
Pidfd.v
VdsoTest.v
Acpi.v
Zhwi.v
ZhwiTimer.v
Tcpdump.v
Nccl.v
Mmap.v
MmapTest.v
Ramfs.v
RamfsMount.v
RamfsTest.v
Fuse.v
SocketFair.v
SocketTest.v
Syscalls.v
SyscallSpec.v
XattrTest.v
SyscallArgs.v
