(* ===== verification/Prelude.v ===== *)
(** * A verification of an operating-systems course project

    The repository is a set of changes to Linux 5.15 and a number of small
    programs around it.  This library models them in Rocq and proves what they
    do.  Paths below are relative to src/; "the tree" is
    src/linux-5.15.178, which holds the changed files of the kernel.

    ** Parts and files

    - A key-value store for every process, reached by two new system calls.
      [KVStore] has kernel/kv_store.c over a heap of nodes and stores; [KVConc]
      interleaves the two calls of the threads of a process, one access at a
      time; [KVClient] has the user side (syscall/kv_syscall: kv_syscalls.h,
      kv_lua_binding.c, test1-serial.c, test3-kernel-module.c) against the
      interface [KvService], of which the kernel is an instance.  [KVRef] has
      the version of the store in kv_store.patch, which counts references;
      [KVModule] loads and unloads the test module beside its threads;
      [KVTests] has test_basic.c, test_kv.c and test_concurrent.c, [KVLua] the
      sysbench script test2.lua.
    - Process creation, where the store is set up: kernel/fork.c.  [ForkState]
      is the state and the monad, [ForkTask] tasks and kernel stacks, [ForkMm]
      address spaces, [ForkArgs] arguments and flags, [ForkCopy] copy_process
      and what it copies, [ForkClone] kernel_clone and the system calls,
      [ForkUnshare] unshare, [ForkTree] walk_process_tree.  The other Fork files
      hold proofs: [ForkLogic] the program logic, [ForkTaskSpec], [ForkMmSpec],
      [ForkAreas], [ForkArgsSpec], [ForkStacks], [ForkErrno], [ForkLevels],
      [ForkUnwind], [ForkChild], and [ForkDemo] a concrete kernel.  [ForkBoot]
      has the caches made at boot, [Pidfd] the files that stand for processes.
    - Tasks: include/linux/sched.h.  [TaskState] has the states and flags,
      [SchedSleep] the macros with which a task goes to sleep, [SchedTask] the
      inline functions on ids, thread flags and restartable sequences.
      [TaskStruct] has the structures, member by member with the conditions of
      the preprocessor, [CLayout] the rules by which C lays a structure out,
      [TaskLayout] what they give for task_struct in every configuration.
    - A window in which a process sees its task_struct, beside the vDSO:
      arch/x86/entry/vdso.  [VdsoMap] maps the areas, [VdsoFault] handles their
      faults and runs the vDSO function that reads the window (vgetinfo.c).
      [VdsoPatch] has the two functions in which syscall/vdso/vDSO.patch differs
      from the tree, [VdsoTest] the programs test_vdso.cpp and test_vdso_all.cpp.
    - [Syscalls]: the system call tables and prototypes, entry by entry;
      [SyscallSpec]: that they fit together and with the definitions in fork.c
      and kv_store.c, and the wrappers of filesystem/inode/impl.c; [XattrTest]:
      filesystem/inode/test.c, on these wrappers; [SyscallArgs]: the macros of
      syscalls.h that define a system call.
    - Firmware: [Acpi] is the UEFI tool HelloWorldPkg/HelloWorld.c; [Zhwi] the
      driver HardwareInfoAppPkg/HardwareInfoApp.c that installs a table and the
      kernel driver drivers/firmware/efi/efi_custom_hwinfo.c that shows it;
      [ZhwiTimer] the version HardwareInfoApp.c.new, which updates the table.
    - Memory: [Mmap] is memctrl/mmap/impl.c, [MmapTest] its test.c.  [Ramfs] has
      the copies that memctrl/ramfs/ramfs.patch makes at fsync, [RamfsMount] its
      mount option.  [RamfsTest]: the programs test1.c to test3.c of
      memctrl/ramfs, against the class [Durable], of which the ramfs is an
      instance.
    - Network: [Tcpdump] is network/tcpdump/custom_tcpdump.c, [SocketFair] the
      code in network/socket/socket.patch, [SocketTest] socket_fair_test.c on
      it, [Nccl] the two programs of network/nccl.
    - [Fuse]: the Python programs of filesystem/fuse.  [Paths]: paths as strings
      and bytes, for [Ramfs], [Fuse], [Pidfd] and the test programs.

    This file has what they share: machine integers with their wrap-around,
    the result type [res] whose faults are the undefined behaviours of C,
    errnos, alignment, tactics and the hint database [kernel].

    ** How code is modelled

    A C function is a Rocq function from its arguments and the state it uses to
    a result and the new state; a fault ([Fault]) is an invalid access, a lock
    that is never released, or a BUG_ON or assert that fails.  In fork.c, code is a program of the
    monad of [ForkState]: its exceptions are the labels goto jumps to, objects
    are maps from fields to values, and every call of a function outside fork.c
    is written to a trace.  What such functions do is the class [World], with
    [world_ok] for what they are documented to do; the same holds for [MmOps]
    and [MmLaws], [PtOps], [WakeUp], [TiFlags], [XattrKernel] and
    [XattrLaws], and the section variables kmalloc, umh, d_path and the like of
    the other files.  A test program is proved against what it calls as a class
    ([KvService], [Durable], [InfoService]) or on the model of it.  Threads are
    transition systems whose steps are single accesses to what they share.
    Names are those of the source.

    ** What the theorems show

    - The store: write_kv and read_kv are insertion and lookup in a finite map,
      failure without memory included; every interleaving of threads has a
      linear order of atomic calls and never gets stuck; what a process writes
      it reads back, but for values that look like errnos; the counted version
      has no dangling and no lost store as long as copy_process succeeds.
    - copy_process: on failure everything is as before, except the store of the
      child, which is lost; on success the child's identity, pointers and
      reference counts are as the flags say.  kernel_clone starts the child and
      waits when it has to; unshare is all or nothing but for one set of
      namespaces; the tree walk equals a recursive walk; duplicated address
      spaces have the areas they should; kernel stacks are neither shared nor
      lost; clone3 and clone agree.
    - The vDSO: the three areas are mapped together or not at all, and once;
      handlers map only pages of the image and of the time namespace; the vDSO
      function returns the data of the task that touched the window first, in
      the version of the patch for every size of task_struct; the test programs
      see the pid of each process, since a fork wipes the window.
    - Tasks: a wake-up is not lost between the test of a condition and the
      sleep, in a memory with store buffers; events of restartable sequences
      all reach their handler; members of task_struct are apart in every
      configuration, and copies from user space reach only its last one.
    - System calls: numbers, handlers, prototypes and definitions agree in every
      configuration, and the stub of a call passes arguments within their types;
      the wrappers for extended attributes behave as the functions of the C
      library, so that the test program finds no difference.
    - File systems: GPT_FUSE.py refines a map of conversations with POSIX files;
      the ramfs copies a file where it should, and its test programs end, with
      whole entries in the file and a copy that is a prefix of it; the
      release of a mount context frees the strings of its options, each once,
      and the last of them decides where fsync copies.
    - Mappings: a write through a mapping leaves the file as a write through
      stdio does, and the test program finds them equal.
    - Firmware: every table the drivers install has its length and a sum of zero,
      and the kernel driver shows what was put in; simulated readings stay in
      their ranges.
    - The NCCL programs follow the rules of the two libraries on up to four
      devices, and stop at the first call that fails.
    - The other programs: each theorem says what a function computes on every
      path, errors included, and that its accesses are in bounds or when not.
    Where a theorem shows that the code does not do what its comments say, the
    comment of the theorem says so.

    ** Bounds and fuel

    Recursion is structural but for two functions with fuel: [ForkTree.walk] has
    one unit for each jump of the walk, and the theorem gives a bound that is
    enough for any tree; [RamfsTest.test1_loop] has one unit for each round, and
    65 are always enough.  Loops over the 1024 buckets and the 32 levels of a path recurse
    on the list of indices and on the remaining levels.  Counters are integers
    with the wrap-around of their C type where it can be reached; reference
    counts of [KVRef] saturate.  The theorems that need it bound the number of
    references by what an int holds.

    ** Not modelled

    - Of fork.c: signals and the scheduler appear as outside calls; the caches
      of other CPUs and the variant for stacks smaller than a page do not appear.
    - Of sched.h: declarations of functions and types defined elsewhere.  Of
      syscalls.h: the names of the arguments of the prototypes.
    - Of vma.c: the patching of alternatives, which rewrites instructions.
    - The text that programs print, where nothing depends on it, and the
      bandwidths in floating point of the NCCL program.
    - HardwareInfoApp.c.old, an earlier copy of the driver that is not built; the
      shell script of memctrl/ramfs, of whose mount and fsync [RamfsMount] has an
      example; build files.
*)

From stdpp Require Export base gmap list numbers strings.
From Stdlib Require Export Lia ZArith.

#[global] Open Scope Z_scope.

(** ** Machine integers

    A C integer of width [w] is a [Z] together with an explicit wrap-around:
    [uwrap] for the unsigned types and [swrap] for the two's complement
    signed types of x86-64. *)

Definition uwrap (w z : Z) : Z := z mod 2 ^ w.

Definition swrap (w z : Z) : Z := (z + 2 ^ (w - 1)) mod 2 ^ w - 2 ^ (w - 1).

Definition u8 (z : Z) : Z := uwrap 8 z.
Definition u16 (z : Z) : Z := uwrap 16 z.
Definition u32 (z : Z) : Z := uwrap 32 z.
Definition u64 (z : Z) : Z := uwrap 64 z.
Definition s32 (z : Z) : Z := swrap 32 z.
Definition s64 (z : Z) : Z := swrap 64 z.

Definition in_u (w z : Z) : Prop := 0 <= z < 2 ^ w.
Definition in_s (w z : Z) : Prop := - 2 ^ (w - 1) <= z < 2 ^ (w - 1).

#[global] Instance in_u_dec w z : Decision (in_u w z).
Proof. unfold in_u. apply _. Defined.

#[global] Instance in_s_dec w z : Decision (in_s w z).
Proof. unfold in_s. apply _. Defined.

(** C truth values: any non-zero integer is true. *)
Definition nonzero (z : Z) : bool := negb (z =? 0).

(** [x & m] used as a condition. *)
Definition has (x m : Z) : bool := nonzero (Z.land x m).

(** ** Results of code that may not return normally

    [Fault] records the behaviours the C code has no defined result for. *)

Inductive fault :=
| NullDeref     (** access through an invalid or NULL pointer *)
| Deadlock      (** spin_lock on a lock that is never released *)
| OutOfBounds   (** access outside an array or a buffer *)
| BugOn         (** BUG_ON or assert fired *)
| DivByZero.

Inductive res (A : Type) :=
| Ok (a : A)
| Fault (f : fault).
Arguments Ok {A} a.
Arguments Fault {A} f.

#[global] Instance fault_eq_dec : EqDecision fault.
Proof. solve_decision. Defined.

#[global] Instance res_eq_dec {A} `{EqDecision A} : EqDecision (res A).
Proof. solve_decision. Defined.

Definition res_bind {A B} (m : res A) (k : A -> res B) : res B :=
  match m with Ok a => k a | Fault f => Fault f end.

Declare Scope res_scope.
Delimit Scope res_scope with res.
Notation "'let!' x ':=' m 'in' k" := (res_bind m (fun x => k))
  (at level 10, x pattern, m at level 100, k at level 200) : res_scope.
#[global] Open Scope res_scope.

Definition of_option {A} (f : fault) (o : option A) : res A :=
  match o with Some a => Ok a | None => Fault f end.

(** ** Errno values used by the sources *)

Definition EPERM : Z := 1.
Definition EINTR : Z := 4.
Definition E2BIG : Z := 7.
Definition EBADF : Z := 9.
Definition EAGAIN : Z := 11.
Definition ENOMEM : Z := 12.
Definition EACCES : Z := 13.
Definition EFAULT : Z := 14.
Definition EBUSY : Z := 16.
Definition EEXIST : Z := 17.
Definition ENODEV : Z := 19.
Definition EINVAL : Z := 22.
Definition ERESTARTNOINTR : Z := 513.

Definition PAGE_SHIFT : Z := 12.
Definition PAGE_SIZE : Z := 4096.
Definition PAGE_MASK : Z := Z.lnot (PAGE_SIZE - 1).

(** [ALIGN(x, a)] for a power of two [a]: round up to a multiple. *)
Definition ALIGN (x a : Z) : Z := Z.land (x + (a - 1)) (Z.lnot (a - 1)).
Definition PAGE_ALIGN (x : Z) : Z := ALIGN x PAGE_SIZE.

(** Errors carried in an [unsigned long] or a pointer. *)
Definition MAX_ERRNO : Z := 4095.
Definition IS_ERR_VALUE (x : Z) : bool := 2 ^ 64 - MAX_ERRNO <=? x.

(** The flags of a virtual memory area the sources name; vm_flags is a list of
    them. *)
Inductive vm_flag :=
| VM_READ | VM_EXEC | VM_SHARED | VM_MAYREAD | VM_MAYWRITE | VM_MAYEXEC | VM_IO | VM_DONTDUMP
| VM_PFNMAP | VM_WIPEONFORK | VM_DONTCOPY | VM_ACCOUNT | VM_LOCKED | VM_LOCKONFAULT.

#[global] Instance vm_flag_eq_dec : EqDecision vm_flag.
Proof. solve_decision. Defined.

(** ** Automation *)

Create HintDb kernel discriminated.

(** Open a [res] computation that is known to have returned. *)
Ltac res_step H :=
  match type of H with
  | res_bind ?m _ = Ok _ =>
      let E := fresh "E" in destruct m eqn:E; simpl in H; [|discriminate H]
  | of_option _ ?o = Ok _ =>
      let E := fresh "E" in destruct o eqn:E; simpl in H; [|discriminate H]
  end.

(** Unfold the powers of two a width stands for, then call [lia]. *)
Ltac width :=
  unfold u8, u16, u32, u64, s32, s64, uwrap, swrap, in_u, in_s in *;
  change (2 ^ (8 - 1)) with 128 in *;
  change (2 ^ (32 - 1)) with 2147483648 in *;
  change (2 ^ (64 - 1)) with 9223372036854775808 in *;
  change (2 ^ 8) with 256 in *; change (2 ^ 16) with 65536 in *;
  change (2 ^ 32) with 4294967296 in *;
  change (2 ^ 64) with 18446744073709551616 in *.

(** [lia] with quotients and remainders of literals opened. *)
Ltac zmod_lia := Z.div_mod_to_equations; lia.

(** ** Lemmas on machine integers *)

Lemma uwrap_range w z : 0 <= w -> in_u w (uwrap w z).
Proof. intros. unfold in_u, uwrap. apply Z.mod_pos_bound. lia. Qed.

Lemma uwrap_small w z : in_u w z -> uwrap w z = z.
Proof. unfold in_u, uwrap. apply Z.mod_small. Qed.

Lemma swrap_range w z : 0 < w -> in_s w (swrap w z).
Proof.
  intros. unfold in_s, swrap.
  assert (E : 2 ^ w = 2 * 2 ^ (w - 1)).
  { rewrite <- Z.pow_succ_r by lia. f_equal. lia. }
  pose proof (Z.mod_pos_bound (z + 2 ^ (w - 1)) (2 ^ w)). lia.
Qed.

Lemma swrap_small w z : 0 < w -> in_s w z -> swrap w z = z.
Proof.
  unfold in_s, swrap. intros ? ?.
  assert (E : 2 ^ w = 2 * 2 ^ (w - 1)).
  { rewrite <- Z.pow_succ_r by lia. f_equal. lia. }
  rewrite Z.mod_small; lia.
Qed.

Lemma u64_small z : in_u 64 z -> u64 z = z.
Proof. apply uwrap_small. Qed.

Lemma u32_small z : in_u 32 z -> u32 z = z.
Proof. apply uwrap_small. Qed.

Lemma land_low_mod x w : 0 <= w -> Z.land x (2 ^ w - 1) = x mod 2 ^ w.
Proof. intros. rewrite Z.sub_1_r, <- Z.ones_equiv. by apply Z.land_ones. Qed.

Lemma land_high_mod x w : 0 <= w -> Z.land x (Z.lnot (2 ^ w - 1)) = x - x mod 2 ^ w.
Proof.
  intros Hw. rewrite <- Z.ldiff_land, Z.sub_1_r, <- Z.ones_equiv, Z.ldiff_ones_r by done.
  rewrite Z.shiftl_mul_pow2, Z.shiftr_div_pow2 by done.
  pose proof (Z.div_mod x (2 ^ w)). lia.
Qed.

Lemma ALIGN_spec x w : 0 <= w -> x <= ALIGN x (2 ^ w) < x + 2 ^ w /\ ALIGN x (2 ^ w) mod 2 ^ w = 0.
Proof.
  intros Hw. unfold ALIGN. rewrite land_high_mod by done.
  pose proof (Z.mod_pos_bound (x + (2 ^ w - 1)) (2 ^ w)). split; [lia|].
  rewrite Zminus_mod, Zmod_mod, Z.sub_diag. by apply Z.mod_0_l; lia.
Qed.

Lemma PAGE_ALIGN_spec x : x <= PAGE_ALIGN x < x + PAGE_SIZE /\ PAGE_ALIGN x mod PAGE_SIZE = 0.
Proof. apply (ALIGN_spec x 12). lia. Qed.

Lemma IS_ERR_VALUE_s32 x :
  in_u 64 x -> IS_ERR_VALUE x = true -> - MAX_ERRNO <= s32 x < 0.
Proof.
  unfold IS_ERR_VALUE, MAX_ERRNO, s32, swrap, in_u. intros Hx H%Z.leb_le. zmod_lia.
Qed.

Lemma nonzero_true z : nonzero z = true <-> z <> 0.
Proof. unfold nonzero. destruct (Z.eqb_spec z 0); simpl; split; congruence. Qed.

Lemma nonzero_false z : nonzero z = false <-> z = 0.
Proof. unfold nonzero. destruct (Z.eqb_spec z 0); simpl; split; congruence. Qed.

(** ** Lists updated by index *)

Lemma list_lookup_insert_case {A} (l : list A) i j x :
  <[i := x]> l !! j = if decide (i = j) then (fun _ => x) <$> l !! j else l !! j.
Proof.
  case_decide as Hd; [|by apply list_lookup_insert_ne]. subst j.
  destruct (l !! i) as [y|] eqn:E; simpl.
  - apply list_lookup_insert_eq. by eapply lookup_lt_Some.
  - rewrite list_insert_ge; [done|]. by apply lookup_ge_None.
Qed.

Lemma filter_all {A} (P : A -> Prop) `{!forall x, Decision (P x)} (l : list A) :
  Forall P l -> filter P l = l.
Proof. induction 1 as [|x l Hx Hl IH]; [done|]. by rewrite filter_cons_True, IH. Qed.

#[export] Hint Resolve uwrap_range uwrap_small swrap_range : kernel.
