(* ===== verification/Paths.v ===== *)
(** * Paths as strings

    The bytes of a string, names joined with slashes, as the ramfs builds them,
    and the way Python programs take a path apart (str.strip and str.split). *)

From Stdlib Require Import Ascii.
From S2P Require Import Prelude.

Definition slash : string := "/".

(** The bytes of a string. *)
Definition bytes_of (s : string) : list Z := (fun c => Z.of_N (N_of_ascii c)) <$> String.list_ascii_of_string s.

(** "/a/b/c" and "a/b/c" *)
Definition tail_join (ss : list string) : string := foldr (fun s acc => slash +:+ s +:+ acc) "" ss.
Definition join (ss : list string) : string := match ss with [] => "" | s :: ss => s +:+ tail_join ss end.

Lemma str_len s t : String.length (s +:+ t) = (String.length s + String.length t)%nat.
Proof. induction s as [|c s IH]; [done|]. change (S (String.length (s +:+ t)) = S (String.length s + String.length t)). by rewrite IH. Qed.

Lemma str_app_assoc (a b c : string) : (a +:+ b) +:+ c = a +:+ b +:+ c.
Proof. induction a as [|x a IH]; [done|]. change (String x ((a +:+ b) +:+ c) = String x (a +:+ b +:+ c)). by rewrite IH. Qed.

Lemma str_app_nil (a : string) : a +:+ "" = a.
Proof. induction a as [|x a IH]; [done|]. change (String x (a +:+ "") = String x a). by rewrite IH. Qed.

Fixpoint no_slash (s : string) : bool :=
  match s with
  | EmptyString => true
  | String c s => negb (Ascii.eqb c "/"%char) && no_slash s
  end.

(** What the name of a file is like. *)
Definition name_ok (s : string) : Prop := s <> "" /\ no_slash s = true.

Definition at_slash (t : string) : Prop := t = "" \/ exists t', t = slash +:+ t'.

Lemma tail_join_slash ss : at_slash (tail_join ss).
Proof. destruct ss as [|s ss]; [by left|right]. by eexists. Qed.

Lemma slash_split s1 s2 t1 t2 :
  no_slash s1 = true -> no_slash s2 = true -> at_slash t1 -> at_slash t2 -> s1 +:+ t1 = s2 +:+ t2 -> s1 = s2 /\ t1 = t2.
Proof.
  revert s2. induction s1 as [|c s1 IH]; intros [|c2 s2] H1 H2 Ht1 Ht2 E.
  - done.
  - exfalso. destruct Ht1 as [->|[t ->]]; [done|]. injection E as <- _. cbn in H2. done.
  - exfalso. destruct Ht2 as [->|[t ->]]; [done|]. injection E as -> _. cbn in H1. done.
  - injection E as <- E. cbn in H1, H2. apply andb_prop in H1 as [_ H1], H2 as [_ H2].
    destruct (IH s2 H1 H2 Ht1 Ht2 E) as [-> ->]. done.
Qed.

Lemma str_app_inj (a b c : string) : a +:+ b = a +:+ c -> b = c.
Proof. induction a as [|x a IH]; [done|]. intros E. injection E as E. by apply IH. Qed.

Lemma tail_join_inj xs ys :
  Forall (fun s => no_slash s = true) xs -> Forall (fun s => no_slash s = true) ys -> tail_join xs = tail_join ys -> xs = ys.
Proof.
  intros Hx. revert ys. induction Hx as [|x xs Hx _ IH]; intros ys Hy E; destruct Hy as [|y ys Hy Hys]; [done|done|done|].
  cbn in E. injection E as E. destruct (slash_split x y _ _ Hx Hy (tail_join_slash xs) (tail_join_slash ys) E) as [-> Et].
  f_equal. by apply IH.
Qed.

Lemma tail_join_app xs ys : tail_join (xs ++ ys) = tail_join xs +:+ tail_join ys.
Proof. induction xs as [|x xs IH]; [done|]. cbn. unfold tail_join in *. cbn. by rewrite IH, !str_app_assoc. Qed.

(** ** Taking a path apart *)

Definition is_slash (c : ascii) : bool := Ascii.eqb c "/"%char.

(** s.lstrip("/"), s.rstrip("/") and s.strip("/") *)
Fixpoint lstrip (s : string) : string :=
  match s with
  | EmptyString => ""
  | String c s' => if is_slash c then lstrip s' else s
  end.
Fixpoint rstrip (s : string) : string :=
  match s with
  | EmptyString => ""
  | String c s' => let r := rstrip s' in if is_slash c && String.eqb r "" then "" else String c r
  end.
Definition strip (s : string) : string := rstrip (lstrip s).

(** s.split("/"): never the empty list *)
Fixpoint split (s : string) : list string :=
  match s with
  | EmptyString => [""]
  | String c s' =>
      if is_slash c then "" :: split s'
      else match split s' with p :: ps => String c p :: ps | [] => [String c ""] end
  end.

Lemma split_app s t : no_slash s = true -> at_slash t -> split (s +:+ t) = s :: tail (split t) \/ t = "" /\ split (s +:+ t) = [s].
Proof.
  intros Hs [-> | [t' ->]].
  - right. split; [done|]. rewrite str_app_nil. induction s as [|c s IH]; [done|]. cbn in Hs |- *. unfold is_slash.
    apply andb_prop in Hs as [Hc Hs]. destruct (Ascii.eqb c _); [done|]. by rewrite IH.
  - left. induction s as [|c s IH]; [done|]. cbn in Hs. apply andb_prop in Hs as [Hc Hs].
    change (split (String c (s +:+ slash +:+ t')) = String c s :: tail (split (slash +:+ t'))). cbn [split]. unfold is_slash.
    destruct (Ascii.eqb c _); [done|]. by rewrite IH.
Qed.

Lemma split_tail_join ns : Forall (fun s => no_slash s = true) ns -> split (tail_join ns) = "" :: ns.
Proof.
  induction 1 as [|n ns Hn Hns IH]; [done|]. change (tail_join (n :: ns)) with (slash +:+ n +:+ tail_join ns).
  change (split (slash +:+ n +:+ tail_join ns)) with ("" :: split (n +:+ tail_join ns)). f_equal.
  destruct (split_app n (tail_join ns) Hn (tail_join_slash ns)) as [-> | [Ht ->]]; [by rewrite IH|].
  destruct ns; [done|discriminate].
Qed.

Lemma split_join n ns : Forall (fun s => no_slash s = true) (n :: ns) -> split (join (n :: ns)) = n :: ns.
Proof.
  inversion_clear 1 as [|? ? Hn Hns]. cbn [join].
  destruct (split_app n (tail_join ns) Hn (tail_join_slash ns)) as [-> | [Ht ->]]; [by rewrite split_tail_join|].
  destruct ns; [done|discriminate].
Qed.

Lemma rstrip_app s t : rstrip t <> "" -> rstrip (s +:+ t) = s +:+ rstrip t.
Proof.
  intros Ht. induction s as [|c s IH]; [done|]. change (rstrip (String c (s +:+ t)) = String c (s +:+ rstrip t)). cbn [rstrip].
  rewrite IH. destruct (s +:+ rstrip t) eqn:E; [|by rewrite andb_false_r]. destruct s; [|done]. by cbn in E.
Qed.

Lemma rstrip_no_slash s : no_slash s = true -> rstrip s = s.
Proof.
  induction s as [|c s IH]; [done|]. cbn. intros [Hc Hs]%andb_prop. rewrite IH by done. unfold is_slash.
  by destruct (Ascii.eqb c _).
Qed.

Lemma rstrip_tail_join ns : Forall name_ok ns -> rstrip (tail_join ns) = tail_join ns.
Proof.
  induction 1 as [|n ns [Hn Hs] Hns IH]; [done|]. change (tail_join (n :: ns)) with (slash +:+ n +:+ tail_join ns).
  destruct ns as [|n' ns].
  - cbn [tail_join foldr]. rewrite str_app_nil. rewrite rstrip_app, rstrip_no_slash; [done|done|]. by rewrite rstrip_no_slash.
  - rewrite <- str_app_assoc. rewrite rstrip_app; rewrite IH; [done|]. discriminate.
Qed.

(** The path of a file, as the kernel gives it: "/", "/a", "/a/b" *)
Definition path_of (ns : list string) : string := match ns with [] => slash | _ => tail_join ns end.

(** What path.strip("/").split("/") finds in it *)
Definition parts_of (ns : list string) : list string := match ns with [] => [""] | _ => ns end.

Lemma path_parts ns : Forall name_ok ns -> split (strip (path_of ns)) = parts_of ns.
Proof.
  intros Hns. destruct ns as [|n ns]; [done|]. unfold strip.
  assert (Hl : lstrip (path_of (n :: ns)) = join (n :: ns)).
  { inversion_clear Hns as [|? ? [Hn Hs] _]. destruct n as [|c n]; [done|].
    change (lstrip (String c (n +:+ tail_join ns)) = String c (n +:+ tail_join ns)). cbn in Hs |- *. unfold is_slash.
    apply andb_prop in Hs as [Hc _]. by destruct (Ascii.eqb c _). }
  assert (Hr : rstrip (join (n :: ns)) = join (n :: ns)).
  { pose proof (rstrip_tail_join (n :: ns) Hns) as H. change (tail_join (n :: ns)) with (slash +:+ join (n :: ns)) in H.
    change (slash +:+ join (n :: ns)) with (String "/" (join (n :: ns))) in H. cbn [rstrip] in H.
    destruct (is_slash _ && _); [discriminate|]. by injection H. }
  rewrite Hl, Hr. apply split_join. eapply Forall_impl; [exact Hns|]. by intros s [_ ?].
Qed.
