(* ===== verification/KVStore.v ===== *)
(** * The per-process key-value store (kernel/kv_store.c)

    The four functions of kernel/kv_store.c over an explicit heap: a
    [kv_store] object is an array of 1024 spinlocks and 1024 hlist heads,
    each hlist a list of addresses of [kv_node] objects.  [kmalloc] is the
    slab allocator's and so a parameter.  The component is verified against
    an abstract finite map: [kv_abs] reads the map a store represents and the
    theorems show that the system calls are lookup and insertion in it. *)

From S2P Require Import Prelude.

(** struct kv_node; the hlist linkage is the position in its bucket. *)
Record kv_node := KvNode { key : Z; value : Z }.

(** struct kv_store (include/linux/sched.h): a lock is its held bit. *)
Record kv_store := KvStore { locks : list bool; head : list (list Z) }.

(** The part of kernel memory the functions touch, by address. *)
Record kvmem := KvMem { nodes : gmap Z kv_node; stores : gmap Z kv_store }.

#[global] Instance kv_node_eq_dec : EqDecision kv_node.
Proof. solve_decision. Defined.

Definition NBUCKETS : nat := 1024.

(** What kv_store.c reads and writes of a [task_struct]. *)
Class TaskKv (T : Type) := {
  t_pid : T -> Z;
  t_tgid : T -> Z;
  t_kv : T -> Z;
  set_kv : Z -> T -> T;
  t_kv_set : forall l t, t_kv (set_kv l t) = l;
  t_pid_set : forall l t, t_pid (set_kv l t) = t_pid t;
  t_tgid_set : forall l t, t_tgid (set_kv l t) = t_tgid t;
}.

(** The fields kv_store.c uses of a [task_struct], on their own. *)
Record kv_task := KvTask { kt_pid : Z; kt_tgid : Z; kt_kv : Z }.

#[global] Program Instance kv_task_kv : TaskKv kv_task := {|
  t_pid := kt_pid; t_tgid := kt_tgid; t_kv := kt_kv;
  set_kv l t := KvTask (kt_pid t) (kt_tgid t) l |}.
Solve All Obligations with done.

(** [unsigned int hash = k & 1023;] *)
Definition kv_hash (k : Z) : nat := Z.to_nat (Z.land k 1023).

Definition with_store (m : kvmem) (kv : Z) (s : kv_store) : kvmem :=
  KvMem (nodes m) (<[kv := s]> (stores m)).

Definition with_nodes (m : kvmem) (ns : gmap Z kv_node) : kvmem :=
  KvMem ns (stores m).

Definition set_lock (s : kv_store) (h : nat) (b : bool) : kv_store :=
  KvStore (<[h := b]> (locks s)) (head s).

Definition set_head (s : kv_store) (h : nat) (b : list Z) : kv_store :=
  KvStore (locks s) (<[h := b]> (head s)).

Definition get_store (m : kvmem) (kv : Z) : res kv_store :=
  of_option NullDeref (stores m !! kv).

(** [spin_lock]: a lock that is held is never released by a sequential
    caller. *)
Definition spin_lock (kv : Z) (h : nat) (m : kvmem) : res kvmem :=
  let! s := get_store m kv in
  let! held := of_option OutOfBounds (locks s !! h) in
  if (held : bool) then Fault Deadlock else Ok (with_store m kv (set_lock s h true)).

Definition spin_unlock (kv : Z) (h : nat) (m : kvmem) : res kvmem :=
  let! s := get_store m kv in
  let! _ := of_option OutOfBounds (locks s !! h) in
  Ok (with_store m kv (set_lock s h false)).

Definition get_head (kv : Z) (h : nat) (m : kvmem) : res (list Z) :=
  let! s := get_store m kv in
  of_option OutOfBounds (head s !! h).

Definition put_head (kv : Z) (h : nat) (b : list Z) (m : kvmem) : res kvmem :=
  let! s := get_store m kv in
  Ok (with_store m kv (set_head s h b)).

(** The [hlist_for_each_entry] search loop of both system calls. *)
Fixpoint find_entry (ns : gmap Z kv_node) (k : Z) (b : list Z) : res (option Z) :=
  match b with
  | [] => Ok None
  | l :: b' =>
      let! n := of_option NullDeref (ns !! l) in
      if key n =? k then Ok (Some l) else find_entry ns k b'
  end.

Definition hlist_add_head (l : Z) (b : list Z) : list Z := l :: b.

Definition hlist_del (l : Z) (b : list Z) : list Z := filter (fun x => x <> l) b.

(** The documented contract of kmalloc: a non-NULL result is a new object. *)
Definition kmalloc_fresh (kmalloc : gset Z -> option Z) : Prop :=
  forall live l, kmalloc live = Some l -> ~ (l ∈ live) /\ l <> 0.

(** Addresses of live objects. *)
Definition used (m : kvmem) : gset Z := dom (nodes m) ∪ dom (stores m).

Section Syscalls.
Context {T : Type} `{TaskKv T}.
(** The slab allocator: given the live addresses, an address or failure. *)
Variable kmalloc : gset Z -> option Z.

(** [SYSCALL_DEFINE2(write_kv, int, k, int, v)] *)
Definition write_kv (task : T) (k v : Z) (m : kvmem) : res (Z * kvmem) :=
  let hash := kv_hash k in
  let kv := t_kv task in
  let! m := spin_lock kv hash m in
  let! b := get_head kv hash m in
  let! old_entry := find_entry (nodes m) k b in
  match old_entry with
  | Some l =>
      let! n := of_option NullDeref (nodes m !! l) in
      let m := with_nodes m (<[l := KvNode (key n) v]> (nodes m)) in
      let! m := spin_unlock kv hash m in
      Ok (4, m)
  | None =>
      match kmalloc (used m) with
      | None =>
          let! m := spin_unlock kv hash m in
          Ok (-1, m)
      | Some entry =>
          let m := with_nodes m (<[entry := KvNode k v]> (nodes m)) in
          let! m := put_head kv hash (hlist_add_head entry b) m in
          let! m := spin_unlock kv hash m in
          Ok (4, m)
      end
  end.

(** [SYSCALL_DEFINE1(read_kv, int, k)] *)
Definition read_kv (task : T) (k : Z) (m : kvmem) : res (Z * kvmem) :=
  let hash := kv_hash k in
  let kv := t_kv task in
  let! m := spin_lock kv hash m in
  let! b := get_head kv hash m in
  let! entry := find_entry (nodes m) k b in
  let! ret := match entry with
              | Some l =>
                  let! n := of_option NullDeref (nodes m !! l) in Ok (value n)
              | None => Ok (-1)
              end in
  let! m := spin_unlock kv hash m in
  Ok (ret, m).

(** [hlist_for_each_entry_safe] with [hlist_del] and [kfree] in the body. *)
Fixpoint free_bucket (kv : Z) (i : nat) (b : list Z) (m : kvmem) : res kvmem :=
  match b with
  | [] => Ok m
  | entry :: rest =>
      let! _ := of_option NullDeref (nodes m !! entry) in
      let! cur := get_head kv i m in
      let! m := put_head kv i (hlist_del entry cur) m in
      let m := with_nodes m (delete entry (nodes m)) in
      free_bucket kv i rest m
  end.

(** One iteration of the [for (i = 0; i < 1024; i++)] loop of cleanup. *)
Definition cleanup_bucket (kv : Z) (i : nat) (m : kvmem) : res kvmem :=
  let! m := spin_lock kv i m in
  let! b := get_head kv i m in
  let! m := free_bucket kv i b m in
  spin_unlock kv i m.

Fixpoint cleanup_buckets (kv : Z) (idx : list nat) (m : kvmem) : res kvmem :=
  match idx with
  | [] => Ok m
  | i :: idx' => let! m := cleanup_bucket kv i m in cleanup_buckets kv idx' m
  end.

Definition cleanup_task_kv_store (task : T) (m : kvmem) : res kvmem :=
  if negb (t_tgid task =? t_pid task) then Ok m
  else cleanup_buckets (t_kv task) (seq 0 NBUCKETS) m.

(** The initialisation loop, on the uninitialised object [kmalloc] returned. *)
Fixpoint init_buckets (idx : list nat) (s : kv_store) : kv_store :=
  match idx with
  | [] => s
  | i :: idx' => init_buckets idx' (set_head (set_lock s i false) i [])
  end.

(** [garbage] is the content of the fresh object before the loop. *)
Definition init_task_kv_store (garbage : kv_store) (task : T) (m : kvmem) : Z * T * kvmem :=
  match kmalloc (used m) with
  | None => (-1, set_kv 0 task, m)
  | Some l => (0, set_kv l task, with_store m l (init_buckets (seq 0 NBUCKETS) garbage))
  end.

End Syscalls.

(** ** The abstract map and the representation invariant *)

Definition bucket_pairs (ns : gmap Z kv_node) (b : list Z) : list (Z * Z) :=
  omap (fun l => (fun n => (key n, value n)) <$> ns !! l) b.

Definition store_map (ns : gmap Z kv_node) (s : kv_store) : gmap Z Z :=
  list_to_map (concat (bucket_pairs ns <$> head s)).

(** The finite map the store at address [kv] represents. *)
Definition kv_abs (m : kvmem) (kv : Z) : gmap Z Z :=
  match stores m !! kv with
  | Some s => store_map (nodes m) s
  | None => ∅
  end.

(** A bucket holds live nodes of its hash, each key once. *)
Record bucket_wf (ns : gmap Z kv_node) (i : nat) (b : list Z) : Prop := {
  bw_nodup : NoDup b;
  bw_live : forall l, l ∈ b -> exists n, ns !! l = Some n /\ kv_hash (key n) = i /\
                              in_s 32 (key n) /\ in_s 32 (value n);
  bw_inj : forall l l' n n', l ∈ b -> l' ∈ b -> ns !! l = Some n -> ns !! l' = Some n' ->
                             key n = key n' -> l = l';
}.

Record store_wf (ns : gmap Z kv_node) (s : kv_store) : Prop := {
  sw_locks : length (locks s) = NBUCKETS;
  sw_head : length (head s) = NBUCKETS;
  sw_buckets : forall i b, head s !! i = Some b -> bucket_wf ns i b;
}.

Definition unlocked (s : kv_store) : Prop :=
  forall i b, locks s !! i = Some b -> b = false.

(** The nodes a store owns. *)
Definition owns (s : kv_store) (l : Z) : Prop :=
  exists i b, head s !! i = Some b /\ l ∈ b.

(** Every store is well formed and idle, and no two stores share a node. *)
Record mem_wf (m : kvmem) : Prop := {
  mw_store : forall kv s, stores m !! kv = Some s -> store_wf (nodes m) s /\ unlocked s;
  mw_sep : forall kv kv' s s' l, stores m !! kv = Some s -> stores m !! kv' = Some s' ->
                                 owns s l -> owns s' l -> kv = kv';
}.

(** ** Basic facts *)

Lemma kv_hash_mod k : kv_hash k = Z.to_nat (k mod 1024).
Proof. unfold kv_hash. change 1023 with (2 ^ 10 - 1). by rewrite land_low_mod. Qed.

Lemma kv_hash_lt k : (kv_hash k < NBUCKETS)%nat.
Proof.
  rewrite kv_hash_mod. pose proof (Z.mod_pos_bound k 1024).
  change NBUCKETS with (Z.to_nat 1024). lia.
Qed.

#[global] Opaque NBUCKETS.

Lemma elem_of_bucket_pairs ns b k v :
  (k, v) ∈ bucket_pairs ns b <-> exists l, l ∈ b /\ ns !! l = Some (KvNode k v).
Proof.
  unfold bucket_pairs. rewrite list_elem_of_omap. split.
  - intros (l & Hl & E). exists l. destruct (ns !! l) as [[k' v']|]; naive_solver.
  - intros (l & Hl & E). exists l. by rewrite E.
Qed.

Lemma bucket_keys_nodup ns i b : bucket_wf ns i b -> NoDup (bucket_pairs ns b).*1.
Proof.
  intros [Hnd _ Hinj]. induction b as [|l b IH]; [constructor|].
  apply NoDup_cons in Hnd as [Hl Hnd].
  assert (IH' : NoDup (bucket_pairs ns b).*1).
  { apply IH; [done|]. intros. eapply Hinj; eauto; by right. }
  unfold bucket_pairs in *. simpl. destruct (ns !! l) as [n|] eqn:En; simpl; [|done].
  constructor; [|done]. rewrite list_elem_of_fmap. intros ([k v] & E & Hin). simpl in E.
  apply elem_of_bucket_pairs in Hin as (l' & Hl' & En').
  assert (l = l'); [|congruence].
  eapply (Hinj l l' n); eauto; [by left|by right].
Qed.

Lemma lookup_bucket ns i b k v : bucket_wf ns i b ->
  (list_to_map (bucket_pairs ns b) : gmap Z Z) !! k = Some v <->
  exists l, l ∈ b /\ ns !! l = Some (KvNode k v).
Proof.
  intros Hb. rewrite <- elem_of_bucket_pairs. split; intros E.
  - by apply elem_of_list_to_map_2.
  - apply elem_of_list_to_map_1; [by eapply bucket_keys_nodup|done].
Qed.

(** Only the bucket a key hashes to matters in the concatenation. *)
Lemma lookup_concat_buckets ns k (bs : list (list Z)) i b :
  bs !! i = Some b ->
  (forall j b', bs !! j = Some b' -> j <> i ->
     (list_to_map (bucket_pairs ns b') : gmap Z Z) !! k = None) ->
  (list_to_map (concat (bucket_pairs ns <$> bs)) : gmap Z Z) !! k =
  (list_to_map (bucket_pairs ns b) : gmap Z Z) !! k.
Proof.
  revert i. induction bs as [|c bs IH]; intros i Hi Hother; [done|]. simpl.
  rewrite list_to_map_app. destruct i as [|i]; simpl in Hi.
  - simplify_eq. apply lookup_union_l. clear IH.
    assert (Ht : forall j b', bs !! j = Some b' ->
        (list_to_map (bucket_pairs ns b') : gmap Z Z) !! k = None).
    { intros j b' Hj. apply (Hother (S j)); [done|lia]. }
    clear Hother. induction bs as [|d bs IH]; [done|]. simpl.
    rewrite list_to_map_app, lookup_union_r; [|by apply (Ht 0%nat)].
    apply IH. intros j b' Hj. by apply (Ht (S j)).
  - rewrite lookup_union_r by (by apply (Hother 0%nat c)).
    apply (IH i); [done|]. intros j b' Hj Hne. apply (Hother (S j)); [done|lia].
Qed.

(** The map of a well-formed store, entry by entry. *)
Lemma store_map_spec ns s k v : store_wf ns s ->
  store_map ns s !! k = Some v <->
  exists b l, head s !! kv_hash k = Some b /\ l ∈ b /\ ns !! l = Some (KvNode k v).
Proof.
  intros [_ Hlen Hb]. unfold store_map.
  destruct (lookup_lt_is_Some_2 (head s) (kv_hash k)) as [b Eb].
  { rewrite Hlen. apply kv_hash_lt. }
  rewrite (lookup_concat_buckets ns k (head s) (kv_hash k) b Eb).
  - rewrite lookup_bucket by (by apply Hb). split; [intros (l & ? & ?); by eauto|].
    intros (b' & l & Eb' & ? & ?). rewrite Eb in Eb'. simplify_eq. eauto.
  - intros j b' Ej Hne. apply eq_None_not_Some. intros [v' Ev].
    rewrite lookup_bucket in Ev by (by apply Hb). destruct Ev as (l & Hl & El).
    destruct (bw_live _ _ _ (Hb _ _ Ej) l Hl) as (n & En & Hh & _).
    rewrite El in En. by simplify_eq.
Qed.

(** ** Framing: a store depends only on the nodes it owns *)

Lemma bucket_pairs_frame ns ns' b :
  (forall l, l ∈ b -> ns' !! l = ns !! l) -> bucket_pairs ns' b = bucket_pairs ns b.
Proof.
  intros Heq. unfold bucket_pairs. induction b as [|l b IH]; [done|]. simpl.
  rewrite (Heq l) by left. assert (Heq' : forall l0, l0 ∈ b -> ns' !! l0 = ns !! l0).
  { intros. apply Heq. by right. }
  specialize (IH Heq'). destruct (ns !! l); simpl; [f_equal|]; exact IH.
Qed.

Lemma bucket_wf_frame ns ns' i b :
  (forall l, l ∈ b -> ns' !! l = ns !! l) -> bucket_wf ns i b -> bucket_wf ns' i b.
Proof.
  intros Heq [Hnd Hlive Hinj]. split; [done| |].
  - intros l Hl. rewrite Heq by done. by apply Hlive.
  - intros l l' n n' Hl Hl'. rewrite !Heq by done. by apply Hinj.
Qed.

Lemma store_wf_frame ns ns' s :
  (forall l, owns s l -> ns' !! l = ns !! l) -> store_wf ns s -> store_wf ns' s.
Proof.
  intros Heq [? ? Hb]. split; [done..|]. intros i b Eb.
  apply (bucket_wf_frame ns); [|by apply Hb]. intros l Hl. apply Heq. by exists i, b.
Qed.

Lemma store_map_frame ns ns' s :
  (forall l, owns s l -> ns' !! l = ns !! l) -> store_map ns' s = store_map ns s.
Proof.
  intros Heq. unfold store_map. do 2 f_equal. apply list_fmap_ext. intros i b Eb.
  apply bucket_pairs_frame. intros l Hl. apply Heq. by exists i, b.
Qed.

Lemma owns_live ns s l : store_wf ns s -> owns s l -> is_Some (ns !! l).
Proof. intros [_ _ Hb] (i & b & Eb & Hl). destruct (bw_live _ _ _ (Hb _ _ Eb) l Hl); naive_solver. Qed.

(** Replacing one store and the nodes it owns leaves the others alone. *)
Lemma mem_update m kv s ns' s' :
  mem_wf m -> stores m !! kv = Some s ->
  store_wf ns' s' -> unlocked s' ->
  (forall l, owns s' l -> owns s l \/ nodes m !! l = None) ->
  (forall l n, nodes m !! l = Some n -> ~ owns s l -> ns' !! l = Some n) ->
  mem_wf (KvMem ns' (<[kv := s']> (stores m))) /\
  forall kv', kv' <> kv -> kv_abs (KvMem ns' (<[kv := s']> (stores m))) kv' = kv_abs m kv'.
Proof.
  intros [Hst Hsep] Es Hwf Hun Hown Hkeep.
  assert (Hframe : forall kv2 s2, kv2 <> kv -> stores m !! kv2 = Some s2 ->
            forall l, owns s2 l -> ns' !! l = nodes m !! l).
  { intros kv2 s2 Hne E2 l Hl. destruct (owns_live _ _ _ (proj1 (Hst _ _ E2)) Hl) as [n En].
    rewrite En. apply Hkeep; [done|]. intros Hl'. apply Hne. by eapply Hsep. }
  assert (Hfresh : forall kv2 s2 l, kv2 <> kv -> stores m !! kv2 = Some s2 -> owns s2 l -> ~ owns s' l).
  { intros kv2 s2 l Hne E2 Hl Hl'. destruct (Hown _ Hl') as [Ho|Hn].
    - apply Hne. by eapply Hsep.
    - destruct (owns_live _ _ _ (proj1 (Hst _ _ E2)) Hl). congruence. }
  split; [split|].
  - intros kv2 s2. simpl. rewrite lookup_insert. case_decide; [naive_solver|]. intros E2.
    split; [|by eapply Hst]. eapply store_wf_frame; [|by eapply Hst]. by eapply Hframe.
  - intros k1 k2 s1 s2 l. simpl. rewrite !lookup_insert. repeat case_decide; intros; simplify_eq; [done| | |].
    + exfalso. by eapply (Hfresh k2 s2).
    + exfalso. by eapply (Hfresh k1 s1).
    + by eapply Hsep.
  - intros kv' Hne. unfold kv_abs. simpl. rewrite lookup_insert_ne by done.
    destruct (stores m !! kv') as [s2|] eqn:E2; [|done]. apply store_map_frame. by eapply Hframe.
Qed.

(** ** The search loop *)

Lemma find_entry_spec ns i b k : bucket_wf ns i b ->
  (exists l v, find_entry ns k b = Ok (Some l) /\ l ∈ b /\ ns !! l = Some (KvNode k v)) \/
  (find_entry ns k b = Ok None /\ forall l v, l ∈ b -> ns !! l <> Some (KvNode k v)).
Proof.
  intros [_ Hlive _]. induction b as [|l b IH]; [right; set_solver|]. simpl.
  destruct (Hlive l) as ([k' v'] & En & _); [by left|]. rewrite En. simpl.
  destruct (Z.eqb_spec k' k) as [->|Hne].
  - left. exists l, v'. split; [done|]. split; [by left|done].
  - destruct IH as [(l' & v & E & Hl & El)|[E Hno]].
    + intros. apply Hlive. by right.
    + left. exists l', v. split; [done|]. split; [by right|done].
    + right. split; [done|]. intros l' v [->|Hl']%elem_of_cons; [congruence|by apply Hno].
Qed.

(** ** Lock and unlock on an idle store *)

Lemma set_lock_undo s h : locks s !! h = Some false -> set_lock (set_lock s h true) h false = s.
Proof.
  destruct s as [ls hs]. unfold set_lock. simpl. intros E.
  rewrite list_insert_insert_eq, list_insert_id; done.
Qed.

Lemma set_head_lock s h c b : set_lock (set_head s h b) h c = set_head (set_lock s h c) h b.
Proof. done. Qed.

(** What every critical section starts from. *)
Lemma critical_section m kv s h :
  mem_wf m -> stores m !! kv = Some s -> (h < NBUCKETS)%nat ->
  exists b, head s !! h = Some b /\ locks s !! h = Some false /\ bucket_wf (nodes m) h b /\
    spin_lock kv h m = Ok (with_store m kv (set_lock s h true)).
Proof.
  intros [Hst _] Es Hh. destruct (Hst _ _ Es) as [[Hl Hd Hb] Hun].
  destruct (lookup_lt_is_Some_2 (head s) h) as [b Eb]; [lia|].
  destruct (lookup_lt_is_Some_2 (locks s) h) as [c Ec]; [lia|].
  pose proof (Hun _ _ Ec) as ->. exists b. split_and!; [done..|by apply Hb|].
  unfold spin_lock, get_store. rewrite Es. simpl. by rewrite Ec.
Qed.

(** ** Effect of the two heap updates of write_kv on a store *)

Lemma store_wf_set_value ns s l k v0 v :
  ns !! l = Some (KvNode k v0) -> in_s 32 v -> store_wf ns s ->
  store_wf (<[l := KvNode k v]> ns) s.
Proof.
  intros El Hv [? ? Hb]. split; [done..|]. intros i b Eb. destruct (Hb _ _ Eb) as [Hnd Hlive Hinj].
  assert (Hkey : forall l' n, <[l := KvNode k v]> ns !! l' = Some n ->
            exists n0, ns !! l' = Some n0 /\ key n0 = key n).
  { intros l' n. rewrite lookup_insert. case_decide; naive_solver. }
  split; [done| |].
  - intros l' Hl'. destruct (Hlive _ Hl') as (n & En & Hh & Hk & Hval).
    rewrite lookup_insert. case_decide; simplify_eq; eexists; split_and!; eauto.
  - intros l1 l2 n1 n2 H1 H2 E1 E2 Ek.
    destruct (Hkey _ _ E1) as (m1 & F1 & G1). destruct (Hkey _ _ E2) as (m2 & F2 & G2).
    eapply (Hinj l1 l2); eauto; congruence.
Qed.

Lemma store_map_set_value ns s l k v0 v b :
  store_wf ns s -> head s !! kv_hash k = Some b -> l ∈ b ->
  ns !! l = Some (KvNode k v0) -> in_s 32 v ->
  store_map (<[l := KvNode k v]> ns) s = <[k := v]> (store_map ns s).
Proof.
  intros Hwf Eb Hl El Hv. pose proof (store_wf_set_value _ _ _ _ _ _ El Hv Hwf) as Hwf'.
  apply map_eq. intros k'. apply option_eq. intros v'.
  rewrite (store_map_spec _ _ _ _ Hwf'), lookup_insert. case_decide as Hk.
  - subst k'. split; [|intros ?; simplify_eq; exists b, l; by rewrite lookup_insert_eq].
    intros (b' & l' & Eb' & Hl' & El'). rewrite Eb in Eb'. simplify_eq.
    assert (l' = l) as ->; [|rewrite lookup_insert_eq in El'; by simplify_eq].
    rewrite lookup_insert in El'. case_decide; [done|].
    by eapply (bw_inj _ _ _ (sw_buckets _ _ Hwf _ _ Eb)).
  - rewrite (store_map_spec _ _ _ _ Hwf).
    split; intros (b' & l' & Eb' & Hl' & El'); exists b', l'; split_and!; try done;
      revert El'; rewrite lookup_insert; case_decide; naive_solver.
Qed.

Section Insert.
Variables (ns : gmap Z kv_node) (s : kv_store) (e k v : Z) (b : list Z).
Hypothesis Hwf : store_wf ns s.
Hypothesis Eb : head s !! kv_hash k = Some b.
Hypothesis Hfresh : ns !! e = None.
Hypothesis Habsent : forall l w, l ∈ b -> ns !! l <> Some (KvNode k w).
Hypothesis Hk : in_s 32 k.
Hypothesis Hv : in_s 32 v.

Lemma fresh_not_owned i b' : head s !! i = Some b' -> e ∉ b'.
Proof.
  intros E Hin. destruct (owns_live ns s e Hwf) as [n En]; [by exists i, b'|congruence].
Qed.

Lemma fresh_ne i b' l : head s !! i = Some b' -> l ∈ b' -> e <> l.
Proof. intros E Hl Heq. rewrite <- Heq in Hl. by eapply fresh_not_owned. Qed.

Lemma store_wf_insert :
  store_wf (<[e := KvNode k v]> ns) (set_head s (kv_hash k) (hlist_add_head e b)).
Proof.
  destruct Hwf as [Hl Hd Hb]. split; simpl; [done|by rewrite length_insert|]. intros i b'.
  destruct (decide (i = kv_hash k)) as [->|Hi].
  - rewrite list_lookup_insert_eq by (rewrite Hd; apply kv_hash_lt). intros [= <-].
    destruct (Hb _ _ Eb) as [Hnd Hlive Hinj]. pose proof (fresh_not_owned _ _ Eb) as He.
    assert (Hold : forall l, l ∈ b -> <[e := KvNode k v]> ns !! l = ns !! l).
    { intros l Hl'. apply lookup_insert_ne. by eapply fresh_ne. }
    assert (Hkey : forall l n, l ∈ b -> ns !! l = Some n -> key n <> k).
    { intros l [k' w] Hl' En Ek. simpl in Ek. subst k'. by apply (Habsent l w). }
    split; [by constructor| |].
    + intros l [->|Hl']%elem_of_cons; [exists (KvNode k v); by rewrite lookup_insert_eq|].
      rewrite Hold by done. by apply Hlive.
    + intros l l' n n' [->|H1]%elem_of_cons [->|H2]%elem_of_cons; [done|..];
        rewrite ?lookup_insert_eq, ?Hold by done; intros; simplify_eq; simpl in *;
        [by edestruct Hkey|by edestruct Hkey|by eapply Hinj].
  - rewrite list_lookup_insert_ne by done. intros E.
    apply (bucket_wf_frame ns); [|by apply Hb]. intros l Hl'.
    apply lookup_insert_ne. by eapply fresh_ne.
Qed.

Lemma store_map_insert :
  store_map (<[e := KvNode k v]> ns) (set_head s (kv_hash k) (hlist_add_head e b)) =
  <[k := v]> (store_map ns s).
Proof.
  apply map_eq. intros k'. apply option_eq. intros v'.
  rewrite (store_map_spec _ _ _ _ store_wf_insert), lookup_insert. simpl.
  assert (Hh : (kv_hash k < length (head s))%nat) by (rewrite (sw_head _ _ Hwf); apply kv_hash_lt).
  case_decide as Hkk.
  - subst k'. rewrite list_lookup_insert_eq by done. split.
    + intros (b' & l & [= <-] & Hl & El). apply elem_of_cons in Hl as [->|Hl].
      * rewrite lookup_insert_eq in El. by simplify_eq.
      * rewrite lookup_insert_ne in El by (by eapply fresh_ne).
        by edestruct Habsent.
    + intros [= <-]. exists (e :: b), e. rewrite lookup_insert_eq. set_solver.
  - rewrite (store_map_spec _ _ _ _ Hwf). split.
    + intros (b' & l & Eb' & Hl & El).
      rewrite lookup_insert in El. case_decide; [naive_solver|].
      rewrite list_lookup_insert in Eb'. case_decide as Hd; [|by exists b', l].
      destruct Hd as [Hd _]. simplify_eq.
      apply elem_of_cons in Hl as [Hl|Hl]; [congruence|]. exists b, l. by rewrite <- Hd.
    + intros (b' & l & Eb' & Hl & El).
      assert (e <> l) by (by eapply fresh_ne).
      rewrite list_lookup_insert. case_decide as Hd.
      * destruct Hd as [Hd _]. rewrite <- Hd in *. rewrite Eb in Eb'. simplify_eq.
        exists (e :: b'), l. rewrite lookup_insert_ne by done. set_solver.
      * exists b', l. by rewrite lookup_insert_ne.
Qed.

Lemma owns_insert l : owns (set_head s (kv_hash k) (hlist_add_head e b)) l -> owns s l \/ l = e.
Proof.
  intros (i & b' & E & Hl). simpl in E. rewrite list_lookup_insert in E. case_decide.
  - simplify_eq. apply elem_of_cons in Hl as [Hl|Hl]; [by right|]. left. by eexists _, b.
  - left. by exists i, b'.
Qed.

End Insert.

(** ** Closed forms of the system calls on an idle, well-formed memory *)

Lemma used_with_store m kv s s' : stores m !! kv = Some s -> used (with_store m kv s') = used m.
Proof.
  intros E. unfold used, with_store. simpl. rewrite dom_insert_L.
  assert (kv ∈ dom (stores m)) by (apply elem_of_dom; eauto). set_solver.
Qed.

(** Leaving the critical section restores the lock word it entered with. *)
Lemma unlock_after m kv s h ns s' :
  locks s !! h = Some false -> locks s' = <[h := true]> (locks s) ->
  spin_unlock kv h (KvMem ns (<[kv := s']> (stores m))) =
  Ok (KvMem ns (<[kv := KvStore (locks s) (head s')]> (stores m))).
Proof.
  intros El Es'. unfold spin_unlock, get_store. simpl. rewrite lookup_insert_eq. simpl.
  assert (Hlen : (h < length (locks s))%nat) by (by eapply lookup_lt_Some).
  rewrite Es', list_lookup_insert_eq by done. simpl. unfold with_store, set_lock. simpl.
  rewrite Es', list_insert_insert_eq, list_insert_id, insert_insert_eq by done. done.
Qed.

Lemma kvmem_same m kv s : stores m !! kv = Some s -> KvMem (nodes m) (<[kv := s]> (stores m)) = m.
Proof. intros. destruct m. simpl in *. by rewrite insert_id. Qed.

Section Spec.
Context {T : Type} `{TaskKv T}.
Variable kmalloc : gset Z -> option Z.
Lemma read_kv_eq (task : T) k m s :
  mem_wf m -> stores m !! t_kv task = Some s ->
  read_kv task k m = Ok (default (-1) (kv_abs m (t_kv task) !! k), m).
Proof.
  intros Hwf Es. destruct (critical_section m _ s (kv_hash k) Hwf Es (kv_hash_lt k))
    as (b & Eb & El & Hb & Hlock).
  destruct (mw_store _ Hwf _ _ Es) as [Hs _].
  unfold read_kv. rewrite Hlock. simpl. unfold get_head, get_store. simpl.
  rewrite lookup_insert_eq. simpl. rewrite Eb. simpl. unfold kv_abs. rewrite Es.
  pose proof (unlock_after m (t_kv task) s (kv_hash k) (nodes m) (set_lock s (kv_hash k) true) El eq_refl) as Hu.
  destruct (find_entry_spec (nodes m) _ b k Hb) as [(l & v & -> & Hl & En)|[-> Hno]]; simpl.
  - rewrite En. simpl. unfold with_store. rewrite Hu. simpl. repeat f_equal.
    + symmetry. assert (Hv : store_map (nodes m) s !! k = Some v).
      { apply store_map_spec; eauto. } by rewrite Hv.
    + destruct s. by rewrite kvmem_same.
  - unfold with_store. rewrite Hu. simpl. repeat f_equal.
    + symmetry. assert (Hv : store_map (nodes m) s !! k = None).
      { apply eq_None_not_Some. intros [v Hv]. apply store_map_spec in Hv as (b' & l & Eb' & Hl & En); [|done].
        rewrite Eb in Eb'. simplify_eq. by edestruct Hno. } by rewrite Hv.
    + destruct s. by rewrite kvmem_same.
Qed.

(** The memory after write_kv, by what the search and the allocator did. *)
Lemma write_kv_eq (task : T) k v m s :
  mem_wf m -> stores m !! t_kv task = Some s ->
  exists b, head s !! kv_hash k = Some b /\
  ((exists l w, l ∈ b /\ nodes m !! l = Some (KvNode k w) /\
      write_kv kmalloc task k v m =
        Ok (4, KvMem (<[l := KvNode k v]> (nodes m)) (<[t_kv task := s]> (stores m)))) \/
   ((forall l w, l ∈ b -> nodes m !! l <> Some (KvNode k w)) /\
    write_kv kmalloc task k v m =
      match kmalloc (used m) with
      | None => Ok (-1, m)
      | Some e => Ok (4, KvMem (<[e := KvNode k v]> (nodes m))
                     (<[t_kv task := set_head s (kv_hash k) (hlist_add_head e b)]> (stores m)))
      end)).
Proof.
  intros Hwf Es. destruct (critical_section m _ s (kv_hash k) Hwf Es (kv_hash_lt k))
    as (b & Eb & El & Hb & Hlock).
  exists b. split; [done|]. unfold write_kv. rewrite Hlock. simpl. unfold get_head, put_head, get_store. simpl.
  rewrite lookup_insert_eq. simpl. rewrite Eb. simpl.
  destruct (find_entry_spec (nodes m) _ b k Hb) as [(l & w & -> & Hl & En)|[-> Hno]]; simpl.
  - left. exists l, w. split_and!; [done..|]. rewrite En. simpl. unfold with_nodes. simpl.
    rewrite (unlock_after m _ s) by done. by destruct s.
  - right. split; [done|]. rewrite (used_with_store _ _ s) by done.
    destruct (kmalloc (used m)) as [e|]; simpl.
    + rewrite ?lookup_insert_eq. simpl. unfold with_store, with_nodes. simpl. rewrite insert_insert_eq.
      by rewrite (unlock_after m _ s).
    + unfold with_store. rewrite (unlock_after m _ s) by done. simpl.
      destruct s. by rewrite kvmem_same.
Qed.

End Spec.

(** ** Initialisation and cleanup loops *)

Lemma init_buckets_locks idx s i :
  locks (init_buckets idx s) !! i =
    if decide (i ∈ idx) then (fun _ => false) <$> locks s !! i else locks s !! i.
Proof.
  revert s. induction idx as [|j idx IH]; intros s; [by case_decide; [set_solver|]|]. simpl. rewrite IH. simpl.
  rewrite list_lookup_insert_case. repeat case_decide; subst; try set_solver;
    destruct (locks s !! _); done.
Qed.

Lemma init_buckets_head idx s i :
  head (init_buckets idx s) !! i =
    if decide (i ∈ idx) then (fun _ => []) <$> head s !! i else head s !! i.
Proof.
  revert s. induction idx as [|j idx IH]; intros s; [by case_decide; [set_solver|]|]. simpl. rewrite IH. simpl.
  rewrite list_lookup_insert_case. repeat case_decide; subst; try set_solver;
    destruct (head s !! _); done.
Qed.

(** Whatever the fresh object held, the loop leaves 1024 free locks and
    1024 empty buckets. *)
Lemma init_buckets_all s :
  length (locks s) = NBUCKETS -> length (head s) = NBUCKETS ->
  init_buckets (seq 0 NBUCKETS) s = KvStore (replicate NBUCKETS false) (replicate NBUCKETS []).
Proof.
  intros Hl Hd. destruct (init_buckets (seq 0 NBUCKETS) s) as [ls hs] eqn:E.
  assert (ls = locks (init_buckets (seq 0 NBUCKETS) s)) as -> by (by rewrite E).
  assert (hs = head (init_buckets (seq 0 NBUCKETS) s)) as -> by (by rewrite E).
  clear E. f_equal; apply list_eq; intros i; rewrite ?init_buckets_locks, ?init_buckets_head;
    (destruct (decide (i < NBUCKETS)%nat) as [Hi|Hi];
     [rewrite decide_True by (apply elem_of_seq; lia); rewrite lookup_replicate_2 by done
     |rewrite decide_False by (rewrite elem_of_seq; lia); rewrite (lookup_ge_None_2 (replicate _ _)) by (rewrite length_replicate; lia)]).
  - destruct (lookup_lt_is_Some_2 (locks s) i) as [? ->]; [lia|done].
  - apply lookup_ge_None. lia.
  - destruct (lookup_lt_is_Some_2 (head s) i) as [? ->]; [lia|done].
  - apply lookup_ge_None. lia.
Qed.

Lemma concat_pairs_nil ns n : concat (bucket_pairs ns <$> replicate n []) = [].
Proof. by induction n. Qed.

Lemma store_map_empty ns ls n : store_map ns (KvStore ls (replicate n [])) = ∅.
Proof. unfold store_map. simpl. by rewrite concat_pairs_nil. Qed.

Lemma lookup_all_reset {A} (hs : list (list A)) n i : length hs = n ->
  (if decide (i ∈ seq 0 n) then (fun _ => []) <$> hs !! i else hs !! i) = replicate n [] !! i.
Proof.
  intros Hl. destruct (decide (i < n)%nat) as [Hi|Hi].
  - rewrite decide_True by (apply elem_of_seq; lia). rewrite lookup_replicate_2 by done.
    destruct (lookup_lt_is_Some_2 hs i) as [? ->]; [lia|done].
  - rewrite decide_False by (rewrite elem_of_seq; lia).
    rewrite !lookup_ge_None_2; [done|rewrite length_replicate; lia|lia].
Qed.

(** An empty store at a new address keeps the invariant. *)
Lemma mem_wf_add_empty m l :
  mem_wf m -> stores m !! l = None ->
  mem_wf (with_store m l (KvStore (replicate NBUCKETS false) (replicate NBUCKETS []))).
Proof.
  intros [Hst Hsep] Hn.
  assert (Hno : forall x, ~ owns (KvStore (replicate NBUCKETS false) (replicate NBUCKETS [])) x).
  { intros x (i & b & [-> _]%lookup_replicate & Hx). set_solver. }
  split; simpl.
  - intros kv s. rewrite lookup_insert. case_decide; [|apply Hst]. intros [= <-]. split.
    + split; simpl; [by rewrite length_replicate..|].
      intros i b [-> _]%lookup_replicate. split; [constructor|set_solver..].
    + intros i b [-> _]%lookup_replicate. done.
  - intros k1 k2 s1 s2 x. rewrite !lookup_insert.
    repeat case_decide; intros; simplify_eq; try done; try (by edestruct Hno). by eapply Hsep.
Qed.

(** The node heap after [kfree] of each address of [b]. *)
Definition remove_nodes (ns : gmap Z kv_node) (b : list Z) : gmap Z kv_node :=
  foldl (fun ns l => delete l ns) ns b.

Lemma lookup_remove_nodes ns b l :
  remove_nodes ns b !! l = if decide (l ∈ b) then None else ns !! l.
Proof.
  unfold remove_nodes. revert ns. induction b as [|x b IH]; intros ns.
  { rewrite decide_False; [done|set_solver]. }
  cbn [foldl]. rewrite IH, lookup_delete. repeat case_decide; subst; try done; set_solver.
Qed.

Lemma hlist_del_first l b : l ∉ b -> hlist_del l (l :: b) = b.
Proof.
  intros Hl. unfold hlist_del. rewrite filter_cons_False by naive_solver.
  induction b as [|x b IH]; [done|]. rewrite filter_cons_True by set_solver.
  f_equal. apply IH. set_solver.
Qed.

Lemma free_bucket_eq kv i b ns sts s :
  NoDup b -> (forall l, l ∈ b -> is_Some (ns !! l)) ->
  sts !! kv = Some s -> head s !! i = Some b ->
  free_bucket kv i b (KvMem ns sts) =
  Ok (KvMem (remove_nodes ns b) (<[kv := set_head s i []]> sts)).
Proof.
  revert ns sts s. induction b as [|e b IH]; intros ns sts s Hnd Hlive Es Eb.
  - simpl. rewrite insert_id; [done|]. rewrite Es. unfold set_head. rewrite list_insert_id by done. by destruct s.
  - apply NoDup_cons in Hnd as [He Hnd]. simpl. destruct (Hlive e) as [n ->]; [by left|]. simpl.
    unfold get_head, put_head, get_store. simpl. rewrite Es. simpl. rewrite Eb. simpl.
    rewrite hlist_del_first by done. unfold with_store, with_nodes. simpl.
    assert (Hi : (i < length (head s))%nat) by (by eapply lookup_lt_Some).
    rewrite (IH _ _ (set_head s i b)); [|done| |by rewrite lookup_insert_eq|by apply list_lookup_insert_eq].
    + rewrite insert_insert_eq. unfold set_head. simpl. by rewrite list_insert_insert_eq.
    + intros l Hl. rewrite lookup_delete_ne by (intros ->; done). apply Hlive. by right.
Qed.

Lemma cleanup_bucket_eq m kv s i b :
  mem_wf m -> stores m !! kv = Some s -> head s !! i = Some b ->
  cleanup_bucket kv i m =
  Ok (KvMem (remove_nodes (nodes m) b) (<[kv := set_head s i []]> (stores m))).
Proof.
  intros Hwf Es Eb. destruct (mw_store _ Hwf _ _ Es) as [Hs _].
  assert (Hi : (i < NBUCKETS)%nat) by (rewrite <- (sw_head _ _ Hs); by eapply lookup_lt_Some).
  destruct (critical_section m kv s i Hwf Es Hi) as (b' & Eb' & El & Hb & Hlock).
  rewrite Eb in Eb'. simplify_eq. unfold cleanup_bucket. rewrite Hlock. simpl.
  unfold get_head, get_store. simpl. rewrite lookup_insert_eq. simpl. rewrite Eb. simpl.
  unfold with_store. simpl. rewrite (free_bucket_eq _ _ _ _ _ (set_lock s i true)).
  - simpl. rewrite insert_insert_eq. by rewrite (unlock_after m kv s).
  - apply Hb.
  - intros l Hl. destruct (bw_live _ _ _ Hb l Hl) as (n & -> & _). by exists n.
  - by rewrite lookup_insert_eq.
  - done.
Qed.

Lemma store_wf_empty_bucket ns s i b :
  store_wf ns s -> head s !! i = Some b -> store_wf (remove_nodes ns b) (set_head s i []).
Proof.
  intros [Hl Hd Hb] Eb. split; simpl; [done|by rewrite length_insert|]. intros j b'.
  rewrite list_lookup_insert_case. case_decide as Hij.
  - subst j. rewrite Eb. intros [= <-]. split; [constructor|set_solver..].
  - intros Ej. apply (bucket_wf_frame ns); [|by apply Hb]. intros l Hl'.
    rewrite lookup_remove_nodes, decide_False; [done|]. intros Hl2.
    destruct (bw_live _ _ _ (Hb _ _ Eb) l Hl2) as (n & En & Hn & _).
    destruct (bw_live _ _ _ (Hb _ _ Ej) l Hl') as (n' & En' & Hn' & _). naive_solver.
Qed.

Lemma cleanup_bucket_wf m kv s i b :
  mem_wf m -> stores m !! kv = Some s -> head s !! i = Some b ->
  let m' := KvMem (remove_nodes (nodes m) b) (<[kv := set_head s i []]> (stores m)) in
  mem_wf m' /\ forall kv', kv' <> kv -> kv_abs m' kv' = kv_abs m kv'.
Proof.
  intros Hwf Es Eb. destruct (mw_store _ Hwf _ _ Es) as [Hs Hun].
  apply mem_update with (s := s); try done.
  - by apply store_wf_empty_bucket.
  - intros l (j & b' & Ej & Hl). simpl in Ej. rewrite list_lookup_insert_case in Ej.
    case_decide; [subst; rewrite Eb in Ej; simplify_eq; set_solver|]. left. by exists j, b'.
  - intros l n En Hno. rewrite lookup_remove_nodes, decide_False; [done|]. intros Hl.
    apply Hno. by exists i, b.
Qed.

(** The cleanup loop over any set of bucket indices. *)
Lemma cleanup_buckets_spec kv idx m s :
  mem_wf m -> stores m !! kv = Some s -> (forall i, i ∈ idx -> (i < NBUCKETS)%nat) ->
  exists m' s', cleanup_buckets kv idx m = Ok m' /\ mem_wf m' /\
    stores m' = <[kv := s']> (stores m) /\ locks s' = locks s /\
    (forall i, head s' !! i = if decide (i ∈ idx) then (fun _ => []) <$> head s !! i else head s !! i) /\
    (forall l, nodes m' !! l = None <-> nodes m !! l = None \/ exists i b, i ∈ idx /\ head s !! i = Some b /\ l ∈ b) /\
    (forall l n, nodes m' !! l = Some n -> nodes m !! l = Some n) /\
    (forall kv', kv' <> kv -> kv_abs m' kv' = kv_abs m kv').
Proof.
  revert m s. induction idx as [|i idx IH]; intros m s Hwf Es Hidx.
  - exists m, s. split_and!; try done.
    + by rewrite insert_id.
    + intros l. split; [by left|]. intros [?|(i & b & Hi & _)]; [done|set_solver].
  - destruct (mw_store _ Hwf _ _ Es) as [Hs _].
    destruct (lookup_lt_is_Some_2 (head s) i) as [b Eb]; [rewrite (sw_head _ _ Hs); apply Hidx; by left|].
    cbn [cleanup_buckets]. rewrite (cleanup_bucket_eq m kv s i b) by done. cbn [res_bind].
    destruct (cleanup_bucket_wf m kv s i b) as [Hwf1 Hoth1]; [done..|].
    destruct (IH _ (set_head s i []) Hwf1) as (m' & s' & E' & Hwf' & Est & Hlk & Hhd & Hnone & Hsome & Hoth).
    { simpl. by rewrite lookup_insert_eq. }
    { intros. apply Hidx. by right. }
    exists m', s'. simpl in *. split_and!; try done.
    + by rewrite Est, insert_insert_eq.
    + intros j. rewrite Hhd, list_lookup_insert_case. clear -Eb.
      repeat case_decide; subst; try (by destruct (head s !! _));
        exfalso; rewrite elem_of_cons in *; intuition congruence.
    + intros l. rewrite Hnone, lookup_remove_nodes. clear Hnone. split.
      * intros [Hl|(j & b' & Hj & Ej & Hl)].
        { case_decide; [right; exists i, b; split_and!; [by left|done..]|by left]. }
        rewrite list_lookup_insert_case in Ej. case_decide.
        { subst j. rewrite Eb in Ej. simplify_eq/=. by apply not_elem_of_nil in Hl. }
        right. exists j, b'. split_and!; [by right|done..].
      * intros [Hl|(j & b' & Hj & Ej & Hl)]; [left; by case_decide|].
        destruct (decide (j = i)) as [->|Hne]; [left; rewrite Eb in Ej; simplify_eq; by rewrite decide_True|].
        right. exists j, b'. rewrite list_lookup_insert_ne by done.
        apply elem_of_cons in Hj as [?|?]; [congruence|done].
    + intros l n Hl%Hsome. rewrite lookup_remove_nodes in Hl. by case_decide.
    + intros. rewrite Hoth, Hoth1 by done. done.
Qed.

(** ** The system calls implement a finite map *)

Section Theorems.
Context {T : Type} `{TaskKv T}.
Variable kmalloc : gset Z -> option Z.

(** What write_kv does on every branch; the theorem below is its statement. *)
Lemma write_kv_refines (Hk : kmalloc_fresh kmalloc) (task : T) k v m :
  mem_wf m -> is_Some (stores m !! t_kv task) -> in_s 32 k -> in_s 32 v ->
  exists r m', write_kv kmalloc task k v m = Ok (r, m') /\ mem_wf m' /\
    dom (stores m') = dom (stores m) /\
    (forall kv, kv <> t_kv task -> kv_abs m' kv = kv_abs m kv) /\
    ((r = 4 /\ kv_abs m' (t_kv task) = <[k := v]> (kv_abs m (t_kv task))) \/
     (r = -1 /\ kv_abs m (t_kv task) !! k = None /\ kmalloc (used m) = None /\ m' = m)).
Proof.
  intros Hwf [s Es] Hik Hiv. destruct (mw_store _ Hwf _ _ Es) as [Hs Hun].
  assert (Hdom : forall s' : kv_store, dom (<[t_kv task := s']> (stores m)) = dom (stores m)).
  { intros. apply dom_insert_lookup_L. eauto. }
  destruct (write_kv_eq kmalloc task k v m s Hwf Es) as (b & Eb & [(l & w & Hl & En & ->)|[Hno ->]]).
  - destruct (mem_update m (t_kv task) s (<[l := KvNode k v]> (nodes m)) s) as [Hwf' Hoth]; try done.
    + by eapply store_wf_set_value.
    + eauto.
    + intros l' n En' Hno. rewrite lookup_insert_ne; [done|]. intros ->. apply Hno. by exists (kv_hash k), b.
    + eexists _, _. split_and!; [done..|apply Hdom|done|]. left. split; [done|].
      unfold kv_abs. simpl. rewrite lookup_insert_eq, Es. by eapply store_map_set_value.
  - destruct (kmalloc (used m)) as [e|] eqn:Ee.
    + destruct (Hk _ _ Ee) as [Hfr _].
      assert (Hnone : nodes m !! e = None).
      { apply not_elem_of_dom. unfold used in Hfr. set_solver. }
      destruct (mem_update m (t_kv task) s (<[e := KvNode k v]> (nodes m))
                  (set_head s (kv_hash k) (hlist_add_head e b))) as [Hwf' Hoth]; try done.
      * by apply store_wf_insert.
      * intros l [Ho| ->]%(owns_insert s e k b Eb); [by left|by right].
      * intros l n En _. rewrite lookup_insert_ne; [done|congruence].
      * eexists _, _. split_and!; [done..|apply Hdom|done|]. left. split; [done|].
        unfold kv_abs. simpl. rewrite lookup_insert_eq, Es. by apply store_map_insert.
    + exists (-1), m. split_and!; try done. right. split_and!; try done.
      unfold kv_abs. rewrite Es. apply eq_None_not_Some. intros [w Hw].
      apply store_map_spec in Hw as (b' & l & Eb' & Hl & En); [|done].
      rewrite Eb in Eb'. simplify_eq. by edestruct Hno.
Qed.

(** C1: write_kv is insertion.  On an idle well-formed memory the call
    returns; either it returns sizeof(int) and the map of the caller's store
    has the pair added, or the key is new, the allocator failed, the result is
    -1 and nothing changed.  Every other process's map is untouched and the
    invariant is kept. *)
Theorem write_kv_insert (Hk : kmalloc_fresh kmalloc) (task : T) k v m :
  mem_wf m -> is_Some (stores m !! t_kv task) -> in_s 32 k -> in_s 32 v ->
  exists r m', write_kv kmalloc task k v m = Ok (r, m') /\ mem_wf m' /\
    dom (stores m') = dom (stores m) /\
    (forall kv, kv <> t_kv task -> kv_abs m' kv = kv_abs m kv) /\
    ((r = 4 /\ kv_abs m' (t_kv task) = <[k := v]> (kv_abs m (t_kv task))) \/
     (r = -1 /\ kv_abs m (t_kv task) !! k = None /\ kmalloc (used m) = None /\ m' = m)).
Proof. by apply write_kv_refines. Qed.

(** C10: read_kv is lookup: it returns the value bound to the key, -1 for an
    unbound key, and leaves memory (the lock words included) as it was. *)
Theorem read_kv_lookup (task : T) k m :
  mem_wf m -> is_Some (stores m !! t_kv task) ->
  read_kv task k m = Ok (default (-1) (kv_abs m (t_kv task) !! k), m).
Proof. intros Hwf [s Es]. by eapply read_kv_eq. Qed.

(** Init_task_kv_store gives a new process an empty store of its own.
    If the allocator fails the result is -1, task->kv is NULL and memory is
    unchanged; otherwise task->kv is a new object whose 1024 locks are free
    and whose map is empty, whatever the object held before, and no existing
    store changes. *)
Theorem init_task_kv_store_fresh (Hk : kmalloc_fresh kmalloc) (garbage : kv_store) (task : T) m :
  mem_wf m -> length (locks garbage) = NBUCKETS -> length (head garbage) = NBUCKETS ->
  let '(r, task', m') := init_task_kv_store kmalloc garbage task m in
  mem_wf m' /\ t_pid task' = t_pid task /\ t_tgid task' = t_tgid task /\
  (forall kv, is_Some (stores m !! kv) -> stores m' !! kv = stores m !! kv) /\
  ((r = -1 /\ t_kv task' = 0 /\ m' = m) \/
   (r = 0 /\ t_kv task' <> 0 /\ stores m !! t_kv task' = None /\
    stores m' !! t_kv task' = Some (KvStore (replicate NBUCKETS false) (replicate NBUCKETS [])) /\
    kv_abs m' (t_kv task') = ∅ /\ nodes m' = nodes m)).
Proof.
  intros Hwf Hl Hd. unfold init_task_kv_store. destruct (kmalloc (used m)) as [l|] eqn:El.
  - destruct (Hk _ _ El) as [Hfr Hnz]. rewrite init_buckets_all by done.
    assert (Hn : stores m !! l = None) by (apply not_elem_of_dom; unfold used in Hfr; set_solver).
    rewrite t_kv_set, t_pid_set, t_tgid_set. split_and!; try done.
    + by apply mem_wf_add_empty.
    + intros kv [s Es]. simpl. rewrite lookup_insert_ne; [done|congruence].
    + right. simpl. rewrite lookup_insert_eq. split_and!; try done.
      unfold kv_abs. simpl. rewrite lookup_insert_eq. apply store_map_empty.
  - rewrite t_kv_set, t_pid_set, t_tgid_set. split_and!; try done. by left.
Qed.

(** Cleanup_task_kv_store frees the entries of the exiting process and
    nothing else.  For a thread-group leader it returns with every bucket
    empty and unlocked; exactly the nodes the store owned are freed; other
    stores keep their maps.  The kv_store object itself stays allocated.  For
    any other thread it does nothing. *)
Theorem cleanup_task_kv_store_frees (task : T) m s :
  mem_wf m -> stores m !! t_kv task = Some s ->
  exists m', cleanup_task_kv_store task m = Ok m' /\ mem_wf m' /\
    (t_tgid task <> t_pid task -> m' = m) /\
    (t_tgid task = t_pid task ->
       stores m' = <[t_kv task := KvStore (locks s) (replicate NBUCKETS [])]> (stores m) /\
       kv_abs m' (t_kv task) = ∅ /\
       (forall l, nodes m' !! l = None <-> nodes m !! l = None \/ owns s l) /\
       (forall l n, nodes m' !! l = Some n -> nodes m !! l = Some n)) /\
    (forall kv, kv <> t_kv task -> kv_abs m' kv = kv_abs m kv).
Proof.
  intros Hwf Es. unfold cleanup_task_kv_store. destruct (Z.eqb_spec (t_tgid task) (t_pid task)) as [Ht|Ht]; simpl.
  2: { exists m. split_and!; try done. }
  destruct (mw_store _ Hwf _ _ Es) as [Hs _].
  destruct (cleanup_buckets_spec (t_kv task) (seq 0 NBUCKETS) m s Hwf Es)
    as (m' & s' & E & Hwf' & Est & Hlk & Hhd & Hnone & Hsome & Hoth).
  { intros i. rewrite elem_of_seq. lia. }
  assert (Es' : s' = KvStore (locks s) (replicate NBUCKETS [])).
  { destruct s' as [ls hs]. simpl in *. subst ls. f_equal. apply list_eq. intros i. rewrite Hhd.
    by apply lookup_all_reset, (sw_head _ _ Hs). }
  exists m'. split_and!; try done. intros _. subst s'. split_and!; try done.
  - unfold kv_abs. rewrite Est, lookup_insert_eq. apply store_map_empty.
  - intros l. rewrite Hnone. unfold owns. split; (intros [?|(i & b & ? & ?)]; [by left|right]).
    + naive_solver.
    + exists i, b. split; [|done]. apply elem_of_seq.
      assert (i < length (head s))%nat by naive_solver (eauto using lookup_lt_Some).
      rewrite (sw_head _ _ Hs) in *. lia.
Qed.

End Theorems.

(** The bucket index is the mathematical residue of the key, always a
    valid array index, and it agrees with the [k % 1024] of the comment
    exactly for non-negative keys and multiples of 1024. *)
Theorem kv_hash_residue k :
  (kv_hash k < NBUCKETS)%nat /\ Z.of_nat (kv_hash k) = k mod 1024 /\
  (Z.of_nat (kv_hash k) = Z.rem k 1024 <-> 0 <= k \/ Z.rem k 1024 = 0).
Proof.
  split; [apply kv_hash_lt|]. rewrite kv_hash_mod. pose proof (Z.mod_pos_bound k 1024).
  rewrite Z2Nat.id by lia. split; [done|].
  destruct (Z.le_gt_cases 0 k) as [Hk|Hk].
  - rewrite Z.rem_mod_nonneg by lia. split; [by left|done].
  - pose proof (Z.rem_nonpos k 1024). rewrite <- (Z.opp_involutive k) in *.
    rewrite Z.rem_opp_l', Z.rem_mod_nonneg in * by lia. split; intros; zmod_lia.
Qed.

(** ** Concrete instances *)

(** An allocator that hands out the first free address of a small slab. *)
Definition slab_alloc (live : gset Z) : option Z :=
  hd_error (filter (fun l => ~ (l ∈ live)) (seqZ 4096 8)).

Lemma slab_alloc_fresh : kmalloc_fresh slab_alloc.
Proof.
  intros live l. unfold slab_alloc. destruct (filter _ _) as [|x xs] eqn:E; [done|].
  intros [= ->]. assert (Hl : l ∈ l :: xs) by left. rewrite <- E in Hl.
  apply list_elem_of_filter in Hl as [Hl Hr]. apply elem_of_seqZ in Hr. split; [done|lia].
Qed.

Definition empty_store : kv_store := KvStore (replicate NBUCKETS false) (replicate NBUCKETS []).

(** A memory with one process whose store is at address 100. *)
Definition one_store : kvmem := KvMem ∅ {[ 100 := empty_store ]}.

Definition task100 : kv_task := KvTask 1 1 100.

Lemma one_store_wf : mem_wf one_store.
Proof. apply (mem_wf_add_empty (KvMem ∅ ∅) 100); [|done]. split; simpl; intros; simplify_map_eq. Qed.

Lemma write_kv_insert_witness :
  exists r m', write_kv slab_alloc task100 (-5) 42 one_store = Ok (r, m') /\
    kv_abs m' 100 = {[ -5 := 42 ]}.
Proof.
  destruct (write_kv_insert slab_alloc slab_alloc_fresh task100 (-5) 42 one_store)
    as (r & m' & E & _ & _ & _ & [[_ Ha]|(_ & _ & Hn & _)]).
  - apply one_store_wf.
  - by eexists.
  - split; vm_compute; congruence.
  - split; vm_compute; congruence.
  - exists r, m'. split; [exact E|]. change (t_kv task100) with 100 in Ha. rewrite Ha.
    unfold kv_abs, one_store. simpl. rewrite lookup_singleton_eq. unfold empty_store.
    by rewrite store_map_empty.
  - vm_compute in Hn. discriminate Hn.
Defined.

Lemma read_kv_lookup_witness : read_kv task100 999 one_store = Ok (-1, one_store).
Proof.
  rewrite (read_kv_lookup task100 999 one_store one_store_wf); [|by eexists].
  vm_compute. reflexivity.
Defined.

Lemma init_task_kv_store_fresh_witness :
  mem_wf (init_task_kv_store slab_alloc
            (KvStore (replicate NBUCKETS true) (replicate NBUCKETS [7])) task100 one_store).2.
Proof.
  pose proof (init_task_kv_store_fresh slab_alloc slab_alloc_fresh
    (KvStore (replicate NBUCKETS true) (replicate NBUCKETS [7])) task100 one_store one_store_wf) as Hi.
  specialize (Hi (length_replicate _ _) (length_replicate _ _)).
  destruct (init_task_kv_store _ _ _ _) as [[r t] m']. apply Hi.
Defined.

Lemma cleanup_task_kv_store_frees_witness :
  exists m', cleanup_task_kv_store task100 one_store = Ok m' /\ is_Some (stores m' !! 100).
Proof.
  destruct (cleanup_task_kv_store_frees task100 one_store empty_store one_store_wf)
    as (m' & E & _ & _ & Hl & _); [done|].
  exists m'. split; [exact E|]. destruct (Hl eq_refl) as (-> & _).
  eexists. apply lookup_insert_eq.
Defined.
