(* ===== verification/KVConc.v ===== *)
(** * Threads of one process on the shared store (kernel/kv_store.c)

    Threads of a thread group share one [kv_store] (kernel/fork.c gives
    CLONE_THREAD children the parent's pointer).  Here the two system calls
    are cut at every access to shared memory and interleaved freely: a thread
    is a program counter inside kv_store.c, and a step of the machine is one
    access by one thread.  The theorems: the machine never touches a dead or
    foreign node, and its histories are those of an atomic map
    (linearizability, by forward simulation to [astep]). *)

From S2P Require Import Prelude KVStore.

Inductive kv_call :=
| CWrite (k v : Z)
| CRead (k : Z).

Definition call_key (c : kv_call) : Z :=
  match c with CWrite k _ => k | CRead k => k end.

(** Where a thread is inside write_kv or read_kv. *)
Inductive pc :=
| Idle
| PLock (c : kv_call)                    (** before spin_lock *)
| PHead (c : kv_call)                    (** lock held, before head->first *)
| PScan (c : kv_call) (cur : option Z)   (** loop cursor, None is NULL *)
| PFound (c : kv_call) (l : Z)           (** entry->key == k *)
| PAlloc (k v : Z)                       (** before kmalloc *)
| PInit (k v e : Z)                      (** entry allocated, fields not set *)
| PLink (k v e : Z)                      (** before hlist_add_head *)
| PUnlock (k ret : Z)                    (** before spin_unlock *)
| PRet (ret : Z).                        (** before return *)

(** Shared memory and the threads.  [c_locks] maps a held lock to its holder. *)
Record cstate := CState {
  c_nodes : gmap Z kv_node;
  c_head : list (list Z);
  c_locks : gmap nat Z;
  c_pcs : gmap Z pc;
}.

Definition pc_of (c : cstate) (t : Z) : pc := default Idle (c_pcs c !! t).

Definition set_pc (c : cstate) (t : Z) (p : pc) : cstate :=
  CState (c_nodes c) (c_head c) (c_locks c) (<[t := p]> (c_pcs c)).

Definition set_cnodes (c : cstate) (ns : gmap Z kv_node) : cstate :=
  CState ns (c_head c) (c_locks c) (c_pcs c).

Definition set_chead (c : cstate) (hs : list (list Z)) : cstate :=
  CState (c_nodes c) hs (c_locks c) (c_pcs c).

Definition set_clocks (c : cstate) (lk : gmap nat Z) : cstate :=
  CState (c_nodes c) (c_head c) lk (c_pcs c).

(** [entry->node.next] *)
Fixpoint next_of (l : Z) (b : list Z) : option Z :=
  match b with
  | [] => None
  | x :: b' => if decide (x = l) then hd_error b' else next_of l b'
  end.

Inductive label :=
| Inv (t : Z) (c : kv_call)
| Ret (t : Z) (r : Z).

Definition args_ok (c : kv_call) : Prop :=
  match c with CWrite k v => in_s 32 k /\ in_s 32 v | CRead k => in_s 32 k end.

(** Where the loop ends without a match. *)
Definition scan_end (c : kv_call) : pc :=
  match c with
  | CWrite k v => PAlloc k v
  | CRead k => PUnlock k (-1)
  end.

Inductive cstep (t : Z) (c : cstate) : option label -> cstate -> Prop :=
| cs_invoke call :
    pc_of c t = Idle -> args_ok call ->
    cstep t c (Some (Inv t call)) (set_pc c t (PLock call))
| cs_lock call :
    pc_of c t = PLock call -> c_locks c !! kv_hash (call_key call) = None ->
    cstep t c None (set_pc (set_clocks c (<[kv_hash (call_key call) := t]> (c_locks c))) t (PHead call))
| cs_head call b :
    pc_of c t = PHead call -> c_head c !! kv_hash (call_key call) = Some b ->
    cstep t c None (set_pc c t (PScan call (hd_error b)))
| cs_match call l n :
    pc_of c t = PScan call (Some l) -> c_nodes c !! l = Some n -> key n = call_key call ->
    cstep t c None (set_pc c t (PFound call l))
| cs_next call l n b :
    pc_of c t = PScan call (Some l) -> c_nodes c !! l = Some n -> key n <> call_key call ->
    c_head c !! kv_hash (call_key call) = Some b ->
    cstep t c None (set_pc c t (PScan call (next_of l b)))
| cs_end call :
    pc_of c t = PScan call None ->
    cstep t c None (set_pc c t (scan_end call))
| cs_update k v l n :
    pc_of c t = PFound (CWrite k v) l -> c_nodes c !! l = Some n ->
    cstep t c None (set_pc (set_cnodes c (<[l := KvNode (key n) v]> (c_nodes c))) t (PUnlock k 4))
| cs_read k l n :
    pc_of c t = PFound (CRead k) l -> c_nodes c !! l = Some n ->
    cstep t c None (set_pc c t (PUnlock k (value n)))
| cs_alloc_fail k v :
    pc_of c t = PAlloc k v ->
    cstep t c None (set_pc c t (PUnlock k (-1)))
| cs_alloc k v e junk :
    pc_of c t = PAlloc k v -> c_nodes c !! e = None ->
    cstep t c None (set_pc (set_cnodes c (<[e := junk]> (c_nodes c))) t (PInit k v e))
| cs_init k v e :
    pc_of c t = PInit k v e -> is_Some (c_nodes c !! e) ->
    cstep t c None (set_pc (set_cnodes c (<[e := KvNode k v]> (c_nodes c))) t (PLink k v e))
| cs_link k v e b :
    pc_of c t = PLink k v e -> c_head c !! kv_hash k = Some b ->
    cstep t c None (set_pc (set_chead c (<[kv_hash k := hlist_add_head e b]> (c_head c))) t (PUnlock k 4))
| cs_unlock k r :
    pc_of c t = PUnlock k r ->
    cstep t c None (set_pc (set_clocks c (delete (kv_hash k) (c_locks c))) t (PRet r))
| cs_return r :
    pc_of c t = PRet r ->
    cstep t c (Some (Ret t r)) (set_pc c t Idle).

Definition label_list (o : option label) : list label :=
  match o with Some x => [x] | None => [] end.

(** Executions with their visible history. *)
Inductive cexec (c : cstate) : list label -> cstate -> Prop :=
| ce_nil : cexec c [] c
| ce_step tr c1 t o c2 : cexec c tr c1 -> cstep t c1 o c2 -> cexec c (tr ++ label_list o) c2.

(** A store just made by init_task_kv_store, no thread inside a call. *)
Definition cinit : cstate := CState ∅ (replicate NBUCKETS []) ∅ ∅.

(** ** The atomic object *)

Inductive apc :=
| AIdle
| APend (c : kv_call)
| ADone (r : Z).

Record astate := AState { a_map : gmap Z Z; a_pcs : gmap Z apc }.

Definition apc_of (a : astate) (t : Z) : apc := default AIdle (a_pcs a !! t).

(** What one call does, at a single instant, to the map. *)
Inductive atomic (m : gmap Z Z) : kv_call -> Z -> gmap Z Z -> Prop :=
| at_write k v : atomic m (CWrite k v) 4 (<[k := v]> m)
| at_nomem k v : m !! k = None -> atomic m (CWrite k v) (-1) m
| at_read k : atomic m (CRead k) (default (-1) (m !! k)) m.

Inductive astep (t : Z) (a : astate) : option label -> astate -> Prop :=
| as_invoke call : apc_of a t = AIdle ->
    astep t a (Some (Inv t call)) (AState (a_map a) (<[t := APend call]> (a_pcs a)))
| as_commit call r m : apc_of a t = APend call -> atomic (a_map a) call r m ->
    astep t a None (AState m (<[t := ADone r]> (a_pcs a)))
| as_return r : apc_of a t = ADone r ->
    astep t a (Some (Ret t r)) (AState (a_map a) (<[t := AIdle]> (a_pcs a))).

Inductive aexec (a : astate) : list label -> astate -> Prop :=
| ae_nil : aexec a [] a
| ae_step tr a1 t o a2 : aexec a tr a1 -> astep t a1 o a2 -> aexec a (tr ++ label_list o) a2.

Definition ainit : astate := AState ∅ ∅.

(** ** The invariant *)

(** The bucket whose lock a program counter holds. *)
Definition crit (p : pc) : option nat :=
  match p with
  | Idle | PLock _ | PRet _ => None
  | PHead c | PScan c _ | PFound c _ => Some (kv_hash (call_key c))
  | PAlloc k _ | PInit k _ _ | PLink k _ _ | PUnlock k _ => Some (kv_hash k)
  end.

(** The node a thread has allocated and not yet published. *)
Definition pend (p : pc) : option Z :=
  match p with PInit _ _ e | PLink _ _ e => Some e | _ => None end.

Definition pc_args (p : pc) : Prop :=
  match p with
  | PLock c | PHead c | PScan c _ | PFound c _ => args_ok c
  | PAlloc k v | PInit k v _ | PLink k v _ => in_s 32 k /\ in_s 32 v
  | _ => True
  end.

Definition absent (ns : gmap Z kv_node) (b : list Z) (k : Z) : Prop :=
  forall l w, l ∈ b -> ns !! l <> Some (KvNode k w).

(** What a thread knows at each point of its critical section. *)
Definition local_ok (ns : gmap Z kv_node) (hs : list (list Z)) (p : pc) : Prop :=
  match p with
  | PScan c cur => exists pre post, hs !! kv_hash (call_key c) = Some (pre ++ post) /\
                     cur = hd_error post /\ absent ns pre (call_key c)
  | PFound c l => exists b w, hs !! kv_hash (call_key c) = Some b /\ l ∈ b /\
                     ns !! l = Some (KvNode (call_key c) w)
  | PAlloc k _ => exists b, hs !! kv_hash k = Some b /\ absent ns b k
  | PInit k _ e => (exists b, hs !! kv_hash k = Some b /\ absent ns b k) /\ is_Some (ns !! e)
  | PLink k v e => (exists b, hs !! kv_hash k = Some b /\ absent ns b k) /\ ns !! e = Some (KvNode k v)
  | _ => True
  end.

(** The shared store as an object of [KVStore]. *)
Definition view (c : cstate) : kv_store := KvStore (replicate NBUCKETS false) (c_head c).

Record conc_inv (c : cstate) : Prop := {
  ci_wf : store_wf (c_nodes c) (view c);
  ci_lock : forall t h, crit (pc_of c t) = Some h <-> c_locks c !! h = Some t;
  ci_local : forall t, local_ok (c_nodes c) (c_head c) (pc_of c t);
  ci_args : forall t, pc_args (pc_of c t);
  ci_pend : forall t e, pend (pc_of c t) = Some e -> ~ owns (view c) e;
  ci_excl : forall t t' e, pend (pc_of c t) = Some e -> pend (pc_of c t') = Some e -> t = t';
}.

(** ** Supporting facts *)

Lemma pc_of_set c t p t' : pc_of (set_pc c t p) t' = if decide (t = t') then p else pc_of c t'.
Proof. unfold pc_of. simpl. rewrite lookup_insert. by case_decide. Qed.

Lemma next_of_split l pre post : l ∉ pre -> next_of l (pre ++ l :: post) = hd_error post.
Proof.
  induction pre as [|x pre IH]; intros Hl; simpl; [by rewrite decide_True|].
  rewrite decide_False by set_solver. apply IH. set_solver.
Qed.

(** A thread's knowledge survives a change elsewhere. *)
Lemma local_ok_frame ns ns' hs hs' p h :
  crit p = Some h -> hs' !! h = hs !! h ->
  (forall b l, hs !! h = Some b -> l ∈ b -> ns' !! l = ns !! l) ->
  (forall e, pend p = Some e -> ns' !! e = ns !! e) ->
  local_ok ns hs p -> local_ok ns' hs' p.
Proof.
  intros Hc Hh Hn He.
  assert (Habs : forall b pre k, hs !! h = Some b -> (forall l, l ∈ pre -> l ∈ b) ->
            absent ns pre k -> absent ns' pre k).
  { intros b pre k Eb Hsub Ha l w Hl. rewrite (Hn b) by eauto. by apply Ha. }
  destruct p; simpl in *; simplify_eq; try done.
  - intros (pre & post & E & Ecur & Ha). exists pre, post. rewrite Hh. split_and!; try done.
    eapply Habs; eauto. set_solver.
  - intros (b & w & E & Hl & Ew). exists b, w. rewrite Hh, (Hn b) by done. done.
  - intros (b & E & Ha). exists b. rewrite Hh. eauto.
  - intros [(b & E & Ha) Hs]. rewrite He by done. split; [exists b; rewrite Hh|]; eauto.
  - intros [(b & E & Ha) Hs]. rewrite He by done. split; [exists b; rewrite Hh|]; eauto.
Qed.

Lemma local_ok_outside ns ns' hs hs' p : crit p = None -> local_ok ns hs p -> local_ok ns' hs' p.
Proof. by destruct p. Qed.

Lemma cinit_inv : conc_inv cinit.
Proof.
  split; unfold pc_of, cinit; simpl; try done.
  split; simpl; [by rewrite length_replicate..|].
  intros i b [-> _]%lookup_replicate. split; [constructor|set_solver..].
Qed.

Section Preserve.
Variables (c : cstate) (t : Z).
Hypothesis HI : conc_inv c.

(** Two threads are never in the critical section of the same bucket. *)
Lemma mutual_exclusion t' h :
  crit (pc_of c t) = Some h -> crit (pc_of c t') = Some h -> t' = t.
Proof. rewrite !(ci_lock _ HI). intros -> [=]. done. Qed.

(** A step that only moves the thread and leaves locks and memory alone. *)
Lemma inv_move p :
  crit p = crit (pc_of c t) -> local_ok (c_nodes c) (c_head c) p -> pc_args p ->
  pend p = pend (pc_of c t) -> conc_inv (set_pc c t p).
Proof.
  intros Hc Hl Ha Hp. destruct HI as [Hwf Hlk Hloc Harg Hpd Hex]. split; simpl; try done.
  - intros t' h. rewrite pc_of_set. case_decide as E; [subst t'; rewrite Hc|]; apply Hlk.
  - intros t'. rewrite pc_of_set. case_decide; [done|apply Hloc].
  - intros t'. rewrite pc_of_set. case_decide; [done|apply Harg].
  - intros t' e. rewrite pc_of_set. case_decide as E; [subst t'; rewrite Hp|]; apply Hpd.
  - intros t1 t2 e. rewrite !pc_of_set. repeat case_decide; subst; rewrite ?Hp; try done; by apply Hex.
Qed.

(** A step inside the critical section of bucket [h] that changes nodes of
    that bucket, private nodes, or the bucket list. *)
Lemma inv_write h p ns' hs' :
  crit (pc_of c t) = Some h -> crit p = Some h ->
  store_wf ns' (KvStore (replicate NBUCKETS false) hs') ->
  (forall h', h' <> h -> hs' !! h' = c_head c !! h') ->
  (forall l, (forall b, c_head c !! h = Some b -> l ∉ b) -> pend (pc_of c t) <> Some l ->
     is_Some (c_nodes c !! l) -> ns' !! l = c_nodes c !! l) ->
  (forall b l, hs' !! h = Some b -> l ∈ b ->
     (exists b0, c_head c !! h = Some b0 /\ l ∈ b0) \/ pend (pc_of c t) = Some l) ->
  local_ok ns' hs' p -> pc_args p ->
  (forall e, pend p = Some e -> pend (pc_of c t) = Some e \/ c_nodes c !! e = None) ->
  (forall e, pend p = Some e -> forall b, hs' !! h = Some b -> e ∉ b) ->
  conc_inv (CState ns' hs' (c_locks c) (<[t := p]> (c_pcs c))).
Proof.
  intros Hct Hcp Hwf' Hhs Hns Hown Hlp Hap Hpp Hpf.
  destruct HI as [Hwf Hlk Hloc Harg Hpd Hex].
  assert (Hpc : forall t', pc_of (CState ns' hs' (c_locks c) (<[t := p]> (c_pcs c))) t' =
                           if decide (t = t') then p else pc_of c t').
  { intros t'. apply (pc_of_set (CState ns' hs' (c_locks c) (c_pcs c))). }
  assert (Hlive : forall t' e, pend (pc_of c t') = Some e -> is_Some (c_nodes c !! e)).
  { intros t' e. specialize (Hloc t'). destruct (pc_of c t'); simpl in *; try done; naive_solver. }
  assert (Howned : forall h' b l, c_head c !! h' = Some b -> l ∈ b -> h' <> h ->
             ns' !! l = c_nodes c !! l).
  { intros h' b l Eb Hl Hne.
    destruct (bw_live _ _ _ (sw_buckets _ _ Hwf h' b Eb) l Hl) as (n & En & Hh & _).
    apply Hns; [|intros He; eapply Hpd; [exact He|by exists h', b]|by rewrite En].
    intros b0 E0 Hl0. destruct (bw_live _ _ _ (sw_buckets _ _ Hwf h b0 E0) l Hl0) as (n0 & En0 & Hh0 & _).
    congruence. }
  assert (Hpdfr : forall t' e, t <> t' -> pend (pc_of c t') = Some e -> ns' !! e = c_nodes c !! e).
  { intros t' e Hne He. apply Hns; [|intros He'; apply Hne; by eapply Hex|by eapply Hlive].
    intros b Eb Hl. eapply Hpd; [exact He|by exists h, b]. }
  split; simpl; try done.
  - intros t' h'. rewrite Hpc. case_decide as E; [subst t'; rewrite Hcp, <- Hct|]; apply Hlk.
  - intros t'. rewrite Hpc. case_decide as E; [done|].
    destruct (crit (pc_of c t')) as [h'|] eqn:Ec; [|eapply local_ok_outside; eauto].
    assert (h' <> h).
    { intros ->. apply E. symmetry. by eapply mutual_exclusion. }
    apply (local_ok_frame (c_nodes c) ns' (c_head c) hs' _ h'); [exact Ec|by apply Hhs|by eauto|by eauto|apply Hloc].
  - intros t'. rewrite Hpc. case_decide; [done|apply Harg].
  - intros t' e. rewrite Hpc. case_decide as E.
    + subst t'. intros He (i & b & Eb & Hl). simpl in Eb. destruct (decide (i = h)) as [->|Hne].
      { by eapply Hpf. }
      rewrite Hhs in Eb by done. destruct (Hpp _ He) as [He'|Hn].
      * eapply Hpd; [exact He'|by exists i, b].
      * destruct (bw_live _ _ _ (sw_buckets _ _ Hwf i b Eb) e Hl) as (n & En & _). congruence.
    + intros He (i & b & Eb & Hl). simpl in Eb. destruct (decide (i = h)) as [->|Hne].
      * destruct (Hown _ _ Eb Hl) as [(b0 & E0 & Hl0)|Hp]; [eapply Hpd; [exact He|by exists h, b0]|].
        apply E. by eapply Hex.
      * rewrite Hhs in Eb by done. eapply Hpd; [exact He|by exists i, b].
  - assert (Hx : forall t2 e, t <> t2 -> pend p = Some e -> pend (pc_of c t2) = Some e -> False).
    { intros t2 e Hne He He2. destruct (Hpp _ He) as [He'|Hn]; [apply Hne; by eapply Hex|].
      destruct (Hlive _ _ He2). congruence. }
    intros t1 t2 e. rewrite !Hpc. repeat case_decide; intros; subst; try done; try (exfalso; by eauto).
    by eapply Hex.
Qed.

End Preserve.

(** Taking and releasing a lock. *)
Lemma inv_relock c t p lk :
  conc_inv c ->
  (forall t' h, t' <> t -> lk !! h = Some t' <-> c_locks c !! h = Some t') ->
  (forall h, crit p = Some h <-> lk !! h = Some t) ->
  local_ok (c_nodes c) (c_head c) p -> pc_args p -> pend p = None ->
  pend (pc_of c t) = None ->
  conc_inv (set_pc (set_clocks c lk) t p).
Proof.
  intros [Hwf Hlk Hloc Harg Hpd Hex] Hoth Hme Hl Ha Hp Hp0.
  assert (Hpc : forall t', pc_of (set_pc (set_clocks c lk) t p) t' = if decide (t = t') then p else pc_of c t').
  { intros t'. apply (pc_of_set (set_clocks c lk)). }
  split; try done.
  - intros t' h. rewrite Hpc. simpl. case_decide; [subst; apply Hme|].
    rewrite Hoth by done. apply Hlk.
  - intros t'. rewrite Hpc. case_decide; [done|apply Hloc].
  - intros t'. rewrite Hpc. case_decide; [done|apply Harg].
  - intros t' e. rewrite Hpc. case_decide; [by rewrite Hp|apply Hpd].
  - intros t1 t2 e. rewrite !Hpc. repeat case_decide; subst; rewrite ?Hp; try done. by apply Hex.
Qed.

Lemma absent_snoc ns pre l k n :
  absent ns pre k -> ns !! l = Some n -> key n <> k -> absent ns (pre ++ [l]) k.
Proof.
  intros Ha El Hn l' w [Hl|Hl]%elem_of_app; [by apply Ha|].
  apply list_elem_of_singleton in Hl as ->. rewrite El. intros [= ->]. done.
Qed.

(** Publishing a private node. *)
Lemma link_wf c k v e b :
  store_wf (c_nodes c) (view c) -> c_head c !! kv_hash k = Some b ->
  absent (c_nodes c) b k -> in_s 32 k -> in_s 32 v ->
  ~ owns (view c) e -> c_nodes c !! e = Some (KvNode k v) ->
  let s' := KvStore (replicate NBUCKETS false) (<[kv_hash k := hlist_add_head e b]> (c_head c)) in
  store_wf (c_nodes c) s' /\
  store_map (c_nodes c) s' = <[k := v]> (store_map (c_nodes c) (view c)).
Proof.
  intros Hwf Eb Ha Hk Hv Ho En s'.
  assert (Hfr : forall l, owns (view c) l -> delete e (c_nodes c) !! l = c_nodes c !! l).
  { intros l Hl. apply lookup_delete_ne. intros ->. done. }
  assert (Hwf0 : store_wf (delete e (c_nodes c)) (view c)) by (by eapply store_wf_frame).
  assert (Ha0 : absent (delete e (c_nodes c)) b k).
  { intros l w Hl. rewrite Hfr by (by exists (kv_hash k), b). by apply Ha. }
  assert (Ens : <[e := KvNode k v]> (delete e (c_nodes c)) = c_nodes c).
  { by rewrite insert_delete_eq, insert_id. }
  rewrite <- (store_map_frame _ _ _ Hfr). rewrite <- Ens. split.
  - apply (store_wf_insert _ (view c)); try done. apply lookup_delete_eq.
  - rewrite Ens at 2. apply (store_map_insert _ (view c)); try done. apply lookup_delete_eq.
Qed.

Lemma bucket_nodup c h b : conc_inv c -> c_head c !! h = Some b -> NoDup b.
Proof. intros HI Eb. apply (bw_nodup _ _ _ (sw_buckets _ _ (ci_wf _ HI) h b Eb)). Qed.

(** Storing a node of a bucket, or a private node, changes no other. *)
Lemma inv_store c t h p l n' :
  conc_inv c -> crit (pc_of c t) = Some h -> crit p = Some h ->
  store_wf (<[l := n']> (c_nodes c)) (view c) ->
  ((exists b, c_head c !! h = Some b /\ l ∈ b) \/ pend (pc_of c t) = Some l \/ c_nodes c !! l = None) ->
  local_ok (<[l := n']> (c_nodes c)) (c_head c) p -> pc_args p ->
  (forall e, pend p = Some e -> (pend (pc_of c t) = Some e \/ c_nodes c !! e = None) /\ ~ owns (view c) e) ->
  conc_inv (set_pc (set_cnodes c (<[l := n']> (c_nodes c))) t p).
Proof.
  intros HI Hct Hcp Hwf Hl Hlp Hap Hpp.
  apply (inv_write c t HI h p (<[l := n']> (c_nodes c)) (c_head c)); try done.
  - intros l' Hno Hp [n En]. apply lookup_insert_ne. intros ->.
    destruct Hl as [(b & Eb & Hl)|[Hl|Hl]]; [by eapply Hno|done|congruence].
  - intros b l' Eb Hl'. left. by exists b.
  - intros e He. by destruct (Hpp e He).
  - intros e He b Eb Hl'. destruct (Hpp e He) as [_ Hno]. apply Hno. by exists h, b.
Qed.

Lemma not_owned_fresh c e : conc_inv c -> c_nodes c !! e = None -> ~ owns (view c) e.
Proof. intros HI En Ho. destruct (owns_live _ _ _ (ci_wf _ HI) Ho). congruence. Qed.

Lemma wf_private c e n' :
  conc_inv c -> ~ owns (view c) e -> store_wf (<[e := n']> (c_nodes c)) (view c).
Proof.
  intros HI Ho. eapply store_wf_frame; [|apply (ci_wf _ HI)].
  intros l Hl. apply lookup_insert_ne. intros ->. done.
Qed.

Lemma absent_private c e n' b h k :
  ~ owns (view c) e -> c_head c !! h = Some b -> absent (c_nodes c) b k ->
  absent (<[e := n']> (c_nodes c)) b k.
Proof.
  intros Ho Eb Ha l w Hl. rewrite lookup_insert_ne; [by apply Ha|].
  intros ->. apply Ho. by exists h, b.
Qed.

(** Bring what the stepping thread knows into the context. *)
Ltac at_pc HI t E :=
  let L := fresh "L" in let A := fresh "A" in
  pose proof (ci_local _ HI t) as L; pose proof (ci_args _ HI t) as A;
  rewrite E in L, A; simpl in L, A.

Lemma cstep_inv t c o c' : conc_inv c -> cstep t c o c' -> conc_inv c'.
Proof.
  intros HI Hstep.
  destruct Hstep as [call Hpc Ha|call Hpc Hfree|call b Hpc Eb|call l n Hpc En Ek|call l n b Hpc En Ek Eb
    |call Hpc|k v l n Hpc En|k l n Hpc En|k v Hpc|k v e junk Hpc En|k v e Hpc En|k v e b Hpc Eb|k r Hpc|r Hpc];
    at_pc HI t Hpc.
  - by apply inv_move; rewrite ?Hpc.
  - apply inv_relock; rewrite ?Hpc; try done.
    + intros t' h Hne. rewrite lookup_insert. case_decide; [subst; split; congruence|done].
    + intros h. simpl. rewrite lookup_insert. case_decide; [naive_solver|]. split; [congruence|].
      intros Hh. apply (ci_lock _ HI) in Hh. rewrite Hpc in Hh. done.
  - apply inv_move; rewrite ?Hpc; try done. exists [], b. split_and!; [done..|].
    intros ? ? []%not_elem_of_nil.
  - destruct L as (pre & post & Eb & Ec & _). destruct post as [|x post]; [done|]. simplify_eq/=.
    apply inv_move; rewrite ?Hpc; try done. exists (pre ++ x :: post), (value n).
    split_and!; [done|apply elem_of_app; right; by left|]. rewrite En. by destruct n; simpl in *; subst.
  - destruct L as (pre & post & Eb' & Ec & Ha). destruct post as [|x post]; [done|]. simplify_eq/=.
    apply inv_move; rewrite ?Hpc; try done. exists (pre ++ [x]), post.
    rewrite <- app_assoc. split_and!; [done| |by eapply absent_snoc].
    rewrite next_of_split; [done|]. pose proof (bucket_nodup _ _ _ HI Eb) as Hnd.
    apply NoDup_app in Hnd as (_ & Hd & _). intros Hx. apply (Hd x Hx). by left.
  - destruct L as (pre & post & Eb & Ec & Ha). destruct post; [|done]. rewrite app_nil_r in Eb.
    destruct call; simpl in *; apply inv_move; rewrite ?Hpc; try done. by exists pre.
  - destruct L as (b & w & Eb & Hl & Ew). simpl in *. rewrite En in Ew. simplify_eq. simpl.
    apply (inv_store c t (kv_hash k)); rewrite ?Hpc; try done.
    + eapply store_wf_set_value; [done|apply A|apply HI].
    + left. by exists b.
  - by apply inv_move; rewrite ?Hpc.
  - by apply inv_move; rewrite ?Hpc.
  - destruct L as (b & Eb & Ha). pose proof (not_owned_fresh _ _ HI En) as Ho.
    apply (inv_store c t (kv_hash k)); rewrite ?Hpc; try done.
    + by apply wf_private.
    + by right; right.
    + simpl. rewrite lookup_insert_eq. split; [|by eexists]. exists b. split; [done|]. by eapply absent_private.
    + intros e' [= <-]. split; [by right|done].
  - destruct L as [(b & Eb & Ha) _].
    assert (Ho : ~ owns (view c) e) by (eapply (ci_pend _ HI t); by rewrite Hpc).
    apply (inv_store c t (kv_hash k)); rewrite ?Hpc; try done.
    + by apply wf_private.
    + by right; left.
    + simpl. rewrite lookup_insert_eq. split; [|done]. exists b. split; [done|]. by eapply absent_private.
    + intros e' [= <-]. split; [by left|done].
  - destruct L as [(b' & Eb' & Ha) En]. rewrite Eb in Eb'. simplify_eq.
    assert (Ho : ~ owns (view c) e) by (eapply (ci_pend _ HI t); by rewrite Hpc).
    destruct (link_wf c k v e b') as [Hwf _]; try done; try apply HI; try apply A.
    apply (inv_write c t HI (kv_hash k) (PUnlock k 4) (c_nodes c)
      (<[kv_hash k := hlist_add_head e b']> (c_head c))); rewrite ?Hpc; try done.
    + intros h' Hne. by rewrite list_lookup_insert_ne.
    + intros b0 l E0 Hl. rewrite list_lookup_insert_eq in E0 by (by eapply lookup_lt_Some). simplify_eq.
      apply elem_of_cons in Hl as [->|Hl]; [by right|left; by exists b'].
  - apply inv_relock; rewrite ?Hpc; try done.
    + intros t' h Hne. rewrite lookup_delete. case_decide; [subst|done]. split; [done|].
      intros Hh. exfalso. apply Hne. assert (Hme : c_locks c !! kv_hash k = Some t).
      { apply (ci_lock _ HI). by rewrite Hpc. } congruence.
    + intros h. rewrite lookup_delete. case_decide as Hd; [done|]. simpl. split; [done|].
      intros Hh. apply (ci_lock _ HI) in Hh. rewrite Hpc in Hh. simpl in Hh. congruence.
  - by apply inv_move; rewrite ?Hpc.
Qed.

Lemma cexec_inv c tr c' : conc_inv c -> cexec c tr c' -> conc_inv c'.
Proof. intros HI. induction 1; [done|]. by eapply cstep_inv. Qed.

(** ** Linearizability *)

(** A call has taken effect once its result is decided. *)
Definition abs_pc (p : pc) : apc :=
  match p with
  | Idle => AIdle
  | PLock c | PHead c | PScan c _ | PFound c _ => APend c
  | PAlloc k v | PInit k v _ | PLink k v _ => APend (CWrite k v)
  | PUnlock _ r | PRet r => ADone r
  end.

Definition cmap (c : cstate) : gmap Z Z := store_map (c_nodes c) (view c).

Definition sim (c : cstate) (a : astate) : Prop :=
  a_map a = cmap c /\ forall t, apc_of a t = abs_pc (pc_of c t).

Lemma apc_of_set m ps t p t' :
  apc_of (AState m (<[t := p]> ps)) t' = if decide (t = t') then p else apc_of (AState m ps) t'.
Proof. unfold apc_of. simpl. rewrite lookup_insert. by case_decide. Qed.

(** A step that decides nothing is matched by standing still. *)
Lemma sim_stutter c a t c0 p :
  sim c a -> cmap (set_pc c0 t p) = cmap c -> c_pcs c0 = c_pcs c ->
  abs_pc p = abs_pc (pc_of c t) -> sim (set_pc c0 t p) a.
Proof.
  intros [Hm Hp] Hmap Hpcs Habs. split; [by rewrite Hm|]. intros t'. rewrite Hp, pc_of_set.
  case_decide; [subst; by rewrite Habs|]. unfold pc_of. by rewrite Hpcs.
Qed.

(** A step that moves the thread's abstract state is matched by one step. *)
Lemma sim_move c a t c0 p m :
  sim c a -> cmap (set_pc c0 t p) = m -> c_pcs c0 = c_pcs c ->
  sim (set_pc c0 t p) (AState m (<[t := abs_pc p]> (a_pcs a))).
Proof.
  intros [Hm Hp] Hmap Hpcs. split; [done|]. intros t'. rewrite apc_of_set, pc_of_set.
  case_decide; [done|]. replace (apc_of (AState m (a_pcs a)) t') with (apc_of a t') by done.
  rewrite Hp. unfold pc_of. by rewrite Hpcs.
Qed.

Lemma cmap_found c t call l n :
  conc_inv c -> pc_of c t = PFound call l -> c_nodes c !! l = Some n ->
  key n = call_key call /\ cmap c !! call_key call = Some (value n).
Proof.
  intros HI Hpc En. at_pc HI t Hpc. destruct L as (b & w & Eb & Hl & Ew).
  rewrite En in Ew. simplify_eq. split; [done|]. apply store_map_spec; [apply HI|]. by exists b, l.
Qed.

Lemma cmap_absent c k b :
  conc_inv c -> c_head c !! kv_hash k = Some b -> absent (c_nodes c) b k -> cmap c !! k = None.
Proof.
  intros HI Eb Ha. apply eq_None_not_Some. intros [w Hw].
  apply store_map_spec in Hw as (b' & l & Eb' & Hl & El); [|apply HI].
  simpl in Eb'. rewrite Eb in Eb'. simplify_eq. by eapply Ha.
Qed.

Lemma cmap_private c e n' : ~ owns (view c) e ->
  store_map (<[e := n']> (c_nodes c)) (view c) = cmap c.
Proof. intros Ho. apply store_map_frame. intros l Hl. apply lookup_insert_ne. intros ->. done. Qed.

Lemma cstep_sim t c o c' a :
  conc_inv c -> sim c a -> cstep t c o c' ->
  exists a', (astep t a o a' \/ o = None /\ a' = a) /\ sim c' a'.
Proof.
  intros HI Hs Hstep. pose proof (proj2 Hs t) as Hap.
  assert (Hcommit : forall call r m c0 p, apc_of a t = APend call -> atomic (cmap c) call r m ->
            cmap (set_pc c0 t p) = m -> c_pcs c0 = c_pcs c -> abs_pc p = ADone r ->
            exists a', (astep t a None a' \/ (None : option label) = None /\ a' = a) /\ sim (set_pc c0 t p) a').
  { intros call r m c0 p Hc Hat Hmap Hpcs Habs. exists (AState m (<[t := ADone r]> (a_pcs a))).
    split; [left; eapply as_commit; [done|by rewrite (proj1 Hs)]|]. rewrite <- Habs. by apply (sim_move c). }
  assert (Hstill : forall c0 p, cmap (set_pc c0 t p) = cmap c -> c_pcs c0 = c_pcs c ->
            abs_pc p = abs_pc (pc_of c t) ->
            exists a', (astep t a None a' \/ (None : option label) = None /\ a' = a) /\ sim (set_pc c0 t p) a').
  { intros c0 p Hmap Hpcs Habs. exists a. split; [by right|]. by apply (sim_stutter c). }
  destruct Hstep as [call Hpc Ha|call Hpc Hfree|call b Hpc Eb|call l n Hpc En Ek|call l n b Hpc En Ek Eb
    |call Hpc|k v l n Hpc En|k l n Hpc En|k v Hpc|k v e junk Hpc En|k v e Hpc En|k v e b Hpc Eb|k r Hpc|r Hpc];
    at_pc HI t Hpc; rewrite Hpc in Hap; simpl in Hap.
  - exists (AState (a_map a) (<[t := APend call]> (a_pcs a))). split; [left; by apply as_invoke|].
    apply (sim_move c a t c (PLock call)); [done|symmetry; apply Hs|done].
  - apply Hstill; rewrite ?Hpc; done.
  - apply Hstill; rewrite ?Hpc; done.
  - apply Hstill; rewrite ?Hpc; done.
  - apply Hstill; rewrite ?Hpc; done.
  - destruct call as [k v|k]; simpl; [apply Hstill; rewrite ?Hpc; done|].
    destruct L as (pre & post & Eb & Ec & Ha). destruct post; [|done]. rewrite app_nil_r in Eb.
    eapply (Hcommit (CRead k) (-1)); try done.
    replace (-1) with (default (-1) (cmap c !! k)) at 1; [constructor|].
    by rewrite (cmap_absent c k pre HI Eb Ha).
  - destruct (cmap_found c t _ l n HI Hpc En) as [Ek Hv]. simpl in *.
    destruct L as (b & w & Eb & Hl & Ew). eapply (Hcommit (CWrite k v) 4); [done|constructor| |done..].
    unfold cmap. simpl. rewrite Ek. eapply store_map_set_value; [apply HI|done..|apply A].
  - destruct (cmap_found c t _ l n HI Hpc En) as [Ek Hv]. simpl in *.
    eapply (Hcommit (CRead k) (value n)); try done.
    replace (value n) with (default (-1) (cmap c !! k)); [constructor|by rewrite Hv].
  - destruct L as (b & Eb & Ha). eapply (Hcommit (CWrite k v) (-1)); try done.
    apply at_nomem. exact (cmap_absent c k b HI Eb Ha).
  - apply Hstill; rewrite ?Hpc; try done. unfold cmap at 1. simpl.
    apply (cmap_private c). by apply not_owned_fresh.
  - apply Hstill; rewrite ?Hpc; try done. unfold cmap at 1. simpl.
    apply (cmap_private c). eapply (ci_pend _ HI t). by rewrite Hpc.
  - destruct L as [(b' & Eb' & Ha) En]. rewrite Eb in Eb'. simplify_eq.
    assert (Ho : ~ owns (view c) e) by (eapply (ci_pend _ HI t); by rewrite Hpc).
    eapply (Hcommit (CWrite k v) 4); [done|constructor| |done..].
    destruct A as [Hk Hv]. destruct (link_wf c k v e b' (ci_wf _ HI) Eb Ha Hk Hv Ho En) as [_ Hm].
    exact Hm.
  - apply Hstill; rewrite ?Hpc; done.
  - exists (AState (a_map a) (<[t := AIdle]> (a_pcs a))). split; [left; by apply as_return|].
    apply (sim_move c a t c Idle); [done|symmetry; apply Hs|done].
Qed.

Lemma cinit_sim : sim cinit ainit.
Proof. split; [|done]. unfold cmap, view. simpl. by rewrite store_map_empty. Qed.

(** A thread past its spin_lock always has a next step: every pointer it
    follows is live and every bucket index is in range. *)
Lemma cstep_enabled c t :
  conc_inv c -> pc_of c t <> Idle -> (forall call, pc_of c t <> PLock call) ->
  exists o c', cstep t c o c'.
Proof.
  intros HI Hidle Hlock.
  assert (Hb : forall k, exists b, c_head c !! kv_hash k = Some b).
  { intros k. apply lookup_lt_is_Some_2. change (c_head c) with (head (view c)).
    rewrite (sw_head _ _ (ci_wf _ HI)). apply kv_hash_lt. }
  destruct (pc_of c t) as [|call|call|call cur|call l|k v|k v e|k v e|k r|r] eqn:Hpc; try done;
    at_pc HI t Hpc; try (by edestruct Hlock).
  - destruct (Hb (call_key call)) as [b Eb]. eexists _, _. by eapply cs_head.
  - destruct (Hb (call_key call)) as [b Eb]. destruct cur as [l|]; [|eexists _, _; by eapply cs_end].
    destruct L as (pre & post & Eb' & Ec & _). destruct post as [|x post]; [done|]. simplify_eq/=.
    destruct (bw_live _ _ _ (sw_buckets _ _ (ci_wf _ HI) _ _ Eb') x) as (n & En & _).
    { apply elem_of_app. right. by left. }
    destruct (decide (key n = call_key call)); eexists _, _; [by eapply cs_match|by eapply cs_next].
  - destruct L as (b & w & Eb & Hl & Ew). destruct call; eexists _, _; [by eapply cs_update|by eapply cs_read].
  - eexists _, _. by eapply cs_alloc_fail.
  - destruct L as [_ Hs]. eexists _, _. by eapply cs_init.
  - destruct (Hb k) as [b Eb]. eexists _, _. by eapply cs_link.
  - eexists _, _. by eapply cs_unlock.
  - eexists _, _. by eapply cs_return.
Qed.

(** C2: linearizability.  Every history of invocations and responses the
    threads of a process can produce on a fresh store, whatever the
    interleaving of their memory accesses and whatever the allocator does, is
    a history of an atomic map whose write is insertion (or a refusal that
    changes nothing, for an unbound key) and whose read is lookup; and the map
    it ends in is the one the buckets represent. *)
Theorem kv_linearizable tr c :
  cexec cinit tr c -> exists a, aexec ainit tr a /\ a_map a = cmap c.
Proof.
  intros Hex. assert (Hs : exists a, aexec ainit tr a /\ sim c a).
  { induction Hex as [|tr c1 t o c2 Hex IH Hstep]; [exists ainit; split; [constructor|apply cinit_sim]|].
    destruct IH as (a1 & Ha1 & Hs1).
    destruct (cstep_sim t c1 o c2 a1) as (a2 & [Hst|[-> ->]] & Hs2); try done.
    - eapply cexec_inv; [apply cinit_inv|done].
    - exists a2. split; [by econstructor|done].
    - exists a1. split; [by rewrite app_nil_r|done]. }
  destruct Hs as (a & Ha & [Hm _]). by exists a.
Qed.

(** C11: no fault and no deadlock.  In every reachable state a thread inside a
    call can take its next step (so it never follows a dead pointer or leaves
    the arrays), or it is at spin_lock and the lock is held by another thread
    that is inside the critical section of that bucket and can step. *)
Theorem kv_threads_progress tr c t :
  cexec cinit tr c -> pc_of c t <> Idle ->
  (exists o c', cstep t c o c') \/
  (exists call t' o c', pc_of c t = PLock call /\ t' <> t /\
     crit (pc_of c t') = Some (kv_hash (call_key call)) /\ cstep t' c o c').
Proof.
  intros Hex Hidle. pose proof (cexec_inv _ _ _ cinit_inv Hex) as HI.
  destruct (pc_of c t) as [|call| | | | | | | |] eqn:Hpc; try done;
    try (left; eapply cstep_enabled; rewrite ?Hpc; done).
  destruct (c_locks c !! kv_hash (call_key call)) as [t'|] eqn:El; [right|left].
  - apply (ci_lock _ HI) in El.
    destruct (cstep_enabled c t' HI) as (o & c' & Hst).
    { intros E. rewrite E in El. done. } { intros ? E. rewrite E in El. done. }
    exists call, t', o, c'. split_and!; try done. intros ->. rewrite Hpc in El. done.
  - eexists _, _. by eapply cs_lock.
Qed.

(** Whenever a thread reaches the [kmalloc(..., GFP_KERNEL)] of write_kv
    it holds the bucket's spinlock, and every other thread of the process
    that works on that bucket is waiting for it. *)
Theorem kmalloc_under_spinlock tr c t k v :
  cexec cinit tr c -> pc_of c t = PAlloc k v ->
  c_locks c !! kv_hash k = Some t /\
  forall t', t' <> t -> crit (pc_of c t') <> Some (kv_hash k).
Proof.
  intros Hex Hpc. pose proof (cexec_inv _ _ _ cinit_inv Hex) as HI. split.
  - apply (ci_lock _ HI). by rewrite Hpc.
  - intros t' Hne Hc. apply Hne. apply (mutual_exclusion c t HI t' (kv_hash k)); [by rewrite Hpc|done].
Qed.

(** ** A concrete execution: thread 1 writes (5, 7) while thread 2 waits *)

Definition d1 : cstate := set_pc cinit 1 (PLock (CWrite 5 7)).
Definition d2 : cstate := set_pc d1 2 (PLock (CRead 5)).
Definition d3 : cstate := set_pc (set_clocks d2 (<[kv_hash 5 := 1]> (c_locks d2))) 1 (PHead (CWrite 5 7)).
Definition d4 : cstate := set_pc d3 1 (PScan (CWrite 5 7) None).
Definition d5 : cstate := set_pc d4 1 (PAlloc 5 7).
Definition d6 : cstate := set_pc (set_cnodes d5 (<[64 := KvNode 0 0]> (c_nodes d5))) 1 (PInit 5 7 64).
Definition d7 : cstate := set_pc (set_cnodes d6 (<[64 := KvNode 5 7]> (c_nodes d6))) 1 (PLink 5 7 64).
Definition d8 : cstate :=
  set_pc (set_chead d7 (<[kv_hash 5 := hlist_add_head 64 []]> (c_head d7))) 1 (PUnlock 5 4).
Definition d9 : cstate := set_pc (set_clocks d8 (delete (kv_hash 5) (c_locks d8))) 1 (PRet 4).
Definition d10 : cstate := set_pc d9 1 Idle.

Lemma demo_head : replicate NBUCKETS [] !! kv_hash 5 = Some ([] : list Z).
Proof. apply lookup_replicate_2, kv_hash_lt. Qed.

Lemma demo_to_alloc : cexec cinit [Inv 1 (CWrite 5 7); Inv 2 (CRead 5)] d5.
Proof.
  assert (H1 : cexec cinit [Inv 1 (CWrite 5 7)] d1).
  { apply (ce_step _ [] cinit 1 (Some _)); [constructor|]. by apply cs_invoke. }
  assert (H2 : cexec cinit [Inv 1 (CWrite 5 7); Inv 2 (CRead 5)] d2).
  { apply (ce_step _ _ _ 2 (Some _) _ H1). by apply cs_invoke. }
  assert (H3 : cexec cinit [Inv 1 (CWrite 5 7); Inv 2 (CRead 5)] d3).
  { apply (ce_step _ _ _ 1 None _ H2). by apply (cs_lock _ _ (CWrite 5 7)). }
  assert (H4 : cexec cinit [Inv 1 (CWrite 5 7); Inv 2 (CRead 5)] d4).
  { apply (ce_step _ _ _ 1 None _ H3). apply (cs_head _ _ (CWrite 5 7) []); [done|apply demo_head]. }
  apply (ce_step _ _ _ 1 None _ H4). by apply (cs_end _ _ (CWrite 5 7)).
Qed.

Lemma demo_to_return : cexec cinit [Inv 1 (CWrite 5 7); Inv 2 (CRead 5); Ret 1 4] d10.
Proof.
  assert (H6 : cexec cinit [Inv 1 (CWrite 5 7); Inv 2 (CRead 5)] d6).
  { apply (ce_step _ _ _ 1 None _ demo_to_alloc). by apply cs_alloc. }
  assert (H7 : cexec cinit [Inv 1 (CWrite 5 7); Inv 2 (CRead 5)] d7).
  { apply (ce_step _ _ _ 1 None _ H6). apply cs_init; [done|by eexists]. }
  assert (H8 : cexec cinit [Inv 1 (CWrite 5 7); Inv 2 (CRead 5)] d8).
  { apply (ce_step _ _ _ 1 None _ H7). apply (cs_link _ _ _ 7); [done|apply demo_head]. }
  assert (H9 : cexec cinit [Inv 1 (CWrite 5 7); Inv 2 (CRead 5)] d9).
  { apply (ce_step _ _ _ 1 None _ H8). by apply cs_unlock. }
  apply (ce_step _ _ _ 1 (Some _) _ H9). by apply cs_return.
Qed.

Lemma kv_linearizable_witness :
  exists a, aexec ainit [Inv 1 (CWrite 5 7); Inv 2 (CRead 5); Ret 1 4] a /\ a_map a = cmap d10.
Proof. exact (kv_linearizable _ _ demo_to_return). Defined.

Lemma kv_threads_progress_witness :
  (exists o c', cstep 2 d5 o c') \/
  (exists call t' o c', pc_of d5 2 = PLock call /\ t' <> 2 /\
     crit (pc_of d5 t') = Some (kv_hash (call_key call)) /\ cstep t' d5 o c').
Proof. apply (kv_threads_progress _ _ 2 demo_to_alloc). discriminate. Defined.

Lemma kmalloc_under_spinlock_witness :
  c_locks d5 !! kv_hash 5 = Some 1 /\ forall t', t' <> 1 -> crit (pc_of d5 t') <> Some (kv_hash 5).
Proof. apply (kmalloc_under_spinlock _ _ 1 5 7 demo_to_alloc). reflexivity. Defined.
