(* ===== verification/KVClient.v ===== *)
(** * User-space clients of the key-value system calls

    The wrappers of syscall/kv_syscall/kv_syscalls.h, the Lua binding, and
    the two stress programs that exercise them.  [KvService] is the interface
    the programs are verified against; the kernel of [KVStore] behind the
    wrappers is an instance of it. *)

From S2P Require Import Prelude KVStore.

(** ** The system call boundary *)

(** include/uapi/asm-generic/unistd.h *)
Definition NR_write_kv : Z := 449.
Definition NR_read_kv : Z := 450.

Definition ENOSYS : Z := 38.

(** libc's syscall(): a kernel result in [-4095, -1] is an errno. *)
Definition libc_syscall (r : Z) : Z :=
  if (-4095 <=? r) && (r <? 0) then -1 else r.

Section Wrappers.
Context {T : Type} `{TaskKv T}.
Variable kmalloc : gset Z -> option Z.

(** Entry by number; SYSCALL_DEFINEn casts each register to the declared
    [int]. *)
Definition kernel_entry (task : T) (nr a0 a1 : Z) (m : kvmem) : res (Z * kvmem) :=
  if nr =? NR_write_kv then write_kv kmalloc task (s32 a0) (s32 a1) m
  else if nr =? NR_read_kv then read_kv task (s32 a0) m
  else Ok (- ENOSYS, m).

(** [syscall(nr, a0, a1)] *)
Definition syscall (task : T) (nr a0 a1 : Z) (m : kvmem) : res (Z * kvmem) :=
  let! (r, m') := kernel_entry task nr a0 a1 m in
  Ok (libc_syscall r, m').

(** [static inline int write_kv(int k, int v)] *)
Definition user_write_kv (task : T) (k v : Z) (m : kvmem) : res (Z * kvmem) :=
  let! (r, m') := syscall task NR_write_kv k v m in
  Ok (s32 r, m').

(** [static inline int read_kv(int k)] *)
Definition user_read_kv (task : T) (k : Z) (m : kvmem) : res (Z * kvmem) :=
  let! (r, m') := syscall task NR_read_kv k 0 m in
  Ok (s32 r, m').

(** kv_lua_binding.c: the arguments are lua_Integers narrowed to [int], the
    result is pushed as it is. *)
Definition lua_write_kv (task : T) (arg1 arg2 : Z) (m : kvmem) : res (Z * kvmem) :=
  let key := s32 arg1 in
  let value := s32 arg2 in
  syscall task NR_write_kv key value m.

Definition lua_read_kv (task : T) (arg1 : Z) (m : kvmem) : res (Z * kvmem) :=
  let key := s32 arg1 in
  syscall task NR_read_kv key 0 m.

End Wrappers.

(** ** What a client may assume *)

Class KvService (S : Type) := {
  kv_put : Z -> Z -> S -> res (Z * S);
  kv_get : Z -> S -> res (Z * S);
  kv_ret : Z -> Z;  (** how a value reaches the caller *)
  kv_model : S -> gmap Z Z;
  kv_ok : S -> Prop;
  kv_ret_nonneg : forall v, 0 <= v -> kv_ret v = v;
  kv_ret_missing : kv_ret (-1) = -1;
  kv_put_spec : forall k v s, kv_ok s -> in_s 32 k -> in_s 32 v ->
    exists r s', kv_put k v s = Ok (r, s') /\ kv_ok s' /\
      ((r = 4 /\ kv_model s' = <[k := v]> (kv_model s)) \/
       (r = -1 /\ kv_model s' = kv_model s));
  kv_get_spec : forall k s, kv_ok s -> in_s 32 k ->
    exists s', kv_get k s = Ok (kv_ret (default (-1) (kv_model s !! k)), s') /\
      kv_ok s' /\ kv_model s' = kv_model s;
}.

(** ** syscall/kv_syscall/test1-serial.c *)

Definition MAX_KEY : Z := 2048.

Inductive message :=
| MsgWriteError (k : Z)
| MsgInconsistent (k expected got : Z).

Section Serial.
Context {S : Type} `{KvService S}.

(** The program's memory: the service and [expected_values]. *)
Record serial_state := Serial { svc : S; expected : list Z }.

(** One pass through the loop body of thread_function between
    pthread_mutex_lock and pthread_mutex_unlock; [op] is [rand() % 2]. *)
Definition thread_iteration (k v : Z) (op : bool) (st : serial_state)
  : res (serial_state * list message) :=
  if op then
    let! (r, s') := kv_put k v (svc st) in
    if negb (r =? -1) then Ok (Serial s' (<[Z.to_nat k := v]> (expected st)), [])
    else Ok (Serial s' (expected st), [MsgWriteError k])
  else
    let! (read_value, s') := kv_get k (svc st) in
    let! expected_value := of_option OutOfBounds (expected st !! Z.to_nat k) in
    if negb (read_value =? -1) && negb (read_value =? expected_value)
    then Ok (Serial s' (expected st), [MsgInconsistent k expected_value read_value])
    else Ok (Serial s' (expected st), []).

(** The whole run: the mutex makes the iterations of the 100 threads one
    sequence, in some order. *)
Fixpoint run_iterations (its : list (Z * Z * bool)) (st : serial_state)
  : res (serial_state * list message) :=
  match its with
  | [] => Ok (st, [])
  | (k, v, op) :: its' =>
      let! (st1, out1) := thread_iteration k v op st in
      let! (st2, out2) := run_iterations its' st1 in
      Ok (st2, out1 ++ out2)
  end.

(** main's initialisation of expected_values. *)
Definition serial_init (s : S) : serial_state := Serial s (replicate (Z.to_nat MAX_KEY) (-1)).

End Serial.
Arguments serial_state : clear implicits.

(** Keys come from [rand() % MAX_KEY], values from [rand()]. *)
Definition rand_args (it : Z * Z * bool) : Prop :=
  let '(k, v, _) := it in 0 <= k < MAX_KEY /\ 0 <= v < 2 ^ 31.

(** ** syscall/kv_syscall/test3-kernel-module.c *)

(** [abs] on [int], with the kernel's wrapping negation. *)
Definition int_abs (x : Z) : Z := if x <? 0 then s32 (- x) else x.

(** [k = abs(k) % MAX_KEY], C's truncated remainder. *)
Definition module_key (random : Z) : Z := Z.rem (int_abs random) MAX_KEY.

(** One iteration of kv_test_thread's loop; the keys of even parity are read. *)
Definition module_iteration {S} `{KvService S} (rk rv : Z) (s : S) : res (S * list message) :=
  let k := module_key rk in
  let v := rv in
  let operation := Z.rem k 2 in
  if nonzero operation then
    let! (r, s') := kv_put k v s in
    if r =? -1 then Ok (s', [MsgWriteError k]) else Ok (s', [])
  else
    let! (_, s') := kv_get k s in
    Ok (s', []).

(** [for (i = 0; i < NUM_ITERATIONS && !kthread_should_stop(); i++)]; [stop i]
    is what kthread_should_stop() returns before iteration [i], [rnd i] what
    get_random_bytes delivers in it. *)
Fixpoint kv_test_thread {S} `{KvService S} (n i : nat) (stop : nat -> bool) (rnd : nat -> Z * Z)
  (s : S) : res (S * list message) :=
  match n with
  | O => Ok (s, [])
  | Datatypes.S n' =>
      if stop i then Ok (s, [])
      else
        let! (s1, out1) := module_iteration (fst (rnd i)) (snd (rnd i)) s in
        let! (s2, out2) := kv_test_thread n' (Datatypes.S i) stop rnd s1 in
        Ok (s2, out1 ++ out2)
  end.

(** ** The kernel behind the wrappers is such a service *)

Section Kernel.
Context {T : Type} `{TaskKv T}.
Variable kmalloc : gset Z -> option Z.
Hypothesis Hk : kmalloc_fresh kmalloc.
Variable task : T.

Definition service_ok (m : kvmem) : Prop := mem_wf m /\ is_Some (stores m !! t_kv task).

Lemma service_write k v m :
  service_ok m -> in_s 32 k -> in_s 32 v ->
  exists r m', write_kv kmalloc task k v m = Ok (r, m') /\ service_ok m' /\
    ((r = 4 /\ kv_abs m' (t_kv task) = <[k := v]> (kv_abs m (t_kv task))) \/
     (r = -1 /\ kv_abs m' (t_kv task) = kv_abs m (t_kv task))).
Proof.
  intros [Hwf Hs] Hik Hiv.
  destruct (write_kv_refines kmalloc Hk task k v m Hwf Hs Hik Hiv) as (r & m' & E & Hwf' & Hd & _ & Hr).
  exists r, m'. split_and!; [done|split; [done|]|].
  - apply elem_of_dom. rewrite Hd. by apply elem_of_dom.
  - destruct Hr as [Hr|(-> & _ & _ & ->)]; [by left|by right].
Qed.

Lemma service_values k m v :
  service_ok m -> kv_abs m (t_kv task) !! k = Some v -> in_s 32 v.
Proof.
  intros [Hwf [s Es]]. unfold kv_abs. rewrite Es. destruct (mw_store _ Hwf _ _ Es) as [Hs _].
  intros (b & l & Eb & Hl & En)%store_map_spec; [|done].
  destruct (bw_live _ _ _ (sw_buckets _ _ Hs _ _ Eb) l Hl) as (n & En' & _ & _ & Hv).
  rewrite En in En'. by simplify_eq.
Qed.

Lemma libc_syscall_range r : in_s 32 r -> in_s 32 (libc_syscall r).
Proof. unfold libc_syscall. case_match; [width; lia|done]. Qed.

Lemma user_write_eq k v m r m' :
  in_s 32 k -> in_s 32 v -> write_kv kmalloc task k v m = Ok (r, m') -> r = 4 \/ r = -1 ->
  user_write_kv kmalloc task k v m = Ok (r, m').
Proof.
  intros Hik Hiv E Hr. unfold user_write_kv, syscall, kernel_entry. simpl.
  unfold s32 at 1 2. rewrite !swrap_small, E by done. simpl. by destruct Hr as [-> | ->].
Qed.

Lemma user_read_eq k m :
  service_ok m -> in_s 32 k ->
  user_read_kv kmalloc task k m = Ok (libc_syscall (default (-1) (kv_abs m (t_kv task) !! k)), m).
Proof.
  intros [Hwf [s Es]] Hik. unfold user_read_kv, syscall, kernel_entry. simpl.
  unfold s32 at 1. rewrite swrap_small, (read_kv_eq task k m s) by done. simpl.
  unfold s32. rewrite swrap_small; [done|done|]. apply libc_syscall_range.
  destruct (kv_abs m (t_kv task) !! k) as [v|] eqn:Ev; [|width; simpl; lia].
  eapply service_values; [|exact Ev]. split; [done|by eexists].
Qed.

Program Definition user_service : KvService kvmem := {|
  kv_put := user_write_kv kmalloc task;
  kv_get := user_read_kv kmalloc task;
  kv_ret := libc_syscall;
  kv_model m := kv_abs m (t_kv task);
  kv_ok := service_ok |}.
Next Obligation. intros v Hv. unfold libc_syscall. case_match; lia. Qed.
Next Obligation. done. Qed.
Next Obligation.
  intros k v m Hok Hik Hiv. destruct (service_write k v m Hok Hik Hiv) as (r & m' & E & Hok' & Hr).
  exists r, m'. split_and!; try done. apply user_write_eq; try done. naive_solver.
Qed.
Next Obligation. intros k m Hok Hik. exists m. split_and!; try done. by apply user_read_eq. Qed.

(** The kernel's own entry points, without the libc convention. *)
Program Definition kernel_service : KvService kvmem := {|
  kv_put := write_kv kmalloc task;
  kv_get := read_kv task;
  kv_ret := id;
  kv_model m := kv_abs m (t_kv task);
  kv_ok := service_ok |}.
Next Obligation. done. Qed.
Next Obligation. done. Qed.
Next Obligation. apply service_write. Qed.
Next Obligation. intros k m [Hwf [s Es]] Hik. exists m. split_and!; try done. by eapply read_kv_eq. Qed.

End Kernel.

(** ** Theorems *)

(** What a process reads back.  After the wrapper write_kv(k, v)
    reported success, the wrapper read_kv(k) returns v unless v lies in
    [-4095, -1], where the libc convention turns every stored value into -1;
    a failed write_kv returns -1 and changes no value. *)
Theorem user_read_after_write {T} `{TaskKv T} kmalloc (Hk : kmalloc_fresh kmalloc) (task : T) k v m :
  service_ok task m -> in_s 32 k -> in_s 32 v ->
  exists r m', user_write_kv kmalloc task k v m = Ok (r, m') /\
    ((r = 4 /\ user_read_kv kmalloc task k m' =
        Ok (if (-4095 <=? v) && (v <? 0) then -1 else v, m')) \/
     (r = -1 /\ user_read_kv kmalloc task k m' =
        Ok (libc_syscall (default (-1) (kv_abs m (t_kv task) !! k)), m'))) /\
    (forall k', k' <> k -> in_s 32 k' ->
       user_read_kv kmalloc task k' m' =
       Ok (libc_syscall (default (-1) (kv_abs m (t_kv task) !! k')), m')).
Proof.
  intros Hok Hik Hiv. destruct (service_write kmalloc Hk task k v m Hok Hik Hiv) as (r & m' & E & Hok' & Hr).
  exists r, m'. split_and!.
  - apply user_write_eq; try done. naive_solver.
  - rewrite user_read_eq by done.
    destruct Hr as [[-> Ha]|[-> Ha]]; [left|right]; (split; [done|]); rewrite Ha; [|done].
    by rewrite lookup_insert_eq.
  - intros k' Hne Hik'. rewrite user_read_eq by done.
    destruct Hr as [[_ Ha]|[_ Ha]]; rewrite Ha; [|done]. by rewrite lookup_insert_ne.
Qed.

Section SerialProof.
Context {S : Type} `{KvService S}.

(** expected_values mirrors the store on the tested keys. *)
Record serial_inv (st : serial_state S) : Prop := {
  si_ok : kv_ok (svc st);
  si_len : length (expected st) = Z.to_nat MAX_KEY;
  si_mirror : forall k, 0 <= k < MAX_KEY ->
    expected st !! Z.to_nat k = Some (default (-1) (kv_model (svc st) !! k));
  si_nonneg : forall k w, kv_model (svc st) !! k = Some w -> 0 <= w;
}.

Lemma serial_init_inv (s : S) : kv_ok s -> kv_model s = ∅ -> serial_inv (serial_init s).
Proof.
  intros Hok Hm. split; cbn [svc expected serial_init].
  - done.
  - apply length_replicate.
  - intros k Hk. rewrite Hm, lookup_empty. apply lookup_replicate_2. lia.
  - rewrite Hm. set_solver.
Qed.

Lemma thread_iteration_inv k v op st :
  serial_inv st -> rand_args (k, v, op) ->
  exists st' out, thread_iteration k v op st = Ok (st', out) /\ serial_inv st' /\
    (out = [] \/ (op = true /\ out = [MsgWriteError k])).
Proof.
  intros [Hok Hlen Hmir Hnn] [Hkr Hvr]. unfold MAX_KEY in *.
  assert (Hik : in_s 32 k) by (width; lia). assert (Hiv : in_s 32 v) by (width; lia).
  unfold thread_iteration. destruct op.
  - destruct (kv_put_spec k v (svc st) Hok Hik Hiv) as (r & s' & -> & Hok' & [[-> Hm]|[-> Hm]]); simpl.
    + eexists _, _. split_and!; [done| |by left]. split; simpl; [done|by rewrite length_insert| |].
      * intros k' Hk'. rewrite Hm, list_lookup_insert_case, lookup_insert.
        destruct (decide (k = k')) as [->|Hne].
        { rewrite decide_True, Hmir by (done || lia). done. }
        rewrite decide_False by (intros E; apply Hne; lia). by apply Hmir.
      * intros k' w. rewrite Hm, lookup_insert. case_decide; [naive_solver lia|apply Hnn].
    + eexists _, _. split_and!; [done| |by right]. split; simpl; try done; rewrite Hm; done.
  - destruct (kv_get_spec k (svc st) Hok Hik) as (s' & -> & Hok' & Hm). cbn [res_bind].
    rewrite Hmir by done. cbn [res_bind of_option].
    assert (E : kv_ret (default (-1) (kv_model (svc st) !! k)) = default (-1) (kv_model (svc st) !! k)).
    { destruct (kv_model (svc st) !! k) as [w|] eqn:Ew; simpl; [apply kv_ret_nonneg; eauto|apply kv_ret_missing]. }
    rewrite E, Z.eqb_refl, andb_false_r.
    eexists _, _. split_and!; [done| |by left]. split; simpl; try done; rewrite Hm; done.
Qed.

End SerialProof.

(** Test1-serial.c never reports an inconsistency.  From an empty store,
    whatever the order in which the threads get the mutex and whatever rand()
    returns, the run completes without a fault and prints only allocation
    failures of writes. *)
Theorem serial_run_consistent {S} `{KvService S} (s : S) its :
  kv_ok s -> kv_model s = ∅ -> Forall rand_args its ->
  exists st out, run_iterations its (serial_init s) = Ok (st, out) /\
    Forall (fun msg => exists k v, msg = MsgWriteError k /\ (k, v, true) ∈ its) out.
Proof.
  intros Hok Hm Hargs.
  assert (Hinv := serial_init_inv s Hok Hm).
  generalize dependent (serial_init s). clear Hok Hm.
  induction Hargs as [|[[k v] op] its Ha Hargs IH]; intros st Hinv.
  { by exists st, []. }
  destruct (thread_iteration_inv k v op st Hinv Ha) as (st1 & out1 & E1 & Hinv1 & Ho).
  destruct (IH st1 Hinv1) as (st2 & out2 & E2 & Hf).
  exists st2, (out1 ++ out2). cbn [run_iterations]. rewrite E1. cbn [res_bind]. rewrite E2. split; [done|].
  apply Forall_app. split.
  - destruct Ho as [-> |[-> ->]]; [done|]. constructor; [|done]. exists k, v. split; [done|by left].
  - eapply Forall_impl; [exact Hf|]. intros msg (k' & v' & ? & ?). exists k', v'. split; [done|by right].
Qed.

Lemma module_key_range r : in_s 32 r -> 0 <= module_key r < MAX_KEY.
Proof.
  intros Hr. unfold module_key, int_abs, MAX_KEY, s32, swrap. unfold in_s in Hr.
  case_match eqn:E; [apply Z.ltb_lt in E|apply Z.ltb_ge in E]; [|apply Z.rem_bound_pos; lia].
  destruct (decide (r = -2 ^ 31)) as [->|Hne]; [vm_compute; intuition congruence|].
  rewrite Z.mod_small by lia. apply Z.rem_bound_pos; lia.
Qed.

Lemma module_iteration_spec {S} `{KvService S} rk rv (s : S) :
  kv_ok s -> in_s 32 rk -> in_s 32 rv ->
  exists s' out, module_iteration rk rv s = Ok (s', out) /\ kv_ok s' /\
    (forall k, ~ (0 <= k < MAX_KEY /\ Z.Odd k) -> kv_model s' !! k = kv_model s !! k) /\
    Forall (fun msg => exists k, msg = MsgWriteError k /\ 0 <= k < MAX_KEY /\ Z.Odd k) out.
Proof.
  intros Hok Hik Hiv. pose proof (module_key_range rk Hik) as Hr.
  assert (Hr' : in_s 32 (module_key rk)) by (unfold MAX_KEY in Hr; width; lia).
  unfold module_iteration. destruct (nonzero (Z.rem (module_key rk) 2)) eqn:Eo.
  - apply nonzero_true in Eo. rewrite Z.rem_mod_nonneg in Eo by lia.
    assert (Hodd : Z.Odd (module_key rk)).
    { exists (module_key rk / 2). pose proof (Z.div_mod (module_key rk) 2).
      pose proof (Z.mod_pos_bound (module_key rk) 2). lia. }
    destruct (kv_put_spec (module_key rk) rv s Hok Hr' Hiv) as (r & s' & -> & Hok' & [[-> Hm]|[-> Hm]]);
      simpl; eexists _, _; (split_and!; [done|done| |]).
    + intros k Hk. rewrite Hm, lookup_insert_ne by naive_solver. done.
    + done.
    + by rewrite Hm.
    + constructor; [eauto|done].
  - destruct (kv_get_spec (module_key rk) s Hok Hr') as (s' & -> & Hok' & Hm). simpl.
    eexists _, _. split_and!; [done|done| |done]. by rewrite Hm.
Qed.

(** A thread of the test module runs to completion on every input: no
    random int, INT_MIN included, leads abs(k) % MAX_KEY out of the table, the
    only messages are failed writes, and only odd keys in [0, MAX_KEY) are ever
    written.  The branch that reads therefore only sees keys (the even ones)
    that no thread of the module writes. *)
Theorem kv_test_thread_safe {S} `{KvService S} n i stop rnd (s : S) :
  kv_ok s -> (forall j, in_s 32 (fst (rnd j)) /\ in_s 32 (snd (rnd j))) ->
  exists s' out, kv_test_thread n i stop rnd s = Ok (s', out) /\ kv_ok s' /\
    (forall k, ~ (0 <= k < MAX_KEY /\ Z.Odd k) -> kv_model s' !! k = kv_model s !! k) /\
    Forall (fun msg => exists k, msg = MsgWriteError k /\ 0 <= k < MAX_KEY /\ Z.Odd k) out.
Proof.
  intros Hok Hrnd. revert i s Hok. induction n as [|n IH]; intros i s Hok; cbn [kv_test_thread].
  { by exists s, []. }
  destruct (stop i); [by exists s, []|].
  destruct (Hrnd i) as [H1 H2].
  destruct (module_iteration_spec _ _ s Hok H1 H2) as (s1 & out1 & -> & Hok1 & Hm1 & Hf1). cbn [res_bind].
  destruct (IH (Datatypes.S i) s1 Hok1) as (s2 & out2 & -> & Hok2 & Hm2 & Hf2). cbn [res_bind].
  exists s2, (out1 ++ out2). split_and!; [done|done| |by apply Forall_app].
  intros k Hk. rewrite Hm2, Hm1; done.
Qed.

(** ** Witnesses *)

Lemma one_store_service_ok : service_ok task100 one_store.
Proof. split; [apply one_store_wf|]. eexists. vm_compute. reflexivity. Qed.

Lemma one_store_empty : kv_abs one_store (t_kv task100) = ∅.
Proof.
  unfold kv_abs, one_store. simpl. rewrite lookup_singleton_eq. unfold empty_store.
  by rewrite store_map_empty.
Qed.

(** -3 is stored, and reads back as -1. *)
Lemma user_read_after_write_witness :
  exists r m', user_write_kv slab_alloc task100 7 (-3) one_store = Ok (r, m') /\
    user_read_kv slab_alloc task100 7 m' = Ok (-1, m').
Proof.
  destruct (user_read_after_write slab_alloc slab_alloc_fresh task100 7 (-3) one_store)
    as (r & m' & E & [[_ Hr]|[_ Hr]] & _).
  - apply one_store_service_ok.
  - vm_compute; intuition congruence.
  - vm_compute; intuition congruence.
  - exists r, m'. split; [exact E|exact Hr].
  - exists r, m'. split; [exact E|]. rewrite Hr, one_store_empty. reflexivity.
Defined.

Lemma serial_run_consistent_witness :
  exists st out, run_iterations (H := user_service slab_alloc slab_alloc_fresh task100)
    [(5, 11, true); (5, 0, false); (2047, 3, false)]
    (serial_init one_store) = Ok (st, out).
Proof.
  destruct (serial_run_consistent (H := user_service slab_alloc slab_alloc_fresh task100)
    one_store [(5, 11, true); (5, 0, false); (2047, 3, false)]) as (st & out & E & _).
  - apply one_store_service_ok.
  - apply one_store_empty.
  - repeat constructor; vm_compute; intuition congruence.
  - exists st, out. exact E.
Defined.

Lemma kv_test_thread_safe_witness :
  exists s' out, kv_test_thread (H := kernel_service slab_alloc slab_alloc_fresh task100)
    3 0 (fun i => (i =? 7)%nat) (fun i => (Z.of_nat (i `mod` 5) - 2 ^ 31, 9)) one_store = Ok (s', out).
Proof.
  pose proof (kv_test_thread_safe (H := kernel_service slab_alloc slab_alloc_fresh task100)
    3 0 (fun i => (i =? 7)%nat) (fun i => (Z.of_nat (i `mod` 5) - 2 ^ 31, 9)) one_store) as Hw.
  destruct Hw as (s' & out & E & _).
  - apply one_store_service_ok.
  - intros j. pose proof (Nat.mod_upper_bound j 5). unfold in_s. cbn [fst snd]. lia.
  - exists s', out. exact E.
Defined.
