(* ===== verification/KVRef.v ===== *)
(** * The reference-counted store of kv_store.patch

    syscall/kv_syscall/kv_store.patch carries another version of the store than
    kernel/kv_store.c: the object has a reference count, copy_process takes a
    reference for a new thread, and do_exit drops it and frees the store with
    the last one.  The table itself is that of KVStore.v; this file models the
    life of the stores, over the tasks that create and use them. *)

From S2P Require Import Prelude KVStore.

(** ** refcount_t (include/linux/refcount.h)

    An int that sticks at a large negative value once it is misused. *)

Definition REFCOUNT_SATURATED : Z := - 2 ^ 30.

Definition refcount_inc (r : Z) : Z :=
  if (r <=? 0) || (2 ^ 31 <=? r + 1) then REFCOUNT_SATURATED else r + 1.

(** Whether the count reached zero, and the count. *)
Definition refcount_dec_and_test (r : Z) : bool * Z :=
  if r =? 1 then (true, 0) else if r <=? 0 then (false, REFCOUNT_SATURATED) else (false, r - 1).

(** ** Stores and tasks

    [tasks] gives the kv field of every task, [ref_cnt] the count of every
    store.  [lost] is history: the kv fields of the children copy_process gave
    up after it had set them. *)
Record rsys := RSys { kvm : kvmem; ref_cnt : gmap Z Z; tasks : gmap Z Z; lost : list Z }.

Definition set_mem (m : kvmem) (s : rsys) : rsys := RSys m (ref_cnt s) (tasks s) (lost s).
Definition set_ref (kv r : Z) (s : rsys) : rsys := RSys (kvm s) (<[kv := r]> (ref_cnt s)) (tasks s) (lost s).
Definition set_task (pid kv : Z) (s : rsys) : rsys := RSys (kvm s) (ref_cnt s) (<[pid := kv]> (tasks s)) (lost s).

Definition field_kv (pid : Z) (s : rsys) : res Z := of_option NullDeref (tasks s !! pid).

Section Ops.
Variable kmalloc : gset Z -> option Z.
(** The content of a new object before it is initialised. *)
Variable garbage : kv_store.

Definition kv_store_write (pid k v : Z) (s : rsys) : res (Z * rsys) :=
  let! kv := field_kv pid s in
  let! (r, m) := write_kv kmalloc (KvTask pid pid kv) k v (kvm s) in
  Ok (r, set_mem m s).

Definition kv_store_read (pid k : Z) (s : rsys) : res (Z * rsys) :=
  let! kv := field_kv pid s in
  let! (r, m) := read_kv (KvTask pid pid kv) k (kvm s) in
  Ok (r, set_mem m s).

(** The kv field of the task, and memory. *)
Definition init_kv_store (s : rsys) : Z * rsys :=
  match kmalloc (used (kvm s)) with
  | None => (0, s)
  | Some l => (l, set_ref l 1 (set_mem (with_store (kvm s) l (init_buckets (seq 0 NBUCKETS) garbage)) s))
  end.

(** The lines the patch adds to copy_process. *)
Definition copy_kv (thread : bool) (parent : Z) (s : rsys) : res (Z * rsys) :=
  if thread then
    let! kv := field_kv parent s in
    let! r := of_option NullDeref (ref_cnt s !! kv) in
    Ok (kv, set_ref kv (refcount_inc r) s)
  else Ok (init_kv_store s).

Definition cleanup_kv_store (pid : Z) (s : rsys) : res rsys :=
  let! kv := field_kv pid s in
  if kv =? 0 then Ok s
  else
    let! r := of_option NullDeref (ref_cnt s !! kv) in
    let '(last, r') := refcount_dec_and_test r in
    let s := set_ref kv r' s in
    if negb last then Ok s
    else
      let! m := cleanup_buckets kv (seq 0 NBUCKETS) (kvm s) in
      Ok (RSys (KvMem (nodes m) (delete kv (stores m))) (delete kv (ref_cnt s)) (<[pid := 0]> (tasks s)) (lost s)).

(** ** What tasks do *)

Inductive task_event :=
| Write (pid k v : Z)
| Read (pid k : Z)
| Fork (thread : bool) (parent child : Z)
| ForkAborted (thread : bool) (parent : Z)  (** copy_process fails further down *)
| Exit (pid : Z).

Definition kv_event (e : task_event) (s : rsys) : res rsys :=
  match e with
  | Write pid k v => let! (_, s) := kv_store_write pid k v s in Ok s
  | Read pid k => let! (_, s) := kv_store_read pid k s in Ok s
  | Fork thread parent child => let! (kv, s) := copy_kv thread parent s in Ok (set_task child kv s)
  | ForkAborted thread parent =>
      let! (kv, s) := copy_kv thread parent s in Ok (RSys (kvm s) (ref_cnt s) (tasks s) (kv :: lost s))
  | Exit pid =>
      let! s := cleanup_kv_store pid s in Ok (RSys (kvm s) (ref_cnt s) (delete pid (tasks s)) (lost s))
  end.

End Ops.

(** ** References *)

(** The kv fields of the tasks there are and of the children given up. *)
Definition users (s : rsys) : list Z := (map_to_list (tasks s)).*2 ++ lost s.

Definition count (kv : Z) (l : list Z) : Z := Z.of_nat (length (filter (fun x => x = kv) l)).

(** What a task may do: pids are those of tasks, a child has a new one, calls
    are made with a store, and there are fewer references than an int holds. *)
Definition live_kv (pid : Z) (s : rsys) : Prop := exists kv, tasks s !! pid = Some kv /\ kv <> 0.

Definition may_fork (thread : bool) (parent : Z) (s : rsys) : Prop :=
  (thread = true -> live_kv parent s) /\ Z.of_nat (length (users s)) < 2 ^ 31 - 1.

Definition enabled (s : rsys) (e : task_event) : Prop :=
  match e with
  | Write pid k v => live_kv pid s /\ in_s 32 k /\ in_s 32 v
  | Read pid k => live_kv pid s
  | Fork thread parent child => may_fork thread parent s /\ tasks s !! child = None
  | ForkAborted thread parent => may_fork thread parent s
  | Exit pid => is_Some (tasks s !! pid)
  end.

(** At boot there is the task of the kernel, which has no store. *)
Definition boot : rsys := RSys (KvMem ∅ ∅) ∅ {[ 0 := 0 ]} [].

Inductive reach (kmalloc : gset Z -> option Z) (garbage : kv_store) : rsys -> Prop :=
| reach_boot : reach kmalloc garbage boot
| reach_step s e s' : reach kmalloc garbage s -> enabled s e -> kv_event kmalloc garbage e s = Ok s' ->
    reach kmalloc garbage s'.

Record inv (us : list Z) (m : kvmem) (refs : gmap Z Z) : Prop := {
  iv_wf : mem_wf m;
  iv_owned : forall l, is_Some (nodes m !! l) -> exists kv s, stores m !! kv = Some s /\ owns s l;
  iv_live : forall kv, is_Some (stores m !! kv) <-> kv <> 0 /\ kv ∈ us;
  iv_ref : forall kv, is_Some (stores m !! kv) -> refs !! kv = Some (count kv us);
}.

Definition rinv (s : rsys) : Prop := inv (users s) (kvm s) (ref_cnt s).

Lemma count_cons kv u l : count kv (u :: l) = (if decide (u = kv) then 1 else 0) + count kv l.
Proof. unfold count. rewrite filter_cons. case_decide; simpl; lia. Qed.

Lemma count_perm kv l l' : l ≡ₚ l' -> count kv l = count kv l'.
Proof. intros H. unfold count. by rewrite H. Qed.

Lemma count_pos kv l : kv ∈ l -> 0 < count kv l.
Proof. induction 1; rewrite count_cons; [rewrite decide_True by done|case_decide]; unfold count in *; lia. Qed.

Lemma count_in kv l : 0 < count kv l -> kv ∈ l.
Proof.
  induction l as [|u l IH]; [done|]. rewrite count_cons. case_decide; subst; [by left|].
  intros. right. apply IH. lia.
Qed.

Lemma count_le kv l : 0 <= count kv l <= Z.of_nat (length l).
Proof. unfold count. pose proof (length_filter (fun x => x = kv) l). lia. Qed.

Lemma inv_perm us us' m refs : us ≡ₚ us' -> inv us m refs -> inv us' m refs.
Proof.
  intros Hp [Hw Ho Hl Hr]. split; [done|done| |].
  - intros kv. by rewrite Hl, Hp.
  - intros kv Hk. rewrite <- (count_perm kv _ _ Hp). by apply Hr.
Qed.

Lemma users_add pid kv s : tasks s !! pid = None -> users (set_task pid kv s) ≡ₚ kv :: users s.
Proof. intros H. unfold users. cbn. by rewrite map_to_list_insert. Qed.

Lemma users_del pid kv s :
  tasks s !! pid = Some kv -> kv :: (map_to_list (delete pid (tasks s))).*2 ++ lost s ≡ₚ users s.
Proof. intros H. unfold users. by rewrite <- (map_to_list_delete (tasks s) pid kv H). Qed.

Lemma task_user pid kv s : tasks s !! pid = Some kv -> kv ∈ users s.
Proof. intros H. rewrite <- (users_del _ _ _ H). by left. Qed.

(** ** Each operation keeps the counts *)

Lemma inv_null us m refs : inv us m refs -> inv (0 :: us) m refs.
Proof.
  intros [Hw Ho Hl Hr]. split; [done|done| |].
  - intros kv. rewrite Hl, elem_of_cons. naive_solver.
  - intros kv Hk. rewrite count_cons, decide_False, Hr by (done || by apply Hl in Hk as [? _]). done.
Qed.

Lemma inv_share us m refs kv :
  inv us m refs -> is_Some (stores m !! kv) -> inv (kv :: us) m (<[kv := count kv us + 1]> refs).
Proof.
  intros [Hw Ho Hl Hr] Hk. split; [done|done| |].
  - intros kv'. rewrite Hl, elem_of_cons. apply Hl in Hk. naive_solver.
  - intros kv' Hk'. rewrite count_cons, lookup_insert. case_decide; simplify_eq; [f_equal; lia|].
    by rewrite Hr.
Qed.

Lemma inv_new us m refs l s0 :
  inv us m refs -> l <> 0 -> stores m !! l = None ->
  s0 = KvStore (replicate NBUCKETS false) (replicate NBUCKETS []) ->
  inv (l :: us) (with_store m l s0) (<[l := 1]> refs).
Proof.
  intros [Hw Ho Hl Hr] H0 Hn ->. assert (Hus : l ∉ us) by (intros Hu; by eapply (eq_None_not_Some (stores m !! l)), Hl).
  split; cbn.
  - by apply mem_wf_add_empty.
  - intros x (kv & s & Es & Hx)%Ho. exists kv, s. rewrite lookup_insert_ne by congruence. done.
  - intros kv. rewrite lookup_insert, elem_of_cons. case_decide; [naive_solver|]. rewrite Hl. naive_solver.
  - intros kv. rewrite !lookup_insert, count_cons. case_decide; subst.
    + intros _. f_equal. pose proof (count_in kv us). pose proof (count_le kv us).
      destruct (decide (count kv us = 0)) as [->|]; [done|]. exfalso. apply Hus, count_in. lia.
    + intros Hk. by rewrite Hr.
Qed.

Lemma inv_drop us m refs kv :
  inv (kv :: us) m refs -> kv ∈ us -> inv us m (<[kv := count kv us]> refs).
Proof.
  intros [Hw Ho Hl Hr] Hk. split; [done|done| |].
  - intros kv'. rewrite Hl, elem_of_cons. naive_solver.
  - intros kv' Hk'. rewrite lookup_insert. case_decide; [by subst|]. rewrite Hr by done.
    by rewrite count_cons, decide_False.
Qed.

Lemma mem_wf_delete m kv : mem_wf m -> mem_wf (KvMem (nodes m) (delete kv (stores m))).
Proof.
  intros [Hst Hsep]. split; cbn.
  - intros kv' s [_ Es]%lookup_delete_Some. by eapply Hst.
  - intros k1 k2 s1 s2 l [_ E1]%lookup_delete_Some [_ E2]%lookup_delete_Some. by eapply Hsep.
Qed.

(** The last reference: the nodes and the store are freed. *)
Lemma inv_free us m refs kv :
  inv (kv :: us) m refs -> kv <> 0 -> kv ∉ us ->
  exists m', cleanup_buckets kv (seq 0 NBUCKETS) m = Ok m' /\
    inv us (KvMem (nodes m') (delete kv (stores m'))) (delete kv refs).
Proof.
  intros [Hw Ho Hl Hr] H0 Hn. destruct (proj2 (Hl kv)) as [s Es]; [split; [done|by left]|].
  destruct (mw_store _ Hw _ _ Es) as [Hs _].
  destruct (cleanup_buckets_spec kv (seq 0 NBUCKETS) m s Hw Es) as (m' & s' & E & Hw' & Hst & _ & _ & Hnone & Hsome & _).
  { intros i Hi%elem_of_seq. lia. }
  exists m'. split; [done|]. rewrite Hst, delete_insert_eq.
  assert (Hd : forall kv', is_Some (delete kv (stores m) !! kv') <-> kv' <> kv /\ is_Some (stores m !! kv')).
  { intros kv'. rewrite lookup_delete. case_decide; [split; [by intros []|naive_solver]|naive_solver]. }
  split; cbn.
  - rewrite <- (delete_insert_eq _ kv s'), <- Hst. by apply mem_wf_delete.
  - intros l [n El]. destruct (Ho l) as (kv' & s2 & E2 & Hown); [by eexists; apply Hsome|].
    exists kv', s2. split; [|done]. rewrite lookup_delete_ne; [done|]. intros <-.
    assert (nodes m' !! l = None); [|congruence]. apply Hnone. right. rewrite Es in E2. simplify_eq.
    destruct Hown as (i & b & Eb & Hb). exists i, b. split_and!; [|done..].
    apply elem_of_seq. rewrite <- (sw_head _ _ Hs). apply lookup_lt_Some in Eb. lia.
  - intros kv'. rewrite Hd, Hl, elem_of_cons. naive_solver.
  - intros kv' [Hne Hk]%Hd. rewrite lookup_delete_ne, Hr, count_cons, decide_False by done. done.
Qed.

Lemma owns_head s h b l b0 : owns s l -> head s !! h = Some b -> (forall x, x ∈ b -> x ∈ b0) -> owns (set_head s h b0) l.
Proof.
  intros (i & c & Ec & Hl) Eb Hsub. exists i. cbn. destruct (decide (i = h)) as [->|].
  - exists b0. rewrite list_lookup_insert_eq by (by eapply lookup_lt_Some). rewrite Eb in Ec. naive_solver.
  - exists c. by rewrite list_lookup_insert_ne.
Qed.

Section Steps.
Variable kmalloc : gset Z -> option Z.
Hypothesis Hk : kmalloc_fresh kmalloc.
Variable garbage : kv_store.
Hypothesis Hlocks : length (locks garbage) = NBUCKETS.
Hypothesis Hheads : length (head garbage) = NBUCKETS.

Lemma refs_write us m refs pid kv k v :
  inv us m refs -> is_Some (stores m !! kv) -> in_s 32 k -> in_s 32 v ->
  exists r m', write_kv kmalloc (KvTask pid pid kv) k v m = Ok (r, m') /\ inv us m' refs.
Proof.
  intros [Hw Ho Hl Hr] Hkv Hik Hiv.
  pose proof (write_kv_refines kmalloc Hk (KvTask pid pid kv) k v m Hw) as Href. cbn in Href.
  destruct (Href Hkv Hik Hiv) as (r & m' & E & Hw' & Hd & _).
  exists r, m'. split; [done|]. assert (Hs : forall x, is_Some (stores m' !! x) <-> is_Some (stores m !! x))
    by (intros x; by rewrite <- !elem_of_dom, Hd).
  split; [done| |intros x; rewrite Hs; apply Hl|intros x; rewrite Hs; apply Hr].
  destruct Hkv as [s Es]. pose proof (write_kv_eq kmalloc (KvTask pid pid kv) k v m s Hw) as Heq. cbn in Heq.
  destruct (Heq Es) as (b & Eb & [(l & w & Hlb & En & E')|[_ E']]);
    rewrite E' in E; cbn in *.
  - simplify_eq. cbn. intros x Hx. destruct (Ho x) as (kv' & s' & E2 & Hx').
    { rewrite lookup_insert in Hx. case_decide; [subst; by eexists|done]. }
    exists kv', s'. split; [|done]. by rewrite insert_id.
  - destruct (kmalloc (used m)) as [e|] eqn:Ek; [|by simplify_eq]. simplify_eq. cbn. intros x Hx.
    rewrite lookup_insert in Hx. case_decide as Hex.
    + subst. eexists kv, _. split; [apply lookup_insert_eq|]. exists (kv_hash k), (x :: b). cbn.
      rewrite list_lookup_insert_eq by (by eapply lookup_lt_Some). split; [done|by left].
    + destruct (Ho x Hx) as (kv' & s' & E2 & Hx'). destruct (decide (kv = kv')) as [->|Hne].
      * eexists kv', _. split; [apply lookup_insert_eq|]. rewrite Es in E2. simplify_eq.
        eapply owns_head; [done|done|]. intros y Hy. by right.
      * exists kv', s'. by rewrite lookup_insert_ne.
Qed.

Lemma rinv_live pid kv s : rinv s -> tasks s !! pid = Some kv -> kv <> 0 -> is_Some (stores (kvm s) !! kv).
Proof. intros Hi Ht H0. apply (iv_live _ _ _ Hi). split; [done|by eapply task_user]. Qed.

(** A new kv field is one more reference. *)
Lemma copy_kv_inv thread parent s :
  rinv s -> may_fork thread parent s ->
  exists kv s', copy_kv kmalloc garbage thread parent s = Ok (kv, s') /\ tasks s' = tasks s /\ lost s' = lost s /\
    inv (kv :: users s) (kvm s') (ref_cnt s').
Proof.
  intros Hi [Hth Hlen]. unfold copy_kv. destruct thread.
  - destruct Hth as (kv & Ht & H0); [done|]. unfold field_kv. rewrite Ht. cbn.
    pose proof (rinv_live _ _ _ Hi Ht H0) as Hs. rewrite (iv_ref _ _ _ Hi kv Hs). cbn.
    eexists _, _. split_and!; [done..|]. cbn. unfold refcount_inc.
    pose proof (count_pos kv (users s) (task_user _ _ _ Ht)). pose proof (count_le kv (users s)).
    rewrite (proj2 (Z.leb_gt _ _)), (proj2 (Z.leb_gt _ _)) by lia. by apply inv_share.
  - unfold init_kv_store. destruct (kmalloc _) as [l|] eqn:El; eexists _, _; (split_and!; [done..|]); cbn.
    + destruct (Hk _ _ El) as [Hf H0]. apply inv_new; [done|done| |by apply init_buckets_all].
      apply not_elem_of_dom. unfold used in Hf. set_solver.
    + by apply inv_null.
Qed.

Lemma cleanup_inv pid s :
  rinv s -> is_Some (tasks s !! pid) ->
  exists s', cleanup_kv_store pid s = Ok s' /\ delete pid (tasks s') = delete pid (tasks s) /\ lost s' = lost s /\
    inv ((map_to_list (delete pid (tasks s))).*2 ++ lost s) (kvm s') (ref_cnt s').
Proof.
  intros Hi [kv Ht]. set (us := _ ++ lost s).
  assert (Hp : inv (kv :: us) (kvm s) (ref_cnt s)) by (eapply inv_perm; [symmetry; by apply users_del|done]).
  unfold cleanup_kv_store, field_kv. rewrite Ht. cbn. destruct (Z.eqb_spec kv 0) as [->|H0].
  { exists s. split_and!; [done..|]. destruct Hp as [Hw Ho Hl Hr]. split; [done|done| |].
    - intros x. rewrite Hl, elem_of_cons. naive_solver.
    - intros x Hx. rewrite Hr, count_cons, decide_False by (done || by apply Hl in Hx as [? _]). done. }
  rewrite (iv_ref _ _ _ Hp kv) by (apply (iv_live _ _ _ Hp); split; [done|by left]). cbn.
  rewrite count_cons, decide_True by done. pose proof (count_le kv us). unfold refcount_dec_and_test.
  destruct (decide (kv ∈ us)) as [Hin|Hin].
  - pose proof (count_pos _ _ Hin). rewrite (proj2 (Z.eqb_neq _ _)), (proj2 (Z.leb_gt _ _)) by lia. cbn.
    eexists. split_and!; [done..|]. cbn. replace (1 + count kv us - 1) with (count kv us) by lia. by apply inv_drop.
  - assert (count kv us = 0) as -> by (destruct (decide (0 < count kv us)) as [?%count_in|]; [done|lia]). cbn.
    destruct (inv_free us (kvm s) (ref_cnt s) kv Hp H0 Hin) as (m' & E & Hm'). rewrite E. cbn.
    eexists. split_and!; [done|cbn|done|cbn].
    + by rewrite delete_insert_eq.
    + by rewrite delete_insert_eq.
Qed.

Lemma event_inv e s : rinv s -> enabled s e -> exists s', kv_event kmalloc garbage e s = Ok s' /\ rinv s'.
Proof.
  intros Hi He. destruct e as [pid k v|pid k|th p c|th p|pid]; cbn in *.
  - destruct He as ((kv & Ht & H0) & Hik & Hiv). unfold kv_store_write, field_kv. rewrite Ht. cbn.
    destruct (refs_write _ _ _ pid kv k v Hi (rinv_live _ _ _ Hi Ht H0) Hik Hiv) as (r & m' & -> & Hm'). by eexists.
  - destruct He as (kv & Ht & H0). unfold kv_store_read, field_kv. rewrite Ht. cbn.
    destruct (rinv_live _ _ _ Hi Ht H0) as [st Es].
    erewrite (read_kv_eq (KvTask pid pid kv)); [by eexists|apply Hi|exact Es].
  - destruct He as [Hf Hc]. destruct (copy_kv_inv _ _ _ Hi Hf) as (kv & s' & -> & Ht & Hl & Hi').
    eexists. split; [done|]. eapply inv_perm; [|exact Hi']. rewrite users_add by (by rewrite Ht).
    unfold users. by rewrite Ht, Hl.
  - destruct (copy_kv_inv _ _ _ Hi He) as (kv & s' & -> & Ht & Hl & Hi'). eexists. split; [done|].
    eapply inv_perm; [|exact Hi']. unfold users. cbn. rewrite Ht, Hl. apply Permutation_middle.
  - destruct (cleanup_inv pid s Hi He) as (s' & -> & Ht & Hl & Hi'). eexists. split; [done|].
    unfold rinv, users. cbn. by rewrite Ht, Hl.
Qed.

Lemma reach_inv s : reach kmalloc garbage s -> rinv s.
Proof.
  induction 1 as [|s e s' _ IH He Hs].
  - assert (Hn : forall {A} kv, ~ is_Some ((∅ : gmap Z A) !! kv)) by (intros A kv; rewrite lookup_empty; by intros []).
    split; cbn.
    + split; cbn; [intros kv s E|intros kv kv' s s' l E]; by rewrite lookup_empty in E.
    + intros l Hl. by edestruct Hn.
    + intros kv. unfold users. cbn. rewrite map_to_list_singleton. cbn. split; [intros Hx; by edestruct Hn|intros [H0 Hin]; set_solver].
    + intros kv Hl. by edestruct Hn.
  - destruct (event_inv _ _ IH He) as (s2 & E & Hi). rewrite Hs in E. by injection E as <-.
Qed.


End Steps.

(** ** A concrete run *)

Definition raw_store : kv_store := KvStore (replicate NBUCKETS true) (replicate NBUCKETS [9]).

Definition after_event (r : res rsys) : rsys := match r with Ok s => s | Fault _ => boot end.

(** A process, then a thread of it, then a thread that is given up; then both
    tasks are gone. *)
Definition run1 : rsys := after_event (kv_event slab_alloc raw_store (Fork false 0 1) boot).
Definition run2 : rsys := after_event (kv_event slab_alloc raw_store (Fork true 1 2) run1).
Definition run3 : rsys := after_event (kv_event slab_alloc raw_store (ForkAborted true 2) run2).
Definition run4 : rsys := after_event (kv_event slab_alloc raw_store (Exit 1) run3).
Definition run5 : rsys := after_event (kv_event slab_alloc raw_store (Exit 2) run4).

Lemma run5_reach : reach slab_alloc raw_store run5.
Proof.
  apply (reach_step _ _ run4 (Exit 2)); [|vm_compute; by eexists|vm_compute; reflexivity].
  apply (reach_step _ _ run3 (Exit 1)); [|vm_compute; by eexists|vm_compute; reflexivity].
  apply (reach_step _ _ run2 (ForkAborted true 2)); [| |vm_compute; reflexivity].
  2: { split; [intros _; exists 4096; split; [vm_compute; reflexivity|done]|vm_compute; reflexivity]. }
  apply (reach_step _ _ run1 (Fork true 1 2)); [| |vm_compute; reflexivity].
  2: { split; [|vm_compute; reflexivity].
       split; [intros _; exists 4096; split; [vm_compute; reflexivity|done]|vm_compute; reflexivity]. }
  apply (reach_step _ _ boot (Fork false 0 1)); [apply reach_boot| |vm_compute; reflexivity].
  split; [|vm_compute; reflexivity]. split; [done|vm_compute; reflexivity].
Qed.

