(* ===== verification/KVModule.v ===== *)
(** * Loading and unloading the test module (syscall/kv_syscall/test3-kernel-module.c)

    kv_test_init starts a hundred threads and keeps their pointers in an array;
    a thread clears its own entry before it ends, and kv_test_exit stops the
    threads that are in the array.  Nothing orders these accesses: the module
    and its threads are a transition system.  What a thread does in between is
    [KVClient.kv_test_thread]. *)

From stdpp Require Import list functions.
From S2P Require Import Prelude.

Definition NUM_THREADS : nat := 100.

(** A thread before kthread_run, in its loop, after it cleared its entry, and
    when its task_struct is gone *)
Inductive tst := Absent | Looping | Cleared | Gone.

(** Where the module is: before the creation of thread [i], before the
    assignment of what kthread_run returned for it, loaded, before the test of
    entry [i], before the call of kthread_stop, and waiting in it for a thread *)
Inductive mpc :=
| Create (i : nat) | Assign (i : nat) (p : option nat) | Loaded
| Test (i : nat) | Stop (i : nat) | Join (i j : nat) | Unloaded.

(** [threads] is the array; [asked] is whether kthread_should_stop is true. *)
Record mstate := MState { pc : mpc; threads : nat -> option nat; status : nat -> tst; asked : nat -> bool }.

Definition module_init : mstate := MState (Create 0) (fun _ => None) (fun _ => Absent) (fun _ => false).

Definition next_create (i : nat) : mpc := if decide (S i < NUM_THREADS)%nat then Create (S i) else Loaded.
Definition next_test (i : nat) : mpc := if decide (S i < NUM_THREADS)%nat then Test (S i) else Unloaded.

(** Steps; with [self] a thread may come to the end of its 1000 iterations. *)
Inductive module_step (self : bool) : mstate -> mstate -> Prop :=
(* kthread_run makes the thread; it may run at once *)
| step_created i t s a :
    module_step self (MState (Create i) t s a) (MState (Assign i (Some i)) t (<[i := Looping]> s) a)
(* or fails; the error is replaced by NULL *)
| step_failed i t s a : module_step self (MState (Create i) t s a) (MState (Assign i None) t s a)
| step_assign i p t s a : module_step self (MState (Assign i p) t s a) (MState (next_create i) (<[i := p]> t) s a)
| step_exit t s a : module_step self (MState Loaded t s a) (MState (Test 0) t s a)
(* if (threads[i]) *)
| step_null i t s a : t i = None -> module_step self (MState (Test i) t s a) (MState (next_test i) t s a)
| step_test i j t s a : t i = Some j -> module_step self (MState (Test i) t s a) (MState (Stop i) t s a)
(* kthread_stop(threads[i]), which reads the entry again, asks and waits *)
| step_stop i j t s a :
    t i = Some j -> s j <> Gone -> module_step self (MState (Stop i) t s a) (MState (Join i j) t s (<[j := true]> a))
| step_join i j t s a : s j = Gone -> module_step self (MState (Join i j) t s a) (MState (next_test i) t s a)
(* after the loop the thread sets its entry, the argument, to NULL *)
| step_clear p i t s a :
    s i = Looping -> self = true \/ a i = true ->
    module_step self (MState p t s a) (MState p (<[i := None]> t) (<[i := Cleared]> s) a)
| step_gone p i t s a : s i = Cleared -> module_step self (MState p t s a) (MState p t (<[i := Gone]> s) a).

(** kthread_stop gets NULL, or a task that is gone. *)
Inductive mfault : mstate -> Prop :=
| fault_null i t s a : t i = None -> mfault (MState (Stop i) t s a)
| fault_gone i j t s a : t i = Some j -> s j = Gone -> mfault (MState (Stop i) t s a).

Definition mruns (self : bool) : mstate -> mstate -> Prop := rtc (module_step self).

(** ** Threads that wait to be stopped *)

(** How far the module is with thread [j] *)
Inductive phase := Before | Being (p : option nat) | Kept | Found | Stopping | Finished.

Definition phase_of (p : mpc) (j : nat) : phase :=
  match p with
  | Create i => if decide (j < i)%nat then Kept else Before
  | Assign i q => if decide (j < i)%nat then Kept else if decide (j = i) then Being q else Before
  | Loaded => if decide (j < NUM_THREADS)%nat then Kept else Before
  | Test i => if decide (j < i)%nat then Finished else if decide (j < NUM_THREADS)%nat then Kept else Before
  | Stop i => if decide (j < i)%nat then Finished else if decide (j = i) then Found
              else if decide (j < NUM_THREADS)%nat then Kept else Before
  | Join i _ => if decide (j < i)%nat then Finished else if decide (j = i) then Stopping
                else if decide (j < NUM_THREADS)%nat then Kept else Before
  | Unloaded => if decide (j < NUM_THREADS)%nat then Finished else Before
  end.

(** The entry, the state and the flag of thread [j] in each phase *)
Definition thread_ok (ph : phase) (j : nat) (slot : option nat) (st : tst) (ask : bool) : Prop :=
  match ph with
  | Before => slot = None /\ st = Absent /\ ask = false
  | Being p => slot = None /\ ask = false /\ ((p = Some j /\ st = Looping) \/ (p = None /\ st = Absent))
  | Kept => ask = false /\ ((slot = Some j /\ st = Looping) \/ (slot = None /\ st = Absent))
  | Found => ask = false /\ slot = Some j /\ st = Looping
  | Stopping => ask = true /\ ((slot = Some j /\ st = Looping) \/ (slot = None /\ (st = Cleared \/ st = Gone)))
  | Finished => slot = None /\ (st = Absent \/ st = Gone)
  end.

Definition pc_ok (p : mpc) : Prop :=
  match p with
  | Create i | Assign i _ | Test i | Stop i => (i < NUM_THREADS)%nat
  | Join i j => (i < NUM_THREADS)%nat /\ j = i
  | Loaded | Unloaded => True
  end.

Definition module_inv (m : mstate) : Prop :=
  pc_ok (pc m) /\ forall j, thread_ok (phase_of (pc m) j) j (threads m j) (status m j) (asked m j).

Ltac phases := repeat (unfold phase_of, next_create, next_test in *; cbn in *; repeat case_decide; try lia).
Ltac at_entry j i :=
  destruct (decide (j = i)) as [->|]; rewrite ?fn_lookup_insert, ?fn_lookup_insert_ne by done.

Lemma module_inv_init : module_inv module_init.
Proof. split; [cbn; unfold NUM_THREADS; lia|]. intros j. phases; done. Qed.

Lemma module_step_inv m m' : module_inv m -> module_step false m m' -> module_inv m'.
Proof.
  intros [Hp Hm] Hs. split.
  - destruct Hs; cbn in *; unfold next_create, next_test; repeat case_decide; cbn; try done; try lia.
    + unfold NUM_THREADS. lia.
    + specialize (Hm i). phases. split; [done|]. destruct Hm as (_ & Hm & _). congruence.
  - intros k. pose proof (Hm k) as Hk. destruct Hs; cbn [pc threads status asked] in *; cbn in Hp.
    + at_entry k i; phases; naive_solver.
    + phases; naive_solver.
    + at_entry k i; phases; naive_solver.
    + phases; naive_solver.
    + phases; try naive_solver; replace k with i in * by lia; naive_solver.
    + phases; try naive_solver; replace k with i in * by lia; naive_solver.
    + pose proof (Hm i) as Hi. assert (j = i) as -> by (phases; naive_solver). at_entry k i; phases; naive_solver.
    + destruct Hp as [Hp ->]. phases; try naive_solver; subst k; destruct Hk as (_ & [[_ ?]|[? _]]); [congruence|by auto|congruence|by auto].
    + clear Hm. at_entry k i; [|exact Hk]; destruct (phase_of p i); cbn in Hk |- *; intuition congruence.
    + clear Hm. at_entry k i; [|exact Hk]; destruct (phase_of p i); cbn in Hk |- *; intuition congruence.
Qed.


(** ** Threads that end by themselves *)

(** The other threads fail to start. *)
Lemma creates_fail self n i t s a :
  (i + n = 99)%nat -> exists t', mruns self (MState (Create i) t s a) (MState Loaded t' s a) /\ (forall j, (j < i)%nat -> t' j = t j).
Proof.
  revert i t. induction n as [|n IH]; intros i t Hi.
  - exists (<[i := None]> t). split; [|intros j Hj; by rewrite fn_lookup_insert_ne by lia].
    replace Loaded with (next_create i) by (unfold next_create, NUM_THREADS; by rewrite decide_False by lia).
    eapply rtc_l; [apply step_failed|]. apply rtc_once, step_assign.
  - destruct (IH (S i) (<[i := None]> t) ltac:(lia)) as (t' & Hr & Ht). exists t'. split.
    + eapply rtc_l; [apply step_failed|]. eapply rtc_l; [apply step_assign|].
      unfold next_create. by rewrite decide_True by (unfold NUM_THREADS; lia).
    + intros j Hj. rewrite Ht by lia. by rewrite fn_lookup_insert_ne by lia.
Qed.

Lemma created_0 self t s a : mruns self (MState (Assign 0 (Some 0%nat)) t s a) (MState (Create 1) (<[0%nat := Some 0%nat]> t) s a).
Proof. apply rtc_once. exact (step_assign self 0 (Some 0%nat) t s a). Qed.

(** A thread can end before kthread_run's result is stored: then the array
    keeps a task that is gone, and unloading the module stops it. *)
Lemma stale_thread_stopped : exists m j, mruns true module_init m /\ pc m = Stop 0 /\ threads m 0%nat = Some j /\ status m j = Gone.
Proof.
  set (s := <[0%nat := Gone]> (<[0%nat := Cleared]> (<[0%nat := Looping]> (fun _ : nat => Absent)))).
  destruct (creates_fail true 98 1 (<[0%nat := Some 0%nat]> (<[0%nat := None]> (fun _ => None))) s (fun _ => false) eq_refl) as (t' & Hr & Ht).
  exists (MState (Stop 0) t' s (fun _ => false)), 0%nat. split; [|split; [done|]; cbn; by rewrite (Ht 0%nat) by lia].
  eapply rtc_l; [apply step_created|].
  eapply rtc_l; [apply (step_clear _ _ 0); [by rewrite fn_lookup_insert|by left]|].
  eapply rtc_l; [apply (step_gone _ _ 0); by rewrite fn_lookup_insert|].
  etrans; [apply created_0|]. etrans; [exact Hr|].
  eapply rtc_l; [apply step_exit|]. apply rtc_once. apply (step_test _ _ 0). by rewrite (Ht 0%nat) by lia.
Qed.

(** A thread can clear its entry between the test and the call. *)
Lemma null_thread_stopped : exists m, mruns true module_init m /\ pc m = Stop 0 /\ threads m 0%nat = None.
Proof.
  set (s := <[0%nat := Looping]> (fun _ : nat => Absent)).
  destruct (creates_fail true 98 1 (<[0%nat := Some 0%nat]> (fun _ => None)) s (fun _ => false) eq_refl) as (t' & Hr & Ht).
  exists (MState (Stop 0) (<[0%nat := None]> t') (<[0%nat := Cleared]> s) (fun _ => false)). split; [|split; [done|]; cbn; by rewrite fn_lookup_insert].
  eapply rtc_l; [apply step_created|]. etrans; [apply created_0|]. etrans; [exact Hr|].
  eapply rtc_l; [apply step_exit|]. eapply rtc_l; [apply (step_test _ _ 0); by rewrite (Ht 0%nat) by lia|].
  apply rtc_once. apply (step_clear _ _ 0); [unfold s; by rewrite fn_lookup_insert|by left].
Qed.

