(* ===== verification/KVTests.v ===== *)
(** * The other test programs of the store (syscall/kv_syscall)

    test_basic.c and test_kv.c against the interface of [KVClient], and
    test_concurrent.c, whose threads call the store at the same time, on the
    interleaved accesses of [KVConc]. *)

From S2P Require Import Prelude KVStore KVConc KVClient.

(** ** test_basic.c and test_kv.c *)

(** How a run ends: with its exit code, or at a failed assertion, which is
    given by what was called *)
Inductive test_end (S : Type) := Exits (code : Z) (s : S) | Aborts (call : kv_call) (r : Z) (s : S).
Arguments Exits {S} code s.
Arguments Aborts {S} call r s.

Section Basic.
Context {S : Type} `{KvService S}.

(** ret = write_kv(k, v); assert(ret == sizeof(int)); *)
Definition assert_write (k v : Z) (s : S) (next : S -> res (test_end S)) : res (test_end S) :=
  let! (ret, s) := kv_put k v s in if ret =? 4 then next s else Ok (Aborts (CWrite k v) ret s).
(** val = read_kv(k); assert(val == v); *)
Definition assert_read (k v : Z) (s : S) (next : S -> res (test_end S)) : res (test_end S) :=
  let! (val, s) := kv_get k s in if val =? v then next s else Ok (Aborts (CRead k) val s).

(** The two loops of test 4, over the remaining values of i *)
Fixpoint write_all (ks : list Z) (s : S) (next : S -> res (test_end S)) : res (test_end S) :=
  match ks with [] => next s | i :: ks => assert_write i (i * 10) s (fun s => write_all ks s next) end.
Fixpoint read_all (ks : list Z) (s : S) (next : S -> res (test_end S)) : res (test_end S) :=
  match ks with [] => next s | i :: ks => assert_read i (i * 10) s (fun s => read_all ks s next) end.

Definition test_basic_main (s : S) : res (test_end S) :=
  assert_write 114514 1234 s (fun s =>
  assert_read 114514 1234 s (fun s =>
  assert_write 114514 5678 s (fun s =>
  assert_read 114514 5678 s (fun s =>
  assert_read 999 (-1) s (fun s =>
  write_all (seqZ 0 100) s (fun s =>
  read_all (seqZ 0 100) s (fun s => Ok (Exits 0 s)))))))).

Definition test_kv_main (s : S) : res (test_end S * list Z) :=
  let! (ret, s) := kv_put 1 100 s in
  if ret <? 0 then Ok (Exits 1 s, [])
  else
    let! (ret, s) := kv_get 1 s in
    if ret <? 0 then Ok (Exits 1 s, []) else Ok (Exits 0 s, [ret]).

(** The end of a run that met no wrong value *)
Definition fine (e : res (test_end S)) : Prop :=
  exists s, e = Ok (Exits 0 s) \/ exists k v, e = Ok (Aborts (CWrite k v) (-1) s).

Lemma assert_write_fine k v s next :
  kv_ok s -> in_s 32 k -> in_s 32 v ->
  (forall s', kv_ok s' -> kv_model s' = <[k := v]> (kv_model s) -> fine (next s')) -> fine (assert_write k v s next).
Proof.
  intros Hs Hk Hv Hn. unfold assert_write. destruct (kv_put_spec k v s Hs Hk Hv) as (r & s' & -> & Hs' & [[-> Hm]|[-> Hm]]); cbn.
  - by apply Hn.
  - exists s'. right. by exists k, v.
Qed.

Lemma assert_read_fine k v s next :
  kv_ok s -> in_s 32 k -> kv_ret (default (-1) (kv_model s !! k)) = v ->
  (forall s', kv_ok s' -> kv_model s' = kv_model s -> fine (next s')) -> fine (assert_read k v s next).
Proof.
  intros Hs Hk Hv Hn. unfold assert_read. destruct (kv_get_spec k s Hs Hk) as (s' & -> & Hs' & Hm). cbn.
  rewrite Hv, Z.eqb_refl. by apply Hn.
Qed.

(** Every key of [ks] from 0 to 99 *)
Definition small_keys (ks : list Z) : Prop := Forall (fun i => 0 <= i < 100) ks.

Lemma write_all_fine ks s next :
  kv_ok s -> small_keys ks ->
  (forall s', kv_ok s' -> (forall i, i ∈ ks -> kv_model s' !! i = Some (i * 10)) -> fine (next s')) -> fine (write_all ks s next).
Proof.
  intros Hs Hi Hn.
  assert (Hgen : forall done s, kv_ok s -> (forall i, i ∈ done -> kv_model s !! i = Some (i * 10)) -> small_keys ks ->
    (forall s', kv_ok s' -> (forall i, i ∈ done ++ ks -> kv_model s' !! i = Some (i * 10)) -> fine (next s')) ->
    fine (write_all ks s next)).
  { clear. induction ks as [|i ks IH]; intros done s Hs Hd Hi Hn; cbn [write_all].
    - apply Hn; [done|]. by rewrite app_nil_r.
    - inversion_clear Hi as [|? ? Hi0 Hi1]. apply assert_write_fine; [done|width; lia|width; lia|]. intros s' Hs' Hm.
      apply (IH (done ++ [i])); [done| |done|by rewrite <- app_assoc].
      intros j [Hj| ->%list_elem_of_singleton]%elem_of_app; rewrite Hm; [|apply lookup_insert_eq].
      destruct (decide (i = j)) as [->|]; [apply lookup_insert_eq|]. rewrite lookup_insert_ne by done. by apply Hd. }
  apply (Hgen []); [done|by intros ? ?%not_elem_of_nil|done|exact Hn].
Qed.

Lemma read_all_fine ks s next :
  kv_ok s -> small_keys ks -> (forall i, i ∈ ks -> kv_model s !! i = Some (i * 10)) ->
  (forall s', kv_ok s' -> fine (next s')) -> fine (read_all ks s next).
Proof.
  intros Hs Hi. revert s Hs. induction Hi as [|i ks Hi0 Hi1 IH]; intros s Hs Hm Hn; cbn [read_all]; [by apply Hn|].
  apply assert_read_fine; [done|width; lia| |].
  - rewrite Hm by set_solver. apply kv_ret_nonneg. cbn. lia.
  - intros s' Hs' Hm'. apply IH; [done| |done]. intros j Hj. rewrite Hm'. apply Hm. set_solver.
Qed.

(** test_basic.c on an empty store: every read is right, and only a write
    for which there is no memory can fail an assertion. *)
Lemma test_basic_passes s : kv_ok s -> kv_model s = ∅ -> fine (test_basic_main s).
Proof.
  intros Hs Hm. unfold test_basic_main.
  apply assert_write_fine; [done|width; lia|width; lia|]. intros s1 H1 M1.
  apply assert_read_fine; [done|width; lia|rewrite M1, lookup_insert_eq; by apply kv_ret_nonneg|]. intros s2 H2 M2.
  apply assert_write_fine; [done|width; lia|width; lia|]. intros s3 H3 M3.
  apply assert_read_fine; [done|width; lia|rewrite M3, lookup_insert_eq; by apply kv_ret_nonneg|]. intros s4 H4 M4.
  apply assert_read_fine; [done|width; lia| |].
  { rewrite M4, M3, M2, M1, Hm. rewrite !lookup_insert_ne by lia. rewrite lookup_empty. apply kv_ret_missing. }
  assert (Hk : small_keys (seqZ 0 100)) by (apply Forall_forall; intros i Hi%elem_of_seqZ; lia).
  intros s5 H5 M5. apply write_all_fine; [done|done|]. intros s6 H6 M6.
  apply read_all_fine; [done|done|done|]. intros s7 H7. exists s7. by left.
Qed.

Lemma test_kv_prints s :
  kv_ok s -> exists s', test_kv_main s = Ok (Exits 0 s', [100]) \/ test_kv_main s = Ok (Exits 1 s', []).
Proof.
  intros Hs. unfold test_kv_main.
  destruct (kv_put_spec 1 100 s Hs) as (r & s1 & -> & H1 & [[-> M1]|[-> M1]]); [width; lia|width; lia| |exists s1; by right]. cbn.
  destruct (kv_get_spec 1 s1 H1) as (s2 & -> & _ & _); [width; lia|]. cbn. rewrite M1, lookup_insert_eq. cbn.
  rewrite kv_ret_nonneg by lia. exists s2. by left.
Qed.
End Basic.

(** ** test_concurrent.c *)

Definition CONC_THREADS : Z := 100.
Definition CONC_ITERATIONS : nat := Z.to_nat 10000.
Definition NUM_KEYS : Z := 100.

(** The call of one iteration, for the three results of rand() *)
Definition conc_call (r1 r2 r3 : Z) : kv_call :=
  let key := Z.rem r1 NUM_KEYS + 1024 * Z.land r2 3 in
  if nonzero (Z.land r3 1) then CWrite key key else CRead key.

(** Whether the thread goes on after its wrapper returned [ret] *)
Definition conc_check (call : kv_call) (ret : Z) : bool :=
  match call with
  | CWrite _ _ => negb (ret =? -1)
  | CRead key => (ret =? -1) || (ret =? key)
  end.

(** What the wrapper makes of the result of the system call *)
Definition wrapper_ret (r : Z) : Z := s32 (libc_syscall r).

(** A thread before and at the barrier, before iteration [i], inside its call,
    and at its end *)
Inductive client := Created | Waiting | At (i : nat) | Calling (i : nat) (call : kv_call) | Ended.

(** The store and the threads; [t_failed] is the call and the result for which a
    thread printed a message and called exit(1). *)
Record tconc := TConc { t_kv_state : cstate; t_clients : gmap Z client; t_failed : option (kv_call * Z) }.

Definition client_of (s : tconc) (t : Z) : client := default Ended (t_clients s !! t).

Inductive tc_step : tconc -> tconc -> Prop :=
| tc_arrive t c cl : cl !! t = Some Created -> tc_step (TConc c cl None) (TConc c (<[t := Waiting]> cl) None)
| tc_open c cl : (forall t x, cl !! t = Some x -> x = Waiting) ->
    tc_step (TConc c cl None) (TConc c ((fun _ => At 0) <$> cl) None)
| tc_call t i r1 r2 r3 c c' cl :
    cl !! t = Some (At i) -> (i < CONC_ITERATIONS)%nat -> 0 <= r1 < 2 ^ 31 -> 0 <= r2 < 2 ^ 31 -> 0 <= r3 < 2 ^ 31 ->
    cstep t c (Some (Inv t (conc_call r1 r2 r3))) c' ->
    tc_step (TConc c cl None) (TConc c' (<[t := Calling i (conc_call r1 r2 r3)]> cl) None)
| tc_inside t c c' cl : cstep t c None c' -> tc_step (TConc c cl None) (TConc c' cl None)
| tc_return t i call r c c' cl :
    cl !! t = Some (Calling i call) -> cstep t c (Some (Ret t r)) c' ->
    tc_step (TConc c cl None)
      (TConc c' (<[t := At (Datatypes.S i)]> cl) (if conc_check call (wrapper_ret r) then None else Some (call, r)))
| tc_end t c cl : cl !! t = Some (At CONC_ITERATIONS) -> tc_step (TConc c cl None) (TConc c (<[t := Ended]> cl) None).

Definition conc_init : tconc := TConc cinit (gset_to_gmap Created (list_to_set (seqZ 0 CONC_THREADS))) None.

Definition tc_runs : tconc -> tconc -> Prop := rtc tc_step.

(** A call of the test, and the results the atomic store can give it *)
Definition test_call (call : kv_call) : Prop :=
  0 <= call_key call < 2 ^ 31 /\ match call with CWrite k v => v = k | CRead _ => True end.
Definition result_ok (call : kv_call) (r : Z) : Prop :=
  match call with CWrite _ _ => r = 4 \/ r = -1 | CRead k => r = k \/ r = -1 end.

(** The atomic object holds only keys mapped to themselves, and each thread is
    where its client says. *)
Definition client_ok (a : astate) (t : Z) (x : client) : Prop :=
  match x with
  | Calling _ call => test_call call /\ (apc_of a t = APend call \/ exists r, apc_of a t = ADone r /\ result_ok call r)
  | _ => apc_of a t = AIdle
  end.

Record tc_inv (s : tconc) : Prop := {
  tv_conc : conc_inv (t_kv_state s);
  tv_abs : exists a, sim (t_kv_state s) a /\ map_Forall (fun k v => v = k) (a_map a) /\ forall t, client_ok a t (client_of s t);
  tv_failed : forall call r, t_failed s = Some (call, r) -> (exists k, call = CWrite k k) /\ r = -1 }.

Lemma conc_call_ok r1 r2 r3 : 0 <= r1 -> test_call (conc_call r1 r2 r3).
Proof.
  intros H1. assert (Hk : 0 <= Z.rem r1 NUM_KEYS + 1024 * Z.land r2 3 < 2 ^ 31).
  { pose proof (Z.rem_bound_pos r1 NUM_KEYS H1 eq_refl) as Hr. change NUM_KEYS with 100 in *.
    pose proof (Z.mod_pos_bound r2 (2 ^ 2) ltac:(lia)) as Hm. change 3 with (Z.ones 2). rewrite Z.land_ones by lia. lia. }
  unfold conc_call, test_call. by destruct (nonzero _).
Qed.

(** A right result passes the check, but for a write that was refused. *)
Lemma check_ok call r :
  test_call call -> result_ok call r -> conc_check call (wrapper_ret r) = true \/ (exists k, call = CWrite k k) /\ r = -1.
Proof.
  unfold test_call, result_ok, conc_check, wrapper_ret. destruct call as [k v|k]; cbn [call_key].
  - intros [_ ->] [-> | ->]; [by left|right]. split; [by exists k|done].
  - intros [Hk _] [-> | ->]; left; [|done]. unfold libc_syscall. replace (k <? 0) with false by lia. rewrite andb_false_r.
    unfold s32. rewrite swrap_small by (width; lia). by rewrite Z.eqb_refl, orb_true_r.
Qed.

Lemma atomic_ok m call r m' :
  test_call call -> map_Forall (fun k v => v = k) m -> atomic m call r m' -> result_ok call r /\ map_Forall (fun k v => v = k) m'.
Proof.
  intros [_ Hc] Hm Ha. destruct Ha as [k v|k v Hn|k]; cbn in *.
  - split; [by left|]. by apply map_Forall_insert_2.
  - split; [by right|done].
  - split; [|done]. destruct (m !! k) eqn:E; [left; cbn; by apply (Hm k)|by right].
Qed.

Lemma client_set c cl f t x t' :
  client_of (TConc c (<[t := x]> cl) f) t' = if decide (t = t') then x else client_of (TConc c cl f) t'.
Proof. unfold client_of. cbn. rewrite lookup_insert. by case_decide. Qed.

Lemma client_other a a' t t' x :
  t <> t' -> (exists p, a_pcs a' = <[t := p]> (a_pcs a)) -> client_ok a t' x -> client_ok a' t' x.
Proof.
  intros Hn [p Hp]. assert (E : apc_of a' t' = apc_of a t') by (unfold apc_of; rewrite Hp; by rewrite lookup_insert_ne).
  unfold client_ok. by rewrite E.
Qed.

(** Steps outside the store *)
Lemma tc_inv_idle c cl t x y :
  cl !! t = Some x -> (match x with Calling _ _ => False | _ => True end) -> (match y with Calling _ _ => False | _ => True end) ->
  tc_inv (TConc c cl None) -> tc_inv (TConc c (<[t := y]> cl) None).
Proof.
  intros Ht Hx Hy [Hc (a & Hs & Hm & Hcl) Hf]. split; [done| |done]. exists a. split; [done|]. split; [done|].
  intros t'. rewrite client_set. case_decide as E; [subst t'|apply Hcl]. specialize (Hcl t). unfold client_of in Hcl. cbn in Hcl.
  rewrite Ht in Hcl. cbn in Hcl. destruct x, y; done.
Qed.

Lemma tc_inv_call c c' cl t i r1 r2 r3 :
  cl !! t = Some (At i) -> 0 <= r1 -> cstep t c (Some (Inv t (conc_call r1 r2 r3))) c' ->
  tc_inv (TConc c cl None) -> tc_inv (TConc c' (<[t := Calling i (conc_call r1 r2 r3)]> cl) None).
Proof.
  intros Ht H1 Hst [Hc (a & Hs & Hm & Hcl) Hf]. cbn in *. split; cbn; [by eapply cstep_inv| |done].
  destruct (cstep_sim t c _ c' a Hc Hs Hst) as (a' & [Ha|[? _]] & Hs'); [|done]. exists a'. split; [done|].
  inversion Ha as [call Hi| |]; subst. split; [done|]. intros t'. rewrite client_set. case_decide as E.
  - subst t'. split; [by apply conc_call_ok|]. left. rewrite apc_of_set. by rewrite decide_True.
  - eapply client_other; [done|by eexists|apply Hcl].
Qed.

Lemma tc_inv_inside c c' cl t :
  cstep t c None c' -> tc_inv (TConc c cl None) -> tc_inv (TConc c' cl None).
Proof.
  intros Hst [Hc (a & Hs & Hm & Hcl) Hf]. cbn in *. split; cbn; [by eapply cstep_inv| |done].
  destruct (cstep_sim t c _ c' a Hc Hs Hst) as (a' & [Ha|[_ ->]] & Hs'); [|by exists a]. exists a'. split; [done|].
  inversion Ha as [|call r m Hp Hat|]; subst. pose proof (Hcl t) as Ht. unfold client_ok in Ht.
  destruct (client_of (TConc c cl None) t) as [| | |i call'|] eqn:E; rewrite Hp in Ht; try done.
  destruct Ht as [Hcall [[= <-]|(r' & [=] & _)]]. destruct (atomic_ok _ _ _ _ Hcall Hm Hat) as [Hr Hm'].
  split; [done|]. intros t'. destruct (decide (t = t')) as [<-|Hn].
  - change (client_of (TConc c' cl None) t) with (client_of (TConc c cl None) t). rewrite E. split; [done|]. right. exists r.
    rewrite apc_of_set. by rewrite decide_True.
  - eapply client_other; [done|by eexists|]. exact (Hcl t').
Qed.

Lemma tc_inv_return c c' cl t i call r :
  cl !! t = Some (Calling i call) -> cstep t c (Some (Ret t r)) c' -> tc_inv (TConc c cl None) ->
  tc_inv (TConc c' (<[t := At (Datatypes.S i)]> cl) (if conc_check call (wrapper_ret r) then None else Some (call, r))).
Proof.
  intros Ht Hst [Hc (a & Hs & Hm & Hcl) Hf]. cbn in *.
  destruct (cstep_sim t c _ c' a Hc Hs Hst) as (a' & [Ha|[? _]] & Hs'); [|done]. inversion Ha as [| |r' Hp]; subst.
  pose proof (Hcl t) as Hok. unfold client_of in Hok. cbn in Hok. rewrite Ht in Hok. cbn in Hok. rewrite Hp in Hok.
  destruct Hok as [Hcall [[=]|(r' & [= <-] & Hr)]]. split; cbn; [by eapply cstep_inv| |].
  - eexists. split; [done|]. split; [done|]. intros t'. unfold client_of. cbn. rewrite lookup_insert. case_decide as E.
    + subst t'. cbn. rewrite apc_of_set. by rewrite decide_True.
    + eapply client_other; [done|by eexists|exact (Hcl t')].
  - destruct (check_ok call r Hcall Hr) as [-> | Hw]; [done|]. intros call' r' E. by destruct (conc_check _ _); simplify_eq.
Qed.

Lemma tc_step_inv s s' : tc_inv s -> tc_step s s' -> tc_inv s'.
Proof.
  intros Hi Hst. destruct Hst as [t c cl Ht|c cl Hall|t i r1 r2 r3 c c' cl Ht _ H1 _ _ Hs|t c c' cl Hs|t i call r c c' cl Ht Hs|t c cl Ht].
  - by eapply tc_inv_idle.
  - destruct Hi as [Hc (a & Hs & Hm & Hcl) Hf]. split; [done| |done]. exists a. split; [done|]. split; [done|]. intros t.
    specialize (Hcl t). unfold client_of in *. cbn in *. rewrite lookup_fmap. destruct (cl !! t) as [x|] eqn:E; cbn in *; [|done].
    rewrite (Hall t x E) in Hcl. done.
  - eapply tc_inv_call; [done|lia|done|done].
  - by eapply tc_inv_inside.
  - by eapply tc_inv_return.
  - by eapply tc_inv_idle.
Qed.

Lemma conc_init_inv : tc_inv conc_init.
Proof.
  split; [apply cinit_inv| |done]. exists ainit. split; [apply cinit_sim|]. split; [apply map_Forall_empty|]. intros t.
  unfold client_of. cbn. rewrite lookup_gset_to_gmap. by destruct (guard _).
Qed.

(** C13: test_concurrent.c never reports a wrong value: in every interleaving
    of its hundred threads and of their accesses to the store, the only message
    before exit(1) is that of a write for which the kernel had no memory. *)
Theorem test_concurrent_passes s call r :
  tc_runs conc_init s -> t_failed s = Some (call, r) -> (exists k, call = CWrite k k) /\ r = -1.
Proof.
  intros Hr. refine (tv_failed s _ call r).
  refine (rtc_ind_r (fun s => tc_inv s) _ conc_init_inv _ s Hr). intros s1 s2 _ Hs Hi. by apply (tc_step_inv s1).
Qed.

(** ** A run in which there is no memory *)

Lemma arrive_all c l cl :
  NoDup l -> (forall t, t ∈ l -> cl !! t = Some Created) ->
  exists cl', tc_runs (TConc c cl None) (TConc c cl' None) /\ (forall t, t ∈ l -> cl' !! t = Some Waiting) /\
    (forall t, t ∉ l -> cl' !! t = cl !! t).
Proof.
  intros Hnd. revert cl. induction Hnd as [|t l Ht Hnd IH]; intros cl Hl.
  - exists cl. split; [apply rtc_refl|]. split; [by intros ? ?%not_elem_of_nil|done].
  - destruct (IH (<[t := Waiting]> cl)) as (cl' & Hr & H1 & H2).
    { intros t' Ht'. rewrite lookup_insert_ne by set_solver. apply Hl. set_solver. }
    exists cl'. split; [eapply rtc_l; [apply (tc_arrive t), Hl; set_solver|exact Hr]|]. split.
    + intros t' [-> | Ht']%elem_of_cons; [|by apply H1]. rewrite H2 by done. apply lookup_insert_eq.
    + intros t' Ht'. rewrite H2 by set_solver. rewrite lookup_insert_ne by set_solver. done.
Qed.

Lemma conc_started : exists cl, tc_runs conc_init (TConc cinit cl None) /\ cl !! 5 = Some (At 0).
Proof.
  destruct (arrive_all cinit (seqZ 0 CONC_THREADS) (t_clients conc_init)) as (cl & Hr & H1 & H2).
  - apply NoDup_seqZ.
  - intros t Ht. cbn. apply lookup_gset_to_gmap_Some. split; [|done]. by apply elem_of_list_to_set.
  - exists ((fun _ => At 0) <$> cl). split.
    + etrans; [exact Hr|]. apply rtc_once, tc_open. intros t x Hx. destruct (decide (t ∈ seqZ 0 CONC_THREADS)) as [Hin|Hout].
      * rewrite H1 in Hx by done. congruence.
      * rewrite H2 in Hx by done. cbn in Hx. apply lookup_gset_to_gmap_Some in Hx as [Hx _]. by apply elem_of_list_to_set in Hx.
    + rewrite lookup_fmap, H1; [done|]. apply elem_of_seqZ. unfold CONC_THREADS. lia.
Qed.

Definition e1 : cstate := set_pc cinit 5 (PLock (CWrite 5 5)).
Definition e2 : cstate := set_pc (set_clocks e1 (<[kv_hash 5 := 5]> (c_locks e1))) 5 (PHead (CWrite 5 5)).
Definition e3 : cstate := set_pc e2 5 (PScan (CWrite 5 5) None).
Definition e4 : cstate := set_pc e3 5 (PAlloc 5 5).
Definition e5 : cstate := set_pc e4 5 (PUnlock 5 (-1)).
Definition e6 : cstate := set_pc (set_clocks e5 (delete (kv_hash 5) (c_locks e5))) 5 (PRet (-1)).

Lemma conc_no_memory : exists s, tc_runs conc_init s /\ t_failed s = Some (CWrite 5 5, -1).
Proof.
  destruct conc_started as (cl & Hr & H5).
  assert (Hc : conc_call 5 0 1 = CWrite 5 5) by reflexivity.
  exists (TConc (set_pc e6 5 Idle) (<[5 := At 1]> (<[5 := Calling 0 (CWrite 5 5)]> cl)) (Some (CWrite 5 5, -1))). split; [|done].
  etrans; [exact Hr|]. eapply rtc_l.
  { apply (tc_call 5 0 5 0 1 cinit e1 cl H5); [unfold CONC_ITERATIONS; lia|lia|lia|lia|]. rewrite Hc. by apply cs_invoke. }
  rewrite Hc. eapply rtc_l; [apply (tc_inside 5 _ e2); by apply (cs_lock _ _ (CWrite 5 5))|].
  eapply rtc_l; [apply (tc_inside 5 _ e3); apply (cs_head _ _ (CWrite 5 5) []); [done|apply demo_head]|].
  eapply rtc_l; [apply (tc_inside 5 _ e4); by apply (cs_end _ _ (CWrite 5 5))|].
  eapply rtc_l; [apply (tc_inside 5 _ e5); by apply (cs_alloc_fail _ _ 5 5)|].
  eapply rtc_l; [apply (tc_inside 5 _ e6); by apply (cs_unlock _ _ 5 (-1))|].
  apply rtc_once. apply (tc_return 5 0 (CWrite 5 5) (-1) e6); [apply lookup_insert_eq|]. by apply cs_return.
Qed.

Lemma test_concurrent_passes_witness : exists s, tc_runs conc_init s /\ exists k, t_failed s = Some (CWrite k k, -1).
Proof.
  destruct conc_no_memory as (s & Hr & Hf). exists s. split; [exact Hr|].
  destruct (test_concurrent_passes s (CWrite 5 5) (-1) Hr Hf) as [[k Hk] _]. exists k. rewrite Hf, Hk. reflexivity.
Defined.
