(* ===== verification/KVLua.v ===== *)
(** * The sysbench script of the store (syscall/kv_syscall/test2.lua)

    lua_event picks a key, a value and an operation at random and calls the Lua
    binding of KVClient.v.  What math.random returns is an argument;
    luaL_checkinteger, which the binding applies to its arguments, belongs to
    Lua and is a variable. *)

From S2P Require Import Prelude KVStore KVClient.

(** A Lua number: an integer, or the float n/d. *)
Inductive lua_number := LInt (z : Z) | LFlt (n d : Z).

(** The last key. *)
Definition LUA_MAX_KEY : Z := 2047.

Section Binding.
Context {T : Type} `{TaskKv T}.
Variable kmalloc : gset Z -> option Z.
Hypothesis Hk : kmalloc_fresh kmalloc.
Variable task : T.

(** The binding in front of the kernel is a service as the C wrappers are. *)
Program Definition lua_service : KvService kvmem := {|
  kv_put := lua_write_kv kmalloc task;
  kv_get := lua_read_kv kmalloc task;
  kv_ret := libc_syscall;
  kv_model m := kv_abs m (t_kv task);
  kv_ok := service_ok task |}.
Next Obligation. intros v Hv. unfold libc_syscall. case_match; lia. Qed.
Next Obligation. done. Qed.
Next Obligation.
  intros k v m Hok Hik Hiv. destruct (service_write kmalloc Hk task k v m Hok Hik Hiv) as (r & m' & E & Hok' & Hr).
  exists r, m'. split_and!; try done. unfold lua_write_kv, syscall, kernel_entry. simpl.
  unfold s32. rewrite !swrap_small, E; try done; [simpl; by destruct Hr as [[-> _]|[-> _]]|..]; by rewrite swrap_small.
Qed.
Next Obligation.
  intros k m [Hwf [s Es]] Hik. exists m. split_and!; try done. unfold lua_read_kv, syscall, kernel_entry. simpl.
  unfold s32. by rewrite !swrap_small, (read_kv_eq task k m s) by (rewrite ?swrap_small; done).
Qed.

End Binding.

Section Script.
Context {S : Type} `{KvService S}.
(** The integer an argument stands for; None raises an error. *)
Variable luaL_checkinteger : lua_number -> option Z.

Inductive lua_result := Returned | BadArgument | ErrorWriting (k : Z).

(** lua_event, with the results of the three calls of math.random; the third is 1
    for a write. *)
Definition lua_event (k : Z) (v : lua_number) (operation : Z) (s : S) : res (lua_result * S) :=
  if operation =? 1 then
    match luaL_checkinteger (LInt k), luaL_checkinteger v with
    | Some key, Some value =>
        let! (r, s') := kv_put key value s in
        if r =? -1 then Ok (ErrorWriting k, s') else Ok (Returned, s')
    | _, _ => Ok (BadArgument, s)
    end
  else
    match luaL_checkinteger (LInt k) with
    | Some key => let! (_, s') := kv_get key s in Ok (Returned, s')
    | None => Ok (BadArgument, s)
    end.

(** The events of all threads in the order they take effect, up to an error. *)
Fixpoint lua_events (es : list (Z * lua_number * Z)) (s : S) : res (lua_result * S) :=
  match es with
  | [] => Ok (Returned, s)
  | (k, v, operation) :: es =>
      let! (r, s') := lua_event k v operation s in
      match r with Returned => lua_events es s' | _ => Ok (r, s') end
  end.

(** math.random(0, MAX_KEY) is an integer, math.random() a float below one. *)
Definition random_args (e : Z * lua_number * Z) : Prop :=
  let '(k, v, _) := e in 0 <= k <= LUA_MAX_KEY /\ exists n d, v = LFlt n d /\ 0 <= n < d.

(** Integers are taken as they are; a float below one is cut to zero or
    refused, depending on the version of Lua. *)
Hypothesis Hint : forall z, luaL_checkinteger (LInt z) = Some z.
Hypothesis Hflt : forall n d, 0 <= n < d -> luaL_checkinteger (LFlt n d) = None \/ luaL_checkinteger (LFlt n d) = Some 0.

Definition all_zero (m : gmap Z Z) : Prop := map_Forall (fun k v => 0 <= k <= LUA_MAX_KEY /\ v = 0) m.

Lemma lua_event_zero e s :
  random_args e -> kv_ok s -> all_zero (kv_model s) ->
  let '(k, v, op) := e in
  exists r s', lua_event k v op s = Ok (r, s') /\ kv_ok s' /\ all_zero (kv_model s').
Proof.
  destruct e as [[k v] op]. intros [Hk (n & d & -> & Hnd)] Hok Hz. unfold lua_event. rewrite Hint.
  assert (Hik : in_s 32 k) by (unfold in_s, LUA_MAX_KEY in *; lia).
  destruct (op =? 1).
  - destruct (Hflt n d Hnd) as [-> | ->]; [by eauto|].
    destruct (kv_put_spec k 0 s Hok Hik) as (r & s' & -> & Hok' & Hr); [unfold in_s; lia|]. cbn [res_bind].
    assert (Hz' : all_zero (kv_model s')).
    { destruct Hr as [[_ ->]|[_ ->]]; [|done]. apply map_Forall_insert_2; done. }
    destruct (r =? -1); eauto 6.
  - destruct (kv_get_spec k s Hok Hik) as (s' & -> & Hok' & Hm). cbn [res_bind]. rewrite <- Hm in Hz. eauto 6.
Qed.

(** The script never puts anything but zero into the store: the value is a
    float below one. *)
Lemma lua_events_zero es s :
  Forall random_args es -> kv_ok s -> all_zero (kv_model s) ->
  exists r s', lua_events es s = Ok (r, s') /\ kv_ok s' /\ all_zero (kv_model s').
Proof.
  intros Hes. revert s. induction Hes as [|e es He _ IH]; intros s Hok Hz; [by eauto 6|].
  pose proof (lua_event_zero e s He Hok Hz) as Hev. destruct e as [[k v] op].
  destruct Hev as (r & s' & E & Hok' & Hz'). cbn [lua_events]. rewrite E. cbn [res_bind].
  destruct r; [by apply IH|eauto 6|eauto 6].
Qed.

End Script.
