(* ===== verification/VdsoMap.v ===== *)
(** * Mapping the vDSO, the vvar pages and the task window
      (arch/x86/entry/vdso/vma.c)

    The address space of a process is a list of VMAs together with the fields
    of mm->context the file uses.  The operations of the memory manager that
    map_vdso calls (get_unmapped_area, _install_special_mapping, do_munmap)
    are the operations of the class [MmOps]; [MmLaws] states what they are
    documented to do.  The vDSO images, which the build generates, are
    arguments. *)

From S2P Require Import Prelude.

(** ** Data *)

(** The fields of struct vdso_image the file reads; [img_addr] is the address
    of the structure, which identifies an image. *)
Record vdso_image := VdsoImage {
  img_addr : Z;
  img_data : Z;
  img_size : Z;
  sym_vvar_start : Z;
  sym_vvar_page : Z;
  sym_pvclock_page : Z;
  sym_hvclock_page : Z;
  sym_timens_page : Z;
  sym_int80_landing_pad : Z;
  sym_vdso32_sigreturn_landing_pad : Z;
  sym_vdso32_rt_sigreturn_landing_pad : Z;
}.

(** The three struct vm_special_mapping of the file. *)
Inductive special := vdso_mapping | vvar_mapping | vtask_mapping.

#[global] Instance special_eq_dec : EqDecision special.
Proof. solve_decision. Defined.

Record vm_area := Vma {
  vm_start : Z;
  vm_end : Z;
  vm_flags : list vm_flag;
  vm_special : option special;
}.

Record mm_struct := Mm {
  mmap : list vm_area;
  ctx_vdso : Z;
  ctx_image : option vdso_image;
  start_stack : Z;
  mmap_locked : bool;
}.

Definition set_locked (b : bool) (mm : mm_struct) : mm_struct :=
  Mm (mmap mm) (ctx_vdso mm) (ctx_image mm) (start_stack mm) b.

Definition set_context (vdso : Z) (image : option vdso_image) (mm : mm_struct) : mm_struct :=
  Mm (mmap mm) vdso image (start_stack mm) (mmap_locked mm).

Definition vma_is_special_mapping (v : vm_area) (s : special) : bool :=
  bool_decide (vm_special v = Some s).

(** ** What the memory manager provides *)

Class MmOps := {
  get_unmapped_area : mm_struct -> Z -> Z -> Z;
  install_special_mapping : mm_struct -> Z -> Z -> list vm_flag -> special -> mm_struct + Z;
  do_munmap : mm_struct -> Z -> Z -> mm_struct;
}.

Definition apart (v : vm_area) (a len : Z) : Prop := vm_end v <= a \/ a + len <= vm_start v.
Definition inside (v : vm_area) (a len : Z) : Prop := a <= vm_start v /\ vm_end v <= a + len.

#[global] Instance apart_dec v a len : Decision (apart v a len).
Proof. unfold apart. apply _. Defined.

(** The end of the user address space, TASK_SIZE_MAX of x86-64. *)
Definition TASK_SIZE : Z := 2 ^ 47 - PAGE_SIZE.

(** Two address spaces that differ at most in their VMAs. *)
Definition same_context (m m' : mm_struct) : Prop :=
  ctx_vdso m' = ctx_vdso m /\ ctx_image m' = ctx_image m /\
  start_stack m' = start_stack m /\ mmap_locked m' = mmap_locked m.

Class MmLaws `{MmOps} : Prop := {
  gua_range : forall mm a len, in_u 64 (get_unmapped_area mm a len);
  gua_free : forall mm a len, 0 < len -> IS_ERR_VALUE (get_unmapped_area mm a len) = false ->
    let r := get_unmapped_area mm a len in
    r mod PAGE_SIZE = 0 /\ r + len <= TASK_SIZE /\ Forall (fun v => apart v r len) (mmap mm);
  install_ok : forall mm a len fl s mm', install_special_mapping mm a len fl s = inl mm' ->
    same_context mm mm' /\
    exists fl', fl ⊆ fl' /\ mmap mm' ≡ₚ Vma a (a + len) fl' (Some s) :: mmap mm;
  install_err : forall mm a len fl s e, install_special_mapping mm a len fl s = inr e ->
    - MAX_ERRNO <= e < 0;
  munmap_whole : forall mm a len,
    Forall (fun v => vm_start v < vm_end v /\ (inside v a len \/ apart v a len)) (mmap mm) ->
    same_context mm (do_munmap mm a len) /\
    mmap (do_munmap mm a len) = filter (fun v => apart v a len) (mmap mm);
}.

(** ** Operations *)

(** BUG_ON(image->size % PAGE_SIZE != 0); the alternatives patched into the
    image do not concern its layout. *)
Definition init_vdso_image (image : vdso_image) : res unit :=
  if nonzero (img_size image mod PAGE_SIZE) then Fault BugOn else Ok tt.

Section Vma.
Context `{MmOps}.

(** sizeof(struct task_struct) of the build. *)
Variable sizeof_task_struct : Z.

Definition VTASK_SIZE : Z := u64 (ALIGN sizeof_task_struct PAGE_SIZE + PAGE_SIZE).

(** The three installations of map_vdso with their unwinding; what remains is
    the label up_fail. *)
Definition install_areas (image : vdso_image) (vtask_start vvar_start vvar_size text_start : Z)
  (mm : mm_struct) : Z * mm_struct :=
  match install_special_mapping mm text_start (img_size image)
          [VM_READ; VM_EXEC; VM_MAYREAD; VM_MAYWRITE; VM_MAYEXEC] vdso_mapping with
  | inr e => (e, mm)
  | inl mm1 =>
      match install_special_mapping mm1 vvar_start vvar_size
              [VM_READ; VM_MAYREAD; VM_IO; VM_DONTDUMP; VM_PFNMAP] vvar_mapping with
      | inr e => (e, do_munmap mm1 text_start (img_size image))
      | inl mm2 =>
          match install_special_mapping mm2 vtask_start VTASK_SIZE
                  [VM_READ; VM_MAYREAD; VM_DONTDUMP; VM_IO; VM_PFNMAP; VM_WIPEONFORK]
                  vtask_mapping with
          | inr e =>
              let mm3 := do_munmap mm2 text_start (img_size image) in
              (e, do_munmap mm3 vvar_start vvar_size)
          | inl mm3 => (0, set_context text_start (Some image) mm3)
          end
      end
  end.

(** map_vdso; [killed] says that mmap_write_lock_killable was interrupted. *)
Definition map_vdso (killed : bool) (image : vdso_image) (addr : Z) (mm : mm_struct)
  : Z * mm_struct :=
  let vvar_size := u64 (- sym_vvar_start image) in
  if killed then (- EINTR, mm)
  else
    let mm := set_locked true mm in
    let addr := get_unmapped_area mm addr
                  (u64 (img_size image - sym_vvar_start image + VTASK_SIZE)) in
    let '(ret, mm) :=
      if IS_ERR_VALUE addr then (s32 addr, mm)
      else
        let vtask_start := addr in
        let vvar_start := u64 (addr + VTASK_SIZE) in
        let text_start := u64 (addr + VTASK_SIZE + vvar_size) in
        install_areas image vtask_start vvar_start vvar_size text_start mm in
    (ret, set_locked false mm).

Definition PMD_SIZE : Z := 2 ^ 21.
Definition PMD_MASK : Z := Z.lnot (PMD_SIZE - 1).
Definition DEFAULT_MAP_WINDOW : Z := 2 ^ 47 - PAGE_SIZE.

Variable align_vdso_addr : Z -> Z.

(** vdso_addr with [random] the result of get_random_int(); [start] is an
    unsigned long, [len] an unsigned int. *)
Definition vdso_addr (random start len : Z) : Z :=
  let start := u64 (PAGE_ALIGN start) in
  let end_ := Z.land (u64 (start + len + PMD_SIZE - 1)) PMD_MASK in
  let end_ := if DEFAULT_MAP_WINDOW <=? end_ then DEFAULT_MAP_WINDOW else end_ in
  let end_ := u64 (end_ - len) in
  let addr :=
    if start <? end_ then
      let offset := u32 (random mod (Z.shiftr (end_ - start) PAGE_SHIFT + 1)) in
      u64 (start + u32 (Z.shiftl offset PAGE_SHIFT))
    else start in
  align_vdso_addr addr.

Definition map_vdso_randomized (random : Z) (killed : bool) (image : vdso_image) (mm : mm_struct)
  : Z * mm_struct :=
  let addr := vdso_addr random (start_stack mm) (u32 (img_size image - sym_vvar_start image)) in
  map_vdso killed image addr mm.

(** The loop over mm->mmap of map_vdso_once. *)
Definition already_mapped (mm : mm_struct) : bool :=
  existsb (fun v => vma_is_special_mapping v vdso_mapping || vma_is_special_mapping v vvar_mapping)
    (mmap mm).

Definition map_vdso_once (killed : bool) (image : vdso_image) (addr : Z) (mm : mm_struct)
  : Z * mm_struct :=
  if already_mapped mm then (- EEXIST, mm) else map_vdso killed image addr mm.

(** ** Entry points *)

Record vdso_config := VdsoConfig {
  CONFIG_X86_64 : bool;
  CONFIG_IA32_EMULATION : bool;
  CONFIG_COMPAT : bool;
  CONFIG_X86_X32_ABI : bool;
}.

(** The generated images and the two variables vdso64_enabled, vdso32_enabled. *)
Variables vdso_image_64 vdso_image_32 vdso_image_x32 : vdso_image.

Definition load_vdso32 (vdso32_enabled : Z) (killed : bool) (mm : mm_struct) : Z * mm_struct :=
  if negb (vdso32_enabled =? 1) then (0, mm) else map_vdso killed vdso_image_32 0 mm.

Definition arch_setup_additional_pages (cfg : vdso_config) (vdso64_enabled vdso32_enabled random : Z)
  (killed : bool) (mm : mm_struct) : Z * mm_struct :=
  if CONFIG_X86_64 cfg then
    if vdso64_enabled =? 0 then (0, mm) else map_vdso_randomized random killed vdso_image_64 mm
  else load_vdso32 vdso32_enabled killed mm.

(** vdso_setup: the boot option vdso=; vdso64_enabled is an unsigned int. *)
Definition vdso_setup (simple_strtoul : string -> Z) (s : string) : Z := u32 (simple_strtoul s).

Lemma vdso_disabled simple_strtoul s cfg vdso32 random killed mm :
  CONFIG_X86_64 cfg = true -> simple_strtoul s = 0 ->
  arch_setup_additional_pages cfg (vdso_setup simple_strtoul s) vdso32 random killed mm = (0, mm).
Proof. intros Hc Hs. unfold arch_setup_additional_pages, vdso_setup. by rewrite Hc, Hs. Qed.

Definition compat_arch_setup_additional_pages (cfg : vdso_config)
  (vdso64_enabled vdso32_enabled random : Z) (x32 killed : bool) (mm : mm_struct) : Z * mm_struct :=
  if CONFIG_X86_X32_ABI cfg && x32 then
    if vdso64_enabled =? 0 then (0, mm) else map_vdso_randomized random killed vdso_image_x32 mm
  else if CONFIG_IA32_EMULATION cfg then load_vdso32 vdso32_enabled killed mm
  else (0, mm).

(** vdso_fix_landing: the new instruction pointer; [ia32] is in_ia32_syscall(). *)
Definition vdso_fix_landing (cfg : vdso_config) (ia32 : bool) (image : option vdso_image)
  (new_vma : vm_area) (mm : mm_struct) (ip : Z) : Z :=
  match image with
  | Some im =>
      if (negb (CONFIG_X86_64 cfg) || CONFIG_IA32_EMULATION cfg) && ia32 &&
         (img_addr im =? img_addr vdso_image_32) then
        let vdso_land := sym_int80_landing_pad im in
        let old_land_addr := u64 (vdso_land + ctx_vdso mm) in
        if ip =? old_land_addr then u64 (vm_start new_vma + vdso_land) else ip
      else ip
  | None => ip
  end.

Definition vdso_mremap (cfg : vdso_config) (ia32 : bool) (new_vma : vm_area) (mm : mm_struct) (ip : Z)
  : Z * mm_struct * Z :=
  let image := ctx_image mm in
  let ip' := vdso_fix_landing cfg ia32 image new_vma mm ip in
  (0, set_context (vm_start new_vma) image mm, ip').

Definition arch_syscall_is_vdso_sigreturn (cfg : vdso_config) (ia32 : bool) (mm : mm_struct) (ip : Z)
  : bool :=
  match ctx_image mm with
  | Some im =>
      (negb (CONFIG_X86_64 cfg) || CONFIG_IA32_EMULATION cfg) && ia32 &&
      (img_addr im =? img_addr vdso_image_32) &&
      ((ip =? u64 (ctx_vdso mm + sym_vdso32_sigreturn_landing_pad im)) ||
       (ip =? u64 (ctx_vdso mm + sym_vdso32_rt_sigreturn_landing_pad im)))
  | None => false
  end.

Definition init_vdso (cfg : vdso_config) : res Z :=
  let! _ := init_vdso_image vdso_image_64 in
  let! _ := if CONFIG_X86_X32_ABI cfg then init_vdso_image vdso_image_x32 else Ok tt in
  Ok 0.

End Vma.

(** ** Mapping is all or nothing *)

(** The layout invariants of a built image: whole pages of text above a
    non-empty vvar area. *)
Record image_wf (image : vdso_image) : Prop := {
  iw_size : 0 < img_size image < 2 ^ 31;
  iw_size_page : img_size image mod PAGE_SIZE = 0;
  iw_vvar : - 2 ^ 31 < sym_vvar_start image < 0;
  iw_vvar_page : sym_vvar_start image mod PAGE_SIZE = 0;
}.

Definition vmas_ok (l : list vm_area) : Prop := Forall (fun v => vm_start v < vm_end v) l.

(** The three areas map_vdso lays out from [base] upwards. *)
Record vdso_layout (sizeof base : Z) (image : vdso_image) (vtask vvar text : vm_area) : Prop := {
  vl_base : base mod PAGE_SIZE = 0 /\ 0 <= base;
  vl_vtask : vm_start vtask = base /\ vm_end vtask = base + VTASK_SIZE sizeof;
  vl_vvar : vm_start vvar = vm_end vtask /\ vm_end vvar = vm_start vvar - sym_vvar_start image;
  vl_text : vm_start text = vm_end vvar /\ vm_end text = vm_start text + img_size image;
  vl_end : vm_end text <= TASK_SIZE;
  vl_special : vm_special vtask = Some vtask_mapping /\ vm_special vvar = Some vvar_mapping /\
    vm_special text = Some vdso_mapping;
  vl_wipe : VM_WIPEONFORK ∈ vm_flags vtask;
  vl_write : [VM_READ; VM_MAYREAD; VM_IO; VM_PFNMAP] ⊆ vm_flags vtask;
}.

Lemma VTASK_SIZE_spec n :
  0 < n < 2 ^ 31 ->
  VTASK_SIZE n mod PAGE_SIZE = 0 /\ n + PAGE_SIZE <= VTASK_SIZE n < n + 2 * PAGE_SIZE.
Proof.
  intros Hn. unfold VTASK_SIZE. destruct (PAGE_ALIGN_spec n) as [Hr Hm].
  change (ALIGN n PAGE_SIZE) with (PAGE_ALIGN n). unfold u64. rewrite uwrap_small.
  - split; [|lia]. rewrite Z.add_mod, Hm by done. done.
  - unfold PAGE_SIZE, in_u in *. lia.
Qed.

Lemma same_context_refl m : same_context m m.
Proof. by repeat split. Qed.

Lemma same_context_trans m1 m2 m3 :
  same_context m1 m2 -> same_context m2 m3 -> same_context m1 m3.
Proof. unfold same_context. intuition congruence. Qed.

#[export] Hint Resolve same_context_refl same_context_trans : kernel.

Section Atomic.
Context `{MmLaws}.

(** do_munmap of exactly one installed area takes the installation back. *)
Lemma munmap_undo mm l a len fl s :
  0 < len -> vmas_ok l -> Forall (fun v => apart v a len) l ->
  mmap mm ≡ₚ Vma a (a + len) fl (Some s) :: l ->
  same_context mm (do_munmap mm a len) /\ mmap (do_munmap mm a len) ≡ₚ l.
Proof.
  intros Hlen Hok Hap Hp. destruct (munmap_whole mm a len) as [Hc E].
  - rewrite Hp. constructor; [split; [simpl; lia|left; unfold inside; simpl; lia]|].
    eapply Forall_impl; [apply Forall_and; split; [exact Hok|exact Hap]|]. simpl. naive_solver.
  - split; [done|]. rewrite E, Hp, filter_cons_False by (unfold apart; simpl; lia).
    by rewrite filter_all.
Qed.

Lemma install_areas_spec sizeof image b vs t mm :
  0 < VTASK_SIZE sizeof -> 0 < vs -> 0 < img_size image -> vmas_ok (mmap mm) ->
  t = b + VTASK_SIZE sizeof + vs ->
  Forall (fun v => apart v b (VTASK_SIZE sizeof + vs + img_size image)) (mmap mm) ->
  exists ret mm', install_areas sizeof image b (b + VTASK_SIZE sizeof) vs t mm = (ret, mm') /\
    ((ret = 0 /\ exists f1 f2 f3, mmap mm' ≡ₚ
        [Vma b (b + VTASK_SIZE sizeof) f1 (Some vtask_mapping);
         Vma (b + VTASK_SIZE sizeof) t f2 (Some vvar_mapping);
         Vma t (t + img_size image) f3 (Some vdso_mapping)] ++ mmap mm /\
        [VM_READ; VM_MAYREAD; VM_DONTDUMP; VM_IO; VM_PFNMAP; VM_WIPEONFORK] ⊆ f1 /\
        ctx_vdso mm' = t /\ ctx_image mm' = Some image /\ mmap_locked mm' = mmap_locked mm) \/
     (- MAX_ERRNO <= ret < 0 /\ mmap mm' ≡ₚ mmap mm /\ same_context mm mm')).
Proof.
  set (VT := VTASK_SIZE sizeof). intros HVT Hvs Hsz Hok Et Hap. unfold install_areas. fold VT.
  destruct (install_special_mapping mm t _ _ _) as [mm1|e] eqn:E1.
  2: { eexists _, _. split; [done|]. right. apply install_err in E1. auto with kernel. }
  apply install_ok in E1 as (C1 & f3 & _ & P1).
  assert (Hat : Forall (fun v => apart v t (img_size image)) (mmap mm))
    by (eapply Forall_impl; [exact Hap|]; unfold apart; simpl; lia).
  assert (Hav : Forall (fun v => apart v (b + VT) vs) (mmap mm))
    by (eapply Forall_impl; [exact Hap|]; unfold apart; simpl; lia).
  destruct (install_special_mapping mm1 _ _ _ _) as [mm2|e] eqn:E2.
  2: { eexists _, _. split; [done|]. right. apply install_err in E2.
       destruct (munmap_undo mm1 (mmap mm) t (img_size image) f3 vdso_mapping) as [C2 P2]; eauto with kernel. }
  apply install_ok in E2 as (C2 & f2 & _ & P2). rewrite P1 in P2.
  destruct (install_special_mapping mm2 _ _ _ _) as [mm3|e] eqn:E3.
  - apply install_ok in E3 as (C3 & f1 & Hf1 & P3). rewrite P2 in P3.
    eexists _, _. split; [done|]. left. split; [done|]. exists f1, f2, f3. simpl.
    unfold same_context in *. split_and!; try done; [|naive_solver congruence].
    rewrite P3. replace t with (b + VT + vs) by lia. done.
  - apply install_err in E3. eexists _, _. split; [done|]. right. split; [done|].
    destruct (munmap_undo mm2 (Vma (b + VT) (b + VT + vs) f2 (Some vvar_mapping) :: mmap mm)
                t (img_size image) f3 vdso_mapping) as [C3 P3]; [done| | | |].
    + constructor; [simpl; lia|done].
    + constructor; [unfold apart; simpl; lia|done].
    + rewrite P2. constructor.
    + destruct (munmap_undo (do_munmap mm2 t (img_size image)) (mmap mm) (b + VT) vs f2 vvar_mapping)
        as [C4 P4]; try done. eauto 6 with kernel.
Qed.

Lemma map_vdso_spec sizeof killed image addr mm :
  image_wf image -> 0 < sizeof < 2 ^ 31 -> vmas_ok (mmap mm) -> mmap_locked mm = false ->
  exists ret mm', map_vdso sizeof killed image addr mm = (ret, mm') /\ mmap_locked mm' = false /\
    ((ret = 0 /\ exists base vtask vvar text,
        vdso_layout sizeof base image vtask vvar text /\
        mmap mm' ≡ₚ [vtask; vvar; text] ++ mmap mm /\
        Forall (fun v => apart v base (vm_end text - base)) (mmap mm) /\
        ctx_vdso mm' = vm_start text /\ ctx_image mm' = Some image) \/
     (- MAX_ERRNO <= ret < 0 /\ mmap mm' ≡ₚ mmap mm /\ same_context mm mm')).
Proof.
  intros [Hsz Hszp Hvv Hvvp] Hso Hok Hlk. destruct (VTASK_SIZE_spec sizeof Hso) as [Hvt Hvt'].
  unfold map_vdso. destruct killed.
  { eexists _, _. split; [done|]. split; [done|]. right. unfold EINTR, MAX_ERRNO. split; [lia|].
    auto with kernel. }
  set (VT := VTASK_SIZE sizeof) in *. unfold PAGE_SIZE in *.
  assert (Ev : u64 (- sym_vvar_start image) = - sym_vvar_start image) by (apply uwrap_small; unfold in_u; lia).
  assert (El : u64 (img_size image - sym_vvar_start image + VT) = img_size image - sym_vvar_start image + VT)
    by (apply uwrap_small; unfold in_u; lia).
  rewrite Ev, El. set (len := img_size image - sym_vvar_start image + VT).
  pose proof (gua_range (set_locked true mm) addr len) as Hr.
  pose proof (gua_free (set_locked true mm) addr len) as Hf.
  set (b := get_unmapped_area (set_locked true mm) addr len) in *. destruct (IS_ERR_VALUE b) eqn:Eb.
  { eexists _, _. split; [done|]. split; [done|]. right. split; [by apply IS_ERR_VALUE_s32|].
    by repeat split. }
  destruct Hf as (Hbp & Hbe & Hap); [lia|done|]. unfold TASK_SIZE, PAGE_SIZE, in_u in *.
  unfold u64. rewrite (uwrap_small 64 (b + VT)) by (unfold in_u; lia).
  rewrite (uwrap_small 64 (b + VT + - sym_vvar_start image)) by (unfold in_u; lia).
  set (t := b + VT + - sym_vvar_start image).
  destruct (install_areas_spec sizeof image b (- sym_vvar_start image) t (set_locked true mm))
    as (ret & mm' & E & Hret); [lia..|done|done| |].
  { eapply Forall_impl; [exact Hap|]. unfold apart, len. fold VT. simpl. lia. }
  fold VT in E. rewrite E. exists ret, (set_locked false mm'). split; [done|]. split; [done|].
  destruct Hret as [(-> & f1 & f2 & f3 & P & Hf1 & Hc1 & Hc2 & _)|(Hr' & P & Hc)]; [left|right].
  - split; [done|]. do 4 eexists. split_and!; [|exact P| |done|done].
    + split; simpl; try done; fold VT; try (unfold TASK_SIZE, PAGE_SIZE); try lia.
      * apply Hf1. set_solver.
      * set_solver.
    + eapply Forall_impl; [exact Hap|]. unfold apart, len, t. simpl. lia.
  - destruct Hc as (? & ? & ? & ?). unfold same_context. simpl in *. split_and!; done || lia.
Qed.

End Atomic.

(** C9: map_vdso installs all three areas or none.  For every result of the
    memory manager it calls, it releases the mmap lock and either returns 0
    with the task window, the vvar area and the text adjacent to each other in
    this order, page aligned, apart from every VMA that was there and inside
    the user address space, the window being wiped on fork and not writable,
    and the context pointing at the text; or it returns a negative errno with
    the VMAs and the context as they were. *)
Theorem map_vdso_all_or_nothing `{MmLaws} sizeof killed image addr mm :
  image_wf image -> 0 < sizeof < 2 ^ 31 -> vmas_ok (mmap mm) -> mmap_locked mm = false ->
  exists ret mm', map_vdso sizeof killed image addr mm = (ret, mm') /\ mmap_locked mm' = false /\
    ((ret = 0 /\ exists base vtask vvar text,
        vdso_layout sizeof base image vtask vvar text /\
        mmap mm' ≡ₚ [vtask; vvar; text] ++ mmap mm /\
        Forall (fun v => apart v base (vm_end text - base)) (mmap mm) /\
        ctx_vdso mm' = vm_start text /\ ctx_image mm' = Some image) \/
     (- MAX_ERRNO <= ret < 0 /\ mmap mm' ≡ₚ mmap mm /\ same_context mm mm')).
Proof. apply map_vdso_spec. Qed.

(** ** At most one vDSO per address space *)

Lemma already_mapped_true mm v s :
  v ∈ mmap mm -> vm_special v = Some s -> s = vdso_mapping \/ s = vvar_mapping ->
  already_mapped mm = true.
Proof.
  intros Hv Es Hs. unfold already_mapped. apply existsb_exists. exists v. split; [by apply list_elem_of_In|].
  unfold vma_is_special_mapping. rewrite Es. by destruct Hs as [-> | ->].
Qed.

(** Map_vdso_once maps at most once.  When the address space holds a
    vdso or vvar area it returns -EEXIST and changes nothing; a call that
    returns 0 makes every later call, for any image and address, return
    -EEXIST. *)
Theorem map_vdso_once_exclusive `{MmLaws} sizeof killed image addr mm :
  image_wf image -> 0 < sizeof < 2 ^ 31 -> vmas_ok (mmap mm) -> mmap_locked mm = false ->
  let '(ret, mm') := map_vdso_once sizeof killed image addr mm in
  (already_mapped mm = true -> ret = - EEXIST /\ mm' = mm) /\
  (ret = 0 -> forall killed2 image2 addr2,
     map_vdso_once sizeof killed2 image2 addr2 mm' = (- EEXIST, mm')).
Proof.
  intros Hi Hs Hok Hlk. unfold map_vdso_once at 1. destruct (already_mapped mm) eqn:Ea; [done|].
  destruct (map_vdso_spec sizeof killed image addr mm Hi Hs Hok Hlk)
    as (ret & mm' & -> & _ & Hr). split; [done|]. intros -> killed2 image2 addr2.
  destruct Hr as [(_ & base & vtask & vvar & text & Hl & P & _)|[? _]]; [|lia].
  unfold map_vdso_once. rewrite (already_mapped_true mm' text vdso_mapping); [done| | |by left].
  - rewrite P. set_solver.
  - apply (vl_special _ _ _ _ _ _ Hl).
Qed.

(** ** Where the randomised vDSO goes *)

(** The lowest PMD boundary at or above [x]. *)
Definition pmd_up (x : Z) : Z := ALIGN x PMD_SIZE.

Lemma vdso_addr_end s len :
  0 <= s <= 2 ^ 47 -> 0 < len < 2 ^ 31 ->
  Z.land (u64 (s + len + PMD_SIZE - 1)) PMD_MASK = pmd_up (s + len).
Proof.
  intros Hs Hl. unfold u64. rewrite uwrap_small by (unfold PMD_SIZE, in_u; lia).
  unfold pmd_up, ALIGN, PMD_MASK. f_equal. lia.
Qed.

Lemma pmd_up_spec x : x <= pmd_up x < x + PMD_SIZE /\ pmd_up x mod PMD_SIZE = 0.
Proof. apply (ALIGN_spec x 21). lia. Qed.

(** The offset computation does not overflow its 32-bit unsigned. *)
Lemma vdso_offset random d :
  0 <= random -> 0 < d <= PMD_SIZE -> d mod PAGE_SIZE = 0 ->
  let offset := u32 (random mod (Z.shiftr d PAGE_SHIFT + 1)) in
  u32 (Z.shiftl offset PAGE_SHIFT) = random mod (d / PAGE_SIZE + 1) * PAGE_SIZE.
Proof.
  intros Hr Hd Hm. unfold PMD_SIZE, PAGE_SIZE, PAGE_SHIFT in *. cbv zeta.
  rewrite Z.shiftr_div_pow2, Z.shiftl_mul_pow2 by lia. change (2 ^ 12) with 4096.
  pose proof (Z.mod_pos_bound random (d / 4096 + 1)).
  assert (0 <= d / 4096 <= 512) by zmod_lia.
  unfold u32. rewrite (uwrap_small 32 (random mod _)) by (unfold in_u; lia).
  apply uwrap_small. unfold in_u. lia.
Qed.

Lemma vdso_addr_eq align random start len :
  0 <= start <= 2 ^ 47 - PAGE_SIZE -> 0 < len < 2 ^ 31 -> len mod PAGE_SIZE = 0 -> 0 <= random ->
  let s := PAGE_ALIGN start in
  s + len <= DEFAULT_MAP_WINDOW ->
  let d := Z.min (pmd_up (s + len)) DEFAULT_MAP_WINDOW - len - s in
  0 <= d /\ d mod PAGE_SIZE = 0 /\
  vdso_addr align random start len = align (s + random mod (d / PAGE_SIZE + 1) * PAGE_SIZE).
Proof.
  intros Hs Hl Hlp Hr s Hw d. destruct (PAGE_ALIGN_spec start) as [Hsa Hsp]. fold s in Hsa, Hsp.
  destruct (pmd_up_spec (s + len)) as [Hp Hpm].
  assert (Hpp : pmd_up (s + len) mod PAGE_SIZE = 0) by (unfold PMD_SIZE, PAGE_SIZE in *; zmod_lia).
  assert (Hd : 0 <= d) by (unfold d; lia).
  assert (Hdm : d mod PAGE_SIZE = 0) by (unfold d, DEFAULT_MAP_WINDOW, PAGE_SIZE in *; zmod_lia).
  split; [done|]. split; [done|]. unfold vdso_addr. fold s.
  unfold DEFAULT_MAP_WINDOW, PMD_SIZE, PAGE_SIZE in *.
  rewrite (u64_small s) by (unfold in_u; lia). rewrite vdso_addr_end by lia.
  set (e := if _ <=? _ then _ else _).
  assert (Ee : e = Z.min (pmd_up (s + len)) (2 ^ 47 - 4096)) by (unfold e; case_match; lia).
  rewrite (u64_small (e - len)) by (unfold in_u; lia). replace (e - len - s) with d by lia.
  f_equal. destruct (Z.ltb_spec s (e - len)).
  - rewrite vdso_offset by (unfold PMD_SIZE, PAGE_SIZE; lia). unfold PAGE_SIZE.
    apply u64_small. pose proof (Z.mod_pos_bound random (d / 4096 + 1)).
    assert (d / 4096 <= 512) by zmod_lia. unfold in_u. zmod_lia.
  - replace d with 0 by lia. change (0 / 4096 + 1) with 1. rewrite Z.mod_1_r. lia.
Qed.

(** Vdso_addr keeps the area it is asked for, [len] bytes, at or above
    the page-aligned stack start, page aligned, below DEFAULT_MAP_WINDOW and
    within the page table of the stack top: it ends no later than the first
    PMD boundary after the lowest possible end.  The bound is tight: unless
    the window cuts it off, some random draw makes the area end exactly on
    that boundary, so the VTASK_SIZE bytes more that map_vdso asks for, which
    map_vdso_randomized leaves out of [len], cross it. *)
Theorem vdso_addr_bounds align random start len :
  0 <= start <= 2 ^ 47 - PAGE_SIZE -> 0 < len < 2 ^ 31 -> len mod PAGE_SIZE = 0 -> 0 <= random ->
  let s := PAGE_ALIGN start in
  s + len <= DEFAULT_MAP_WINDOW ->
  (exists a, vdso_addr align random start len = align a /\
     s <= a /\ a mod PAGE_SIZE = 0 /\ a + len <= pmd_up (s + len) /\ a + len <= DEFAULT_MAP_WINDOW) /\
  (pmd_up (s + len) < DEFAULT_MAP_WINDOW ->
   exists random' a, 0 <= random' /\ vdso_addr align random' start len = align a /\
     a + len = pmd_up (s + len)).
Proof.
  intros Hs Hl Hlp Hr s Hw. destruct (PAGE_ALIGN_spec start) as [Hsa Hsp]. fold s in Hsa, Hsp.
  pose proof (fun r Hr => vdso_addr_eq align r start len Hs Hl Hlp Hr Hw) as Heq.
  cbv zeta in Heq. fold s in Heq. set (e := pmd_up (s + len)) in *.
  set (d := Z.min e DEFAULT_MAP_WINDOW - len - s) in *. split.
  - destruct (Heq random Hr) as (Hd & Hdm & E). eexists. split; [exact E|]. clear E Heq.
    pose proof (Z.mod_pos_bound random (d / PAGE_SIZE + 1)) as Hb.
    assert (d = d / PAGE_SIZE * PAGE_SIZE) by (unfold PAGE_SIZE in *; zmod_lia).
    set (q := random mod _) in *. unfold PAGE_SIZE in *. split_and!; [lia|zmod_lia|lia|lia].
  - intros He. exists (d / PAGE_SIZE). destruct (Heq (d / PAGE_SIZE)) as (Hd & Hdm & E).
    { destruct (Heq 0) as (? & _ & _); [lia|]. unfold PAGE_SIZE. zmod_lia. }
    eexists. split; [unfold PAGE_SIZE; zmod_lia|]. split; [exact E|]. clear E Heq.
    rewrite Z.mod_small by (unfold PAGE_SIZE in *; zmod_lia). unfold PAGE_SIZE in *. zmod_lia.
Qed.

(** ** A concrete memory manager and the witnesses *)

(** First free page above every VMA, VMAs kept in a list. *)
Definition top_of (l : list vm_area) : Z := foldr (fun v r => Z.max (PAGE_ALIGN (vm_end v)) r) 0 l.

#[local] Instance simple_mm : MmOps := {
  get_unmapped_area mm a len :=
    if (top_of (mmap mm) <=? TASK_SIZE) && (top_of (mmap mm) + len <=? TASK_SIZE) then top_of (mmap mm) else 2 ^ 64 - ENOMEM;
  install_special_mapping mm a len fl s :=
    inl (Mm (Vma a (a + len) fl (Some s) :: mmap mm) (ctx_vdso mm) (ctx_image mm)
           (start_stack mm) (mmap_locked mm));
  do_munmap mm a len :=
    Mm (filter (fun v => apart v a len) (mmap mm)) (ctx_vdso mm) (ctx_image mm)
      (start_stack mm) (mmap_locked mm);
}.

Lemma top_of_spec l :
  0 <= top_of l /\ top_of l mod PAGE_SIZE = 0 /\ Forall (fun v => vm_end v <= top_of l) l.
Proof.
  induction l as [|v l (H0 & Hm & Hf)]; [by vm_compute|]. cbn [top_of foldr]. fold (top_of l).
  destruct (PAGE_ALIGN_spec (vm_end v)) as [Hv Hvm]. split_and!; [lia| |].
  - destruct (Z.max_spec (PAGE_ALIGN (vm_end v)) (top_of l)) as [[_ ->]|[_ ->]]; done.
  - constructor; [lia|]. eapply Forall_impl; [exact Hf|]. simpl. lia.
Qed.

#[local] Instance simple_mm_laws : MmLaws.
Proof.
  split; simpl.
  - intros mm a len. destruct (top_of_spec (mmap mm)) as (H0 & _ & _).
    unfold TASK_SIZE, PAGE_SIZE, ENOMEM, in_u in *.
    destruct (Z.leb_spec (top_of (mmap mm)) (2 ^ 47 - 4096)); cbn [andb]; [case_match|]; lia.
  - intros mm a len Hl. destruct (top_of_spec (mmap mm)) as (H0 & Hm & Hf).
    destruct (andb _ _) eqn:E; [|intros [=]]. apply andb_true_iff in E as [_ E%Z.leb_le]. intros _.
    split; [exact Hm|]. split; [exact E|]. eapply Forall_impl; [exact Hf|]. unfold apart. auto.
  - intros mm a len fl s mm' [= <-]. split; [by repeat split|]. by exists fl.
  - done.
  - intros mm a len _. by repeat split.
Qed.

Definition demo_image : vdso_image :=
  VdsoImage 1 0 (2 * PAGE_SIZE) (-4 * PAGE_SIZE) (-4 * PAGE_SIZE) (-3 * PAGE_SIZE) (-2 * PAGE_SIZE)
    (- PAGE_SIZE) 0 0 0.

Definition demo_mm : mm_struct := Mm [Vma 4096 8192 [VM_READ] None] 0 None 20480 false.

Lemma demo_image_wf : image_wf demo_image.
Proof. split; vm_compute; intuition congruence. Qed.

Lemma demo_mm_ok : vmas_ok (mmap demo_mm).
Proof. repeat constructor. Qed.

Lemma map_vdso_all_or_nothing_witness :
  exists ret mm', map_vdso 9792 false demo_image 0 demo_mm = (ret, mm') /\ mmap_locked mm' = false.
Proof.
  destruct (map_vdso_all_or_nothing 9792 false demo_image 0 demo_mm demo_image_wf)
    as (ret & mm' & E & Hl & _).
  - lia.
  - apply demo_mm_ok.
  - reflexivity.
  - exists ret, mm'. split; [exact E|exact Hl].
Defined.

Lemma map_vdso_once_exclusive_witness :
  exists mm', map_vdso_once 9792 false demo_image 0 demo_mm = (0, mm') /\
    map_vdso_once 9792 false demo_image 0 mm' = (- EEXIST, mm').
Proof.
  pose proof (map_vdso_once_exclusive 9792 false demo_image 0 demo_mm demo_image_wf
    (conj eq_refl eq_refl) demo_mm_ok eq_refl) as Hw.
  destruct (map_vdso_once 9792 false demo_image 0 demo_mm) as [ret mm'] eqn:E.
  assert (ret = 0) as -> by (vm_compute in E; congruence).
  exists mm'. split; [reflexivity|]. apply Hw. reflexivity.
Defined.

Lemma vdso_addr_bounds_witness :
  exists a, vdso_addr id 77 140000000000000 (6 * PAGE_SIZE) = a /\ a mod PAGE_SIZE = 0.
Proof.
  destruct (vdso_addr_bounds id 77 140000000000000 (6 * PAGE_SIZE)) as [(a & E & _ & Hm & _) _];
    [vm_compute; intuition congruence..|].
  exists a. split; [exact E|exact Hm].
Defined.
