(* ===== verification/VdsoFault.v ===== *)
(** * Page faults in the vDSO areas and the task window
      (arch/x86/entry/vdso/vma.c, vgetinfo.c, vget_task_info.c)

    A process page table maps virtual page numbers to entries.  The fault
    handlers of the three special mappings are functions on it; inserting a
    frame and zapping a range, which belong to the memory manager, are the
    operations of the class [PtOps].  On top of the handlers the file models a
    user access, which faults a page in at most once, and the vDSO function
    that reads the task window. *)

From S2P Require Import Prelude VdsoMap.

(** ** Data *)

Inductive pte :=
| PtePage (page : Z)                        (** a page the handler returned *)
| PtePfn (pfn : Z) (decrypted : bool).      (** a raw frame *)

#[global] Instance pte_eq_dec : EqDecision pte.
Proof. solve_decision. Defined.

Abbreviation page_table := (gmap Z pte).

Inductive vm_fault_t := VM_FAULT_NONE | VM_FAULT_NOPAGE | VM_FAULT_SIGBUS | VM_FAULT_OOM.

(** [err & VM_FAULT_ERROR] *)
Definition fault_error (e : vm_fault_t) : bool :=
  match e with VM_FAULT_SIGBUS | VM_FAULT_OOM => true | _ => false end.

Record vm_fault := Vmf { pgoff : Z; address : Z }.

(** The virtual page an address lies in. *)
Definition page_of (a : Z) : Z := a / PAGE_SIZE.

Class PtOps := {
  vmf_insert_pfn_prot : page_table -> Z -> Z -> bool -> vm_fault_t * page_table;
  zap_page_range : page_table -> Z -> Z -> page_table;
}.

Class PtLaws `{PtOps} : Prop := {
  (** A frame goes in where nothing is mapped, an existing entry stays, and an
      error changes nothing. *)
  insert_pfn_law : forall pt a pfn d,
    (exists e, fault_error e = true /\ vmf_insert_pfn_prot pt a pfn d = (e, pt)) \/
    vmf_insert_pfn_prot pt a pfn d =
      (VM_FAULT_NOPAGE,
       match pt !! page_of a with Some _ => pt | None => <[page_of a := PtePfn pfn d]> pt end);
  zap_law : forall pt start size p,
    zap_page_range pt start size !! p =
    if (start <=? p * PAGE_SIZE) && (p * PAGE_SIZE <? start + size) then None else pt !! p;
}.

(** ** The text: vdso_fault *)

(** References held on kernel pages, by page number. *)
Abbreviation page_refs := (gmap Z Z).

Definition get_page (p : Z) (refs : page_refs) : page_refs :=
  <[p := default 0 (refs !! p) + 1]> refs.

(** [virt_to_page] names a page by its number. *)
Definition virt_to_page (a : Z) : Z := page_of a.

Definition vdso_fault (image : option vdso_image) (vmf : vm_fault) (refs : page_refs)
  : vm_fault_t * option Z * page_refs :=
  match image with
  | None => (VM_FAULT_SIGBUS, None, refs)
  | Some im =>
      if img_size im <=? u64 (Z.shiftl (pgoff vmf) PAGE_SHIFT) then (VM_FAULT_SIGBUS, None, refs)
      else
        let page := virt_to_page (img_data im + u64 (Z.shiftl (pgoff vmf) PAGE_SHIFT)) in
        (VM_FAULT_NONE, Some page, get_page page refs)
  end.

(** ** The clock pages: vvar_fault *)

(** What vvar_fault reads of the kernel: whether the VMA belongs to
    current->mm, the page of the task's time namespace, the frame of
    __vvar_page and the two hypervisor clock pages with their use flags. *)
Record vvar_env := VvarEnv {
  CONFIG_TIME_NS : bool;
  vma_is_current : bool;
  time_ns_page : option Z;
  vvar_pfn : Z;
  pvti_pfn : option Z;
  pvclock_used : bool;
  tsc_pg_pfn : option Z;
  hvclock_used : bool;
}.

Definition find_timens_vvar_page (env : vvar_env) : option Z :=
  if CONFIG_TIME_NS env then if vma_is_current env then time_ns_page env else None else None.

(** The running task as the handler of the task window sees it: the physical
    address of its task_struct and its pid. *)
Record ktask := KTask { k_pa : Z; k_pid : Z }.

(** struct my_task_struct_view *)
Record task_view := View { page_offset : Z; view_pid : Z }.

(** The pages allocated for views, each with its reference count. *)
Abbreviation view_pages := (gmap Z (Z * task_view)).

(** The type of the handler: the result, vmf->page, the views, the entries. *)
Abbreviation window_fault :=
  (ktask -> vm_fault -> view_pages -> page_table -> vm_fault_t * option Z * view_pages * page_table).

Section Fault.
Context `{PtOps}.

Definition vmf_insert_pfn (pt : page_table) (a pfn : Z) : vm_fault_t * page_table :=
  vmf_insert_pfn_prot pt a pfn false.

Definition vvar_fault (env : vvar_env) (image : option vdso_image) (vmf : vm_fault) (pt : page_table)
  : vm_fault_t * page_table :=
  match image with
  | None => (VM_FAULT_SIGBUS, pt)
  | Some im =>
      let sym_offset := s64 (Z.shiftl (pgoff vmf) PAGE_SHIFT + sym_vvar_start im) in
      if sym_offset =? 0 then (VM_FAULT_SIGBUS, pt)
      else if sym_offset =? sym_vvar_page im then
        match find_timens_vvar_page env with
        | Some timens_pfn =>
            let addr := u64 (address vmf + (sym_timens_page im - sym_offset)) in
            let '(err, pt1) := vmf_insert_pfn pt addr (vvar_pfn env) in
            if fault_error err then (err, pt1)
            else vmf_insert_pfn pt1 (address vmf) timens_pfn
        | None => vmf_insert_pfn pt (address vmf) (vvar_pfn env)
        end
      else if sym_offset =? sym_pvclock_page im then
        match pvti_pfn env with
        | Some pfn =>
            if pvclock_used env then vmf_insert_pfn_prot pt (address vmf) pfn true
            else (VM_FAULT_SIGBUS, pt)
        | None => (VM_FAULT_SIGBUS, pt)
        end
      else if sym_offset =? sym_hvclock_page im then
        match tsc_pg_pfn env with
        | Some pfn =>
            if hvclock_used env then vmf_insert_pfn pt (address vmf) pfn else (VM_FAULT_SIGBUS, pt)
        | None => (VM_FAULT_SIGBUS, pt)
        end
      else if sym_offset =? sym_timens_page im then
        match find_timens_vvar_page env with
        | None => (VM_FAULT_SIGBUS, pt)
        | Some _ => vmf_insert_pfn pt (address vmf) (vvar_pfn env)
        end
      else (VM_FAULT_SIGBUS, pt)
  end.

(** vdso_join_timens: every vvar area of the address space loses its entries. *)
Fixpoint zap_vvar (vmas : list vm_area) (pt : page_table) : page_table :=
  match vmas with
  | [] => pt
  | v :: vmas' =>
      let size := vm_end v - vm_start v in
      let pt' := if vma_is_special_mapping v vvar_mapping
                 then zap_page_range pt (vm_start v) size else pt in
      zap_vvar vmas' pt'
  end.

Definition vdso_join_timens (mm : mm_struct) (pt : page_table) : Z * page_table :=
  (0, zap_vvar (mmap mm) pt).

(** ** The task window: vtask_fault *)

Variable sizeof_task_struct : Z.
Variable alloc_page : gset Z -> option Z.

Definition vtask_fault (current : ktask) (vmf : vm_fault) (pages : view_pages) (pt : page_table)
  : vm_fault_t * option Z * view_pages * page_table :=
  let offset := u64 (Z.shiftl (pgoff vmf) PAGE_SHIFT) in
  if VTASK_SIZE sizeof_task_struct <=? offset then (VM_FAULT_SIGBUS, None, pages, pt)
  else
    let task_struct_offset := Z.land (k_pa current) (Z.lnot PAGE_MASK) in
    if pgoff vmf =? 0 then
      match alloc_page (dom pages) with
      | None => (VM_FAULT_OOM, None, pages, pt)
      | Some page =>
          let view := View (s32 task_struct_offset) (k_pid current) in
          (* alloc_page's reference, then get_page *)
          (VM_FAULT_NONE, Some page, <[page := (1 + 1, view)]> pages, pt)
      end
    else
      let '(e, pt') := vmf_insert_pfn pt (address vmf)
                         (Z.shiftr (k_pa current + offset - PAGE_SIZE) PAGE_SHIFT) in
      (e, None, pages, pt').

(** ** A user access to the window *)

(** The fault handler of the window, [vtask_fault] in the tree. *)
Variable fault : window_fault.

(** Physical memory, read as 32-bit loads. *)
Variable phys : Z -> Z.

(** Reads of a view page: the two fields, zero elsewhere. *)
Definition view_load (v : task_view) (off : Z) : Z :=
  if off =? 0 then page_offset v else if off =? 4 then view_pid v else 0.

Record window := Window { w_start : Z; w_pages : view_pages; w_pt : page_table }.

(** A load from [a], inside the window or not.  The page is faulted in if it
    is not mapped; [OutOfBounds] is the signal the process gets. *)
Definition user_touch (current : ktask) (a : Z) (w : window) : res window :=
  if (a <? w_start w) || (w_start w + VTASK_SIZE sizeof_task_struct <=? a) then Fault OutOfBounds
  else
    match w_pt w !! page_of a with
    | Some _ => Ok w
    | None =>
        match fault current (Vmf ((a - w_start w) / PAGE_SIZE) a) (w_pages w) (w_pt w) with
        | (VM_FAULT_NONE, Some page, pages, pt) =>
            Ok (Window (w_start w) pages (<[page_of a := PtePage page]> pt))
        | (VM_FAULT_NOPAGE, _, pages, pt) => Ok (Window (w_start w) pages pt)
        | _ => Fault OutOfBounds
        end
    end.

Definition user_load (current : ktask) (a : Z) (w : window) : res (Z * window) :=
  let! w' := user_touch current a w in
  match w_pt w' !! page_of a with
  | Some (PtePage page) =>
      let! v := of_option NullDeref (w_pages w' !! page) in
      Ok (view_load (snd v) (a mod PAGE_SIZE), w')
  | Some (PtePfn pfn _) => Ok (phys (pfn * PAGE_SIZE + a mod PAGE_SIZE), w')
  | None => Fault OutOfBounds
  end.

(** ** vgetinfo.c *)

Definition VVAR_SIZE : Z := 4 * PAGE_SIZE.

(** struct task_info of include/linux/user_taskinfo.h *)
Record task_info := TaskInfo { kaddr : Z; info_pid : Z }.

(** get_task_addr; [vvar_page] is the address of the linker symbol. *)
Definition get_task_addr (current : ktask) (vvar_page : Z) (w : window) : res (Z * window) :=
  let view := vvar_page - VVAR_SIZE in
  let! (off, w') := user_load current view w in
  Ok (view + off + PAGE_SIZE, w').

(** __vdso_get_task_struct_info; [offsetof_pid] is the offset of pid in
    struct task_struct, [info_null] says that the argument is NULL. *)
Definition vdso_get_task_struct_info (offsetof_pid : Z) (current : ktask) (vvar_page : Z)
  (info_null : bool) (w : window) : res (Z * option task_info * window) :=
  if info_null then Ok (-1, None, w)
  else
    let! (task, w1) := get_task_addr current vvar_page w in
    let! (pid, w2) := user_load current (task + offsetof_pid) w1 in
    Ok (0, Some (TaskInfo task pid), w2).

Definition get_task_struct_info := vdso_get_task_struct_info.

End Fault.

(** ** vget_task_info.c *)

(** struct task_info of include/uapi/linux/vdso_task_info.h *)
Record uapi_task_info := UapiTaskInfo { uapi_pid : Z; task_struct_ptr : Z }.

(** __vdso_get_task_info: the result and the new contents of *info.
    [copy_to_user old src] gives the number of bytes it could not copy and what
    the destination then holds; [tsk] is the address of current. *)
Definition vdso_get_task_info (copy_to_user : Z -> Z -> Z * Z) (access_ok : bool)
  (info : option uapi_task_info) (tsk pid : Z) : Z * option uapi_task_info :=
  match info with
  | None => (- EFAULT, None)
  | Some i =>
      if negb access_ok then (- EFAULT, Some i)
      else
        let '(rest, pid') := copy_to_user (uapi_pid i) pid in
        if nonzero rest then (- EFAULT, Some (UapiTaskInfo pid' (task_struct_ptr i)))
        else (0, Some (UapiTaskInfo pid' tsk))
  end.

(** ** Faults in the text area stay inside the image *)

(** Vdso_fault hands out exactly the pages of the image.  For a page
    offset that does not overflow, it succeeds precisely when there is an
    image and the offset lies below its size; the page it returns is the one
    that holds that part of the image, and it takes one reference on it and on
    no other page. *)
Theorem vdso_fault_in_image im vmf refs :
  in_u 52 (pgoff vmf) -> img_data im mod PAGE_SIZE = 0 ->
  let off := pgoff vmf * PAGE_SIZE in
  vdso_fault None vmf refs = (VM_FAULT_SIGBUS, None, refs) /\
  (img_size im <= off -> vdso_fault (Some im) vmf refs = (VM_FAULT_SIGBUS, None, refs)) /\
  (off < img_size im -> exists page refs',
     vdso_fault (Some im) vmf refs = (VM_FAULT_NONE, Some page, refs') /\
     page * PAGE_SIZE = img_data im + off /\
     (img_size im mod PAGE_SIZE = 0 -> page * PAGE_SIZE + PAGE_SIZE <= img_data im + img_size im) /\
     default 0 (refs' !! page) = default 0 (refs !! page) + 1 /\
     forall p, p <> page -> refs' !! p = refs !! p).
Proof.
  intros Hp Hd off. unfold vdso_fault.
  assert (E : u64 (Z.shiftl (pgoff vmf) PAGE_SHIFT) = off).
  { unfold off, PAGE_SHIFT, PAGE_SIZE. rewrite Z.shiftl_mul_pow2 by lia. apply u64_small.
    unfold in_u in *. lia. }
  rewrite E. split; [done|]. split; intros Ho.
  - by rewrite (proj2 (Z.leb_le _ _) Ho).
  - rewrite (proj2 (Z.leb_gt _ _) Ho). eexists _, _. split; [done|].
    unfold virt_to_page, page_of, get_page. unfold off, PAGE_SIZE in *. split_and!; [zmod_lia|zmod_lia| |].
    + by rewrite lookup_insert_eq.
    + intros p Hne. by rewrite lookup_insert_ne.
Qed.

(** ** Faults in the vvar area *)

(** The entry each page of the area should have, by its offset from the text. *)
Definition vvar_target (env : vvar_env) (im : vdso_image) (o : Z) : option pte :=
  if o =? sym_vvar_page im then
    Some (PtePfn (default (vvar_pfn env) (find_timens_vvar_page env)) false)
  else if o =? sym_pvclock_page im then
    if pvclock_used env then (fun p => PtePfn p true) <$> pvti_pfn env else None
  else if o =? sym_hvclock_page im then
    if hvclock_used env then (fun p => PtePfn p false) <$> tsc_pg_pfn env else None
  else if o =? sym_timens_page im then
    (fun _ => PtePfn (vvar_pfn env) false) <$> find_timens_vvar_page env
  else None.

(** Where the linker script puts the pages. *)
Record vvar_image_wf (im : vdso_image) : Prop := {
  vw_start : - 2 ^ 31 < sym_vvar_start im < 0 /\ sym_vvar_start im mod PAGE_SIZE = 0;
  vw_timens : sym_vvar_start im <= sym_timens_page im < 0 /\ sym_timens_page im mod PAGE_SIZE = 0;
  vw_distinct : sym_timens_page im <> sym_vvar_page im /\
    sym_timens_page im <> sym_pvclock_page im /\ sym_timens_page im <> sym_hvclock_page im;
}.

(** The virtual page of the area at offset [o] from the text. *)
Definition vvar_vpage (im : vdso_image) (vstart o : Z) : Z := page_of (vstart + (o - sym_vvar_start im)).

(** Every page mapped in the area has the entry it should have. *)
Definition vvar_consistent (env : vvar_env) (im : vdso_image) (vstart : Z) (pt : page_table) : Prop :=
  forall o e, sym_vvar_start im <= o < 0 -> o mod PAGE_SIZE = 0 ->
    pt !! vvar_vpage im vstart o = Some e -> vvar_target env im o = Some e.

Lemma vvar_vpage_inj im vstart o o' :
  sym_vvar_start im mod PAGE_SIZE = 0 -> vstart mod PAGE_SIZE = 0 ->
  o mod PAGE_SIZE = 0 -> o' mod PAGE_SIZE = 0 ->
  vvar_vpage im vstart o = vvar_vpage im vstart o' -> o = o'.
Proof. unfold vvar_vpage, page_of, PAGE_SIZE. intros. zmod_lia. Qed.

Section VvarProof.
Context `{PtLaws}.
Variables (env : vvar_env) (im : vdso_image) (vstart : Z).
Hypothesis Him : vvar_image_wf im.
Hypothesis Hvs : vstart mod PAGE_SIZE = 0.

(** What one insertion does to a consistent table. *)
Lemma insert_consistent pt a pfn d o e pt' :
  vvar_consistent env im vstart pt ->
  sym_vvar_start im <= o < 0 -> o mod PAGE_SIZE = 0 -> page_of a = vvar_vpage im vstart o ->
  vvar_target env im o = Some (PtePfn pfn d) ->
  vmf_insert_pfn_prot pt a pfn d = (e, pt') ->
  vvar_consistent env im vstart pt' /\ pt ⊆ pt' /\
  ((e = VM_FAULT_NOPAGE /\ pt' !! page_of a = Some (PtePfn pfn d)) \/ (fault_error e = true /\ pt' = pt)).
Proof.
  intros Hc Ho Hop Ha Ht Ei. destruct (insert_pfn_law pt a pfn d) as [(e' & He & E)|E]; rewrite E in Ei.
  { simplify_eq. auto. }
  destruct (pt !! page_of a) as [x|] eqn:Ex; simplify_eq.
  - rewrite Ha in Ex. pose proof (Hc o x Ho Hop Ex). simplify_eq. rewrite Ha. auto.
  - split_and!.
    + intros o' x Ho' Hop'. rewrite lookup_insert, Ha. case_decide as Hd.
      * apply vvar_vpage_inj in Hd; [|apply Him|done..]. subst o'. naive_solver.
      * by apply Hc.
    + by apply insert_subseteq.
    + left. by rewrite lookup_insert_eq.
Qed.

(** One insertion at the faulting address. *)
Lemma fault_insert pt vmf pfn d o :
  vvar_consistent env im vstart pt ->
  sym_vvar_start im <= o < 0 -> o mod PAGE_SIZE = 0 -> page_of (address vmf) = vvar_vpage im vstart o ->
  vvar_target env im o = Some (PtePfn pfn d) ->
  let '(e, pt') := vmf_insert_pfn_prot pt (address vmf) pfn d in
  vvar_consistent env im vstart pt' /\ pt ⊆ pt' /\
  (e = VM_FAULT_NOPAGE /\ pt' !! page_of (address vmf) = vvar_target env im o \/
   fault_error e = true).
Proof.
  intros Hc Ho Hop Ha Ht. destruct (vmf_insert_pfn_prot _ _ _ _) as [e pt'] eqn:Ei.
  destruct (insert_consistent pt _ _ _ o e pt' Hc Ho Hop Ha Ht Ei) as (? & ? & Hr).
  split_and!; [done..|]. rewrite Ht. naive_solver.
Qed.

Definition fault_post (vmf : vm_fault) (pt : page_table) (o : Z) (r : vm_fault_t * page_table) : Prop :=
  let '(e, pt') := r in
  vvar_consistent env im vstart pt' /\ pt ⊆ pt' /\
  (e = VM_FAULT_NOPAGE /\ is_Some (vvar_target env im o) /\
     pt' !! page_of (address vmf) = vvar_target env im o \/
   fault_error e = true) /\
  (vvar_target env im o = None -> e = VM_FAULT_SIGBUS /\ pt' = pt).

(** No page at this offset. *)
Lemma fault_none pt vmf o :
  vvar_consistent env im vstart pt -> fault_post vmf pt o (VM_FAULT_SIGBUS, pt).
Proof. intros Hc. simpl. auto. Qed.

(** The vvar page inside a time namespace: the page of the namespace goes to
    the faulting address after the real page went to the timens page. *)
Lemma fault_prefault pt vmf o tp :
  vvar_consistent env im vstart pt ->
  0 <= vstart -> vstart - sym_vvar_start im <= TASK_SIZE ->
  sym_vvar_start im <= o < 0 -> o mod PAGE_SIZE = 0 -> page_of (address vmf) = vvar_vpage im vstart o ->
  o = sym_vvar_page im -> find_timens_vvar_page env = Some tp ->
  fault_post vmf pt o
    (let addr := u64 (address vmf + (sym_timens_page im - o)) in
     let '(err, pt1) := vmf_insert_pfn pt addr (vvar_pfn env) in
     if fault_error err then (err, pt1) else vmf_insert_pfn pt1 (address vmf) tp).
Proof.
  intros Hc Hv0 Hve Ho Hop Hap Eo Ef. destruct Him as [[Hs Hsp] [Ht Htp] (Hd1 & Hd2 & Hd3)].
  assert (Et : vvar_target env im o = Some (PtePfn tp false)).
  { unfold vvar_target. rewrite Ef, Eo, Z.eqb_refl. done. }
  assert (Et' : vvar_target env im (sym_timens_page im) = Some (PtePfn (vvar_pfn env) false)).
  { unfold vvar_target. rewrite !(proj2 (Z.eqb_neq _ _)), Z.eqb_refl, Ef by done. done. }
  cbv zeta. set (addr := u64 _).
  assert (Haddr : page_of addr = vvar_vpage im vstart (sym_timens_page im)).
  { unfold vvar_vpage, page_of, addr, TASK_SIZE, PAGE_SIZE in *. rewrite u64_small.
    - zmod_lia.
    - unfold in_u. zmod_lia. }
  destruct (vmf_insert_pfn pt addr (vvar_pfn env)) as [err pt1] eqn:Ei.
  destruct (insert_consistent pt addr _ _ _ _ _ Hc Ht Htp Haddr Et' Ei) as (Hc1 & Hs1 & Hr).
  destruct (fault_error err) eqn:Ee.
  { unfold fault_post. rewrite Et. split_and!; [done|done|by right|done]. }
  pose proof (fault_insert pt1 vmf tp false o Hc1 Ho Hop Hap Et) as Hi. unfold vmf_insert_pfn, fault_post.
  destruct (vmf_insert_pfn_prot _ _ _ _) as [e pt2]. destruct Hi as (Hc2 & Hs2 & Hr2).
  split_and!; [done|by etrans| |by rewrite Et]. rewrite Et in *. naive_solver.
Qed.

Lemma vvar_fault_spec vmf pt :
  vvar_consistent env im vstart pt ->
  0 <= vstart -> vstart - sym_vvar_start im <= TASK_SIZE ->
  0 <= pgoff vmf -> pgoff vmf * PAGE_SIZE < - sym_vvar_start im ->
  page_of (address vmf) = page_of vstart + pgoff vmf ->
  fault_post vmf pt (pgoff vmf * PAGE_SIZE + sym_vvar_start im) (vvar_fault env (Some im) vmf pt).
Proof.
  intros Hc Hv0 Hve Hp Hpe Ha. set (o := pgoff vmf * PAGE_SIZE + sym_vvar_start im).
  destruct Him as [[Hs Hsp] _ _].
  assert (Ho : sym_vvar_start im <= o < 0) by (unfold o, PAGE_SIZE in *; lia).
  assert (Hop : o mod PAGE_SIZE = 0) by (unfold o, PAGE_SIZE in *; zmod_lia).
  assert (Hap : page_of (address vmf) = vvar_vpage im vstart o)
    by (unfold vvar_vpage, page_of, o, PAGE_SIZE in *; zmod_lia).
  assert (Hins : forall pfn d, vvar_target env im o = Some (PtePfn pfn d) ->
    fault_post vmf pt o (vmf_insert_pfn_prot pt (address vmf) pfn d)).
  { intros pfn d E. pose proof (fault_insert pt vmf pfn d o Hc Ho Hop Hap E) as Hi.
    unfold fault_post. destruct (vmf_insert_pfn_prot _ _ _ _). rewrite E in *. naive_solver. }
  unfold vvar_fault. rewrite Z.shiftl_mul_pow2 by (unfold PAGE_SHIFT; lia).
  change (2 ^ PAGE_SHIFT) with PAGE_SIZE. fold o. unfold s64. rewrite swrap_small by (unfold in_s; lia).
  destruct (Z.eqb_spec o 0); [lia|]. unfold vmf_insert_pfn.
  destruct (Z.eqb_spec o (sym_vvar_page im)) as [E1|E1].
  { destruct (find_timens_vvar_page env) as [tp|] eqn:Ef; [by apply fault_prefault|].
    apply Hins. unfold vvar_target. by rewrite Ef, E1, Z.eqb_refl. }
  assert (Et : vvar_target env im o = vvar_target env im o) by done. unfold vvar_target in Et at 2.
  rewrite (proj2 (Z.eqb_neq _ _) E1) in Et.
  repeat (case_match; [..|]); try (by apply fault_none); apply Hins; rewrite Et; naive_solver.
Qed.

End VvarProof.

Section VvarRun.
Context `{PtLaws}.

Lemma zap_vvar_subseteq vmas pt : zap_vvar vmas pt ⊆ pt.
Proof.
  revert pt. induction vmas as [|v vmas IH]; intros pt; simpl; [done|]. etrans; [apply IH|].
  case_match; [|done]. apply map_subseteq_spec. intros p e. rewrite zap_law. by case_match.
Qed.

Lemma zap_vvar_none vmas pt v p :
  v ∈ vmas -> vma_is_special_mapping v vvar_mapping = true ->
  vm_start v <= p * PAGE_SIZE < vm_end v -> zap_vvar vmas pt !! p = None.
Proof.
  intros Hv Hs Hp. revert pt. induction vmas as [|v' vmas IH]; [by apply not_elem_of_nil in Hv|].
  intros pt. simpl. apply elem_of_cons in Hv as [<-|Hv]; [|by apply IH].
  rewrite Hs. destruct (zap_vvar vmas _ !! p) as [e|] eqn:E; [|done].
  pose proof (lookup_weaken _ _ _ _ E (zap_vvar_subseteq _ _)) as Hl.
  rewrite zap_law in Hl. rewrite (proj2 (Z.leb_le _ _)), (proj2 (Z.ltb_lt _ _)) in Hl by lia. done.
Qed.

Variables (im : vdso_image) (mm : mm_struct) (vvar : vm_area).

(** A fault inside the vvar area. *)
Definition vvar_access (vmf : vm_fault) : Prop :=
  0 <= pgoff vmf /\ pgoff vmf * PAGE_SIZE < - sym_vvar_start im /\
  page_of (address vmf) = page_of (vm_start vvar) + pgoff vmf.

(** The history of the area: faults, a clock page that comes into use (entries
    that were right stay right), and a change of the time namespace followed by
    vdso_join_timens. *)
Inductive vvar_run : vvar_env -> page_table -> Prop :=
| run_init env : vvar_run env ∅
| run_fault env pt vmf :
    vvar_run env pt -> vvar_access vmf -> vvar_run env (snd (vvar_fault env (Some im) vmf pt))
| run_clock env env' pt :
    vvar_run env pt ->
    (forall o e, vvar_target env im o = Some e -> vvar_target env' im o = Some e) ->
    vvar_run env' pt
| run_join env env' pt :
    vvar_run env pt -> vvar_run env' (snd (vdso_join_timens mm pt)).

Hypothesis Him : vvar_image_wf im.
Hypothesis Hvma : vvar ∈ mmap mm.
Hypothesis Hspecial : vm_special vvar = Some vvar_mapping.
Hypothesis Hstart : vm_start vvar mod PAGE_SIZE = 0 /\ 0 <= vm_start vvar.
Hypothesis Hend : vm_end vvar = vm_start vvar - sym_vvar_start im /\ vm_end vvar <= TASK_SIZE.

Lemma join_consistent env pt :
  vvar_consistent env im (vm_start vvar) (snd (vdso_join_timens mm pt)).
Proof.
  intros o e Ho Hop. simpl. rewrite (zap_vvar_none _ _ vvar); [done|done| |].
  - unfold vma_is_special_mapping. rewrite Hspecial. done.
  - pose proof (vw_start _ Him). unfold vvar_vpage, page_of, PAGE_SIZE in *. zmod_lia.
Qed.

Lemma vvar_run_consistent env pt : vvar_run env pt -> vvar_consistent env im (vm_start vvar) pt.
Proof.
  induction 1 as [env|env pt vmf _ IH (Hp & Hpe & Ha)|env env' pt _ IH Hg|env env' pt _ IH].
  - by intros o e _ _ ?%lookup_empty_Some.
  - pose proof (vvar_fault_spec env im (vm_start vvar) Him (proj1 Hstart) vmf pt IH (proj2 Hstart)) as Hf.
    destruct (vvar_fault _ _ _ _) as [e pt']. apply Hf; [lia|done..].
  - intros o e Ho Hop E. apply Hg. by apply IH.
  - apply join_consistent.
Qed.

End VvarRun.

(** C24: the vvar area always shows the right pages.  In every history of
    faults, clock pages coming into use and time namespace changes with
    vdso_join_timens, a fault in the area either maps the faulting page to the
    page it should show now (the pre-faulted page of a time namespace
    included, which stays right) or fails leaving every entry that was there;
    it fails with SIGBUS, mapping nothing, where the offset has no page. *)
Theorem vvar_fault_consistent `{PtLaws} im mm vvar env pt vmf :
  vvar_image_wf im -> vvar ∈ mmap mm -> vm_special vvar = Some vvar_mapping ->
  vm_start vvar mod PAGE_SIZE = 0 /\ 0 <= vm_start vvar ->
  vm_end vvar = vm_start vvar - sym_vvar_start im /\ vm_end vvar <= TASK_SIZE ->
  vvar_run im mm vvar env pt -> vvar_access im vvar vmf ->
  let o := pgoff vmf * PAGE_SIZE + sym_vvar_start im in
  let '(e, pt') := vvar_fault env (Some im) vmf pt in
  vvar_consistent env im (vm_start vvar) pt' /\ pt ⊆ pt' /\
  (e = VM_FAULT_NOPAGE /\ is_Some (vvar_target env im o) /\
     pt' !! page_of (address vmf) = vvar_target env im o \/
   fault_error e = true) /\
  (vvar_target env im o = None -> e = VM_FAULT_SIGBUS /\ pt' = pt).
Proof.
  intros Him Hv Hs Hst He Hrun (Hp & Hpe & Ha) o.
  pose proof (vvar_run_consistent im mm vvar Him Hv Hs Hst He env pt Hrun) as Hc.
  exact (vvar_fault_spec env im (vm_start vvar) Him (proj1 Hst) vmf pt Hc (proj2 Hst)
    ltac:(lia) Hp Hpe Ha).
Qed.

(** ** The task window *)

(** What the vDSO function relies on: the first page shows a new view page with
    [refs] references, the others the frames of the running task. *)
Record window_handler `{PtOps} (sizeof : Z) (alloc_page : gset Z -> option Z) (refs : Z)
  (fault : window_fault) : Prop := {
  wh_task : forall cur n a pages pt, 0 <= k_pa cur -> 1 <= n -> n * PAGE_SIZE < VTASK_SIZE sizeof ->
    fault cur (Vmf n a) pages pt =
    let '(e, pt') := vmf_insert_pfn pt a (k_pa cur / PAGE_SIZE + n - 1) in (e, None, pages, pt');
  wh_view : forall cur a pages pt page, 0 <= k_pa cur -> alloc_page (dom pages) = Some page ->
    fault cur (Vmf 0 a) pages pt =
    (VM_FAULT_NONE, Some page,
     <[page := (refs, View (k_pa cur mod PAGE_SIZE) (k_pid cur))]> pages, pt);
}.

(** The offset of a task_struct in its page, as the handler computes it. *)
Lemma task_struct_offset_eq pa : s32 (Z.land pa (Z.lnot PAGE_MASK)) = pa mod PAGE_SIZE.
Proof.
  unfold PAGE_MASK, PAGE_SIZE. rewrite Z.lnot_involutive.
  change (4096 - 1) with (2 ^ 12 - 1). rewrite land_low_mod by lia. change (2 ^ 12) with 4096.
  unfold s32. apply swrap_small; [lia|]. pose proof (Z.mod_pos_bound pa 4096). unfold in_s. lia.
Qed.

(** The frame it inserts for page [n] of the window. *)
Lemma task_frame_eq pa n :
  Z.shiftr (pa + n * PAGE_SIZE - PAGE_SIZE) PAGE_SHIFT = pa / PAGE_SIZE + n - 1.
Proof. unfold PAGE_SHIFT, PAGE_SIZE. rewrite Z.shiftr_div_pow2 by lia. change (2 ^ 12) with 4096. zmod_lia. Qed.

Lemma window_offset_eq n : 0 <= n < 2 ^ 52 -> u64 (Z.shiftl n PAGE_SHIFT) = n * PAGE_SIZE.
Proof.
  intros Hn. unfold PAGE_SHIFT, PAGE_SIZE. rewrite Z.shiftl_mul_pow2 by lia.
  apply u64_small. unfold in_u. lia.
Qed.

Section WindowProof.
Context `{PtLaws}.
Variables (sizeof : Z) (alloc_page : gset Z -> option Z) (refs : Z).
Hypothesis Hsize : 0 < sizeof < 2 ^ 31.
(** No insertion runs out of memory. *)
Hypothesis Hins : forall pt a pfn d, fst (vmf_insert_pfn_prot pt a pfn d) = VM_FAULT_NOPAGE.

Lemma vtask_fault_handler : window_handler sizeof alloc_page 2 (vtask_fault sizeof alloc_page).
Proof.
  destruct (VTASK_SIZE_spec sizeof Hsize) as [_ Hvs]. split; unfold vtask_fault; cbn [pgoff address].
  - intros cur n a pages pt Hpa Hn Hnv. rewrite window_offset_eq by (unfold PAGE_SIZE in *; lia).
    rewrite (proj2 (Z.leb_gt _ _)), (proj2 (Z.eqb_neq _ _)), task_frame_eq by lia. done.
  - intros cur a pages pt page Hpa Hal. rewrite window_offset_eq by lia.
    rewrite (proj2 (Z.leb_gt _ _)) by (unfold PAGE_SIZE in *; lia). cbn [Z.eqb].
    by rewrite Hal, task_struct_offset_eq.
Qed.

Variable fault : window_fault.
Hypothesis Hfault : window_handler sizeof alloc_page refs fault.

Lemma insert_pfn_total pt a pfn :
  pt !! page_of a = None ->
  vmf_insert_pfn pt a pfn = (VM_FAULT_NOPAGE, <[page_of a := PtePfn pfn false]> pt).
Proof.
  intros Hn. pose proof (Hins pt a pfn false) as Hi. unfold vmf_insert_pfn.
  destruct (insert_pfn_law pt a pfn false) as [(e & He & E)|E]; rewrite E in *; simpl in *.
  - by subst e.
  - by rewrite Hn.
Qed.

(** A fault on a page of the window other than the first. *)
Lemma user_touch_task cur w a n :
  w_start w mod PAGE_SIZE = 0 -> 0 <= w_start w -> 0 <= k_pa cur ->
  1 <= n -> n * PAGE_SIZE < VTASK_SIZE sizeof -> page_of a = page_of (w_start w) + n ->
  w_pt w !! page_of a = None ->
  user_touch sizeof fault cur a w =
  Ok (Window (w_start w) (w_pages w)
        (<[page_of a := PtePfn (k_pa cur / PAGE_SIZE + n - 1) false]> (w_pt w))).
Proof.
  intros Hw Hw0 Hpa Hn Hnv Ha Hun. destruct (VTASK_SIZE_spec sizeof Hsize) as [Hvm Hvs].
  assert (E : (a - w_start w) / PAGE_SIZE = n) by (unfold page_of, PAGE_SIZE in *; zmod_lia).
  unfold user_touch.
  destruct (Z.ltb_spec a (w_start w)); [unfold page_of, PAGE_SIZE in *; zmod_lia|].
  destruct (Z.leb_spec (w_start w + VTASK_SIZE sizeof) a); [unfold page_of, PAGE_SIZE in *; zmod_lia|].
  cbn [orb]. rewrite Hun, E, (wh_task _ _ _ _ Hfault) by done. by rewrite insert_pfn_total.
Qed.

(** The fault on the first page. *)
Lemma user_touch_view cur w page :
  w_start w mod PAGE_SIZE = 0 -> 0 <= w_start w -> 0 <= k_pa cur ->
  w_pt w !! page_of (w_start w) = None -> alloc_page (dom (w_pages w)) = Some page ->
  user_touch sizeof fault cur (w_start w) w =
  Ok (Window (w_start w) (<[page := (refs, View (k_pa cur mod PAGE_SIZE) (k_pid cur))]> (w_pages w))
        (<[page_of (w_start w) := PtePage page]> (w_pt w))).
Proof.
  intros Hw Hw0 Hpa Hun Hal. destruct (VTASK_SIZE_spec sizeof Hsize) as [Hvm Hvs].
  unfold user_touch. rewrite Z.ltb_irrefl. destruct (Z.leb_spec (w_start w + VTASK_SIZE sizeof) (w_start w));
    [unfold PAGE_SIZE in *; lia|]. cbn [orb]. rewrite Hun, Z.sub_diag. change (0 / PAGE_SIZE) with 0.
  by rewrite (wh_view _ _ _ _ Hfault _ _ _ _ page).
Qed.

Variable phys : Z -> Z.

Lemma user_load_eq cur a w w' e :
  user_touch sizeof fault cur a w = Ok w' -> w_pt w' !! page_of a = Some e ->
  user_load sizeof fault phys cur a w =
  match e with
  | PtePage page => let! v := of_option NullDeref (w_pages w' !! page) in
                    Ok (view_load (snd v) (a mod PAGE_SIZE), w')
  | PtePfn pfn _ => Ok (phys (pfn * PAGE_SIZE + a mod PAGE_SIZE), w')
  end.
Proof. intros Ht He. unfold user_load. rewrite Ht. simpl. rewrite He. by destruct e. Qed.

(** A mapped page is not faulted in again, whatever task runs. *)
Lemma user_touch_mapped cur a w e :
  w_start w <= a < w_start w + VTASK_SIZE sizeof -> w_pt w !! page_of a = Some e ->
  user_touch sizeof fault cur a w = Ok w.
Proof.
  intros Ha He. unfold user_touch.
  destruct (Z.ltb_spec a (w_start w)); [lia|].
  destruct (Z.leb_spec (w_start w + VTASK_SIZE sizeof) a); [lia|]. simpl. by rewrite He.
Qed.

(** The two loads of the vDSO function, with the view at [ws]. *)
Definition window_info (offsetof_pid : Z) (cur : ktask) (ws : Z) (w : window)
  : res (Z * option task_info * window) :=
  let! (off, w1) := user_load sizeof fault phys cur ws w in
  let! (pid, w2) := user_load sizeof fault phys cur (ws + off + PAGE_SIZE + offsetof_pid) w1 in
  Ok (0, Some (TaskInfo (ws + off + PAGE_SIZE) pid), w2).

(** The call from its two accesses. *)
Lemma window_info_eq offsetof_pid cur w w1 w2 ws page c off pid' pfn d a2 :
  ws mod PAGE_SIZE = 0 -> a2 = ws + off + PAGE_SIZE + offsetof_pid ->
  user_touch sizeof fault cur ws w = Ok w1 -> w_pt w1 !! page_of ws = Some (PtePage page) ->
  w_pages w1 !! page = Some (c, View off pid') ->
  user_touch sizeof fault cur a2 w1 = Ok w2 -> w_pt w2 !! page_of a2 = Some (PtePfn pfn d) ->
  window_info offsetof_pid cur ws w =
  Ok (0, Some (TaskInfo (ws + off + PAGE_SIZE) (phys (pfn * PAGE_SIZE + a2 mod PAGE_SIZE))), w2).
Proof.
  intros Hw -> Ht1 Hp1 Hpg Ht2 Hp2. unfold window_info.
  rewrite (user_load_eq _ _ _ _ _ Ht1 Hp1). cbn [of_option res_bind]. rewrite Hpg.
  cbn [of_option res_bind snd]. rewrite Hw. cbn [view_load Z.eqb page_offset res_bind].
  rewrite (user_load_eq _ _ _ _ _ Ht2 Hp2). done.
Qed.

(** No page of the window is mapped. *)
Definition window_fresh (w : window) : Prop :=
  w_start w mod PAGE_SIZE = 0 /\ 0 <= w_start w /\
  forall n, 0 <= n -> n * PAGE_SIZE < VTASK_SIZE sizeof -> w_pt w !! (page_of (w_start w) + n) = None.

(** The pid of a task can be read through its window. *)
Definition pid_in_window (offsetof_pid : Z) (cur : ktask) : Prop :=
  0 <= k_pa cur /\ 0 <= offsetof_pid /\
  k_pa cur mod PAGE_SIZE + offsetof_pid < VTASK_SIZE sizeof - PAGE_SIZE /\
  phys (k_pa cur + offsetof_pid) = k_pid cur.

(** The first access of a fresh window, and every later one, whatever other
    view pages there are by then. *)
Lemma window_info_first offsetof_pid cur w page :
  window_fresh w -> pid_in_window offsetof_pid cur -> alloc_page (dom (w_pages w)) = Some page ->
  let info := TaskInfo (w_start w + k_pa cur mod PAGE_SIZE + PAGE_SIZE) (k_pid cur) in
  let view := (refs, View (k_pa cur mod PAGE_SIZE) (k_pid cur)) in
  exists pt,
    window_info offsetof_pid cur (w_start w) w =
      Ok (0, Some info, Window (w_start w) (<[page := view]> (w_pages w)) pt) /\
    forall other pages, pages !! page = Some view ->
      window_info offsetof_pid other (w_start w) (Window (w_start w) pages pt) =
        Ok (0, Some info, Window (w_start w) pages pt).
Proof.
  intros (Hw & Hw0 & Hun) (Hpa & Hop & Hfit & Hphys) Hal info view.
  destruct (VTASK_SIZE_spec sizeof Hsize) as [Hvm Hvs].
  assert (Hv0 : w_pt w !! page_of (w_start w) = None)
    by (rewrite <- (Z.add_0_r (page_of _)); apply Hun; unfold PAGE_SIZE in *; lia).
  pose proof (user_touch_view cur w page Hw Hw0 Hpa Hv0 Hal) as Ht1.
  fold view in Ht1. set (off := k_pa cur mod PAGE_SIZE) in *.
  assert (Hoff : 0 <= off < PAGE_SIZE) by (apply Z.mod_pos_bound; done).
  set (w1 := Window _ _ _) in Ht1. set (a2 := w_start w + off + PAGE_SIZE + offsetof_pid).
  assert (exists n, n = 1 + (off + offsetof_pid) / PAGE_SIZE) as [n En] by eauto.
  assert (Hn : 1 <= n /\ n * PAGE_SIZE < VTASK_SIZE sizeof) by (unfold PAGE_SIZE in *; zmod_lia).
  assert (Hp2 : page_of a2 = page_of (w_start w) + n) by (unfold a2, page_of, PAGE_SIZE in *; zmod_lia).
  assert (Hrange : w_start w <= a2 < w_start w + VTASK_SIZE sizeof) by (unfold a2, PAGE_SIZE in *; lia).
  assert (Hpfn : (k_pa cur / PAGE_SIZE + n - 1) * PAGE_SIZE + a2 mod PAGE_SIZE = k_pa cur + offsetof_pid)
    by (unfold a2, off, PAGE_SIZE in *; zmod_lia).
  assert (Hf2 : w_pt w1 !! page_of a2 = None)
    by (cbn [w1 w_pt]; rewrite lookup_insert_ne by lia; rewrite Hp2; apply Hun; lia).
  pose proof (user_touch_task cur w1 a2 n Hw Hw0 Hpa ltac:(lia) ltac:(lia) Hp2 Hf2) as Ht2.
  cbn [w1 w_start w_pages] in Ht2. set (pt2 := <[page_of a2 := _]> _) in Ht2. exists pt2.
  assert (Hv2 : pt2 !! page_of (w_start w) = Some (PtePage page))
    by (unfold pt2; cbn [w1 w_pt]; rewrite lookup_insert_ne, lookup_insert_eq by lia; done).
  assert (Hv3 : pt2 !! page_of a2 = Some (PtePfn (k_pa cur / PAGE_SIZE + n - 1) false))
    by apply lookup_insert_eq.
  unfold info. rewrite <- Hphys, <- Hpfn. split.
  - eapply window_info_eq; [done|reflexivity|exact Ht1|apply lookup_insert_eq|apply lookup_insert_eq|
      exact Ht2|exact Hv3].
  - intros other pages Hpg. set (w3 := Window _ pages _).
    eapply (window_info_eq _ _ w3 w3 w3); [done|reflexivity| |exact Hv2|exact Hpg| |exact Hv3].
    + eapply user_touch_mapped; [|exact Hv2]. unfold w3. cbn [w_start]. unfold PAGE_SIZE in *. lia.
    + by eapply user_touch_mapped.
Qed.

End WindowProof.

(** With a window of four pages below vvar_page the view is its first page. *)
Lemma get_task_struct_info_window `{PtOps} sizeof fault phys offsetof_pid cur start w :
  VTASK_SIZE sizeof = VVAR_SIZE ->
  get_task_struct_info sizeof fault phys offsetof_pid cur (start + VTASK_SIZE sizeof) false w =
  window_info sizeof fault phys offsetof_pid cur start w.
Proof.
  intros Hvt. unfold get_task_struct_info, vdso_get_task_struct_info, get_task_addr, window_info.
  rewrite Hvt. replace (start + VVAR_SIZE - VVAR_SIZE) with start by lia.
  by destruct (user_load _ _ _ _ start w) as [[off w1]|].
Qed.

(** The vDSO function gives the pid of the task that faulted the window
    in.  In a window as map_vdso lays it out, where VTASK_SIZE is the four
    pages vgetinfo.c assumes, and with the pid field within the mapped part,
    the first call of __vdso_get_task_struct_info returns 0, the pid of the
    caller and the user address of the window at which the caller's
    task_struct is visible (not the kernel address).  From then on the same
    answer goes to every task that shares the address space, whoever calls.
    The page allocated for the view is left with two references for its one
    mapping. *)
Theorem get_task_struct_info_first_caller `{PtLaws} sizeof alloc_page phys offsetof_pid cur w page :
  0 < sizeof < 2 ^ 31 -> VTASK_SIZE sizeof = VVAR_SIZE ->
  (forall pt a pfn d, fst (vmf_insert_pfn_prot pt a pfn d) = VM_FAULT_NOPAGE) ->
  window_fresh sizeof w -> pid_in_window sizeof phys offsetof_pid cur ->
  alloc_page (dom (w_pages w)) = Some page ->
  let fault := vtask_fault sizeof alloc_page in
  let info := TaskInfo (w_start w + k_pa cur mod PAGE_SIZE + PAGE_SIZE) (k_pid cur) in
  exists w',
    get_task_struct_info sizeof fault phys offsetof_pid cur
      (w_start w + VTASK_SIZE sizeof) false w = Ok (0, Some info, w') /\
    w_pages w' !! page = Some (2, View (k_pa cur mod PAGE_SIZE) (k_pid cur)) /\
    forall other, get_task_struct_info sizeof fault phys offsetof_pid other
      (w_start w + VTASK_SIZE sizeof) false w' = Ok (0, Some info, w').
Proof.
  intros Hsz Hvt Hins Hfr Hpid Hal fault info.
  destruct (window_info_first sizeof alloc_page 2 Hsz Hins fault (vtask_fault_handler _ _ Hsz) phys
    offsetof_pid cur w page Hfr Hpid Hal) as (pt & E & Hlater).
  eexists. split_and!.
  - rewrite (get_task_struct_info_window _ _ _ _ _ _ _ Hvt). exact E.
  - apply lookup_insert_eq.
  - intros other. rewrite (get_task_struct_info_window _ _ _ _ _ _ _ Hvt). apply Hlater, lookup_insert_eq.
Qed.

(** Which bytes of its task_struct a task can see.  Byte [d] of the
    running task's task_struct appears at the address one page, the offset of
    the task_struct in its page, and [d] bytes above the window.  The access
    succeeds, and reads physical byte [k_pa + d], exactly when page offset plus
    [d] lies below the size rounded up to whole pages; the last bytes of a
    task_struct that straddles one page more than its size needs are out of
    reach. *)
Theorem vtask_window_reach `{PtLaws} sizeof alloc_page cur w d :
  0 < sizeof < 2 ^ 31 ->
  (forall pt a pfn b, fst (vmf_insert_pfn_prot pt a pfn b) = VM_FAULT_NOPAGE) ->
  w_start w mod PAGE_SIZE = 0 -> 0 <= w_start w -> 0 <= k_pa cur -> 0 <= d < sizeof ->
  let off := k_pa cur mod PAGE_SIZE in
  let a := w_start w + PAGE_SIZE + off + d in
  w_pt w !! page_of a = None ->
  (off + d < PAGE_ALIGN sizeof -> exists w' pfn,
     user_touch sizeof (vtask_fault sizeof alloc_page) cur a w = Ok w' /\
     w_pt w' !! page_of a = Some (PtePfn pfn false) /\
     pfn * PAGE_SIZE + a mod PAGE_SIZE = k_pa cur + d) /\
  (PAGE_ALIGN sizeof <= off + d ->
     user_touch sizeof (vtask_fault sizeof alloc_page) cur a w = Fault OutOfBounds).
Proof.
  intros Hsz Hins Hw Hw0 Hpa Hd off a Hun.
  assert (Hoff : 0 <= off < PAGE_SIZE) by (apply Z.mod_pos_bound; done).
  assert (Hvt : VTASK_SIZE sizeof = PAGE_ALIGN sizeof + PAGE_SIZE).
  { destruct (PAGE_ALIGN_spec sizeof). unfold VTASK_SIZE. apply u64_small.
    change (ALIGN sizeof PAGE_SIZE) with (PAGE_ALIGN sizeof). unfold in_u, PAGE_SIZE in *. lia. }
  destruct (VTASK_SIZE_spec sizeof Hsz) as [Hvm _]. split; intros Hr.
  - assert (exists n, n = 1 + (off + d) / PAGE_SIZE) as [n En] by eauto.
    eexists _, _. split_and!.
    + apply (user_touch_task sizeof alloc_page 2 Hsz Hins _ (vtask_fault_handler _ _ Hsz) cur w a n); try done;
        unfold a, page_of, PAGE_SIZE in *; zmod_lia.
    + apply lookup_insert_eq.
    + unfold a, off, PAGE_SIZE in *. zmod_lia.
  - unfold user_touch. rewrite (proj2 (Z.leb_le (w_start w + VTASK_SIZE sizeof) a)) by (unfold a; lia).
    by rewrite orb_true_r.
Qed.

(** ** A concrete page table and the witnesses *)

Definition in_range (start size p : Z) : bool :=
  (start <=? p * PAGE_SIZE) && (p * PAGE_SIZE <? start + size).

#[local] Instance simple_pt : PtOps := {
  vmf_insert_pfn_prot pt a pfn d :=
    (VM_FAULT_NOPAGE,
     match pt !! page_of a with Some _ => pt | None => <[page_of a := PtePfn pfn d]> pt end);
  zap_page_range pt start size := filter (fun kv => in_range start size kv.1 = false) pt;
}.

#[local] Instance simple_pt_laws : PtLaws.
Proof.
  split; [by right|]. intros pt start size p. cbn [zap_page_range simple_pt].
  rewrite map_lookup_filter. fold (in_range start size p).
  destruct (pt !! p) as [e|] eqn:E; simpl; [|by case_match].
  destruct (in_range start size p) eqn:Er; [rewrite option_guard_False|rewrite option_guard_True]; done || simpl; congruence.
Qed.

Lemma vdso_fault_in_image_witness :
  exists page refs', vdso_fault (Some demo_image) (Vmf 1 0) ∅ = (VM_FAULT_NONE, Some page, refs').
Proof.
  destruct (vdso_fault_in_image demo_image (Vmf 1 0) ∅) as (_ & _ & Hw).
  - vm_compute; intuition congruence.
  - reflexivity.
  - destruct Hw as (page & refs' & E & _); [reflexivity|]. exists page, refs'. exact E.
Defined.

Definition demo_vvar : vm_area := Vma 65536 (65536 + 4 * PAGE_SIZE) [] (Some vvar_mapping).
Definition demo_vvar_mm : mm_struct := Mm [demo_vvar] 0 (Some demo_image) 0 false.
Definition demo_env (ns : option Z) : vvar_env := VvarEnv true true ns 7 None false (Some 9) true.

Lemma demo_vvar_image_wf : vvar_image_wf demo_image.
Proof. split; vm_compute; intuition congruence. Qed.

(** Outside a namespace, then inside one after vdso_join_timens, the vvar page
    is faulted in. *)
Lemma vvar_fault_consistent_witness :
  exists pt', vvar_fault (demo_env (Some 8)) (Some demo_image) (Vmf 0 65536)
    (snd (vdso_join_timens demo_vvar_mm
       (snd (vvar_fault (demo_env None) (Some demo_image) (Vmf 0 65536) ∅)))) = (VM_FAULT_NOPAGE, pt') /\
    pt' !! 16 = Some (PtePfn 8 false).
Proof.
  set (pt := snd (vdso_join_timens _ _)).
  pose proof (vvar_fault_consistent demo_image demo_vvar_mm demo_vvar (demo_env (Some 8)) pt
    (Vmf 0 65536) demo_vvar_image_wf) as Hw.
  destruct (vvar_fault (demo_env (Some 8)) (Some demo_image) (Vmf 0 65536) pt) as [e pt'] eqn:E.
  destruct Hw as (_ & _ & [(-> & _ & Hl)|He] & _).
  - apply elem_of_cons. by left.
  - reflexivity.
  - vm_compute; intuition congruence.
  - vm_compute; intuition congruence.
  - eapply run_join. apply run_fault; [apply run_init|]. vm_compute; intuition congruence.
  - vm_compute; intuition congruence.
  - exists pt'. split; [reflexivity|]. exact Hl.
  - exfalso. assert (e = VM_FAULT_NOPAGE) by (vm_compute in E; congruence). subst e. discriminate He.
Defined.

Definition demo_task : ktask := KTask 1000 42.
Definition demo_window : window := Window 65536 ∅ ∅.

Lemma get_task_struct_info_first_caller_witness :
  exists w', get_task_struct_info 9792 (vtask_fault 9792 (fun _ => Some 3)) (fun _ => 42) 2400 demo_task
    (65536 + VTASK_SIZE 9792) false demo_window =
    Ok (0, Some (TaskInfo (65536 + 1000 + 4096) 42), w').
Proof.
  destruct (get_task_struct_info_first_caller 9792 (fun _ => Some 3) (fun _ => 42) 2400 demo_task
    demo_window 3) as (w' & E & _).
  - lia.
  - reflexivity.
  - reflexivity.
  - split_and!; [reflexivity|discriminate|]. intros n _ _. apply lookup_empty.
  - split_and!; [discriminate|lia|reflexivity|reflexivity].
  - reflexivity.
  - exists w'. exact E.
Defined.

(** A task_struct of 9792 bytes that starts 3000 bytes into its page: the last
    byte is out of reach. *)
Lemma vtask_window_reach_witness :
  user_touch 9792 (vtask_fault 9792 (fun _ => None)) (KTask 3000 1) (65536 + 4096 + 3000 + 9791) demo_window =
  Fault OutOfBounds.
Proof.
  apply (vtask_window_reach 9792 (fun _ => None) (KTask 3000 1) demo_window 9791).
  - lia.
  - reflexivity.
  - reflexivity.
  - discriminate.
  - discriminate.
  - lia.
  - apply lookup_empty.
  - vm_compute. discriminate.
Defined.
