(* ===== verification/VdsoPatch.v ===== *)
(** * The task window as the patch has it (syscall/vdso/vDSO.patch)

    The patch differs from the files of the tree in two places: vtask_fault
    takes no reference of its own on the view page, and the vDSO function finds
    the window below the clock data by its real size instead of assuming four
    pages.  The file models the two functions of the patch and shows that its
    vDSO function answers for every size of task_struct, where the one of the
    tree needs the window to have four pages. *)

From S2P Require Import Prelude VdsoMap VdsoFault.

Section Patch.
Context `{PtOps}.
Variable sizeof_task_struct : Z.
Variable alloc_page : gset Z -> option Z.

(** vtask_fault of the patch; the call of get_page is commented out. *)
Definition patch_vtask_fault (current : ktask) (vmf : vm_fault) (pages : view_pages) (pt : page_table)
  : vm_fault_t * option Z * view_pages * page_table :=
  let offset := u64 (Z.shiftl (pgoff vmf) PAGE_SHIFT) in
  if VTASK_SIZE sizeof_task_struct <=? offset then (VM_FAULT_SIGBUS, None, pages, pt)
  else
    let task_struct_offset := Z.land (k_pa current) (Z.lnot PAGE_MASK) in
    if pgoff vmf =? 0 then
      match alloc_page (dom pages) with
      | None => (VM_FAULT_OOM, None, pages, pt)
      | Some page =>
          let view := View (s32 task_struct_offset) (k_pid current) in
          (* alloc_page's reference *)
          (VM_FAULT_NONE, Some page, <[page := (1, view)]> pages, pt)
      end
    else
      let '(e, pt') := vmf_insert_pfn pt (address vmf)
                         (Z.shiftr (k_pa current + offset - PAGE_SIZE) PAGE_SHIFT) in
      (e, None, pages, pt').

Variable fault : window_fault.
Variable phys : Z -> Z.

(** The result of __arch_get_vdso_data, which asm/vdso/gettimeofday.h defines. *)
Variable vdso_data : Z.

Definition patch_get_task_addr (current : ktask) (w : window) : res (Z * window) :=
  let view := vdso_data - VTASK_SIZE sizeof_task_struct - 128 in
  let! (off, w') := user_load sizeof_task_struct fault phys current view w in
  Ok (view + off + PAGE_SIZE, w').

Definition patch_get_task_struct_info (offsetof_pid : Z) (current : ktask)
  (info_null : bool) (w : window) : res (Z * option task_info * window) :=
  if info_null then Ok (-1, None, w)
  else
    let! (task, w1) := patch_get_task_addr current w in
    if task =? 0 then Ok (-1, None, w1)
    else
      let! (pid, w2) := user_load sizeof_task_struct fault phys current (task + offsetof_pid) w1 in
      Ok (0, Some (TaskInfo task pid), w2).

End Patch.

Section Equations.
Context `{PtLaws}.
Variables (sizeof : Z) (alloc_page : gset Z -> option Z).
Hypothesis Hsize : 0 < sizeof < 2 ^ 31.

(** The handlers of the tree and of the patch differ in the references they
    leave on a view page, and in nothing else. *)
Lemma patch_fault_handler : window_handler sizeof alloc_page 1 (patch_vtask_fault sizeof alloc_page).
Proof.
  destruct (VTASK_SIZE_spec sizeof Hsize) as [_ Hvs]. split; unfold patch_vtask_fault; cbn [pgoff address].
  - intros cur n a pages pt Hpa Hn Hnv. rewrite window_offset_eq by (unfold PAGE_SIZE in *; lia).
    rewrite (proj2 (Z.leb_gt _ _)), (proj2 (Z.eqb_neq _ _)), task_frame_eq by lia. done.
  - intros cur a pages pt page Hpa Hal. rewrite window_offset_eq by lia.
    rewrite (proj2 (Z.leb_gt _ _)) by (unfold PAGE_SIZE in *; lia). cbn [Z.eqb].
    by rewrite Hal, task_struct_offset_eq.
Qed.

(** The data of the clocks start 128 bytes into vvar_page, the page above the
    window: the patch reads the view from the start of the window, and its
    check for NULL does not fire. *)
Lemma patch_info_window fault phys offsetof_pid cur start w info w' :
  window_info sizeof fault phys offsetof_pid cur start w = Ok (0, Some info, w') -> kaddr info <> 0 ->
  patch_get_task_struct_info sizeof fault phys (start + VTASK_SIZE sizeof + 128) offsetof_pid cur false w =
  Ok (0, Some info, w').
Proof.
  unfold patch_get_task_struct_info, patch_get_task_addr, window_info.
  replace (start + VTASK_SIZE sizeof + 128 - VTASK_SIZE sizeof - 128) with start by lia.
  destruct (user_load _ _ _ _ start w) as [[off w1]|]; [|done]. cbn [res_bind].
  destruct (user_load _ _ _ _ _ w1) as [[pid w2]|]; [|done]. cbn [res_bind].
  intros [= <- <-] Hne. cbn [kaddr] in Hne. by rewrite (proj2 (Z.eqb_neq _ _) Hne).
Qed.

End Equations.
