(* ===== verification/TaskState.v ===== *)
(** * Task states and task flags (include/linux/sched.h)

    The state bits of a task and the letter /proc shows for them, the
    per-process flags PF_* and the atomic flags PFA_*, with the inline
    functions and macros that read and write them. *)

From S2P Require Import Prelude.
From Stdlib Require Import Ascii String.

(** ** States *)

Definition TASK_RUNNING : Z := 0.
Definition TASK_INTERRUPTIBLE : Z := 1.
Definition TASK_UNINTERRUPTIBLE : Z := 2.
Definition TASK_STOPPED_BIT : Z := 4.
Definition TASK_TRACED_BIT : Z := 8.
Definition EXIT_DEAD : Z := 16.
Definition EXIT_ZOMBIE : Z := 32.
Definition EXIT_TRACE : Z := Z.lor EXIT_ZOMBIE EXIT_DEAD.
Definition TASK_PARKED : Z := 64.
Definition TASK_DEAD : Z := 128.
Definition TASK_WAKEKILL : Z := 256.
Definition TASK_WAKING : Z := 512.
Definition TASK_NOLOAD : Z := 1024.
Definition TASK_NEW : Z := 2048.
Definition TASK_RTLOCK_WAIT : Z := 4096.
Definition TASK_STATE_MAX : Z := 8192.

Definition TASK_KILLABLE : Z := Z.lor TASK_WAKEKILL TASK_UNINTERRUPTIBLE.
Definition TASK_STOPPED : Z := Z.lor TASK_WAKEKILL TASK_STOPPED_BIT.
Definition TASK_TRACED : Z := Z.lor TASK_WAKEKILL TASK_TRACED_BIT.
Definition TASK_IDLE : Z := Z.lor TASK_UNINTERRUPTIBLE TASK_NOLOAD.
Definition TASK_NORMAL : Z := Z.lor TASK_INTERRUPTIBLE TASK_UNINTERRUPTIBLE.

Definition lor_all (l : list Z) : Z := foldr Z.lor 0 l.

Definition TASK_REPORT : Z :=
  lor_all [TASK_RUNNING; TASK_INTERRUPTIBLE; TASK_UNINTERRUPTIBLE; TASK_STOPPED_BIT;
           TASK_TRACED_BIT; EXIT_DEAD; EXIT_ZOMBIE; TASK_PARKED].

Definition task_is_running (state : Z) : bool := state =? TASK_RUNNING.
Definition task_is_traced (state : Z) : bool := has state TASK_TRACED_BIT.
Definition task_is_stopped (state : Z) : bool := has state TASK_STOPPED_BIT.
Definition task_is_stopped_or_traced (state : Z) : bool :=
  has state (Z.lor TASK_STOPPED_BIT TASK_TRACED_BIT).
Definition is_special_task_state (state : Z) : bool :=
  has state (lor_all [TASK_STOPPED_BIT; TASK_TRACED_BIT; TASK_PARKED; TASK_DEAD]).

Definition TASK_REPORT_IDLE : Z := TASK_REPORT + 1.
Definition TASK_REPORT_MAX : Z := Z.shiftl TASK_REPORT_IDLE 1.

(** fls on an unsigned int: the position of the top bit from 1, 0 for 0. *)
Definition fls (x : Z) : Z := if x =? 0 then 0 else Z.log2 x + 1.

(** task_state_index of a task with these __state and exit_state. *)
Definition task_state_index (tsk_state exit_state : Z) : Z :=
  let state := Z.land (Z.lor tsk_state exit_state) TASK_REPORT in
  let state := if tsk_state =? TASK_IDLE then TASK_REPORT_IDLE else state in
  let state := if tsk_state =? TASK_RTLOCK_WAIT then TASK_UNINTERRUPTIBLE else state in
  fls state.

Definition state_char : string := "RSDTtXZPI".

(** task_index_to_char reads the array at [state]; the terminating NUL is not
    one of the letters. *)
Definition task_index_to_char (state : Z) : res ascii :=
  if state <? 0 then Fault OutOfBounds
  else of_option OutOfBounds (String.get (Z.to_nat state) state_char).

Definition task_state_to_char (tsk_state exit_state : Z) : res ascii :=
  task_index_to_char (task_state_index tsk_state exit_state).

(** ** Per-process flags *)

Definition PF_VCPU : Z := 2 ^ 0.
Definition PF_IDLE : Z := 2 ^ 1.
Definition PF_EXITING : Z := 2 ^ 2.
Definition PF_IO_WORKER : Z := 2 ^ 4.
Definition PF_WQ_WORKER : Z := 2 ^ 5.
Definition PF_FORKNOEXEC : Z := 2 ^ 6.
Definition PF_MCE_PROCESS : Z := 2 ^ 7.
Definition PF_SUPERPRIV : Z := 2 ^ 8.
Definition PF_DUMPCORE : Z := 2 ^ 9.
Definition PF_SIGNALED : Z := 2 ^ 10.
Definition PF_MEMALLOC : Z := 2 ^ 11.
Definition PF_NPROC_EXCEEDED : Z := 2 ^ 12.
Definition PF_USED_MATH : Z := 2 ^ 13.
Definition PF_NOFREEZE : Z := 2 ^ 15.
Definition PF_FROZEN : Z := 2 ^ 16.
Definition PF_KSWAPD : Z := 2 ^ 17.
Definition PF_MEMALLOC_NOFS : Z := 2 ^ 18.
Definition PF_MEMALLOC_NOIO : Z := 2 ^ 19.
Definition PF_LOCAL_THROTTLE : Z := 2 ^ 20.
Definition PF_KTHREAD : Z := 2 ^ 21.
Definition PF_RANDOMIZE : Z := 2 ^ 22.
Definition PF_SWAPWRITE : Z := 2 ^ 23.
Definition PF_NO_SETAFFINITY : Z := 2 ^ 26.
Definition PF_MCE_EARLY : Z := 2 ^ 27.
Definition PF_MEMALLOC_PIN : Z := 2 ^ 28.
Definition PF_FREEZER_SKIP : Z := 2 ^ 30.
Definition PF_SUSPEND_TASK : Z := 2 ^ 31.

(** [flags & ~m] and [flags | m] *)
Definition clear_flags (flags m : Z) : Z := Z.ldiff flags m.
Definition set_flags (flags m : Z) : Z := Z.lor flags m.

Definition clear_stopped_child_used_math (flags : Z) : Z := clear_flags flags PF_USED_MATH.
Definition set_stopped_child_used_math (flags : Z) : Z := set_flags flags PF_USED_MATH.
Definition conditional_stopped_child_used_math (cond : bool) (flags : Z) : Z :=
  set_flags (clear_flags flags PF_USED_MATH) (if cond then PF_USED_MATH else 0).
Definition copy_to_stopped_child_used_math (current_flags flags : Z) : Z :=
  set_flags (clear_flags flags PF_USED_MATH) (Z.land current_flags PF_USED_MATH).
Definition tsk_used_math (flags : Z) : Z := Z.land flags PF_USED_MATH.

Definition is_percpu_thread (CONFIG_SMP : bool) (flags nr_cpus_allowed : Z) : bool :=
  if CONFIG_SMP then has flags PF_NO_SETAFFINITY && (nr_cpus_allowed =? 1) else true.

Definition is_idle_task (flags : Z) : bool := has flags PF_IDLE.

Definition current_restore_flags (current_flags orig_flags flags : Z) : Z :=
  set_flags (clear_flags current_flags flags) (Z.land orig_flags flags).

(** ** Atomic flags *)

Inductive pfa :=
| PFA_NO_NEW_PRIVS | PFA_SPREAD_PAGE | PFA_SPREAD_SLAB | PFA_SPEC_SSB_DISABLE
| PFA_SPEC_SSB_FORCE_DISABLE | PFA_SPEC_IB_DISABLE | PFA_SPEC_IB_FORCE_DISABLE
| PFA_SPEC_SSB_NOEXEC.

Definition pfa_bit (f : pfa) : Z :=
  match f with
  | PFA_NO_NEW_PRIVS => 0
  | PFA_SPREAD_PAGE => 1
  | PFA_SPREAD_SLAB => 2
  | PFA_SPEC_SSB_DISABLE => 3
  | PFA_SPEC_SSB_FORCE_DISABLE => 4
  | PFA_SPEC_IB_DISABLE => 5
  | PFA_SPEC_IB_FORCE_DISABLE => 6
  | PFA_SPEC_SSB_NOEXEC => 7
  end.

Definition TASK_PFA_TEST (f : pfa) (atomic_flags : Z) : bool := Z.testbit atomic_flags (pfa_bit f).
Definition TASK_PFA_SET (f : pfa) (atomic_flags : Z) : Z := Z.setbit atomic_flags (pfa_bit f).
Definition TASK_PFA_CLEAR (f : pfa) (atomic_flags : Z) : Z := Z.clearbit atomic_flags (pfa_bit f).

(** ** Theorems *)

Lemma task_report_bits x : 0 <= x -> 0 <= Z.land x TASK_REPORT < 128.
Proof.
  intros Hx. change TASK_REPORT with (2 ^ 7 - 1). rewrite land_low_mod by lia.
  apply Z.mod_pos_bound. lia.
Qed.

Lemma fls_bound x n : 0 <= x < 2 ^ n -> 0 <= n -> 0 <= fls x <= n.
Proof.
  intros Hx Hn. unfold fls. destruct (Z.eqb_spec x 0); [lia|].
  pose proof (Z.log2_nonneg x). pose proof (proj1 (Z.log2_lt_pow2 x n ltac:(lia)) ltac:(lia)). lia.
Qed.

Lemma task_state_index_range tsk_state exit_state :
  0 <= tsk_state -> 0 <= exit_state -> 0 <= task_state_index tsk_state exit_state <= 8.
Proof.
  intros Ht He. unfold task_state_index. case_match; [by vm_compute|]. case_match; [by vm_compute|].
  pose proof (task_report_bits (Z.lor tsk_state exit_state)) as Hb.
  pose proof (fls_bound (Z.land (Z.lor tsk_state exit_state) TASK_REPORT) 7) as Hf.
  change (2 ^ 7) with 128 in Hf. rewrite Z.lor_nonneg in Hb. lia.
Qed.

(** The state letter is always inside the table.  For every value of the
    two state fields task_state_to_char reads one of the nine letters: 'I' for
    the idle state, 'D' for a task waiting for an RT lock, and otherwise the
    letter of the highest reported bit, 'R' when there is none. *)
Theorem task_state_to_char_total tsk_state exit_state :
  in_u 32 tsk_state -> in_u 32 exit_state ->
  let report := Z.land (Z.lor tsk_state exit_state) TASK_REPORT in
  exists c, task_state_to_char tsk_state exit_state = Ok c /\
    (tsk_state = TASK_IDLE -> c = "I"%char) /\
    (tsk_state = TASK_RTLOCK_WAIT -> c = "D"%char) /\
    (tsk_state <> TASK_IDLE -> tsk_state <> TASK_RTLOCK_WAIT ->
       String.get (Z.to_nat (fls report)) state_char = Some c) /\
    (report = 0 -> tsk_state <> TASK_IDLE -> tsk_state <> TASK_RTLOCK_WAIT -> c = "R"%char).
Proof.
  intros [Ht _] [He _] report. pose proof (task_state_index_range _ _ Ht He) as Hr.
  unfold task_state_to_char, task_index_to_char.
  destruct (Z.ltb_spec (task_state_index tsk_state exit_state) 0); [lia|].
  assert (is_Some (String.get (Z.to_nat (task_state_index tsk_state exit_state)) state_char)) as [c Ec].
  { assert (Hn : (Z.to_nat (task_state_index tsk_state exit_state) < 9)%nat) by lia.
    revert Hn. generalize (Z.to_nat (task_state_index tsk_state exit_state)). intros n Hn.
    do 9 (destruct n as [|n]; [by eexists|]). lia. }
  exists c. rewrite Ec. split; [done|]. unfold task_state_index in Ec. fold report in Ec. split_and!.
  - intros ->. vm_compute in Ec. congruence.
  - intros ->. vm_compute in Ec. congruence.
  - intros H1%Z.eqb_neq H2%Z.eqb_neq. by rewrite H1, H2 in Ec.
  - intros H0 H1%Z.eqb_neq H2%Z.eqb_neq. rewrite H1, H2, H0 in Ec. vm_compute in Ec. congruence.
Qed.

(** A stopped zombie shows as 'Z'. *)
Lemma task_state_to_char_total_witness :
  task_state_to_char TASK_STOPPED EXIT_ZOMBIE = Ok "Z"%char.
Proof.
  destruct (task_state_to_char_total TASK_STOPPED EXIT_ZOMBIE) as (c & E & _ & _ & Hc & _).
  - vm_compute; intuition congruence.
  - vm_compute; intuition congruence.
  - rewrite E. f_equal. specialize (Hc ltac:(discriminate) ltac:(discriminate)).
    vm_compute in Hc. congruence.
Defined.
