(* ===== verification/SchedSleep.v ===== *)
(** * Going to sleep and being woken up (include/linux/sched.h)

    The macros that change the state of the current task, the loop in which a
    task waits for a condition, and the wake-up, as the comments of the header
    describe it.  Processors with store buffers: a plain store of the state
    becomes visible later, the store of set_current_state at once. *)

From S2P Require Import Prelude TaskState.

(** ** The macros *)

(** The fields the macros use; [ts_warned] is whether WARN_ON_ONCE fired. *)
Record tstate := TState {
  ts_state : Z; ts_saved_state : Z; ts_state_change : Z; ts_saved_state_change : Z; ts_warned : bool }.

Section Macros.
Variable CONFIG_DEBUG_ATOMIC_SLEEP : bool.
(** _THIS_IP_ *)
Variable ip : Z.

Definition warn_on (c : bool) (t : tstate) : tstate :=
  TState (ts_state t) (ts_saved_state t) (ts_state_change t) (ts_saved_state_change t) (c || ts_warned t).
Definition set_change (v : Z) (t : tstate) : tstate :=
  TState (ts_state t) (ts_saved_state t) v (ts_saved_state_change t) (ts_warned t).
Definition set_saved_change (v : Z) (t : tstate) : tstate :=
  TState (ts_state t) (ts_saved_state t) (ts_state_change t) v (ts_warned t).
Definition write_state (v : Z) (t : tstate) : tstate :=
  TState v (ts_saved_state t) (ts_state_change t) (ts_saved_state_change t) (ts_warned t).
Definition write_saved (v : Z) (t : tstate) : tstate :=
  TState (ts_state t) v (ts_state_change t) (ts_saved_state_change t) (ts_warned t).

Definition debug_normal_state_change (v : Z) (t : tstate) : tstate :=
  if CONFIG_DEBUG_ATOMIC_SLEEP then set_change ip (warn_on (is_special_task_state v) t) else t.
Definition debug_special_state_change (v : Z) (t : tstate) : tstate :=
  if CONFIG_DEBUG_ATOMIC_SLEEP then set_change ip (warn_on (negb (is_special_task_state v)) t) else t.
Definition debug_rtlock_wait_set_state (t : tstate) : tstate :=
  if CONFIG_DEBUG_ATOMIC_SLEEP then set_change ip (set_saved_change (ts_state_change t) t) else t.
Definition debug_rtlock_wait_restore_state (t : tstate) : tstate :=
  if CONFIG_DEBUG_ATOMIC_SLEEP then set_change (ts_saved_state_change t) t else t.

(** What reaches memory, as soon as the store does. *)
Definition set_current_state_nb (v : Z) (t : tstate) : tstate := write_state v (debug_normal_state_change v t).
Definition set_current_state (v : Z) (t : tstate) : tstate := write_state v (debug_normal_state_change v t).
Definition set_special_state (v : Z) (t : tstate) : tstate := write_state v (debug_special_state_change v t).

Definition current_save_and_set_rtlock_wait_state (t : tstate) : tstate :=
  write_state TASK_RTLOCK_WAIT (debug_rtlock_wait_set_state (write_saved (ts_state t) t)).

Definition current_restore_rtlock_saved_state (t : tstate) : tstate :=
  let t := debug_rtlock_wait_restore_state t in
  write_saved TASK_RUNNING (write_state (ts_saved_state t) t).

Definition get_current_state (t : tstate) : Z := ts_state t.

(** ** Waiting for an RT lock *)

(** try_to_wake_up is not in the tree; the comments of the header say what it
    does to the two states: it makes a state that matches TASK_RUNNING, and
    else a saved state that matches. *)
Class WakeUp := {
  wake_up_state : Z -> tstate -> tstate;
  wake_state : forall mask t, has (ts_state t) mask = true ->
    ts_state (wake_up_state mask t) = TASK_RUNNING /\ ts_saved_state (wake_up_state mask t) = ts_saved_state t;
  wake_saved : forall mask t, has (ts_state t) mask = false -> has (ts_saved_state t) mask = true ->
    ts_state (wake_up_state mask t) = ts_state t /\ ts_saved_state (wake_up_state mask t) = TASK_RUNNING;
  wake_none : forall mask t, has (ts_state t) mask = false -> has (ts_saved_state t) mask = false ->
    ts_state (wake_up_state mask t) = ts_state t /\ ts_saved_state (wake_up_state mask t) = ts_saved_state t;
}.
Context `{WakeUp}.


(** What happens to the task between saving and restoring its state: the lock
    wakes it up, it goes back to sleep, others wake it up. *)
Inductive rt_event := RtLockWake | RtSleepAgain | RtWake (mask : Z).

Definition rt_step (t : tstate) (e : rt_event) : tstate :=
  match e with
  | RtLockWake => wake_up_state TASK_RTLOCK_WAIT t
  | RtSleepAgain => set_current_state TASK_RTLOCK_WAIT t
  | RtWake mask => wake_up_state mask t
  end.

Definition rtlock_wait (es : list rt_event) (t : tstate) : tstate :=
  current_restore_rtlock_saved_state (foldl rt_step (current_save_and_set_rtlock_wait_state t) es).

End Macros.

(** ** The state survives an RT lock *)

(** A wake-up by somebody else than the lock that the sleeping state answers. *)
Definition answers (sigma : Z) (e : rt_event) : bool :=
  match e with RtWake mask => has sigma mask | _ => false end.

(** Wake-ups by others do not use the bit of the lock. *)
Definition not_lock (e : rt_event) : Prop :=
  match e with RtWake mask => has TASK_RTLOCK_WAIT mask = false | _ => True end.

Lemma has_running mask : has TASK_RUNNING mask = false.
Proof. reflexivity. Qed.

Section Rt.
Context `{WakeUp}.
Variables (dbg : bool) (ip : Z).

(** The two states while the task waits: [sigma] or, once it was woken up,
    TASK_RUNNING is saved. *)
Definition rt_waiting (sigma : Z) (woken : bool) (t : tstate) : Prop :=
  (ts_state t = TASK_RTLOCK_WAIT \/ ts_state t = TASK_RUNNING) /\
  ts_saved_state t = (if woken then TASK_RUNNING else sigma).

Lemma rt_step_waiting sigma woken t e :
  has sigma TASK_RTLOCK_WAIT = false -> not_lock e -> rt_waiting sigma woken t ->
  rt_waiting sigma (woken || answers sigma e) (rt_step dbg ip t e).
Proof.
  intros Hs Hn [Hst Hsv]. destruct e as [| |mask]; cbn [rt_step answers] in *; rewrite ?orb_false_r.
  - assert (Hno : has (ts_saved_state t) TASK_RTLOCK_WAIT = false) by (rewrite Hsv; by destruct woken).
    destruct Hst as [Hst|Hst].
    + destruct (wake_state TASK_RTLOCK_WAIT t) as [E1 E2]; [by rewrite Hst|]. split; [by right|congruence].
    + destruct (wake_none TASK_RTLOCK_WAIT t) as [E1 E2]; [by rewrite Hst|done|]. split; [right|]; congruence.
  - unfold set_current_state, debug_normal_state_change. split; [by left|]. by destruct dbg.
  - assert (Hm : has (ts_state t) mask = false) by (destruct Hst as [->| ->]; [done|apply has_running]).
    destruct (has (ts_saved_state t) mask) eqn:E.
    + destruct (wake_saved mask t Hm E) as [E1 E2]. split; [by rewrite E1|]. rewrite E2.
      destruct woken; [done|]. rewrite Hsv in E. cbn. by rewrite E.
    + destruct (wake_none mask t Hm E) as [E1 E2]. split; [by rewrite E1|]. rewrite E2, Hsv in *.
      destruct woken; [done|]. cbn. by rewrite E.
Qed.

Lemma rt_steps_waiting sigma es woken t :
  has sigma TASK_RTLOCK_WAIT = false -> Forall not_lock es -> rt_waiting sigma woken t ->
  rt_waiting sigma (woken || existsb (answers sigma) es) (foldl (rt_step dbg ip) t es).
Proof.
  intros Hs Hf. revert woken t. induction Hf as [|e es He _ IH]; intros woken t Ht; cbn [existsb foldl].
  - by rewrite orb_false_r.
  - rewrite orb_assoc. apply IH. by apply rt_step_waiting.
Qed.

(** Waiting for an RT lock neither changes the state of a task nor loses a
    wake-up: whatever the lock and others do meanwhile, afterwards the state is
    what it was or, if somebody woke the task up, TASK_RUNNING, and nothing is
    left in the saved state. *)
Theorem rtlock_state_preserved sigma es t :
  ts_state t = sigma -> has sigma TASK_RTLOCK_WAIT = false -> Forall not_lock es ->
  let t' := rtlock_wait dbg ip es t in
  ts_state t' = (if existsb (answers sigma) es then TASK_RUNNING else sigma) /\ ts_saved_state t' = TASK_RUNNING.
Proof.
  intros Ht Hs Hf. unfold rtlock_wait.
  assert (Hw : rt_waiting sigma false (current_save_and_set_rtlock_wait_state dbg ip t)).
  { unfold current_save_and_set_rtlock_wait_state, debug_rtlock_wait_set_state. split; [by left|]. by destruct dbg. }
  destruct (rt_steps_waiting sigma es false _ Hs Hf Hw) as [_ Hsv].
  unfold current_restore_rtlock_saved_state, debug_rtlock_wait_restore_state. split; [|by destruct dbg].
  cbn [orb] in Hsv. destruct dbg; exact Hsv.
Qed.

End Rt.

(** The wake-up of the comments, on the two states. *)
Definition comment_wake (mask : Z) (t : tstate) : tstate :=
  if has (ts_state t) mask then write_state TASK_RUNNING t
  else if has (ts_saved_state t) mask then write_saved TASK_RUNNING t else t.

#[global] Program Instance comment_wake_up : WakeUp := {| wake_up_state := comment_wake |}.
Next Obligation. intros mask t E. unfold comment_wake. by rewrite E. Qed.
Next Obligation. intros mask t E1 E2. unfold comment_wake. by rewrite E1, E2. Qed.
Next Obligation. intros mask t E1 E2. unfold comment_wake. by rewrite E1, E2. Qed.

(** Woken up while the task had the processor between two tries. *)
Lemma rtlock_state_preserved_witness :
  ts_state (rtlock_wait true 7 [RtLockWake; RtWake TASK_NORMAL; RtSleepAgain; RtLockWake]
    (TState TASK_INTERRUPTIBLE TASK_RUNNING 0 0 false)) = TASK_RUNNING.
Proof.
  destruct (rtlock_state_preserved true 7 TASK_INTERRUPTIBLE [RtLockWake; RtWake TASK_NORMAL; RtSleepAgain; RtLockWake]
    (TState TASK_INTERRUPTIBLE TASK_RUNNING 0 0 false)) as [E _].
  - reflexivity.
  - reflexivity.
  - repeat constructor.
  - exact E.
Defined.

(** ** The wait loop and the wake-up

      for (;;) { set_current_state(sigma); if (CONDITION) break; schedule(); }
      __set_current_state(TASK_RUNNING);

    against any number of wake-ups, CONDITION = 1; wake_up_state(p, mask).  A
    wake-up reads the state and stores TASK_RUNNING in two steps.  [m_buf] is
    the store of the state that the processor of the sleeper has not yet made
    visible; the wake-up has a full barrier after CONDITION = 1, and schedule
    and set_current_state have one. *)

Inductive spc := SSet | STest | SSched | SBlocked | SOut | SDone.
Inductive wpc := WCond | WRead | WStore | WEnd.

Record machine := Machine { m_task : tstate; m_buf : option Z; m_cond : bool; m_spc : spc; m_wks : list wpc }.

Definition with_task (t : tstate) (c : machine) : machine := Machine t (m_buf c) (m_cond c) (m_spc c) (m_wks c).
Definition with_buf (b : option Z) (c : machine) : machine := Machine (m_task c) b (m_cond c) (m_spc c) (m_wks c).
Definition with_spc (p : spc) (c : machine) : machine := Machine (m_task c) (m_buf c) (m_cond c) p (m_wks c).
Definition with_wk (i : nat) (w : wpc) (c : machine) : machine :=
  Machine (m_task c) (m_buf c) (m_cond c) (m_spc c) (<[i := w]> (m_wks c)).
Definition with_cond (b : bool) (c : machine) : machine := Machine (m_task c) (m_buf c) b (m_spc c) (m_wks c).

(** [barrier] is whether the loop uses set_current_state, as it should, or
    __set_current_state. *)
Section Loop.
Variables (barrier dbg : bool) (ip sigma mask : Z).

(** The sleeper, when it has the processor. *)
Definition sleeper (c : machine) : machine :=
  match m_buf c with
  | Some v => with_buf None (with_task (set_current_state_nb dbg ip v (m_task c)) c)
  | None =>
      match m_spc c with
      | SSet => with_spc STest (if barrier then with_task (set_current_state dbg ip sigma (m_task c)) c
                                else with_buf (Some sigma) c)
      | STest => with_spc (if m_cond c then SOut else SSched) c
      | SSched => with_spc (if task_is_running (ts_state (m_task c)) then SSet else SBlocked) c
      | SBlocked => c
      | SOut => with_spc SDone (with_buf (Some TASK_RUNNING) c)
      | SDone => c
      end
  end.

(** It can test the condition before its store is visible. *)
Definition sleeper_early (c : machine) : machine :=
  match m_spc c with STest => with_spc (if m_cond c then SOut else SSched) c | _ => c end.

Definition waker (i : nat) (c : machine) : machine :=
  match m_wks c !! i with
  | Some WCond => with_wk i WRead (with_cond true c)
  | Some WRead => with_wk i (if has (ts_state (m_task c)) mask then WStore else WEnd) c
  | Some WStore =>
      let c := with_wk i WEnd (with_task (write_state TASK_RUNNING (m_task c)) c) in
      match m_spc c with SBlocked => with_spc SSet c | _ => c end
  | _ => c
  end.

Inductive mstep (c : machine) : machine -> Prop :=
| ms_sleeper : mstep c (sleeper c)
| ms_early : mstep c (sleeper_early c)
| ms_waker i : mstep c (waker i c).

(** The sleeper starts; the wake-ups set the condition first. *)
Definition mstart (t : tstate) (n : nat) : machine := Machine t None false SSet (replicate n WCond).

Inductive mreach (t : tstate) (n : nat) : machine -> Prop :=
| mr_start : mreach t n (mstart t n)
| mr_step c c' : mreach t n c -> mstep c c' -> mreach t n c'.

End Loop.


(** A wake-up that has set the condition and is not done. *)
Definition wake_pending (c : machine) : Prop := exists i, m_wks c !! i = Some WRead \/ m_wks c !! i = Some WStore.

Definition waiting (p : spc) : bool := match p with STest | SSched | SBlocked => true | _ => false end.
Definition tested (p : spc) : bool := match p with SSched | SBlocked => true | _ => false end.

Record minv (sigma : Z) (n : nat) (c : machine) : Prop := {
  mi_buf : m_buf c <> None -> m_spc c = SDone;
  mi_state : waiting (m_spc c) = true -> ts_state (m_task c) = sigma \/ ts_state (m_task c) = TASK_RUNNING;
  mi_blocked : m_spc c = SBlocked -> ts_state (m_task c) = sigma;
  mi_wake : tested (m_spc c) = true -> m_cond c = true -> ts_state (m_task c) = sigma -> wake_pending c;
  mi_cond : forall i w, m_wks c !! i = Some w -> w <> WCond -> m_cond c = true;
  mi_len : length (m_wks c) = n;
}.

Lemma ts_set dbg ip v t : ts_state (set_current_state dbg ip v t) = v.
Proof. reflexivity. Qed.

Lemma sleeper_inv dbg ip sigma n c : sigma <> TASK_RUNNING -> minv sigma n c -> minv sigma n (sleeper true dbg ip sigma c).
Proof.
  intros Hs [Hb Hst Hbl Hw Hc Hl]. unfold sleeper. destruct (m_buf c) as [v|] eqn:Eb.
  - assert (Ed : m_spc c = SDone) by (by apply Hb). split; cbn; rewrite ?Ed; done.
  - assert (Hr : task_is_running (ts_state (m_task c)) = false -> ts_state (m_task c) <> TASK_RUNNING) by (by intros ?%Z.eqb_neq).
    destruct (m_spc c) eqn:Ep.
    + split; cbn; rewrite ?Eb; try done. by left.
    + destruct (m_cond c) eqn:Ec; split; cbn; rewrite ?Eb, ?Ec; try done; intros _; by apply Hst.
    + destruct (task_is_running _); split; cbn; rewrite ?Eb; try done; intros _.
      destruct Hst as [?|?]; [done|done|]. by destruct Hr.
    + split; rewrite ?Ep, ?Eb; done.
    + split; cbn; rewrite ?Eb; done.
    + split; rewrite ?Ep, ?Eb; done.
Qed.

Lemma early_inv sigma n c : minv sigma n c -> minv sigma n (sleeper_early c).
Proof.
  intros [Hb Hst Hbl Hw Hc Hl]. unfold sleeper_early. destruct (m_spc c) eqn:Ep; try (by split; rewrite ?Ep).
  split; cbn; try done.
  - intros E. specialize (Hb E). congruence.
  - destruct (m_cond c); [done|]. intros _. by apply Hst.
  - by destruct (m_cond c).
  - by destruct (m_cond c).
Qed.

Lemma waker_inv sigma mask n i c : has sigma mask = true -> minv sigma n c -> minv sigma n (waker mask i c).
Proof.
  intros Hm [Hb Hst Hbl Hw Hc Hl]. unfold waker. destruct (m_wks c !! i) as [[]|] eqn:Ei; try (by split).
  - split; cbn; try done; [|by rewrite length_insert]. intros _ _ _. exists i. left. apply list_lookup_insert_eq. by eapply lookup_lt_Some.
  - assert (Hcond : m_cond c = true) by (by eapply Hc). split; cbn; try done; [|by rewrite length_insert].
    intros Ht _ Hsig. rewrite Hsig, Hm. exists i. right. apply list_lookup_insert_eq. by eapply lookup_lt_Some.
  - assert (Hcond : m_cond c = true) by (by eapply Hc). assert (Hne : sigma <> TASK_RUNNING) by (by intros ->).
    cbn. destruct (m_spc c) eqn:Ep; split; cbn; rewrite ?Ep; try done; try (by rewrite length_insert); try (by right); try (by intros _ _ ?).
    intros E. specialize (Hb E). congruence.
Qed.

Lemma mreach_inv dbg ip sigma mask t n c :
  has sigma mask = true -> mreach true dbg ip sigma mask t n c -> minv sigma n c.
Proof.
  intros Hm. assert (Hne : sigma <> TASK_RUNNING) by (by intros ->).
  induction 1 as [|c c' _ IH Hstep].
  - split; cbn; try done; [|by rewrite length_replicate]. intros i w [-> _]%lookup_replicate. done.
  - destruct Hstep; [by apply sleeper_inv|by apply early_inv|by apply waker_inv].
Qed.



(** With __set_current_state in the loop a wake-up is lost: the condition holds,
    no wake-up is left and the task sleeps. *)
Lemma plain_store_loses_wakeup :
  exists c, mreach false false 0 TASK_UNINTERRUPTIBLE TASK_NORMAL (TState TASK_RUNNING TASK_RUNNING 0 0 false) 1 c /\
    m_spc c = SBlocked /\ m_cond c = true /\ m_wks c = [WEnd].
Proof.
  set (start := mstart (TState TASK_RUNNING TASK_RUNNING 0 0 false) 1).
  set (loop := sleeper false false 0 TASK_UNINTERRUPTIBLE).
  exists (loop (loop (waker TASK_NORMAL 0 (waker TASK_NORMAL 0 (sleeper_early (loop start)))))).
  split; [|done]. eapply mr_step; [|apply ms_sleeper]. eapply mr_step; [|apply ms_sleeper].
  eapply mr_step; [|apply ms_waker]. eapply mr_step; [|apply ms_waker]. eapply mr_step; [|apply ms_early].
  eapply mr_step; [|apply ms_sleeper]. apply mr_start.
Qed.
