(* ===== verification/SchedTask.v ===== *)
(** * Identifiers, thread flags and restartable sequences of a task

    The inline functions of include/linux/sched.h that look at the ids of a
    task, its thread flags, its processor and its restartable sequence area.
    The words of thread flags and the lookup of an id in a namespace belong to
    other headers: they are a class with its laws and a variable. *)

From stdpp Require Import gmap.
From S2P Require Import Prelude TaskState.

(** ** The fields the functions use *)

Record tsk := Tsk {
  t_pid : Z; t_tgid : Z; t_thread_pid : Z; t_real_parent : Z; t_static_prio : Z;
  t_thread_flags : Z; t_cpu : Z; t_user_cpus_ptr : Z;
  t_rseq : Z; t_rseq_sig : Z; t_rseq_event_mask : Z }.

Definition with_thread_flags (v : Z) (t : tsk) : tsk :=
  Tsk (t_pid t) (t_tgid t) (t_thread_pid t) (t_real_parent t) (t_static_prio t) v (t_cpu t)
    (t_user_cpus_ptr t) (t_rseq t) (t_rseq_sig t) (t_rseq_event_mask t).
Definition with_rseq (r sig mask : Z) (t : tsk) : tsk :=
  Tsk (t_pid t) (t_tgid t) (t_thread_pid t) (t_real_parent t) (t_static_prio t) (t_thread_flags t)
    (t_cpu t) (t_user_cpus_ptr t) r sig mask.

(** ** Identifiers *)

Inductive pid_type := PIDTYPE_PID | PIDTYPE_TGID | PIDTYPE_PGID | PIDTYPE_SID.

Section Pids.
(** Namespaces are addresses, 0 is NULL; the lookup is in kernel/pid.c. *)
Variable init_pid_ns : Z.
Variable task_pid_nr_ns_of : tsk -> pid_type -> Z -> Z.
(** The tasks, by address *)
Variable tasks : gmap Z tsk.

Definition task_pid (t : tsk) : Z := t_thread_pid t.
Definition task_pid_nr (t : tsk) : Z := t_pid t.
Definition task_pid_nr_ns (t : tsk) (ns : Z) : Z := task_pid_nr_ns_of t PIDTYPE_PID ns.
Definition task_pid_vnr (t : tsk) : Z := task_pid_nr_ns_of t PIDTYPE_PID 0.
Definition task_tgid_nr (t : tsk) : Z := t_tgid t.
Definition pid_alive (t : tsk) : bool := negb (t_thread_pid t =? 0).
Definition task_pgrp_nr_ns (t : tsk) (ns : Z) : Z := task_pid_nr_ns_of t PIDTYPE_PGID ns.
Definition task_pgrp_vnr (t : tsk) : Z := task_pid_nr_ns_of t PIDTYPE_PGID 0.
Definition task_session_nr_ns (t : tsk) (ns : Z) : Z := task_pid_nr_ns_of t PIDTYPE_SID ns.
Definition task_session_vnr (t : tsk) : Z := task_pid_nr_ns_of t PIDTYPE_SID 0.
Definition task_tgid_nr_ns (t : tsk) (ns : Z) : Z := task_pid_nr_ns_of t PIDTYPE_TGID ns.
Definition task_tgid_vnr (t : tsk) : Z := task_pid_nr_ns_of t PIDTYPE_TGID 0.

(** [None] is the dereference of a pointer that leads nowhere. *)
Definition task_ppid_nr_ns (t : tsk) (ns : Z) : option Z :=
  if pid_alive t then (fun par => task_tgid_nr_ns par ns) <$> tasks !! t_real_parent t else Some 0.
Definition task_ppid_nr (t : tsk) : option Z := task_ppid_nr_ns t init_pid_ns.
Definition task_pgrp_nr (t : tsk) : Z := task_pgrp_nr_ns t init_pid_ns.
Definition is_global_init (t : tsk) : bool := task_tgid_nr t =? 1.

(** Only the parent of a live task is followed: "if pid_alive fails, then
    pointers within the task structure can be stale". *)
Lemma task_ppid_nr_ns_total t ns :
  (t_thread_pid t <> 0 -> is_Some (tasks !! t_real_parent t)) -> is_Some (task_ppid_nr_ns t ns).
Proof.
  unfold task_ppid_nr_ns, pid_alive. intros H. destruct (Z.eqb_spec (t_thread_pid t) 0) as [|Hn]; [by eexists|].
  destruct (H Hn) as [par ->]. by eexists.
Qed.
End Pids.

(** ** Priority and processors *)

Section Processors.
(** The macro of linux/sched/prio.h and the test of linux/cpumask.h *)
Variable PRIO_TO_NICE : Z -> Z.
Variable CPUMASK : Type.
Variable cpumask_test_cpu : Z -> CPUMASK -> bool.
Variable EINVAL : Z.
Variable CONFIG_SMP : bool.

Definition task_nice (t : tsk) : Z := PRIO_TO_NICE (t_static_prio t).
Definition task_cpu (t : tsk) : Z := if CONFIG_SMP then t_cpu t else 0.
(** The versions for one processor *)
Definition set_cpus_allowed_ptr_up (new_mask : CPUMASK) : Z :=
  if negb (cpumask_test_cpu 0 new_mask) then - EINVAL else 0.
Definition dup_user_cpus_ptr_up (src : tsk) : Z := if negb (t_user_cpus_ptr src =? 0) then - EINVAL else 0.
(** whether it warns *)
Definition release_user_cpus_ptr_up (t : tsk) : bool := negb (t_user_cpus_ptr t =? 0).
Definition dl_task_check_affinity_up : Z := 0.

(** With one processor the mask of user space is never set: what the copy
    of a task leaves is what the release expects. *)
Lemma up_never_warns src : EINVAL <> 0 -> dup_user_cpus_ptr_up src = 0 -> release_user_cpus_ptr_up src = false.
Proof.
  unfold dup_user_cpus_ptr_up, release_user_cpus_ptr_up. destruct (_ =? _); cbn; [done|lia].
Qed.
End Processors.

(** ** Thread flags *)

(** The operations of linux/thread_info.h on the word of flags of a thread. *)
Class TiFlags := {
  ti_test : Z -> Z -> bool; ti_set : Z -> Z -> Z; ti_clear : Z -> Z -> Z;
  ti_update : Z -> Z -> bool -> Z; ti_test_and_set : Z -> Z -> bool * Z; ti_test_and_clear : Z -> Z -> bool * Z;
  ti_test_set : forall w f g, 0 <= f -> 0 <= g -> ti_test (ti_set w f) g = (f =? g) || ti_test w g;
  ti_test_clear : forall w f g, 0 <= f -> 0 <= g -> ti_test (ti_clear w f) g = negb (f =? g) && ti_test w g;
  ti_update_spec : forall w f v, ti_update w f v = if v then ti_set w f else ti_clear w f;
  ti_test_and_set_spec : forall w f, ti_test_and_set w f = (ti_test w f, ti_set w f);
  ti_test_and_clear_spec : forall w f, ti_test_and_clear w f = (ti_test w f, ti_clear w f) }.

(** Bits of the word, as in the generic header *)
#[export] Program Instance bit_flags : TiFlags := {|
  ti_test := Z.testbit; ti_set := Z.setbit; ti_clear := Z.clearbit;
  ti_update w f v := if v : bool then Z.setbit w f else Z.clearbit w f;
  ti_test_and_set w f := (Z.testbit w f, Z.setbit w f);
  ti_test_and_clear w f := (Z.testbit w f, Z.clearbit w f) |}.
Next Obligation. intros w f g Hf Hg. by rewrite Z.setbit_eqb. Qed.
Next Obligation. intros w f g Hf Hg. rewrite Z.clearbit_eqb. apply andb_comm. Qed.
Solve Obligations with reflexivity.

Section ThreadFlags.
Context `{TiFlags}.
(** Their numbers are the architecture's. *)
Variables TIF_NEED_RESCHED TIF_NOTIFY_RESUME : Z.

Definition set_tsk_thread_flag (t : tsk) (flag : Z) : tsk := with_thread_flags (ti_set (t_thread_flags t) flag) t.
Definition clear_tsk_thread_flag (t : tsk) (flag : Z) : tsk := with_thread_flags (ti_clear (t_thread_flags t) flag) t.
Definition update_tsk_thread_flag (t : tsk) (flag : Z) (value : bool) : tsk :=
  with_thread_flags (ti_update (t_thread_flags t) flag value) t.
Definition test_and_set_tsk_thread_flag (t : tsk) (flag : Z) : bool * tsk :=
  let '(r, w) := ti_test_and_set (t_thread_flags t) flag in (r, with_thread_flags w t).
Definition test_and_clear_tsk_thread_flag (t : tsk) (flag : Z) : bool * tsk :=
  let '(r, w) := ti_test_and_clear (t_thread_flags t) flag in (r, with_thread_flags w t).
Definition test_tsk_thread_flag (t : tsk) (flag : Z) : bool := ti_test (t_thread_flags t) flag.
Definition set_tsk_need_resched (t : tsk) : tsk := set_tsk_thread_flag t TIF_NEED_RESCHED.
Definition clear_tsk_need_resched (t : tsk) : tsk := clear_tsk_thread_flag t TIF_NEED_RESCHED.
Definition test_tsk_need_resched (t : tsk) : bool := test_tsk_thread_flag t TIF_NEED_RESCHED.

(** ** Restartable sequences *)

(** The bits of the mask are those of the user ABI, in uapi/linux/rseq.h. *)
Inductive rseq_event := RSEQ_EVENT_PREEMPT | RSEQ_EVENT_SIGNAL | RSEQ_EVENT_MIGRATE.
Variable rseq_event_bit : rseq_event -> Z.
(** __rseq_handle_notify_resume (kernel/rseq.c): what it leaves of the mask *)
Variable rseq_handler : Z -> Z.

Definition set_rseq_event (e : rseq_event) (t : tsk) : tsk :=
  with_rseq (t_rseq t) (t_rseq_sig t) (Z.setbit (t_rseq_event_mask t) (rseq_event_bit e)) t.

Definition rseq_set_notify_resume (t : tsk) : tsk :=
  if negb (t_rseq t =? 0) then set_tsk_thread_flag t TIF_NOTIFY_RESUME else t.

(** The mask the handler was called with, if it was called, and the task after *)
Definition rseq_handle_notify_resume (t : tsk) : option Z * tsk :=
  if negb (t_rseq t =? 0) then
    (Some (t_rseq_event_mask t), with_rseq (t_rseq t) (t_rseq_sig t) (rseq_handler (t_rseq_event_mask t)) t)
  else (None, t).

Definition rseq_signal_deliver (t : tsk) : option Z * tsk :=
  rseq_handle_notify_resume (set_rseq_event RSEQ_EVENT_SIGNAL t).
Definition rseq_preempt (t : tsk) : tsk := rseq_set_notify_resume (set_rseq_event RSEQ_EVENT_PREEMPT t).
Definition rseq_migrate (t : tsk) : tsk := rseq_set_notify_resume (set_rseq_event RSEQ_EVENT_MIGRATE t).
Definition rseq_execve (t : tsk) : tsk := with_rseq 0 0 0 t.

(** What happens to a task: the scheduler preempts and migrates it, a signal is
    delivered, it executes a program, flags of it other than the notification
    change, and it returns to user mode, which is in kernel/entry: there a set
    TIF_NOTIFY_RESUME is cleared and the handlers are called. *)
Inductive rseq_act :=
| APreempt | AMigrate | ASignal | AExecve
| ASetFlag (f : Z) | AClearFlag (f : Z) | ASetResched | AClearResched
| AReturn.

Definition exit_to_user (t : tsk) : option Z * tsk :=
  if test_tsk_thread_flag t TIF_NOTIFY_RESUME then rseq_handle_notify_resume (clear_tsk_thread_flag t TIF_NOTIFY_RESUME)
  else (None, t).

Definition rseq_act_ok (a : rseq_act) : Prop :=
  match a with ASetFlag f | AClearFlag f => 0 <= f /\ f <> TIF_NOTIFY_RESUME | _ => True end.

Definition do_act (a : rseq_act) (t : tsk) : option Z * tsk :=
  match a with
  | APreempt => (None, rseq_preempt t) | AMigrate => (None, rseq_migrate t)
  | ASignal => rseq_signal_deliver t | AExecve => (None, rseq_execve t)
  | ASetFlag f => (None, set_tsk_thread_flag t f) | AClearFlag f => (None, clear_tsk_thread_flag t f)
  | ASetResched => (None, set_tsk_need_resched t) | AClearResched => (None, clear_tsk_need_resched t)
  | AReturn => exit_to_user t
  end.

Definition act_event (a : rseq_act) : list rseq_event :=
  match a with APreempt => [RSEQ_EVENT_PREEMPT] | AMigrate => [RSEQ_EVENT_MIGRATE] | ASignal => [RSEQ_EVENT_SIGNAL] | _ => [] end.

(** The events since the handler last ran or the area was dropped, with the
    calls of the handler so far: the events before each and the mask it got. *)
Record rseq_run := RseqRun { rr_task : tsk; rr_since : list rseq_event; rr_calls : list (list rseq_event * Z) }.

Definition run_act (r : rseq_run) (a : rseq_act) : rseq_run :=
  let since := rr_since r ++ act_event a in
  match do_act a (rr_task r) with
  | (Some mask, t) => RseqRun t [] (rr_calls r ++ [(since, mask)])
  | (None, t) => RseqRun t (match a with AExecve => [] | _ => since end) (rr_calls r)
  end.

Definition rseq_acts (r : rseq_run) (l : list rseq_act) : rseq_run := foldl run_act r l.

Hypothesis notify_nonneg : 0 <= TIF_NOTIFY_RESUME.
Hypothesis resched_nonneg : 0 <= TIF_NEED_RESCHED.
Hypothesis flags_differ : TIF_NEED_RESCHED <> TIF_NOTIFY_RESUME.
Hypothesis bits_nonneg : forall e, 0 <= rseq_event_bit e.

Definition notified (t : tsk) : Prop := test_tsk_thread_flag t TIF_NOTIFY_RESUME = true.

Record rseq_inv (r : rseq_run) : Prop := {
  ri_pending : t_rseq (rr_task r) <> 0 -> rr_since r <> [] -> notified (rr_task r);
  ri_mask : forall e, e ∈ rr_since r -> Z.testbit (t_rseq_event_mask (rr_task r)) (rseq_event_bit e) = true;
  ri_calls : forall evs mask e, (evs, mask) ∈ rr_calls r -> e ∈ evs -> Z.testbit mask (rseq_event_bit e) = true }.

Lemma set_event_bits e e' t :
  Z.testbit (t_rseq_event_mask t) (rseq_event_bit e') = true \/ e' = e ->
  Z.testbit (t_rseq_event_mask (set_rseq_event e t)) (rseq_event_bit e') = true.
Proof.
  pose proof (bits_nonneg e). cbn. rewrite Z.setbit_eqb by done. intros [-> | ->]; [apply orb_true_r|].
  by rewrite Z.eqb_refl.
Qed.

Lemma notified_other t f (Hf : 0 <= f /\ f <> TIF_NOTIFY_RESUME) :
  (notified (set_tsk_thread_flag t f) <-> notified t) /\ (notified (clear_tsk_thread_flag t f) <-> notified t).
Proof.
  destruct Hf as [H0 Hn]. unfold notified, test_tsk_thread_flag. cbn.
  rewrite ti_test_set, ti_test_clear by done. by rewrite (proj2 (Z.eqb_neq _ _) Hn).
Qed.

Lemma notify_resume_spec t :
  t_rseq (rseq_set_notify_resume t) = t_rseq t /\
  t_rseq_event_mask (rseq_set_notify_resume t) = t_rseq_event_mask t /\
  (t_rseq t <> 0 -> notified (rseq_set_notify_resume t)).
Proof.
  unfold rseq_set_notify_resume, notified, test_tsk_thread_flag.
  destruct (Z.eqb_spec (t_rseq t) 0) as [|Hn]; cbn; [done|]. rewrite ti_test_set by done. by rewrite Z.eqb_refl.
Qed.

(** A call of the handler after [evs] were added to the events *)
Lemma handle_inv t since calls :
  (forall e, e ∈ since -> Z.testbit (t_rseq_event_mask t) (rseq_event_bit e) = true) ->
  (forall evs mask e, (evs, mask) ∈ calls -> e ∈ evs -> Z.testbit mask (rseq_event_bit e) = true) ->
  rseq_inv (match rseq_handle_notify_resume t with
            | (Some mask, t') => RseqRun t' [] (calls ++ [(since, mask)])
            | (None, t') => RseqRun t' since calls end).
Proof.
  intros Hm Hc. unfold rseq_handle_notify_resume. destruct (Z.eqb_spec (t_rseq t) 0) as [H0|Hn]; cbn.
  - split; cbn; [done|exact Hm|exact Hc].
  - split; cbn; [done|by intros ? ?%not_elem_of_nil|].
    intros evs mask e [Hin|Hin]%elem_of_app He; [by eapply Hc|].
    apply list_elem_of_singleton in Hin as [= -> ->]. by apply Hm.
Qed.

Lemma rseq_event_inv r e (a := match e with RSEQ_EVENT_MIGRATE => AMigrate | _ => APreempt end) :
  e <> RSEQ_EVENT_SIGNAL -> rseq_inv r -> rseq_inv (run_act r a).
Proof.
  intros Hs [Hp Hm Hc].
  assert (Hr : run_act r a = RseqRun (rseq_set_notify_resume (set_rseq_event e (rr_task r))) (rr_since r ++ [e]) (rr_calls r))
    by (by destruct e).
  rewrite Hr. destruct (notify_resume_spec (set_rseq_event e (rr_task r))) as (H1 & H2 & H3). split; cbn.
  - rewrite H1. intros Hn _. by apply H3.
  - intros e' He'. rewrite H2. apply set_event_bits.
    apply elem_of_app in He' as [?| ->%list_elem_of_singleton]; [left; by apply Hm|by right].
  - exact Hc.
Qed.

Lemma flag_inv r f a :
  0 <= f /\ f <> TIF_NOTIFY_RESUME -> act_event a = [] -> a <> AExecve ->
  do_act a (rr_task r) = (None, set_tsk_thread_flag (rr_task r) f) \/
  do_act a (rr_task r) = (None, clear_tsk_thread_flag (rr_task r) f) ->
  rseq_inv r -> rseq_inv (run_act r a).
Proof.
  intros Hf Ha Hx Hd [Hp Hm Hc]. destruct (notified_other (rr_task r) f Hf) as [H1 H2]. unfold run_act. rewrite Ha, app_nil_r.
  destruct Hd as [-> | ->]; (split; cbn; [|by destruct a|exact Hc]); intros Hr Hs; [apply H1|apply H2];
    (apply Hp; [done|by destruct a]).
Qed.

Lemma run_act_inv r a : rseq_act_ok a -> rseq_inv r -> rseq_inv (run_act r a).
Proof.
  intros Ha Hi. destruct a as [| | | |f|f| | |].
  - by apply (rseq_event_inv r RSEQ_EVENT_PREEMPT).
  - by apply (rseq_event_inv r RSEQ_EVENT_MIGRATE).
  - destruct Hi as [_ Hm Hc].
    pose proof (handle_inv (set_rseq_event RSEQ_EVENT_SIGNAL (rr_task r)) (rr_since r ++ [RSEQ_EVENT_SIGNAL]) (rr_calls r)) as Hh.
    unfold run_act; cbn -[rseq_handle_notify_resume set_rseq_event]. unfold rseq_signal_deliver.
    destruct (rseq_handle_notify_resume _) as [[?|] ?]; apply Hh; try done;
      (intros e [?| ->%list_elem_of_singleton]%elem_of_app; apply set_event_bits; [left; by apply Hm|by right]).
  - destruct Hi as [_ _ Hc]. split; cbn; [done|by intros ? ?%not_elem_of_nil|exact Hc].
  - apply (flag_inv r f); auto.
  - apply (flag_inv r f); auto.
  - apply (flag_inv r TIF_NEED_RESCHED); auto.
  - apply (flag_inv r TIF_NEED_RESCHED); auto.
  - unfold run_act. cbn -[exit_to_user]. rewrite app_nil_r. unfold exit_to_user.
    destruct (test_tsk_thread_flag _ _); [|by destruct r]. destruct Hi as [_ Hm Hc].
    pose proof (handle_inv (clear_tsk_thread_flag (rr_task r) TIF_NOTIFY_RESUME) _ _ Hm Hc) as Hh.
    by destruct (rseq_handle_notify_resume _) as [[?|] ?].
Qed.

Lemma rseq_acts_inv l r : Forall rseq_act_ok l -> rseq_inv r -> rseq_inv (rseq_acts r l).
Proof. revert r. induction l as [|a l IH]; intros r Hl Hi; [done|]. inversion_clear Hl. apply IH; auto using run_act_inv. Qed.

(** Events are neither invented nor dropped while the area stays registered. *)
Lemma run_act_conserve r a :
  a <> AExecve ->
  concat (rr_calls (run_act r a)).*1 ++ rr_since (run_act r a) = concat (rr_calls r).*1 ++ rr_since r ++ act_event a.
Proof.
  intros Ha. unfold run_act. destruct (do_act a _) as [[mask|] t]; cbn.
  - rewrite fmap_app, concat_app. cbn. by rewrite !app_nil_r.
  - by destruct a.
Qed.

Lemma rseq_acts_conserve l r :
  AExecve ∉ l -> concat (rr_calls (rseq_acts r l)).*1 ++ rr_since (rseq_acts r l) =
    concat (rr_calls r).*1 ++ rr_since r ++ (l ≫= act_event).
Proof.
  revert r. induction l as [|a l IH]; intros r Hl; cbn; [by rewrite app_nil_r|].
  apply not_elem_of_cons in Hl as [Ha Hl]. rewrite IH by done. pose proof (run_act_conserve r a (not_eq_sym Ha)) as Hc.
  rewrite app_assoc, Hc, <- !app_assoc. done.
Qed.

End ThreadFlags.


(** ** Voluntary rescheduling *)

Inductive sched_call := RcuUnlock | MightSleep (offset : Z) | CondResched | RcuLock.

Section CondResched.
Variables CONFIG_PREEMPTION CONFIG_PREEMPT_DYNAMIC CONFIG_DEBUG_ATOMIC_SLEEP CONFIG_PREEMPT_RCU : bool.

(** The calls the functions make, in order; CondResched is the call of
    __cond_resched, directly or through the static call. *)
Definition cond_resched_nocheck : list sched_call :=
  if negb CONFIG_PREEMPTION || CONFIG_PREEMPT_DYNAMIC then [CondResched] else [].
Definition cond_resched : list sched_call := MightSleep 0 :: cond_resched_nocheck.
Definition cond_resched_rcu : list sched_call :=
  if CONFIG_DEBUG_ATOMIC_SLEEP || negb CONFIG_PREEMPT_RCU then RcuUnlock :: cond_resched ++ [RcuLock] else [].

(** The depth of read-side sections after a call, [None] if it would sleep
    inside one that must not sleep. *)
Definition rcu_call (depth : option Z) (c : sched_call) : option Z :=
  match depth, c with
  | Some d, RcuUnlock => Some (d - 1)
  | Some d, RcuLock => Some (d + 1)
  | Some d, _ => if CONFIG_PREEMPT_RCU || (d =? 0) then Some d else None
  | None, _ => None
  end.

(** cond_resched_rcu in a section of depth one sleeps outside it and comes back
    into it; cond_resched itself there would sleep inside. *)
Lemma cond_resched_rcu_sleeps_outside :
  foldl rcu_call (Some 1) cond_resched_rcu = Some 1 /\
  (CONFIG_PREEMPT_RCU = false -> foldl rcu_call (Some 1) cond_resched = None).
Proof.
  unfold rcu_call, cond_resched_rcu, cond_resched, cond_resched_nocheck.
  split; [|intros ->]; destruct CONFIG_PREEMPTION, CONFIG_PREEMPT_DYNAMIC, CONFIG_DEBUG_ATOMIC_SLEEP;
    try destruct CONFIG_PREEMPT_RCU; reflexivity.
Qed.

Definition needbreak (contended : bool) : bool := if CONFIG_PREEMPTION then contended else false.
Definition spin_needbreak (contended : bool) : bool := needbreak contended.
Definition rwlock_needbreak (contended : bool) : bool := needbreak contended.
End CondResched.
