(* ===== verification/CLayout.v ===== *)
(** * How a C compiler lays out a structure

    Structure declarations with their preprocessor conditions, and the offsets
    the System V ABI of x86-64 gives to the members, bit-fields included.
    Positions are in bits.  The size and the alignment of a type that is
    declared elsewhere, and the value of a constant that is, are parameters. *)

From S2P Require Import Prelude.

(** ** Declarations *)

Inductive cond := Def (s : string) | NDef (s : string) | Either (s t : string) | Enabled (s : string).

Inductive num := Num (z : Z) | Const (s : string).

(** Integers by their size, pointers, types declared elsewhere, structures and
    unions of the same header, arrays. *)
Inductive cty := Int (bytes : Z) | Ptr | Ext (s : string) | Struct (s : string) | Arr (t : cty) (n : num).

(** A member under the conditions it is nested in; a bit-field has a width. *)
Record member := Mem { m_if : list cond; m_name : string; m_type : cty; m_bits : option num }.

#[global] Instance num_eq_dec : EqDecision num.
Proof. solve_decision. Defined.
#[global] Instance cond_eq_dec : EqDecision cond.
Proof. solve_decision. Defined.
#[global] Instance cty_eq_dec : EqDecision cty.
Proof. solve_decision. Defined.
#[global] Instance member_eq_dec : EqDecision member.
Proof. solve_decision. Defined.

(** A structure or union with its alignment attribute. *)
Record sdef := SDef { sd_name : string; sd_union : bool; sd_aligned : num; sd_members : list member }.

(** Size and alignment in bytes. *)
Record ty := Ty { size : Z; align : Z }.

(** What the build and the other headers decide. *)
Record build := Build { cfg : string -> bool; ext : string -> ty; konst : string -> Z }.

Section Layout.
Variable b : build.

Definition cond_on (c : cond) : bool :=
  match c with
  | Def s => cfg b s
  | NDef s => negb (cfg b s)
  | Either s t => cfg b s || cfg b t
  | Enabled s => cfg b s || cfg b (s +:+ "_MODULE")
  end.

Definition num_of (n : num) : Z := match n with Num z => z | Const s => konst b s end.

(** The members the compiler sees. *)
Definition seen (ms : list member) : list member := filter (fun m => forallb cond_on (m_if m) = true) ms.

(** Types of the header that are already laid out. *)
Definition tenv := list (string * ty).

Fixpoint lookup_ty (s : string) (env : tenv) : ty :=
  match env with
  | [] => Ty 0 1
  | (s', t) :: env => if String.eqb s s' then t else lookup_ty s env
  end.

Fixpoint ty_of (env : tenv) (t : cty) : ty :=
  match t with
  | Int n => Ty n n
  | Ptr => Ty 8 8
  | Ext s => ext b s
  | Struct s => lookup_ty s env
  | Arr t n => let e := ty_of env t in Ty (size e * num_of n) (align e)
  end.

(** Round up to a multiple. *)
Definition roundup (x a : Z) : Z := (x + a - 1) / a * a.

(** First bit of a member and first bit after it, when [pos] bits are used. *)
Definition place (env : tenv) (pos : Z) (m : member) : Z * Z :=
  let t := ty_of env (m_type m) in
  match m_bits m with
  | None => let s := roundup pos (8 * align t) in (s, s + 8 * size t)
  | Some n =>
      let w := num_of n in
      let unit := 8 * size t in
      if w =? 0 then (roundup pos unit, roundup pos unit)
      else if pos mod unit + w <=? unit then (pos, pos + w)
      else (roundup pos unit, roundup pos unit + w)
  end.

Fixpoint places (env : tenv) (pos : Z) (ms : list member) : list (member * (Z * Z)) :=
  match ms with
  | [] => []
  | m :: ms => (m, place env pos m) :: places env (snd (place env pos m)) ms
  end.

(** The first bit after the last member. *)
Fixpoint extent (env : tenv) (pos : Z) (ms : list member) : Z :=
  match ms with
  | [] => pos
  | m :: ms => extent env (snd (place env pos m)) ms
  end.

Definition max_align (env : tenv) (a : Z) (ms : list member) : Z :=
  foldr (fun m => Z.max (align (ty_of env (m_type m)))) a ms.

(** The members of a union all start at 0. *)
Definition union_extent (env : tenv) (ms : list member) : Z :=
  foldr (fun m => Z.max (snd (place env 0 m))) 0 ms.

Definition layout (env : tenv) (d : sdef) : ty :=
  let ms := seen (sd_members d) in
  let a := max_align env (num_of (sd_aligned d)) ms in
  let bits := if sd_union d then union_extent env ms else extent env 0 ms in
  Ty (roundup bits (8 * a) / 8) a.

(** The structures of a header, in the order of their declarations. *)
Fixpoint layouts (env : tenv) (ds : list sdef) : tenv :=
  match ds with
  | [] => env
  | d :: ds => layouts ((sd_name d, layout env d) :: env) ds
  end.

End Layout.

(** ** Members do not overlap *)

Lemma roundup_spec x a : 0 < a -> x <= roundup x a < x + a /\ roundup x a mod a = 0.
Proof.
  intros Ha. unfold roundup. split; [|by apply Z.mod_mul; lia].
  pose proof (Z.div_mod (x + a - 1) a). pose proof (Z.mod_pos_bound (x + a - 1) a). lia.
Qed.

Definition ty_ok (t : ty) : Prop := 0 <= size t /\ 0 < align t.

(** Widths of bit-fields are those the compiler accepts. *)
Definition member_ok (b : build) (env : tenv) (m : member) : Prop :=
  ty_ok (ty_of b env (m_type m)) /\
  match m_bits m with
  | None => True
  | Some n => 0 <= num_of b n <= 8 * size (ty_of b env (m_type m)) /\ 0 < size (ty_of b env (m_type m))
  end.

Lemma place_spec b env pos m :
  0 <= pos -> member_ok b env m ->
  let '(s, e) := place b env pos m in
  pos <= s <= e /\
  match m_bits m with
  | None => s mod (8 * align (ty_of b env (m_type m))) = 0 /\ e = s + 8 * size (ty_of b env (m_type m))
  | Some n => e = s + num_of b n
  end.
Proof.
  intros Hp [[Hs Ha] Hm]. unfold place. destruct (m_bits m) as [n|].
  - destruct Hm as [Hw Hs']. destruct (roundup_spec pos (8 * size (ty_of b env (m_type m)))) as [Hr _]; [lia|].
    destruct (Z.eqb_spec (num_of b n) 0); [lia|]. destruct (_ <=? _); lia.
  - destruct (roundup_spec pos (8 * align (ty_of b env (m_type m)))) as [Hr Hr']; [lia|]. lia.
Qed.

Lemma places_bounds b env pos ms m s e :
  0 <= pos -> Forall (member_ok b env) ms -> (m, (s, e)) ∈ places b env pos ms ->
  pos <= s <= e /\ e <= extent b env pos ms /\
  (m_bits m = None -> s mod (8 * align (ty_of b env (m_type m))) = 0 /\ e = s + 8 * size (ty_of b env (m_type m))).
Proof.
  intros Hp Hf. revert pos Hp. induction Hf as [|m0 ms Hm0 Hms IH]; intros pos Hp Hin; [by apply not_elem_of_nil in Hin|].
  cbn [places extent] in *. pose proof (place_spec b env pos m0 Hp Hm0) as Hpl. destruct (place b env pos m0) as [s0 e0] eqn:E0.
  assert (Hext : forall pos, 0 <= pos -> pos <= extent b env pos ms).
  { clear - Hms. induction Hms as [|m1 ms Hm1 _ IH]; intros pos Hp; cbn [extent]; [done|].
    pose proof (place_spec b env pos m1 Hp Hm1) as H1. destruct (place b env pos m1) as [s1 e1]. cbn.
    specialize (IH e1). lia. }
  cbn in *. apply elem_of_cons in Hin as [Heq|Hin].
  - injection Heq as -> -> ->. specialize (Hext e0 ltac:(lia)). split; [lia|]. split; [lia|].
    intros Hb. destruct Hpl as [_ Hpl]. by rewrite Hb in Hpl.
  - destruct (IH e0 ltac:(lia) Hin) as (H1 & H2 & H3). split; [lia|]. by split.
Qed.

Lemma places_order b env pos ms i j m1 s1 e1 m2 s2 e2 :
  0 <= pos -> Forall (member_ok b env) ms -> (i < j)%nat ->
  places b env pos ms !! i = Some (m1, (s1, e1)) -> places b env pos ms !! j = Some (m2, (s2, e2)) -> e1 <= s2.
Proof.
  intros Hp Hf. revert pos i j Hp. induction Hf as [|m0 ms Hm0 Hms IH]; intros pos i j Hp Hij Hi Hj; [done|].
  cbn [places] in *. pose proof (place_spec b env pos m0 Hp Hm0) as Hpl. destruct (place b env pos m0) as [s0 e0] eqn:E0.
  destruct j as [|j]; [lia|]. cbn in Hj. destruct i as [|i]; cbn in Hi.
  - injection Hi as _ _ <-. apply list_elem_of_lookup_2 in Hj. apply places_bounds in Hj; [lia|lia|done].
  - eapply (IH e0 i j); [lia|lia|done|done].
Qed.

Lemma places_app b env pos l1 l2 : places b env pos (l1 ++ l2) = places b env pos l1 ++ places b env (extent b env pos l1) l2.
Proof. revert pos. induction l1 as [|m l1 IH]; intros pos; cbn; [done|]. by rewrite IH. Qed.

Lemma extent_app b env pos l1 l2 : extent b env pos (l1 ++ l2) = extent b env (extent b env pos l1) l2.
Proof. revert pos. induction l1 as [|m l1 IH]; intros pos; cbn; [done|]. by rewrite IH. Qed.

Lemma places_members b env pos ms : (places b env pos ms).*1 = ms.
Proof. revert pos. induction ms as [|m ms IH]; intros pos; cbn; [done|]. by rewrite IH. Qed.

(** A bit-field of width 0 separates words: what comes before it ends in an
    earlier unit than what comes after starts. *)
Lemma zero_width_separates b env l1 z l2 m1 s1 e1 m2 s2 e2 :
  Forall (member_ok b env) (l1 ++ z :: l2) -> m_bits z = Some (Num 0) ->
  (m1, (s1, e1)) ∈ places b env 0 l1 -> s1 < e1 ->
  (m2, (s2, e2)) ∈ places b env (extent b env 0 (l1 ++ [z])) l2 ->
  let unit := 8 * size (ty_of b env (m_type z)) in s1 / unit < s2 / unit.
Proof.
  intros Hf Hz H1 Hlt H2 unit. apply Forall_app in Hf as [Hf1 Hf2]. apply Forall_cons in Hf2 as [Hfz Hf2].
  destruct (places_bounds b env 0 l1 m1 s1 e1 ltac:(lia) Hf1 H1) as (H1a & H1b & _).
  rewrite extent_app in H2. cbn [extent] in H2. unfold place in H2. rewrite Hz in H2. cbn in H2.
  assert (Hu : 0 < unit) by (destruct Hfz as [_ Hfz]; rewrite Hz in Hfz; unfold unit; lia).
  fold unit in H2. destruct (roundup_spec (extent b env 0 l1) unit Hu) as [Hr Hr'].
  apply places_bounds in H2 as (H2a & _); [|lia|done].
  assert (Hq : roundup (extent b env 0 l1) unit = unit * (roundup (extent b env 0 l1) unit / unit)) by (by apply Z_div_exact_full_2; [lia|]).
  apply Z.lt_le_trans with (roundup (extent b env 0 l1) unit / unit).
  - apply Z.div_lt_upper_bound; lia.
  - apply Z.div_le_mono; lia.
Qed.

(** ** Declarations that make sense *)

Fixpoint cty_ok (t : cty) : bool :=
  match t with Int n => 0 <? n | Arr t (Num n) => (0 <=? n) && cty_ok t | Arr t _ => cty_ok t | _ => true end.

(** Bit-fields are of an integer type and no wider, 32 bits if their width is
    a constant. *)
Definition decl_ok (m : member) : bool :=
  cty_ok (m_type m) &&
  match m_bits m, m_type m with
  | None, _ => true
  | Some (Num w), Int n => (0 <=? w) && (w <=? 8 * n)
  | Some (Const s), Int n => (n =? 4) && bool_decide (s ∈ ["bits_per(SCHED_CAPACITY_SCALE)"; "bits_per(UCLAMP_BUCKETS)"])
  | _, _ => false
  end.

(** What the headers of the kernel and the compiler promise. *)
Record build_ok (b : build) : Prop := {
  bo_ext : forall s, ty_ok (ext b s);
  bo_konst : forall s, 0 <= konst b s;
  bo_cache : 0 < konst b "SMP_CACHE_BYTES";
  bo_bits : forall s, s ∈ ["bits_per(SCHED_CAPACITY_SCALE)"; "bits_per(UCLAMP_BUCKETS)"] -> konst b s <= 32;
}.

Definition env_ok (env : tenv) : Prop := Forall (fun p => ty_ok (snd p)) env.

Lemma lookup_ty_ok env s : env_ok env -> ty_ok (lookup_ty s env).
Proof. induction 1 as [|[s' t] env Ht _ IH]; cbn; [by split|]. by destruct (String.eqb s s'). Qed.

Lemma ty_of_ok b env t : build_ok b -> env_ok env -> cty_ok t = true -> ty_ok (ty_of b env t).
Proof.
  intros Hb He. induction t as [n| |s|s|t IH n]; cbn; intros Hok.
  - apply Z.ltb_lt in Hok. split; cbn; lia.
  - by split.
  - apply Hb.
  - by apply lookup_ty_ok.
  - assert (0 <= num_of b n /\ ty_ok (ty_of b env t)) as [Hn [Hs Ha]].
    { destruct n as [z|s]; [apply andb_prop in Hok as [Hz%Z.leb_le Hok]; by split; [|apply IH]|]. split; [apply Hb|by apply IH]. }
    split; cbn; nia.
Qed.

Lemma decl_member_ok b env m : build_ok b -> env_ok env -> decl_ok m = true -> member_ok b env m.
Proof.
  intros Hb He [Ht Hw]%andb_prop. split; [by apply ty_of_ok|].
  destruct (m_bits m) as [[w|s]|]; [| |done]; destruct (m_type m) as [n| | | |]; try done; cbn in *.
  - apply Z.ltb_lt in Ht. apply andb_prop in Hw as [H1%Z.leb_le H2%Z.leb_le]. lia.
  - apply andb_prop in Hw as [->%Z.eqb_eq Hw%bool_decide_eq_true_1].
    pose proof (bo_konst _ Hb s). pose proof (bo_bits _ Hb s Hw). lia.
Qed.
