(* ===== verification/TaskStruct.v ===== *)
(** * The structures of include/linux/sched.h

    The declarations of task_struct and of the structures it is made of, member
    by member with the configuration options each depends on.  Markers of the
    part the compiler may shuffle are empty, as in a build without that
    plugin. *)

From S2P Require Import Prelude CLayout.

(** struct prev_cputime *)
Definition prev_cputime : list member :=
  [Mem [NDef "CONFIG_VIRT_CPU_ACCOUNTING_NATIVE"] "utime" (Int 8) None;
   Mem [NDef "CONFIG_VIRT_CPU_ACCOUNTING_NATIVE"] "stime" (Int 8) None;
   Mem [NDef "CONFIG_VIRT_CPU_ACCOUNTING_NATIVE"] "lock" (Ext "raw_spinlock_t") None].

(** struct vtime *)
Definition vtime : list member :=
  [Mem [] "seqcount" (Ext "seqcount_t") None;
   Mem [] "starttime" (Int 8) None;
   Mem [] "state" (Int 4) None;
   Mem [] "cpu" (Int 4) None;
   Mem [] "utime" (Int 8) None;
   Mem [] "stime" (Int 8) None;
   Mem [] "gtime" (Int 8) None].

(** struct sched_info *)
Definition sched_info : list member :=
  [Mem [Def "CONFIG_SCHED_INFO"] "pcount" (Int 8) None;
   Mem [Def "CONFIG_SCHED_INFO"] "run_delay" (Int 8) None;
   Mem [Def "CONFIG_SCHED_INFO"] "last_arrival" (Int 8) None;
   Mem [Def "CONFIG_SCHED_INFO"] "last_queued" (Int 8) None].

(** struct load_weight *)
Definition load_weight : list member :=
  [Mem [] "weight" (Int 8) None;
   Mem [] "inv_weight" (Int 4) None].

(** struct util_est *)
Definition util_est : list member :=
  [Mem [] "enqueued" (Int 4) None;
   Mem [] "ewma" (Int 4) None].

(** struct sched_avg *)
Definition sched_avg : list member :=
  [Mem [] "last_update_time" (Int 8) None;
   Mem [] "load_sum" (Int 8) None;
   Mem [] "runnable_sum" (Int 8) None;
   Mem [] "util_sum" (Int 4) None;
   Mem [] "period_contrib" (Int 4) None;
   Mem [] "load_avg" (Int 8) None;
   Mem [] "runnable_avg" (Int 8) None;
   Mem [] "util_avg" (Int 8) None;
   Mem [] "util_est" (Struct "util_est") None].

(** struct sched_statistics *)
Definition sched_statistics : list member :=
  [Mem [Def "CONFIG_SCHEDSTATS"] "wait_start" (Int 8) None;
   Mem [Def "CONFIG_SCHEDSTATS"] "wait_max" (Int 8) None;
   Mem [Def "CONFIG_SCHEDSTATS"] "wait_count" (Int 8) None;
   Mem [Def "CONFIG_SCHEDSTATS"] "wait_sum" (Int 8) None;
   Mem [Def "CONFIG_SCHEDSTATS"] "iowait_count" (Int 8) None;
   Mem [Def "CONFIG_SCHEDSTATS"] "iowait_sum" (Int 8) None;
   Mem [Def "CONFIG_SCHEDSTATS"] "sleep_start" (Int 8) None;
   Mem [Def "CONFIG_SCHEDSTATS"] "sleep_max" (Int 8) None;
   Mem [Def "CONFIG_SCHEDSTATS"] "sum_sleep_runtime" (Int 8) None;
   Mem [Def "CONFIG_SCHEDSTATS"] "block_start" (Int 8) None;
   Mem [Def "CONFIG_SCHEDSTATS"] "block_max" (Int 8) None;
   Mem [Def "CONFIG_SCHEDSTATS"] "exec_max" (Int 8) None;
   Mem [Def "CONFIG_SCHEDSTATS"] "slice_max" (Int 8) None;
   Mem [Def "CONFIG_SCHEDSTATS"] "nr_migrations_cold" (Int 8) None;
   Mem [Def "CONFIG_SCHEDSTATS"] "nr_failed_migrations_affine" (Int 8) None;
   Mem [Def "CONFIG_SCHEDSTATS"] "nr_failed_migrations_running" (Int 8) None;
   Mem [Def "CONFIG_SCHEDSTATS"] "nr_failed_migrations_hot" (Int 8) None;
   Mem [Def "CONFIG_SCHEDSTATS"] "nr_forced_migrations" (Int 8) None;
   Mem [Def "CONFIG_SCHEDSTATS"] "nr_wakeups" (Int 8) None;
   Mem [Def "CONFIG_SCHEDSTATS"] "nr_wakeups_sync" (Int 8) None;
   Mem [Def "CONFIG_SCHEDSTATS"] "nr_wakeups_migrate" (Int 8) None;
   Mem [Def "CONFIG_SCHEDSTATS"] "nr_wakeups_local" (Int 8) None;
   Mem [Def "CONFIG_SCHEDSTATS"] "nr_wakeups_remote" (Int 8) None;
   Mem [Def "CONFIG_SCHEDSTATS"] "nr_wakeups_affine" (Int 8) None;
   Mem [Def "CONFIG_SCHEDSTATS"] "nr_wakeups_affine_attempts" (Int 8) None;
   Mem [Def "CONFIG_SCHEDSTATS"] "nr_wakeups_passive" (Int 8) None;
   Mem [Def "CONFIG_SCHEDSTATS"] "nr_wakeups_idle" (Int 8) None].

(** struct sched_entity *)
Definition sched_entity : list member :=
  [Mem [] "load" (Struct "load_weight") None;
   Mem [] "run_node" (Ext "struct rb_node") None;
   Mem [] "group_node" (Ext "struct list_head") None;
   Mem [] "on_rq" (Int 4) None;
   Mem [] "exec_start" (Int 8) None;
   Mem [] "sum_exec_runtime" (Int 8) None;
   Mem [] "vruntime" (Int 8) None;
   Mem [] "prev_sum_exec_runtime" (Int 8) None;
   Mem [] "nr_migrations" (Int 8) None;
   Mem [Def "CONFIG_FAIR_GROUP_SCHED"] "depth" (Int 4) None;
   Mem [Def "CONFIG_FAIR_GROUP_SCHED"] "parent" (Ptr) None;
   Mem [Def "CONFIG_FAIR_GROUP_SCHED"] "cfs_rq" (Ptr) None;
   Mem [Def "CONFIG_FAIR_GROUP_SCHED"] "my_q" (Ptr) None;
   Mem [Def "CONFIG_FAIR_GROUP_SCHED"] "runnable_weight" (Int 8) None;
   Mem [Def "CONFIG_SMP"] "avg" (Struct "sched_avg") None].

(** struct sched_rt_entity *)
Definition sched_rt_entity : list member :=
  [Mem [] "run_list" (Ext "struct list_head") None;
   Mem [] "timeout" (Int 8) None;
   Mem [] "watchdog_stamp" (Int 8) None;
   Mem [] "time_slice" (Int 4) None;
   Mem [] "on_rq" (Int 2) None;
   Mem [] "on_list" (Int 2) None;
   Mem [] "back" (Ptr) None;
   Mem [Def "CONFIG_RT_GROUP_SCHED"] "parent" (Ptr) None;
   Mem [Def "CONFIG_RT_GROUP_SCHED"] "rt_rq" (Ptr) None;
   Mem [Def "CONFIG_RT_GROUP_SCHED"] "my_q" (Ptr) None].

(** struct sched_dl_entity *)
Definition sched_dl_entity : list member :=
  [Mem [] "rb_node" (Ext "struct rb_node") None;
   Mem [] "dl_runtime" (Int 8) None;
   Mem [] "dl_deadline" (Int 8) None;
   Mem [] "dl_period" (Int 8) None;
   Mem [] "dl_bw" (Int 8) None;
   Mem [] "dl_density" (Int 8) None;
   Mem [] "runtime" (Int 8) None;
   Mem [] "deadline" (Int 8) None;
   Mem [] "flags" (Int 4) None;
   Mem [] "dl_throttled" (Int 4) (Some (Num 1));
   Mem [] "dl_yielded" (Int 4) (Some (Num 1));
   Mem [] "dl_non_contending" (Int 4) (Some (Num 1));
   Mem [] "dl_overrun" (Int 4) (Some (Num 1));
   Mem [] "dl_timer" (Ext "struct hrtimer") None;
   Mem [] "inactive_timer" (Ext "struct hrtimer") None;
   Mem [Def "CONFIG_RT_MUTEXES"] "pi_se" (Ptr) None].

(** struct uclamp_se, which exists with CONFIG_UCLAMP_TASK only *)
Definition uclamp_se : list member :=
  [Mem [] "value" (Int 4) (Some (Const "bits_per(SCHED_CAPACITY_SCALE)"));
   Mem [] "bucket_id" (Int 4) (Some (Const "bits_per(UCLAMP_BUCKETS)"));
   Mem [] "active" (Int 4) (Some (Num 1));
   Mem [] "user_defined" (Int 4) (Some (Num 1))].

(** struct wake_q_node *)
Definition wake_q_node : list member :=
  [Mem [] "next" (Ptr) None].

(** struct kmap_ctrl *)
Definition kmap_ctrl : list member :=
  [Mem [Def "CONFIG_KMAP_LOCAL"] "idx" (Int 4) None;
   Mem [Def "CONFIG_KMAP_LOCAL"] "pteval" (Arr (Ext "pte_t") (Const "KM_MAX_IDX")) None].

(** The structure b in union rcu_special, and the union. *)
Definition rcu_special_b : list member :=
  [Mem [] "blocked" (Int 1) None;
   Mem [] "need_qs" (Int 1) None;
   Mem [] "exp_hint" (Int 1) None;
   Mem [] "need_mb" (Int 1) None].

Definition rcu_special : list member :=
  [Mem [] "b" (Struct "rcu_special_b") None; Mem [] "s" (Int 4) None].

(** struct kv_store, declared inside task_struct. *)
Definition kv_store_members : list member :=
  [Mem [] "locks" (Arr (Ext "spinlock_t") (Num 1024)) None;
   Mem [] "head" (Arr (Ext "struct hlist_head") (Num 1024)) None].

(** The union of rcu_users and rcu in task_struct. *)
Definition task_rcu : list member :=
  [Mem [] "rcu_users" (Ext "refcount_t") None;
   Mem [] "rcu" (Ext "struct rcu_head") None].

Definition task_struct_1 : list member :=
  [Mem [Def "CONFIG_THREAD_INFO_IN_TASK"] "thread_info" (Ext "struct thread_info") None;
   Mem [] "__state" (Int 4) None;
   Mem [Def "CONFIG_PREEMPT_RT"] "saved_state" (Int 4) None;
   Mem [] "stack" (Ptr) None;
   Mem [] "usage" (Ext "refcount_t") None;
   Mem [] "flags" (Int 4) None;
   Mem [] "ptrace" (Int 4) None;
   Mem [Def "CONFIG_SMP"] "on_cpu" (Int 4) None;
   Mem [Def "CONFIG_SMP"] "wake_entry" (Ext "struct __call_single_node") None;
   Mem [Def "CONFIG_SMP"; Def "CONFIG_THREAD_INFO_IN_TASK"] "cpu" (Int 4) None;
   Mem [Def "CONFIG_SMP"] "wakee_flips" (Int 4) None;
   Mem [Def "CONFIG_SMP"] "wakee_flip_decay_ts" (Int 8) None;
   Mem [Def "CONFIG_SMP"] "last_wakee" (Ptr) None;
   Mem [Def "CONFIG_SMP"] "recent_used_cpu" (Int 4) None;
   Mem [Def "CONFIG_SMP"] "wake_cpu" (Int 4) None;
   Mem [] "on_rq" (Int 4) None;
   Mem [] "prio" (Int 4) None;
   Mem [] "static_prio" (Int 4) None;
   Mem [] "normal_prio" (Int 4) None;
   Mem [] "rt_priority" (Int 4) None;
   Mem [] "sched_class" (Ptr) None;
   Mem [] "se" (Struct "sched_entity") None;
   Mem [] "rt" (Struct "sched_rt_entity") None;
   Mem [] "dl" (Struct "sched_dl_entity") None;
   Mem [Def "CONFIG_SCHED_CORE"] "core_node" (Ext "struct rb_node") None;
   Mem [Def "CONFIG_SCHED_CORE"] "core_cookie" (Int 8) None;
   Mem [Def "CONFIG_SCHED_CORE"] "core_occupation" (Int 4) None;
   Mem [Def "CONFIG_CGROUP_SCHED"] "sched_task_group" (Ptr) None;
   Mem [Def "CONFIG_UCLAMP_TASK"] "uclamp_req" (Arr (Struct "uclamp_se") (Num 2)) None;
   Mem [Def "CONFIG_UCLAMP_TASK"] "uclamp" (Arr (Struct "uclamp_se") (Num 2)) None;
   Mem [] "kv" (Ptr) None;
   Mem [] "stats" (Struct "sched_statistics") None;
   Mem [Def "CONFIG_PREEMPT_NOTIFIERS"] "preempt_notifiers" (Ext "struct hlist_head") None;
   Mem [Def "CONFIG_BLK_DEV_IO_TRACE"] "btrace_seq" (Int 4) None;
   Mem [] "policy" (Int 4) None;
   Mem [] "nr_cpus_allowed" (Int 4) None;
   Mem [] "cpus_ptr" (Ptr) None;
   Mem [] "user_cpus_ptr" (Ptr) None;
   Mem [] "cpus_mask" (Ext "cpumask_t") None;
   Mem [] "migration_pending" (Ptr) None;
   Mem [Def "CONFIG_SMP"] "migration_disabled" (Int 2) None;
   Mem [] "migration_flags" (Int 2) None;
   Mem [Def "CONFIG_PREEMPT_RCU"] "rcu_read_lock_nesting" (Int 4) None;
   Mem [Def "CONFIG_PREEMPT_RCU"] "rcu_read_unlock_special" (Struct "rcu_special") None;
   Mem [Def "CONFIG_PREEMPT_RCU"] "rcu_node_entry" (Ext "struct list_head") None;
   Mem [Def "CONFIG_PREEMPT_RCU"] "rcu_blocked_node" (Ptr) None;
   Mem [Def "CONFIG_TASKS_RCU"] "rcu_tasks_nvcsw" (Int 8) None;
   Mem [Def "CONFIG_TASKS_RCU"] "rcu_tasks_holdout" (Int 1) None;
   Mem [Def "CONFIG_TASKS_RCU"] "rcu_tasks_idx" (Int 1) None;
   Mem [Def "CONFIG_TASKS_RCU"] "rcu_tasks_idle_cpu" (Int 4) None;
   Mem [Def "CONFIG_TASKS_RCU"] "rcu_tasks_holdout_list" (Ext "struct list_head") None;
   Mem [Def "CONFIG_TASKS_TRACE_RCU"] "trc_reader_nesting" (Int 4) None;
   Mem [Def "CONFIG_TASKS_TRACE_RCU"] "trc_ipi_to_cpu" (Int 4) None;
   Mem [Def "CONFIG_TASKS_TRACE_RCU"] "trc_reader_special" (Struct "rcu_special") None;
   Mem [Def "CONFIG_TASKS_TRACE_RCU"] "trc_reader_checked" (Int 1) None;
   Mem [Def "CONFIG_TASKS_TRACE_RCU"] "trc_holdout_list" (Ext "struct list_head") None;
   Mem [] "sched_info" (Struct "sched_info") None;
   Mem [] "tasks" (Ext "struct list_head") None;
   Mem [Def "CONFIG_SMP"] "pushable_tasks" (Ext "struct plist_node") None;
   Mem [Def "CONFIG_SMP"] "pushable_dl_tasks" (Ext "struct rb_node") None;
   Mem [] "mm" (Ptr) None;
   Mem [] "active_mm" (Ptr) None].

Definition task_struct_2 : list member :=
  [Mem [] "vmacache" (Ext "struct vmacache") None;
   Mem [Def "SPLIT_RSS_COUNTING"] "rss_stat" (Ext "struct task_rss_stat") None;
   Mem [] "exit_state" (Int 4) None;
   Mem [] "exit_code" (Int 4) None;
   Mem [] "exit_signal" (Int 4) None;
   Mem [] "pdeath_signal" (Int 4) None;
   Mem [] "jobctl" (Int 8) None;
   Mem [] "personality" (Int 4) None;
   Mem [] "sched_reset_on_fork" (Int 4) (Some (Num 1));
   Mem [] "sched_contributes_to_load" (Int 4) (Some (Num 1));
   Mem [] "sched_migrated" (Int 4) (Some (Num 1));
   Mem [Def "CONFIG_PSI"] "sched_psi_wake_requeue" (Int 4) (Some (Num 1));
   Mem [] "" (Int 4) (Some (Num 0));
   Mem [] "sched_remote_wakeup" (Int 4) (Some (Num 1));
   Mem [] "in_execve" (Int 4) (Some (Num 1));
   Mem [] "in_iowait" (Int 4) (Some (Num 1));
   Mem [NDef "TIF_RESTORE_SIGMASK"] "restore_sigmask" (Int 4) (Some (Num 1));
   Mem [Def "CONFIG_MEMCG"] "in_user_fault" (Int 4) (Some (Num 1));
   Mem [Def "CONFIG_COMPAT_BRK"] "brk_randomized" (Int 4) (Some (Num 1));
   Mem [Def "CONFIG_CGROUPS"] "no_cgroup_migration" (Int 4) (Some (Num 1));
   Mem [Def "CONFIG_CGROUPS"] "frozen" (Int 4) (Some (Num 1));
   Mem [Def "CONFIG_BLK_CGROUP"] "use_memdelay" (Int 4) (Some (Num 1));
   Mem [Def "CONFIG_PSI"] "in_memstall" (Int 4) (Some (Num 1));
   Mem [Def "CONFIG_PAGE_OWNER"] "in_page_owner" (Int 4) (Some (Num 1));
   Mem [Def "CONFIG_EVENTFD"] "in_eventfd" (Int 4) (Some (Num 1));
   Mem [] "atomic_flags" (Int 8) None;
   Mem [] "restart_block" (Ext "struct restart_block") None;
   Mem [] "pid" (Ext "pid_t") None;
   Mem [] "tgid" (Ext "pid_t") None;
   Mem [Def "CONFIG_STACKPROTECTOR"] "stack_canary" (Int 8) None;
   Mem [] "real_parent" (Ptr) None;
   Mem [] "parent" (Ptr) None;
   Mem [] "children" (Ext "struct list_head") None;
   Mem [] "sibling" (Ext "struct list_head") None;
   Mem [] "group_leader" (Ptr) None;
   Mem [] "ptraced" (Ext "struct list_head") None;
   Mem [] "ptrace_entry" (Ext "struct list_head") None;
   Mem [] "thread_pid" (Ptr) None;
   Mem [] "pid_links" (Arr (Ext "struct hlist_node") (Const "PIDTYPE_MAX")) None;
   Mem [] "thread_group" (Ext "struct list_head") None;
   Mem [] "thread_node" (Ext "struct list_head") None;
   Mem [] "vfork_done" (Ptr) None;
   Mem [] "set_child_tid" (Ptr) None;
   Mem [] "clear_child_tid" (Ptr) None;
   Mem [] "pf_io_worker" (Ptr) None;
   Mem [] "utime" (Int 8) None;
   Mem [] "stime" (Int 8) None;
   Mem [Def "CONFIG_ARCH_HAS_SCALED_CPUTIME"] "utimescaled" (Int 8) None;
   Mem [Def "CONFIG_ARCH_HAS_SCALED_CPUTIME"] "stimescaled" (Int 8) None;
   Mem [] "gtime" (Int 8) None].

Definition task_struct_3 : list member :=
  [Mem [] "prev_cputime" (Struct "prev_cputime") None;
   Mem [Def "CONFIG_VIRT_CPU_ACCOUNTING_GEN"] "vtime" (Struct "vtime") None;
   Mem [Def "CONFIG_NO_HZ_FULL"] "tick_dep_mask" (Ext "atomic_t") None;
   Mem [] "nvcsw" (Int 8) None;
   Mem [] "nivcsw" (Int 8) None;
   Mem [] "start_time" (Int 8) None;
   Mem [] "start_boottime" (Int 8) None;
   Mem [] "min_flt" (Int 8) None;
   Mem [] "maj_flt" (Int 8) None;
   Mem [] "posix_cputimers" (Ext "struct posix_cputimers") None;
   Mem [Def "CONFIG_POSIX_CPU_TIMERS_TASK_WORK"] "posix_cputimers_work" (Ext "struct posix_cputimers_work") None;
   Mem [] "ptracer_cred" (Ptr) None;
   Mem [] "real_cred" (Ptr) None;
   Mem [] "cred" (Ptr) None;
   Mem [Def "CONFIG_KEYS"] "cached_requested_key" (Ptr) None;
   Mem [] "comm" (Arr (Int 1) (Num 16)) None;
   Mem [] "nameidata" (Ptr) None;
   Mem [Def "CONFIG_SYSVIPC"] "sysvsem" (Ext "struct sysv_sem") None;
   Mem [Def "CONFIG_SYSVIPC"] "sysvshm" (Ext "struct sysv_shm") None;
   Mem [Def "CONFIG_DETECT_HUNG_TASK"] "last_switch_count" (Int 8) None;
   Mem [Def "CONFIG_DETECT_HUNG_TASK"] "last_switch_time" (Int 8) None;
   Mem [] "fs" (Ptr) None;
   Mem [] "files" (Ptr) None;
   Mem [Def "CONFIG_IO_URING"] "io_uring" (Ptr) None;
   Mem [] "nsproxy" (Ptr) None;
   Mem [] "signal" (Ptr) None;
   Mem [] "sighand" (Ptr) None;
   Mem [] "blocked" (Ext "sigset_t") None;
   Mem [] "real_blocked" (Ext "sigset_t") None;
   Mem [] "saved_sigmask" (Ext "sigset_t") None;
   Mem [] "pending" (Ext "struct sigpending") None;
   Mem [] "sas_ss_sp" (Int 8) None;
   Mem [] "sas_ss_size" (Int 8) None;
   Mem [] "sas_ss_flags" (Int 4) None;
   Mem [] "task_works" (Ptr) None;
   Mem [Def "CONFIG_AUDIT"; Def "CONFIG_AUDITSYSCALL"] "audit_context" (Ptr) None;
   Mem [Def "CONFIG_AUDIT"] "loginuid" (Ext "kuid_t") None;
   Mem [Def "CONFIG_AUDIT"] "sessionid" (Int 4) None;
   Mem [] "seccomp" (Ext "struct seccomp") None;
   Mem [] "syscall_dispatch" (Ext "struct syscall_user_dispatch") None;
   Mem [] "parent_exec_id" (Int 8) None;
   Mem [] "self_exec_id" (Int 8) None;
   Mem [] "alloc_lock" (Ext "spinlock_t") None;
   Mem [] "pi_lock" (Ext "raw_spinlock_t") None;
   Mem [] "wake_q" (Struct "wake_q_node") None;
   Mem [Def "CONFIG_RT_MUTEXES"] "pi_waiters" (Ext "struct rb_root_cached") None;
   Mem [Def "CONFIG_RT_MUTEXES"] "pi_top_task" (Ptr) None;
   Mem [Def "CONFIG_RT_MUTEXES"] "pi_blocked_on" (Ptr) None;
   Mem [Def "CONFIG_DEBUG_MUTEXES"] "blocked_on" (Ptr) None;
   Mem [Def "CONFIG_DEBUG_ATOMIC_SLEEP"] "non_block_count" (Int 4) None;
   Mem [Def "CONFIG_TRACE_IRQFLAGS"] "irqtrace" (Ext "struct irqtrace_events") None;
   Mem [Def "CONFIG_TRACE_IRQFLAGS"] "hardirq_threaded" (Int 4) None;
   Mem [Def "CONFIG_TRACE_IRQFLAGS"] "hardirq_chain_key" (Int 8) None;
   Mem [Def "CONFIG_TRACE_IRQFLAGS"] "softirqs_enabled" (Int 4) None;
   Mem [Def "CONFIG_TRACE_IRQFLAGS"] "softirq_context" (Int 4) None;
   Mem [Def "CONFIG_TRACE_IRQFLAGS"] "irq_config" (Int 4) None;
   Mem [Def "CONFIG_PREEMPT_RT"] "softirq_disable_cnt" (Int 4) None].

Definition task_struct_4 : list member :=
  [Mem [Def "CONFIG_LOCKDEP"] "curr_chain_key" (Int 8) None;
   Mem [Def "CONFIG_LOCKDEP"] "lockdep_depth" (Int 4) None;
   Mem [Def "CONFIG_LOCKDEP"] "lockdep_recursion" (Int 4) None;
   Mem [Def "CONFIG_LOCKDEP"] "held_locks" (Arr (Ext "struct held_lock") (Num 48)) None;
   Mem [Def "CONFIG_UBSAN"; NDef "CONFIG_UBSAN_TRAP"] "in_ubsan" (Int 4) None;
   Mem [] "journal_info" (Ptr) None;
   Mem [] "bio_list" (Ptr) None;
   Mem [Def "CONFIG_BLOCK"] "plug" (Ptr) None;
   Mem [] "reclaim_state" (Ptr) None;
   Mem [] "backing_dev_info" (Ptr) None;
   Mem [] "io_context" (Ptr) None;
   Mem [Def "CONFIG_COMPACTION"] "capture_control" (Ptr) None;
   Mem [] "ptrace_message" (Int 8) None;
   Mem [] "last_siginfo" (Ptr) None;
   Mem [] "ioac" (Ext "struct task_io_accounting") None;
   Mem [Def "CONFIG_PSI"] "psi_flags" (Int 4) None;
   Mem [Def "CONFIG_TASK_XACCT"] "acct_rss_mem1" (Int 8) None;
   Mem [Def "CONFIG_TASK_XACCT"] "acct_vm_mem1" (Int 8) None;
   Mem [Def "CONFIG_TASK_XACCT"] "acct_timexpd" (Int 8) None;
   Mem [Def "CONFIG_CPUSETS"] "mems_allowed" (Ext "nodemask_t") None;
   Mem [Def "CONFIG_CPUSETS"] "mems_allowed_seq" (Ext "seqcount_spinlock_t") None;
   Mem [Def "CONFIG_CPUSETS"] "cpuset_mem_spread_rotor" (Int 4) None;
   Mem [Def "CONFIG_CPUSETS"] "cpuset_slab_spread_rotor" (Int 4) None;
   Mem [Def "CONFIG_CGROUPS"] "cgroups" (Ptr) None;
   Mem [Def "CONFIG_CGROUPS"] "cg_list" (Ext "struct list_head") None;
   Mem [Def "CONFIG_X86_CPU_RESCTRL"] "closid" (Int 4) None;
   Mem [Def "CONFIG_X86_CPU_RESCTRL"] "rmid" (Int 4) None;
   Mem [Def "CONFIG_FUTEX"] "robust_list" (Ptr) None;
   Mem [Def "CONFIG_FUTEX"; Def "CONFIG_COMPAT"] "compat_robust_list" (Ptr) None;
   Mem [Def "CONFIG_FUTEX"] "pi_state_list" (Ext "struct list_head") None;
   Mem [Def "CONFIG_FUTEX"] "pi_state_cache" (Ptr) None;
   Mem [Def "CONFIG_FUTEX"] "futex_exit_mutex" (Ext "struct mutex") None;
   Mem [Def "CONFIG_FUTEX"] "futex_state" (Int 4) None;
   Mem [Def "CONFIG_PERF_EVENTS"] "perf_event_ctxp" (Arr (Ptr) (Num 2)) None;
   Mem [Def "CONFIG_PERF_EVENTS"] "perf_event_mutex" (Ext "struct mutex") None;
   Mem [Def "CONFIG_PERF_EVENTS"] "perf_event_list" (Ext "struct list_head") None;
   Mem [Def "CONFIG_DEBUG_PREEMPT"] "preempt_disable_ip" (Int 8) None;
   Mem [Def "CONFIG_NUMA"] "mempolicy" (Ptr) None;
   Mem [Def "CONFIG_NUMA"] "il_prev" (Int 2) None;
   Mem [Def "CONFIG_NUMA"] "pref_node_fork" (Int 2) None;
   Mem [Def "CONFIG_NUMA_BALANCING"] "numa_scan_seq" (Int 4) None;
   Mem [Def "CONFIG_NUMA_BALANCING"] "numa_scan_period" (Int 4) None;
   Mem [Def "CONFIG_NUMA_BALANCING"] "numa_scan_period_max" (Int 4) None;
   Mem [Def "CONFIG_NUMA_BALANCING"] "numa_preferred_nid" (Int 4) None;
   Mem [Def "CONFIG_NUMA_BALANCING"] "numa_migrate_retry" (Int 8) None;
   Mem [Def "CONFIG_NUMA_BALANCING"] "node_stamp" (Int 8) None;
   Mem [Def "CONFIG_NUMA_BALANCING"] "last_task_numa_placement" (Int 8) None;
   Mem [Def "CONFIG_NUMA_BALANCING"] "last_sum_exec_runtime" (Int 8) None;
   Mem [Def "CONFIG_NUMA_BALANCING"] "numa_work" (Ext "struct callback_head") None;
   Mem [Def "CONFIG_NUMA_BALANCING"] "numa_group" (Ptr) None;
   Mem [Def "CONFIG_NUMA_BALANCING"] "numa_faults" (Ptr) None;
   Mem [Def "CONFIG_NUMA_BALANCING"] "total_numa_faults" (Int 8) None;
   Mem [Def "CONFIG_NUMA_BALANCING"] "numa_faults_locality" (Arr (Int 8) (Num 3)) None;
   Mem [Def "CONFIG_NUMA_BALANCING"] "numa_pages_migrated" (Int 8) None].

Definition task_struct_5 : list member :=
  [Mem [Def "CONFIG_RSEQ"] "rseq" (Ptr) None;
   Mem [Def "CONFIG_RSEQ"] "rseq_sig" (Int 4) None;
   Mem [Def "CONFIG_RSEQ"] "rseq_event_mask" (Int 8) None;
   Mem [] "tlb_ubc" (Ext "struct tlbflush_unmap_batch") None;
   Mem [] "" (Struct "task_rcu") None;
   Mem [] "splice_pipe" (Ptr) None;
   Mem [] "task_frag" (Ext "struct page_frag") None;
   Mem [Def "CONFIG_TASK_DELAY_ACCT"] "delays" (Ptr) None;
   Mem [Def "CONFIG_FAULT_INJECTION"] "make_it_fail" (Int 4) None;
   Mem [Def "CONFIG_FAULT_INJECTION"] "fail_nth" (Int 4) None;
   Mem [] "nr_dirtied" (Int 4) None;
   Mem [] "nr_dirtied_pause" (Int 4) None;
   Mem [] "dirty_paused_when" (Int 8) None;
   Mem [Def "CONFIG_LATENCYTOP"] "latency_record_count" (Int 4) None;
   Mem [Def "CONFIG_LATENCYTOP"] "latency_record" (Arr (Ext "struct latency_record") (Const "LT_SAVECOUNT")) None;
   Mem [] "timer_slack_ns" (Int 8) None;
   Mem [] "default_timer_slack_ns" (Int 8) None;
   Mem [Either "CONFIG_KASAN_GENERIC" "CONFIG_KASAN_SW_TAGS"] "kasan_depth" (Int 4) None;
   Mem [Def "CONFIG_KCSAN"] "kcsan_ctx" (Ext "struct kcsan_ctx") None;
   Mem [Def "CONFIG_KCSAN"; Def "CONFIG_TRACE_IRQFLAGS"] "kcsan_save_irqtrace" (Ext "struct irqtrace_events") None;
   Mem [Enabled "CONFIG_KUNIT"] "kunit_test" (Ptr) None;
   Mem [Def "CONFIG_FUNCTION_GRAPH_TRACER"] "curr_ret_stack" (Int 4) None;
   Mem [Def "CONFIG_FUNCTION_GRAPH_TRACER"] "curr_ret_depth" (Int 4) None;
   Mem [Def "CONFIG_FUNCTION_GRAPH_TRACER"] "ret_stack" (Ptr) None;
   Mem [Def "CONFIG_FUNCTION_GRAPH_TRACER"] "ftrace_timestamp" (Int 8) None;
   Mem [Def "CONFIG_FUNCTION_GRAPH_TRACER"] "trace_overrun" (Ext "atomic_t") None;
   Mem [Def "CONFIG_FUNCTION_GRAPH_TRACER"] "tracing_graph_pause" (Ext "atomic_t") None;
   Mem [Def "CONFIG_TRACING"] "trace" (Int 8) None;
   Mem [Def "CONFIG_TRACING"] "trace_recursion" (Int 8) None;
   Mem [Def "CONFIG_KCOV"] "kcov_mode" (Int 4) None;
   Mem [Def "CONFIG_KCOV"] "kcov_size" (Int 4) None;
   Mem [Def "CONFIG_KCOV"] "kcov_area" (Ptr) None;
   Mem [Def "CONFIG_KCOV"] "kcov" (Ptr) None;
   Mem [Def "CONFIG_KCOV"] "kcov_handle" (Int 8) None;
   Mem [Def "CONFIG_KCOV"] "kcov_sequence" (Int 4) None;
   Mem [Def "CONFIG_KCOV"] "kcov_softirq" (Int 4) None;
   Mem [Def "CONFIG_MEMCG"] "memcg_in_oom" (Ptr) None;
   Mem [Def "CONFIG_MEMCG"] "memcg_oom_gfp_mask" (Ext "gfp_t") None;
   Mem [Def "CONFIG_MEMCG"] "memcg_oom_order" (Int 4) None;
   Mem [Def "CONFIG_MEMCG"] "memcg_nr_pages_over_high" (Int 4) None;
   Mem [Def "CONFIG_MEMCG"] "active_memcg" (Ptr) None;
   Mem [Def "CONFIG_BLK_CGROUP"] "throttle_queue" (Ptr) None;
   Mem [Def "CONFIG_UPROBES"] "utask" (Ptr) None;
   Mem [Either "CONFIG_BCACHE" "CONFIG_BCACHE_MODULE"] "sequential_io" (Int 4) None;
   Mem [Either "CONFIG_BCACHE" "CONFIG_BCACHE_MODULE"] "sequential_io_avg" (Int 4) None].

Definition task_struct_6 : list member :=
  [Mem [] "kmap_ctrl" (Struct "kmap_ctrl") None;
   Mem [Def "CONFIG_DEBUG_ATOMIC_SLEEP"] "task_state_change" (Int 8) None;
   Mem [Def "CONFIG_DEBUG_ATOMIC_SLEEP"; Def "CONFIG_PREEMPT_RT"] "saved_state_change" (Int 8) None;
   Mem [] "pagefault_disabled" (Int 4) None;
   Mem [Def "CONFIG_MMU"] "oom_reaper_list" (Ptr) None;
   Mem [Def "CONFIG_MMU"] "oom_reaper_timer" (Ext "struct timer_list") None;
   Mem [Def "CONFIG_VMAP_STACK"] "stack_vm_area" (Ptr) None;
   Mem [Def "CONFIG_THREAD_INFO_IN_TASK"] "stack_refcount" (Ext "refcount_t") None;
   Mem [Def "CONFIG_LIVEPATCH"] "patch_state" (Int 4) None;
   Mem [Def "CONFIG_SECURITY"] "security" (Ptr) None;
   Mem [Def "CONFIG_BPF_SYSCALL"] "bpf_storage" (Ptr) None;
   Mem [Def "CONFIG_BPF_SYSCALL"] "bpf_ctx" (Ptr) None;
   Mem [Def "CONFIG_GCC_PLUGIN_STACKLEAK"] "lowest_stack" (Int 8) None;
   Mem [Def "CONFIG_GCC_PLUGIN_STACKLEAK"] "prev_lowest_stack" (Int 8) None;
   Mem [Def "CONFIG_X86_MCE"] "mce_vaddr" (Ptr) None;
   Mem [Def "CONFIG_X86_MCE"] "mce_kflags" (Int 8) None;
   Mem [Def "CONFIG_X86_MCE"] "mce_addr" (Int 8) None;
   Mem [Def "CONFIG_X86_MCE"] "mce_ripv" (Int 8) (Some (Num 1));
   Mem [Def "CONFIG_X86_MCE"] "mce_whole_page" (Int 8) (Some (Num 1));
   Mem [Def "CONFIG_X86_MCE"] "__mce_reserved" (Int 8) (Some (Num 62));
   Mem [Def "CONFIG_X86_MCE"] "mce_kill_me" (Ext "struct callback_head") None;
   Mem [Def "CONFIG_X86_MCE"] "mce_count" (Int 4) None;
   Mem [Def "CONFIG_KRETPROBES"] "kretprobe_instances" (Ext "struct llist_head") None;
   Mem [Def "CONFIG_ARCH_HAS_PARANOID_L1D_FLUSH"] "l1d_flush_kill" (Ext "struct callback_head") None;
   Mem [] "thread" (Ext "struct thread_struct") None].

(** struct task_struct *)
Definition task_struct : list member :=
  task_struct_1 ++ task_struct_2 ++ task_struct_3 ++ task_struct_4 ++ task_struct_5 ++ task_struct_6.

(** union thread_union *)
Definition thread_union : list member :=
  [Mem [NDef "CONFIG_ARCH_TASK_STRUCT_ON_STACK"] "task" (Struct "task_struct") None;
   Mem [NDef "CONFIG_THREAD_INFO_IN_TASK"] "thread_info" (Ext "struct thread_info") None;
   Mem [] "stack" (Arr (Int 8) (Const "THREAD_SIZE/sizeof(long)")) None].

(** The structures in the order in which they need each other. *)
Definition sched_structs : list sdef :=
  [SDef "prev_cputime" false (Num 1) prev_cputime; SDef "vtime" false (Num 1) vtime;
   SDef "sched_info" false (Num 1) sched_info; SDef "load_weight" false (Num 1) load_weight;
   SDef "util_est" false (Num 8) util_est; SDef "sched_avg" false (Const "SMP_CACHE_BYTES") sched_avg;
   SDef "sched_statistics" false (Const "SMP_CACHE_BYTES") sched_statistics;
   SDef "sched_entity" false (Num 1) sched_entity; SDef "sched_rt_entity" false (Num 1) sched_rt_entity;
   SDef "sched_dl_entity" false (Num 1) sched_dl_entity; SDef "uclamp_se" false (Num 1) uclamp_se;
   SDef "rcu_special_b" false (Num 1) rcu_special_b; SDef "rcu_special" true (Num 1) rcu_special;
   SDef "wake_q_node" false (Num 1) wake_q_node; SDef "kmap_ctrl" false (Num 1) kmap_ctrl;
   SDef "kv_store" false (Num 1) kv_store_members; SDef "task_rcu" true (Num 1) task_rcu].

Definition task_sdef : sdef := SDef "task_struct" false (Num 1) task_struct.
