(* ===== verification/TaskLayout.v ===== *)
(** * The layout of task_struct (include/linux/sched.h)

    For every configuration of the kernel: the members of task_struct are
    apart and inside it, thread_info comes first and thread last, the bits that
    the scheduler locks protect share no word with the others, and the key-value
    store and the pid, which the new system calls and the vDSO window use, are
    always there. *)

From S2P Require Import Prelude CLayout TaskStruct.

(** The layouts of the structures task_struct is made of. *)
Definition sched_env (b : build) : tenv := layouts b [] sched_structs.

Definition task_places (b : build) : list (member * (Z * Z)) := places b (sched_env b) 0 (seen b task_struct).
Definition sizeof_task_struct (b : build) : Z := size (layout b (sched_env b) task_sdef).

(** ** Every declaration makes sense *)

Definition sdef_ok (d : sdef) : bool :=
  forallb decl_ok (sd_members d) && match sd_aligned d with Num n => 0 <? n | Const s => String.eqb s "SMP_CACHE_BYTES" end.

Lemma sched_structs_ok : forallb sdef_ok (task_sdef :: sched_structs) = true.
Proof. vm_compute. reflexivity. Qed.

Lemma seen_ok b env ms : build_ok b -> env_ok env -> forallb decl_ok ms = true -> Forall (member_ok b env) (seen b ms).
Proof.
  intros Hb He Hok. apply Forall_forall. intros m [_ Hm]%list_elem_of_filter. apply decl_member_ok; [done..|].
  rewrite forallb_forall in Hok. apply Hok. by apply list_elem_of_In.
Qed.

Lemma max_align_pos b env a ms : 0 < a -> Forall (member_ok b env) ms -> 0 < max_align b env a ms.
Proof. intros Ha. induction 1 as [|m ms _ _ IH]; cbn; [done|]. unfold max_align in *. lia. Qed.

Lemma extent_nonneg b env pos ms : 0 <= pos -> Forall (member_ok b env) ms -> pos <= extent b env pos ms.
Proof.
  intros Hp Hf. revert pos Hp. induction Hf as [|m ms Hm _ IH]; intros pos Hp; cbn; [done|].
  pose proof (place_spec b env pos m Hp Hm) as Hpl. destruct (place b env pos m) as [s e]. cbn. specialize (IH e). lia.
Qed.

Lemma union_extent_nonneg b env ms : 0 <= union_extent b env ms.
Proof. unfold union_extent. induction ms; cbn; lia. Qed.

Lemma layout_spec b env d :
  build_ok b -> env_ok env -> sdef_ok d = true ->
  ty_ok (layout b env d) /\ (sd_union d = false -> extent b env 0 (seen b (sd_members d)) <= 8 * size (layout b env d)).
Proof.
  intros Hb He [Hok Ha]%andb_prop. pose proof (seen_ok b env _ Hb He Hok) as Hf.
  assert (Ha' : 0 < num_of b (sd_aligned d)).
  { destruct (sd_aligned d) as [n|s]; [by apply Z.ltb_lt in Ha|]. apply String.eqb_eq in Ha as ->. apply Hb. }
  pose proof (max_align_pos b env _ _ Ha' Hf) as Hmax. pose proof (extent_nonneg b env 0 _ ltac:(lia) Hf) as Hext.
  pose proof (union_extent_nonneg b env (seen b (sd_members d))) as Hun. unfold layout, ty_ok. cbn.
  set (A := max_align _ _ _ _) in *. set (bits := if sd_union d then _ else _).
  assert (Hbits : 0 <= bits) by (unfold bits; destruct (sd_union d); lia).
  destruct (roundup_spec bits (8 * A)) as [Hr Hm]; [lia|].
  assert (Hr8 : roundup bits (8 * A) = 8 * (roundup bits (8 * A) / 8)).
  { apply Z_div_exact_full_2; [lia|]. apply Z.mod_divide; [lia|]. apply Z.mod_divide in Hm; [|lia].
    etrans; [|exact Hm]. by exists A; lia. }
  split; [split; [apply Z.div_pos; lia|done]|]. intros Hnu. unfold bits in *. rewrite Hnu in *. lia.
Qed.

Lemma layouts_ok b env ds : build_ok b -> env_ok env -> forallb sdef_ok ds = true -> env_ok (layouts b env ds).
Proof.
  intros Hb. revert env. induction ds as [|d ds IH]; intros env He Hok; cbn in *; [done|].
  apply andb_prop in Hok as [Hd Hok]. apply IH; [|done]. constructor; [|done]. by apply layout_spec.
Qed.

Lemma sched_env_ok b : build_ok b -> env_ok (sched_env b).
Proof.
  intros Hb. apply layouts_ok; [done|by constructor|]. pose proof sched_structs_ok as H.
  cbn [forallb] in H. by apply andb_prop in H as [_ H].
Qed.

Lemma task_members_ok b : build_ok b -> Forall (member_ok b (sched_env b)) (seen b task_struct).
Proof.
  intros Hb. apply seen_ok; [done|by apply sched_env_ok|]. pose proof sched_structs_ok as H.
  cbn [forallb] in H. apply andb_prop in H as [H _]. by apply andb_prop in H as [H _].
Qed.

(** ** The two words of bits *)

(** Serialised by the locks of the scheduler. *)
Definition scheduler_bits : list string :=
  ["sched_reset_on_fork"; "sched_contributes_to_load"; "sched_migrated"; "sched_psi_wake_requeue"].

(** Written by the task itself, without a lock. *)
Definition current_bits : list string :=
  ["sched_remote_wakeup"; "in_execve"; "in_iowait"; "restore_sigmask"; "in_user_fault"; "brk_randomized";
   "no_cgroup_migration"; "frozen"; "use_memdelay"; "in_memstall"; "in_page_owner"; "in_eventfd"].

(** The member [unsigned :0] between them, and its place. *)
Definition boundary : member := Mem [] "" (Int 4) (Some (Num 0)).
Definition boundary_at : nat := Eval vm_compute in
  match list_find (fun m => m_bits m = Some (Num 0)) task_struct with Some (i, _) => i | None => 0%nat end.

Lemma task_split : task_struct = take boundary_at task_struct ++ boundary :: drop (S boundary_at) task_struct.
Proof. vm_compute. reflexivity. Qed.

Lemma bits_split :
  forallb (fun m => negb (bool_decide (m_name m ∈ scheduler_bits))) (boundary :: drop (S boundary_at) task_struct) = true /\
  forallb (fun m => negb (bool_decide (m_name m ∈ current_bits))) (take boundary_at task_struct ++ [boundary]) = true.
Proof. split; vm_compute; reflexivity. Qed.

Lemma seen_app b l1 l2 : seen b (l1 ++ l2) = seen b l1 ++ seen b l2.
Proof. apply filter_app. Qed.

Lemma not_seen b (S : list string) l m :
  forallb (fun m => negb (bool_decide (m_name m ∈ S))) l = true -> m_name m ∈ S -> m ∉ seen b l.
Proof.
  intros H Hm [_ Hin]%list_elem_of_filter. rewrite forallb_forall in H. apply list_elem_of_In in Hin. apply H in Hin.
  by rewrite bool_decide_true in Hin.
Qed.

Lemma words_apart b m1 s1 e1 m2 s2 e2 :
  build_ok b -> (m1, (s1, e1)) ∈ task_places b -> (m2, (s2, e2)) ∈ task_places b ->
  m_name m1 ∈ scheduler_bits -> m_name m2 ∈ current_bits -> s1 < e1 -> s1 / 32 < s2 / 32.
Proof.
  intros Hb H1 H2 N1 N2 Hlt. destruct bits_split as [B1 B2]. pose proof (task_members_ok b Hb) as Hf.
  unfold task_places in *. rewrite task_split, seen_app in Hf, H1, H2.
  change (boundary :: drop (S boundary_at) task_struct) with ([boundary] ++ drop (S boundary_at) task_struct) in *.
  rewrite seen_app in Hf, H1, H2. change (seen b [boundary]) with [boundary] in *.
  rewrite app_assoc in H2. rewrite places_app in H1, H2. apply elem_of_app in H1 as [H1|H1].
  2: { exfalso. apply (not_seen b _ _ m1 B1 N1). rewrite seen_app.
       rewrite <- (places_members b (sched_env b) (extent b (sched_env b) 0 (seen b (take boundary_at task_struct)))).
       apply list_elem_of_fmap. by exists (m1, (s1, e1)). }
  apply elem_of_app in H2 as [H2|H2].
  { exfalso. apply (not_seen b _ _ m2 B2 N2). rewrite seen_app.
    rewrite <- (places_members b (sched_env b) 0). apply list_elem_of_fmap. by exists (m2, (s2, e2)). }
  exact (zero_width_separates b (sched_env b) _ boundary _ m1 s1 e1 m2 s2 e2 Hf eq_refl H1 Hlt H2).
Qed.

(** ** Names *)

Definition named (m : member) : Prop := m_name m <> "".

#[local] Instance named_dec m : Decision (named m).
Proof. unfold named. apply _. Defined.

Lemma task_names_nodup : NoDup (m_name <$> filter named task_struct).
Proof. apply (bool_decide_unpack _). vm_compute. exact I. Qed.

Lemma seen_names_nodup b : NoDup (m_name <$> filter named (seen b task_struct)).
Proof.
  eapply sublist_NoDup; [exact task_names_nodup|]. apply fmap_sublist. unfold seen.
  generalize task_struct as l. induction l as [|m l IH]; [done|].
  rewrite (filter_cons _ m l). case_decide as Hs; rewrite !filter_cons; case_decide; try done.
  - by apply sublist_skip.
  - by apply sublist_cons.
Qed.

Lemma seen_always b m : m_if m = [] -> bool_decide (m ∈ task_struct) = true -> m ∈ seen b task_struct.
Proof. intros Hi Hm%bool_decide_eq_true_1. apply list_elem_of_filter. by rewrite Hi. Qed.

Definition thread_member : member := Mem [] "thread" (Ext "struct thread_struct") None.
Definition thread_info_member : member := Mem [Def "CONFIG_THREAD_INFO_IN_TASK"] "thread_info" (Ext "struct thread_info") None.

Lemma thread_last b : last (seen b task_struct) = Some thread_member.
Proof.
  rewrite (app_removelast_last thread_member (l := task_struct)) by done. rewrite seen_app.
  change (List.last task_struct thread_member) with thread_member.
  change (seen b [thread_member]) with [thread_member]. apply last_snoc.
Qed.

(** C15: in every configuration, with any sizes of the types of other headers,
    the members of task_struct follow one another without overlap, each aligned
    and inside the structure, and no two have one name; thread_info is at its
    start if it is part of it and thread is its last member; a bit that the
    scheduler's locks protect is never in one word with a bit that the task
    writes without them; and kv and pid are always there. *)
Theorem task_struct_layout b :
  build_ok b ->
  (forall i j m1 s1 e1 m2 s2 e2, (i < j)%nat -> task_places b !! i = Some (m1, (s1, e1)) ->
     task_places b !! j = Some (m2, (s2, e2)) -> e1 <= s2) /\
  (forall m s e, (m, (s, e)) ∈ task_places b -> 0 <= s <= e /\ e <= 8 * sizeof_task_struct b /\
     (m_bits m = None -> s mod (8 * align (ty_of b (sched_env b) (m_type m))) = 0)) /\
  NoDup (m_name <$> filter named (task_places b).*1) /\
  (cfg b "CONFIG_THREAD_INFO_IN_TASK" = true -> exists e, head (task_places b) = Some (thread_info_member, (0, e))) /\
  last (task_places b).*1 = Some thread_member /\
  (forall m1 s1 e1 m2 s2 e2, (m1, (s1, e1)) ∈ task_places b -> (m2, (s2, e2)) ∈ task_places b ->
     m_name m1 ∈ scheduler_bits -> m_name m2 ∈ current_bits -> s1 < e1 -> s1 / 32 < s2 / 32) /\
  Mem [] "kv" Ptr None ∈ (task_places b).*1 /\ Mem [] "pid" (Ext "pid_t") None ∈ (task_places b).*1.
Proof.
  intros Hb. pose proof (task_members_ok b Hb) as Hf. assert (Hms : (task_places b).*1 = seen b task_struct) by apply places_members.
  rewrite !Hms. split_and!.
  - intros i j m1 s1 e1 m2 s2 e2. by apply places_order.
  - intros m s e Hm. destruct (places_bounds _ _ 0 _ m s e ltac:(lia) Hf Hm) as (H1 & H2 & H3).
    destruct (layout_spec b (sched_env b) task_sdef Hb (sched_env_ok b Hb)) as [_ Hsz]; [by vm_compute|].
    specialize (Hsz eq_refl). unfold sizeof_task_struct. change (sd_members task_sdef) with task_struct in Hsz.
    split; [lia|]. split; [lia|]. intros Hn. by apply H3.
  - apply seen_names_nodup.
  - intros Hc. eexists. unfold task_places, task_struct, seen, task_struct_1.
    rewrite <- app_comm_cons, filter_cons_True by (cbn; by rewrite Hc). cbn [places head]. unfold place. cbn [m_bits].
    unfold roundup. rewrite Z.div_small; [reflexivity|]. pose proof (bo_ext b Hb "struct thread_info") as [_ Ha]. cbn. lia.
  - apply thread_last.
  - intros m1 s1 e1 m2 s2 e2. by apply words_apart.
  - apply seen_always; [done|]. vm_compute. reflexivity.
  - apply seen_always; [done|]. vm_compute. reflexivity.
Qed.

(** A small configuration: every type of other headers has 8 bytes, and the
    options of an ordinary kernel are on. *)
Definition small_build : build :=
  Build (fun s => bool_decide (s ∈ ["CONFIG_THREAD_INFO_IN_TASK"; "CONFIG_SMP"; "CONFIG_PSI"; "CONFIG_CGROUPS"]))
    (fun s => if String.eqb s "pid_t" then Ty 4 4 else Ty 8 8) (fun s => if String.eqb s "SMP_CACHE_BYTES" then 64 else 8).

Lemma small_build_ok : build_ok small_build.
Proof.
  split; cbn; [|intros s; by destruct (String.eqb _ _)|done|].
  - intros s. by destruct (String.eqb s "pid_t").
  - intros s Hs. repeat (apply elem_of_cons in Hs as [->|Hs]; [done|]). by apply not_elem_of_nil in Hs.
Qed.

(** There the bits of the scheduler and of the task are in neighbouring words. *)
Lemma task_struct_layout_witness :
  exists s1 e1 s2 e2, (Mem [] "sched_migrated" (Int 4) (Some (Num 1)), (s1, e1)) ∈ task_places small_build /\
    (Mem [] "in_execve" (Int 4) (Some (Num 1)), (s2, e2)) ∈ task_places small_build /\ s1 / 32 < s2 / 32.
Proof.
  destruct (task_struct_layout small_build small_build_ok) as (_ & _ & _ & _ & _ & Hw & _).
  assert (Hin : forall m, bool_decide (m ∈ (task_places small_build).*1) = true ->
    exists s e, (m, (s, e)) ∈ task_places small_build).
  { intros m Hm%bool_decide_eq_true_1. apply list_elem_of_fmap in Hm as ([m' [s e]] & -> & Hm). by exists s, e. }
  destruct (Hin (Mem [] "sched_migrated" (Int 4) (Some (Num 1)))) as (s1 & e1 & H1); [vm_compute; reflexivity|].
  destruct (Hin (Mem [] "in_execve" (Int 4) (Some (Num 1)))) as (s2 & e2 & H2); [vm_compute; reflexivity|].
  exists s1, e1, s2, e2. split; [exact H1|]. split; [exact H2|]. apply (Hw _ _ _ _ _ _ H1 H2).
  - by apply (bool_decide_unpack _).
  - by apply (bool_decide_unpack _).
  - assert (Hlt : Forall (fun p : member * (Z * Z) => m_name (fst p) = "sched_migrated" -> fst (snd p) < snd (snd p)) (task_places small_build)).
    { apply (bool_decide_unpack _). vm_compute. exact I. }
    rewrite Forall_forall in Hlt. exact (Hlt _ H1 eq_refl).
Defined.
