(* ===== verification/ForkState.v ===== *)
(** * The kernel state the process creation code works on (kernel/fork.c)

    The structures of fork.c (task_struct, signal_struct, sighand_struct,
    fs_struct, files_struct, mm_struct, ...) live in one heap from addresses
    to objects; an object gives a value to every field.  Linked lists, the
    key-value memory and the global counters are separate components of the
    state.  Code runs in a state monad whose exceptions are the labels that
    [goto] reaches, and every call of a function outside fork.c is recorded,
    with its result, in a trace; its result comes from an arbitrary oracle. *)

From S2P Require Import Prelude KVStore.

(** ** Fields *)

Inductive field :=
(** task_struct: identity and links *)
| f_pid | f_tgid | f_group_leader | f_real_parent | f_parent_exec_id | f_self_exec_id
| f_exit_signal | f_thread_pid | f_pdeath_signal
(** task_struct: resources *)
| f_kv | f_mm | f_active_mm | f_fs | f_files | f_sighand | f_signal | f_nsproxy | f_io_context
| f_io_uring | f_mempolicy | f_plug
(** task_struct: kernel stack and references *)
| f_stack | f_stack_vm_area | f_stack_refcount | f_rcu_users | f_usage | f_task_state
| f_stack_canary | f_stackend_magic
(** task_struct: flags and counters *)
| f_flags | f_blocked | f_set_child_tid | f_clear_child_tid | f_vfork_done | f_utime | f_stime
| f_gtime | f_utimescaled | f_stimescaled | f_vtime_starttime | f_vtime_state
| f_default_timer_slack_ns | f_timer_slack_ns | f_psi_flags | f_min_flt | f_maj_flt | f_nvcsw
| f_nivcsw | f_last_switch_count | f_last_switch_time | f_nr_dirtied | f_nr_dirtied_pause
| f_dirty_paused_when | f_start_time | f_start_boottime | f_fail_nth | f_btrace_seq
| f_use_memdelay
(** task_struct: pointers cleared in the child *)
| f_splice_pipe | f_task_frag_page | f_wake_q_next | f_pf_io_worker | f_throttle_queue
| f_active_memcg | f_bpf_storage | f_bpf_ctx | f_blocked_on | f_task_works
| f_kretprobe_instances | f_pi_waiters | f_pi_top_task | f_pi_blocked_on | f_cpus_ptr
| f_cpus_mask
(** task_struct: tracing and RCU *)
| f_cpuset_mem_spread_rotor | f_cpuset_slab_spread_rotor | f_irqtrace | f_softirqs_enabled
| f_softirq_context | f_pagefault_disabled | f_sequential_io | f_sequential_io_avg
| f_rcu_read_lock_nesting | f_rcu_read_unlock_special | f_rcu_blocked_node
| f_rcu_tasks_holdout | f_rcu_tasks_idle_cpu | f_trc_reader_nesting | f_trc_reader_special
| f_seccomp_filter | f_seccomp_mode | f_no_new_privs | f_syscall_work_seccomp
(** task_struct: restartable sequences *)
| f_rseq | f_rseq_sig | f_rseq_event_mask
(** signal_struct *)
| f_sig_nr_threads | f_live | f_sigcnt | f_sig_flags | f_curr_target | f_rlim
| f_oom_score_adj | f_oom_score_adj_min | f_oom_mm | f_shared_pending | f_tty
| f_has_child_subreaper | f_is_child_subreaper | f_pids_TGID | f_pids_PGID | f_pids_SID
(** sighand_struct, fs_struct, files_struct, io_context *)
| f_sig_count | f_action | f_users | f_in_exec | f_files_count | f_ioprio | f_nr_tasks
(** mm_struct *)
| f_mm_users | f_mm_count | f_owner | f_user_ns | f_exe_file | f_total_vm | f_data_vm
| f_exec_vm | f_stack_vm | f_map_count | f_locked_vm | f_pinned_vm | f_mm_flags | f_def_flags
| f_pgd | f_hiwater_rss | f_hiwater_vm | f_binfmt | f_core_state | f_vmacache_seqnum | f_pasid
| f_ioctx_table | f_xol_area | f_rss_stat | f_pgtables_bytes
(** nsproxy and pid *)
| f_time_ns | f_time_ns_for_children | f_pid_ns_for_children | f_pid_allocated
| f_child_reaper | f_pid_level | f_private_data.

(** A numbering of the fields, for decidable equality. *)
Definition field_id (f : field) : nat :=
  match f with
  | f_pid => 0 | f_tgid => 1 | f_group_leader => 2 | f_real_parent => 3
  | f_parent_exec_id => 4 | f_self_exec_id => 5 | f_exit_signal => 6 | f_thread_pid => 7
  | f_pdeath_signal => 8 | f_kv => 9 | f_mm => 10 | f_active_mm => 11 | f_fs => 12
  | f_files => 13 | f_sighand => 14 | f_signal => 15 | f_nsproxy => 16 | f_io_context => 17
  | f_io_uring => 18 | f_mempolicy => 19 | f_plug => 20 | f_stack => 21
  | f_stack_vm_area => 22 | f_stack_refcount => 23 | f_rcu_users => 24 | f_usage => 25
  | f_task_state => 26 | f_stack_canary => 27 | f_stackend_magic => 28 | f_flags => 29
  | f_blocked => 30 | f_set_child_tid => 31 | f_clear_child_tid => 32 | f_vfork_done => 33
  | f_utime => 34 | f_stime => 35 | f_gtime => 36 | f_utimescaled => 37 | f_stimescaled => 38
  | f_vtime_starttime => 39 | f_vtime_state => 40 | f_default_timer_slack_ns => 41
  | f_timer_slack_ns => 42 | f_psi_flags => 43 | f_min_flt => 44 | f_maj_flt => 45
  | f_nvcsw => 46 | f_nivcsw => 47 | f_last_switch_count => 48 | f_last_switch_time => 49
  | f_nr_dirtied => 50 | f_nr_dirtied_pause => 51 | f_dirty_paused_when => 52
  | f_start_time => 53 | f_start_boottime => 54 | f_fail_nth => 55 | f_btrace_seq => 56
  | f_use_memdelay => 57 | f_splice_pipe => 58 | f_task_frag_page => 59 | f_wake_q_next => 60
  | f_pf_io_worker => 61 | f_throttle_queue => 62 | f_active_memcg => 63 | f_bpf_storage => 64
  | f_bpf_ctx => 65 | f_blocked_on => 66 | f_task_works => 67 | f_kretprobe_instances => 68
  | f_pi_waiters => 69 | f_pi_top_task => 70 | f_pi_blocked_on => 71 | f_cpus_ptr => 72
  | f_cpus_mask => 73 | f_cpuset_mem_spread_rotor => 74 | f_cpuset_slab_spread_rotor => 75
  | f_irqtrace => 76 | f_softirqs_enabled => 77 | f_softirq_context => 78
  | f_pagefault_disabled => 79 | f_sequential_io => 80 | f_sequential_io_avg => 81
  | f_rcu_read_lock_nesting => 82 | f_rcu_read_unlock_special => 83 | f_rcu_blocked_node => 84
  | f_rcu_tasks_holdout => 85 | f_rcu_tasks_idle_cpu => 86 | f_trc_reader_nesting => 87
  | f_trc_reader_special => 88 | f_seccomp_filter => 89 | f_seccomp_mode => 90
  | f_no_new_privs => 91 | f_syscall_work_seccomp => 92 | f_rseq => 93 | f_rseq_sig => 94
  | f_rseq_event_mask => 95 | f_sig_nr_threads => 96 | f_live => 97 | f_sigcnt => 98
  | f_sig_flags => 99 | f_curr_target => 100 | f_rlim => 101 | f_oom_score_adj => 102
  | f_oom_score_adj_min => 103 | f_oom_mm => 104 | f_shared_pending => 105 | f_tty => 106
  | f_has_child_subreaper => 107 | f_is_child_subreaper => 108 | f_pids_TGID => 109
  | f_pids_PGID => 110 | f_pids_SID => 111 | f_sig_count => 112 | f_action => 113
  | f_users => 114 | f_in_exec => 115 | f_files_count => 116 | f_ioprio => 117
  | f_nr_tasks => 118 | f_mm_users => 119 | f_mm_count => 120 | f_owner => 121
  | f_user_ns => 122 | f_exe_file => 123 | f_total_vm => 124 | f_data_vm => 125
  | f_exec_vm => 126 | f_stack_vm => 127 | f_map_count => 128 | f_locked_vm => 129
  | f_pinned_vm => 130 | f_mm_flags => 131 | f_def_flags => 132 | f_pgd => 133
  | f_hiwater_rss => 134 | f_hiwater_vm => 135 | f_binfmt => 136 | f_core_state => 137
  | f_vmacache_seqnum => 138 | f_pasid => 139 | f_ioctx_table => 140 | f_xol_area => 141
  | f_rss_stat => 142 | f_pgtables_bytes => 143 | f_time_ns => 144
  | f_time_ns_for_children => 145 | f_pid_ns_for_children => 146 | f_pid_allocated => 147
  | f_child_reaper => 148 | f_pid_level => 149 | f_private_data => 150
  end%nat.

Definition all_fields : list field :=
  [f_pid; f_tgid; f_group_leader; f_real_parent; f_parent_exec_id; f_self_exec_id;
   f_exit_signal; f_thread_pid; f_pdeath_signal; f_kv; f_mm; f_active_mm; f_fs; f_files;
   f_sighand; f_signal; f_nsproxy; f_io_context; f_io_uring; f_mempolicy; f_plug; f_stack;
   f_stack_vm_area; f_stack_refcount; f_rcu_users; f_usage; f_task_state; f_stack_canary;
   f_stackend_magic; f_flags; f_blocked; f_set_child_tid; f_clear_child_tid; f_vfork_done;
   f_utime; f_stime; f_gtime; f_utimescaled; f_stimescaled; f_vtime_starttime; f_vtime_state;
   f_default_timer_slack_ns; f_timer_slack_ns; f_psi_flags; f_min_flt; f_maj_flt; f_nvcsw;
   f_nivcsw; f_last_switch_count; f_last_switch_time; f_nr_dirtied; f_nr_dirtied_pause;
   f_dirty_paused_when; f_start_time; f_start_boottime; f_fail_nth; f_btrace_seq;
   f_use_memdelay; f_splice_pipe; f_task_frag_page; f_wake_q_next; f_pf_io_worker;
   f_throttle_queue; f_active_memcg; f_bpf_storage; f_bpf_ctx; f_blocked_on; f_task_works;
   f_kretprobe_instances; f_pi_waiters; f_pi_top_task; f_pi_blocked_on; f_cpus_ptr;
   f_cpus_mask; f_cpuset_mem_spread_rotor; f_cpuset_slab_spread_rotor; f_irqtrace;
   f_softirqs_enabled; f_softirq_context; f_pagefault_disabled; f_sequential_io;
   f_sequential_io_avg; f_rcu_read_lock_nesting; f_rcu_read_unlock_special;
   f_rcu_blocked_node; f_rcu_tasks_holdout; f_rcu_tasks_idle_cpu; f_trc_reader_nesting;
   f_trc_reader_special; f_seccomp_filter; f_seccomp_mode; f_no_new_privs;
   f_syscall_work_seccomp; f_rseq; f_rseq_sig; f_rseq_event_mask; f_sig_nr_threads; f_live;
   f_sigcnt; f_sig_flags; f_curr_target; f_rlim; f_oom_score_adj; f_oom_score_adj_min;
   f_oom_mm; f_shared_pending; f_tty; f_has_child_subreaper; f_is_child_subreaper;
   f_pids_TGID; f_pids_PGID; f_pids_SID; f_sig_count; f_action; f_users; f_in_exec;
   f_files_count; f_ioprio; f_nr_tasks; f_mm_users; f_mm_count; f_owner; f_user_ns;
   f_exe_file; f_total_vm; f_data_vm; f_exec_vm; f_stack_vm; f_map_count; f_locked_vm;
   f_pinned_vm; f_mm_flags; f_def_flags; f_pgd; f_hiwater_rss; f_hiwater_vm; f_binfmt;
   f_core_state; f_vmacache_seqnum; f_pasid; f_ioctx_table; f_xol_area; f_rss_stat;
   f_pgtables_bytes; f_time_ns; f_time_ns_for_children; f_pid_ns_for_children;
   f_pid_allocated; f_child_reaper; f_pid_level; f_private_data].

Lemma field_of_id f : all_fields !! field_id f = Some f.
Proof. by destruct f. Qed.

#[global] Instance field_eq_dec : EqDecision field.
Proof.
  refine (fun f g => match decide (field_id f = field_id g) with
                     | left H => left _
                     | right H => right _
                     end).
  - pose proof (field_of_id f). pose proof (field_of_id g). rewrite H in *. congruence.
  - congruence.
Defined.

(** ** Objects and state *)

Abbreviation obj := (field -> Z).

Definition upd (f : field) (v : Z) (o : obj) : obj := fun g => if decide (g = f) then v else o g.

(** A virtual memory area of a user address space: bounds, flags, backing
    file (0 if none), owner, anon_vma and the pages that are mapped in it. *)
Record vma := VmaR {
  v_start : Z;
  v_end : Z;
  v_flags : list vm_flag;
  v_file : Z;
  v_mm : Z;
  v_anon : Z;
  v_pages : gmap Z Z;
}.

Record kst := Kst {
  heap : gmap Z obj;
  kvs : kvmem;                        (** nodes and stores of kv_store.c *)
  vmas : gmap Z (list vma);           (** mm->mmap, by mm *)
  children : gmap Z (list Z);         (** task->children *)
  thread_group : gmap Z (list Z);     (** leader->thread_group *)
  thread_head : gmap Z (list Z);      (** signal->thread_head *)
  tasks : list Z;                     (** init_task.tasks *)
  multiprocess : gmap Z nat;          (** nodes on signal->multiprocess *)
  stacks : gmap Z bool;               (** kernel stacks, [true] when all zero *)
  cached_stacks : list (option Z);    (** cached_stacks of this CPU *)
  rcu_queue : list Z;                 (** tasks whose memory RCU frees later *)
  nr_threads : Z;
  total_forks : Z;
  max_threads : Z;
  process_counts : Z;
  trace : list (string * Z);          (** calls out of fork.c, newest first *)
}.

Definition set_heap (h : gmap Z obj) (s : kst) : kst :=
  Kst h (kvs s) (vmas s) (children s) (thread_group s) (thread_head s) (tasks s) (multiprocess s)
    (stacks s) (cached_stacks s) (rcu_queue s) (nr_threads s) (total_forks s) (max_threads s) (process_counts s) (trace s).
Definition set_kvs (k : kvmem) (s : kst) : kst :=
  Kst (heap s) k (vmas s) (children s) (thread_group s) (thread_head s) (tasks s) (multiprocess s)
    (stacks s) (cached_stacks s) (rcu_queue s) (nr_threads s) (total_forks s) (max_threads s) (process_counts s) (trace s).
Definition set_vmas (v : gmap Z (list vma)) (s : kst) : kst :=
  Kst (heap s) (kvs s) v (children s) (thread_group s) (thread_head s) (tasks s) (multiprocess s)
    (stacks s) (cached_stacks s) (rcu_queue s) (nr_threads s) (total_forks s) (max_threads s) (process_counts s) (trace s).
Definition set_lists (c g h : gmap Z (list Z)) (t : list Z) (s : kst) : kst :=
  Kst (heap s) (kvs s) (vmas s) c g h t (multiprocess s)
    (stacks s) (cached_stacks s) (rcu_queue s) (nr_threads s) (total_forks s) (max_threads s) (process_counts s) (trace s).
Definition set_multiprocess (m : gmap Z nat) (s : kst) : kst :=
  Kst (heap s) (kvs s) (vmas s) (children s) (thread_group s) (thread_head s) (tasks s) m
    (stacks s) (cached_stacks s) (rcu_queue s) (nr_threads s) (total_forks s) (max_threads s) (process_counts s) (trace s).
Definition set_stacks (k : gmap Z bool) (c : list (option Z)) (s : kst) : kst :=
  Kst (heap s) (kvs s) (vmas s) (children s) (thread_group s) (thread_head s) (tasks s) (multiprocess s)
    k c (rcu_queue s) (nr_threads s) (total_forks s) (max_threads s) (process_counts s) (trace s).
Definition set_rcu (q : list Z) (s : kst) : kst :=
  Kst (heap s) (kvs s) (vmas s) (children s) (thread_group s) (thread_head s) (tasks s) (multiprocess s)
    (stacks s) (cached_stacks s) q (nr_threads s) (total_forks s) (max_threads s) (process_counts s) (trace s).
Definition set_counters (n t m p : Z) (s : kst) : kst :=
  Kst (heap s) (kvs s) (vmas s) (children s) (thread_group s) (thread_head s) (tasks s) (multiprocess s)
    (stacks s) (cached_stacks s) (rcu_queue s) n t m p (trace s).
Definition set_trace (l : list (string * Z)) (s : kst) : kst :=
  Kst (heap s) (kvs s) (vmas s) (children s) (thread_group s) (thread_head s) (tasks s) (multiprocess s)
    (stacks s) (cached_stacks s) (rcu_queue s) (nr_threads s) (total_forks s) (max_threads s) (process_counts s) l.

(** The value of a field, 0 where there is no object. *)
Definition fld (s : kst) (a : Z) (f : field) : Z :=
  match heap s !! a with Some o => o f | None => 0 end.

(** ** The monad

    A program either returns a value or leaves through an exception of type
    [E], here the label a [goto] names together with the value of retval. *)

Definition prog (E A : Type) : Type := kst -> (A + E) * kst.

Definition ret {E A} (a : A) : prog E A := fun s => (inl a, s).
Definition bind {E A B} (m : prog E A) (k : A -> prog E B) : prog E B :=
  fun s => match m s with (inl a, s') => k a s' | (inr e, s') => (inr e, s') end.
Definition throw {E A} (e : E) : prog E A := fun s => (inr e, s).
Definition modify {E} (g : kst -> kst) : prog E unit := fun s => (inl tt, g s).
Definition gets {E A} (g : kst -> A) : prog E A := fun s => (inl (g s), s).

Declare Scope prog_scope.
Delimit Scope prog_scope with prog.
Notation "'let*' x ':=' m 'in' k" := (bind m (fun x => k))
  (at level 10, x pattern, m at level 100, k at level 200) : prog_scope.
Notation "m ;;; k" := (bind m (fun _ : unit => k)) (at level 100, right associativity) : prog_scope.
#[global] Open Scope prog_scope.

(** [p->f] and [p->f = v]. *)
Definition rd {E} (a : Z) (f : field) : prog E Z := gets (fun s => fld s a f).
Definition wr {E} (a : Z) (f : field) (v : Z) : prog E unit :=
  modify (fun s => set_heap (alter (upd f v) a (heap s)) s).

(** Conditional code, for [if] statements and for #ifdef. *)
Definition when {E} (b : bool) (m : prog E unit) : prog E unit := if b then m else ret tt.

(** ** What fork.c is built with and what it calls *)

Inductive kconfig :=
| CONFIG_VMAP_STACK | CONFIG_THREAD_INFO_IN_TASK | CONFIG_SECCOMP | CONFIG_STACKPROTECTOR
| CONFIG_BLK_DEV_IO_TRACE | CONFIG_FAULT_INJECTION | CONFIG_BLK_CGROUP | CONFIG_MEMCG | CONFIG_MMU
| CONFIG_AIO | CONFIG_IOMMU_SUPPORT | CONFIG_UPROBES | CONFIG_DETECT_HUNG_TASK | CONFIG_BLOCK
| CONFIG_POSIX_TIMERS | CONFIG_RT_MUTEXES | CONFIG_PREEMPT_RCU | CONFIG_TASKS_RCU
| CONFIG_TASKS_TRACE_RCU | CONFIG_ARCH_HAS_SCALED_CPUTIME | CONFIG_VIRT_CPU_ACCOUNTING_GEN
| CONFIG_IO_URING | CONFIG_PSI | CONFIG_NUMA | CONFIG_CPUSETS | CONFIG_TRACE_IRQFLAGS
| CONFIG_LOCKDEP | CONFIG_DEBUG_MUTEXES | CONFIG_BCACHE | CONFIG_BPF_SYSCALL | CONFIG_KRETPROBES.

(** The build configuration and an arbitrary behaviour of everything outside
    fork.c: results of calls, results of calls made in a loop, memory. *)
Class World := {
  config : kconfig -> bool;
  ext : string -> Z;
  ext_at : string -> Z -> Z;
  copy_page_range : Z -> gmap Z Z -> Z * gmap Z Z;  (** result, pages the child gets *)
  kmem_cache_alloc : string -> gset Z -> option Z;
  garbage : string -> obj;
  stack_alloc : gset Z -> option Z;
  fresh_stack_clean : bool;
  kmalloc : gset Z -> option Z;
  kv_garbage : kv_store;
  copy_fs_struct : Z -> gmap Z obj -> Z * gmap Z obj;   (** the copy or 0 *)
  dup_fd : Z -> gmap Z obj -> Z * gmap Z obj;           (** the copy or an errno *)
  exit_fs : Z -> gmap Z obj -> gmap Z obj;
  exit_files : Z -> gmap Z obj -> gmap Z obj;
}.

(** The task drops the reference it holds in field [f], counted in field [cnt]
    of the object; the last reference frees the object. *)
Definition put_ref (f cnt : field) (p : Z) (h : gmap Z obj) : gmap Z obj :=
  match h !! p with
  | None => h
  | Some o =>
      if o f =? 0 then h
      else
        let h1 := alter (upd f 0) p h in
        match h1 !! o f with
        | None => h1
        | Some x => if x cnt =? 1 then delete (o f) h1 else alter (upd cnt (x cnt - 1)) (o f) h1
        end
  end.

(** The calls of copy_process that return 0 or a negative errno. *)
Definition errno_calls : list string :=
  ["sched_fork"; "perf_event_init_task"; "audit_alloc"; "security_task_alloc"; "copy_semundo";
   "copy_namespaces"; "copy_thread"; "put_user(pidfd)"; "cgroup_can_fork"].

(** What fork.c relies on: allocators hand out new, non-NULL memory; copies of
    fs_struct and files_struct start with one reference; exit_fs and exit_files
    drop the reference of the task; functions that return an error code return
    0 or a negative errno. *)
Record world_ok `{World} : Prop := {
  wo_slab : forall cache live a, kmem_cache_alloc cache live = Some a -> ~ (a ∈ live) /\ 0 < a;
  wo_stack : forall live a, stack_alloc live = Some a -> ~ (a ∈ live) /\ 0 < a;
  wo_kmalloc : kmalloc_fresh kmalloc;
  wo_copy_fs : forall fs h,
    copy_fs_struct fs h = (0, h) \/
    exists a o, 0 < a /\ h !! a = None /\ o f_users = 1 /\ copy_fs_struct fs h = (a, <[a := o]> h);
  wo_dup_fd : forall fd h,
    (exists e, - MAX_ERRNO <= e < 0 /\ dup_fd fd h = (e, h)) \/
    exists a o, 0 < a /\ h !! a = None /\ o f_files_count = 1 /\ dup_fd fd h = (a, <[a := o]> h);
  wo_exit_fs : forall p h, exit_fs p h = put_ref f_fs f_users p h;
  wo_errno : forall name, name ∈ errno_calls -> - MAX_ERRNO <= ext name <= 0;
  wo_exit_files : forall p h, exit_files p h = put_ref f_files f_files_count p h;
}.

Section Calls.
Context `{World}.

(** A call of a function outside fork.c. *)
Definition xcall {E} (name : string) : prog E Z :=
  fun s => (inl (ext name), set_trace ((name, ext name) :: trace s) s).

(** The same inside a loop, with the index of the iteration. *)
Definition xcall_at {E} (name : string) (i : Z) : prog E Z :=
  fun s => (inl (ext_at name i), set_trace ((name, ext_at name i) :: trace s) s).

(** The same for functions that return nothing. *)
Definition xvoid {E} (name : string) : prog E unit :=
  fun s => (inl tt, set_trace ((name, 0) :: trace s) s).

(** kmem_cache_alloc: memory with arbitrary contents, or NULL. *)
Definition alloc_obj {E} (cache : string) : prog E Z := fun s =>
  match kmem_cache_alloc cache (dom (heap s)) with
  | None => (inl 0, s)
  | Some a => (inl a, set_heap (<[a := garbage cache]> (heap s)) s)
  end.

(** kmem_cache_free *)
Definition free_obj {E} (a : Z) : prog E unit := modify (fun s => set_heap (delete a (heap s)) s).

(** [*dst = *src] *)
Definition copy_obj {E} (dst src : Z) : prog E unit :=
  modify (fun s => match heap s !! src with
                   | Some o => set_heap (alter (fun _ => o) dst (heap s)) s
                   | None => s
                   end).

(** [atomic_dec_and_test] and [refcount_dec_and_test] *)
Definition dec_and_test {E} (a : Z) (f : field) : prog E bool :=
  let* c := rd a f in
  wr a f (c - 1) ;;;
  ret (c - 1 =? 0).

Definition inc {E} (a : Z) (f : field) : prog E unit :=
  let* c := rd a f in
  wr a f (c + 1).

End Calls.
