(* ===== verification/ForkTask.v ===== *)
(** * Task structures and kernel stacks (kernel/fork.c)

    Allocation and release of kernel stacks with their per-CPU cache,
    duplication and release of a task_struct, and the limit on the number of
    threads. *)

From S2P Require Import Prelude KVStore TaskState ForkState.

(** ** The number of threads *)

Definition MIN_THREADS : Z := 20.
Definition FUTEX_TID_MASK : Z := 1073741823.
Definition MAX_THREADS : Z := FUTEX_TID_MASK.
Definition THREAD_SIZE : Z := 4 * PAGE_SIZE.

(** fls64: the position of the most significant bit, from 1; 0 for 0. *)
Definition fls64 (x : Z) : Z := if x =? 0 then 0 else Z.log2 x + 1.

Definition clamp (x lo hi : Z) : Z := Z.min (Z.max x lo) hi.

(** set_max_threads: the value it gives to max_threads. *)
Definition set_max_threads (nr_pages max_threads_suggested : Z) : Z :=
  let threads :=
    if 64 <? fls64 nr_pages + fls64 PAGE_SIZE then MAX_THREADS
    else u64 (nr_pages * PAGE_SIZE) / u64 (THREAD_SIZE * 8) in
  let threads := if max_threads_suggested <? threads then max_threads_suggested else threads in
  clamp threads MIN_THREADS MAX_THREADS.

(** What fork_init derives from it: max_threads, and half of it for the limits
    of init_task (RLIMIT_NPROC, also used for RLIMIT_SIGPENDING) and for each
    per-namespace count of the initial user namespace. *)
Record fork_limits := ForkLimits {
  fi_max_threads : Z;
  fi_rlimit_nproc : Z * Z;
  fi_rlimit_sigpending : Z * Z;
  fi_ucount_max : list Z;
}.

Definition fork_init (MAX_PER_NAMESPACE_UCOUNTS : nat) (nr_pages : Z) : fork_limits :=
  let max_threads := set_max_threads nr_pages MAX_THREADS in
  let half := Z.quot max_threads 2 in
  ForkLimits max_threads (half, half) (half, half) (replicate MAX_PER_NAMESPACE_UCOUNTS half).

(** task_struct_whitelist: offset and size of the part user copies may touch. *)
Definition task_struct_whitelist (arch_whitelist : Z * Z) (offsetof_thread : Z) : Z * Z :=
  let '(offset, size) := arch_whitelist in
  if size =? 0 then (0, size) else (offset + offsetof_thread, size).

Section Task.
Context `{World}.
Context {E : Type}.

(** sysctl_max_threads; [parsed] is what proc_dointvec_minmax leaves in the
    local variable, which it keeps between 1 and MAX_THREADS. *)
Definition sysctl_max_threads (write : bool) (parsed : Z) : prog E Z :=
  let* ret_ := xcall "proc_dointvec_minmax" in
  if nonzero ret_ || negb write then ret ret_
  else
    modify (fun s => set_counters (nr_threads s) (total_forks s) parsed (process_counts s) s) ;;;
    ret 0.

(** nr_processes: the per-CPU counters, of which the model keeps one CPU's. *)
Definition nr_processes (counts : list Z) : Z := foldl (fun total c => s32 (total + c)) 0 counts.

(** ** Kernel stacks

    A vm_struct is named by the address of the stack it describes, so that
    s->addr and find_vm_area are the identity. *)

Definition NR_CACHED_STACKS : nat := 2.

(** this_cpu_xchg(cached_stacks[i], NULL) *)
Definition xchg_cached (i : nat) : prog E (option Z) := fun s =>
  (inl (mjoin (cached_stacks s !! i)), set_stacks (stacks s) (<[i := None]> (cached_stacks s)) s).

(** this_cpu_cmpxchg(cached_stacks[i], NULL, vm): whether the slot was free. *)
Definition cmpxchg_cached (i : nat) (vm : Z) : prog E bool := fun s =>
  match cached_stacks s !! i with
  | Some None => (inl true, set_stacks (stacks s) (<[i := Some vm]> (cached_stacks s)) s)
  | _ => (inl false, s)
  end.

(** free_vm_stack_cache, when a CPU goes away. *)
Definition free_vm_stack_cache : prog E Z := fun s =>
  (inl 0, set_stacks (foldr (fun o m => match o with Some a => delete a m | None => m end)
                        (stacks s) (cached_stacks s))
            ((fun _ => None) <$> cached_stacks s) s).

(** The loop over the cached stacks in alloc_thread_stack_node. *)
Fixpoint alloc_cached (tsk : Z) (slots : list nat) : prog E (option Z) :=
  match slots with
  | [] => ret None
  | i :: slots' =>
      let* o := xchg_cached i in
      match o with
      | None => alloc_cached tsk slots'
      | Some a =>
          xvoid "kasan_unpoison_range" ;;;
          (* memset(s->addr, 0, THREAD_SIZE) *)
          modify (fun s => set_stacks (<[a := true]> (stacks s)) (cached_stacks s) s) ;;;
          wr tsk f_stack_vm_area a ;;;
          wr tsk f_stack a ;;;
          ret (Some a)
      end
  end.

(** A new stack from vmalloc or from the page allocator; 0 if there is none. *)
Definition new_stack : prog E Z := fun s =>
  match stack_alloc (dom (stacks s)) with
  | None => (inl 0, s)
  | Some a => (inl a, set_stacks (<[a := fresh_stack_clean]> (stacks s)) (cached_stacks s) s)
  end.

Definition alloc_thread_stack_node (tsk : Z) : prog E Z :=
  if config CONFIG_VMAP_STACK then
    let* o := alloc_cached tsk (seq 0 NR_CACHED_STACKS) in
    match o with
    | Some a => ret a
    | None =>
        let* stack := new_stack in
        when (nonzero stack)
          (wr tsk f_stack_vm_area stack ;;;
           wr tsk f_stack stack) ;;;
        ret stack
    end
  else
    let* stack := new_stack in
    when (nonzero stack) (wr tsk f_stack stack) ;;;
    ret stack.

(** task_stack_vm_area(tsk): NULL without virtually mapped stacks. *)
Definition task_stack_vm_area (tsk : Z) : prog E Z :=
  if config CONFIG_VMAP_STACK then rd tsk f_stack_vm_area else ret 0.

(** Give the memory of a stack back. *)
Definition drop_stack (a : Z) : prog E unit :=
  modify (fun s => set_stacks (delete a (stacks s)) (cached_stacks s) s).

Fixpoint free_to_cache (vm : Z) (slots : list nat) : prog E bool :=
  match slots with
  | [] => ret false
  | i :: slots' =>
      let* done := cmpxchg_cached i vm in
      if done then ret true else free_to_cache vm slots'
  end.

Definition free_thread_stack (tsk : Z) : prog E unit :=
  let* vm := task_stack_vm_area tsk in
  let* stack := rd tsk f_stack in
  if nonzero vm then
    xvoid "memcg_kmem_uncharge_page" ;;;
    let* done := free_to_cache vm (seq 0 NR_CACHED_STACKS) in
    if done then ret tt else drop_stack stack
  else drop_stack stack.

Definition account_kernel_stack (tsk : Z) : prog E unit := xvoid "mod_lruvec_page_state".

(** The loop of memcg_charge_kernel_stack over the THREAD_SIZE / PAGE_SIZE pages. *)
Fixpoint charge_pages (pages : list Z) : prog E Z :=
  match pages with
  | [] => ret 0
  | i :: pages' =>
      let* r := xcall_at "memcg_kmem_charge_page" i in
      if nonzero r then ret r else charge_pages pages'
  end.

Definition memcg_charge_kernel_stack (tsk : Z) : prog E Z :=
  if config CONFIG_VMAP_STACK then
    let* vm := task_stack_vm_area tsk in
    if nonzero vm then charge_pages (seqZ 0 (THREAD_SIZE / PAGE_SIZE)) else ret 0
  else ret 0.

Definition release_task_stack (tsk : Z) : prog E unit :=
  let* st := rd tsk f_task_state in
  if negb (st =? TASK_DEAD) then xvoid "WARN_ON"
  else
    account_kernel_stack tsk ;;;
    free_thread_stack tsk ;;;
    wr tsk f_stack 0 ;;;
    when (config CONFIG_VMAP_STACK) (wr tsk f_stack_vm_area 0).

(** put_task_stack is empty when the thread_info lives on the stack. *)
Definition put_task_stack (tsk : Z) : prog E unit :=
  if config CONFIG_THREAD_INFO_IN_TASK then
    let* last := dec_and_test tsk f_stack_refcount in
    when last (release_task_stack tsk)
  else ret tt.

(** ** Task structures *)

(** free_task_struct; the list heads embedded in the structure go with it. *)
Definition free_task_struct (tsk : Z) : prog E unit :=
  modify (fun s => set_lists (delete tsk (children s)) (delete tsk (thread_group s)) (thread_head s)
                     (tasks s) s) ;;;
  free_obj tsk.

Definition free_task (tsk : Z) : prog E unit :=
  xvoid "release_user_cpus_ptr" ;;;
  xvoid "scs_release" ;;;
  when (negb (config CONFIG_THREAD_INFO_IN_TASK)) (release_task_stack tsk) ;;;
  xvoid "rt_mutex_debug_task_free" ;;;
  xvoid "ftrace_graph_exit_task" ;;;
  xvoid "arch_release_task_struct" ;;;
  let* fl := rd tsk f_flags in
  when (has fl PF_KTHREAD) (xvoid "free_kthread_struct") ;;;
  xvoid "bpf_task_storage_free" ;;;
  free_task_struct tsk.

(** delayed_free_task: with memory cgroups the task is freed after a grace
    period of RCU, by __delayed_free_task. *)
Definition delayed_free_task (tsk : Z) : prog E unit :=
  if config CONFIG_MEMCG then modify (fun s => set_rcu (tsk :: rcu_queue s) s)
  else free_task tsk.

(** The default arch_dup_task_struct. *)
Definition arch_dup_task_struct (dst src : Z) : prog E Z := copy_obj dst src ;;; ret 0.

Definition STACK_END_MAGIC : Z := 1470918301.

Definition set_task_stack_end_magic (tsk : Z) : prog E unit :=
  let* stack := rd tsk f_stack in
  (* the word at the end of the stack: no longer all zero *)
  modify (fun s => set_stacks (alter (fun _ => false) stack (stacks s)) (cached_stacks s) s) ;;;
  wr tsk f_stackend_magic STACK_END_MAGIC.

(** The part of dup_task_struct after all that can fail. *)
Definition dup_task_finish (tsk orig : Z) : prog E unit :=
  when (config CONFIG_SECCOMP) (wr tsk f_seccomp_filter 0) ;;;
  xvoid "setup_thread_stack" ;;;
  xvoid "clear_user_return_notifier" ;;;
  xvoid "clear_tsk_need_resched" ;;;
  set_task_stack_end_magic tsk ;;;
  xvoid "clear_syscall_work_syscall_user_dispatch" ;;;
  when (config CONFIG_STACKPROTECTOR)
    (let* canary := xcall "get_random_canary" in wr tsk f_stack_canary canary) ;;;
  (* &task->cpus_mask is represented by the address of the task *)
  let* cpus := rd orig f_cpus_ptr in
  when (cpus =? orig) (wr tsk f_cpus_ptr tsk) ;;;
  xvoid "dup_user_cpus_ptr" ;;;
  wr tsk f_rcu_users 2 ;;;
  wr tsk f_usage 1 ;;;
  when (config CONFIG_BLK_DEV_IO_TRACE) (wr tsk f_btrace_seq 0) ;;;
  wr tsk f_splice_pipe 0 ;;;
  wr tsk f_task_frag_page 0 ;;;
  wr tsk f_wake_q_next 0 ;;;
  wr tsk f_pf_io_worker 0 ;;;
  account_kernel_stack tsk ;;;
  xvoid "kcov_task_init" ;;;
  xvoid "kmap_local_fork" ;;;
  when (config CONFIG_FAULT_INJECTION) (wr tsk f_fail_nth 0) ;;;
  when (config CONFIG_BLK_CGROUP) (wr tsk f_throttle_queue 0 ;;; wr tsk f_use_memdelay 0) ;;;
  when (config CONFIG_MEMCG) (wr tsk f_active_memcg 0).

(** dup_task_struct: the new task, or 0 (NULL). *)
Definition dup_task_struct (orig : Z) : prog E Z :=
  let* tsk := alloc_obj "task_struct" in
  if tsk =? 0 then ret 0
  else
    let* stack := alloc_thread_stack_node tsk in
    if stack =? 0 then free_task_struct tsk ;;; ret 0
    else
      let* err := memcg_charge_kernel_stack tsk in
      if nonzero err then free_thread_stack tsk ;;; free_task_struct tsk ;;; ret 0
      else
        let* stack_vm_area := task_stack_vm_area tsk in
        let* err := arch_dup_task_struct tsk orig in
        wr tsk f_stack stack ;;;
        when (config CONFIG_VMAP_STACK) (wr tsk f_stack_vm_area stack_vm_area) ;;;
        when (config CONFIG_THREAD_INFO_IN_TASK) (wr tsk f_stack_refcount 1) ;;;
        if nonzero err then free_thread_stack tsk ;;; free_task_struct tsk ;;; ret 0
        else
          let* err := xcall "scs_prepare" in
          if nonzero err then free_thread_stack tsk ;;; free_task_struct tsk ;;; ret 0
          else
            dup_task_finish tsk orig ;;;
            ret tsk.

End Task.
