(* ===== verification/ForkMm.v ===== *)
(** * Address spaces (kernel/fork.c)

    Creation, duplication and release of mm_struct: mm_init, dup_mmap, dup_mm,
    the reference counts mm_users and mm_count, the reference to the
    executable file, and what happens to a parent that waits in vfork. *)

From S2P Require Import Prelude KVStore TaskState ForkState.

Section Mm.
Context `{World}.
Context {E : Type}.
Variable current : Z.

(** A call outside fork.c on one object, which the trace records. *)
Definition xobj (name : string) (a : Z) : prog E unit :=
  fun s => (inl tt, set_trace ((name, a) :: trace s) s).

(** ** Reference counts *)

Definition free_mm (mm : Z) : prog E unit :=
  modify (fun s => set_vmas (delete mm (vmas s)) s) ;;;
  free_obj mm.

Definition mm_free_pgd (mm : Z) : prog E unit :=
  when (config CONFIG_MMU) (xobj "pgd_free" mm).

(** mm_alloc_pgd: -ENOMEM when there is no page directory. *)
Definition mm_alloc_pgd (mm : Z) : prog E Z :=
  if config CONFIG_MMU then
    let* pgd := xcall "pgd_alloc" in
    wr mm f_pgd pgd ;;;
    ret (if pgd =? 0 then - ENOMEM else 0)
  else ret 0.

(** check_mm: the counters it reports as bad, by name and value. *)
Definition resident_page_types : list string := ["MM_FILEPAGES"; "MM_ANONPAGES"; "MM_SWAPENTS"; "MM_SHMEMPAGES"].

Definition check_mm (rss_stat : list Z) (pgtables_bytes : Z) : list (string * Z) :=
  filter (fun e => nonzero (snd e)) (zip resident_page_types rss_stat) ++
  (if nonzero pgtables_bytes then [("pgtables_bytes", pgtables_bytes)] else []).

(** __mmdrop; check_mm only reports. *)
Definition mmdrop_final (mm : Z) : prog E unit :=
  mm_free_pgd mm ;;;
  xobj "destroy_context" mm ;;;
  xobj "mmu_notifier_subscriptions_destroy" mm ;;;
  let* ns := rd mm f_user_ns in
  xobj "put_user_ns" ns ;;;
  free_mm mm.

(** mmdrop: the structure itself goes with the last mm_count. *)
Definition mmdrop (mm : Z) : prog E unit :=
  let* last := dec_and_test mm f_mm_count in
  when last (mmdrop_final mm).

(** mmdrop_async: the same from a work queue. *)
Definition mmdrop_async (mm : Z) : prog E unit :=
  let* last := dec_and_test mm f_mm_count in
  when last (xobj "schedule_work(mmdrop)" mm).

(** set_mm_exe_file: 0, or -EACCES when the new file is open for writing. *)
Definition set_mm_exe_file (mm new_exe_file : Z) : prog E Z :=
  let* old_exe_file := rd mm f_exe_file in
  let* denied := if nonzero new_exe_file then xcall "deny_write_access" else ret 0 in
  if nonzero denied then ret (- EACCES)
  else
    when (nonzero new_exe_file) (xobj "get_file" new_exe_file) ;;;
    wr mm f_exe_file new_exe_file ;;;
    when (nonzero old_exe_file)
      (xobj "allow_write_access" old_exe_file ;;; xobj "fput" old_exe_file) ;;;
    ret 0.

(** __mmput, when the last user is gone: exit_mmap removes every area. *)
Definition mmput_final (mm : Z) : prog E unit :=
  xobj "uprobe_clear_state" mm ;;;
  xobj "exit_aio" mm ;;;
  xobj "ksm_exit" mm ;;;
  xobj "khugepaged_exit" mm ;;;
  xobj "exit_mmap" mm ;;;
  modify (fun s => set_vmas (<[mm := []]> (vmas s)) s) ;;;
  xobj "mm_put_huge_zero_page" mm ;;;
  let* _ := set_mm_exe_file mm 0 in
  let* binfmt := rd mm f_binfmt in
  when (nonzero binfmt) (xobj "module_put" binfmt) ;;;
  mmdrop mm.

Definition mmget (mm : Z) : prog E unit := inc mm f_mm_users.

Definition mmput (mm : Z) : prog E unit :=
  let* last := dec_and_test mm f_mm_users in
  when last (mmput_final mm).

Definition mmput_async (mm : Z) : prog E unit :=
  let* last := dec_and_test mm f_mm_users in
  when last (xobj "schedule_work(mmput)" mm).

(** ** A new mm_struct *)

Definition mm_init_owner (mm p : Z) : prog E unit := when (config CONFIG_MEMCG) (wr mm f_owner p).

Definition mm_clear_owner (mm p : Z) : prog E unit :=
  when (config CONFIG_MEMCG)
    (let* o := rd mm f_owner in when (o =? p) (wr mm f_owner 0)).

Definition mm_init_aio (mm : Z) : prog E unit := when (config CONFIG_AIO) (wr mm f_ioctx_table 0).

Definition INIT_PASID : Z := 0.

Definition mm_init_pasid (mm : Z) : prog E unit :=
  when (config CONFIG_IOMMU_SUPPORT) (wr mm f_pasid INIT_PASID).

Definition mm_init_uprobes_state (mm : Z) : prog E unit :=
  when (config CONFIG_UPROBES) (wr mm f_xol_area 0).

(** The masks and the default of mm->flags are defined outside fork.c. *)
Variables MMF_INIT_MASK VM_INIT_DEF_MASK default_dump_filter : Z.

(** mm_init: the mm, or 0 (NULL) with the memory freed. *)
Definition mm_init (mm p user_ns : Z) : prog E Z :=
  modify (fun s => set_vmas (<[mm := []]> (vmas s)) s) ;;;
  wr mm f_vmacache_seqnum 0 ;;;
  wr mm f_mm_users 1 ;;;
  wr mm f_mm_count 1 ;;;
  wr mm f_core_state 0 ;;;
  wr mm f_pgtables_bytes 0 ;;;
  wr mm f_map_count 0 ;;;
  wr mm f_locked_vm 0 ;;;
  wr mm f_pinned_vm 0 ;;;
  wr mm f_rss_stat 0 ;;;
  mm_init_aio mm ;;;
  mm_init_owner mm p ;;;
  mm_init_pasid mm ;;;
  wr mm f_exe_file 0 ;;;
  mm_init_uprobes_state mm ;;;
  let* cmm := rd current f_mm in
  (if nonzero cmm then
     let* fl := rd cmm f_mm_flags in
     let* df := rd cmm f_def_flags in
     wr mm f_mm_flags (Z.land fl MMF_INIT_MASK) ;;;
     wr mm f_def_flags (Z.land df VM_INIT_DEF_MASK)
   else
     wr mm f_mm_flags default_dump_filter ;;;
     wr mm f_def_flags 0) ;;;
  let* err := mm_alloc_pgd mm in
  if nonzero err then free_mm mm ;;; ret 0
  else
    let* err := xcall "init_new_context" in
    if nonzero err then mm_free_pgd mm ;;; free_mm mm ;;; ret 0
    else
      xobj "get_user_ns" user_ns ;;;
      wr mm f_user_ns user_ns ;;;
      ret mm.

Definition zero_obj : obj := fun _ => 0.

Definition mm_alloc : prog E Z :=
  let* mm := alloc_obj "mm_struct" in
  if mm =? 0 then ret 0
  else
    modify (fun s => set_heap (alter (fun _ => zero_obj) mm (heap s)) s) ;;;
    let* ns := xcall "current_user_ns" in
    mm_init mm current ns.

(** ** Copying the areas: dup_mmap *)

Definition vma_pages (v : vma) : Z := (v_end v - v_start v) / PAGE_SIZE.

(** [tmp->vm_flags &= ~(VM_LOCKED | VM_LOCKONFAULT)] *)
Definition unlocked_flags (fl : list vm_flag) : list vm_flag :=
  filter (fun f => f <> VM_LOCKED /\ f <> VM_LOCKONFAULT) fl.

(** vm_area_dup of the [i]-th area with the changes dup_mmap makes to it,
    before its pages are copied. *)
Definition dup_area (mm : Z) (mpnt : vma) : vma :=
  VmaR (v_start mpnt) (v_end mpnt) (unlocked_flags (v_flags mpnt)) (v_file mpnt) mm
    (if decide (VM_WIPEONFORK ∈ v_flags mpnt) then 0 else v_anon mpnt) ∅.

Definition set_pages (v : vma) (pages : gmap Z Z) : vma :=
  VmaR (v_start v) (v_end v) (v_flags v) (v_file v) (v_mm v) (v_anon v) pages.

(** Link a new area at the end of mm->mmap. *)
Definition link_vma (mm : Z) (v : vma) : prog E unit :=
  modify (fun s => set_vmas (<[mm := default [] (vmas s !! mm) ++ [v]]> (vmas s)) s) ;;;
  inc mm f_map_count.

(** One iteration of the loop: [Some r] leaves it with retval [r]. *)
Definition dup_one (mm i : Z) (mpnt : vma) : prog E (option Z) :=
  if decide (VM_DONTCOPY ∈ v_flags mpnt) then
    xobj "vm_stat_account" (- vma_pages mpnt) ;;; ret None
  else
    let* pending := xcall_at "fatal_signal_pending" i in
    if nonzero pending then ret (Some (- EINTR))
    else
      let account := bool_decide (VM_ACCOUNT ∈ v_flags mpnt) in
      let* err := if account then xcall_at "security_vm_enough_memory_mm" i else ret 0 in
      if nonzero err then xobj "vm_unacct_memory" 0 ;;; ret (Some (- ENOMEM))
      else
        let charge := if account then vma_pages mpnt else 0 in
        let* tmp := xcall_at "vm_area_dup" i in
        if tmp =? 0 then xobj "vm_unacct_memory" charge ;;; ret (Some (- ENOMEM))
        else
          let* err := xcall_at "vma_dup_policy" i in
          if nonzero err then
            xobj "vm_area_free" tmp ;;; xobj "vm_unacct_memory" charge ;;; ret (Some (- ENOMEM))
          else
            let* err := xcall_at "dup_userfaultfd" i in
            let wipe := bool_decide (VM_WIPEONFORK ∈ v_flags mpnt) in
            let* err' := if nonzero err || wipe then ret err else xcall_at "anon_vma_fork" i in
            if nonzero err' then
              xobj "mpol_put(vma_policy)" tmp ;;; xobj "vm_area_free" tmp ;;;
              xobj "vm_unacct_memory" charge ;;; ret (Some (- ENOMEM))
            else
              let area := dup_area mm mpnt in
              when (nonzero (v_file area))
                (xobj "get_file" (v_file area) ;;;
                 xobj "i_mmap_lock_write" (v_file area) ;;;
                 when (bool_decide (VM_SHARED ∈ v_flags area)) (xobj "mapping_allow_writable" (v_file area)) ;;;
                 xobj "vma_interval_tree_insert_after" tmp ;;;
                 xobj "i_mmap_unlock_write" (v_file area)) ;;;
              let* huge := xcall_at "is_vm_hugetlb_page" i in
              when (nonzero huge) (xobj "reset_vma_resv_huge_pages" tmp) ;;;
              let '(r, pages) := if wipe then (0, ∅) else copy_page_range i (v_pages mpnt) in
              link_vma mm (set_pages area pages) ;;;
              xobj "vm_ops->open" tmp ;;;
              ret (if nonzero r then Some r else None).

Fixpoint dup_areas (mm i : Z) (l : list vma) : prog E (option Z) :=
  match l with
  | [] => ret None
  | mpnt :: l' =>
      let* o := dup_one mm i mpnt in
      match o with Some r => ret (Some r) | None => dup_areas mm (i + 1) l' end
  end.

Definition get_mm_exe_file (mm : Z) : prog E Z :=
  let* exe_file := rd mm f_exe_file in
  if nonzero exe_file then
    let* got := xcall "get_file_rcu" in
    ret (if nonzero got then exe_file else 0)
  else ret 0.

Definition dup_mm_exe_file (mm oldmm : Z) : prog E unit :=
  let* exe_file := get_mm_exe_file oldmm in
  wr mm f_exe_file exe_file ;;;
  when (nonzero exe_file) (xobj "deny_write_access" exe_file).

Definition copy_field (dst src : Z) (f : field) : prog E unit := let* v := rd src f in wr dst f v.

Definition dup_mmap (mm oldmm : Z) : prog E Z :=
  if config CONFIG_MMU then
    xvoid "uprobe_start_dup_mmap" ;;;
    let* killed := xcall "mmap_write_lock_killable" in
    if nonzero killed then xvoid "uprobe_end_dup_mmap" ;;; ret (- EINTR)
    else
      xobj "flush_cache_dup_mm" oldmm ;;;
      xvoid "uprobe_dup_mmap" ;;;
      xobj "mmap_write_lock" mm ;;;
      dup_mm_exe_file mm oldmm ;;;
      copy_field mm oldmm f_total_vm ;;;
      copy_field mm oldmm f_data_vm ;;;
      copy_field mm oldmm f_exec_vm ;;;
      copy_field mm oldmm f_stack_vm ;;;
      let* r := xcall "ksm_fork" in
      let* r := if nonzero r then ret r else xcall "khugepaged_fork" in
      let* r :=
        if nonzero r then ret r
        else
          let* l := gets (fun s => default [] (vmas s !! oldmm)) in
          let* o := dup_areas mm 0 l in
          match o with Some r => ret r | None => xcall "arch_dup_mmap" end in
      xobj "mmap_write_unlock" mm ;;;
      xobj "flush_tlb_mm" oldmm ;;;
      xobj "mmap_write_unlock" oldmm ;;;
      xvoid "dup_userfaultfd_complete" ;;;
      xvoid "uprobe_end_dup_mmap" ;;;
      ret r
  else
    xobj "mmap_write_lock" oldmm ;;;
    dup_mm_exe_file mm oldmm ;;;
    xobj "mmap_write_unlock" oldmm ;;;
    ret 0.

(** dup_mm: the duplicated mm, or 0 (NULL). *)
Definition dup_mm (tsk oldmm : Z) : prog E Z :=
  let free_pt mm :=
    wr mm f_binfmt 0 ;;;
    mm_init_owner mm 0 ;;;
    mmput mm ;;;
    ret 0 in
  let* mm := alloc_obj "mm_struct" in
  if mm =? 0 then ret 0
  else
    copy_obj mm oldmm ;;;
    let* ns := rd mm f_user_ns in
    let* ok := mm_init mm tsk ns in
    if ok =? 0 then ret 0
    else
      let* err := dup_mmap mm oldmm in
      if nonzero err then free_pt mm
      else
        let* rss := xcall "get_mm_rss" in
        wr mm f_hiwater_rss rss ;;;
        let* total := rd mm f_total_vm in
        wr mm f_hiwater_vm total ;;;
        let* binfmt := rd mm f_binfmt in
        let* got := if nonzero binfmt then xcall "try_module_get" else ret 1 in
        if nonzero got then ret mm else free_pt mm.

(** ** Users of an mm *)

Definition get_task_mm (task : Z) : prog E Z :=
  let* mm := rd task f_mm in
  if nonzero mm then
    let* fl := rd task f_flags in
    if has fl PF_KTHREAD then ret 0 else mmget mm ;;; ret mm
  else ret 0.

(** mm_access: the mm, or an error pointer as a negative number. *)
Definition mm_access (task : Z) : prog E Z :=
  let* err := xcall "down_read_killable" in
  if nonzero err then ret err
  else
    let* mm := get_task_mm task in
    let* cmm := rd current f_mm in
    let* r :=
      if nonzero mm && negb (mm =? cmm) then
        let* may := xcall "ptrace_may_access" in
        if nonzero may then ret mm else mmput mm ;;; ret (- EACCES)
      else ret mm in
    xvoid "up_read" ;;;
    ret r.

Definition get_task_exe_file (task : Z) : prog E Z :=
  let* mm := rd task f_mm in
  if nonzero mm then
    let* fl := rd task f_flags in
    if has fl PF_KTHREAD then ret 0 else get_mm_exe_file mm
  else ret 0.

(** replace_mm_exe_file; [mapped] is whether some area maps the old file. *)
Definition replace_mm_exe_file (mapped : list vma -> Z -> bool) (mm new_exe_file : Z) : prog E Z :=
  let* old := get_mm_exe_file mm in
  let* busy :=
    if nonzero old then
      let* l := gets (fun s => default [] (vmas s !! mm)) in
      xobj "fput" old ;;;
      ret (mapped l old)
    else ret false in
  if busy then ret (- EBUSY)
  else
    let* err := xcall "deny_write_access" in
    if nonzero err then ret (- EACCES)
    else
      xobj "get_file" new_exe_file ;;;
      let* old := rd mm f_exe_file in
      wr mm f_exe_file new_exe_file ;;;
      when (nonzero old) (xobj "allow_write_access" old ;;; xobj "fput" old) ;;;
      ret 0.

(** ** vfork *)

Definition complete_vfork_done (tsk : Z) : prog E unit :=
  let* vfork := rd tsk f_vfork_done in
  when (nonzero vfork) (wr tsk f_vfork_done 0 ;;; xobj "complete" vfork).

(** wait_for_vfork_done: non-zero when a fatal signal ended the wait. *)
Definition wait_for_vfork_done (child vfork : Z) : prog E Z :=
  xvoid "freezer_do_not_count" ;;;
  xvoid "cgroup_enter_frozen" ;;;
  let* killed := xcall "wait_for_completion_killable" in
  xvoid "cgroup_leave_frozen" ;;;
  xvoid "freezer_count" ;;;
  when (nonzero killed) (wr child f_vfork_done 0) ;;;
  xobj "put_task_struct" child ;;;
  ret killed.

Definition SIGNAL_GROUP_COREDUMP : Z := 8.

Definition mm_release (tsk mm : Z) : prog E unit :=
  xobj "uprobe_free_utask" tsk ;;;
  xobj "deactivate_mm" mm ;;;
  let* tid := rd tsk f_clear_child_tid in
  when (nonzero tid)
    (let* sig := rd tsk f_signal in
     let* sfl := rd sig f_sig_flags in
     let* users := rd mm f_mm_users in
     when (negb (has sfl SIGNAL_GROUP_COREDUMP) && (1 <? users))
       (xobj "put_user(0)" tid ;;; xobj "do_futex(FUTEX_WAKE)" tid) ;;;
     wr tsk f_clear_child_tid 0) ;;;
  let* vfork := rd tsk f_vfork_done in
  when (nonzero vfork) (complete_vfork_done tsk).

Definition exit_mm_release (tsk mm : Z) : prog E unit :=
  xobj "futex_exit_release" tsk ;;;
  mm_release tsk mm.

Definition exec_mm_release (tsk mm : Z) : prog E unit :=
  xobj "futex_exec_release" tsk ;;;
  mm_release tsk mm.

End Mm.
