(* ===== verification/ForkArgs.v ===== *)
(** * Arguments of process creation (kernel/fork.c)

    The clone flags, struct kernel_clone_args, how fork, vfork, clone and
    kernel_thread fill it in, and the validation of clone3's arguments and of
    unshare's flags. *)

From S2P Require Import Prelude.

(** ** Clone flags, as in the clone(2) interface *)

Definition CSIGNAL : Z := 255.
Definition CLONE_NEWTIME : Z := 2 ^ 7.
Definition CLONE_VM : Z := 2 ^ 8.
Definition CLONE_FS : Z := 2 ^ 9.
Definition CLONE_FILES : Z := 2 ^ 10.
Definition CLONE_SIGHAND : Z := 2 ^ 11.
Definition CLONE_PIDFD : Z := 2 ^ 12.
Definition CLONE_PTRACE : Z := 2 ^ 13.
Definition CLONE_VFORK : Z := 2 ^ 14.
Definition CLONE_PARENT : Z := 2 ^ 15.
Definition CLONE_THREAD : Z := 2 ^ 16.
Definition CLONE_NEWNS : Z := 2 ^ 17.
Definition CLONE_SYSVSEM : Z := 2 ^ 18.
Definition CLONE_SETTLS : Z := 2 ^ 19.
Definition CLONE_PARENT_SETTID : Z := 2 ^ 20.
Definition CLONE_CHILD_CLEARTID : Z := 2 ^ 21.
Definition CLONE_DETACHED : Z := 2 ^ 22.
Definition CLONE_UNTRACED : Z := 2 ^ 23.
Definition CLONE_CHILD_SETTID : Z := 2 ^ 24.
Definition CLONE_NEWCGROUP : Z := 2 ^ 25.
Definition CLONE_NEWUTS : Z := 2 ^ 26.
Definition CLONE_NEWIPC : Z := 2 ^ 27.
Definition CLONE_NEWUSER : Z := 2 ^ 28.
Definition CLONE_NEWPID : Z := 2 ^ 29.
Definition CLONE_NEWNET : Z := 2 ^ 30.
Definition CLONE_IO : Z := 2 ^ 31.
Definition CLONE_CLEAR_SIGHAND : Z := 2 ^ 32.
Definition CLONE_INTO_CGROUP : Z := 2 ^ 33.
Definition CLONE_LEGACY_FLAGS : Z := 2 ^ 32 - 1.

Definition SIGCHLD : Z := 17.
Definition NSIG : Z := 64.
Definition MAX_PID_NS_LEVEL : Z := 32.
Definition INT_MAX : Z := 2 ^ 31 - 1.
Definition CLONE_ARGS_SIZE_VER0 : Z := 64.
Definition CLONE_ARGS_SIZE_VER1 : Z := 80.
Definition CLONE_ARGS_SIZE_VER2 : Z := 88.

(** Several flags at once. *)
Definition flags_of (l : list Z) : Z := foldr Z.lor 0 l.

(** [(flags & m) == m] *)
Definition has_all (flags m : Z) : bool := Z.land flags m =? m.

(** struct kernel_clone_args; pointers are addresses. *)
Record clone_args := CloneArgs {
  a_flags : Z;
  a_pidfd : Z;
  a_child_tid : Z;
  a_parent_tid : Z;
  a_exit_signal : Z;
  a_stack : Z;
  a_stack_size : Z;
  a_tls : Z;
  a_set_tid : list Z;
  a_set_tid_size : Z;
  a_cgroup : Z;
  a_io_thread : bool;
}.

Definition lower_32_bits (x : Z) : Z := u32 x.

(** ** The callers of kernel_clone and copy_process *)

Definition fork_idle_args : clone_args := CloneArgs CLONE_VM 0 0 0 0 0 0 0 [] 0 0 false.

Definition create_io_thread_args (fn arg : Z) : clone_args :=
  let flags := flags_of [CLONE_FS; CLONE_FILES; CLONE_SIGHAND; CLONE_THREAD; CLONE_IO] in
  CloneArgs (Z.ldiff (flags_of [lower_32_bits flags; CLONE_VM; CLONE_UNTRACED]) CSIGNAL)
    0 0 0 (Z.land (lower_32_bits flags) CSIGNAL) fn arg 0 [] 0 0 true.

Definition kernel_thread_args (fn arg flags : Z) : clone_args :=
  CloneArgs (Z.ldiff (flags_of [lower_32_bits flags; CLONE_VM; CLONE_UNTRACED]) CSIGNAL)
    0 0 0 (Z.land (lower_32_bits flags) CSIGNAL) fn arg 0 [] 0 0 false.

Definition fork_args : clone_args := CloneArgs 0 0 0 0 SIGCHLD 0 0 0 [] 0 0 false.

Definition vfork_args : clone_args :=
  CloneArgs (Z.lor CLONE_VFORK CLONE_VM) 0 0 0 SIGCHLD 0 0 0 [] 0 0 false.

Definition sys_clone_args (clone_flags newsp parent_tidptr child_tidptr tls : Z) : clone_args :=
  CloneArgs (Z.ldiff (lower_32_bits clone_flags) CSIGNAL) parent_tidptr child_tidptr parent_tidptr
    (Z.land (lower_32_bits clone_flags) CSIGNAL) newsp 0 tls [] 0 0 false.

(** ** clone3 *)

(** struct clone_args as user space passes it. *)
Record user_args := UserArgs {
  ua_flags : Z;
  ua_pidfd : Z;
  ua_child_tid : Z;
  ua_parent_tid : Z;
  ua_exit_signal : Z;
  ua_stack : Z;
  ua_stack_size : Z;
  ua_tls : Z;
  ua_set_tid : Z;
  ua_set_tid_size : Z;
  ua_cgroup : Z;
}.

Definition valid_signal (sig : Z) : bool := sig <=? NSIG.

Section Clone3.
(** copy_struct_from_user and copy_from_user: an errno, or what they read. *)
Variable copy_struct_from_user : Z -> Z -> user_args + Z.
Variable copy_from_user : Z -> Z -> option (list Z).
Variable access_ok : Z -> Z -> bool.

Definition copy_clone_args_from_user (uargs usize : Z) : clone_args + Z :=
  if PAGE_SIZE <? usize then inr (- E2BIG)
  else if usize <? CLONE_ARGS_SIZE_VER0 then inr (- EINVAL)
  else
    match copy_struct_from_user uargs usize with
    | inr err => inr err
    | inl args =>
        if MAX_PID_NS_LEVEL <? ua_set_tid_size args then inr (- EINVAL)
        else if (ua_set_tid args =? 0) && (0 <? ua_set_tid_size args) then inr (- EINVAL)
        else if nonzero (ua_set_tid args) && (ua_set_tid_size args =? 0) then inr (- EINVAL)
        else if nonzero (Z.ldiff (ua_exit_signal args) CSIGNAL) ||
                negb (valid_signal (ua_exit_signal args)) then inr (- EINVAL)
        else if has (ua_flags args) CLONE_INTO_CGROUP &&
                ((INT_MAX <? ua_cgroup args) || (usize <? CLONE_ARGS_SIZE_VER2)) then inr (- EINVAL)
        else
          let kargs set_tid :=
            CloneArgs (ua_flags args) (ua_pidfd args) (ua_child_tid args) (ua_parent_tid args)
              (ua_exit_signal args) (ua_stack args) (ua_stack_size args) (ua_tls args)
              set_tid (ua_set_tid_size args) (ua_cgroup args) false in
          if nonzero (ua_set_tid args) then
            match copy_from_user (ua_set_tid args) (ua_set_tid_size args * 4) with
            | None => inr (- EFAULT)
            | Some set_tid => inl (kargs set_tid)
            end
          else inl (kargs [])
    end.

Definition set_stack (a : clone_args) (stack : Z) : clone_args :=
  CloneArgs (a_flags a) (a_pidfd a) (a_child_tid a) (a_parent_tid a) (a_exit_signal a) stack
    (a_stack_size a) (a_tls a) (a_set_tid a) (a_set_tid_size a) (a_cgroup a) (a_io_thread a).

(** clone3_stack_valid: the arguments with the stack pointer moved to the top,
    or None when the stack is refused. *)
Definition clone3_stack_valid (kargs : clone_args) : option clone_args :=
  if a_stack kargs =? 0 then
    if 0 <? a_stack_size kargs then None else Some kargs
  else if a_stack_size kargs =? 0 then None
  else if negb (access_ok (a_stack kargs) (a_stack_size kargs)) then None
  else Some (set_stack kargs (u64 (a_stack kargs + a_stack_size kargs))).

Definition clone3_args_valid (kargs : clone_args) : option clone_args :=
  if nonzero (Z.ldiff (a_flags kargs)
       (flags_of [CLONE_LEGACY_FLAGS; CLONE_CLEAR_SIGHAND; CLONE_INTO_CGROUP])) then None
  else if has (a_flags kargs) (Z.lor CLONE_DETACHED (Z.ldiff CSIGNAL CLONE_NEWTIME)) then None
  else if has_all (a_flags kargs) (Z.lor CLONE_SIGHAND CLONE_CLEAR_SIGHAND) then None
  else if has (a_flags kargs) (Z.lor CLONE_THREAD CLONE_PARENT) && nonzero (a_exit_signal kargs)
  then None
  else clone3_stack_valid kargs.

(** The checks of clone3 before it calls kernel_clone. *)
Definition clone3_args (uargs usize : Z) : clone_args + Z :=
  match copy_clone_args_from_user uargs usize with
  | inr err => inr err
  | inl kargs =>
      match clone3_args_valid kargs with
      | None => inr (- EINVAL)
      | Some kargs' => inl kargs'
      end
  end.

End Clone3.

(** ** The flags of copy_process *)

(** The checks at its head: what they read of current is an argument. *)
Definition copy_process_flags (clone_flags : Z) (signal_unkillable pid_ns_differs time_ns_differs : bool)
  : Z :=
  if has_all clone_flags (Z.lor CLONE_NEWNS CLONE_FS) then - EINVAL
  else if has_all clone_flags (Z.lor CLONE_NEWUSER CLONE_FS) then - EINVAL
  else if has clone_flags CLONE_THREAD && negb (has clone_flags CLONE_SIGHAND) then - EINVAL
  else if has clone_flags CLONE_SIGHAND && negb (has clone_flags CLONE_VM) then - EINVAL
  else if has clone_flags CLONE_PARENT && signal_unkillable then - EINVAL
  else if has clone_flags CLONE_THREAD &&
          (has clone_flags (Z.lor CLONE_NEWUSER CLONE_NEWPID) || pid_ns_differs) then - EINVAL
  else if has clone_flags (Z.lor CLONE_THREAD CLONE_VM) && time_ns_differs then - EINVAL
  else if has clone_flags CLONE_PIDFD && has clone_flags (Z.lor CLONE_DETACHED CLONE_THREAD)
  then - EINVAL
  else 0.

(** ** unshare *)

(** The flags ksys_unshare adds. *)
Definition unshare_closure (unshare_flags : Z) : Z :=
  let f := unshare_flags in
  let f := if has f CLONE_NEWUSER then flags_of [f; CLONE_THREAD; CLONE_FS] else f in
  let f := if has f CLONE_VM then Z.lor f CLONE_SIGHAND else f in
  let f := if has f CLONE_SIGHAND then Z.lor f CLONE_THREAD else f in
  if has f CLONE_NEWNS then Z.lor f CLONE_FS else f.

Definition UNSHARE_FLAGS : Z :=
  flags_of [CLONE_THREAD; CLONE_FS; CLONE_NEWNS; CLONE_SIGHAND; CLONE_VM; CLONE_FILES; CLONE_SYSVSEM;
            CLONE_NEWUTS; CLONE_NEWIPC; CLONE_NEWNET; CLONE_NEWUSER; CLONE_NEWPID; CLONE_NEWCGROUP;
            CLONE_NEWTIME].

Definition check_unshare_flags (thread_group_empty single_threaded : bool) (sighand_count : Z)
  (unshare_flags : Z) : Z :=
  if nonzero (Z.ldiff unshare_flags UNSHARE_FLAGS) then - EINVAL
  else if has unshare_flags (flags_of [CLONE_THREAD; CLONE_SIGHAND; CLONE_VM]) &&
          negb thread_group_empty then - EINVAL
  else if has unshare_flags (Z.lor CLONE_SIGHAND CLONE_VM) && (1 <? sighand_count) then - EINVAL
  else if has unshare_flags CLONE_VM && negb single_threaded then - EINVAL
  else 0.
