(* ===== verification/ForkCopy.v ===== *)
(** * Copying a process (kernel/fork.c)

    The functions that copy or share one resource of a process (copy_fs,
    copy_files, copy_io, copy_sighand, copy_signal, copy_mm), copy_process in
    the phases of its text with the chain of cleanup labels, and the functions
    built on it (kernel_clone and its callers). *)

From S2P Require Import Prelude KVStore TaskState ForkState ForkTask ForkMm ForkArgs.

(** ** Where copy_process goes when a step fails *)

Inductive label :=
| fork_out | bad_fork_free | bad_fork_cleanup_count | bad_fork_cleanup_threadgroup_lock
| bad_fork_cleanup_policy | bad_fork_cleanup_perf | bad_fork_cleanup_audit
| bad_fork_cleanup_security | bad_fork_cleanup_semundo | bad_fork_cleanup_files
| bad_fork_cleanup_fs | bad_fork_cleanup_sighand | bad_fork_cleanup_signal | bad_fork_cleanup_mm
| bad_fork_cleanup_namespaces | bad_fork_cleanup_io | bad_fork_cleanup_thread
| bad_fork_free_pid | bad_fork_put_pidfd | bad_fork_cancel_cgroup.

(** The local variables the cleanup code uses. *)
Record locals := Locals { l_p : Z; l_pid : Z; l_pidfd : Z; l_pidfile : Z }.

(** A jump: the label, the value of retval and the local variables. *)
Record jump := Jump { j_label : label; j_retval : Z; j_locals : locals }.

Definition goto {A} (l : label) (retval : Z) (v : locals) : prog jump A := throw (Jump l retval v).

(** [if (retval) goto l;] *)
Definition check (retval : Z) (l : label) (v : locals) : prog jump unit :=
  if nonzero retval then goto l retval v else ret tt.

(** [if (retval < 0) goto l;] *)
Definition check_neg (retval : Z) (l : label) (v : locals) : prog jump unit :=
  if retval <? 0 then goto l retval v else ret tt.

Section Copy.
Context `{World}.
Variable current : Z.
Variables MMF_INIT_MASK VM_INIT_DEF_MASK default_dump_filter : Z.

Section CopyOne.
Context {E : Type}.

(** Run a heap transformer of another file. *)
Definition run_heap (g : gmap Z obj -> gmap Z obj) : prog E unit :=
  modify (fun s => set_heap (g (heap s)) s).
Definition run_alloc (g : gmap Z obj -> Z * gmap Z obj) : prog E Z :=
  fun s => (inl (fst (g (heap s))), set_heap (snd (g (heap s))) s).

Definition copy_mm (clone_flags tsk : Z) : prog E Z :=
  wr tsk f_min_flt 0 ;;; wr tsk f_maj_flt 0 ;;;
  wr tsk f_nvcsw 0 ;;; wr tsk f_nivcsw 0 ;;;
  when (config CONFIG_DETECT_HUNG_TASK)
    (wr tsk f_last_switch_count 0 ;;; wr tsk f_last_switch_time 0) ;;;
  wr tsk f_mm 0 ;;;
  wr tsk f_active_mm 0 ;;;
  let* oldmm := rd current f_mm in
  if oldmm =? 0 then ret 0
  else
    xvoid "vmacache_flush" ;;;
    if has clone_flags CLONE_VM then
      mmget oldmm ;;;
      wr tsk f_mm oldmm ;;;
      wr tsk f_active_mm oldmm ;;;
      ret 0
    else
      let* mm := dup_mm current MMF_INIT_MASK VM_INIT_DEF_MASK default_dump_filter tsk oldmm in
      if mm =? 0 then ret (- ENOMEM)
      else
        wr tsk f_mm mm ;;;
        wr tsk f_active_mm mm ;;;
        ret 0.

Definition copy_fs (clone_flags tsk : Z) : prog E Z :=
  let* fs := rd current f_fs in
  if has clone_flags CLONE_FS then
    let* in_exec := rd fs f_in_exec in
    if nonzero in_exec then ret (- EAGAIN)
    else inc fs f_users ;;; ret 0
  else
    let* new := run_alloc (copy_fs_struct fs) in
    wr tsk f_fs new ;;;
    ret (if new =? 0 then - ENOMEM else 0).

Definition copy_files (clone_flags tsk : Z) : prog E Z :=
  let* oldf := rd current f_files in
  if oldf =? 0 then ret 0
  else if has clone_flags CLONE_FILES then inc oldf f_files_count ;;; ret 0
  else
    let* newf := run_alloc (dup_fd oldf) in
    if newf <? 0 then ret newf
    else wr tsk f_files newf ;;; ret 0.

Definition copy_io (clone_flags tsk : Z) : prog E Z :=
  if config CONFIG_BLOCK then
    let* ioc := rd current f_io_context in
    if ioc =? 0 then ret 0
    else if has clone_flags CLONE_IO then
      xobj "ioc_task_link" ioc ;;;
      wr tsk f_io_context ioc ;;;
      ret 0
    else
      let* valid := xcall "ioprio_valid" in
      if nonzero valid then
        let* new_ioc := xcall "get_task_io_context" in
        if new_ioc =? 0 then ret (- ENOMEM)
        else
          wr tsk f_io_context new_ioc ;;;
          xobj "new_ioc->ioprio = ioc->ioprio" new_ioc ;;;
          xobj "put_io_context" new_ioc ;;;
          ret 0
      else ret 0
  else ret 0.

Definition copy_sighand (clone_flags tsk : Z) : prog E Z :=
  let* cur_sighand := rd current f_sighand in
  if has clone_flags CLONE_SIGHAND then inc cur_sighand f_sig_count ;;; ret 0
  else
    let* sig := alloc_obj "sighand_cache" in
    wr tsk f_sighand sig ;;;
    if sig =? 0 then ret (- ENOMEM)
    else
      wr sig f_sig_count 1 ;;;
      let* action := rd cur_sighand f_action in
      wr sig f_action action ;;;
      when (has clone_flags CLONE_CLEAR_SIGHAND) (xobj "flush_signal_handlers" tsk) ;;;
      ret 0.

(** __cleanup_sighand *)
Definition cleanup_sighand (sighand : Z) : prog E unit :=
  let* last := dec_and_test sighand f_sig_count in
  when last (xobj "signalfd_cleanup" sighand ;;; free_obj sighand).

Definition posix_cpu_timers_init_group (sig : Z) : prog E unit := xobj "posix_cputimers_group_init" sig.

Definition copy_signal (clone_flags tsk : Z) : prog E Z :=
  if has clone_flags CLONE_THREAD then ret 0
  else
    let* sig := alloc_obj "signal_cache" in
    wr tsk f_signal sig ;;;
    if sig =? 0 then ret (- ENOMEM)
    else
      (* kmem_cache_zalloc *)
      modify (fun s => set_heap (alter (fun _ => zero_obj) sig (heap s)) s) ;;;
      wr sig f_sig_nr_threads 1 ;;;
      wr sig f_live 1 ;;;
      wr sig f_sigcnt 1 ;;;
      modify (fun s => set_lists (children s) (thread_group s) (<[sig := [tsk]]> (thread_head s)) (tasks s) s) ;;;
      wr sig f_curr_target tsk ;;;
      wr sig f_shared_pending 0 ;;;
      modify (fun s => set_multiprocess (<[sig := 0%nat]> (multiprocess s)) s) ;;;
      when (config CONFIG_POSIX_TIMERS) (xobj "hrtimer_init" sig) ;;;
      let* cur_signal := rd current f_signal in
      let* rlim := rd cur_signal f_rlim in
      wr sig f_rlim rlim ;;;
      posix_cpu_timers_init_group sig ;;;
      xobj "tty_audit_fork" sig ;;;
      xobj "sched_autogroup_fork" sig ;;;
      copy_field sig cur_signal f_oom_score_adj ;;;
      copy_field sig cur_signal f_oom_score_adj_min ;;;
      ret 0.

Definition free_signal_struct (sig : Z) : prog E unit :=
  xobj "taskstats_tgid_free" sig ;;;
  xobj "sched_autogroup_exit" sig ;;;
  let* oom_mm := rd sig f_oom_mm in
  when (nonzero oom_mm) (mmdrop_async oom_mm) ;;;
  modify (fun s => set_lists (children s) (thread_group s) (delete sig (thread_head s)) (tasks s) s) ;;;
  modify (fun s => set_multiprocess (delete sig (multiprocess s)) s) ;;;
  free_obj sig.

Definition put_signal_struct (sig : Z) : prog E unit :=
  let* last := dec_and_test sig f_sigcnt in
  when last (free_signal_struct sig).

(** __put_task_struct: the last reference to a dead task. *)
Definition put_task_struct_final (tsk : Z) : prog E unit :=
  xobj "io_uring_free" tsk ;;;
  xobj "cgroup_free" tsk ;;;
  xobj "task_numa_free" tsk ;;;
  xobj "security_task_free" tsk ;;;
  xobj "exit_creds" tsk ;;;
  xobj "delayacct_tsk_free" tsk ;;;
  let* sig := rd tsk f_signal in
  put_signal_struct sig ;;;
  xobj "sched_core_free" tsk ;;;
  let* handed := xcall "profile_handoff_task" in
  when (negb (nonzero handed)) (free_task tsk).

Definition SECCOMP_MODE_DISABLED : Z := 0.

Definition copy_seccomp (p : Z) : prog E unit :=
  when (config CONFIG_SECCOMP)
    (xobj "get_seccomp_filter" current ;;;
     copy_field p current f_seccomp_filter ;;;
     copy_field p current f_seccomp_mode ;;;
     let* nnp := rd current f_no_new_privs in
     when (nonzero nnp) (wr p f_no_new_privs 1) ;;;
     let* mode := rd p f_seccomp_mode in
     when (negb (mode =? SECCOMP_MODE_DISABLED)) (wr p f_syscall_work_seccomp 1)).

Definition set_tid_address (tidptr : Z) : prog E Z :=
  wr current f_clear_child_tid tidptr ;;;
  xcall "task_pid_vnr".

Definition rt_mutex_init_task (p : Z) : prog E unit :=
  when (config CONFIG_RT_MUTEXES)
    (wr p f_pi_waiters 0 ;;; wr p f_pi_top_task 0 ;;; wr p f_pi_blocked_on 0).

Inductive pid_type := PIDTYPE_PID | PIDTYPE_TGID | PIDTYPE_PGID | PIDTYPE_SID.

Definition init_task_pid (task : Z) (type : pid_type) (pid : Z) : prog E unit :=
  let* sig := rd task f_signal in
  match type with
  | PIDTYPE_PID => wr task f_thread_pid pid
  | PIDTYPE_TGID => wr sig f_pids_TGID pid
  | PIDTYPE_PGID => wr sig f_pids_PGID pid
  | PIDTYPE_SID => wr sig f_pids_SID pid
  end.

Definition rcu_copy_process (p : Z) : prog E unit :=
  when (config CONFIG_PREEMPT_RCU)
    (wr p f_rcu_read_lock_nesting 0 ;;; wr p f_rcu_read_unlock_special 0 ;;;
     wr p f_rcu_blocked_node 0) ;;;
  when (config CONFIG_TASKS_RCU)
    (wr p f_rcu_tasks_holdout 0 ;;; wr p f_rcu_tasks_idle_cpu (-1)) ;;;
  when (config CONFIG_TASKS_TRACE_RCU)
    (wr p f_trc_reader_nesting 0 ;;; wr p f_trc_reader_special 0).

Definition MMF_MULTIPROCESS : Z := 2 ^ 27.

Definition copy_oom_score_adj (clone_flags tsk : Z) : prog E unit :=
  let* mm := rd tsk f_mm in
  when (nonzero mm)
    (when (Z.land clone_flags (flags_of [CLONE_VM; CLONE_THREAD; CLONE_VFORK]) =? CLONE_VM)
       (let* fl := rd mm f_mm_flags in
        wr mm f_mm_flags (Z.lor fl MMF_MULTIPROCESS) ;;;
        let* sig := rd tsk f_signal in
        let* csig := rd current f_signal in
        copy_field sig csig f_oom_score_adj ;;;
        copy_field sig csig f_oom_score_adj_min)).

(** rseq_fork of include/linux/sched.h *)
Definition rseq_fork (t clone_flags : Z) : prog E unit :=
  if has clone_flags CLONE_VM then
    wr t f_rseq 0 ;;; wr t f_rseq_sig 0 ;;; wr t f_rseq_event_mask 0
  else
    copy_field t current f_rseq ;;;
    copy_field t current f_rseq_sig ;;;
    copy_field t current f_rseq_event_mask.

End CopyOne.

(** ** copy_process

    The arguments of copy_process; [pid] is NULL (0) except for the idle
    tasks, which pass &init_struct_pid. *)
Variable init_struct_pid : Z.
Variables (pid0 : Z) (tracing : bool) (args : clone_args).

Definition clone_flags : Z := a_flags args.

Definition SIGNAL_UNKILLABLE : Z := 64.
Definition PIDNS_ADDING : Z := 2 ^ 31.

(** The checks of the flags against the current task. *)
Definition copy_process_check : prog jump Z :=
  let* sig := rd current f_signal in
  let* sfl := rd sig f_sig_flags in
  let* nsp := rd current f_nsproxy in
  let active := ext "task_active_pid_ns" in
  let* pid_ns := rd nsp f_pid_ns_for_children in
  let* tns := rd nsp f_time_ns in
  let* tnsc := rd nsp f_time_ns_for_children in
  ret (copy_process_flags clone_flags (has sfl SIGNAL_UNKILLABLE) (negb (active =? pid_ns))
         (negb (tns =? tnsc))).

(** delayed.node on current->signal->multiprocess *)
Definition link_delayed : prog jump unit :=
  let* sig := rd current f_signal in
  modify (fun s => set_multiprocess (alter S sig (multiprocess s)) s).
Definition unlink_delayed {E} : prog E unit :=
  let* sig := rd current f_signal in
  modify (fun s => set_multiprocess (alter Nat.pred sig (multiprocess s)) s).

(** Lines up to the initialisation of the child-tid pointers. *)
Definition copy_process_dup : prog jump Z :=
  let v := Locals 0 pid0 (-1) 0 in
  when (negb (has clone_flags CLONE_THREAD)) link_delayed ;;;
  xvoid "recalc_sigpending" ;;;
  let* pending := xcall "task_sigpending" in
  when (nonzero pending) (goto fork_out (- ERESTARTNOINTR) v) ;;;
  let* p := dup_task_struct current in
  when (p =? 0) (goto fork_out (- ENOMEM) v) ;;;
  when (a_io_thread args)
    (let* fl := rd p f_flags in
     wr p f_flags (set_flags fl PF_IO_WORKER) ;;;
     let* mask := xcall "siginitsetinv" in wr p f_blocked mask) ;;;
  wr p f_set_child_tid (if has clone_flags CLONE_CHILD_SETTID then a_child_tid args else 0) ;;;
  wr p f_clear_child_tid (if has clone_flags CLONE_CHILD_CLEARTID then a_child_tid args else 0) ;;;
  ret p.

(** Credentials, the limits on processes and threads. *)
Definition copy_process_limits (p : Z) : prog jump unit :=
  let v := Locals p pid0 (-1) 0 in
  xobj "ftrace_graph_init_task" p ;;;
  rt_mutex_init_task p ;;;
  let* retval := xcall "copy_creds" in
  check_neg retval bad_fork_free v ;;;
  let* over := xcall "is_ucounts_overlimit" in
  when (nonzero over)
    (let* user := xcall "p->real_cred->user != INIT_USER" in
     when (nonzero user)
       (let* resource := xcall "capable(CAP_SYS_RESOURCE)" in
        when (negb (nonzero resource))
          (let* admin := xcall "capable(CAP_SYS_ADMIN)" in
           when (negb (nonzero admin)) (goto bad_fork_cleanup_count (- EAGAIN) v)))) ;;;
  let* cfl := rd current f_flags in
  wr current f_flags (clear_flags cfl PF_NPROC_EXCEEDED) ;;;
  let* full := gets (fun s => max_threads s <=? nr_threads s) in
  when full (goto bad_fork_cleanup_count (- EAGAIN) v).

(** The fields of the child that start afresh. *)
Definition copy_process_init (p : Z) : prog jump unit :=
  let v := Locals p pid0 (-1) 0 in
  xobj "delayacct_tsk_init" p ;;;
  let* fl := rd p f_flags in
  wr p f_flags (set_flags
    (clear_flags fl (flags_of [PF_SUPERPRIV; PF_WQ_WORKER; PF_IDLE; PF_NO_SETAFFINITY]))
    PF_FORKNOEXEC) ;;;
  modify (fun s => set_lists (<[p := []]> (children s)) (thread_group s) (thread_head s) (tasks s) s) ;;;
  rcu_copy_process p ;;;
  wr p f_vfork_done 0 ;;;
  wr p f_utime 0 ;;; wr p f_stime 0 ;;; wr p f_gtime 0 ;;;
  when (config CONFIG_ARCH_HAS_SCALED_CPUTIME) (wr p f_utimescaled 0 ;;; wr p f_stimescaled 0) ;;;
  when (config CONFIG_VIRT_CPU_ACCOUNTING_GEN) (wr p f_vtime_starttime 0 ;;; wr p f_vtime_state 0) ;;;
  when (config CONFIG_IO_URING) (wr p f_io_uring 0) ;;;
  let* slack := rd current f_timer_slack_ns in
  wr p f_default_timer_slack_ns slack ;;;
  when (config CONFIG_PSI) (wr p f_psi_flags 0) ;;;
  xobj "posix_cputimers_init" p ;;;
  wr p f_io_context 0 ;;;
  xobj "cgroup_fork" p ;;;
  when (config CONFIG_NUMA)
    (let* pol := xcall "mpol_dup" in
     when (pol <? 0) (wr p f_mempolicy 0 ;;; goto bad_fork_cleanup_threadgroup_lock pol v) ;;;
     wr p f_mempolicy pol) ;;;
  when (config CONFIG_CPUSETS)
    (wr p f_cpuset_mem_spread_rotor (-1) ;;; wr p f_cpuset_slab_spread_rotor (-1)) ;;;
  when (config CONFIG_TRACE_IRQFLAGS)
    (wr p f_irqtrace 0 ;;; wr p f_softirqs_enabled 1 ;;; wr p f_softirq_context 0) ;;;
  wr p f_pagefault_disabled 0 ;;;
  when (config CONFIG_LOCKDEP) (xobj "lockdep_init_task" p) ;;;
  when (config CONFIG_DEBUG_MUTEXES) (wr p f_blocked_on 0) ;;;
  when (config CONFIG_BCACHE) (wr p f_sequential_io 0 ;;; wr p f_sequential_io_avg 0) ;;;
  when (config CONFIG_BPF_SYSCALL) (wr p f_bpf_storage 0 ;;; wr p f_bpf_ctx 0).

(** The resources, each copied or shared. *)
Definition copy_process_resources (p : Z) : prog jump unit :=
  let v := Locals p pid0 (-1) 0 in
  let* r := xcall "sched_fork" in check r bad_fork_cleanup_policy v ;;;
  let* r := xcall "perf_event_init_task" in check r bad_fork_cleanup_policy v ;;;
  let* r := xcall "audit_alloc" in check r bad_fork_cleanup_perf v ;;;
  xobj "shm_init_task" p ;;;
  let* r := xcall "security_task_alloc" in check r bad_fork_cleanup_audit v ;;;
  let* r := xcall "copy_semundo" in check r bad_fork_cleanup_security v ;;;
  let* r := copy_files clone_flags p in check r bad_fork_cleanup_semundo v ;;;
  let* r := copy_fs clone_flags p in check r bad_fork_cleanup_files v ;;;
  let* r := copy_sighand clone_flags p in check r bad_fork_cleanup_fs v ;;;
  let* r := copy_signal clone_flags p in check r bad_fork_cleanup_sighand v ;;;
  let* r := copy_mm clone_flags p in check r bad_fork_cleanup_signal v ;;;
  let* r := xcall "copy_namespaces" in check r bad_fork_cleanup_mm v ;;;
  let* r := copy_io clone_flags p in check r bad_fork_cleanup_namespaces v ;;;
  let* r := xcall "copy_thread" in check r bad_fork_cleanup_io v ;;;
  xobj "stackleak_task_init" p.

(** The pid and, with CLONE_PIDFD, the file descriptor for it. *)
Definition copy_process_pid (p : Z) : prog jump locals :=
  let* pid :=
    if negb (pid0 =? init_struct_pid) then
      let* pid := xcall "alloc_pid" in
      check_neg pid bad_fork_cleanup_thread (Locals p pid0 (-1) 0) ;;;
      ret pid
    else ret pid0 in
  if has clone_flags CLONE_PIDFD then
    let* pidfd := xcall "get_unused_fd_flags" in
    check_neg pidfd bad_fork_free_pid (Locals p pid (-1) 0) ;;;
    let* pidfile := xcall "anon_inode_getfile" in
    (if pidfile <? 0 then
       xobj "put_unused_fd" pidfd ;;;
       goto bad_fork_free_pid pidfile (Locals p pid pidfd 0)
     else ret tt) ;;;
    xobj "get_pid" pid ;;;
    let* r := xcall "put_user(pidfd)" in
    check r bad_fork_put_pidfd (Locals p pid pidfd pidfile) ;;;
    ret (Locals p pid pidfd pidfile)
  else ret (Locals p pid (-1) 0).

(** The key-value store: shared by threads, new for a process.  The result of
    init_task_kv_store is not looked at. *)
Definition copy_process_kv (p : Z) : prog jump unit :=
  if has clone_flags CLONE_THREAD then
    let* kv := rd current f_kv in
    wr p f_kv kv
  else
    fun s =>
      let t := KvTask (fld s p f_pid) (fld s p f_tgid) (fld s p f_kv) in
      let '(_, t', m) := init_task_kv_store kmalloc kv_garbage t (kvs s) in
      wr p f_kv (t_kv t') (set_kvs m s).

(** The identity of the child and the check of the cgroup. *)
Definition copy_process_ids (v : locals) : prog jump unit :=
  let p := l_p v in
  when (Z.land clone_flags (Z.lor CLONE_VM CLONE_VFORK) =? CLONE_VM) (xobj "sas_ss_reset" p) ;;;
  xobj "user_disable_single_step" p ;;;
  xobj "clear_task_syscall_work" p ;;;
  xobj "clear_tsk_latency_tracing" p ;;;
  let* nr := xcall "pid_nr" in
  wr p f_pid nr ;;;
  (if has clone_flags CLONE_THREAD then
     copy_field p current f_group_leader ;;;
     copy_field p current f_tgid
   else
     wr p f_group_leader p ;;;
     wr p f_tgid nr) ;;;
  wr p f_nr_dirtied 0 ;;;
  wr p f_nr_dirtied_pause (Z.shiftr 128 (PAGE_SHIFT - 10)) ;;;
  wr p f_dirty_paused_when 0 ;;;
  wr p f_pdeath_signal 0 ;;;
  modify (fun s => set_lists (children s) (<[p := []]> (thread_group s)) (thread_head s) (tasks s) s) ;;;
  wr p f_task_works 0 ;;;
  xobj "clear_posix_cputimers_work" p ;;;
  when (config CONFIG_KRETPROBES) (wr p f_kretprobe_instances 0) ;;;
  let* r := xcall "cgroup_can_fork" in
  check r bad_fork_put_pidfd v ;;;
  xobj "sched_cgroup_fork" p ;;;
  let* now := xcall "ktime_get_ns" in
  wr p f_start_time now ;;;
  let* boot := xcall "ktime_get_boottime_ns" in
  wr p f_start_boottime boot.

(** Under the tasklist lock: the parent, and the last reasons to give up. *)
Definition copy_process_parent (v : locals) : prog jump unit :=
  let p := l_p v in
  xvoid "write_lock_irq(tasklist_lock)" ;;;
  (if has clone_flags (Z.lor CLONE_PARENT CLONE_THREAD) then
     copy_field p current f_real_parent ;;;
     copy_field p current f_parent_exec_id ;;;
     if has clone_flags CLONE_THREAD then wr p f_exit_signal (-1)
     else
       let* leader := rd current f_group_leader in
       copy_field p leader f_exit_signal
   else
     wr p f_real_parent current ;;;
     let* id := rd current f_self_exec_id in
     wr p f_parent_exec_id id ;;;
     wr p f_exit_signal (a_exit_signal args)) ;;;
  xobj "klp_copy_process" p ;;;
  xobj "sched_core_fork" p ;;;
  xvoid "spin_lock(siglock)" ;;;
  rseq_fork p clone_flags ;;;
  let* allocated := xcall "ns_of_pid(pid)->pid_allocated" in
  when (negb (has allocated PIDNS_ADDING)) (goto bad_fork_cancel_cgroup (- ENOMEM) v) ;;;
  let* fatal := xcall "fatal_signal_pending" in
  when (nonzero fatal) (goto bad_fork_cancel_cgroup (- EINTR) v).

(** A new thread group: pids, signal state and the process tree. *)
Definition attach_process {E} (p pid : Z) : prog E unit :=
  init_task_pid p PIDTYPE_TGID pid ;;;
  let* pgrp := xcall "task_pgrp" in init_task_pid p PIDTYPE_PGID pgrp ;;;
  let* session := xcall "task_session" in init_task_pid p PIDTYPE_SID session ;;;
  let* sig := rd p f_signal in
  let* reaper := xcall "is_child_reaper" in
  when (nonzero reaper)
    (xobj "ns_of_pid(pid)->child_reaper = p" p ;;;
     let* fl := rd sig f_sig_flags in
     wr sig f_sig_flags (set_flags fl SIGNAL_UNKILLABLE)) ;;;
  let* delayed := xcall "delayed.signal" in
  wr sig f_shared_pending delayed ;;;
  let* csig := rd current f_signal in
  let* tty := rd csig f_tty in
  xobj "tty_kref_get" tty ;;;
  wr sig f_tty tty ;;;
  let* parent := rd p f_real_parent in
  let* psig := rd parent f_signal in
  let* h1 := rd psig f_has_child_subreaper in
  let* h2 := rd psig f_is_child_subreaper in
  wr sig f_has_child_subreaper (if nonzero h1 || nonzero h2 then 1 else 0) ;;;
  modify (fun s => set_lists (<[parent := default [] (children s !! parent) ++ [p]]> (children s))
                     (thread_group s) (thread_head s) (tasks s ++ [p]) s) ;;;
  xobj "attach_pid(TGID, PGID, SID)" p ;;;
  modify (fun s => set_counters (nr_threads s) (total_forks s) (max_threads s) (process_counts s + 1) s).

(** A new thread of the current group. *)
Definition attach_thread {E} (p : Z) : prog E unit :=
  let* csig := rd current f_signal in
  inc csig f_sig_nr_threads ;;;
  inc csig f_live ;;;
  inc csig f_sigcnt ;;;
  xobj "task_join_group_stop" p ;;;
  let* leader := rd p f_group_leader in
  let* sig := rd p f_signal in
  modify (fun s => set_lists (children s)
                     (<[leader := default [] (thread_group s !! leader) ++ [p]]> (thread_group s))
                     (<[sig := default [] (thread_head s !! sig) ++ [p]]> (thread_head s)) (tasks s) s).

(** No more failure paths: the child becomes visible. *)
Definition copy_process_commit {E} (v : locals) : prog E unit :=
  let p := l_p v in
  copy_seccomp p ;;;
  xobj "init_task_pid_links" p ;;;
  let* nr := rd p f_pid in
  when (nonzero nr)
    (xobj (if has clone_flags CLONE_PTRACE || tracing then "ptrace_init_task(true)"
           else "ptrace_init_task(false)") p ;;;
     init_task_pid p PIDTYPE_PID (l_pid v) ;;;
     let* exit_signal := rd p f_exit_signal in
     (if 0 <=? exit_signal then attach_process p (l_pid v) else attach_thread p) ;;;
     xobj "attach_pid(PID)" p ;;;
     modify (fun s => set_counters (nr_threads s + 1) (total_forks s) (max_threads s) (process_counts s) s)) ;;;
  modify (fun s => set_counters (nr_threads s) (total_forks s + 1) (max_threads s) (process_counts s) s) ;;;
  when (negb (has clone_flags CLONE_THREAD)) unlink_delayed ;;;
  xvoid "spin_unlock(siglock)" ;;;
  xobj "syscall_tracepoint_update" p ;;;
  xvoid "write_unlock_irq(tasklist_lock)" ;;;
  when (nonzero (l_pidfile v)) (xobj "fd_install" (l_pidfd v)) ;;;
  xobj "proc_fork_connector" p ;;;
  xobj "sched_post_fork" p ;;;
  xobj "cgroup_post_fork" p ;;;
  xobj "perf_event_fork" p ;;;
  xobj "trace_task_newtask" p ;;;
  xobj "uprobe_copy_process" p ;;;
  copy_oom_score_adj clone_flags p.

(** The body, up to the point of no return. *)
Definition copy_process_body : prog jump locals :=
  let* p := copy_process_dup in
  copy_process_limits p ;;;
  copy_process_init p ;;;
  copy_process_resources p ;;;
  let* v := copy_process_pid p in
  when (config CONFIG_BLOCK) (wr p f_plug 0) ;;;
  xobj "futex_init_task" p ;;;
  copy_process_kv p ;;;
  copy_process_ids v ;;;
  copy_process_parent v ;;;
  ret v.

(** ** The cleanup labels, each falling through to the next *)

Section Unwind.
Context {E : Type}.

(** What stands at each label.  The local pid is init_struct_pid when the
    argument was, and else a new one from alloc_pid. *)
Definition at_label (l : label) (v : locals) : prog E unit :=
  let p := l_p v in
  match l with
  | bad_fork_cancel_cgroup =>
      xobj "sched_core_free" p ;;;
      xvoid "spin_unlock(siglock)" ;;;
      xvoid "write_unlock_irq(tasklist_lock)" ;;;
      xobj "cgroup_cancel_fork" p
  | bad_fork_put_pidfd =>
      when (has clone_flags CLONE_PIDFD) (xobj "fput(pidfile)" (l_pidfile v) ;;; xobj "put_unused_fd" (l_pidfd v))
  | bad_fork_free_pid => when (negb (pid0 =? init_struct_pid)) (xobj "free_pid" (l_pid v))
  | bad_fork_cleanup_thread => xobj "exit_thread" p
  | bad_fork_cleanup_io =>
      let* ioc := rd p f_io_context in
      when (nonzero ioc) (xobj "exit_io_context" p)
  | bad_fork_cleanup_namespaces => xobj "exit_task_namespaces" p
  | bad_fork_cleanup_mm =>
      let* mm := rd p f_mm in
      when (nonzero mm) (mm_clear_owner mm p ;;; mmput mm)
  | bad_fork_cleanup_signal =>
      when (negb (has clone_flags CLONE_THREAD))
        (let* sig := rd p f_signal in free_signal_struct sig)
  | bad_fork_cleanup_sighand => let* sh := rd p f_sighand in cleanup_sighand sh
  | bad_fork_cleanup_fs => run_heap (exit_fs p)
  | bad_fork_cleanup_files => run_heap (exit_files p)
  | bad_fork_cleanup_semundo => xobj "exit_sem" p
  | bad_fork_cleanup_security => xobj "security_task_free" p
  | bad_fork_cleanup_audit => xobj "audit_free" p
  | bad_fork_cleanup_perf => xobj "perf_event_free_task" p
  | bad_fork_cleanup_policy =>
      xobj "lockdep_free_task" p ;;;
      when (config CONFIG_NUMA) (let* pol := rd p f_mempolicy in xobj "mpol_put" pol)
  | bad_fork_cleanup_threadgroup_lock => xobj "delayacct_tsk_free" p
  | bad_fork_cleanup_count => xobj "dec_rlimit_ucounts" p ;;; xobj "exit_creds" p
  | bad_fork_free =>
      wr p f_task_state TASK_DEAD ;;;
      put_task_stack p ;;;
      delayed_free_task p
  | fork_out => when (negb (has clone_flags CLONE_THREAD)) unlink_delayed
  end.

(** The labels in the order of the text. *)
Definition label_order : list label :=
  [bad_fork_cancel_cgroup; bad_fork_put_pidfd; bad_fork_free_pid; bad_fork_cleanup_thread;
   bad_fork_cleanup_io; bad_fork_cleanup_namespaces; bad_fork_cleanup_mm; bad_fork_cleanup_signal;
   bad_fork_cleanup_sighand; bad_fork_cleanup_fs; bad_fork_cleanup_files; bad_fork_cleanup_semundo;
   bad_fork_cleanup_security; bad_fork_cleanup_audit; bad_fork_cleanup_perf; bad_fork_cleanup_policy;
   bad_fork_cleanup_threadgroup_lock; bad_fork_cleanup_count; bad_fork_free; fork_out].

Fixpoint run_labels (ls : list label) (v : locals) : prog E unit :=
  match ls with
  | [] => ret tt
  | l :: ls' => at_label l v ;;; run_labels ls' v
  end.

End Unwind.

#[global] Instance label_eq_dec : EqDecision label.
Proof. solve_decision. Defined.

(** The labels from [l] on. *)
Fixpoint labels_from (l : label) (ls : list label) : list label :=
  match ls with
  | [] => []
  | l' :: ls' => if decide (l = l') then ls else labels_from l ls'
  end.

(** copy_process: the new task or ERR_PTR of a negative errno. *)
Definition copy_process (s : kst) : Z * kst :=
  match copy_process_check s with
  | (inr j, s1) => (j_retval j, s1)
  | (inl err, s1) =>
      if nonzero err then (err, s1)
      else
        match copy_process_body s1 with
        | (inr j, s2) =>
            (j_retval j, snd (run_labels (E := jump) (labels_from (j_label j) label_order) (j_locals j) s2))
        | (inl v, s2) => (l_p v, snd (copy_process_commit (E := jump) v s2))
        end
  end.

End Copy.
