(* ===== verification/ForkLogic.v ===== *)
(** * Reasoning about the process creation code

    Triples for the monad of [ForkState], the ledger of resources held outside
    fork.c, and the frame property of a program that works on one object. *)

From S2P Require Import Prelude KVStore TaskState ForkState ForkTask ForkMm ForkArgs ForkCopy.

(** ** Triples *)

(** From [P], [m] returns [a] in a state satisfying [Q a], or leaves through an
    exception [e] in a state satisfying [X e]. *)
Definition triple {E A} (P : kst -> Prop) (m : prog E A) (Q : A -> kst -> Prop) (X : E -> kst -> Prop)
  : Prop :=
  forall s, P s -> match m s with (inl a, s') => Q a s' | (inr e, s') => X e s' end.

Section Triples.
Context {E : Type}.

Lemma triple_ret {A} (P : kst -> Prop) (a : A) Q (X : E -> kst -> Prop) :
  (forall s, P s -> Q a s) -> triple P (ret a) Q X.
Proof. intros Hq s Hs. by apply Hq. Qed.

Lemma triple_throw {A} (P : kst -> Prop) (e : E) (Q : A -> kst -> Prop) X :
  (forall s, P s -> X e s) -> triple P (throw e) Q X.
Proof. intros Hx s Hs. by apply Hx. Qed.

Lemma triple_bind {A B} P (m : prog E A) (k : A -> prog E B) R Q X :
  triple P m R X -> (forall a, triple (R a) (k a) Q X) -> triple P (bind m k) Q X.
Proof.
  intros Hm Hk s Hs. specialize (Hm s Hs). unfold bind.
  destruct (m s) as [[a|e] s']; [by apply Hk|done].
Qed.

Lemma triple_seq {B} P (m : prog E unit) (k : prog E B) R Q X :
  triple P m (fun _ => R) X -> triple R k Q X -> triple P (m ;;; k) Q X.
Proof. intros Hm Hk. eapply triple_bind; [exact Hm|]. by intros []. Qed.

Lemma triple_weaken {A} (P P' : kst -> Prop) (m : prog E A) (Q Q' : A -> kst -> Prop) (X X' : E -> kst -> Prop) :
  triple P m Q X -> (forall s, P' s -> P s) -> (forall a s, Q a s -> Q' a s) ->
  (forall e s, X e s -> X' e s) -> triple P' m Q' X'.
Proof. intros Hm Hp Hq Hx s Hs. specialize (Hm s (Hp s Hs)). destruct (m s) as [[a|e] s']; auto. Qed.

Lemma triple_when P b (m : prog E unit) (Q : unit -> kst -> Prop) X :
  (b = true -> triple P m Q X) -> (b = false -> forall s, P s -> Q tt s) -> triple P (when b m) Q X.
Proof. intros Ht Hf. unfold when. destruct b; [by apply Ht|]. apply triple_ret. by apply Hf. Qed.

Lemma triple_rd P a f (Q : Z -> kst -> Prop) (X : E -> kst -> Prop) :
  (forall s, P s -> Q (fld s a f) s) -> triple P (rd a f) Q X.
Proof. intros Hq s Hs. by apply Hq. Qed.

Lemma triple_wr P a f v (Q : unit -> kst -> Prop) (X : E -> kst -> Prop) :
  (forall s, P s -> Q tt (snd (wr (E := E) a f v s))) -> triple P (wr a f v) Q X.
Proof. intros Hq s Hs. by apply Hq. Qed.

Lemma triple_at {A} s (m : prog E A) Q X :
  triple (eq s) m Q X -> match m s with (inl a, s') => Q a s' | (inr e, s') => X e s' end.
Proof. intros Hm. by apply Hm. Qed.

Lemma triple_exists {A B} (P : B -> kst -> Prop) (m : prog E A) Q X :
  (forall x, triple (P x) m Q X) -> triple (fun s => exists x, P x s) m Q X.
Proof. intros Hm s [x Hs]. by eapply Hm. Qed.

Lemma triple_pure (P : kst -> Prop) (phi : Prop) {A} (m : prog E A) Q X :
  (phi -> triple P m Q X) -> triple (fun s => phi /\ P s) m Q X.
Proof. intros Hm s [Hphi Hs]. by apply Hm. Qed.

End Triples.

(** ** The ledger

    Which resources kept outside fork.c a trace of calls has acquired and not
    given back. *)

Inductive rsrc :=
| RCreds | RDelayacct | RPolicy | RPerf | RAudit | RSecurity | RSem | RNamespaces | RIo | RThread
| RPid | RFd | RPidfile | RCgroup | RTasklist | RCore | RSiglock.

#[global] Instance rsrc_eq_dec : EqDecision rsrc.
Proof. solve_decision. Defined.

(** The calls that acquire a resource, with the test for success. *)
Definition acquires : list (string * (rsrc * (Z -> bool))) :=
  [("copy_creds", (RCreds, fun r => 0 <=? r));
   ("delayacct_tsk_init", (RDelayacct, fun _ => true));
   ("mpol_dup", (RPolicy, fun r => 0 <=? r));
   ("perf_event_init_task", (RPerf, Z.eqb 0));
   ("audit_alloc", (RAudit, Z.eqb 0));
   ("security_task_alloc", (RSecurity, Z.eqb 0));
   ("copy_semundo", (RSem, Z.eqb 0));
   ("copy_namespaces", (RNamespaces, Z.eqb 0));
   ("ioc_task_link", (RIo, fun _ => true));
   ("get_task_io_context", (RIo, nonzero));
   ("copy_thread", (RThread, Z.eqb 0));
   ("alloc_pid", (RPid, fun r => 0 <=? r));
   ("get_unused_fd_flags", (RFd, fun r => 0 <=? r));
   ("anon_inode_getfile", (RPidfile, fun r => 0 <=? r));
   ("cgroup_can_fork", (RCgroup, Z.eqb 0));
   ("write_lock_irq(tasklist_lock)", (RTasklist, fun _ => true));
   ("sched_core_fork", (RCore, fun _ => true));
   ("spin_lock(siglock)", (RSiglock, fun _ => true))].

(** The calls that give it back. *)
Definition releases : list (string * rsrc) :=
  [("exit_creds", RCreds); ("delayacct_tsk_free", RDelayacct); ("mpol_put", RPolicy);
   ("perf_event_free_task", RPerf); ("audit_free", RAudit); ("security_task_free", RSecurity);
   ("exit_sem", RSem); ("exit_task_namespaces", RNamespaces); ("exit_io_context", RIo);
   ("exit_thread", RThread); ("free_pid", RPid); ("put_unused_fd", RFd);
   ("fput(pidfile)", RPidfile); ("cgroup_cancel_fork", RCgroup);
   ("write_unlock_irq(tasklist_lock)", RTasklist); ("sched_core_free", RCore);
   ("spin_unlock(siglock)", RSiglock)].

Fixpoint assoc {A} (name : string) (l : list (string * A)) : option A :=
  match l with
  | [] => None
  | (n, a) :: l' => if String.eqb name n then Some a else assoc name l'
  end.

Fixpoint remove_first (r : rsrc) (l : list rsrc) : list rsrc :=
  match l with
  | [] => []
  | r' :: l' => if decide (r = r') then l' else r' :: remove_first r l'
  end.

Definition ledger_step (e : string * Z) (l : list rsrc) : list rsrc :=
  match assoc (fst e) acquires with
  | Some (r, ok) => if ok (snd e) then r :: l else l
  | None => match assoc (fst e) releases with Some r => remove_first r l | None => l end
  end.

(** What a trace (newest call first) leaves held, the latest first. *)
Definition ledger (t : list (string * Z)) : list rsrc := foldr ledger_step [] t.

(** A call that neither acquires nor gives back. *)
Definition neutral (name : string) : bool :=
  match assoc name acquires, assoc name releases with None, None => true | _, _ => false end.

Lemma ledger_neutral name r t : neutral name = true -> ledger ((name, r) :: t) = ledger t.
Proof.
  unfold neutral, ledger. cbn [foldr]. generalize (foldr ledger_step [] t). intros l.
  unfold ledger_step. cbn [fst snd].
  destruct (assoc name acquires) as [[]|]; [intros [=]|]. destruct (assoc name releases); [intros [=]|done].
Qed.

Lemma ledger_acquire name rs ok r t :
  assoc name acquires = Some (rs, ok) ->
  ledger ((name, r) :: t) = if ok r then rs :: ledger t else ledger t.
Proof.
  intros Ha. unfold ledger. cbn [foldr]. generalize (foldr ledger_step [] t). intros l.
  unfold ledger_step. cbn [fst snd]. by rewrite Ha.
Qed.

Lemma ledger_release name rs r t :
  assoc name acquires = None -> assoc name releases = Some rs ->
  ledger ((name, r) :: t) = remove_first rs (ledger t).
Proof.
  intros Ha Hr. unfold ledger. cbn [foldr]. generalize (foldr ledger_step [] t). intros l.
  unfold ledger_step. cbn [fst snd]. by rewrite Ha, Hr.
Qed.

(** ** Programs that work on one object *)

(** [s'] differs from [s] at most in the object at [a], outside its fields [F],
    in what hangs off [a], in the kernel stacks and in neutral calls. *)
Record only (a : Z) (F : list field) (s s' : kst) : Prop := {
  on_heap : forall b, b <> a -> heap s' !! b = heap s !! b;
  on_live : is_Some (heap s' !! a) <-> is_Some (heap s !! a);
  on_fld : forall f, f ∈ F -> fld s' a f = fld s a f;
  on_vmas : forall b, b <> a -> vmas s' !! b = vmas s !! b;
  on_children : forall b, b <> a -> children s' !! b = children s !! b;
  on_group : forall b, b <> a -> thread_group s' !! b = thread_group s !! b;
  on_threads : forall b, b <> a -> thread_head s' !! b = thread_head s !! b;
  on_tasks : tasks s' = tasks s;
  on_multi : forall b, b <> a -> multiprocess s' !! b = multiprocess s !! b;
  on_kvs : kvs s' = kvs s;
  on_rcu : rcu_queue s' = rcu_queue s;
  on_counters : nr_threads s' = nr_threads s /\ total_forks s' = total_forks s /\
    max_threads s' = max_threads s /\ process_counts s' = process_counts s;
  on_ledger : ledger (trace s') = ledger (trace s);
}.

Lemma only_refl a F s : only a F s s.
Proof. by split. Qed.

Lemma only_trans a F s1 s2 s3 : only a F s1 s2 -> only a F s2 s3 -> only a F s1 s3.
Proof.
  intros H1 H2. split.
  - intros b Hb. by rewrite (on_heap _ _ _ _ H2), (on_heap _ _ _ _ H1).
  - by rewrite (on_live _ _ _ _ H2), (on_live _ _ _ _ H1).
  - intros f Hf. by rewrite (on_fld _ _ _ _ H2), (on_fld _ _ _ _ H1).
  - intros b Hb. by rewrite (on_vmas _ _ _ _ H2), (on_vmas _ _ _ _ H1).
  - intros b Hb. by rewrite (on_children _ _ _ _ H2), (on_children _ _ _ _ H1).
  - intros b Hb. by rewrite (on_group _ _ _ _ H2), (on_group _ _ _ _ H1).
  - intros b Hb. by rewrite (on_threads _ _ _ _ H2), (on_threads _ _ _ _ H1).
  - by rewrite (on_tasks _ _ _ _ H2), (on_tasks _ _ _ _ H1).
  - intros b Hb. by rewrite (on_multi _ _ _ _ H2), (on_multi _ _ _ _ H1).
  - by rewrite (on_kvs _ _ _ _ H2), (on_kvs _ _ _ _ H1).
  - by rewrite (on_rcu _ _ _ _ H2), (on_rcu _ _ _ _ H1).
  - destruct (on_counters _ _ _ _ H2) as (-> & -> & -> & ->). apply (on_counters _ _ _ _ H1).
  - by rewrite (on_ledger _ _ _ _ H2), (on_ledger _ _ _ _ H1).
Qed.

Lemma only_fld_ne a F s s' b f : only a F s s' -> b <> a -> fld s' b f = fld s b f.
Proof. intros Ho Hb. unfold fld. by rewrite (on_heap _ _ _ _ Ho). Qed.

Lemma only_dom a F s s' : only a F s s' -> dom (heap s') = dom (heap s).
Proof.
  intros Ho. apply set_eq. intros b. rewrite !elem_of_dom.
  destruct (decide (b = a)) as [->|Hb]; [by apply (on_live _ _ _ _ Ho)|].
  by rewrite (on_heap _ _ _ _ Ho).
Qed.

(** A program that returns, having changed only [a] outside [F]. *)
Definition confined {E A} (a : Z) (F : list field) (m : prog E A) : Prop :=
  forall s, match m s with (inl _, s') => only a F s s' | (inr _, _) => False end.

Lemma confined_run {E A} a F (m : prog E A) s :
  confined a F m -> exists x, m s = (inl x, snd (m s)) /\ only a F s (snd (m s)).
Proof. intros Hm. specialize (Hm s). destruct (m s) as [[x|e] s']; [by exists x|done]. Qed.

Lemma triple_confined {E A} a F (P : kst -> Prop) (m : prog E A) Q X :
  confined a F m -> (forall s s' x, P s -> only a F s s' -> Q x s') -> triple P m Q X.
Proof. intros Hm Hq s Hs. specialize (Hm s). destruct (m s) as [[x|e] s']; [by eapply Hq|done]. Qed.

Lemma only_weaken a F F' s s' : F' ⊆ F -> only a F s s' -> only a F' s s'.
Proof. intros HF Ho. split; try apply Ho. intros f Hf. apply (on_fld _ _ _ _ Ho). by apply HF. Qed.

Lemma confined_weaken {E A} a F F' (m : prog E A) : F' ⊆ F -> confined a F m -> confined a F' m.
Proof.
  intros HF Hm s. specialize (Hm s). destruct (m s) as [[x|e] s']; [by eapply only_weaken|done].
Qed.

(** Reading after [p->f = v]. *)
Lemma fld_wr {E} s a f v b g :
  fld (snd (wr (E := E) a f v s)) b g =
  if decide (b = a /\ g = f) then (if decide (is_Some (heap s !! a)) then v else 0) else fld s b g.
Proof.
  unfold fld. cbn [wr modify snd heap set_heap]. rewrite lookup_alter.
  destruct (decide (a = b)) as [->|Hab].
  - destruct (heap s !! b) as [o|] eqn:Eo; cbn [fmap option_fmap option_map].
    + rewrite (decide_True (P := is_Some (Some o))) by eauto. unfold upd.
      destruct (decide (g = f)) as [->|Hg]; [by rewrite (decide_True (P := b = b /\ f = f))|].
      rewrite decide_False by naive_solver. done.
    + destruct (decide (b = b /\ g = f)); [|done].
      rewrite decide_False; [done|]. by intros [? [=]].
  - rewrite decide_False by naive_solver. done.
Qed.

Lemma wr_eq {E} x g v s : wr (E := E) x g v s = (inl tt, snd (wr (E := E) x g v s)).
Proof. done. Qed.

Lemma bind_wr {E A} x g v (k : prog E A) s : (wr x g v ;;; k) s = k (snd (wr (E := E) x g v s)).
Proof. done. Qed.

Lemma inc_eq {E} x g s : inc (E := E) x g s = (inl tt, snd (wr (E := E) x g (fld s x g + 1) s)).
Proof. done. Qed.

Lemma dec_eq {E} x g s :
  dec_and_test (E := E) x g s = (inl (fld s x g - 1 =? 0), snd (wr (E := E) x g (fld s x g - 1) s)).
Proof. done. Qed.

Section Confined.
Context `{World}.
Context {E : Type}.
Variables (a : Z) (F : list field).

Lemma confined_ret {A} (x : A) : confined (E := E) a F (ret x).
Proof. intros s. apply only_refl. Qed.

Lemma confined_gets {A} (g : kst -> A) : confined (E := E) a F (gets g).
Proof. intros s. apply only_refl. Qed.

Lemma confined_rd b f : confined (E := E) a F (rd b f).
Proof. apply confined_gets. Qed.

Lemma confined_bind {A B} (m : prog E A) (k : A -> prog E B) :
  confined a F m -> (forall x, confined a F (k x)) -> confined a F (bind m k).
Proof.
  intros Hm Hk s. unfold bind. specialize (Hm s). destruct (m s) as [[x|e] s']; [|done].
  specialize (Hk x s'). destruct (k x s') as [[y|e] s'']; [|done]. by eapply only_trans.
Qed.

Lemma confined_when b (m : prog E unit) : (b = true -> confined a F m) -> confined a F (when b m).
Proof. intros Hm. destruct b; [by apply Hm|apply confined_ret]. Qed.

Lemma confined_if {A} (b : bool) (m1 m2 : prog E A) :
  confined a F m1 -> confined a F m2 -> confined a F (if b then m1 else m2).
Proof. by destruct b. Qed.

Lemma only_wr f v s : ~ (f ∈ F) -> only a F s (snd (wr (E := E) a f v s)).
Proof.
  intros Hf. split; try done.
  - intros b Hb. simpl. by rewrite lookup_alter_ne.
  - simpl. rewrite lookup_alter_eq. by rewrite fmap_is_Some.
  - intros g Hg. rewrite fld_wr, decide_False; [done|]. intros [_ ->]. done.
Qed.

Lemma confined_wr f v : ~ (f ∈ F) -> confined (E := E) a F (wr a f v).
Proof. intros Hf s. by apply only_wr. Qed.

Lemma confined_inc f : ~ (f ∈ F) -> confined (E := E) a F (inc a f).
Proof. intros Hf. apply confined_bind; [apply confined_rd|]. intros c. by apply confined_wr. Qed.

Lemma confined_dec f : ~ (f ∈ F) -> confined (E := E) a F (dec_and_test a f).
Proof.
  intros Hf. apply confined_bind; [apply confined_rd|]. intros c.
  apply confined_bind; [by apply confined_wr|]. intros []. apply confined_ret.
Qed.

Lemma confined_xcall name : neutral name = true -> confined (E := E) a F (xcall name).
Proof. intros Hn s. split; try done. by apply ledger_neutral. Qed.

Lemma confined_xcall_at name i : neutral name = true -> confined (E := E) a F (xcall_at name i).
Proof. intros Hn s. split; try done. by apply ledger_neutral. Qed.

Lemma confined_xvoid name : neutral name = true -> confined (E := E) a F (xvoid name).
Proof. intros Hn s. split; try done. by apply ledger_neutral. Qed.

Lemma confined_xobj name b : neutral name = true -> confined (E := E) a F (xobj name b).
Proof. intros Hn s. split; try done. by apply ledger_neutral. Qed.

(** What hangs off [a]. *)
Lemma confined_vmas (g : gmap Z (list vma) -> gmap Z (list vma)) :
  (forall m b, b <> a -> g m !! b = m !! b) ->
  confined (E := E) a F (modify (fun s => set_vmas (g (vmas s)) s)).
Proof. intros Hg s. split; try done. intros b Hb. simpl. by rewrite Hg. Qed.

Lemma confined_lists (c g h : gmap Z (list Z) -> gmap Z (list Z)) :
  (forall m b, b <> a -> c m !! b = m !! b) -> (forall m b, b <> a -> g m !! b = m !! b) ->
  (forall m b, b <> a -> h m !! b = m !! b) ->
  confined (E := E) a F
    (modify (fun s => set_lists (c (children s)) (g (thread_group s)) (h (thread_head s)) (tasks s) s)).
Proof. intros Hc Hg Hh s. split; try done; intros b Hb; simpl; by rewrite ?Hc, ?Hg, ?Hh. Qed.

Lemma confined_multi (g : gmap Z nat -> gmap Z nat) :
  (forall m b, b <> a -> g m !! b = m !! b) ->
  confined (E := E) a F (modify (fun s => set_multiprocess (g (multiprocess s)) s)).
Proof. intros Hg s. split; try done. intros b Hb. simpl. by rewrite Hg. Qed.

Lemma confined_alter (o : obj -> obj) :
  (forall x f, f ∈ F -> o x f = x f) ->
  confined (E := E) a F (modify (fun s => set_heap (alter o a (heap s)) s)).
Proof.
  intros Ho s. split; try done.
  - intros b Hb. simpl. by rewrite lookup_alter_ne.
  - simpl. by rewrite lookup_alter_eq, fmap_is_Some.
  - intros f Hf. unfold fld. simpl. rewrite lookup_alter_eq. destruct (heap s !! a); simpl; [by apply Ho|done].
Qed.

Lemma confined_stacks (g : kst -> gmap Z bool) (c : kst -> list (option Z)) :
  confined (E := E) a F (modify (fun s => set_stacks (g s) (c s) s)).
Proof. by intros s. Qed.

End Confined.

Lemma confined_copy_obj {E} a src : confined (E := E) a [] (copy_obj a src).
Proof.
  intros s. simpl. destruct (heap s !! src) as [o|]; [|apply only_refl].
  apply (confined_alter (E := E) a [] (fun _ => o)). set_solver.
Qed.

(** Structural steps of a [confined] proof; what is left are the parts that are
    not plain field updates and neutral calls. *)
Ltac not_in := rewrite ?elem_of_cons, ?elem_of_nil; intuition discriminate.

Create HintDb confined discriminated.

Ltac confine :=
  repeat first
    [ solve [eauto 2 with confined nocore] | apply confined_ret | apply confined_rd | apply confined_gets
    | apply confined_wr; [not_in] | apply confined_inc; [not_in] | apply confined_dec; [not_in]
    | apply confined_xcall; [reflexivity] | apply confined_xcall_at; [reflexivity]
    | apply confined_xvoid; [reflexivity] | apply confined_xobj; [reflexivity]
    | apply confined_when; intros ? | apply confined_bind; [|intros ?] | apply confined_if
    | match goal with |- confined _ _ match ?o with Some _ => _ | None => _ end => destruct o end ].

(** ** Objects that are gone *)

(** [s'] is [s] after work on the object at [a], which ended with its memory
    given back. *)
Definition freed (a : Z) (s s' : kst) : Prop :=
  exists s2, only a [] s s2 /\ s' = set_heap (delete a (heap s2)) s2.

Lemma only_freed a F s1 s2 s3 : only a F s1 s2 -> freed a s2 s3 -> freed a s1 s3.
Proof.
  intros H1 (s & H2 & ->). exists s. split; [|done].
  eapply only_trans; [eapply only_weaken; [|exact H1]; set_solver|exact H2].
Qed.

Lemma freed_ledger a s s' : freed a s s' -> ledger (trace s') = ledger (trace s).
Proof. intros (s2 & Ho & ->). apply (on_ledger _ _ _ _ Ho). Qed.

Lemma freed_gone a s s' : freed a s s' -> heap s' !! a = None.
Proof. intros (s2 & _ & ->). apply lookup_delete_eq. Qed.

Lemma freed_other a s s' b : freed a s s' -> b <> a -> heap s' !! b = heap s !! b.
Proof.
  intros (s2 & Ho & ->) Hb. simpl. rewrite lookup_delete_ne by done. by apply (on_heap _ _ _ _ Ho).
Qed.

(** ** Programs that keep a part of the state *)

Definition keeps {X E A} (g : kst -> X) (m : prog E A) : Prop :=
  forall s, match m s with (inl _, s') => g s' = g s | (inr _, _) => True end.

Section Keeps.
Context {X : Type} (g : kst -> X).
Context {E : Type}.

Lemma keeps_ret {A} (x : A) : keeps (E := E) g (ret x).
Proof. by intros s. Qed.

Lemma keeps_throw {A} (e : E) : keeps (A := A) g (throw e).
Proof. by intros s. Qed.

Lemma keeps_gets {A} (f : kst -> A) : keeps (E := E) g (gets f).
Proof. by intros s. Qed.

Lemma keeps_bind {A B} (m : prog E A) (k : A -> prog E B) :
  keeps g m -> (forall x, keeps g (k x)) -> keeps g (bind m k).
Proof.
  intros Hm Hk s. unfold bind. specialize (Hm s). destruct (m s) as [[x|e] s']; [|done].
  specialize (Hk x s'). destruct (k x s') as [[y|e] s'']; [congruence|done].
Qed.

Lemma keeps_when b (m : prog E unit) : keeps g m -> keeps g (when b m).
Proof. by destruct b. Qed.

Lemma keeps_if {A} (b : bool) (m1 m2 : prog E A) : keeps g m1 -> keeps g m2 -> keeps g (if b then m1 else m2).
Proof. by destruct b. Qed.

Lemma triple_keeps {A} c (P : kst -> Prop) (m : prog E A) (Q : A -> kst -> Prop) Y :
  keeps g m -> triple P m Q Y -> triple (fun s => g s = c /\ P s) m (fun r s => g s = c /\ Q r s) Y.
Proof.
  intros Hm Ht s [Hc Hs]. specialize (Hm s). specialize (Ht s Hs).
  destruct (m s) as [[x|e] s']; [by split; [congruence|]|done].
Qed.

Lemma keeps_triple {A} c (m : prog E A) :
  keeps g m -> triple (fun s => g s = c) m (fun _ s => g s = c) (fun _ _ => True).
Proof. intros Hm s Hs. specialize (Hm s). destruct (m s) as [[x|e] s']; [congruence|done]. Qed.

End Keeps.

(** Structural steps; [leaf] closes updates and calls. *)
Ltac keep leaf :=
  repeat first
    [ apply keeps_ret | apply keeps_throw | apply keeps_gets | apply keeps_when
    | apply keeps_bind; [|intros ?] | apply keeps_if | leaf ].

Lemma keeps_wr {E} a f b h v : f <> h -> keeps (E := E) (fun s => fld s a f) (wr b h v).
Proof. intros Hf s. simpl. change (fld (snd (wr (E := E) b h v s)) a f = fld s a f). by rewrite fld_wr, decide_False by naive_solver. Qed.

(** Programs that have no [goto]. *)
Definition nothrow {E A} (m : prog E A) : Prop := forall s, exists x, m s = (inl x, snd (m s)).

Section Nothrow.
Context {E : Type}.

Lemma nothrow_ret {A} (x : A) : nothrow (E := E) (ret x).
Proof. intros s. by exists x. Qed.

Lemma nothrow_gets {A} (f : kst -> A) : nothrow (E := E) (gets f).
Proof. intros s. by exists (f s). Qed.

Lemma nothrow_bind {A B} (m : prog E A) (k : A -> prog E B) :
  nothrow m -> (forall x, nothrow (k x)) -> nothrow (bind m k).
Proof. intros Hm Hk s. unfold bind. destruct (Hm s) as [x ->]. apply Hk. Qed.

Lemma nothrow_when b (m : prog E unit) : nothrow m -> nothrow (when b m).
Proof. destruct b; [done|]. intros _. apply nothrow_ret. Qed.

Lemma nothrow_if {A} (b : bool) (m1 m2 : prog E A) : nothrow m1 -> nothrow m2 -> nothrow (if b then m1 else m2).
Proof. by destruct b. Qed.

End Nothrow.

Ltac no_goto :=
  repeat first
    [ assumption | apply nothrow_ret | apply nothrow_gets | apply nothrow_when | apply nothrow_bind; [|intros ?]
    | apply nothrow_if | by (intros ?; eexists) ].

Lemma confined_nothrow {E A} a F (m : prog E A) : confined a F m -> nothrow m.
Proof. intros Hm s. destruct (confined_run _ _ _ s Hm) as (x & Hx & _). by exists x. Qed.
