(* ===== verification/ForkTaskSpec.v ===== *)
(** * Task structures and kernel stacks: what the functions guarantee
    (kernel/fork.c)

    dup_task_struct gives a copy with a kernel stack of its own, or nothing is
    left of it; kernel stacks are never lost nor shared between a task and the
    per-CPU cache; the number of threads stays within its limits. *)

From S2P Require Import Prelude KVStore TaskState ForkState ForkTask ForkMm ForkArgs ForkCopy ForkLogic.

Section TaskSpec.
Context `{World}.
Context {E : Type}.

Lemma confined_set_stacks a F (m : kst -> gmap Z bool) (c : kst -> list (option Z)) {A} (x : kst -> A) :
  confined (E := E) a F (fun s => (inl (x s), set_stacks (m s) (c s) s)).
Proof. by intros s. Qed.

Section Confined.
Variable tsk : Z.

Lemma xchg_confined F i : confined (E := E) tsk F (xchg_cached i).
Proof. unfold xchg_cached. apply confined_set_stacks. Qed.

Lemma cmpxchg_confined F i vm : confined (E := E) tsk F (cmpxchg_cached i vm).
Proof. intros s. unfold cmpxchg_cached. by destruct (cached_stacks s !! i) as [[]|]. Qed.

Lemma new_stack_confined F : confined (E := E) tsk F new_stack.
Proof. intros s. unfold new_stack. by destruct (stack_alloc _). Qed.

Lemma drop_stack_confined F a : confined (E := E) tsk F (drop_stack a).
Proof. by intros s. Qed.

(** The fields that describe the stack. *)
Abbreviation STACK := [f_stack; f_stack_vm_area; f_stack_refcount; f_stackend_magic; f_stack_canary].

Definition stackless (F : list field) : Prop := Forall (fun f => ~ (f ∈ F)) STACK.

Context (F : list field) (HF : stackless F).

Lemma stackless_in f : f ∈ STACK -> ~ (f ∈ F).
Proof. pose proof HF as HF'. unfold stackless in HF'. rewrite Forall_forall in HF'. apply HF'. Qed.

Lemma wr_stack_confined f v : f ∈ STACK -> confined (E := E) tsk F (wr tsk f v).
Proof. intros Hf. apply confined_wr. by apply stackless_in. Qed.

Ltac stack_confine :=
  repeat first
    [ apply wr_stack_confined; rewrite !elem_of_cons; by auto 7
    | apply xchg_confined | apply cmpxchg_confined | apply new_stack_confined | apply drop_stack_confined
    | apply confined_stacks | apply confined_dec; apply stackless_in; rewrite !elem_of_cons; by auto 7
    | progress confine ].

Lemma alloc_cached_confined slots : confined (E := E) tsk F (alloc_cached tsk slots).
Proof.
  induction slots as [|i slots IH]; [apply confined_ret|].
  apply confined_bind; [apply xchg_confined|]. intros [a|]; [|apply IH]. stack_confine.
Qed.

Lemma free_to_cache_confined vm slots : confined (E := E) tsk F (free_to_cache vm slots).
Proof.
  induction slots as [|i slots IH]; [apply confined_ret|].
  apply confined_bind; [apply cmpxchg_confined|]. intros []; [apply confined_ret|apply IH].
Qed.

Lemma charge_pages_confined l : confined (E := E) tsk F (charge_pages l).
Proof.
  induction l as [|i l IH]; [apply confined_ret|]. apply confined_bind; [by apply confined_xcall_at|].
  intros r. destruct (nonzero r); [apply confined_ret|apply IH].
Qed.

#[local] Hint Resolve alloc_cached_confined free_to_cache_confined charge_pages_confined : confined.

Lemma alloc_thread_stack_confined : confined (E := E) tsk F (alloc_thread_stack_node tsk).
Proof. unfold alloc_thread_stack_node. stack_confine. Qed.

Lemma memcg_charge_confined : confined (E := E) tsk F (memcg_charge_kernel_stack tsk).
Proof. unfold memcg_charge_kernel_stack, task_stack_vm_area. stack_confine. Qed.

Lemma free_thread_stack_confined : confined (E := E) tsk F (free_thread_stack tsk).
Proof. unfold free_thread_stack, task_stack_vm_area. stack_confine. Qed.

#[local] Hint Resolve free_thread_stack_confined : confined.

Lemma release_task_stack_confined : confined (E := E) tsk F (release_task_stack tsk).
Proof. unfold release_task_stack, account_kernel_stack. stack_confine. Qed.

#[local] Hint Resolve release_task_stack_confined : confined.

Lemma put_task_stack_confined : confined (E := E) tsk F (put_task_stack tsk).
Proof. unfold put_task_stack. stack_confine. Qed.

Lemma magic_confined : confined (E := E) tsk F (set_task_stack_end_magic tsk).
Proof. unfold set_task_stack_end_magic. stack_confine. Qed.

End Confined.

Lemma free_task_struct_ok tsk s1 F (X : E -> kst -> Prop) :
  triple (only tsk F s1) (free_task_struct tsk) (fun _ => freed tsk s1) X.
Proof.
  intros s Hs.
  exists (set_lists (delete tsk (children s)) (delete tsk (thread_group s)) (thread_head s) (tasks s) s).
  split; [|done]. eapply only_trans; [eapply only_weaken; [|exact Hs]; set_solver|].
  apply (confined_lists (E := E) tsk [] (delete tsk) (delete tsk) id); intros; try done; by apply lookup_delete_ne.
Qed.

Lemma only_next {A} tsk s1 (m : prog E A) X :
  confined tsk [] m -> triple (only tsk [] s1) m (fun _ => only tsk [] s1) X.
Proof. intros Hm. eapply triple_confined; [exact Hm|]. intros s s' _ H1 Ho. by eapply only_trans. Qed.

Lemma stackless_nil : stackless [].
Proof. repeat constructor; set_solver. Qed.

Lemma free_task_ok tsk s1 (X : E -> kst -> Prop) :
  triple (only tsk [] s1) (free_task tsk) (fun _ => freed tsk s1) X.
Proof.
  unfold free_task.
  repeat (eapply triple_bind; [apply only_next; first [apply confined_when; intros _; apply release_task_stack_confined,
    stackless_nil|solve [confine]]|intros ?]).
  apply free_task_struct_ok.
Qed.

(** ** dup_task_struct *)

Definition alloc_task (a : Z) (s : kst) : kst := set_heap (<[a := garbage "task_struct"]> (heap s)) s.

(** Pointers of a task that its copy has too, until copy_process changes them. *)
Abbreviation INHERITED := [f_files; f_fs; f_sighand; f_signal; f_kv; f_tgid; f_group_leader].

Lemma stackless_inherited : stackless INHERITED.
Proof. unfold stackless. repeat constructor; not_in. Qed.

Lemma dup_task_finish_confined tsk orig : confined (E := E) tsk INHERITED (dup_task_finish tsk orig).
Proof.
  unfold dup_task_finish, account_kernel_stack. pose proof (magic_confined tsk _ stackless_inherited). confine.
Qed.

(** The error path of dup_task_struct. *)
Lemma free_stack_ok tsk s1 (X : E -> kst -> Prop) :
  triple (only tsk [] s1) (free_thread_stack tsk ;;; free_task_struct tsk ;;; ret 0)
    (fun r s => r = 0 /\ freed tsk s1 s) X.
Proof.
  eapply triple_seq; [apply only_next, free_thread_stack_confined|].
  eapply triple_seq; [apply free_task_struct_ok|]. by apply triple_ret.
Qed.

Lemma copied_step {A} tsk s1 (o : obj) (m : prog E A) X :
  confined tsk INHERITED m ->
  triple (fun s => only tsk [] s1 s /\ forall f, f ∈ INHERITED -> fld s tsk f = o f) m
    (fun _ s => only tsk [] s1 s /\ forall f, f ∈ INHERITED -> fld s tsk f = o f) X.
Proof.
  intros Hm. eapply triple_confined; [exact Hm|]. intros s s' _ [H1 Hf] Ho. split.
  - eapply only_trans; [exact H1|]. eapply only_weaken; [|exact Ho]. set_solver.
  - intros f Hin. rewrite (on_fld _ _ _ _ Ho) by done. by apply Hf.
Qed.

(** A copy of [orig] with a stack, or NULL and nothing is left of it. *)
Lemma dup_task_ok orig s (X : E -> kst -> Prop) :
  world_ok -> is_Some (heap s !! orig) ->
  triple (eq s) (dup_task_struct orig)
    (fun r s' =>
       (r = 0 /\ s' = s) \/
       exists a, heap s !! a = None /\ 0 < a /\
         ((r = 0 /\ freed a (alloc_task a s) s') \/
          (r = a /\ only a [] (alloc_task a s) s' /\ forall f, f ∈ INHERITED -> fld s' a f = fld s orig f))) X.
Proof.
  intros Hw [o Ho] ? <-. unfold dup_task_struct. unfold bind at 1, alloc_obj.
  destruct (kmem_cache_alloc "task_struct" (dom (heap s))) as [a|] eqn:Ea; [|by left].
  destruct (wo_slab Hw _ _ _ Ea) as [Hn Ha]. apply not_elem_of_dom in Hn.
  rewrite (proj2 (Z.eqb_neq a 0)) by lia. fold (alloc_task a s).
  assert (Hoa : heap (alloc_task a s) !! orig = Some o).
  { simpl. rewrite lookup_insert_ne; [done|]. intros ->. congruence. }
  assert (Hao : orig <> a) by (intros ->; congruence).
  apply (triple_at (alloc_task a s)).
  eapply (triple_weaken (only a [] (alloc_task a s)) _ _
    (fun r s' => (r = 0 /\ freed a (alloc_task a s) s') \/ (r = a /\ only a [] (alloc_task a s) s' /\
       forall f, f ∈ INHERITED -> fld s' a f = o f)) _ X X);
    [|intros ? <-; apply only_refl| |done].
  2: { intros r s' Hr. right. exists a. split_and!; [done..|]. unfold fld at 2. by rewrite Ho. }
  eapply triple_bind; [apply only_next, alloc_thread_stack_confined, stackless_nil|]. intros stack.
  destruct (Z.eqb_spec stack 0) as [->|Hst].
  { eapply triple_seq; [apply free_task_struct_ok|]. apply triple_ret. by left. }
  eapply triple_bind; [apply only_next, memcg_charge_confined|]. intros err.
  destruct (nonzero err).
  { eapply triple_weaken; [apply free_stack_ok|done|by left|done]. }
  eapply triple_bind; [apply only_next; unfold task_stack_vm_area; confine|]. intros area.
  eapply triple_bind with (R := fun err s' => err = 0 /\ only a [] (alloc_task a s) s' /\
    forall f, f ∈ INHERITED -> fld s' a f = o f).
  { intros s1 Hs1. unfold arch_dup_task_struct, bind. simpl. rewrite (on_heap _ _ _ _ Hs1), Hoa by done.
    split; [done|]. split.
    - eapply only_trans; [exact Hs1|]. apply (confined_alter (E := E) a [] (fun _ => o)). set_solver.
    - intros f _. unfold fld. simpl. rewrite lookup_alter_eq.
      destruct (proj2 (on_live _ _ _ _ Hs1)) as [x ->]; [|done]. simpl. rewrite lookup_insert_eq. eauto. }
  intros err'. apply triple_pure. intros ->.
  do 3 (eapply triple_seq; [apply copied_step; solve [confine]|]). cbn [nonzero Z.eqb negb].
  eapply triple_bind; [apply copied_step; confine|]. intros scs. destruct (nonzero scs).
  { eapply triple_weaken; [apply free_stack_ok|by intros s' []|by left|done]. }
  eapply triple_seq; [apply copied_step, dup_task_finish_confined|]. apply triple_ret. by right.
Qed.

End TaskSpec.
