(* ===== verification/ForkMmSpec.v ===== *)
(** * Reference counts of address spaces (kernel/fork.c)

    What the functions of [ForkMm] do to one mm_struct: creation leaves it with
    one user, or frees it; the last mmput frees it and an earlier one only
    counts down; a failed dup_mm leaves nothing behind. *)

From S2P Require Import Prelude KVStore TaskState ForkState ForkTask ForkMm ForkArgs ForkCopy ForkLogic.

(** The two counts of an mm_struct. *)
Abbreviation COUNTS := [f_mm_users; f_mm_count].

Section MmSpec.
Context `{World}.
Context {E : Type}.
Variable current : Z.
Variables MMF_INIT_MASK VM_INIT_DEF_MASK default_dump_filter : Z.
Variable mm : Z.

Lemma free_mm_ok s1 (X : E -> kst -> Prop) F :
  triple (only mm F s1) (free_mm mm) (fun _ => freed mm s1) X.
Proof.
  intros s Hs. exists (set_vmas (delete mm (vmas s)) s). split; [|done].
  eapply only_trans; [eapply only_weaken; [|exact Hs]; set_solver|]. split; try done.
  intros b Hb. simpl. by rewrite lookup_delete_ne.
Qed.

Lemma pgd_confined : confined (E := E) mm COUNTS (mm_alloc_pgd mm).
Proof. unfold mm_alloc_pgd. confine. Qed.

Lemma mm_free_pgd_confined : confined (E := E) mm COUNTS (mm_free_pgd mm).
Proof. unfold mm_free_pgd. confine. Qed.

Lemma set_mm_exe_file_confined file : confined (E := E) mm COUNTS (set_mm_exe_file mm file).
Proof. unfold set_mm_exe_file. confine. Qed.

Lemma mm_clear_owner_confined p : confined (E := E) mm COUNTS (mm_clear_owner mm p).
Proof. unfold mm_clear_owner. confine. Qed.

Lemma mm_init_owner_confined p : confined (E := E) mm COUNTS (mm_init_owner mm p).
Proof. unfold mm_init_owner. confine. Qed.

Lemma link_vma_confined v : confined (E := E) mm COUNTS (link_vma mm v).
Proof.
  unfold link_vma. confine. intros s. split; try done.
  intros b Hb. simpl. by rewrite lookup_insert_ne.
Qed.

#[local] Hint Resolve pgd_confined mm_free_pgd_confined set_mm_exe_file_confined mm_clear_owner_confined
  mm_init_owner_confined link_vma_confined : confined.

Lemma exit_mmap_confined : confined (E := E) mm COUNTS (modify (fun s => set_vmas (<[mm := []]> (vmas s)) s)).
Proof. apply (confined_vmas mm _ (<[mm := []]>)). intros. by apply lookup_insert_ne. Qed.

Lemma dup_one_confined i v : confined (E := E) mm COUNTS (dup_one mm i v).
Proof.
  unfold dup_one. destruct (decide (VM_DONTCOPY ∈ v_flags v)); [confine|].
  destruct (if bool_decide (VM_WIPEONFORK ∈ v_flags v) then _ else _) as [r pages].
  confine.
Qed.

Lemma dup_areas_confined l : forall i, confined (E := E) mm COUNTS (dup_areas mm i l).
Proof.
  induction l as [|v l IH]; intros i; [apply confined_ret|]. apply confined_bind; [apply dup_one_confined|].
  intros []; [apply confined_ret|apply IH].
Qed.

#[local] Hint Resolve dup_areas_confined : confined.

Lemma dup_mmap_confined oldmm : confined (E := E) mm COUNTS (dup_mmap mm oldmm).
Proof.
  unfold dup_mmap, dup_mm_exe_file, get_mm_exe_file, copy_field. confine.
Qed.

(** ** An mm_struct with one user *)

Definition one_user (s1 s : kst) : Prop :=
  only mm [] s1 s /\ fld s mm f_mm_users = 1 /\ fld s mm f_mm_count = 1.

Lemma one_user_step {A} s1 (m : prog E A) X :
  confined mm COUNTS m -> triple (one_user s1) m (fun _ => one_user s1) X.
Proof.
  intros Hm. eapply triple_confined; [exact Hm|]. intros s s' _ (H1 & Hu & Hc) Ho. split_and!.
  - eapply only_trans; [exact H1|]. eapply only_weaken; [|exact Ho]. set_solver.
  - rewrite (on_fld _ _ _ _ Ho) by set_solver. done.
  - rewrite (on_fld _ _ _ _ Ho) by set_solver. done.
Qed.

Lemma only_step {A} s1 (m : prog E A) X :
  confined mm COUNTS m -> triple (only mm [] s1) m (fun _ => only mm [] s1) X.
Proof.
  intros Hm. eapply triple_confined; [exact Hm|]. intros s s' _ H1 Ho.
  eapply only_trans; [exact H1|]. eapply only_weaken; [|exact Ho]. set_solver.
Qed.

Lemma one_user_free s1 X : triple (E := E) (one_user s1) (free_mm mm) (fun _ => freed mm s1) X.
Proof. eapply triple_weaken; [apply (free_mm_ok s1)|by intros s []|done|done]. Qed.

Ltac one_user_steps :=
  repeat (eapply triple_bind; [apply one_user_step; solve [confine]|intros ?]).

(** A fresh mm_struct gets one user and one count, or is freed again. *)
Lemma mm_init_ok p ns s1 (X : E -> kst -> Prop) :
  is_Some (heap s1 !! mm) ->
  triple (only mm [] s1)
    (mm_init current MMF_INIT_MASK VM_INIT_DEF_MASK default_dump_filter mm p ns)
    (fun r s => (r = 0 /\ freed mm s1 s) \/ (r = mm /\ one_user s1 s)) X.
Proof.
  intros Hlive. unfold mm_init, mm_init_aio, mm_init_pasid, mm_init_uprobes_state.
  eapply (triple_seq _ _ _ (only mm [] s1)).
  { eapply triple_confined; [apply (confined_vmas mm [] (<[mm := []]>)); intros; by apply lookup_insert_ne|].
    intros s s' _ H1 Ho. by eapply only_trans. }
  eapply (triple_seq _ _ _ (only mm [] s1)).
  { eapply (triple_confined mm []); [apply confined_wr; not_in|]. intros s s' _ H1 Ho. by eapply only_trans. }
  eapply (triple_seq _ _ _ (fun s => only mm [] s1 s /\ fld s mm f_mm_users = 1)).
  { apply triple_wr. intros s Hs. split; [eapply only_trans; [exact Hs|]; apply (only_wr (E := E)); not_in|].
    rewrite fld_wr, !decide_True; [done|by apply (on_live _ _ _ _ Hs)|done]. }
  eapply (triple_seq _ _ _ (one_user s1)).
  { apply triple_wr. intros s [Hs Hu]. split_and!; [eapply only_trans; [exact Hs|]; apply (only_wr (E := E)); not_in|..].
    - rewrite fld_wr, decide_False by naive_solver. done.
    - rewrite fld_wr, !decide_True; [done|by apply (on_live _ _ _ _ Hs)|done]. }
  one_user_steps. destruct (nonzero _).
  { eapply triple_seq; [apply one_user_free|]. apply triple_ret. by left. }
  one_user_steps. destruct (nonzero _).
  { one_user_steps. eapply triple_seq; [apply one_user_free|]. apply triple_ret. by left. }
  one_user_steps. apply triple_ret. by right.
Qed.

(** The same without the number of users. *)
Definition counted (s1 s : kst) : Prop := only mm [] s1 s /\ fld s mm f_mm_count = 1.

Lemma counted_step {A} s1 (m : prog E A) X :
  confined mm COUNTS m -> triple (counted s1) m (fun _ => counted s1) X.
Proof.
  intros Hm. eapply triple_confined; [exact Hm|]. intros s s' _ [H1 Hc] Ho. split.
  - eapply only_trans; [exact H1|]. eapply only_weaken; [|exact Ho]. set_solver.
  - rewrite (on_fld _ _ _ _ Ho) by set_solver. done.
Qed.

(** The last count frees the structure. *)
Lemma mmdrop_last s1 (X : E -> kst -> Prop) :
  triple (counted s1) (mmdrop mm) (fun _ => freed mm s1) X.
Proof.
  intros s (Hs & Hc). unfold mmdrop, bind at 1. rewrite dec_eq, Hc.
  set (s' := snd (wr mm f_mm_count _ s)). assert (Hs' : only mm [] s1 s').
  { eapply only_trans; [exact Hs|]. apply (only_wr (E := E)). not_in. }
  assert (Ht : triple (only mm [] s1) (mmdrop_final mm) (fun _ => freed mm s1) X); [|by apply Ht].
  unfold mmdrop_final. repeat (eapply triple_bind; [apply only_step; solve [confine]|intros ?]).
  apply free_mm_ok.
Qed.

(** So does the last user, by way of exit_mmap. *)
Lemma mmput_last s1 (X : E -> kst -> Prop) :
  triple (one_user s1) (mmput mm) (fun _ => freed mm s1) X.
Proof.
  intros s (Hs & Hu & Hc). unfold mmput, bind at 1. rewrite dec_eq, Hu. cbn [when Z.sub Z.eqb].
  set (s' := snd (wr mm f_mm_users _ s)).
  assert (Hs' : counted s1 s').
  { split; [eapply only_trans; [exact Hs|]; apply (only_wr (E := E)); not_in|].
    unfold s'. rewrite fld_wr, decide_False by naive_solver. done. }
  assert (Ht : triple (counted s1) (mmput_final mm)
            (fun _ => freed mm s1) X); [|by apply Ht].
  unfold mmput_final.
  repeat (eapply triple_bind; [apply counted_step; first [apply exit_mmap_confined | solve [confine]]|intros ?]).
  apply mmdrop_last.
Qed.

End MmSpec.

Section DupMm.
Context `{World}.
Context {E : Type}.
Hypothesis Hw : world_ok.
Variable current : Z.
Variables MMF_INIT_MASK VM_INIT_DEF_MASK default_dump_filter : Z.

Definition alloc_mm (a : Z) (s : kst) : kst := set_heap (<[a := garbage "mm_struct"]> (heap s)) s.

(** The error path of dup_mm. *)
Lemma free_pt_ok mm s1 (X : E -> kst -> Prop) :
  triple (one_user mm s1) (wr mm f_binfmt 0 ;;; mm_init_owner mm 0 ;;; mmput mm ;;; ret 0)
    (fun r s => r = 0 /\ freed mm s1 s) X.
Proof.
  eapply triple_seq; [apply one_user_step; confine|].
  eapply triple_seq; [apply one_user_step, mm_init_owner_confined|].
  eapply triple_seq; [apply mmput_last|]. by apply triple_ret.
Qed.

(** dup_mm gives a new mm_struct with one user, or NULL and nothing is left of
    what it allocated. *)
Lemma dup_mm_ok tsk oldmm s (X : E -> kst -> Prop) :
  triple (eq s) (dup_mm current MMF_INIT_MASK VM_INIT_DEF_MASK default_dump_filter tsk oldmm)
    (fun r s' =>
       (r = 0 /\ s' = s) \/
       exists a, heap s !! a = None /\ 0 < a /\
         ((r = 0 /\ freed a (alloc_mm a s) s') \/ (r = a /\ one_user a (alloc_mm a s) s'))) X.
Proof.
  intros ? <-. unfold dup_mm. unfold bind at 1, alloc_obj.
  destruct (kmem_cache_alloc "mm_struct" (dom (heap s))) as [a|] eqn:Ea; [|by left].
  destruct (wo_slab Hw _ _ _ Ea) as [Hn Ha]. apply not_elem_of_dom in Hn.
  rewrite (proj2 (Z.eqb_neq a 0)) by lia. fold (alloc_mm a s).
  assert (Hlive : is_Some (heap (alloc_mm a s) !! a)) by (simpl; rewrite lookup_insert_eq; eauto).
  apply (triple_at (alloc_mm a s)).
  eapply (triple_weaken (only a [] (alloc_mm a s)) _ _
    (fun r s' => (r = 0 /\ freed a (alloc_mm a s) s') \/ (r = a /\ one_user a (alloc_mm a s) s')) _ X X);
    [|intros ? <-; apply only_refl|right; by exists a|done].
  eapply triple_seq; [eapply triple_confined; [apply confined_copy_obj|intros ? ? ? ? ?; by eapply only_trans]|].
  eapply triple_bind; [apply only_step; confine|]. intros ns.
  eapply triple_bind; [by apply mm_init_ok|]. intros ok.
  destruct (Z.eqb_spec ok 0) as [->|Hok].
  { apply triple_ret. intros s' [[_ Hf]|[<- _]]; [by left|done]. }
  eapply triple_bind with (R := fun _ => one_user a (alloc_mm a s)).
  { eapply triple_weaken; [apply one_user_step, dup_mmap_confined|by intros s' [[-> _]|[_ ?]]|done|done]. }
  intros err. destruct (nonzero err).
  { eapply triple_weaken; [apply free_pt_ok|done|by left|done]. }
  repeat (eapply triple_bind; [apply one_user_step; solve [confine]|intros ?]).
  destruct (nonzero _); [apply triple_ret; by right|].
  eapply triple_weaken; [apply free_pt_ok|done|by left|done].
Qed.

End DupMm.
