(* ===== verification/ForkErrno.v ===== *)
(** * Failures of copy_process are errnos (kernel/fork.c)

    Whatever makes copy_process give up, the value it returns is a negative
    errno, so that IS_ERR tells a failure from a task. *)

From S2P Require Import Prelude KVStore TaskState ForkState ForkTask ForkMm ForkArgs ForkCopy ForkLogic.
From S2P Require Import ForkTaskSpec ForkMmSpec.

(** [m] returns a value in [R] or jumps with a negative retval. *)
Definition errs {A} (R : A -> Prop) (m : prog jump A) : Prop :=
  forall s, match m s with (inl x, _) => R x | (inr j, _) => j_retval j < 0 end.

Abbreviation any := (fun _ => True).

Lemma errs_bind {A B} (R : A -> Prop) (R' : B -> Prop) m k :
  errs R m -> (forall x, R x -> errs R' (k x)) -> errs R' (bind m k).
Proof.
  intros Hm Hk s. unfold bind. specialize (Hm s). destruct (m s) as [[x|e] s']; [by apply Hk|done].
Qed.

Lemma errs_ret {A} (R : A -> Prop) x : R x -> errs R (ret x).
Proof. by intros Hx s. Qed.

Lemma errs_goto {A} (R : A -> Prop) l r v : r < 0 -> errs R (goto l r v).
Proof. by intros Hr s. Qed.

Lemma errs_nothrow {A} (m : prog jump A) : nothrow m -> errs any m.
Proof. intros Hm s. by destruct (Hm s) as [x ->]. Qed.

Lemma errs_check r l v : r <= 0 -> errs any (check r l v).
Proof.
  intros Hr. unfold check. destruct (nonzero r) eqn:E; [|by apply errs_ret].
  apply errs_goto. apply nonzero_true in E. lia.
Qed.

Lemma errs_check_neg r l v : errs any (check_neg r l v).
Proof. unfold check_neg. destruct (Z.ltb_spec r 0); [by apply errs_goto|by apply errs_ret]. Qed.

Lemma errs_when b m : errs any m -> errs any (when b m).
Proof. destruct b; [done|]. intros _. by apply errs_ret. Qed.

Lemma errs_if {A} (R : A -> Prop) (b : bool) m1 m2 : errs R m1 -> errs R m2 -> errs R (if b then m1 else m2).
Proof. by destruct b. Qed.

Section Errno.
Context `{World}.

Lemma errs_xcall name : errs (fun r => r = ext name) (xcall name).
Proof. by intros s. Qed.

Lemma errs_any {A} (R : A -> Prop) m : errs R m -> errs any m.
Proof. intros Hm s. specialize (Hm s). by destruct (m s) as [[x|e] s']. Qed.

Lemma dup_task_struct_nothrow orig : nothrow (E := jump) (dup_task_struct orig).
Proof.
  unfold dup_task_struct, free_task_struct, arch_dup_task_struct, task_stack_vm_area.
  apply nothrow_bind; [intros s; unfold alloc_obj; destruct (kmem_cache_alloc _ _); by eexists|]. intros tsk.
  pose proof (confined_nothrow _ _ _ (alloc_thread_stack_confined (E := jump) tsk _ stackless_nil)).
  pose proof (confined_nothrow _ _ _ (memcg_charge_confined (E := jump) tsk [])).
  pose proof (confined_nothrow _ _ _ (free_thread_stack_confined (E := jump) tsk [])).
  pose proof (confined_nothrow _ _ _ (dup_task_finish_confined (E := jump) tsk orig)).
  no_goto.
Qed.

Lemma dup_mm_nothrow current mask def_mask filter tsk oldmm :
  nothrow (E := jump) (dup_mm current mask def_mask filter tsk oldmm).
Proof.
  unfold dup_mm, mm_init, mm_init_aio, mm_init_owner, mm_init_pasid, mm_init_uprobes_state, mm_alloc_pgd, mm_free_pgd,
    free_mm, mmput, mmput_final, set_mm_exe_file, mmdrop, mmdrop_final, mm_free_pgd, free_mm, dec_and_test.
  apply nothrow_bind; [intros s; unfold alloc_obj; destruct (kmem_cache_alloc _ _); by eexists|]. intros mm.
  pose proof (confined_nothrow _ _ _ (dup_mmap_confined (E := jump) mm oldmm)). no_goto.
Qed.

(** ** The resources: 0 or a negative errno *)

Ltac errs_step := eapply errs_bind; [apply errs_nothrow; solve [no_goto]|intros ? _].
Ltac errs_ends := repeat first [ errs_step | apply errs_if | apply errs_ret; unfold ENOMEM, EAGAIN; lia ].

Abbreviation nonpos := (fun r => r <= 0).

Lemma copy_files_errs current fl p : errs nonpos (copy_files current fl p).
Proof.
  unfold copy_files. errs_step. do 2 (apply errs_if; [errs_ends|]).
  eapply (errs_bind any); [by apply errs_nothrow; intros s; eexists|]. intros newf _.
  destruct (Z.ltb_spec newf 0); [apply errs_ret; lia|errs_ends].
Qed.

Lemma copy_fs_errs current fl p : errs nonpos (copy_fs current fl p).
Proof.
  unfold copy_fs. errs_step. apply errs_if; [errs_ends|].
  eapply (errs_bind any); [by apply errs_nothrow; intros s; eexists|]. intros new _.
  errs_step. apply errs_ret. unfold ENOMEM. destruct (new =? 0); lia.
Qed.

Lemma alloc_nothrow cache : nothrow (E := jump) (alloc_obj cache).
Proof. intros s. unfold alloc_obj. destruct (kmem_cache_alloc _ _); by eexists. Qed.

Lemma copy_sighand_errs current fl p : errs nonpos (copy_sighand current fl p).
Proof.
  unfold copy_sighand. errs_step. apply errs_if; [errs_ends|].
  eapply (errs_bind any); [apply errs_nothrow, alloc_nothrow|]. intros sig _. errs_ends.
Qed.

Lemma copy_signal_errs current fl p : errs nonpos (copy_signal current fl p).
Proof.
  unfold copy_signal, posix_cpu_timers_init_group, copy_field. apply errs_if; [errs_ends|].
  eapply (errs_bind any); [apply errs_nothrow, alloc_nothrow|]. intros sig _. errs_ends.
Qed.

Lemma copy_mm_errs current mask def_mask filter fl p : errs nonpos (copy_mm current mask def_mask filter fl p).
Proof.
  unfold copy_mm, mmget, inc. do 8 errs_step. apply errs_if; [errs_ends|]. errs_step. apply errs_if; [errs_ends|].
  eapply (errs_bind any); [apply errs_nothrow, dup_mm_nothrow|]. intros mm _. errs_ends.
Qed.

Lemma copy_io_errs current fl p : errs nonpos (copy_io current fl p).
Proof. unfold copy_io. errs_ends. Qed.

Create HintDb errs discriminated.
#[local] Hint Resolve copy_files_errs copy_fs_errs copy_sighand_errs copy_signal_errs copy_mm_errs copy_io_errs : errs.

(** ** The body of copy_process *)

Hypothesis Hw : world_ok.
Variable current : Z.
Variables MMF_INIT_MASK VM_INIT_DEF_MASK default_dump_filter : Z.
Variable init_struct_pid : Z.
Variables (pid0 : Z) (args : clone_args).

Lemma errs_call_check {A} (R : A -> Prop) name l v k :
  name ∈ errno_calls -> errs R k -> errs R (let* r := xcall name in check r l v ;;; k).
Proof.
  intros Hn Hk. eapply errs_bind; [apply errs_xcall|]. intros r ->.
  eapply errs_bind; [apply errs_check; apply (wo_errno Hw name Hn)|]. by intros.
Qed.

Lemma errs_res_check {A} (R : A -> Prop) m l v k :
  errs nonpos m -> errs R k -> errs R (let* r := m in check r l v ;;; k).
Proof.
  intros Hm Hk. eapply errs_bind; [exact Hm|]. intros r Hr.
  eapply errs_bind; [by apply errs_check|]. by intros.
Qed.

Ltac listed := unfold errno_calls; rewrite !elem_of_cons; auto 12.

(** Sequences, calls without a check, and jumps with a constant. *)
Ltac errs_body :=
  repeat first
    [ apply errs_check_neg
    | apply errs_call_check; [by listed|]
    | apply errs_res_check; [solve [auto with errs nocore]|]
    | errs_step
    | apply errs_goto; unfold ERESTARTNOINTR, ENOMEM, EAGAIN, EINTR; lia
    | by apply errs_ret
    | match goal with |- errs _ (when _ _) => apply errs_when end
    | match goal with |- errs _ (bind _ _) => eapply (errs_bind any); [|intros ? _] end
    | apply errs_nothrow; solve [no_goto] ].

Lemma dup_errs : errs any (copy_process_dup current pid0 args).
Proof.
  unfold copy_process_dup, link_delayed. pose proof (dup_task_struct_nothrow current). errs_body.
Qed.

Lemma limits_errs p : errs any (copy_process_limits current pid0 p).
Proof.
  unfold copy_process_limits, rt_mutex_init_task. errs_body.
Qed.

Lemma init_errs p : errs any (copy_process_init current pid0 p).
Proof.
  unfold copy_process_init, rcu_copy_process. repeat errs_step.
  eapply (errs_bind any); [|intros ? _; errs_body].
  apply errs_when. eapply errs_bind; [apply errs_nothrow; no_goto|intros pol _].
  destruct (Z.ltb_spec pol 0) as [Hp|Hp]; cbn [when]; [|errs_body].
  eapply (errs_bind any); [|intros ? _; errs_body]. errs_step. by apply errs_goto.
Qed.

Lemma resources_errs p :
  errs any (copy_process_resources current MMF_INIT_MASK VM_INIT_DEF_MASK default_dump_filter pid0 args p).
Proof.
  unfold copy_process_resources. errs_body.
Qed.

Lemma pid_errs p : errs any (copy_process_pid init_struct_pid pid0 args p).
Proof.
  unfold copy_process_pid. eapply (errs_bind any).
  { apply errs_if; errs_body. }
  intros pid _. apply errs_if; [|errs_body].
  eapply errs_bind; [apply errs_nothrow; no_goto|intros fd _].
  eapply (errs_bind any); [apply errs_check_neg|intros ? _].
  eapply errs_bind; [apply errs_nothrow; no_goto|intros file _].
  eapply (errs_bind any).
  { destruct (Z.ltb_spec file 0); [|errs_body]. errs_step. by apply errs_goto. }
  intros ? _. errs_body.
Qed.

Lemma kv_errs p : errs any (copy_process_kv current args p).
Proof.
  unfold copy_process_kv. apply errs_if; [errs_body|]. intros s.
  by destruct (init_task_kv_store _ _ _ _) as [[r t'] m].
Qed.

Lemma ids_errs v : errs any (copy_process_ids current args v).
Proof. unfold copy_process_ids, copy_field. errs_body. Qed.

Lemma parent_errs v : errs any (copy_process_parent current args v).
Proof. unfold copy_process_parent, copy_field, rseq_fork. errs_body. Qed.

(** Every jump of copy_process carries a negative errno. *)
Lemma body_errs :
  errs any (copy_process_body current MMF_INIT_MASK VM_INIT_DEF_MASK default_dump_filter init_struct_pid pid0 args).
Proof.
  unfold copy_process_body. eapply errs_bind; [apply dup_errs|intros p _].
  eapply errs_bind; [apply limits_errs|intros ? _]. eapply errs_bind; [apply init_errs|intros ? _].
  eapply errs_bind; [apply resources_errs|intros ? _]. eapply errs_bind; [apply pid_errs|intros v _].
  do 2 errs_step. eapply errs_bind; [apply kv_errs|intros ? _]. eapply errs_bind; [apply ids_errs|intros ? _].
  eapply errs_bind; [apply parent_errs|intros ? _]. by apply errs_ret.
Qed.

(** So do the checks of the flags. *)
Lemma flags_errs fl a b c : copy_process_flags fl a b c <= 0.
Proof. unfold copy_process_flags, EINVAL. repeat case_match; lia. Qed.

End Errno.
