(* ===== verification/ForkLevels.v ===== *)
(** * What a failed copy_process leaves behind (kernel/fork.c)

    copy_process acquires some twenty resources one after the other; when a
    step fails it jumps to a label from which the cleanup code releases what
    was acquired.  This file describes the state at every jump and proves that
    the code from each label undoes exactly that. *)

From S2P Require Import Prelude KVStore TaskState ForkState ForkTask ForkMm ForkArgs ForkCopy ForkLogic ForkMmSpec.

Section Unwind.
Context `{World}.
Hypothesis Hw : world_ok.
Variable current : Z.
Variables MMF_INIT_MASK VM_INIT_DEF_MASK default_dump_filter : Z.
Variable init_struct_pid : Z.
Variables (pid0 : Z) (tracing : bool) (args : clone_args).
(** The state in which the copy starts, and the key-value memory since. *)
Variable s0 : kst.
Variable K : kvmem.

Abbreviation fl := (a_flags args).
Abbreviation cur f := (fld s0 current f).

(** A state as fork finds it: current and what it refers to exist and are
    referenced, and nothing is at NULL. *)
Record start_ok : Prop := {
  so_current : is_Some (heap s0 !! current);
  so_null : heap s0 !! 0 = None;
  so_fs : is_Some (heap s0 !! cur f_fs) /\ 1 <= fld s0 (cur f_fs) f_users;
  so_files : cur f_files <> 0 ->
    is_Some (heap s0 !! cur f_files) /\ 1 <= fld s0 (cur f_files) f_files_count;
  so_sighand : is_Some (heap s0 !! cur f_sighand) /\ 1 <= fld s0 (cur f_sighand) f_sig_count;
  so_signal : is_Some (heap s0 !! cur f_signal);
  so_mm : cur f_mm <> 0 ->
    is_Some (heap s0 !! cur f_mm) /\ 1 <= fld s0 (cur f_mm) f_mm_users /\
    (fld s0 (cur f_mm) f_owner = 0 \/ is_Some (heap s0 !! fld s0 (cur f_mm) f_owner));
}.
Hypothesis Hs0 : start_ok.

(** ** The resources of fork.c, in the order they are acquired

    1 files, 2 fs, 3 sighand, 4 signal, 5 mm; the level is how many of them
    are held. *)

(** The new objects made for the child, where it does not share. *)
Record news := News {
  n_files : option Z; n_fs : option Z; n_sighand : option Z; n_signal : option Z; n_mm : option Z;
}.

Definition news_list (n : news) : list Z :=
  omap id [n_files n; n_fs n; n_sighand n; n_signal n; n_mm n].

Lemma news_in n a :
  n_files n = Some a \/ n_fs n = Some a \/ n_sighand n = Some a \/ n_signal n = Some a \/
  n_mm n = Some a <-> a ∈ news_list n.
Proof.
  unfold news_list. rewrite list_elem_of_omap. split.
  - intros Hn. exists (Some a). rewrite !elem_of_cons. split; [intuition congruence|done].
  - unfold id. intros (o & Ho & ->). rewrite !elem_of_cons, elem_of_nil in Ho. intuition congruence.
Qed.

(** The references taken on the objects of the parent. *)
Definition taken (b : bool) (x a : Z) (g f : field) : Z :=
  if b && nonzero x && (a =? x) && bool_decide (f = g) then 1 else 0.

Definition bump (lv : nat) (a : Z) (f : field) : Z :=
  taken ((1 <=? lv)%nat && has fl CLONE_FILES) (cur f_files) a f_files_count f +
  taken ((2 <=? lv)%nat && has fl CLONE_FS) (cur f_fs) a f_users f +
  taken ((3 <=? lv)%nat && has fl CLONE_SIGHAND) (cur f_sighand) a f_sig_count f +
  taken ((5 <=? lv)%nat && has fl CLONE_VM) (cur f_mm) a f_mm_users f.

(** The node of the signals delayed during the fork is linked. *)
Definition multi1 : gmap Z nat :=
  if has fl CLONE_THREAD then multiprocess s0 else alter S (cur f_signal) (multiprocess s0).

(** What copy_process does to the flags of the current task. *)
Definition flags_ok (s : kst) : Prop :=
  cur f_flags = fld s current f_flags \/ fld s current f_flags = clear_flags (cur f_flags) PF_NPROC_EXCEEDED.

(** Nothing but the heap, the lists of new objects and the trace differs. *)
Record quiet (s : kst) : Prop := {
  qt_tasks : tasks s = tasks s0;
  qt_counters : nr_threads s = nr_threads s0 /\ total_forks s = total_forks s0 /\
    max_threads s = max_threads s0 /\ process_counts s = process_counts s0;
  qt_kvs : kvs s = K;
}.

(** The heap is that of [s0] with the child [p], the new objects [N] and the
    changes [B] to fields of old objects; the old objects have what they had
    hanging off them. *)
Record held (B : Z -> field -> Z) (N : list Z) (p : Z) (s : kst) : Prop := {
  h_p : heap s0 !! p = None /\ 0 < p;
  h_dom : forall a, is_Some (heap s !! a) <-> is_Some (heap s0 !! a) \/ a = p \/ a ∈ N;
  h_new : Forall (fun a => heap s0 !! a = None /\ a <> p /\ 0 < a) N;
  h_nodup : NoDup N;
  h_old : forall a f, is_Some (heap s0 !! a) -> (a, f) <> (current, f_flags) ->
    fld s a f = fld s0 a f + B a f;
  h_rest : forall a, is_Some (heap s0 !! a) ->
    vmas s !! a = vmas s0 !! a /\ children s !! a = children s0 !! a /\
    thread_group s !! a = thread_group s0 !! a /\ thread_head s !! a = thread_head s0 !! a /\
    multiprocess s !! a = multi1 !! a;
  h_flags : flags_ok s;
  h_rcu : rcu_queue s = rcu_queue s0;
  h_quiet : quiet s;
}.

Lemma flags_same s s' : fld s' current f_flags = fld s current f_flags -> flags_ok s -> flags_ok s'.
Proof. unfold flags_ok. by intros ->. Qed.

Lemma quiet_only a F s s' : only a F s s' -> quiet s -> quiet s'.
Proof.
  intros Ho [qt qc qk]. split; [by rewrite (on_tasks _ _ _ _ Ho)| |].
  - destruct (on_counters _ _ _ _ Ho) as (-> & -> & -> & ->). done.
  - by rewrite (on_kvs _ _ _ _ Ho).
Qed.

Lemma quiet_heap h s : quiet s -> quiet (set_heap h s).
Proof. by intros []. Qed.

Lemma old_not_new B N p s a : held B N p s -> is_Some (heap s0 !! a) -> a <> p /\ ~ (a ∈ N).
Proof.
  intros Hh Ha. split.
  - intros ->. destruct (h_p _ _ _ _ Hh) as [E _]. rewrite E in Ha. by destruct Ha.
  - intros Hn. pose proof (h_new _ _ _ _ Hh) as Hf. rewrite Forall_forall in Hf.
    destruct (Hf a Hn) as [E _]. rewrite E in Ha. by destruct Ha.
Qed.

(** Work on the child or on a new object. *)
Lemma held_only B N p F s s' a :
  a = p \/ a ∈ N -> only a F s s' -> held B N p s -> held B N p s'.
Proof.
  intros Ha Ho Hh.
  assert (Hne : forall b, is_Some (heap s0 !! b) -> b <> a).
  { intros b Hb ->. destruct (old_not_new _ _ _ _ _ Hh Hb). naive_solver. }
  split; try apply Hh.
  - intros b. rewrite <- (h_dom _ _ _ _ Hh), <- !elem_of_dom. by rewrite (only_dom _ _ _ _ Ho).
  - intros b f Hb Hbf. rewrite <- (h_old _ _ _ _ Hh) by done. eapply only_fld_ne; [done|auto].
  - intros b Hb. rewrite (on_vmas _ _ _ _ Ho), (on_children _ _ _ _ Ho), (on_group _ _ _ _ Ho),
      (on_threads _ _ _ _ Ho), (on_multi _ _ _ _ Ho) by auto. by apply Hh.
  - eapply flags_same; [|apply Hh]. eapply only_fld_ne; [exact Ho|]. apply Hne, Hs0.
  - rewrite (on_rcu _ _ _ _ Ho). apply Hh.
  - eapply quiet_only; [done|apply Hh].
Qed.

Lemma held_perm B N N' p s : N ≡ₚ N' -> held B N p s -> held B N' p s.
Proof.
  intros Hp Hh. split; try apply Hh.
  - intros a. rewrite (h_dom _ _ _ _ Hh). by rewrite Hp.
  - rewrite <- Hp. apply Hh.
  - rewrite <- Hp. apply Hh.
Qed.

Lemma held_ext B B' N p s : (forall a f, B a f = B' a f) -> held B N p s -> held B' N p s.
Proof.
  intros Hb Hh. split; try apply Hh. intros a f Ha Haf. rewrite <- Hb. by apply Hh.
Qed.

(** Two states with the same fields, lists and counters. *)
Lemma held_heap B N p s h :
  held B N p s ->
  (forall a, is_Some (heap s0 !! a) -> h !! a = heap s !! a) ->
  (forall N', (forall a, is_Some (h !! a) <-> is_Some (heap s0 !! a) \/ a = p \/ a ∈ N') ->
     Forall (fun a => heap s0 !! a = None /\ a <> p /\ 0 < a) N' -> NoDup N' ->
     held B N' p (set_heap h s)).
Proof.
  intros Hh Heq N' Hd Hf Hn. split; try done; try apply Hh.
  - intros a f Ha Haf. rewrite <- (h_old _ _ _ _ Hh) by done. unfold fld. simpl. by rewrite Heq.
  - eapply flags_same; [|apply Hh]. unfold fld. simpl. rewrite Heq; [done|apply Hs0].
  - apply quiet_heap, Hh.
Qed.

Lemma held_alloc B N p s a o :
  held B N p s -> heap s !! a = None -> 0 < a -> held B (a :: N) p (set_heap (<[a := o]> (heap s)) s).
Proof.
  intros Hh Hn Ha.
  assert (Hd : ~ (is_Some (heap s0 !! a) \/ a = p \/ a ∈ N)).
  { rewrite <- (h_dom _ _ _ _ Hh), Hn. by intros [? [=]]. }
  apply (held_heap B N); [done| | | |].
  - intros b Hb. rewrite lookup_insert_ne; [done|]. intros ->. tauto.
  - intros b. rewrite elem_of_cons, lookup_insert_is_Some, (h_dom _ _ _ _ Hh).
    destruct (decide (a = b)); naive_solver.
  - constructor; [|apply Hh]. split_and!; [|tauto|done]. destruct (heap s0 !! a) eqn:E; [|done].
    exfalso. apply Hd. left. by eexists.
  - constructor; [tauto|apply Hh].
Qed.

Lemma held_free B N p s a :
  held B (a :: N) p s -> held B N p (set_heap (delete a (heap s)) s).
Proof.
  intros Hh. pose proof (h_new _ _ _ _ Hh) as Hf. apply Forall_cons in Hf as [(Ha & Hap & _) Hf].
  pose proof (h_nodup _ _ _ _ Hh) as Hnd. apply NoDup_cons in Hnd as [Hna Hnd].
  apply (held_heap B (a :: N)); [done| | |done|done].
  - intros b Hb. rewrite lookup_delete_ne; [done|]. intros ->. rewrite Ha in Hb. by destruct Hb.
  - intros b. rewrite lookup_delete_is_Some, (h_dom _ _ _ _ Hh), elem_of_cons.
    destruct (decide (a = b)) as [<-|]; [|naive_solver]. rewrite Ha. split; [naive_solver|].
    intros [[? [=]]|[->|?]]; done.
Qed.

(** A change of [d] to a field of an old object. *)
Lemma held_bump {E} B N p s x g d :
  held B N p s -> is_Some (heap s0 !! x) -> (x, g) <> (current, f_flags) ->
  held (fun a f => B a f + if decide (a = x /\ f = g) then d else 0) N p
    (snd (wr (E := E) x g (fld s x g + d) s)).
Proof.
  intros Hh Hx Hxg. assert (Hlive : is_Some (heap s !! x)) by (apply (h_dom _ _ _ _ Hh); auto).
  split; try apply Hh.
  - intros a. rewrite <- (h_dom _ _ _ _ Hh). simpl. rewrite lookup_alter_is_Some. done.
  - intros a f Ha Haf. rewrite fld_wr. case_decide as Hd.
    + destruct Hd as [-> ->]. rewrite decide_True by done. rewrite (h_old _ _ _ _ Hh) by done. lia.
    + rewrite (h_old _ _ _ _ Hh) by done. lia.
  - eapply flags_same; [|apply Hh]. rewrite fld_wr, decide_False by naive_solver. done.
  - apply quiet_heap, Hh.
Qed.

(** current->flags &= ~PF_NPROC_EXCEEDED *)
Lemma held_flags {E} B N p s :
  held B N p s ->
  held B N p (snd (wr (E := E) current f_flags (clear_flags (fld s current f_flags) PF_NPROC_EXCEEDED) s)).
Proof.
  intros Hh. assert (Hc : is_Some (heap s !! current)) by (apply (h_dom _ _ _ _ Hh); left; apply Hs0).
  split; try apply Hh.
  - intros a. rewrite <- (h_dom _ _ _ _ Hh). simpl. by rewrite lookup_alter_is_Some.
  - intros a f Ha Haf. rewrite fld_wr, decide_False; [by apply Hh|]. intros [-> ->]. done.
  - right. rewrite fld_wr, !decide_True by done. destruct (h_flags _ _ _ _ Hh) as [<-| ->]; [done|].
    unfold clear_flags. rewrite Z.ldiff_ldiff_l. by rewrite Z.lor_diag.
  - apply quiet_heap, Hh.
Qed.

(** ** Which resources are held

    At level [lv] the first [lv] resources are: the child points at them, new
    ones have one reference. *)
Record shape (lv : nat) (n : news) (p : Z) (s : kst) : Prop := {
  sh_files : (1 <= lv)%nat -> fld s p f_files = default (cur f_files) (n_files n);
  sh_fs : (2 <= lv)%nat -> fld s p f_fs = default (cur f_fs) (n_fs n);
  sh_sighand : (3 <= lv)%nat -> fld s p f_sighand = default (cur f_sighand) (n_sighand n);
  sh_signal : (4 <= lv)%nat -> fld s p f_signal = default (cur f_signal) (n_signal n);
  sh_mm : (5 <= lv)%nat -> fld s p f_mm = default (cur f_mm) (n_mm n);
  sh_is_files : is_Some (n_files n) <-> (1 <= lv)%nat /\ has fl CLONE_FILES = false /\ cur f_files <> 0;
  sh_is_fs : is_Some (n_fs n) <-> (2 <= lv)%nat /\ has fl CLONE_FS = false;
  sh_is_sighand : is_Some (n_sighand n) <-> (3 <= lv)%nat /\ has fl CLONE_SIGHAND = false;
  sh_is_signal : is_Some (n_signal n) <-> (4 <= lv)%nat /\ has fl CLONE_THREAD = false;
  sh_is_mm : is_Some (n_mm n) <-> (5 <= lv)%nat /\ has fl CLONE_VM = false /\ cur f_mm <> 0;
  sh_files1 : forall a, n_files n = Some a -> fld s a f_files_count = 1;
  sh_fs1 : forall a, n_fs n = Some a -> fld s a f_users = 1;
  sh_sighand1 : forall a, n_sighand n = Some a -> fld s a f_sig_count = 1;
  sh_signal1 : forall a, n_signal n = Some a -> fld s a f_oom_mm = 0;
  sh_mm1 : forall a, n_mm n = Some a -> fld s a f_mm_users = 1 /\ fld s a f_mm_count = 1;
}.

Definition KEY : list field := [f_files; f_fs; f_sighand; f_signal; f_mm; f_io_context].

(** The child and the new objects keep the fields that matter. *)
Lemma shape_fields lv n p s s' :
  (forall f, f ∈ KEY -> fld s' p f = fld s p f) ->
  (forall a f, a ∈ news_list n -> fld s' a f = fld s a f) ->
  shape lv n p s -> shape lv n p s'.
Proof.
  intros HK Hn0. assert (Hn : forall a f, n_files n = Some a \/ n_fs n = Some a \/ n_sighand n = Some a \/
    n_signal n = Some a \/ n_mm n = Some a -> fld s' a f = fld s a f).
  { intros a f Ha. apply Hn0. by apply news_in. }
  intros []. split; try done.
  1-5: intros ?; rewrite HK; [auto|unfold KEY; rewrite !elem_of_cons; auto 7].
  all: intros a Ha; rewrite !Hn; auto 7.
Qed.

(** The child still has the parent's pointers for what is not yet copied, and
    no io_context. *)
Definition inherits (lv : nat) (p : Z) (s : kst) : Prop :=
  ((lv < 1)%nat -> fld s p f_files = cur f_files) /\
  ((lv < 2)%nat -> fld s p f_fs = cur f_fs) /\
  ((lv < 3)%nat -> fld s p f_sighand = cur f_sighand) /\
  ((lv < 4)%nat -> fld s p f_signal = cur f_signal) /\
  fld s p f_io_context = 0.

Lemma inherits_fields lv p s s' :
  (forall f, f ∈ KEY -> fld s' p f = fld s p f) -> inherits lv p s -> inherits lv p s'.
Proof.
  intros HK (H1 & H2 & H3 & H4 & H5).
  repeat split; intros; rewrite HK; auto; unfold KEY; rewrite !elem_of_cons; auto 7.
Qed.

(** The state of the copy at level [lv]. *)
Definition at_level (lv : nat) (n : news) (p : Z) (s : kst) : Prop :=
  held (bump lv) (news_list n) p s /\ shape lv n p s.

Lemma at_level_only lv n p F s s' :
  KEY ⊆ F -> only p F s s' -> at_level lv n p s -> at_level lv n p s'.
Proof.
  intros HF Ho [Hh Hs]. split; [by eapply held_only; eauto|].
  eapply shape_fields; [| |exact Hs].
  - intros f Hf. apply (on_fld _ _ _ _ Ho). by apply HF.
  - intros a f Ha. eapply only_fld_ne; [done|]. pose proof (h_new _ _ _ _ Hh) as Hf.
    rewrite Forall_forall in Hf. by apply Hf.
Qed.

Lemma inherits_at_only lv p F s s' : KEY ⊆ F -> only p F s s' -> inherits lv p s -> inherits lv p s'.
Proof.
  intros HF Ho. apply inherits_fields. intros f Hf. apply (on_fld _ _ _ _ Ho). by apply HF.
Qed.

(** Fields of current that nothing touches. *)
Lemma bump_other lv a f :
  f <> f_files_count -> f <> f_users -> f <> f_sig_count -> f <> f_mm_users -> bump lv a f = 0.
Proof.
  intros. unfold bump, taken. rewrite !bool_decide_false by done. by rewrite !andb_false_r.
Qed.

Lemma held_cur lv N p s a f :
  held (bump lv) N p s -> is_Some (heap s0 !! a) -> f <> f_flags ->
  f <> f_files_count -> f <> f_users -> f <> f_sig_count -> f <> f_mm_users ->
  fld s a f = fld s0 a f.
Proof.
  intros Hh Ha ? ? ? ? ?. rewrite (h_old _ _ _ _ Hh), bump_other by (done || congruence). lia.
Qed.

Lemma taken_on x a g f : x <> 0 -> taken true x a g f = if decide (a = x /\ f = g) then 1 else 0.
Proof.
  intros Hx. unfold taken. rewrite (proj2 (nonzero_true x) Hx). simpl.
  destruct (Z.eqb_spec a x); simpl; [|by rewrite decide_False by naive_solver].
  destruct (decide (f = g)); [rewrite bool_decide_true, decide_True by done|
    rewrite bool_decide_false, decide_False by naive_solver]; done.
Qed.

Lemma taken_off x a g f : taken false x a g f = 0.
Proof. done. Qed.

Lemma taken_null b a g f : taken b 0 a g f = 0.
Proof. unfold taken. by rewrite andb_false_r. Qed.

Lemma bump_1 a f : bump 1 a f = bump 0 a f + taken (has fl CLONE_FILES) (cur f_files) a f_files_count f.
Proof. unfold bump. simpl. rewrite !taken_off. lia. Qed.

Lemma bump_2 a f : bump 2 a f = bump 1 a f + taken (has fl CLONE_FS) (cur f_fs) a f_users f.
Proof. unfold bump. simpl. rewrite !taken_off. lia. Qed.

Lemma bump_3 a f : bump 3 a f = bump 2 a f + taken (has fl CLONE_SIGHAND) (cur f_sighand) a f_sig_count f.
Proof. unfold bump. simpl. rewrite !taken_off. lia. Qed.

Lemma bump_4 a f : bump 4 a f = bump 3 a f.
Proof. done. Qed.

Lemma bump_5 a f : bump 5 a f = bump 4 a f + taken (has fl CLONE_VM) (cur f_mm) a f_mm_users f.
Proof. unfold bump. simpl. rewrite !taken_off. lia. Qed.

(** ** From one level to the next *)

Lemma level_wr {E} lv lv' n p s x g d :
  at_level lv n p s -> is_Some (heap s0 !! x) -> (x, g) <> (current, f_flags) ->
  (forall a f, bump lv' a f = bump lv a f + if decide (a = x /\ f = g) then d else 0) ->
  shape lv' n p s -> at_level lv' n p (snd (wr (E := E) x g (fld s x g + d) s)).
Proof.
  intros [Hh _] Hx Hxg Hb Hs. split.
  - eapply held_ext; [|by apply held_bump]. intros a f. by rewrite Hb.
  - destruct (old_not_new _ _ _ _ _ Hh Hx) as [Hxp Hxn].
    eapply shape_fields; [| |exact Hs].
    + intros f _. rewrite fld_wr, decide_False; [done|]. naive_solver.
    + intros a f Ha. rewrite fld_wr, decide_False; [done|]. intros [-> _]. done.
Qed.

Lemma level_same lv lv' n p s :
  at_level lv n p s -> (forall a f, bump lv' a f = bump lv a f) -> shape lv' n p s -> at_level lv' n p s.
Proof. intros [Hh _] Hb Hs. split; [|done]. eapply held_ext; [|exact Hh]. intros. by rewrite Hb. Qed.

Lemma level_new lv lv' n n' a p s :
  held (bump lv) (a :: news_list n) p s -> (forall a f, bump lv' a f = bump lv a f) ->
  news_list n' ≡ₚ a :: news_list n -> shape lv' n' p s -> at_level lv' n' p s.
Proof.
  intros Hh Hb Hp Hs. split; [|done]. eapply held_perm; [symmetry; exact Hp|].
  eapply held_ext; [|exact Hh]. intros. by rewrite Hb.
Qed.

(** One resource: from level [lv] to the next, or a failure that leaves the
    state at level [lv]. *)
Definition acquire_step (lv : nat) (p : Z) (m : prog jump Z) : Prop :=
  forall L, triple
    (fun s => ledger (trace s) = L /\ exists n, at_level lv n p s /\ inherits lv p s) m
    (fun r s => ledger (trace s) = L /\
       ((r = 0 /\ exists n, at_level (S lv) n p s /\ inherits (S lv) p s) \/
        (- MAX_ERRNO <= r < 0 /\ exists n, at_level lv n p s)))
    (fun _ _ => False).

Ltac iffs :=
  match goal with
  | H : is_Some ?o <-> _ |- is_Some ?o <-> _ => rewrite H; intuition (lia || congruence)
  end.

(** The next level of [inherits], after a write to another pointer. *)
Ltac inherit H :=
  let I1 := fresh in let I2 := fresh in let I3 := fresh in let I4 := fresh in
  let I5 := fresh in
  destruct H as (I1 & I2 & I3 & I4 & I5); repeat split; intros; try lia;
  rewrite ?fld_wr, ?decide_False by (intros [_ [=]]);
  first [apply I1 | apply I2 | apply I3 | apply I4 | exact I5]; lia.

Lemma none_of {A} (o : option A) (P : Prop) : (is_Some o <-> P) -> ~ P -> o = None.
Proof. destruct o; [|done]. intros Hi Hp. exfalso. apply Hp, Hi. by eexists. Qed.

Lemma wr_trace {E} x g v s : trace (snd (wr (E := E) x g v s)) = trace s.
Proof. done. Qed.

(** A pointer of the child set to a new object. *)
Lemma held_wr_p {E} B N p s f v : held B N p s -> held B N p (snd (wr (E := E) p f v s)).
Proof. intros Hh. eapply (held_only _ _ _ []); [by left| |exact Hh]. apply only_wr. set_solver. Qed.

Lemma live_p B N p s : held B N p s -> is_Some (heap s !! p).
Proof. intros Hh. apply (h_dom _ _ _ _ Hh). auto. Qed.

Lemma fresh_null B N p s : held B N p s -> heap s !! 0 = None.
Proof.
  intros Hh. destruct (heap s !! 0) eqn:E; [|done]. exfalso.
  destruct (proj1 (h_dom _ _ _ _ Hh 0)) as [[? Hn]|[Hp|Hn]]; [by eexists|..].
  - rewrite (so_null Hs0) in Hn. done.
  - destruct (h_p _ _ _ _ Hh). lia.
  - pose proof (h_new _ _ _ _ Hh) as Hf. rewrite Forall_forall in Hf. destruct (Hf 0 Hn) as (_ & _ & ?). lia.
Qed.

Lemma omap_slot (l1 l2 : list (option Z)) (o : option Z) a :
  o = None -> omap id (l1 ++ Some a :: l2) ≡ₚ a :: omap id (l1 ++ o :: l2).
Proof. intros ->. rewrite !omap_app. simpl. symmetry. apply Permutation_middle. Qed.

(** A new object for the child. *)
Lemma level_alloc lv n p s a o :
  at_level lv n p s -> heap s !! a = None -> 0 < a ->
  let s1 := set_heap (<[a := o]> (heap s)) s in
  held (bump lv) (a :: news_list n) p s1 /\ shape lv n p s1 /\
  (inherits lv p s -> inherits lv p s1) /\ a <> p /\ (forall f, fld s1 a f = o f).
Proof.
  intros [Hh Hs] Hn Ha s1. pose proof (held_alloc _ _ _ _ a o Hh Hn Ha) as Hh1. fold s1 in Hh1.
  assert (Hap : a <> p) by (intros ->; destruct (live_p _ _ _ _ Hh); congruence).
  assert (Hf : forall b f, b <> a -> fld s1 b f = fld s b f)
    by (intros; unfold fld; simpl; by rewrite lookup_insert_ne).
  split_and!; [done| | |done|].
  - eapply shape_fields; [| |exact Hs]; intros; apply Hf; [done|]. intros ->.
    pose proof (h_nodup _ _ _ _ Hh1) as Hd. by apply NoDup_cons in Hd as [? _].
  - apply inherits_fields. auto.
  - intros f. unfold fld. simpl. by rewrite lookup_insert_eq.
Qed.

(** A resource pointer of the child that is not in use yet. *)
Lemma shape_wr_p {E} lv n p s f v N B :
  held B N p s -> (forall g, (g = f_files /\ (1 <= lv)%nat) \/ (g = f_fs /\ (2 <= lv)%nat) \/
    (g = f_sighand /\ (3 <= lv)%nat) \/ (g = f_signal /\ (4 <= lv)%nat) \/
    (g = f_mm /\ (5 <= lv)%nat) -> g <> f) ->
  news_list n ⊆ N -> shape lv n p s -> shape lv n p (snd (wr (E := E) p f v s)).
Proof.
  intros Hh Hf HN [].
  assert (HK : forall g, g <> f -> fld (snd (wr (E := E) p f v s)) p g = fld s p g)
    by (intros; rewrite fld_wr, decide_False; naive_solver).
  assert (Hn : forall b g, n_files n = Some b \/ n_fs n = Some b \/ n_sighand n = Some b \/
    n_signal n = Some b \/ n_mm n = Some b -> fld (snd (wr (E := E) p f v s)) b g = fld s b g).
  { intros b g Hb%news_in. rewrite fld_wr, decide_False; [done|]. intros [-> _].
    pose proof (h_new _ _ _ _ Hh) as Hall. rewrite Forall_forall in Hall.
    destruct (Hall p) as (_ & ? & _); [by apply HN|done]. }
  split; try done.
  1-5: intros ?; rewrite HK; [auto|]; apply Hf; auto 9.
  all: intros b Hb; rewrite !Hn; auto 7.
Qed.

(** *** files *)

Lemma copy_files_ok p : acquire_step 0 p (copy_files current fl p).
Proof.
  intros L s (HL & n & Hl & Hi). pose proof Hl as [Hh Hs].
  assert (Hcur : fld s current f_files = cur f_files)
    by (eapply held_cur; [exact Hh|apply Hs0|discriminate..]).
  assert (Hnone : n_files n = None) by (eapply none_of; [apply Hs|]; lia).
  assert (Hi' : inherits 1 p s) by inherit Hi.
  unfold copy_files, bind, rd, gets. rewrite Hcur.
  destruct (Z.eqb_spec (cur f_files) 0) as [E0|E0].
  { split; [done|]. left. split; [done|]. exists n. split; [|done]. apply (level_same 0); [done| |].
    - intros a f. rewrite bump_1, E0, taken_null. lia.
    - destruct Hs. split; intros; try iffs; try lia; auto. rewrite Hnone. simpl. apply Hi. lia. }
  destruct (so_files Hs0 E0) as [Hlive _]. destruct (has fl CLONE_FILES) eqn:Ef.
  { rewrite inc_eq. split; [done|]. left. split; [done|]. exists n. split.
    - apply (level_wr 0); [done|done|congruence| |].
      + intros a f. by rewrite bump_1, Ef, taken_on.
      + destruct Hs. split; intros; try iffs; try lia; auto. rewrite Hnone. simpl. apply Hi. lia.
    - eapply inherits_fields; [|exact Hi']. intros f _. rewrite fld_wr, decide_False; [done|].
      destruct (old_not_new _ _ _ _ _ Hh Hlive). naive_solver. }
  unfold run_alloc. destruct (wo_dup_fd Hw (cur f_files) (heap s)) as [(e & He & ->)|(a & o & Ha & Hna & Ho & ->)];
    cbn [fst snd].
  { rewrite (proj2 (Z.ltb_lt e 0)) by lia. split; [done|]. right. split; [done|]. exists n. by destruct s. }
  rewrite (proj2 (Z.ltb_ge a 0)), wr_eq by lia. split; [done|]. left. split; [done|].
  destruct (level_alloc 0 n p s a o Hl Hna Ha) as (Hh1 & Hs1 & Hi1 & Hap & Hfa). set (s1 := set_heap _ s) in *.
  assert (Hp1 : is_Some (heap s1 !! p)) by (eapply live_p; exact Hh1).
  exists (News (Some a) (n_fs n) (n_sighand n) (n_signal n) (n_mm n)). split.
  - eapply (level_new 0 1 n); [by apply held_wr_p| | |].
    + intros b f. rewrite bump_1, Ef, taken_off. lia.
    + by apply (omap_slot [] [n_fs n; n_sighand n; n_signal n; n_mm n]).
    + assert (Hs2 : shape 0 n p (snd (wr (E := jump) p f_files a s1)))
        by (eapply shape_wr_p; [exact Hh1| |by right|done]; intros; intuition (lia || congruence)).
      destruct Hs2. split; cbn [n_files n_fs n_sighand n_signal n_mm]; intros; try iffs; try lia; auto.
      * rewrite fld_wr, decide_True, decide_True by done. done.
      * split; [by intros _; split_and!|by eexists].
      * simplify_eq. rewrite fld_wr, decide_False by naive_solver. by rewrite Hfa.
  - inherit (Hi1 Hi).
Qed.

Lemma level_wr_unused {E} lv n p s f v :
  at_level lv n p s -> (forall g, (g = f_files /\ (1 <= lv)%nat) \/ (g = f_fs /\ (2 <= lv)%nat) \/
    (g = f_sighand /\ (3 <= lv)%nat) \/ (g = f_signal /\ (4 <= lv)%nat) \/
    (g = f_mm /\ (5 <= lv)%nat) -> g <> f) ->
  at_level lv n p (snd (wr (E := E) p f v s)).
Proof.
  intros [Hh Hs] Hf. split; [by apply held_wr_p|]. eapply shape_wr_p; [exact Hh|exact Hf|done|exact Hs].
Qed.

(** *** fs *)

Lemma copy_fs_ok p : acquire_step 1 p (copy_fs current fl p).
Proof.
  intros L s (HL & n & Hl & Hi). pose proof Hl as [Hh Hs].
  assert (Hcur : fld s current f_fs = cur f_fs)
    by (eapply held_cur; [exact Hh|apply Hs0|discriminate..]).
  assert (Hnone : n_fs n = None) by (eapply none_of; [apply Hs|]; lia).
  assert (Hi' : inherits 2 p s) by inherit Hi.
  destruct (so_fs Hs0) as [Hlive _].
  assert (E0 : cur f_fs <> 0) by (intros E; rewrite E, (so_null Hs0) in Hlive; by destruct Hlive).
  unfold copy_fs, bind, rd, gets. rewrite Hcur. destruct (has fl CLONE_FS) eqn:Ef.
  { destruct (nonzero (fld s (cur f_fs) f_in_exec)).
    { split; [done|]. right. split; [done|]. by exists n. }
    rewrite inc_eq. split; [done|]. left. split; [done|]. exists n. split.
    - apply (level_wr 1); [done|done|congruence| |].
      + intros a f. by rewrite bump_2, Ef, taken_on.
      + destruct Hs. split; intros; try iffs; try lia; auto. rewrite Hnone. simpl. apply Hi. lia.
    - eapply inherits_fields; [|exact Hi']. intros f _. rewrite fld_wr, decide_False; [done|].
      destruct (old_not_new _ _ _ _ _ Hh Hlive). naive_solver. }
  unfold run_alloc. destruct (wo_copy_fs Hw (cur f_fs) (heap s)) as [->|(a & o & Ha & Hna & Ho & ->)];
    cbn [fst snd]; rewrite wr_eq.
  { split; [done|]. right. split; [done|]. exists n.
    apply level_wr_unused; [by destruct s|]. intros; intuition (lia || congruence). }
  destruct (level_alloc 1 n p s a o Hl Hna Ha) as (Hh1 & Hs1 & Hi1 & Hap & Hfa). set (s1 := set_heap _ s) in *.
  assert (Hp1 : is_Some (heap s1 !! p)) by (eapply live_p; exact Hh1).
  rewrite (proj2 (Z.eqb_neq a 0)) by lia. split; [done|]. left. split; [done|].
  exists (News (n_files n) (Some a) (n_sighand n) (n_signal n) (n_mm n)). split.
  - eapply (level_new 1 2 n); [by apply held_wr_p| | |].
    + intros b f. rewrite bump_2, Ef, taken_off. lia.
    + by apply (omap_slot [n_files n] [n_sighand n; n_signal n; n_mm n]).
    + assert (Hs2 : shape 1 n p (snd (wr (E := jump) p f_fs a s1)))
        by (eapply shape_wr_p; [exact Hh1| |by right|done]; intros; intuition (lia || congruence)).
      destruct Hs2. split; cbn [n_files n_fs n_sighand n_signal n_mm]; intros; try iffs; try lia; auto.
      * rewrite fld_wr, decide_True, decide_True by done. done.
      * split; [by intros _; split_and!|by eexists].
      * simplify_eq. rewrite fld_wr, decide_False by naive_solver. by rewrite Hfa.
  - inherit (Hi1 Hi).
Qed.

(** Work on a new object that is not registered yet. *)
Lemma shape_only_new lv n p s s' a F B N :
  held B N p s -> a ∈ N -> ~ (a ∈ news_list n) -> only a F s s' -> shape lv n p s -> shape lv n p s'.
Proof.
  intros Hh Ha Hna Ho. apply shape_fields.
  - intros f _. eapply only_fld_ne; [done|]. pose proof (h_new _ _ _ _ Hh) as Hf.
    rewrite Forall_forall in Hf. by destruct (Hf a Ha) as (_ & ? & _).
  - intros b f Hb. eapply only_fld_ne; [done|]. by intros ->.
Qed.

Lemma inherits_only_new lv p s s' a F B N :
  held B N p s -> a ∈ N -> only a F s s' -> inherits lv p s -> inherits lv p s'.
Proof.
  intros Hh Ha Ho. apply inherits_fields. intros f _. eapply only_fld_ne; [done|].
  pose proof (h_new _ _ _ _ Hh) as Hf. rewrite Forall_forall in Hf. by destruct (Hf a Ha) as (_ & ? & _).
Qed.

Lemma new_not_in B a N p s : held B (a :: N) p s -> ~ (a ∈ N).
Proof. intros Hh. pose proof (h_nodup _ _ _ _ Hh) as Hd. by apply NoDup_cons in Hd as [? _]. Qed.

(** A slab allocation at a level. *)
Lemma level_slab lv n p s cache :
  at_level lv n p s ->
  (alloc_obj (E := jump) cache s = (inl 0, s)) \/
  exists a, 0 < a /\
    let s1 := set_heap (<[a := garbage cache]> (heap s)) s in
    alloc_obj (E := jump) cache s = (inl a, s1) /\
    held (bump lv) (a :: news_list n) p s1 /\ shape lv n p s1 /\
    (inherits lv p s -> inherits lv p s1) /\ a <> p.
Proof.
  intros Hl. unfold alloc_obj. destruct (kmem_cache_alloc cache (dom (heap s))) as [a|] eqn:Ea; [right|by left].
  destruct (wo_slab Hw _ _ _ Ea) as [Hn Ha]. exists a. split; [done|]. split; [done|].
  destruct (level_alloc lv n p s a (garbage cache) Hl) as (? & ? & ? & ? & _); [|done|done].
  by apply not_elem_of_dom.
Qed.

(** The new object is filled in and becomes a resource of the child. *)
Lemma register lv n n' a p s2 s3 F :
  held (bump lv) (a :: news_list n) p s2 -> shape lv n p s2 -> inherits (S lv) p s2 ->
  only a F s2 s3 -> (forall b f, bump (S lv) b f = bump lv b f) ->
  news_list n' ≡ₚ a :: news_list n -> (shape lv n p s3 -> shape (S lv) n' p s3) ->
  at_level (S lv) n' p s3 /\ inherits (S lv) p s3.
Proof.
  intros Hh Hs Hi Ho Hb Hp Hsh. assert (Ha : a ∈ a :: news_list n) by (left; done). split.
  - eapply (level_new lv); [eapply held_only; [by right|exact Ho|exact Hh]|done|exact Hp|].
    apply Hsh. eapply shape_only_new; [exact Hh|exact Ha|by eapply new_not_in|exact Ho|exact Hs].
  - eapply inherits_only_new; [exact Hh|exact Ha|exact Ho|exact Hi].
Qed.

(** *** sighand *)

(** What copy_sighand does to a new sighand_struct. *)
Definition init_sighand (p a sh : Z) : prog jump Z :=
  wr a f_sig_count 1 ;;;
  let* action := rd sh f_action in
  wr a f_action action ;;;
  when (has fl CLONE_CLEAR_SIGHAND) (xobj "flush_signal_handlers" p) ;;;
  ret 0.

Lemma init_sighand_confined p a sh : confined a [] (init_sighand p a sh).
Proof. unfold init_sighand. confine. Qed.

Lemma init_sighand_count p a sh s :
  is_Some (heap s !! a) -> fld (snd (init_sighand p a sh s)) a f_sig_count = 1.
Proof.
  intros Ha. unfold init_sighand, bind. rewrite wr_eq. unfold rd, gets. rewrite wr_eq.
  set (s1 := snd (wr a f_sig_count 1 s)). set (s2 := snd (wr a f_action _ s1)).
  assert (E2 : fld s2 a f_sig_count = 1).
  { unfold s2. rewrite fld_wr, decide_False by (intros [_ [=]]). unfold s1.
    rewrite fld_wr, !decide_True by done. done. }
  unfold when. by destruct (has fl CLONE_CLEAR_SIGHAND).
Qed.

Lemma copy_sighand_ok p : acquire_step 2 p (copy_sighand current fl p).
Proof.
  intros L s (HL & n & Hl & Hi). pose proof Hl as [Hh Hs].
  assert (Hcur : fld s current f_sighand = cur f_sighand)
    by (eapply held_cur; [exact Hh|apply Hs0|discriminate..]).
  assert (Hnone : n_sighand n = None) by (eapply none_of; [apply Hs|]; lia).
  assert (Hi' : inherits 3 p s) by inherit Hi.
  destruct (so_sighand Hs0) as [Hlive _].
  assert (E0 : cur f_sighand <> 0) by (intros E; rewrite E, (so_null Hs0) in Hlive; by destruct Hlive).
  unfold copy_sighand, bind at 1, rd at 1, gets at 1. rewrite Hcur.
  destruct (has fl CLONE_SIGHAND) eqn:Ef.
  { unfold bind. rewrite inc_eq. split; [done|]. left. split; [done|]. exists n. split.
    - apply (level_wr 2); [done|done|congruence| |].
      + intros a f. by rewrite bump_3, Ef, taken_on.
      + destruct Hs. split; intros; try iffs; try lia; auto. rewrite Hnone. simpl. apply Hi. lia.
    - eapply inherits_fields; [|exact Hi']. intros f _. rewrite fld_wr, decide_False; [done|].
      destruct (old_not_new _ _ _ _ _ Hh Hlive). naive_solver. }
  unfold bind at 1. destruct (level_slab 2 n p s "sighand_cache" Hl) as [->|(a & Ha & -> & Hh1 & Hs1 & Hi1 & Hap)];
    unfold bind at 1; rewrite wr_eq.
  { split; [done|]. right. split; [done|]. exists n.
    apply level_wr_unused; [done|]. intros; intuition (lia || congruence). }
  set (s1 := set_heap _ s) in *. rewrite (proj2 (Z.eqb_neq a 0)) by lia.
  fold (init_sighand p a (cur f_sighand)). set (s2 := snd (wr p f_sighand a s1)).
  assert (Hh2 : held (bump 2) (a :: news_list n) p s2) by by apply held_wr_p.
  assert (Hs2 : shape 2 n p s2)
    by (eapply shape_wr_p; [exact Hh1| |by right|done]; intros; intuition (lia || congruence)).
  assert (Hi2 : inherits 3 p s2) by (unfold s2; inherit (Hi1 Hi)).
  pose proof (init_sighand_confined p a (cur f_sighand) s2) as Hc.
  assert (Hcnt : fld (snd (init_sighand p a (cur f_sighand) s2)) a f_sig_count = 1).
  { apply init_sighand_count. apply (h_dom _ _ _ _ Hh2). right. right. by left. }
  assert (Hret : fst (init_sighand p a (cur f_sighand) s2) = inl 0).
  { unfold init_sighand, when, bind. by destruct (has fl CLONE_CLEAR_SIGHAND). }
  destruct (init_sighand p a (cur f_sighand) s2) as [r s3]. cbn [fst snd] in *. subst r.
  split; [by rewrite (on_ledger _ _ _ _ Hc)|]. left. split; [done|].
  exists (News (n_files n) (n_fs n) (Some a) (n_signal n) (n_mm n)).
  eapply (register 2 n); [exact Hh2|exact Hs2|exact Hi2|exact Hc| | |].
  - intros b f. rewrite bump_3, Ef, taken_off. lia.
  - by apply (omap_slot [n_files n; n_fs n] [n_signal n; n_mm n]).
  - intros []. split; cbn [n_files n_fs n_sighand n_signal n_mm]; intros; try iffs; try lia; auto.
    + rewrite (only_fld_ne _ _ _ _ p f_sighand Hc) by done. unfold s2.
      rewrite fld_wr, !decide_True by (done || (eapply live_p; exact Hh1)). done.
    + split; [by intros _; split_and!|by eexists].
    + by simplify_eq.
Qed.

(** *** signal *)

(** The rest of copy_signal, after the memory is zeroed. *)
Definition init_signal (p sig : Z) : prog jump Z :=
  wr sig f_sig_nr_threads 1 ;;;
  wr sig f_live 1 ;;;
  wr sig f_sigcnt 1 ;;;
  modify (fun s => set_lists (children s) (thread_group s) (<[sig := [p]]> (thread_head s)) (tasks s) s) ;;;
  wr sig f_curr_target p ;;;
  wr sig f_shared_pending 0 ;;;
  modify (fun s => set_multiprocess (<[sig := 0%nat]> (multiprocess s)) s) ;;;
  when (config CONFIG_POSIX_TIMERS) (xobj "hrtimer_init" sig) ;;;
  let* cur_signal := rd current f_signal in
  let* rlim := rd cur_signal f_rlim in
  wr sig f_rlim rlim ;;;
  posix_cpu_timers_init_group sig ;;;
  xobj "tty_audit_fork" sig ;;;
  xobj "sched_autogroup_fork" sig ;;;
  copy_field sig cur_signal f_oom_score_adj ;;;
  copy_field sig cur_signal f_oom_score_adj_min ;;;
  ret 0.

Lemma init_signal_confined p a : confined a [f_oom_mm] (init_signal p a).
Proof.
  unfold init_signal, copy_field, posix_cpu_timers_init_group. confine.
  - apply (confined_lists a _ id id (<[a := [p]]>)); intros; [done..|by apply lookup_insert_ne].
  - apply (confined_multi a _ (<[a := 0%nat]>)). intros. by apply lookup_insert_ne.
Qed.

Lemma init_signal_ret p a s : fst (init_signal p a s) = inl 0.
Proof. unfold init_signal, when, bind. by destruct (config CONFIG_POSIX_TIMERS). Qed.

Lemma copy_signal_ok p : acquire_step 3 p (copy_signal current fl p).
Proof.
  intros L s (HL & n & Hl & Hi). pose proof Hl as [Hh Hs].
  assert (Hnone : n_signal n = None) by (eapply none_of; [apply Hs|]; lia).
  assert (Hi' : inherits 4 p s) by inherit Hi.
  unfold copy_signal. destruct (has fl CLONE_THREAD) eqn:Ef.
  { split; [done|]. left. split; [done|]. exists n. split; [|done]. apply (level_same 3); [done|done|].
    destruct Hs. split; intros; try iffs; try lia; auto. rewrite Hnone. simpl. apply Hi. lia. }
  unfold bind at 1. destruct (level_slab 3 n p s "signal_cache" Hl) as [->|(a & Ha & -> & Hh1 & Hs1 & Hi1 & Hap)];
    unfold bind at 1; rewrite wr_eq.
  { split; [done|]. right. split; [done|]. exists n.
    apply level_wr_unused; [done|]. intros; intuition (lia || congruence). }
  set (s1 := set_heap _ s) in *. rewrite (proj2 (Z.eqb_neq a 0)) by lia.
  fold (init_signal p a). set (s2 := snd (wr p f_signal a s1)).
  assert (Hh2 : held (bump 3) (a :: news_list n) p s2) by by apply held_wr_p.
  assert (Hs2 : shape 3 n p s2)
    by (eapply shape_wr_p; [exact Hh1| |by right|done]; intros; intuition (lia || congruence)).
  assert (Hi2 : inherits 4 p s2) by (unfold s2; inherit (Hi1 Hi)).
  unfold bind at 1, modify at 1. set (s3 := set_heap (alter (fun _ => zero_obj) a (heap s2)) s2).
  assert (H3 : only a [] s2 s3) by (apply (confined_alter (E := jump) a [] (fun _ => zero_obj)); set_solver).
  destruct (confined_run a _ _ s3 (init_signal_confined p a)) as (x & Ex & H4).
  pose proof (init_signal_ret p a s3) as Er. rewrite Ex in Er |- *. simpl in Er. injection Er as ->.
  set (s4 := snd (init_signal p a s3)) in *.
  assert (Hc : only a [] s2 s4) by (eapply only_trans; [exact H3|eapply only_weaken; [|exact H4]; set_solver]).
  split; [by rewrite (on_ledger _ _ _ _ Hc)|]. left. split; [done|].
  exists (News (n_files n) (n_fs n) (n_sighand n) (Some a) (n_mm n)).
  eapply (register 3 n); [exact Hh2|exact Hs2|exact Hi2|exact Hc|done| |].
  - by apply (omap_slot [n_files n; n_fs n; n_sighand n] [n_mm n]).
  - intros []. split; cbn [n_files n_fs n_sighand n_signal n_mm]; intros; try iffs; try lia; auto.
    + rewrite (only_fld_ne _ _ _ _ p f_signal Hc) by done. unfold s2.
      rewrite fld_wr, !decide_True by (done || (eapply live_p; exact Hh1)). done.
    + split; [by intros _; split_and!|by eexists].
    + simplify_eq. rewrite (on_fld _ _ _ _ H4) by set_solver. unfold fld, s3. simpl.
      rewrite lookup_alter_eq. by destruct (alter _ _ _ !! _).
Qed.

(** *** mm *)

Lemma held_freed B N p s s' a : held B (a :: N) p s -> freed a s s' -> held B N p s'.
Proof.
  intros Hh (s2 & Ho & ->). apply held_free. eapply held_only; [right; by left|exact Ho|exact Hh].
Qed.

Lemma freed_fld a s s' b f : freed a s s' -> b <> a -> fld s' b f = fld s b f.
Proof. intros Hf Hb. unfold fld. by rewrite (freed_other _ _ _ _ Hf Hb). Qed.

Lemma shape_freed lv n p s s' a :
  freed a s s' -> a <> p -> ~ (a ∈ news_list n) -> shape lv n p s -> shape lv n p s'.
Proof.
  intros Hf Hap Hna. apply shape_fields; intros; eapply freed_fld; try done. by intros ->.
Qed.

(** The pointers the child needs before it has an mm. *)
Definition KEY4 : list field := [f_files; f_fs; f_sighand; f_signal; f_io_context].

Lemma level4_only n p s s' : only p KEY4 s s' -> at_level 4 n p s -> at_level 4 n p s'.
Proof.
  intros Ho [Hh Hs]. split; [by eapply held_only; eauto|].
  assert (HK : forall f, f ∈ KEY4 -> fld s' p f = fld s p f) by apply Ho.
  assert (Hn : forall a f, n_files n = Some a \/ n_fs n = Some a \/ n_sighand n = Some a \/
    n_signal n = Some a \/ n_mm n = Some a -> fld s' a f = fld s a f).
  { intros a f Ha%news_in. eapply only_fld_ne; [exact Ho|].
    pose proof (h_new _ _ _ _ Hh) as Hf. rewrite Forall_forall in Hf. by apply Hf. }
  destruct Hs. split; try done; try lia.
  1-4: intros ?; rewrite HK; [auto|unfold KEY4; rewrite !elem_of_cons; auto 7].
  all: intros a Ha; rewrite !Hn; auto 7.
Qed.

(** Level 4, ready for the mm. *)
Definition ready (L : list rsrc) (n : news) (p : Z) (s : kst) : Prop :=
  ledger (trace s) = L /\ at_level 4 n p s /\ fld s p f_io_context = 0.

Lemma ready_only L n p s s' : only p KEY4 s s' -> ready L n p s -> ready L n p s'.
Proof.
  intros Ho (HL & Hl & Hio). split_and!; [by rewrite (on_ledger _ _ _ _ Ho)|by eapply level4_only|].
  rewrite (on_fld _ _ _ _ Ho); [done|]. unfold KEY4. set_solver.
Qed.

(** The child gets its mm. *)
Lemma shape_5 n n' p s :
  shape 4 n p s -> n_files n' = n_files n -> n_fs n' = n_fs n -> n_sighand n' = n_sighand n ->
  n_signal n' = n_signal n -> fld s p f_mm = default (cur f_mm) (n_mm n') ->
  (is_Some (n_mm n') <-> has fl CLONE_VM = false /\ cur f_mm <> 0) ->
  (forall a, n_mm n' = Some a -> fld s a f_mm_users = 1 /\ fld s a f_mm_count = 1) -> shape 5 n' p s.
Proof.
  intros [] E1 E2 E3 E4 Hm Hi Hc. split; rewrite ?E1, ?E2, ?E3, ?E4; intros; try iffs; try lia; auto.
Qed.

Lemma inherits_5 p s : fld s p f_io_context = 0 -> inherits 5 p s.
Proof. intros Hio. repeat split; intros; lia || done. Qed.

(** Sharing the parent's mm. *)
Lemma share_mm L n p s :
  ready L n p s -> cur f_mm <> 0 -> has fl CLONE_VM = true ->
  forall s', s' = snd (wr (E := jump) p f_active_mm (cur f_mm)
               (snd (wr (E := jump) p f_mm (cur f_mm)
                 (snd (wr (E := jump) (cur f_mm) f_mm_users (fld s (cur f_mm) f_mm_users + 1) s))))) ->
  ledger (trace s') = L /\ at_level 5 n p s' /\ inherits 5 p s'.
Proof.
  intros (HL & [Hh Hs] & Hio) Em Ef s' ->. destruct (so_mm Hs0 Em) as (Hlive & _ & _).
  destruct (old_not_new _ _ _ _ _ Hh Hlive) as [Hxp Hxn].
  set (s1 := snd (wr (cur f_mm) f_mm_users _ s)).
  assert (Hh1 : held (bump 5) (news_list n) p s1).
  { eapply held_ext; [|apply held_bump; [exact Hh|exact Hlive|congruence]].
    intros a f. simpl. by rewrite bump_5, Ef, taken_on. }
  assert (Hnone : n_mm n = None) by (eapply none_of; [apply Hs|]; lia).
  assert (Hs1 : shape 4 n p s1).
  { eapply shape_fields; [| |exact Hs]; intros; unfold s1; rewrite fld_wr, decide_False by naive_solver; done. }
  assert (Hio1 : fld s1 p f_io_context = 0) by (unfold s1; by rewrite fld_wr, decide_False by naive_solver).
  set (s2 := snd (wr p f_mm (cur f_mm) s1)).
  assert (Hh2 : held (bump 5) (news_list n) p s2) by by apply held_wr_p.
  split; [done|]. split; [split; [by apply held_wr_p|]|].
  - eapply shape_wr_p; [exact Hh2|intros; intuition congruence|done|].
    apply (shape_5 n); try done; rewrite ?Hnone.
    + eapply shape_wr_p; [exact Hh1|intros; intuition (lia || congruence)|done|done].
    + unfold s2. rewrite fld_wr, !decide_True; [done|by eapply live_p|done].
    + rewrite Ef. split; [by intros []|naive_solver].
    + done.
  - apply inherits_5. rewrite fld_wr, decide_False by naive_solver. unfold s2.
    by rewrite fld_wr, decide_False by naive_solver.
Qed.

(** A copy of it. *)
Lemma own_mm L n p s a s1 :
  ready L n p s -> cur f_mm <> 0 -> has fl CLONE_VM = false ->
  heap s !! a = None -> 0 < a -> one_user a (alloc_mm a s) s1 ->
  forall s', s' = snd (wr (E := jump) p f_active_mm a (snd (wr (E := jump) p f_mm a s1))) ->
  ledger (trace s') = L /\ inherits 5 p s' /\
  at_level 5 (News (n_files n) (n_fs n) (n_sighand n) (n_signal n) (Some a)) p s'.
Proof.
  intros (HL & Hl & Hio) Em Ef Hna Ha (Ho & Hu & Hc) s' ->.
  destruct (level_alloc 4 n p s a (garbage "mm_struct") Hl Hna Ha) as (Hh1 & Hs1 & Hi1 & Hap & _).
  fold (alloc_mm a s) in *. assert (Hin : a ∈ a :: news_list n) by by left.
  assert (Hh2 : held (bump 4) (a :: news_list n) p s1) by (eapply held_only; [by right|exact Ho|exact Hh1]).
  assert (Hs2 : shape 4 n p s1)
    by (eapply shape_only_new; [exact Hh1|exact Hin|by eapply new_not_in|exact Ho|exact Hs1]).
  set (s2 := snd (wr p f_mm a s1)).
  assert (Hh3 : held (bump 4) (a :: news_list n) p s2) by by apply held_wr_p.
  assert (Hnone : n_mm n = None) by (eapply none_of; [apply Hl|]; lia).
  assert (Hperm : news_list (News (n_files n) (n_fs n) (n_sighand n) (n_signal n) (Some a)) ≡ₚ a :: news_list n)
    by by apply (omap_slot [n_files n; n_fs n; n_sighand n; n_signal n] []).
  assert (Ha2 : forall f, fld s2 a f = fld s1 a f)
    by (intros; unfold s2; rewrite fld_wr, decide_False by naive_solver; done).
  split; [change (ledger (trace s1) = L); by rewrite (on_ledger _ _ _ _ Ho)|]. split.
  - apply inherits_5. unfold s2. rewrite !fld_wr, !decide_False by naive_solver.
    rewrite (only_fld_ne _ _ _ _ p _ Ho) by done. unfold fld in *. simpl. by rewrite lookup_insert_ne by done.
  - eapply (level_new 4 5 n _ a); [by apply held_wr_p| | |].
    + intros b f. rewrite bump_5, Ef, taken_off. lia.
    + exact Hperm.
    + eapply shape_wr_p with (N := a :: news_list n);
        [exact Hh3|intros; intuition congruence|intros x; by rewrite Hperm|].
      apply (shape_5 n); try done; cbn [n_mm].
      * eapply shape_wr_p; [exact Hh2|intros; intuition (lia || congruence)|by right|exact Hs2].
      * unfold s2. rewrite fld_wr, !decide_True; [done|by eapply live_p|done].
      * intros b [= <-]. by rewrite !Ha2.
Qed.

Lemma copy_mm_ok p :
  acquire_step 4 p (copy_mm current MMF_INIT_MASK VM_INIT_DEF_MASK default_dump_filter fl p).
Proof.
  intros L. eapply (triple_weaken (fun s => exists n, ready L n p s));
    [|intros s (HL & n & Hl & Hi); exists n; split_and!; [done|done|apply Hi]|intros ? ? Hq; exact Hq..].
  apply triple_exists. intros n. unfold copy_mm.
  do 5 (eapply triple_seq with (R := ready L n p);
    [eapply (triple_confined p KEY4); [solve [unfold KEY4; confine]|intros ? ? ? ? ?; by eapply ready_only]|]).
  eapply triple_seq with (R := fun s => ready L n p s /\ fld s p f_mm = 0).
  { apply triple_wr. intros s Hr. split; [eapply ready_only; [|exact Hr]; apply only_wr; unfold KEY4; not_in|].
    rewrite fld_wr, decide_True by done. by destruct (decide _). }
  eapply triple_seq with (R := fun s => ready L n p s /\ fld s p f_mm = 0).
  { apply triple_wr. intros s [Hr Hm]. split; [eapply ready_only; [|exact Hr]; apply only_wr; unfold KEY4; not_in|].
    by rewrite fld_wr, decide_False by naive_solver. }
  intros s [Hr Hm]. pose proof Hr as (HL & Hl & Hio). unfold bind at 1, rd, gets.
  rewrite (held_cur 4 (news_list n) p s current f_mm) by (apply Hl || apply Hs0 || discriminate).
  assert (Hnone : n_mm n = None) by (eapply none_of; [apply Hl|]; lia).
  destruct (Z.eqb_spec (cur f_mm) 0) as [Em|Em].
  { split; [done|]. left. split; [done|]. exists n. split; [|by apply inherits_5].
    eapply level_same; [exact Hl| |].
    - intros a f. rewrite bump_5, Em, taken_null. lia.
    - apply (shape_5 n); rewrite ?Hnone, ?Em; try done; [apply Hl|]. split; [by intros []|naive_solver]. }
  unfold bind at 1, xvoid. set (s1 := set_trace _ s).
  assert (Hr1 : ready L n p s1).
  { eapply ready_only; [|exact Hr]. by apply (confined_xvoid (E := jump) p KEY4 "vmacache_flush"). }
  destruct (has fl CLONE_VM) eqn:Ef.
  { unfold bind at 1, mmget. rewrite inc_eq, !bind_wr.
    destruct (share_mm L n p s1 Hr1 Em Ef _ eq_refl) as (? & ? & ?). split; [done|]. left. eauto. }
  pose proof (dup_mm_ok (E := jump) Hw current MMF_INIT_MASK VM_INIT_DEF_MASK default_dump_filter
    p (cur f_mm) s1 (fun _ _ => False) s1 eq_refl) as Hd. unfold bind at 1.
  destruct (dup_mm _ _ _ _ _ _ s1) as [[r|e] s2]; [|done].
  destruct Hd as [[-> ->]|(a & Hna & Ha & [[-> Hf]|[-> Hu]])].
  - split; [apply Hr1|]. right. split; [done|]. exists n. apply Hr1.
  - destruct Hr1 as (HL1 & Hl1 & _).
    destruct (level_alloc 4 n p s1 a (garbage "mm_struct") Hl1 Hna Ha) as (Hh2 & Hs2 & _ & Hap & _).
    split; [by rewrite (freed_ledger _ _ _ Hf)|]. right. split; [done|]. exists n. split.
    + by eapply held_freed.
    + eapply shape_freed; [exact Hf|done|by eapply new_not_in|exact Hs2].
  - rewrite (proj2 (Z.eqb_neq a 0)) by lia. rewrite !bind_wr.
    destruct (own_mm L n p s1 a s2 Hr1 Em Ef Hna Ha Hu _ eq_refl) as (? & ? & ?). split; [done|]. left. eauto.
Qed.

(** ** Back to the level below *)

Definition release_step (lv : nat) (p : Z) (m : prog jump unit) : Prop :=
  forall L, triple
    (fun s => ledger (trace s) = L /\ exists n, at_level (S lv) n p s) m
    (fun _ s => ledger (trace s) = L /\ exists n, at_level lv n p s)
    (fun _ _ => False).

(** The new object of the [k]-th resource, and the others. *)
Definition slot (k : nat) (n : news) : option Z :=
  match k with
  | 1 => n_files n | 2 => n_fs n | 3 => n_sighand n | 4 => n_signal n | 5 => n_mm n | _ => None
  end%nat.

Definition drop (k : nat) (n : news) : news :=
  match k with
  | 1 => News None (n_fs n) (n_sighand n) (n_signal n) (n_mm n)
  | 2 => News (n_files n) None (n_sighand n) (n_signal n) (n_mm n)
  | 3 => News (n_files n) (n_fs n) None (n_signal n) (n_mm n)
  | 4 => News (n_files n) (n_fs n) (n_sighand n) None (n_mm n)
  | 5 => News (n_files n) (n_fs n) (n_sighand n) (n_signal n) None
  | _ => n
  end%nat.

Lemma drop_none k n : slot k n = None -> drop k n = n.
Proof. destruct n; do 6 (destruct k as [|k]; [by intros; simpl in *; subst|]); done. Qed.

Lemma drop_news k n a : slot k n = Some a -> news_list n ≡ₚ a :: news_list (drop k n).
Proof.
  destruct n as [o1 o2 o3 o4 o5]. intros Hk. destruct k as [|[|[|[|[|[|k]]]]]]; try discriminate Hk; simpl in Hk; subst.
  - by apply (omap_slot [] [o2; o3; o4; o5] None).
  - by apply (omap_slot [o1] [o3; o4; o5] None).
  - by apply (omap_slot [o1; o2] [o4; o5] None).
  - by apply (omap_slot [o1; o2; o3] [o5] None).
  - by apply (omap_slot [o1; o2; o3; o4] [] None).
Qed.

Lemma none_iff {A} (P : Prop) : ~ P -> is_Some (A := A) None <-> P.
Proof. intros HP. split; [by intros []|done]. Qed.

Lemma shape_down lv n p s : (lv < 5)%nat -> shape (S lv) n p s -> shape lv (drop (S lv) n) p s.
Proof.
  intros Hlv []. do 5 (destruct lv as [|lv];
    [split; cbn [drop n_files n_fs n_sighand n_signal n_mm]; intros; try iffs; try lia; auto;
     try (apply none_iff; lia); done|]). lia.
Qed.

(** A resource the child had alone. *)
Lemma release_new lv n p s s' a :
  (lv < 5)%nat -> at_level (S lv) n p s -> slot (S lv) n = Some a ->
  (forall b f, bump (S lv) b f = bump lv b f) -> freed a s s' -> at_level lv (drop (S lv) n) p s'.
Proof.
  intros Hlv [Hh Hs] Hk Hb Hf. pose proof (drop_news _ _ _ Hk) as Hp.
  assert (Hh' : held (bump lv) (a :: news_list (drop (S lv) n)) p s)
    by (eapply held_perm; [exact Hp|]; eapply held_ext; [exact Hb|exact Hh]).
  split; [by eapply held_freed|]. pose proof (h_new _ _ _ _ Hh') as Hall. apply Forall_cons in Hall as [(_ & ? & _) _].
  eapply shape_freed; [exact Hf|done|by eapply new_not_in|by apply shape_down].
Qed.

(** A resource the child shared: the count of [x] goes down by one. *)
Lemma release_shared {E} lv n p s x g :
  (lv < 5)%nat -> at_level (S lv) n p s -> slot (S lv) n = None -> is_Some (heap s0 !! x) -> x <> 0 ->
  (x, g) <> (current, f_flags) -> (forall b f, bump (S lv) b f = bump lv b f + taken true x b g f) ->
  at_level lv n p (snd (wr (E := E) x g (fld s x g - 1) s)).
Proof.
  intros Hlv [Hh Hs] Hk Hx Hx0 Hxg Hb. replace (fld s x g - 1) with (fld s x g + - (1)) by lia.
  eapply level_wr; [by split|done|done| |].
  - intros b f. rewrite Hb, taken_on by done. destruct (decide _); lia.
  - apply shape_down in Hs; [|done]. by rewrite drop_none in Hs.
Qed.

Lemma bump_nonneg lv a f : 0 <= bump lv a f.
Proof.
  assert (Ht : forall b x g, 0 <= taken b x a g f) by (intros; unfold taken; destruct (_ && _); lia).
  unfold bump. repeat apply Z.add_nonneg_nonneg; apply Ht.
Qed.

Lemma shared_count lv n p s x g :
  at_level (S lv) n p s -> is_Some (heap s0 !! x) -> x <> 0 -> (x, g) <> (current, f_flags) ->
  (forall b f, bump (S lv) b f = bump lv b f + taken true x b g f) -> 1 <= fld s0 x g -> 2 <= fld s x g.
Proof.
  intros [Hh _] Hx Hx0 Hxg Hb Hc. rewrite (h_old _ _ _ _ Hh), Hb, taken_on, decide_True by done.
  pose proof (bump_nonneg lv x g). lia.
Qed.

Lemma release_none lv n p s :
  (lv < 5)%nat -> at_level (S lv) n p s -> slot (S lv) n = None ->
  (forall b f, bump (S lv) b f = bump lv b f) -> at_level lv n p s.
Proof.
  intros Hlv Hl Hk Hb. eapply level_same; [exact Hl|done|].
  destruct Hl as [_ Hs]. apply shape_down in Hs; [|done]. by rewrite drop_none in Hs.
Qed.

(** New objects have one reference and are not NULL. *)
Lemma slot_pos lv n p s k a : at_level lv n p s -> slot k n = Some a -> 0 < a /\ a <> p /\ is_Some (heap s !! a).
Proof.
  intros [Hh _] Hk. assert (Ha : a ∈ news_list n) by (rewrite (drop_news _ _ _ Hk); by left).
  pose proof (h_new _ _ _ _ Hh) as Hall. rewrite Forall_forall in Hall. destruct (Hall a Ha) as (_ & ? & ?).
  split_and!; [done..|]. apply (h_dom _ _ _ _ Hh). auto.
Qed.

(** The label bad_fork_cleanup_mm. *)
Definition cleanup_mm (p : Z) : prog jump unit :=
  let* mm := rd p f_mm in
  when (nonzero mm) (mm_clear_owner mm p ;;; mmput mm).

Lemma cleanup_mm_ok p : release_step 4 p (cleanup_mm p).
Proof.
  intros L s (HL & n & Hl). pose proof Hl as [Hh Hs]. unfold cleanup_mm, bind at 1, rd at 1, gets at 1.
  rewrite (sh_mm _ _ _ _ Hs) by lia. destruct (n_mm n) as [a|] eqn:En; cbn [default from_option id].
  { destruct (slot_pos _ _ _ _ 5 _ Hl En) as (Ha & _ & _). destruct (sh_mm1 _ _ _ _ Hs a En) as [Hu Hc].
    rewrite (proj2 (nonzero_true a)) by lia. cbn [when].
    assert (Ht : triple (E := jump) (one_user a s) (mm_clear_owner a p ;;; mmput a) (fun _ => freed a s) (fun _ _ => False)).
    { eapply triple_seq; [apply one_user_step, mm_clear_owner_confined|apply mmput_last]. }
    specialize (Ht s (conj (only_refl _ _ _) (conj Hu Hc))).
    destruct ((mm_clear_owner a p ;;; mmput a) s) as [[x|e] s']; [|done].
    split; [by rewrite (freed_ledger _ _ _ Ht)|]. exists (drop 5 n). eapply (release_new 4); [lia|exact Hl|done| |exact Ht].
    intros b f. rewrite bump_5. destruct (proj1 (sh_is_mm _ _ _ _ Hs)) as (_ & -> & _); [by eexists|].
    rewrite taken_off. lia. }
  destruct (Z.eq_dec (cur f_mm) 0) as [Em|Em].
  { rewrite Em. split; [done|]. exists n. apply (release_none 4); [lia|done|done|].
    intros b f. rewrite bump_5, Em, taken_null. lia. }
  rewrite (proj2 (nonzero_true _) Em). cbn [when]. destruct (so_mm Hs0 Em) as (Hlive & Hu & Ho).
  assert (Ef : has fl CLONE_VM = true).
  { destruct (has fl CLONE_VM) eqn:Ef; [done|]. destruct (proj2 (sh_is_mm _ _ _ _ Hs)); [done|congruence]. }
  assert (Hclear : mm_clear_owner (E := jump) (cur f_mm) p s = (inl tt, s)).
  { unfold mm_clear_owner, when, bind, rd, gets. destruct (config CONFIG_MEMCG); [|done].
    rewrite (held_cur 5 (news_list n) p s) by (done || discriminate).
    destruct (Z.eqb_spec (fld s0 (cur f_mm) f_owner) p) as [Ep|]; [|done]. exfalso.
    destruct (h_p _ _ _ _ Hh) as [Hp Hp0]. destruct Ho as [Ho|Ho]; [lia|]. rewrite Ep, Hp in Ho. by destruct Ho. }
  unfold bind at 1. rewrite Hclear. unfold mmput, bind. rewrite dec_eq.
  assert (Hb : forall b f, bump 5 b f = bump 4 b f + taken true (cur f_mm) b f_mm_users f)
    by (intros b f; by rewrite bump_5, Ef).
  assert (Hv : 2 <= fld s (cur f_mm) f_mm_users) by (eapply shared_count; try done; congruence).
  rewrite (proj2 (Z.eqb_neq (fld s (cur f_mm) f_mm_users - 1) 0)) by lia. cbn [when ret].
  split; [done|]. exists n. apply (release_shared 4); try done; try lia.
Qed.

(** The label bad_fork_cleanup_signal. *)
Definition cleanup_signal (p : Z) : prog jump unit :=
  when (negb (has fl CLONE_THREAD)) (let* sig := rd p f_signal in free_signal_struct sig).

Lemma free_signal_freed a s :
  fld s a f_oom_mm = 0 -> exists s', free_signal_struct (E := jump) a s = (inl tt, s') /\ freed a s s'.
Proof.
  intros Ho. eexists. split.
  - unfold free_signal_struct, bind, xobj, rd, gets. unfold fld in Ho |- *. simpl. rewrite Ho. reflexivity.
  - eexists. split; [|reflexivity]. split; try done.
    + intros b Hb. simpl. by rewrite lookup_delete_ne.
    + intros b Hb. simpl. by rewrite lookup_delete_ne.
Qed.

Lemma cleanup_signal_ok p : release_step 3 p (cleanup_signal p).
Proof.
  intros L s (HL & n & Hl). pose proof Hl as [Hh Hs]. unfold cleanup_signal.
  destruct (has fl CLONE_THREAD) eqn:Ef; cbn [negb when].
  { split; [done|]. exists n. apply (release_none 3); [lia|done| |done].
    eapply none_of; [apply Hs|]. rewrite Ef. naive_solver. }
  destruct (proj2 (sh_is_signal _ _ _ _ Hs)) as [a En]; [split; [lia|done]|].
  unfold bind at 1, rd, gets. rewrite (sh_signal _ _ _ _ Hs), En by lia. cbn [default from_option id].
  destruct (free_signal_freed a s (sh_signal1 _ _ _ _ Hs a En)) as (s' & -> & Hf).
  split; [by rewrite (freed_ledger _ _ _ Hf)|]. exists (drop 4 n).
  by eapply (release_new 3); [lia|exact Hl|done| |exact Hf].
Qed.

(** The label bad_fork_cleanup_sighand. *)
Definition cleanup_sighand_of (p : Z) : prog jump unit := let* sh := rd p f_sighand in cleanup_sighand sh.

Lemma free_sighand_freed a s :
  fld s a f_sig_count = 1 -> exists s', cleanup_sighand (E := jump) a s = (inl tt, s') /\ freed a s s'.
Proof.
  intros Hc. unfold cleanup_sighand, bind at 1. rewrite dec_eq, Hc. eexists. split; [reflexivity|].
  eexists. split; [|reflexivity]. eapply only_trans; [apply (only_wr (E := jump)); not_in|].
  by apply (confined_xobj (E := jump)).
Qed.

Lemma cleanup_sighand_ok p : release_step 2 p (cleanup_sighand_of p).
Proof.
  intros L s (HL & n & Hl). pose proof Hl as [Hh Hs]. unfold cleanup_sighand_of, bind at 1, rd at 1, gets at 1.
  rewrite (sh_sighand _ _ _ _ Hs) by lia. destruct (n_sighand n) as [a|] eqn:En; cbn [default from_option id].
  { destruct (free_sighand_freed a s (sh_sighand1 _ _ _ _ Hs a En)) as (s' & -> & Hf).
    split; [by rewrite (freed_ledger _ _ _ Hf)|]. exists (drop 3 n).
    eapply (release_new 2); [lia|exact Hl|done| |exact Hf]. intros b f. rewrite bump_3.
    destruct (proj1 (sh_is_sighand _ _ _ _ Hs)) as (_ & ->); [by eexists|]. rewrite taken_off. lia. }
  destruct (so_sighand Hs0) as [Hlive Hc].
  assert (E0 : cur f_sighand <> 0) by (intros E; rewrite E, (so_null Hs0) in Hlive; by destruct Hlive).
  assert (Ef : has fl CLONE_SIGHAND = true).
  { destruct (has fl CLONE_SIGHAND) eqn:Ef; [done|]. destruct (proj2 (sh_is_sighand _ _ _ _ Hs)); [split; [lia|done]|congruence]. }
  assert (Hb : forall b f, bump 3 b f = bump 2 b f + taken true (cur f_sighand) b f_sig_count f)
    by (intros b f; by rewrite bump_3, Ef).
  assert (Hv : 2 <= fld s (cur f_sighand) f_sig_count) by (eapply shared_count; try done; congruence).
  unfold cleanup_sighand, bind. rewrite dec_eq.
  rewrite (proj2 (Z.eqb_neq (fld s (cur f_sighand) f_sig_count - 1) 0)) by lia.
  split; [done|]. exists n. apply (release_shared 2); try done; try lia.
Qed.

(** Dropping a reference of the child, as exit_fs and exit_files do. *)
Lemma put_ref_last s p a f cnt :
  fld s p f = a -> a <> 0 -> a <> p -> is_Some (heap s !! a) -> is_Some (heap s !! p) -> fld s a cnt = 1 ->
  set_heap (put_ref f cnt p (heap s)) s =
  snd (wr (E := jump) p f 0 (set_heap (delete a (heap s)) s)).
Proof.
  intros Hf Ha Hap [x Hx] [o Ho] Hc. unfold fld in *. rewrite Ho in Hf. rewrite Hx in Hc.
  unfold put_ref. rewrite Ho, Hf, (proj2 (Z.eqb_neq a 0)) by done.
  rewrite lookup_alter_ne, Hx, Hc by done. simpl. by rewrite alter_delete_ne by done.
Qed.

Lemma put_ref_shared s p a f cnt :
  fld s p f = a -> a <> 0 -> a <> p -> is_Some (heap s !! a) -> is_Some (heap s !! p) -> fld s a cnt <> 1 ->
  set_heap (put_ref f cnt p (heap s)) s =
  snd (wr (E := jump) p f 0 (snd (wr (E := jump) a cnt (fld s a cnt - 1) s))).
Proof.
  intros Hf Ha Hap [x Hx] [o Ho] Hc. unfold fld in *. rewrite Ho in Hf. rewrite Hx in *.
  unfold put_ref. rewrite Ho, Hf, (proj2 (Z.eqb_neq a 0)) by done.
  rewrite lookup_alter_ne, Hx, (proj2 (Z.eqb_neq _ 1)) by done. simpl. by rewrite alter_alter_ne by done.
Qed.

Lemma put_ref_null s p f cnt : fld s p f = 0 -> set_heap (put_ref f cnt p (heap s)) s = s.
Proof.
  unfold fld, put_ref. destruct s as [h]. simpl. destruct (h !! p); [|done]. by intros ->.
Qed.

Lemma freed_now a s : freed a s (set_heap (delete a (heap s)) s).
Proof. exists s. split; [apply only_refl|done]. Qed.

Lemma cleanup_fs_ok p : release_step 1 p (run_heap (exit_fs p)).
Proof.
  intros L s (HL & n & Hl). pose proof Hl as [Hh Hs]. unfold run_heap, modify. rewrite (wo_exit_fs Hw).
  pose proof (live_p _ _ _ _ Hh) as Hp. destruct (so_fs Hs0) as [Hlive Hc].
  assert (E0 : cur f_fs <> 0) by (intros E; rewrite E, (so_null Hs0) in Hlive; by destruct Hlive).
  pose proof (sh_fs _ _ _ _ Hs ltac:(lia)) as Hf. destruct (n_fs n) as [a|] eqn:En; cbn [default from_option id] in Hf.
  { destruct (slot_pos _ _ _ _ 2 _ Hl En) as (Ha & Hap & Hal).
    rewrite (put_ref_last s p a) by (done || lia || by apply Hs). split; [done|]. exists (drop 2 n).
    apply level_wr_unused; [|intros; intuition (lia || congruence)].
    eapply (release_new 1); [lia|exact Hl|done| |apply freed_now]. intros b f. rewrite bump_2.
    destruct (proj1 (sh_is_fs _ _ _ _ Hs)) as (_ & ->); [by eexists|]. rewrite taken_off. lia. }
  assert (Ef : has fl CLONE_FS = true).
  { destruct (has fl CLONE_FS) eqn:Ef; [done|]. destruct (proj2 (sh_is_fs _ _ _ _ Hs)); [split; [lia|done]|congruence]. }
  assert (Hb : forall b f, bump 2 b f = bump 1 b f + taken true (cur f_fs) b f_users f)
    by (intros b f; by rewrite bump_2, Ef).
  assert (Hv : 2 <= fld s (cur f_fs) f_users) by (eapply shared_count; try done; congruence).
  destruct (old_not_new _ _ _ _ _ Hh Hlive) as [Hxp _].
  rewrite (put_ref_shared s p (cur f_fs)) by (done || lia || (apply (h_dom _ _ _ _ Hh); auto)).
  split; [done|]. exists n. apply level_wr_unused; [|intros; intuition (lia || congruence)].
  apply (release_shared 1); try done; try lia.
Qed.

Lemma cleanup_files_ok p : release_step 0 p (run_heap (exit_files p)).
Proof.
  intros L s (HL & n & Hl). pose proof Hl as [Hh Hs]. unfold run_heap, modify. rewrite (wo_exit_files Hw).
  pose proof (live_p _ _ _ _ Hh) as Hp. pose proof (sh_files _ _ _ _ Hs ltac:(lia)) as Hf.
  destruct (n_files n) as [a|] eqn:En; cbn [default from_option id] in Hf.
  { destruct (slot_pos _ _ _ _ 1 _ Hl En) as (Ha & Hap & Hal).
    rewrite (put_ref_last s p a) by (done || lia || by apply Hs). split; [done|]. exists (drop 1 n).
    apply level_wr_unused; [|intros; intuition (lia || congruence)].
    eapply (release_new 0); [lia|exact Hl|done| |apply freed_now]. intros b f. rewrite bump_1.
    destruct (proj1 (sh_is_files _ _ _ _ Hs)) as (_ & -> & _); [by eexists|]. rewrite taken_off. lia. }
  destruct (Z.eq_dec (cur f_files) 0) as [E0|E0].
  { rewrite put_ref_null by congruence. split; [done|]. exists n. apply (release_none 0); [lia|done|done|].
    intros b f. rewrite bump_1, E0, taken_null. lia. }
  destruct (so_files Hs0 E0) as [Hlive Hc].
  assert (Ef : has fl CLONE_FILES = true).
  { destruct (has fl CLONE_FILES) eqn:Ef; [done|]. destruct (proj2 (sh_is_files _ _ _ _ Hs)); [done|congruence]. }
  assert (Hb : forall b f, bump 1 b f = bump 0 b f + taken true (cur f_files) b f_files_count f)
    by (intros b f; by rewrite bump_1, Ef).
  assert (Hv : 2 <= fld s (cur f_files) f_files_count) by (eapply shared_count; try done; congruence).
  destruct (old_not_new _ _ _ _ _ Hh Hlive) as [Hxp _].
  rewrite (put_ref_shared s p (cur f_files)) by (done || lia || (apply (h_dom _ _ _ _ Hh); auto)).
  split; [done|]. exists n. apply level_wr_unused; [|intros; intuition (lia || congruence)].
  apply (release_shared 0); try done; try lia.
Qed.

End Unwind.
