(* ===== verification/ForkUnwind.v ===== *)
(** * copy_process undoes what it did when it fails (kernel/fork.c)

    The state at every [goto] of copy_process, the code at every label, and
    the theorem that a copy_process that returns an error leaves the kernel as
    it was, but for the key-value store of the child. *)

From S2P Require Import Prelude KVStore TaskState ForkState ForkTask ForkMm ForkArgs ForkCopy ForkLogic.
From S2P Require Import ForkTaskSpec ForkMmSpec ForkLevels.

Section Unwind.
Context `{World}.
Hypothesis Hw : world_ok.
Variable current : Z.
Variables MMF_INIT_MASK VM_INIT_DEF_MASK default_dump_filter : Z.
Variable init_struct_pid : Z.
Variables (pid0 : Z) (tracing : bool) (args : clone_args).
Variable s0 : kst.
Hypothesis Hs0 : start_ok current s0.

Abbreviation fl := (a_flags args).
Abbreviation cur f := (fld s0 current f).
Abbreviation at_level := (at_level current args s0).
Abbreviation held := (held current args s0).
Abbreviation multi1 := (multi1 current args s0).
Abbreviation nothing := (News None None None None None).

(** ** Without the child *)

(** The kernel as it was, but for [M], the tasks [q] that wait for RCU and the
    key-value memory [K]. *)
Record undone (K : kvmem) (M : gmap Z nat) (q : list Z) (s : kst) : Prop := {
  u_dom : forall a, is_Some (heap s !! a) <-> is_Some (heap s0 !! a) \/ a ∈ q;
  u_new : Forall (fun a => heap s0 !! a = None) q;
  u_fld : forall a f, is_Some (heap s0 !! a) -> (a, f) <> (current, f_flags) -> fld s a f = fld s0 a f;
  u_flags : flags_ok current s0 s;
  u_rest : forall a, is_Some (heap s0 !! a) ->
    vmas s !! a = vmas s0 !! a /\ children s !! a = children s0 !! a /\
    thread_group s !! a = thread_group s0 !! a /\ thread_head s !! a = thread_head s0 !! a /\
    multiprocess s !! a = M !! a;
  u_rcu : rcu_queue s = q ++ rcu_queue s0;
  u_quiet : quiet s0 K s;
}.

Lemma level0_nothing K n p s : at_level K 0 n p s -> n = nothing.
Proof.
  intros [_ []]. destruct n as [o1 o2 o3 o4 o5]. simpl in *.
  assert (Hn : forall (o : option Z) P, (is_Some o <-> P) -> ~ P -> o = None) by (intros; by eapply none_of).
  f_equal; eapply Hn; try eassumption; lia.
Qed.

(** The child is allocated and worked on. *)
Lemma undone_alloc K s s' a o F :
  undone K multi1 [] s -> heap s !! a = None -> 0 < a ->
  only a F (set_heap (<[a := o]> (heap s)) s) s' -> at_level K 0 nothing a s'.
Proof.
  intros Hu Hn Ha Ho.
  assert (Hfresh : heap s0 !! a = None).
  { destruct (heap s0 !! a) eqn:E; [|done]. destruct (proj2 (u_dom _ _ _ _ Hu a)); [left; eauto|congruence]. }
  assert (Hne : forall b, is_Some (heap s0 !! b) -> b <> a) by (intros b [? Hb] ->; congruence).
  assert (Hf : forall b f, b <> a -> fld s' b f = fld s b f).
  { intros b f Hb. rewrite (only_fld_ne _ _ _ _ b f Ho) by done. unfold fld. simpl. by rewrite lookup_insert_ne. }
  split.
  - split; simpl.
    + done.
    + intros b. rewrite elem_of_nil, <- elem_of_dom, (only_dom _ _ _ _ Ho), elem_of_dom. simpl.
      rewrite lookup_insert_is_Some, (u_dom _ _ _ _ Hu), elem_of_nil.
      destruct (decide (a = b)); naive_solver.
    + constructor.
    + constructor.
    + intros b f Hb Hbf. rewrite Hf, (u_fld _ _ _ _ Hu) by auto. by rewrite Z.add_0_r.
    + intros b Hb. rewrite (on_vmas _ _ _ _ Ho), (on_children _ _ _ _ Ho), (on_group _ _ _ _ Ho),
        (on_threads _ _ _ _ Ho), (on_multi _ _ _ _ Ho) by auto. by apply (u_rest _ _ _ _ Hu).
    + eapply flags_same; [|apply Hu]. apply Hf, Hne, Hs0.
    + rewrite (on_rcu _ _ _ _ Ho). apply Hu.
    + eapply quiet_only; [exact Ho|]. apply quiet_heap, Hu.
  - split; simpl; intros; try lia; try done; apply none_iff; lia.
Qed.

(** The child is freed. *)
Lemma held_gone K p s s' :
  at_level K 0 nothing p s -> freed p s s' -> undone K multi1 [] s'.
Proof.
  intros [Hh _] (s2 & Ho & ->).
  pose proof (held_only _ _ _ _ Hs0 _ _ _ _ _ _ _ (or_introl eq_refl) Ho Hh) as [[Hp Hp0] Hd _ _ Hold Hrest Hfl Hrcu Hq].
  assert (Hne : forall b, is_Some (heap s0 !! b) -> b <> p) by (intros b [? Hb] ->; congruence).
  assert (Hf : forall b f, b <> p -> fld (set_heap (delete p (heap s2)) s2) b f = fld s2 b f)
    by (intros; unfold fld; simpl; by rewrite lookup_delete_ne).
  split.
  - intros a. simpl. rewrite lookup_delete_is_Some, (Hd a), !elem_of_nil.
    destruct (decide (a = p)) as [->|]; [rewrite Hp; naive_solver|naive_solver].
  - constructor.
  - intros a f Ha Haf. rewrite Hf, Hold by auto. unfold bump. simpl. by rewrite !taken_off, !Z.add_0_r.
  - eapply flags_same; [|exact Hfl]. apply Hf, Hne, Hs0.
  - exact Hrest.
  - exact Hrcu.
  - by apply quiet_heap.
Qed.

(** The child waits for RCU. *)
Lemma held_queued K p s :
  at_level K 0 nothing p s -> undone K multi1 [p] (set_rcu (p :: rcu_queue s) s).
Proof.
  intros [[[Hp Hp0] Hd _ _ Hold Hrest Hfl Hrcu [Hq1 Hq2 Hq3]] _]. split; try done.
  - intros a. simpl. rewrite (Hd a), list_elem_of_singleton, elem_of_nil. naive_solver.
  - by constructor.
  - intros a f Ha Haf. change (fld (set_rcu _ s) a f) with (fld s a f). rewrite Hold by done.
    unfold bump. simpl. by rewrite !taken_off, !Z.add_0_r.
  - simpl. by rewrite Hrcu.
Qed.

(** ** With the child *)

Section Steps.
Variable K : kvmem.
Variable p : Z.

(** Facts about the child that depend on its resource pointers only. *)
Definition keyed (G : kst -> Prop) : Prop :=
  forall s s', (forall f, f ∈ KEY -> fld s' p f = fld s p f) -> G s -> G s'.

(** The ledger is [L], the copy is at level [lv], and [G]. *)
Definition state (G : kst -> Prop) (lv : nat) (L : list rsrc) (s : kst) : Prop :=
  ledger (trace s) = L /\ (exists n, at_level K lv n p s) /\ G s.

Lemma at_level_trace lv n s t : at_level K lv n p s -> at_level K lv n p (set_trace t s).
Proof. intros [[? ? ? ? ? ? ? ? []] []]. by split. Qed.

Section Rules.
Variable G : kst -> Prop.
Hypothesis HG : keyed G.
Context {E : Type}.
Variable X : E -> kst -> Prop.

Lemma keyed_fld s s' : (forall f, fld s' p f = fld s p f) -> G s -> G s'.
Proof. intros Hf. by apply HG. Qed.

Lemma state_confined {A} lv L (m : prog E A) :
  confined p KEY m -> triple (state G lv L) m (fun _ => state G lv L) X.
Proof.
  intros Hm. eapply triple_confined; [exact Hm|]. intros s s' _ (HL & (n & Hl) & Hg) Ho. split_and!.
  - by rewrite (on_ledger _ _ _ _ Ho).
  - exists n. by eapply at_level_only; [exact Hs0|done|exact Ho|exact Hl].
  - eapply HG; [|exact Hg]. apply (on_fld _ _ _ _ Ho).
Qed.

Lemma state_xcall lv L name rs ok :
  assoc name acquires = Some (rs, ok) ->
  triple (state G lv L) (xcall name) (fun r => state G lv (if ok r then rs :: L else L)) X.
Proof.
  intros Ha s (HL & (n & Hl) & Hg). split_and!.
  - rewrite <- HL. apply (ledger_acquire _ _ _ _ _ Ha).
  - exists n. by apply at_level_trace.
  - by eapply keyed_fld; [|exact Hg].
Qed.

Lemma state_xobj_acquire lv L name rs ok a :
  assoc name acquires = Some (rs, ok) -> ok a = true ->
  triple (state G lv L) (xobj name a) (fun _ => state G lv (rs :: L)) X.
Proof.
  intros Ha Hok s (HL & (n & Hl) & Hg). split_and!.
  - etrans; [apply (ledger_acquire _ _ _ _ _ Ha)|]. by rewrite Hok, HL.
  - exists n. by apply at_level_trace.
  - by eapply keyed_fld; [|exact Hg].
Qed.

Lemma state_xvoid_acquire lv L name rs ok :
  assoc name acquires = Some (rs, ok) -> ok 0 = true ->
  triple (state G lv L) (xvoid name) (fun _ => state G lv (rs :: L)) X.
Proof. apply (state_xobj_acquire lv L name rs ok 0). Qed.

Lemma state_release lv L name rs a :
  assoc name acquires = None -> assoc name releases = Some rs ->
  triple (state G lv L) (xobj name a) (fun _ => state G lv (remove_first rs L)) X.
Proof.
  intros Ha Hr s (HL & (n & Hl) & Hg). split_and!.
  - rewrite <- HL. apply (ledger_release _ _ _ _ Ha Hr).
  - exists n. by apply at_level_trace.
  - by eapply keyed_fld; [|exact Hg].
Qed.

Lemma state_release_void lv L name rs :
  assoc name acquires = None -> assoc name releases = Some rs ->
  triple (state G lv L) (xvoid name) (fun _ => state G lv (remove_first rs L)) X.
Proof. apply (state_release lv L name rs 0). Qed.

End Rules.
End Steps.

(** ** The state at each label *)

Definition level_of (l : label) : nat :=
  match l with
  | bad_fork_cleanup_files => 1
  | bad_fork_cleanup_fs => 2
  | bad_fork_cleanup_sighand => 3
  | bad_fork_cleanup_signal => 4
  | bad_fork_cleanup_mm | bad_fork_cleanup_namespaces | bad_fork_cleanup_io | bad_fork_cleanup_thread
  | bad_fork_free_pid | bad_fork_put_pidfd | bad_fork_cancel_cgroup => 5
  | _ => 0
  end%nat.

(** What is held outside fork.c, the last acquired first; [io] is whether the
    child has an io_context. *)
Definition at_policy : list rsrc := (if config CONFIG_NUMA then [RPolicy] else []) ++ [RDelayacct; RCreds].
Definition at_semundo : list rsrc := RSem :: RSecurity :: RAudit :: RPerf :: at_policy.
Definition at_io (io : bool) : list rsrc := (if io then [RIo] else []) ++ RNamespaces :: at_semundo.
Definition at_free_pid (io : bool) : list rsrc :=
  (if pid0 =? init_struct_pid then [] else [RPid]) ++ RThread :: at_io io.
Definition at_put_pidfd (io : bool) : list rsrc :=
  (if has fl CLONE_PIDFD then [RPidfile; RFd] else []) ++ at_free_pid io.

Definition held_at (l : label) (io : bool) : list rsrc :=
  match l with
  | fork_out | bad_fork_free => []
  | bad_fork_cleanup_count => [RCreds]
  | bad_fork_cleanup_threadgroup_lock => [RDelayacct; RCreds]
  | bad_fork_cleanup_policy => at_policy
  | bad_fork_cleanup_perf => RPerf :: at_policy
  | bad_fork_cleanup_audit => RAudit :: RPerf :: at_policy
  | bad_fork_cleanup_security => RSecurity :: RAudit :: RPerf :: at_policy
  | bad_fork_cleanup_semundo | bad_fork_cleanup_files | bad_fork_cleanup_fs | bad_fork_cleanup_sighand
  | bad_fork_cleanup_signal | bad_fork_cleanup_mm => at_semundo
  | bad_fork_cleanup_namespaces => RNamespaces :: at_semundo
  | bad_fork_cleanup_io => at_io io
  | bad_fork_cleanup_thread => RThread :: at_io io
  | bad_fork_free_pid => at_free_pid io
  | bad_fork_put_pidfd => at_put_pidfd io
  | bad_fork_cancel_cgroup => RSiglock :: RCore :: RTasklist :: RCgroup :: at_put_pidfd io
  end.

(** The labels that look at the io_context of the child. *)
Definition io_label (l : label) : bool :=
  match l with
  | bad_fork_cleanup_io | bad_fork_cleanup_thread | bad_fork_free_pid | bad_fork_put_pidfd
  | bad_fork_cancel_cgroup => true
  | _ => false
  end.

Definition io_is (p : Z) (io : bool) (s : kst) : Prop := nonzero (fld s p f_io_context) = io.

Lemma io_keyed p io : keyed p (io_is p io).
Proof. clear. intros s s' Hf Hg. unfold io_is in *. rewrite Hf; [done|]. unfold KEY. set_solver. Qed.

Lemma true_keyed p : keyed p (fun _ => True).
Proof. by intros s s'. Qed.

(** The key-value memory: as it was, or with the store of the child. *)
Definition kv_left (K : kvmem) : Prop :=
  K = kvs s0 \/
  (has fl CLONE_THREAD = false /\
   exists t : kv_task, K = snd (init_task_kv_store kmalloc kv_garbage t (kvs s0))).

(** The tasks left to RCU. *)
Definition queue_ok (q : list Z) : Prop := q = [] \/ (config CONFIG_MEMCG = true /\ exists p, q = [p]).

Definition at_jump (L : list rsrc) (l : label) (v : locals) (s : kst) : Prop :=
  exists K, kv_left K /\
    match l with
    | fork_out => ledger (trace s) = L /\ exists q, queue_ok q /\ undone K multi1 q s
    | _ => exists io, state K (l_p v) (if io_label l then io_is (l_p v) io else fun _ => True)
             (level_of l) (held_at l io ++ L) s
    end.

Definition next_label (l : label) : label :=
  match l with
  | bad_fork_cancel_cgroup => bad_fork_put_pidfd
  | bad_fork_put_pidfd => bad_fork_free_pid
  | bad_fork_free_pid => bad_fork_cleanup_thread
  | bad_fork_cleanup_thread => bad_fork_cleanup_io
  | bad_fork_cleanup_io => bad_fork_cleanup_namespaces
  | bad_fork_cleanup_namespaces => bad_fork_cleanup_mm
  | bad_fork_cleanup_mm => bad_fork_cleanup_signal
  | bad_fork_cleanup_signal => bad_fork_cleanup_sighand
  | bad_fork_cleanup_sighand => bad_fork_cleanup_fs
  | bad_fork_cleanup_fs => bad_fork_cleanup_files
  | bad_fork_cleanup_files => bad_fork_cleanup_semundo
  | bad_fork_cleanup_semundo => bad_fork_cleanup_security
  | bad_fork_cleanup_security => bad_fork_cleanup_audit
  | bad_fork_cleanup_audit => bad_fork_cleanup_perf
  | bad_fork_cleanup_perf => bad_fork_cleanup_policy
  | bad_fork_cleanup_policy => bad_fork_cleanup_threadgroup_lock
  | bad_fork_cleanup_threadgroup_lock => bad_fork_cleanup_count
  | bad_fork_cleanup_count => bad_fork_free
  | bad_fork_free | fork_out => fork_out
  end.

(** ** The code at the labels *)

Abbreviation at_label := (at_label (E := jump) current init_struct_pid pid0 args).
Abbreviation never := (fun _ _ => False).

Definition fact_of (l : label) (p : Z) (io : bool) : kst -> Prop :=
  if io_label l then io_is p io else fun _ => True.

Lemma fact_keyed l p io : keyed p (fact_of l p io).
Proof. unfold fact_of. destruct (io_label l); [apply io_keyed|apply true_keyed]. Qed.

Lemma fact_plain l p io s : io_label l = false -> fact_of l p io s.
Proof. intros Hl. unfold fact_of. by rewrite Hl. Qed.

(** A label that leads to another one with the child still there. *)
Definition label_step (L : list rsrc) (l : label) (v : locals) : Prop :=
  forall K io, triple
    (state K (l_p v) (fact_of l (l_p v) io) (level_of l) (held_at l io ++ L)) (at_label l v)
    (fun _ => state K (l_p v) (fact_of (next_label l) (l_p v) io) (level_of (next_label l))
                (held_at (next_label l) io ++ L)) never.

Lemma state_true K p G lv L s : state K p G lv L s -> state K p (fun _ => True) lv L s.
Proof. by intros (? & ? & _). Qed.

(** The labels at which one call gives one thing back. *)
Lemma simple_label K p G lv L name rs a :
  keyed p G -> assoc name acquires = None -> assoc name releases = Some rs ->
  triple (E := jump) (state K p G lv (rs :: L)) (xobj name a) (fun _ => state K p G lv L) never.
Proof.
  intros HG Ha Hr. pose proof (state_release K p G HG (E := jump) never lv (rs :: L) name rs a Ha Hr) as Ht.
  cbn [remove_first] in Ht. by rewrite decide_True in Ht.
Qed.

Lemma release_label K p lv L m :
  release_step current args s0 K lv p m ->
  triple (state K p (fun _ => True) (S lv) L) m (fun _ => state K p (fun _ => True) lv L) never.
Proof. intros Hm s (HL & Hl & _). specialize (Hm L s (conj HL Hl)). by destruct (m s) as [[x|e] s']; [destruct Hm|]. Qed.

Lemma cancel_cgroup_step L v : label_step L bad_fork_cancel_cgroup v.
Proof.
  intros K io. unfold fact_of. cbn -[at_put_pidfd]. pose proof (io_keyed (l_p v) io) as HG.
  eapply triple_seq; [apply (state_release _ _ _ HG); reflexivity|].
  eapply triple_seq; [apply (state_release_void _ _ _ HG); reflexivity|].
  eapply triple_seq; [apply (state_release_void _ _ _ HG); reflexivity|].
  by apply simple_label.
Qed.

Lemma put_pidfd_step L v : label_step L bad_fork_put_pidfd v.
Proof.
  intros K io. unfold fact_of. cbn -[at_free_pid at_put_pidfd]. pose proof (io_keyed (l_p v) io) as HG.
  unfold clone_flags, at_put_pidfd. destruct (has fl CLONE_PIDFD); cbn [when app]; [|by apply triple_ret].
  eapply triple_seq; by apply simple_label.
Qed.

Lemma free_pid_step L v : label_step L bad_fork_free_pid v.
Proof.
  intros K io. unfold fact_of. cbn -[at_io at_free_pid]. pose proof (io_keyed (l_p v) io) as HG.
  unfold at_free_pid. destruct (pid0 =? init_struct_pid); cbn [when negb app]; [by apply triple_ret|].
  by apply simple_label.
Qed.

Lemma thread_step L v : label_step L bad_fork_cleanup_thread v.
Proof. intros K io. apply simple_label; [apply fact_keyed|done..]. Qed.

Lemma io_step L v : label_step L bad_fork_cleanup_io v.
Proof.
  intros K io. unfold fact_of. cbn -[at_semundo at_io]. pose proof (io_keyed (l_p v) io) as HG.
  eapply triple_bind with (R := fun ioc s => nonzero ioc = io /\ state K (l_p v) (fun _ => True) 5 (at_io io ++ L) s).
  { apply triple_rd. intros s Hs. split; [apply Hs|by eapply state_true]. }
  intros ioc. apply triple_pure. intros ->. unfold at_io. destruct io; cbn [when app]; [|by apply triple_ret].
  apply simple_label; [apply true_keyed|done..].
Qed.

Lemma policy_step L v : label_step L bad_fork_cleanup_policy v.
Proof.
  intros K io. unfold fact_of, held_at, at_policy. cbn -[app]. pose proof (true_keyed (l_p v)) as HG.
  eapply triple_seq; [apply (state_confined _ _ _ HG); confine|].
  destruct (config CONFIG_NUMA); cbn [when app]; [|by apply triple_ret].
  eapply triple_bind; [apply (state_confined _ _ _ HG); confine|]. intros pol. by apply simple_label.
Qed.

Lemma count_step L v : label_step L bad_fork_cleanup_count v.
Proof.
  intros K io. pose proof (true_keyed (l_p v)) as HG.
  eapply triple_seq; [apply (state_confined _ _ _ HG); confine|]. by apply simple_label.
Qed.

Lemma every_step L l v : next_label l <> fork_out -> label_step L l v.
Proof.
  destruct l; intros Hl; try done.
  - apply count_step.
  - intros K io. by apply simple_label; [apply fact_keyed|..].
  - apply policy_step.
  - intros K io. by apply simple_label; [apply fact_keyed|..].
  - intros K io. by apply simple_label; [apply fact_keyed|..].
  - intros K io. by apply simple_label; [apply fact_keyed|..].
  - intros K io. by apply simple_label; [apply fact_keyed|..].
  - intros K io. by apply release_label, cleanup_files_ok.
  - intros K io. by apply release_label, cleanup_fs_ok.
  - intros K io. by apply release_label, cleanup_sighand_ok.
  - intros K io. by apply release_label, cleanup_signal_ok.
  - intros K io. by apply release_label, cleanup_mm_ok.
  - intros K io. by apply simple_label; [apply fact_keyed|..].
  - apply io_step.
  - apply thread_step.
  - apply free_pid_step.
  - apply put_pidfd_step.
  - apply cancel_cgroup_step.
Qed.

(** The child goes away. *)
Lemma free_step L v :
  triple (at_jump L bad_fork_free v) (at_label bad_fork_free v) (fun _ => at_jump L fork_out v) never.
Proof.
  intros s (K & HK & io & Hst). revert s Hst.
  match goal with |- forall s, ?P s -> _ =>
    assert (Ht : triple P (at_label bad_fork_free v) (fun _ => at_jump L fork_out v) never); [|exact Ht] end.
  set (p := l_p v). pose proof (true_keyed p) as HG. cbn [at_label]. fold p.
  eapply triple_seq; [apply (state_confined _ _ _ HG); unfold KEY; confine|].
  eapply triple_seq; [apply (state_confined _ _ _ HG), put_task_stack_confined; unfold stackless, KEY; repeat constructor; not_in|].
  unfold delayed_free_task. intros s (HL & (n & Hl) & _). pose proof (level0_nothing _ _ _ _ Hl) as ->.
  destruct (config CONFIG_MEMCG) eqn:Ec.
  - exists K. split; [done|]. split; [done|]. exists [p]. split; [right; eauto|]. by apply held_queued.
  - pose proof (free_task_ok p s (E := jump) never s (only_refl _ _ _)) as Hf.
    destruct (free_task p s) as [[x|e] s']; [|done]. exists K. split; [done|].
    split; [by rewrite (freed_ledger _ _ _ Hf)|]. exists []. split; [by left|]. by eapply held_gone.
Qed.

(** The node of the delayed signals is unlinked. *)
Lemma out_step L v :
  triple (at_jump L fork_out v) (at_label fork_out v)
    (fun _ s => ledger (trace s) = L /\ exists K q, kv_left K /\ queue_ok q /\ undone K (multiprocess s0) q s) never.
Proof.
  intros s (K & HK & HL & q & Hq & Hu). cbn [at_label]. unfold clone_flags, ForkLevels.multi1 in *.
  destruct (has fl CLONE_THREAD); cbn [when negb].
  { split; [done|]. by exists K, q. }
  unfold unlink_delayed, bind, rd, gets, modify. split; [done|]. exists K, q. split; [done|]. split; [done|].
  rewrite (u_fld _ _ _ _ Hu) by (apply Hs0 || congruence). destruct Hu as [? ? ? ? Hr ? []]. split; try done.
  intros a Ha. simpl. destruct (Hr a Ha) as (? & ? & ? & ? & Hm). split_and!; try done.
  rewrite !lookup_alter in Hm |- *. case_decide; [subst a|done]. rewrite Hm. by destruct (multiprocess s0 !! _).
Qed.

Abbreviation run_labels := (run_labels (E := jump) current init_struct_pid pid0 args).

Definition rank (l : label) : nat :=
  match l with
  | fork_out => 0 | bad_fork_free => 1 | bad_fork_cleanup_count => 2
  | bad_fork_cleanup_threadgroup_lock => 3 | bad_fork_cleanup_policy => 4 | bad_fork_cleanup_perf => 5
  | bad_fork_cleanup_audit => 6 | bad_fork_cleanup_security => 7 | bad_fork_cleanup_semundo => 8
  | bad_fork_cleanup_files => 9 | bad_fork_cleanup_fs => 10 | bad_fork_cleanup_sighand => 11
  | bad_fork_cleanup_signal => 12 | bad_fork_cleanup_mm => 13 | bad_fork_cleanup_namespaces => 14
  | bad_fork_cleanup_io => 15 | bad_fork_cleanup_thread => 16 | bad_fork_free_pid => 17
  | bad_fork_put_pidfd => 18 | bad_fork_cancel_cgroup => 19
  end%nat.

(** Everything from a label on. *)
Lemma unwind_from L v : forall k l, rank l = k ->
  triple (at_jump L l v) (run_labels (labels_from l label_order) v)
    (fun _ s => ledger (trace s) = L /\ exists K q, kv_left K /\ queue_ok q /\ undone K (multiprocess s0) q s) never.
Proof.
  induction k as [|[|k] IH]; intros l Hl.
  - assert (l = fork_out) as -> by by destruct l. cbn [labels_from label_order].
    change (labels_from fork_out label_order) with [fork_out]. cbn [ForkCopy.run_labels].
    eapply triple_seq; [apply out_step|]. by apply triple_ret.
  - assert (l = bad_fork_free) as -> by by destruct l.
    change (labels_from bad_fork_free label_order) with (bad_fork_free :: labels_from fork_out label_order).
    eapply triple_seq; [apply free_step|]. by apply IH.
  - assert (Hn : next_label l <> fork_out) by by destruct l.
    assert (Hr : rank (next_label l) = S k) by (destruct l; simpl in *; lia).
    replace (labels_from l label_order) with (l :: labels_from (next_label l) label_order)
      by (destruct l; try discriminate Hl; reflexivity).
    eapply triple_seq; [|by apply IH].
    intros s (K & HK & Hs). pose proof (every_step L l v Hn K) as Hstep.
    assert (Hio : exists io, state K (l_p v) (fact_of l (l_p v) io) (level_of l) (held_at l io ++ L) s)
      by by destruct l.
    destruct Hio as [io Hio]. specialize (Hstep io s Hio). cbn [ForkCopy.run_labels].
    destruct (at_label l v s) as [[x|e] s']; [|done]. exists K. split; [done|]. by destruct l; try done; exists io.
Qed.

(** ** The body of copy_process *)

Abbreviation K0 := (kvs s0).
Abbreviation L := (ledger (trace s0)).
Abbreviation jumps := (fun j => at_jump L (j_label j) (j_locals j)).

Lemma kv_same : kv_left K0.
Proof. by left. Qed.

Lemma jump_at K p G l io v s :
  kv_left K -> l <> fork_out -> l_p v = p -> (G s -> fact_of l p io s) ->
  state K p G (level_of l) (held_at l io ++ L) s -> at_jump L l v s.
Proof.
  intros HK Hl <- Hg (HL & Hlv & HG). exists K. split; [done|].
  destruct l; try done; exists io; (split; [done|]; split; [done|]); by apply Hg.
Qed.

(** [let* r := m in if (r) goto l]: acquiring one thing. *)
Section Checks.
Variables (K : kvmem) (p : Z) (G : kst -> Prop) (lv : nat) (l : label) (io : bool) (v : locals).
Hypothesis HK : kv_left K.
Hypothesis HG : keyed p G.
Hypothesis Hl : l <> fork_out.
Hypothesis Hv : l_p v = p.
Hypothesis Hfact : forall s, G s -> fact_of l p io s.
Hypothesis Hlv : level_of l = lv.
Context {A : Type}.
Variables (k : prog jump A) (Q : A -> kst -> Prop).

Lemma check_acquire name rs :
  assoc name acquires = Some (rs, Z.eqb 0) ->
  triple (state K p G lv (rs :: held_at l io ++ L)) k Q jumps ->
  triple (state K p G lv (held_at l io ++ L)) (let* r := xcall name in check r l v ;;; k) Q jumps.
Proof.
  intros Ha Hk. eapply triple_bind; [by apply (state_xcall _ _ _ HG)|]. intros r. unfold check, nonzero.
  rewrite (Z.eqb_sym r 0). destruct (0 =? r); cbn [negb]; [exact Hk|].
  intros s Hs. subst lv. by eapply jump_at; [| | |apply Hfact|exact Hs].
Qed.

Lemma check_acquire_neg name rs (m : Z -> prog jump A) :
  assoc name acquires = Some (rs, fun r => 0 <=? r) ->
  (forall r, 0 <= r -> triple (state K p G lv (rs :: held_at l io ++ L)) (m r) Q jumps) ->
  triple (state K p G lv (held_at l io ++ L)) (let* r := xcall name in check_neg r l v ;;; m r) Q jumps.
Proof.
  intros Ha Hk. eapply triple_bind; [by apply (state_xcall _ _ _ HG)|]. intros r. unfold check_neg.
  destruct (Z.leb_spec 0 r) as [Hr|Hr].
  - rewrite (proj2 (Z.ltb_ge r 0)) by lia. by apply Hk.
  - rewrite (proj2 (Z.ltb_lt r 0)) by lia.
    intros s Hs. subst lv. by eapply jump_at; [| | |apply Hfact|exact Hs].
Qed.

Lemma check_neutral name :
  neutral name = true -> triple (state K p G lv (held_at l io ++ L)) k Q jumps ->
  triple (state K p G lv (held_at l io ++ L)) (let* r := xcall name in check r l v ;;; k) Q jumps.
Proof.
  intros Ha Hk. eapply triple_bind; [apply (state_confined _ _ _ HG); by apply confined_xcall|].
  intros r. unfold check. destruct (nonzero r); [|exact Hk].
  intros s Hs. subst lv. by eapply jump_at; [| | |apply Hfact|exact Hs].
Qed.

End Checks.

Abbreviation inherits := (inherits current s0).

Lemma inherits_keyed lv p : keyed p (inherits lv p).
Proof. intros s s' Hf. by apply inherits_fields. Qed.

Lemma check_resource p lv l v {A} (m : prog jump Z) (k : prog jump A) Q :
  acquire_step current args s0 K0 lv p m -> l <> fork_out -> l_p v = p -> level_of l = lv ->
  held_at l false = at_semundo -> io_label l = false ->
  triple (state K0 p (inherits (S lv) p) (S lv) (at_semundo ++ L)) k Q jumps ->
  triple (state K0 p (inherits lv p) lv (at_semundo ++ L)) (let* r := m in check r l v ;;; k) Q jumps.
Proof.
  intros Hm Hl Hv Hlv Hh Hio Hk.
  eapply triple_bind with (R := fun r s =>
    (r = 0 /\ state K0 p (inherits (S lv) p) (S lv) (at_semundo ++ L) s) \/
    (r <> 0 /\ state K0 p (fun _ => True) lv (at_semundo ++ L) s)).
  - intros s (HL & (n & Hn) & Hi). specialize (Hm _ s (conj HL (ex_intro _ n (conj Hn Hi)))).
    destruct (m s) as [[r|e] s']; [|done]. destruct Hm as (HL' & [[-> (n' & ? & ?)]|[Hr (n' & ?)]]).
    + left. split; [done|]. split; [done|]. split; [by exists n'|done].
    + right. split; [lia|]. split; [done|]. split; [by exists n'|done].
  - intros r s [[-> Hs]|[Hr Hs]]; unfold check; [by apply Hk|].
    unfold bind. rewrite (proj2 (nonzero_true r) Hr). cbn. subst lv.
    eapply (jump_at K0 p (fun _ => True) l false); [apply kv_same|done|done| |by rewrite Hh].
    intros _. unfold fact_of. by rewrite Hio.
Qed.

(** *** Up to the copy of the task_struct *)

(** The resource pointers of a copied task_struct. *)
Definition copied (p : Z) (s : kst) : Prop :=
  fld s p f_files = cur f_files /\ fld s p f_fs = cur f_fs /\
  fld s p f_sighand = cur f_sighand /\ fld s p f_signal = cur f_signal.

Lemma copied_keyed p : keyed p (copied p).
Proof.
  intros s s' Hf (? & ? & ? & ?). unfold copied. rewrite !Hf by (clear; unfold KEY; set_solver). done.
Qed.

(** Before there is a child. *)
Definition childless (s : kst) : Prop := ledger (trace s) = L /\ undone K0 multi1 [] s.

Lemma childless_trace name r s : neutral name = true -> childless s -> childless (set_trace ((name, r) :: trace s) s).
Proof.
  intros Hn [HL [? ? ? ? ? ? []]]. split; [|by split]. rewrite <- HL. by apply ledger_neutral.
Qed.

Lemma childless_out r v s : childless s -> jumps (Jump fork_out r v) s.
Proof.
  intros [HL Hu]. exists K0. split; [apply kv_same|]. split; [done|]. exists []. split; [by left|done].
Qed.

Lemma start_undone : undone K0 (multiprocess s0) [] s0.
Proof.
  split; try done; [intros a; rewrite elem_of_nil; tauto|by left].
Qed.

Lemma link_step : triple (E := jump) (eq s0) (when (negb (has fl CLONE_THREAD)) (link_delayed current)) (fun _ => childless) jumps.
Proof.
  intros s <-. pose proof start_undone as Hu. unfold childless, ForkLevels.multi1.
  destruct (has fl CLONE_THREAD); [by split|]. simpl. split; [done|].
  destruct Hu as [? ? ? ? Hr ? []]. by split.
Qed.

Lemma dup_phase :
  triple (eq s0) (copy_process_dup current pid0 args) (fun p => state K0 p (copied p) 0 L) jumps.
Proof.
  unfold copy_process_dup. eapply triple_seq; [apply link_step|].
  eapply (triple_seq _ _ _ childless); [intros s Hs; by apply childless_trace|].
  eapply (triple_bind _ _ _ (fun _ => childless)); [intros s Hs; by apply childless_trace|]. intros pending.
  eapply (triple_seq _ _ _ childless).
  { apply triple_when; [|done]. intros _. apply triple_throw. intros s. apply childless_out. }
  eapply (triple_bind _ _ _ (fun p s => (p = 0 /\ childless s) \/ (p <> 0 /\ state K0 p (copied p) 0 L s))).
  { intros s [HL Hu].
    assert (Hcur : is_Some (heap s !! current)) by (apply (u_dom _ _ _ _ Hu); left; apply Hs0).
    pose proof (dup_task_ok (E := jump) current s never Hw Hcur s eq_refl) as Hd.
    destruct (dup_task_struct current s) as [[r|e] s']; [|done].
    destruct Hd as [[-> ->]|(a & Hn & Ha & [[-> Hf]|(-> & Ho & Hc)])]; [by left|left|right].
    - split; [done|]. split; [by rewrite (freed_ledger _ _ _ Hf)|].
      eapply held_gone; [|exact Hf]. eapply undone_alloc; [exact Hu|done|done|apply (only_refl _ [])].
    - split; [lia|]. split; [by rewrite (on_ledger _ _ _ _ Ho)|]. split.
      + exists nothing. eapply undone_alloc; [exact Hu|done|done|exact Ho].
      + unfold copied. rewrite !Hc by set_solver.
        by rewrite !(u_fld _ _ _ _ Hu) by (apply Hs0 || congruence). }
  intros p. eapply (triple_seq _ _ _ (state K0 p (copied p) 0 L)).
  { intros s [[-> Hs]|[Hp Hs]]; [by apply childless_out|]. by rewrite (proj2 (Z.eqb_neq p 0)). }
  pose proof (copied_keyed p) as HG.
  do 3 (eapply triple_seq; [apply (state_confined _ _ _ HG); unfold KEY; confine|]). by apply triple_ret.
Qed.

(** *** Credentials and limits *)

Lemma state_flags K p G lv Lx c :
  keyed p G ->
  triple (E := jump) (fun s => c = fld s current f_flags /\ state K p G lv Lx s)
    (wr current f_flags (clear_flags c PF_NPROC_EXCEEDED)) (fun _ => state K p G lv Lx) never.
Proof.
  intros HG. apply triple_wr. intros s (-> & HL & (n & Hh & Hs) & Hg).
  destruct (old_not_new _ _ _ _ _ _ _ _ current Hh) as [Hcp Hcn]; [apply Hs0|].
  assert (Hf : forall a f, a <> current -> fld (snd (wr (E := jump) current f_flags
    (clear_flags (fld s current f_flags) PF_NPROC_EXCEEDED) s)) a f = fld s a f)
    by (intros; rewrite fld_wr, decide_False by naive_solver; done).
  split; [done|]. split; [|eapply keyed_fld; [exact HG|intros; by apply Hf|exact Hg]].
  exists n. split; [by apply held_flags|].
  eapply shape_fields; [| |exact Hs]; intros; apply Hf; [done|]. by intros ->.
Qed.

Lemma triple_any {E A} (P : kst -> Prop) (m : prog E A) (Q : A -> kst -> Prop) (X X' : E -> kst -> Prop) :
  triple P m Q X -> (forall e s, X e s -> X' e s) -> triple P m Q X'.
Proof. intros Hm Hx. by eapply triple_weaken; [exact Hm|..]. Qed.

(** The side conditions of the checks. *)
Ltac side := first [done | by intros; apply fact_plain | apply kv_same].

(** A jump out of the current state. *)
Lemma goto_at K p G l io v r {A} (Q : A -> kst -> Prop) lv Lx :
  kv_left K -> l <> fork_out -> l_p v = p -> (forall s, G s -> fact_of l p io s) -> level_of l = lv ->
  Lx = held_at l io ++ L -> triple (state K p G lv Lx) (goto l r v) Q jumps.
Proof.
  intros HK Hl Hv Hf <- ->. apply triple_throw. intros s Hs. by eapply jump_at; [| | |apply Hf|exact Hs].
Qed.

Lemma limits_phase p :
  triple (state K0 p (copied p) 0 L) (copy_process_limits current pid0 p)
    (fun _ => state K0 p (copied p) 0 (RCreds :: L)) jumps.
Proof.
  pose proof (copied_keyed p) as HG. unfold copy_process_limits, rt_mutex_init_task.
  do 2 (eapply triple_seq; [apply (state_confined _ _ _ HG); unfold KEY; confine|]).
  eapply (check_acquire_neg K0 p (copied p) 0 bad_fork_free false (Locals p pid0 (-1) 0) kv_same HG); try side.
  intros _ _. cbn [held_at app].
  assert (Hgo : forall r (Q : unit -> kst -> Prop), triple (state K0 p (copied p) 0 (RCreds :: L))
    (goto bad_fork_cleanup_count r (Locals p pid0 (-1) 0)) Q jumps)
    by (intros; apply (goto_at K0 p (copied p) bad_fork_cleanup_count false); side).
  eapply triple_bind; [apply (state_confined _ _ _ HG); confine|]. intros over.
  eapply triple_seq.
  { apply triple_when; [intros _|intros _ s Hs; exact Hs].
    eapply triple_bind; [apply (state_confined _ _ _ HG); confine|]. intros user.
    apply triple_when; [intros _|done].
    eapply triple_bind; [apply (state_confined _ _ _ HG); confine|]. intros res.
    apply triple_when; [intros _|done].
    eapply triple_bind; [apply (state_confined _ _ _ HG); confine|]. intros admin.
    apply triple_when; [intros _; apply Hgo|done]. }
  eapply (triple_bind _ _ _ (fun c s => c = fld s current f_flags /\ state K0 p (copied p) 0 (RCreds :: L) s));
    [apply triple_rd; by intros s Hs|]. intros c.
  eapply triple_seq; [eapply triple_any; [by apply state_flags|done]|].
  eapply triple_bind; [apply (state_confined _ _ _ HG); confine|]. intros full.
  apply triple_when; [intros _; apply Hgo|done].
Qed.

(** *** Fields that start afresh *)

Lemma children_confined {E} p F :
  confined (E := E) p F
    (modify (fun s => set_lists (<[p := []]> (children s)) (thread_group s) (thread_head s) (tasks s) s)).
Proof. apply (confined_lists p F (<[p := []]>) id id); intros; try done; by apply lookup_insert_ne. Qed.

Lemma group_confined {E} p F :
  confined (E := E) p F
    (modify (fun s => set_lists (children s) (<[p := []]> (thread_group s)) (thread_head s) (tasks s) s)).
Proof. apply (confined_lists p F id (<[p := []]>) id); intros; try done; by apply lookup_insert_ne. Qed.

#[local] Hint Resolve children_confined group_confined : confined.

(** Steps that do not touch the resource pointers of the child. *)
Ltac phase_steps HG :=
  repeat (eapply triple_bind; [apply (state_confined _ _ _ HG); unfold KEY; solve [confine]|intros ?]).

Lemma level0_only K n p F s s' : only p F s s' -> at_level K 0 n p s -> at_level K 0 n p s'.
Proof.
  intros Ho [Hh Hs]. split; [by eapply held_only; eauto|]. pose proof (level0_nothing _ _ _ _ (conj Hh Hs)) as ->.
  split; simpl; intros; try lia; try done; apply none_iff; lia.
Qed.

Lemma no_io_step p Lx :
  triple (E := jump) (state K0 p (copied p) 0 Lx) (wr p f_io_context 0) (fun _ => state K0 p (inherits 0 p) 0 Lx) never.
Proof.
  apply triple_wr. intros s (HL & (n & Hl) & Hc). split; [done|]. split.
  - exists n. eapply level0_only; [|exact Hl]. apply (only_wr (E := jump) p []). set_solver.
  - assert (Hf : forall f, f <> f_io_context -> fld (snd (wr (E := jump) p f_io_context 0 s)) p f = fld s p f)
      by (intros; rewrite fld_wr, decide_False by naive_solver; done).
    destruct Hc as (? & ? & ? & ?). unfold ForkLevels.inherits. rewrite !Hf by done. split_and!; try done.
    rewrite fld_wr, decide_True by done. by destruct (decide _).
Qed.

Lemma init_phase p :
  triple (state K0 p (copied p) 0 (RCreds :: L)) (copy_process_init current pid0 p)
    (fun _ => state K0 p (inherits 0 p) 0 (at_policy ++ L)) jumps.
Proof.
  pose proof (copied_keyed p) as HG. pose proof (inherits_keyed 0 p) as HI.
  unfold copy_process_init, rcu_copy_process.
  eapply triple_seq; [by eapply (state_xobj_acquire _ _ _ HG)|].
  phase_steps HG.
  eapply triple_seq; [eapply triple_any; [apply no_io_step|done]|].
  eapply triple_bind; [apply (state_confined _ _ _ HI); solve [confine]|intros ?].
  eapply triple_seq with (R := state K0 p (inherits 0 p) 0 (at_policy ++ L)).
  { unfold at_policy. destruct (config CONFIG_NUMA); cbn [when app]; [|by apply triple_ret].
    eapply triple_bind; [by apply (state_xcall _ _ _ HI)|]. intros pol.
    destruct (Z.ltb_spec pol 0) as [Hp|Hp].
    - rewrite (proj2 (Z.leb_gt 0 pol)) by lia. cbn [when].
      eapply (triple_seq _ _ _ (fun _ => False)); [|by intros ? []].
      eapply triple_seq; [apply (state_confined _ _ _ HI); unfold KEY; confine|].
      apply (goto_at K0 p (inherits 0 p) bad_fork_cleanup_threadgroup_lock false); side.
    - rewrite (proj2 (Z.leb_le 0 pol)) by lia. cbn [when].
      eapply triple_seq; [apply triple_ret; intros s Hs; exact Hs|].
      apply (state_confined _ _ _ HI). unfold KEY. confine. }
  phase_steps HI. apply (state_confined _ _ _ HI). unfold KEY. confine.
Qed.

(** *** The resources *)

(** The child after copy_io: [io] is whether it has an io_context. *)
Definition after_io (p : Z) (s : kst) : Prop :=
  exists io, state K0 p (io_is p io) 5 (at_io io ++ L) s.

Lemma set_io K p G Lx v :
  triple (E := jump) (state K p G 5 Lx) (wr p f_io_context v) (fun _ => state K p (io_is p (nonzero v)) 5 Lx) never.
Proof.
  apply triple_wr. intros s (HL & (n & Hh & Hs) & _).
  assert (Hf : forall f, f <> f_io_context -> fld (snd (wr (E := jump) p f_io_context v s)) p f = fld s p f)
    by (intros; rewrite fld_wr, decide_False by naive_solver; done).
  split; [done|]. split.
  - exists n. apply level_wr_unused; [done|done|by split|]. intros; intuition congruence.
  - unfold io_is. rewrite fld_wr, !decide_True; [done|by eapply live_p|done].
Qed.

Lemma copy_io_ok p :
  triple (state K0 p (inherits 5 p) 5 (RNamespaces :: at_semundo ++ L)) (copy_io (E := jump) current fl p)
    (fun r s => (r = 0 /\ after_io p s) \/
                (r <> 0 /\ state K0 p (inherits 5 p) 5 (RNamespaces :: at_semundo ++ L) s)) never.
Proof.
  pose proof (inherits_keyed 5 p) as HI. unfold copy_io.
  assert (Hno : triple (E := jump) (state K0 p (inherits 5 p) 5 (RNamespaces :: at_semundo ++ L)) (ret 0)
    (fun r s => (r = 0 /\ after_io p s) \/
                (r <> 0 /\ state K0 p (inherits 5 p) 5 (RNamespaces :: at_semundo ++ L) s)) never).
  { apply triple_ret. intros s (HL & Hl & Hi). left. split; [done|]. exists false. split; [done|]. split; [done|].
    unfold io_is. destruct Hi as (_ & _ & _ & _ & ->). done. }
  destruct (config CONFIG_BLOCK); [|exact Hno].
  eapply triple_bind; [apply (state_confined _ _ _ HI); confine|]. intros ioc.
  destruct (Z.eqb_spec ioc 0) as [_|Hioc]; [exact Hno|]. destruct (has fl CLONE_IO).
  { eapply triple_seq; [by eapply (state_xobj_acquire _ _ _ HI)|].
    eapply triple_seq; [apply set_io|]. apply triple_ret. intros s Hs. left. split; [done|].
    exists true. by rewrite (proj2 (nonzero_true ioc) Hioc) in Hs. }
  eapply triple_bind; [apply (state_confined _ _ _ HI); confine|]. intros valid. destruct (nonzero valid); [|exact Hno].
  eapply triple_bind; [by apply (state_xcall _ _ _ HI)|]. intros new.
  destruct (Z.eqb_spec new 0) as [->|Hnew]; cbn [nonzero].
  { apply triple_ret. intros s Hs. by right. }
  eapply triple_seq; [apply set_io|]. rewrite (proj2 (nonzero_true new) Hnew).
  do 2 (eapply triple_seq; [apply (state_confined _ _ _ (io_keyed p true)); confine|]).
  apply triple_ret. intros s Hs. left. split; [done|]. by exists true.
Qed.

Lemma resources_phase p :
  triple (state K0 p (inherits 0 p) 0 (at_policy ++ L))
    (copy_process_resources current MMF_INIT_MASK VM_INIT_DEF_MASK default_dump_filter pid0 args p)
    (fun _ s => exists io, state K0 p (io_is p io) 5 (RThread :: at_io io ++ L) s) jumps.
Proof.
  pose proof (inherits_keyed 0 p) as HI. unfold copy_process_resources.
  eapply (check_neutral K0 p _ 0 bad_fork_cleanup_policy false _ kv_same HI); try side.
  eapply (check_acquire K0 p _ 0 bad_fork_cleanup_policy false _ kv_same HI); try side.
  eapply (check_acquire K0 p _ 0 bad_fork_cleanup_perf false _ kv_same HI); try side.
  eapply triple_seq; [apply (state_confined _ _ _ HI); confine|].
  eapply (check_acquire K0 p _ 0 bad_fork_cleanup_audit false _ kv_same HI); try side.
  eapply (check_acquire K0 p _ 0 bad_fork_cleanup_security false _ kv_same HI); try side.
  apply (check_resource p 0); try side; [by apply copy_files_ok|].
  apply (check_resource p 1); try side; [by apply copy_fs_ok|].
  apply (check_resource p 2); try side; [by apply copy_sighand_ok|].
  apply (check_resource p 3); try side; [by apply copy_signal_ok|].
  apply (check_resource p 4); try side; [by apply copy_mm_ok|].
  pose proof (inherits_keyed 5 p) as HI5.
  eapply (check_acquire K0 p _ 5 bad_fork_cleanup_mm false _ kv_same HI5); try side.
  eapply triple_bind; [eapply triple_any; [apply copy_io_ok|done]|]. intros r.
  eapply (triple_seq _ _ _ (after_io p)).
  { intros s [[-> Hs]|[Hr Hs]]; [done|]. unfold check. rewrite (proj2 (nonzero_true r) Hr).
    by apply (goto_at K0 p (inherits 5 p) bad_fork_cleanup_namespaces false (Locals p pid0 (-1) 0) r (fun _ => after_io p) 5
      (RNamespaces :: at_semundo ++ L)); try side. }
  apply triple_exists. intros io. pose proof (io_keyed p io) as HO.
  eapply (check_acquire K0 p _ 5 bad_fork_cleanup_io io _ kv_same HO); try side.
  eapply (triple_weaken (state K0 p (io_is p io) 5 (RThread :: at_io io ++ L))); [apply (state_confined _ _ _ HO); confine|done|by exists io|].
  intros e s Hx. exact Hx.
Qed.

(** *** The pid and its file descriptor *)

Lemma pid_phase p :
  triple (fun s => exists io, state K0 p (io_is p io) 5 (RThread :: at_io io ++ L) s)
    (copy_process_pid init_struct_pid pid0 args p)
    (fun v s => l_p v = p /\ exists io, state K0 p (io_is p io) 5 (at_put_pidfd io ++ L) s) jumps.
Proof.
  apply triple_exists. intros io. pose proof (io_keyed p io) as HG. unfold copy_process_pid.
  eapply (triple_bind _ _ _ (fun _ => state K0 p (io_is p io) 5 (at_free_pid io ++ L))).
  { unfold at_free_pid. destruct (pid0 =? init_struct_pid); cbn [negb app]; [by apply triple_ret|].
    eapply (check_acquire_neg K0 p _ 5 bad_fork_cleanup_thread io _ kv_same HG); try side.
    intros r _. by apply triple_ret. }
  intros pid. unfold clone_flags, at_put_pidfd. destruct (has fl CLONE_PIDFD) eqn:Ep; cbn [app].
  2: { apply triple_ret. intros s Hs. split; [done|]. by exists io. }
  eapply (check_acquire_neg K0 p _ 5 bad_fork_free_pid io _ kv_same HG); try side. intros fd _. cbn [held_at].
  eapply triple_bind; [by eapply (state_xcall _ _ _ HG)|]. intros file.
  eapply (triple_seq _ _ _ (state K0 p (io_is p io) 5 (RPidfile :: RFd :: at_free_pid io ++ L))).
  { destruct (Z.ltb_spec file 0) as [Hf|Hf].
    - rewrite (proj2 (Z.leb_gt 0 file)) by lia. eapply triple_seq; [eapply triple_any; [by apply simple_label|done]|].
      apply (goto_at K0 p (io_is p io) bad_fork_free_pid io); side.
    - rewrite (proj2 (Z.leb_le 0 file)) by lia. by apply triple_ret. }
  eapply triple_seq; [apply (state_confined _ _ _ HG); confine|].
  eapply triple_bind; [apply (state_confined _ _ _ HG); confine|]. intros r.
  eapply (triple_seq _ _ _ (state K0 p (io_is p io) 5 (RPidfile :: RFd :: at_free_pid io ++ L))).
  { unfold check. destruct (nonzero r); [|by apply triple_ret].
    apply (goto_at K0 p (io_is p io) bad_fork_put_pidfd io); try side. cbn [held_at]. unfold at_put_pidfd.
    by rewrite Ep. }
  apply triple_ret. intros s Hs. split; [done|]. by exists io.
Qed.

(** *** The key-value store *)

Lemma at_level_kvs K K' lv n p s : at_level K lv n p s -> at_level K' lv n p (set_kvs K' s).
Proof. intros [[? ? ? ? ? ? ? ? []] []]. by split. Qed.

Lemma kv_phase p G lv Lx :
  keyed p G ->
  triple (state K0 p G lv Lx) (copy_process_kv current args p)
    (fun _ s => exists K, kv_left K /\ state K p G lv Lx s) jumps.
Proof.
  intros HG. unfold copy_process_kv, clone_flags. destruct (has fl CLONE_THREAD) eqn:Ef.
  { eapply triple_bind; [apply (state_confined _ _ _ HG); confine|]. intros kv.
    eapply (triple_weaken (state K0 p G lv Lx)); [apply (state_confined _ _ _ HG (E := jump) jumps); unfold KEY; confine|done| |done].
    intros [] s Hs. exists K0. split; [apply kv_same|done]. }
  intros s Hs. set (t := KvTask _ _ _). destruct (init_task_kv_store kmalloc kv_garbage t (kvs s)) as [[r t'] m] eqn:Ei.
  destruct Hs as (HL & (n & Hl) & Hg).
  assert (Hk : kvs s = K0) by apply Hl.
  assert (Hm : state m p G lv Lx (set_kvs m s)).
  { split; [done|]. split; [exists n; by eapply at_level_kvs|]. by eapply keyed_fld; [exact HG| |exact Hg]. }
  rewrite wr_eq. exists m. split.
  - right. split; [done|]. exists t. by rewrite <- Hk, Ei.
  - pose proof (state_confined m p G HG (E := jump) jumps lv Lx (wr p f_kv (t_kv t'))) as Hc. apply Hc; [|done].
    unfold KEY. confine.
Qed.

(** *** Identity, parent and the last checks *)

(** The child as it is when it becomes visible. *)
Definition ready_for (v : locals) (Lx : bool -> list rsrc) (s : kst) : Prop :=
  exists K io, kv_left K /\ state K (l_p v) (io_is (l_p v) io) 5 (Lx io ++ L) s.

Lemma ids_phase v :
  triple (ready_for v at_put_pidfd) (copy_process_ids current args v)
    (fun _ => ready_for v (fun io => RCgroup :: at_put_pidfd io)) jumps.
Proof.
  intros s (K & io & HK & Hs). revert s Hs. set (p := l_p v). pose proof (io_keyed p io) as HG.
  match goal with |- forall s, ?P s -> _ => assert (Ht : triple P (copy_process_ids current args v)
    (fun _ => ready_for v (fun io => RCgroup :: at_put_pidfd io)) jumps); [|exact Ht] end.
  unfold copy_process_ids, copy_field. fold p.
  eapply (triple_weaken (state K p (io_is p io) 5 (at_put_pidfd io ++ L)) _ _
    (fun _ => state K p (io_is p io) 5 (RCgroup :: at_put_pidfd io ++ L)) _ jumps jumps); [|done| |done].
  2: { intros [] s Hs. by exists K, io. }
  phase_steps HG.
  eapply (check_acquire K p _ 5 bad_fork_put_pidfd io _ HK HG); try side.
  phase_steps HG. apply (state_confined _ _ _ HG). unfold KEY. confine.
Qed.

Lemma parent_phase v :
  triple (ready_for v (fun io => RCgroup :: at_put_pidfd io)) (copy_process_parent current args v)
    (fun _ => ready_for v (held_at bad_fork_cancel_cgroup)) jumps.
Proof.
  intros s (K & io & HK & Hs). revert s Hs. set (p := l_p v). pose proof (io_keyed p io) as HG.
  match goal with |- forall s, ?P s -> _ => assert (Ht : triple P (copy_process_parent current args v)
    (fun _ => ready_for v (held_at bad_fork_cancel_cgroup)) jumps); [|exact Ht] end.
  unfold copy_process_parent, copy_field, rseq_fork. fold p.
  eapply (triple_weaken (state K p (io_is p io) 5 (RCgroup :: at_put_pidfd io ++ L)) _ _
    (fun _ => state K p (io_is p io) 5 (held_at bad_fork_cancel_cgroup io ++ L)) _ jumps jumps); [|done| |done].
  2: { intros [] s Hs. by exists K, io. }
  eapply triple_seq; [by eapply (state_xvoid_acquire _ _ _ HG)|].
  phase_steps HG.
  eapply triple_seq; [by eapply (state_xobj_acquire _ _ _ HG)|].
  eapply triple_seq; [by eapply (state_xvoid_acquire _ _ _ HG)|].
  phase_steps HG.
  assert (Hgo : forall r (Q : unit -> kst -> Prop), triple (state K p (io_is p io) 5 (held_at bad_fork_cancel_cgroup io ++ L))
    (goto bad_fork_cancel_cgroup r v) Q jumps)
    by (intros; apply (goto_at K p (io_is p io) bad_fork_cancel_cgroup io); side).
  eapply triple_seq; [apply triple_when; [intros _; apply Hgo|intros _ s Hs; exact Hs]|].
  eapply triple_bind; [apply (state_confined _ _ _ HG); confine|]. intros fatal.
  apply triple_when; [intros _; apply Hgo|done].
Qed.

Lemma some_io {A} K p lv Lx (m : prog jump A) X :
  confined p KEY m ->
  triple (fun s => exists io, state K p (io_is p io) lv (Lx io) s) m
    (fun _ s => exists io, state K p (io_is p io) lv (Lx io) s) X.
Proof.
  intros Hm. apply triple_exists. intros io.
  pose proof (state_confined K p _ (io_keyed p io) X lv (Lx io) m Hm) as Ht.
  eapply triple_weaken; [exact Ht|done|by exists io|done].
Qed.

(** Where the body of copy_process jumps to, everything acquired so far is what
    the label gives back; where it ends, the child is complete. *)
Lemma body_ok :
  triple (eq s0)
    (copy_process_body current MMF_INIT_MASK VM_INIT_DEF_MASK default_dump_filter init_struct_pid pid0 args)
    (fun v => ready_for v (held_at bad_fork_cancel_cgroup)) jumps.
Proof.
  unfold copy_process_body. eapply triple_bind; [apply dup_phase|]. intros p.
  eapply triple_seq; [apply limits_phase|].
  eapply triple_seq; [apply init_phase|].
  eapply triple_seq; [apply resources_phase|].
  eapply triple_bind; [apply pid_phase|]. intros v. apply triple_pure. intros Hv.
  do 2 (eapply triple_seq; [apply some_io; unfold KEY; confine|]).
  eapply triple_seq with (R := ready_for v at_put_pidfd).
  { apply triple_exists. intros io. pose proof (io_keyed p io) as HG.
    eapply (triple_weaken (state K0 p (io_is p io) 5 (at_put_pidfd io ++ L))); [by apply kv_phase|done| |done].
    intros [] s (K & HK & Hs). subst p. by exists K, io. }
  eapply triple_seq; [apply ids_phase|].
  eapply triple_seq; [apply parent_phase|]. by apply triple_ret.
Qed.

Lemma check_pure : exists e, copy_process_check current args s0 = (inl e, s0).
Proof. unfold copy_process_check, bind, rd, gets, ret. by eexists. Qed.

End Unwind.

(** What a failed copy_process leaves. *)
Lemma copy_process_undone `{World} current mask def_mask filter init_struct_pid pid0 tracing args s r s' :
  world_ok -> start_ok current s ->
  copy_process current mask def_mask filter init_struct_pid pid0 tracing args s = (r, s') -> r < 0 ->
  exists K q, kv_left args s K /\ queue_ok q /\ undone current s K (multiprocess s) q s' /\
    ledger (trace s') = ledger (trace s).
Proof.
  intros Hw Hs0 Hr Hneg. unfold copy_process in Hr.
  destruct (check_pure current args s) as [e He]. rewrite He in Hr. destruct (nonzero e).
  { injection Hr as <- <-. exists (kvs s), []. split; [apply kv_same|]. split; [by left|].
    split; [apply start_undone|done]. }
  pose proof (body_ok Hw current mask def_mask filter init_struct_pid pid0 args s Hs0 s eq_refl) as Hb.
  destruct (copy_process_body _ _ _ _ _ _ _ s) as [[v|j] s1].
  - injection Hr as <- _. destruct Hb as (K & io & _ & _ & (n & Hh & _) & _). destruct (h_p _ _ _ _ _ _ _ _ Hh). lia.
  - pose proof (unwind_from Hw current init_struct_pid pid0 args s Hs0 (ledger (trace s)) (j_locals j) _ _ eq_refl s1 Hb) as Hu.
    destruct (run_labels _ _ _ _ _ _ s1) as [[x|x] s2]; [|done]. injection Hr as _ <-.
    destruct Hu as (HL & K & q & HK & Hq & Hu). by exists K, q.
Qed.

