(* ===== verification/ForkChild.v ===== *)
(** * The child of a successful copy_process (kernel/fork.c)

    Identity of the child, its share in the resources of the parent and the
    counters of the kernel after copy_process returned a task. *)

From S2P Require Import Prelude KVStore TaskState ForkState ForkTask ForkMm ForkArgs ForkCopy ForkLogic.
From S2P Require Import ForkTaskSpec ForkMmSpec ForkErrno ForkLevels ForkUnwind.

(** ** What the last steps do not change *)

(** The fields of any object that stay once the child has its identity. *)
Abbreviation SETTLED := [f_pid; f_tgid; f_group_leader; f_kv; f_files; f_fs; f_sighand; f_signal; f_mm;
  f_files_count; f_users; f_sig_count; f_mm_users].

Section Tail.
Context `{World}.
Variable current : Z.
Variable tracing : bool.
Variable args : clone_args.
Variables (a : Z) (f : field).
Hypothesis Hf : f ∈ SETTLED.

Ltac settle := first [ apply keeps_wr; intros ->; revert Hf; rewrite !elem_of_cons, elem_of_nil;
  clear; intuition discriminate | by intros s ].

Lemma parent_keeps v : keeps (fun s => fld s a f) (copy_process_parent current args v).
Proof. unfold copy_process_parent, copy_field, rseq_fork. keep settle. Qed.

Lemma commit_keeps {E} v : keeps (E := E) (fun s => fld s a f) (copy_process_commit current tracing args v).
Proof.
  unfold copy_process_commit, copy_seccomp, attach_process, attach_thread, copy_oom_score_adj, copy_field, inc,
    init_task_pid, unlink_delayed. keep settle.
Qed.

End Tail.

Lemma triple_post {E A} (P : kst -> Prop) (m : prog E A) (Q Q' : A -> kst -> Prop) (X : E -> kst -> Prop) :
  triple P m Q X -> (forall x s, Q x s -> Q' x s) -> triple P m Q' X.
Proof. intros Hm Hq. by eapply triple_weaken. Qed.

(** ** Identity of the child *)

Abbreviation IDENT := [f_tgid; f_group_leader; f_pid; f_kv].

(** Some fields of [p], and the key-value memory. *)
Definition view (p : Z) (F : list field) (s : kst) : list Z * kvmem := (map (fld s p) F, kvs s).

Lemma keeps_view_wr {E} p F b h v : ~ (h ∈ F) -> keeps (E := E) (view p F) (wr b h v).
Proof.
  intros Hh s. change (view p F (snd (wr (E := E) b h v s)) = view p F s). unfold view. f_equal.
  apply map_ext_in. intros f Hf. rewrite fld_wr, decide_False; [done|]. intros [_ ->].
  apply Hh. by apply list_elem_of_In.
Qed.

Lemma view_wr {E} p F h v s :
  is_Some (heap s !! p) -> ~ (h ∈ F) ->
  view p (h :: F) (snd (wr (E := E) p h v s)) = (v :: fst (view p F s), snd (view p F s)).
Proof.
  intros Hp Hh. pose proof (keeps_view_wr (E := E) p F p h v Hh s) as Hk.
  change (view p F (snd (wr (E := E) p h v s)) = view p F s) in Hk. rewrite <- Hk.
  unfold view. cbn [map fst snd]. by rewrite fld_wr, !decide_True.
Qed.

Section Identity.
Context `{World}.
Hypothesis Hw : world_ok.
Variable current : Z.
Variable args : clone_args.
Variable s0 : kst.
Hypothesis Hs0 : start_ok current s0.
Variable p : Z.

Abbreviation fl := (a_flags args).
Abbreviation cur f := (fld s0 current f).
Abbreviation state := (state current args s0).

(** The store the child has after the store was shared or made. *)
Definition kv_of (kv : Z) (K : kvmem) : Prop :=
  if has fl CLONE_THREAD then kv = cur f_kv /\ K = kvs s0
  else exists t : kv_task, let r := init_task_kv_store kmalloc kv_garbage t (kvs s0) in
       kv = t_kv (snd (fst r)) /\ K = snd r.

Lemma state_live K G lv Lx s : state K p G lv Lx s -> is_Some (heap s !! p).
Proof. intros (_ & (n & Hh & _) & _). by eapply live_p. Qed.

Lemma state_cur K G lv Lx s f :
  state K p G lv Lx s -> f <> f_flags -> f <> f_files_count -> f <> f_users -> f <> f_sig_count -> f <> f_mm_users ->
  fld s current f = cur f.
Proof. intros (_ & (n & Hh & _) & _). intros. eapply held_cur; try done. apply Hs0. Qed.

Lemma kv_sets io lv Lx :
  triple (state (kvs s0) p (io_is p io) lv Lx) (copy_process_kv current args p)
    (fun _ s => exists kv K, kv_of kv K /\ view p [f_kv] s = ([kv], K) /\ state K p (io_is p io) lv Lx s)
    (fun _ _ => True).
Proof.
  intros s Hs. pose proof (io_keyed p io) as HG. pose proof (state_live _ _ _ _ _ Hs) as Hp.
  unfold copy_process_kv, clone_flags, kv_of. destruct (has fl CLONE_THREAD) eqn:Ef.
  - unfold bind, rd, gets. rewrite wr_eq, (state_cur _ _ _ _ _ f_kv Hs) by discriminate.
    exists (cur f_kv), (kvs s0). split; [done|]. split.
    + rewrite view_wr by (done || set_solver). unfold view. simpl. f_equal. destruct Hs as (_ & (n & Hh & _) & _). apply Hh.
    + apply (state_confined current args s0 Hs0 _ _ _ HG (E := jump) (fun _ _ => False) lv Lx (wr p f_kv (cur f_kv)));
        [unfold KEY; confine|done].
  - set (t := KvTask _ _ _). destruct Hs as (HL & (n & Hl) & Hg). assert (Hk : kvs s = kvs s0) by apply Hl.
    rewrite Hk. destruct (init_task_kv_store kmalloc kv_garbage t (kvs s0)) as [[r t'] m] eqn:Ei. rewrite wr_eq.
    exists (t_kv t'), m. split; [exists t; by rewrite Ei|]. split.
    + by rewrite view_wr by (done || set_solver).
    + assert (Hm : state m p (io_is p io) lv Lx (set_kvs m s))
        by (split; [done|]; split; [exists n; by eapply at_level_kvs|done]).
      apply (state_confined current args s0 Hs0 _ _ _ HG (E := jump) (fun _ _ => False) lv Lx (wr p f_kv (t_kv t')));
        [unfold KEY; confine|done].
Qed.

Ltac viewed := first [ apply keeps_view_wr; not_in | by intros s ].

(** The identity of the child. *)
Definition leader_of : Z := if has fl CLONE_THREAD then cur f_group_leader else p.
Definition tgid_of : Z := if has fl CLONE_THREAD then cur f_tgid else ext "pid_nr".

(** The child with some of its fields known. *)
Definition known (F : list field) (c : list Z * kvmem) (io : bool) (lv : nat) (Lx : list rsrc) (s : kst) : Prop :=
  view p F s = c /\ state (snd c) p (io_is p io) lv Lx s.

Lemma known_step {A} F c io lv Lx (m : prog jump A) X :
  confined p KEY m -> keeps (view p F) m ->
  triple (known F c io lv Lx) m (fun _ => known F c io lv Lx) X.
Proof.
  intros Hm Hk. pose proof (state_confined current args s0 Hs0 (snd c) p _ (io_keyed p io) X lv Lx m Hm) as Ht.
  apply (triple_keeps _ c _ _ _ _ Hk Ht).
Qed.

Lemma known_wr F l K io lv Lx h v X :
  ~ (h ∈ KEY) -> ~ (h ∈ F) ->
  triple (E := jump) (known F (l, K) io lv Lx) (wr p h v) (fun _ => known (h :: F) (v :: l, K) io lv Lx) X.
Proof.
  intros HK HF. apply triple_wr. intros s [Hv Hs]. split.
  - rewrite view_wr by (done || by eapply state_live). by rewrite Hv.
  - apply (state_confined current args s0 Hs0 _ _ _ (io_keyed p io) (E := jump) (fun _ _ => False) lv Lx (wr p h v));
      [by apply confined_wr|done].
Qed.

Lemma known_cur F c io lv Lx f s :
  known F c io lv Lx s -> f <> f_flags -> f <> f_files_count -> f <> f_users -> f <> f_sig_count ->
  f <> f_mm_users -> fld s current f = cur f.
Proof. intros [_ Hs]. intros. by eapply state_cur. Qed.

Lemma known_copy F l K io lv Lx h X :
  ~ (h ∈ KEY) -> ~ (h ∈ F) -> h <> f_flags -> h <> f_files_count -> h <> f_users -> h <> f_sig_count -> h <> f_mm_users ->
  triple (E := jump) (known F (l, K) io lv Lx) (copy_field p current h)
    (fun _ => known (h :: F) (cur h :: l, K) io lv Lx) X.
Proof.
  intros HK HF ? ? ? ? ?. eapply (triple_bind _ _ _ (fun x s => x = cur h /\ known F (l, K) io lv Lx s)).
  - apply triple_rd. intros s Hs. split; [by eapply known_cur|done].
  - intros x. apply triple_pure. intros ->. by apply known_wr.
Qed.

Lemma ids_sets v io kv K lv Lx :
  l_p v = p ->
  triple (known [f_kv] ([kv], K) io lv Lx) (copy_process_ids current args v)
    (fun _ s => view p IDENT s = ([tgid_of; leader_of; ext "pid_nr"; kv], K)) (fun _ _ => True).
Proof.
  intros Hv. unfold copy_process_ids. rewrite Hv.
  do 4 (eapply triple_seq; [apply known_step; [confine|keep viewed]|]).
  eapply (triple_bind _ _ _ (fun nr s => nr = ext "pid_nr" /\ known [f_kv] ([kv], K) io lv Lx s)).
  { intros s Hs. split; [done|]. pose proof (known_step [f_kv] ([kv], K) io lv Lx (xcall "pid_nr") (fun _ _ => False)) as Hk.
    apply Hk; [confine|by intros ?|done]. }
  intros nr. apply triple_pure. intros ->.
  eapply triple_seq; [apply known_wr; unfold KEY; not_in|].
  eapply (triple_seq _ _ _ (fun s => view p IDENT s = ([tgid_of; leader_of; ext "pid_nr"; kv], K))).
  { unfold tgid_of, leader_of, clone_flags. destruct (has fl CLONE_THREAD).
    - eapply triple_seq; [apply known_copy; (done || unfold KEY; not_in)|].
      eapply triple_post; [apply known_copy; (done || unfold KEY; not_in)|by intros ? s []].
    - eapply triple_seq; [apply known_wr; unfold KEY; not_in|].
      eapply triple_post; [apply known_wr; unfold KEY; not_in|by intros ? s []]. }
  eapply keeps_triple. unfold check. keep viewed.
Qed.

End Identity.

Section Child.
Context `{World}.
Hypothesis Hw : world_ok.
Variable current : Z.
Variables MMF_INIT_MASK VM_INIT_DEF_MASK default_dump_filter : Z.
Variable init_struct_pid : Z.
Variables (pid0 : Z) (tracing : bool) (args : clone_args).
Variable s0 : kst.
Hypothesis Hs0 : start_ok current s0.

Abbreviation body :=
  (copy_process_body current MMF_INIT_MASK VM_INIT_DEF_MASK default_dump_filter init_struct_pid pid0 args).

(** The identity of the child [p]. *)
Definition identity (p : Z) (s : kst) : Prop :=
  exists kv K, kv_of current args s0 kv K /\
    view p IDENT s = ([tgid_of current args s0; leader_of current args s0 p; ext "pid_nr"; kv], K).

Abbreviation anywhere := (fun _ _ => True).

Lemma body_identity : triple (eq s0) body (fun v s => identity (l_p v) s) anywhere.
Proof.
  unfold copy_process_body. eapply triple_bind; [eapply triple_any; [by apply dup_phase|done]|]. intros p.
  eapply triple_seq; [eapply triple_any; [by apply limits_phase|done]|].
  eapply triple_seq; [eapply triple_any; [by apply init_phase|done]|].
  eapply triple_seq; [eapply triple_any; [by apply (resources_phase Hw current MMF_INIT_MASK VM_INIT_DEF_MASK
    default_dump_filter init_struct_pid)|done]|].
  eapply triple_bind; [eapply triple_any; [by apply pid_phase|done]|]. intros v. apply triple_pure. intros Hv.
  do 2 (eapply triple_seq; [apply some_io; [done|]; unfold KEY; confine|]).
  apply triple_exists. intros io.
  eapply triple_seq; [by apply kv_sets|]. apply triple_exists. intros kv. apply triple_exists. intros K.
  apply triple_pure. intros HK.
  eapply triple_seq; [by apply (ids_sets current args s0 Hs0 p v io kv K)|].
  eapply triple_seq.
  { apply keeps_triple. unfold copy_process_parent, copy_field, rseq_fork.
    keep ltac:(first [ apply keeps_view_wr; not_in | by intros s ]). }
  apply triple_ret. intros s Hs. subst p. by exists kv, K.
  Unshelve. all: exact init_struct_pid.
Qed.

(** ** After the point of no return *)

Lemma commit_dom {E} v : keeps (E := E) (fun s => dom (heap s)) (copy_process_commit current tracing args v).
Proof.
  unfold copy_process_commit, copy_seccomp, attach_process, attach_thread, copy_oom_score_adj, copy_field, inc,
    init_task_pid, unlink_delayed. keep ltac:(by intros s; simpl; rewrite ?dom_alter_L).
Qed.

Lemma commit_kvs {E} v : keeps (E := E) kvs (copy_process_commit current tracing args v).
Proof.
  unfold copy_process_commit, copy_seccomp, attach_process, attach_thread, copy_oom_score_adj, copy_field, inc,
    init_task_pid, unlink_delayed. keep ltac:(by intros s).
Qed.

Lemma commit_returns v : nothrow (E := jump) (copy_process_commit current tracing args v).
Proof.
  unfold copy_process_commit, copy_seccomp, attach_process, attach_thread, copy_oom_score_adj, copy_field, inc,
    init_task_pid, unlink_delayed. no_goto.
Qed.

(** The counters, and the pid on which they depend. *)
Definition counts (p : Z) (s : kst) : Z * Z * Z := (nr_threads s, total_forks s, fld s p f_pid).

Lemma counts_wr {E} p b h v : h <> f_pid -> keeps (E := E) (counts p) (wr b h v).
Proof.
  intros Hh s. change (counts p (snd (wr (E := E) b h v s)) = counts p s). unfold counts. simpl.
  change (set_heap _ s) with (snd (wr (E := E) b h v s)). by rewrite fld_wr, decide_False by naive_solver.
Qed.

Ltac tally := first [ apply counts_wr; discriminate | by intros s ].

Lemma commit_counts v n t nr :
  triple (E := jump) (fun s => counts (l_p v) s = (n, t, nr)) (copy_process_commit current tracing args v)
    (fun _ s => counts (l_p v) s = (if nonzero nr then n + 1 else n, t + 1, nr)) anywhere.
Proof.
  unfold copy_process_commit, copy_seccomp, copy_oom_score_adj, copy_field, unlink_delayed.
  do 2 (eapply triple_seq; [apply keeps_triple; keep tally|]).
  eapply (triple_bind _ _ _ (fun x s => x = nr /\ counts (l_p v) s = (n, t, nr))).
  { apply triple_rd. intros s Hs. split; [|done]. unfold counts in Hs. congruence. }
  intros x. apply triple_pure. intros ->.
  eapply (triple_seq _ _ _ (fun s => counts (l_p v) s = (if nonzero nr then n + 1 else n, t, nr))).
  { unfold attach_process, attach_thread, init_task_pid, inc. destruct (nonzero nr); cbn [when]; [|by apply triple_ret].
    do 5 (eapply triple_bind; [apply keeps_triple; keep tally|intros ?]).
    intros s Hs. unfold counts in *. simpl. change (fld (set_counters _ _ _ _ s)) with (fld s). congruence. }
  eapply (triple_seq _ _ _ (fun s => counts (l_p v) s = (if nonzero nr then n + 1 else n, t + 1, nr))).
  { intros s Hs. unfold counts in *. simpl. change (fld (set_counters _ _ _ _ s)) with (fld s). congruence. }
  apply keeps_triple. keep tally.
Qed.

(** ** Success *)

(** A copy_process that does not return an errno went through its whole body
    and the commit. *)
Lemma copy_process_success p s' :
  copy_process current MMF_INIT_MASK VM_INIT_DEF_MASK default_dump_filter init_struct_pid pid0 tracing args s0 = (p, s') ->
  0 <= p ->
  exists v s1 K io n, p = l_p v /\ body s0 = (inl v, s1) /\
    copy_process_commit (E := jump) current tracing args v s1 = (inl tt, s') /\
    kv_left args s0 K /\ at_level current args s0 K 5 n p s1 /\ io_is p io s1.
Proof.
  intros Hr Hp. unfold copy_process in Hr. destruct (check_pure current args s0) as [e He].
  pose proof He as He'. unfold copy_process_check, bind, rd, gets, ret in He'. rewrite He in Hr.
  destruct (nonzero e) eqn:Ee.
  { injection Hr as <- <-. apply nonzero_true in Ee. injection He' as He'.
    pose proof (flags_errs (clone_flags args)) as Hf. rewrite <- He' in Ee, Hp.
    match type of Hp with 0 <= copy_process_flags ?a ?b ?c ?d => specialize (Hf b c d) end. lia. }
  pose proof (body_errs Hw current MMF_INIT_MASK VM_INIT_DEF_MASK default_dump_filter init_struct_pid pid0 args s0) as Hb.
  pose proof (body_ok Hw current MMF_INIT_MASK VM_INIT_DEF_MASK default_dump_filter init_struct_pid pid0 args s0 Hs0
    s0 eq_refl) as Ho.
  destruct (body s0) as [[v|j] s1]; [|injection Hr as <- _; lia].
  destruct Ho as (K & io & HK & _ & (n & Hl) & Hio). destruct (commit_returns v s1) as [[] Hc].
  injection Hr as <- Hs'. exists v, s1, K, io, n. rewrite Hc, Hs'. done.
Qed.

(** The child's share in one resource of the parent: the parent's object with
    one more reference, or an object of its own with one reference. *)
Definition shares (flag : Z) (ptr cnt : field) (p : Z) (s' : kst) : Prop :=
  let x := fld s0 current ptr in
  if has (a_flags args) flag then fld s' p ptr = x /\ fld s' x cnt = fld s0 x cnt + 1
  else heap s0 !! fld s' p ptr = None /\ fld s' (fld s' p ptr) cnt = 1 /\ fld s' x cnt = fld s0 x cnt.

(** From the pointer and the count when the child is complete. *)
Lemma shares_level K n p s1 flag ptr cnt (o : option Z) :
  at_level current args s0 K 5 n p s1 -> fld s1 p ptr = default (fld s0 current ptr) o ->
  (is_Some o <-> has (a_flags args) flag = false) -> (forall a, o = Some a -> a ∈ news_list n) ->
  (forall a, o = Some a -> fld s1 a cnt = 1) -> is_Some (heap s0 !! fld s0 current ptr) -> cnt <> f_flags ->
  (forall a f, f = cnt -> bump current args s0 5 a f =
     taken (has (a_flags args) flag) (fld s0 current ptr) a cnt f) ->
  fld s0 current ptr <> 0 -> shares flag ptr cnt p s1.
Proof.
  intros [Hh _] Hp Ho Hn H1 Hx Hc Hb Hx0. unfold shares. rewrite Hp.
  rewrite (h_old _ _ _ _ _ _ _ _ Hh), Hb by (done || congruence).
  destruct (has (a_flags args) flag) eqn:Ef.
  - destruct o as [a|]; [discriminate (proj1 Ho (ex_intro _ a eq_refl))|]. simpl. split; [done|].
    rewrite taken_on, decide_True by done. done.
  - destruct o as [a|]; [|destruct (proj2 Ho eq_refl) as [? [=]]]. simpl.
    pose proof (h_new _ _ _ _ _ _ _ _ Hh) as Hf. rewrite Forall_forall in Hf.
    split; [by apply Hf, Hn|]. split; [by apply H1|]. rewrite taken_off. lia.
Qed.

Lemma shares_settled flag ptr cnt p s1 s' :
  (forall a f, f ∈ SETTLED -> fld s' a f = fld s1 a f) -> ptr ∈ SETTLED -> cnt ∈ SETTLED ->
  shares flag ptr cnt p s1 -> shares flag ptr cnt p s'.
Proof. intros Hf Hp Hc. unfold shares. by rewrite !Hf. Qed.

(** The bumps of one kind of count come from one resource. *)
Ltac one_bump := intros a f ->; unfold bump, taken;
  rewrite ?(bool_decide_false (_ = _)) by discriminate; rewrite ?andb_false_r; simpl; lia.

Lemma resources_level K n p s1 :
  at_level current args s0 K 5 n p s1 ->
  (fld s0 current f_files <> 0 -> shares CLONE_FILES f_files f_files_count p s1) /\
  shares CLONE_FS f_fs f_users p s1 /\ shares CLONE_SIGHAND f_sighand f_sig_count p s1 /\
  (fld s0 current f_mm <> 0 -> shares CLONE_VM f_mm f_mm_users p s1).
Proof.
  intros Hl. pose proof Hl as [_ Hs].
  assert (Hin : forall a, (n_files n = Some a \/ n_fs n = Some a \/ n_sighand n = Some a \/ n_signal n = Some a \/
    n_mm n = Some a) -> a ∈ news_list n) by (intros a; apply news_in).
  assert (Hnz : forall x, is_Some (heap s0 !! x) -> x <> 0).
  { intros x Hx ->. rewrite (so_null _ _ Hs0) in Hx. by destruct Hx. }
  split_and!.
  - intros E0. destruct (so_files _ _ Hs0 E0) as [Hx _].
    eapply (shares_level K n p s1 _ _ _ (n_files n)); try done; try apply Hs; try lia; auto 7.
    + rewrite (sh_is_files _ _ _ _ _ _ _ Hs). intuition lia.
    + one_bump.
  - destruct (so_fs _ _ Hs0) as [Hx _].
    eapply (shares_level K n p s1 _ _ _ (n_fs n)); try done; try apply Hs; try lia; auto 7.
    + rewrite (sh_is_fs _ _ _ _ _ _ _ Hs). intuition lia.
    + one_bump.
  - destruct (so_sighand _ _ Hs0) as [Hx _].
    eapply (shares_level K n p s1 _ _ _ (n_sighand n)); try done; try apply Hs; try lia; auto 7.
    + rewrite (sh_is_sighand _ _ _ _ _ _ _ Hs). intuition lia.
    + one_bump.
  - intros E0. destruct (so_mm _ _ Hs0 E0) as [Hx _].
    eapply (shares_level K n p s1 _ _ _ (n_mm n)); try done; try apply Hs; try lia; auto 7.
    + rewrite (sh_is_mm _ _ _ _ _ _ _ Hs). intuition lia.
    + one_bump.
Qed.

End Child.

(** What a successful copy_process makes. *)
Lemma child_of `{World} current mask def_mask filter init_struct_pid pid0 tracing args s p s' :
  world_ok -> start_ok current s ->
  copy_process current mask def_mask filter init_struct_pid pid0 tracing args s = (p, s') -> 0 <= p ->
  heap s !! p = None /\ is_Some (heap s' !! p) /\ identity current args s p s' /\
  nr_threads s' = nr_threads s + (if nonzero (ext "pid_nr") then 1 else 0) /\ total_forks s' = total_forks s + 1.
Proof.
  intros Hw Hs0 Hr Hp.
  destruct (copy_process_success Hw _ _ _ _ _ _ _ _ _ Hs0 _ _ Hr Hp) as (v & s1 & K & io & n & -> & Hb & Hc & _ & [Hh _] & _).
  pose proof (body_identity Hw current mask def_mask filter init_struct_pid pid0 args s Hs0 s eq_refl) as Hi.
  rewrite Hb in Hi. destruct Hi as (kv & K' & Hkv & Hview).
  assert (Hset : forall a f, f ∈ SETTLED -> fld s' a f = fld s1 a f).
  { intros a f Hf. pose proof (commit_keeps current tracing args a f Hf (E := jump) v s1) as Hk. by rewrite Hc in Hk. }
  pose proof (commit_kvs (E := jump) current tracing args v s1) as Hkvs. rewrite Hc in Hkvs.
  pose proof (commit_dom (E := jump) current tracing args v s1) as Hdom. rewrite Hc in Hdom.
  destruct (h_quiet _ _ _ _ _ _ _ _ Hh) as [_ (Hnr & Hto & _) _].
  pose proof (commit_counts current tracing args v (nr_threads s) (total_forks s) (ext "pid_nr") s1) as Hn.
  rewrite Hc in Hn. unfold view in Hview. simpl in Hview. injection Hview as Ht Hl Hpid Hk HK.
  assert (Hcnt : counts (l_p v) s1 = (nr_threads s, total_forks s, ext "pid_nr")) by (unfold counts; congruence).
  specialize (Hn Hcnt). unfold counts in Hn. injection Hn as Hn1 Hn2 _.
  split; [apply (h_p _ _ _ _ _ _ _ _ Hh)|]. split.
  - apply elem_of_dom. rewrite Hdom. apply elem_of_dom. by eapply live_p.
  - split; [|rewrite Hn1, Hn2; destruct (nonzero _); lia].
    exists kv, K'. split; [done|]. unfold view. simpl. rewrite !Hset by set_solver. congruence.
Qed.

(** C4: a copy_process that succeeds returns a new task.  A thread
    (CLONE_THREAD) has the thread group id, the leader and the key-value store
    of the current task; a process is its own leader, its thread group id is
    its pid, and its store is the one init_task_kv_store made.  The number of
    forks goes up by one, and so does the number of threads unless the pid is 0
    (an idle task). *)
Theorem copy_process_child `{World} current mask def_mask filter init_struct_pid pid0 tracing args s p s' :
  world_ok -> start_ok current s ->
  copy_process current mask def_mask filter init_struct_pid pid0 tracing args s = (p, s') -> 0 <= p ->
  heap s !! p = None /\ is_Some (heap s' !! p) /\ identity current args s p s' /\
  nr_threads s' = nr_threads s + (if nonzero (ext "pid_nr") then 1 else 0) /\ total_forks s' = total_forks s + 1.
Proof. apply child_of. Qed.

(** C6: the child of a successful copy_process shares the open files, the
    fs_struct, the signal handlers and the address space of the current task
    exactly where the flags say so, each with one more reference; otherwise it
    has a new one with one reference and the parent's count is unchanged. *)
Theorem copy_process_resources_shared `{World} current mask def_mask filter init_struct_pid pid0 tracing args s p s' :
  world_ok -> start_ok current s ->
  copy_process current mask def_mask filter init_struct_pid pid0 tracing args s = (p, s') -> 0 <= p ->
  (fld s current f_files <> 0 -> shares current args s CLONE_FILES f_files f_files_count p s') /\
  shares current args s CLONE_FS f_fs f_users p s' /\
  shares current args s CLONE_SIGHAND f_sighand f_sig_count p s' /\
  (fld s current f_mm <> 0 -> shares current args s CLONE_VM f_mm f_mm_users p s').
Proof.
  intros Hw Hs0 Hr Hp.
  destruct (copy_process_success Hw _ _ _ _ _ _ _ _ _ Hs0 _ _ Hr Hp) as (v & s1 & K & io & n & -> & Hb & Hc & _ & Hl & _).
  assert (Hset : forall a f, f ∈ SETTLED -> fld s' a f = fld s1 a f).
  { intros a f Hf. pose proof (commit_keeps current tracing args a f Hf (E := jump) v s1) as Hk. by rewrite Hc in Hk. }
  destruct (resources_level current args s Hs0 K n (l_p v) s1 Hl) as (H1 & H2 & H3 & H4).
  split_and!; intros; eapply shares_settled; try exact Hset; try set_solver; auto.
Qed.
