(* ===== verification/ForkDemo.v ===== *)
(** * Process creation on a concrete kernel

    A small kernel state with one process, an instance of everything outside
    fork.c in which any one call can be made to fail, and the theorems about
    copy_process applied to it. *)

From S2P Require Import Prelude KVStore TaskState ForkState ForkTask ForkMm ForkArgs ForkCopy ForkLogic.
From S2P Require Import ForkTaskSpec ForkMmSpec ForkErrno ForkLevels ForkUnwind ForkChild.

(** ** The world *)

Definition demo_results : list (string * Z) :=
  [("pid_nr", 1001); ("alloc_pid", 500); ("ns_of_pid(pid)->pid_allocated", PIDNS_ADDING);
   ("pgd_alloc", 900); ("task_pgrp", 501); ("task_session", 502); ("is_child_reaper", 0)].

(** Calls succeed but for [failing], which returns -EAGAIN. *)
Definition demo_ext (failing name : string) : Z :=
  if String.eqb name failing then - EAGAIN else default 0 (assoc name demo_results).

Definition alloc_with (o : obj) (err : Z) (h : gmap Z obj) : Z * gmap Z obj :=
  match slab_alloc (dom h) with Some a => (a, <[a := o]> h) | None => (err, h) end.

#[local] Instance demo_world (memcg : bool) (failing : string) : World := {|
  config := fun c => match c with CONFIG_MMU | CONFIG_THREAD_INFO_IN_TASK | CONFIG_NUMA => true
                                | CONFIG_MEMCG => memcg | _ => false end;
  ext := demo_ext failing;
  ext_at := fun name _ => if String.eqb name "vm_area_dup" then 1 else 0;
  copy_page_range := fun _ pages => (0, pages);
  kmem_cache_alloc := fun _ live => slab_alloc live;
  garbage := fun _ _ => 255;
  stack_alloc := slab_alloc;
  fresh_stack_clean := true;
  kmalloc := slab_alloc;
  kv_garbage := empty_store;
  copy_fs_struct := fun _ h => alloc_with (upd f_users 1 zero_obj) 0 h;
  dup_fd := fun _ h => alloc_with (upd f_files_count 1 zero_obj) (- ENOMEM) h;
  exit_fs := put_ref f_fs f_users;
  exit_files := put_ref f_files f_files_count;
|}.

Lemma slab_alloc_pos live a : slab_alloc live = Some a -> ~ (a ∈ live) /\ 0 < a.
Proof.
  unfold slab_alloc. destruct (filter _ _) as [|x xs] eqn:E; [done|]. intros [= ->].
  assert (Hl : a ∈ a :: xs) by left. rewrite <- E in Hl.
  apply list_elem_of_filter in Hl as [Hl Hr]. apply elem_of_seqZ in Hr. split; [done|lia].
Qed.

Lemma alloc_with_new o err h :
  alloc_with o err h = (err, h) \/
  exists a, 0 < a /\ h !! a = None /\ alloc_with o err h = (a, <[a := o]> h).
Proof.
  unfold alloc_with. destruct (slab_alloc (dom h)) as [a|] eqn:Ea; [right|by left].
  destruct (slab_alloc_pos _ _ Ea) as [Hn Hp]. exists a. split_and!; try done. by apply not_elem_of_dom.
Qed.

Lemma demo_world_ok memcg failing : world_ok (H := demo_world memcg failing).
Proof.
  split; simpl; try done.
  - intros _. apply slab_alloc_pos.
  - apply slab_alloc_pos.
  - apply slab_alloc_fresh.
  - intros _ h. destruct (alloc_with_new (upd f_users 1 zero_obj) 0 h) as [->|(a & ? & ? & ->)]; [by left|].
    right. by exists a, (upd f_users 1 zero_obj).
  - intros _ h. destruct (alloc_with_new (upd f_files_count 1 zero_obj) (- ENOMEM) h) as [->|(a & ? & ? & ->)].
    + left. by exists (- ENOMEM).
    + right. by exists a, (upd f_files_count 1 zero_obj).
  - intros name Hn. unfold demo_ext. destruct (String.eqb name failing); [done|].
    unfold errno_calls in Hn. rewrite !elem_of_cons, elem_of_nil in Hn.
    by repeat destruct Hn as [->|Hn].
Qed.

(** ** The state *)

Fixpoint obj_of (l : list (field * Z)) : obj :=
  match l with [] => zero_obj | (f, v) :: l' => upd f v (obj_of l') end.

(** One task at 1 with its files at 2, fs at 3, sighand at 4, signal at 5, mm
    at 6 and nsproxy at 7. *)
Definition demo_heap : gmap Z obj :=
  list_to_map
    [(1, obj_of [(f_pid, 1000); (f_tgid, 1000); (f_group_leader, 1); (f_real_parent, 1); (f_kv, 100);
                 (f_files, 2); (f_fs, 3); (f_sighand, 4); (f_signal, 5); (f_mm, 6); (f_nsproxy, 7);
                 (f_flags, PF_NPROC_EXCEEDED)]);
     (2, obj_of [(f_files_count, 1)]); (3, obj_of [(f_users, 1)]); (4, obj_of [(f_sig_count, 1)]);
     (5, obj_of [(f_sig_nr_threads, 1); (f_live, 1); (f_sigcnt, 1)]);
     (6, obj_of [(f_mm_users, 1); (f_mm_count, 1); (f_owner, 1)]); (7, zero_obj)].

Definition demo_area : vma := VmaR 4096 8192 [VM_READ; VM_LOCKED] 0 6 0 {[ 1 := 42 ]}.

Definition demo_state : kst :=
  Kst demo_heap one_store {[ 6 := [demo_area] ]} {[ 1 := [] ]} {[ 1 := [] ]} {[ 5 := [1] ]} [1] {[ 5 := 0%nat ]}
    ∅ [None; None] [] 10 100 1000 1 [].

Lemma demo_start : start_ok 1 demo_state.
Proof.
  split; intros; split_and?; try (eexists; reflexivity); try (vm_compute; discriminate); try reflexivity.
  right. eexists. reflexivity.
Qed.

(** copy_process on it, with the flags [fl]. *)
Definition demo_copy (memcg : bool) (failing : string) (fl : Z) : Z * kst :=
  copy_process (H := demo_world memcg failing) 1 0 0 0 0 7 false (CloneArgs fl 0 0 0 SIGCHLD 0 0 0 [] 0 0 false) demo_state.

(** The flags of pthread_create. *)
Definition THREAD_FLAGS : Z := flags_of [CLONE_VM; CLONE_FS; CLONE_FILES; CLONE_SIGHAND; CLONE_THREAD].

Lemma demo_fork_result : fst (demo_copy false "" 0) = 4096.
Proof. vm_compute. reflexivity. Qed.

Lemma demo_thread_result : fst (demo_copy false "" THREAD_FLAGS) = 4096.
Proof. vm_compute. reflexivity. Qed.

Lemma demo_fail_result : fst (demo_copy true "cgroup_can_fork" 0) = - EAGAIN.
Proof. vm_compute. reflexivity. Qed.

Abbreviation demo_args fl := (CloneArgs fl 0 0 0 SIGCHLD 0 0 0 [] 0 0 false).

(** ** The theorems applied *)


(** A fork. *)
Lemma copy_process_child_witness :
  let s' := snd (demo_copy false "" 0) in
  identity (H := demo_world false "") 1 (demo_args 0) demo_state 4096 s' /\ total_forks s' = 101.
Proof.
  destruct (copy_process_child (H := demo_world false "") 1 0 0 0 0 7 false (demo_args 0) demo_state
    4096 (snd (demo_copy false "" 0)) (demo_world_ok _ _) demo_start) as (_ & _ & Hi & _ & Ht).
  - rewrite <- demo_fork_result. apply surjective_pairing.
  - discriminate.
  - by split.
Defined.

(** A thread. *)
Lemma copy_process_resources_shared_witness :
  let s' := snd (demo_copy false "" THREAD_FLAGS) in
  shares 1 (demo_args THREAD_FLAGS) demo_state CLONE_FS f_fs f_users 4096 s'.
Proof.
  destruct (copy_process_resources_shared (H := demo_world false "") 1 0 0 0 0 7 false (demo_args THREAD_FLAGS) demo_state
    4096 (snd (demo_copy false "" THREAD_FLAGS)) (demo_world_ok _ _) demo_start) as (_ & Hs & _).
  - rewrite <- demo_thread_result. apply surjective_pairing.
  - discriminate.
  - exact Hs.
Defined.

(** What is left of the fork that the cgroup refuses, without memory cgroups. *)
Definition demo_left : kst := snd (demo_copy false "cgroup_can_fork" 0).

Lemma demo_left_heap : dom (heap demo_left) = dom demo_heap.
Proof. apply (bool_decide_unpack _). vm_compute. exact I. Qed.

Lemma demo_left_kv : forallb (fun e => negb (snd e f_kv =? 4096)) (map_to_list (heap demo_left)) = true.
Proof. vm_compute. reflexivity. Qed.

Lemma demo_left_store : bool_decide (is_Some (stores (kvs demo_left) !! 4096)) = true.
Proof. vm_compute. reflexivity. Qed.

(** The store of a child is lost when the copy fails after line 2267: the
    fork that the cgroup refuses leaves a key-value store that was not there
    before and that no task, nor any other object of the kernel, points to. *)
Theorem copy_process_leaks_store :
  let s' := snd (demo_copy false "cgroup_can_fork" 0) in
  dom (heap s') = dom (heap demo_state) /\
  exists kv, stores (kvs demo_state) !! kv = None /\ is_Some (stores (kvs s') !! kv) /\
    forall a, fld s' a f_kv <> kv.
Proof.
  cbv zeta. fold demo_left. split; [apply demo_left_heap|]. exists 4096. split; [done|]. split.
  - exact (bool_decide_eq_true_1 _ demo_left_store).
  - intros a. unfold fld. destruct (heap demo_left !! a) as [o|] eqn:Ea; [|done].
    apply elem_of_map_to_list in Ea. pose proof demo_left_kv as Hk. rewrite forallb_forall in Hk.
    specialize (Hk (a, o)). rewrite <- list_elem_of_In in Hk. specialize (Hk Ea). simpl in Hk.
    destruct (Z.eqb_spec (o f_kv) 4096); done.
Qed.
