(* ===== verification/ForkClone.v ===== *)
(** * Creating processes: kernel_clone and its callers (kernel/fork.c)

    kernel_clone, the entry points fork, vfork, clone, clone3, kernel_thread,
    create_io_thread and fork_idle, and what each gives its caller. *)

From S2P Require Import Prelude KVStore TaskState ForkState ForkTask ForkMm ForkArgs ForkCopy ForkLogic.
From S2P Require Import ForkTaskSpec ForkMmSpec ForkErrno ForkLevels ForkUnwind ForkChild ForkDemo.

Definition PTRACE_EVENT_FORK : Z := 1.
Definition PTRACE_EVENT_VFORK : Z := 2.
Definition PTRACE_EVENT_CLONE : Z := 3.
Definition PTRACE_EVENT_VFORK_DONE : Z := 5.

Section Clone.
Context `{World}.
Variable current : Z.
Variables MMF_INIT_MASK VM_INIT_DEF_MASK default_dump_filter : Z.
Variable init_struct_pid : Z.
(** The address of the completion on the stack of the caller. *)
Variable vfork : Z.

Abbreviation copy_process :=
  (copy_process current MMF_INIT_MASK VM_INIT_DEF_MASK default_dump_filter init_struct_pid).

(** The event that is reported to the tracer of the current task. *)
Definition clone_trace (args : clone_args) : Z :=
  if has (a_flags args) CLONE_UNTRACED then 0
  else
    let trace :=
      if has (a_flags args) CLONE_VFORK then PTRACE_EVENT_VFORK
      else if negb (a_exit_signal args =? SIGCHLD) then PTRACE_EVENT_CLONE
      else PTRACE_EVENT_FORK in
    if nonzero (ext_at "ptrace_event_enabled" trace) then trace else 0.

(** kernel_clone after the copy: the child [p] is started. *)
Definition start_child (args : clone_args) (trace p : Z) : prog jump Z :=
  xobj "trace_sched_process_fork" p ;;;
  xobj "get_task_pid" p ;;;
  let* nr := xcall "pid_vnr" in
  when (has (a_flags args) CLONE_PARENT_SETTID) (xobj "put_user(nr, parent_tid)" nr) ;;;
  when (has (a_flags args) CLONE_VFORK)
    (wr p f_vfork_done vfork ;;;
     xobj "init_completion" vfork ;;;
     xobj "get_task_struct" p) ;;;
  xobj "wake_up_new_task" p ;;;
  when (nonzero trace) (xobj "ptrace_event_pid" trace) ;;;
  when (has (a_flags args) CLONE_VFORK)
    (let* killed := wait_for_vfork_done p vfork in
     when (negb (nonzero killed)) (xobj "ptrace_event_pid" PTRACE_EVENT_VFORK_DONE)) ;;;
  xvoid "put_pid" ;;;
  ret nr.

Definition kernel_clone (args : clone_args) (s : kst) : Z * kst :=
  if has (a_flags args) CLONE_PIDFD && has (a_flags args) CLONE_PARENT_SETTID &&
     (a_pidfd args =? a_parent_tid args) then (- EINVAL, s)
  else
    let trace := clone_trace args in
    let '(p, s1) := copy_process 0 (nonzero trace) args s in
    if p <? 0 then (p, s1)
    else
      match start_child args trace p s1 with
      | (inl nr, s2) => (nr, s2)
      | (inr j, s2) => (j_retval j, s2)
      end.

(** ** The callers *)

Definition kernel_thread (fn arg flags : Z) : kst -> Z * kst := kernel_clone (kernel_thread_args fn arg flags).

Definition sys_fork (s : kst) : Z * kst :=
  if config CONFIG_MMU then kernel_clone fork_args s else (- EINVAL, s).

Definition sys_vfork : kst -> Z * kst := kernel_clone vfork_args.

Definition sys_clone (clone_flags newsp parent_tidptr child_tidptr tls : Z) : kst -> Z * kst :=
  kernel_clone (sys_clone_args clone_flags newsp parent_tidptr child_tidptr tls).

Definition sys_clone3 (copy_struct_from_user : Z -> Z -> user_args + Z) (copy_from_user : Z -> Z -> option (list Z))
  (access_ok : Z -> Z -> bool) (uargs size : Z) (s : kst) : Z * kst :=
  match clone3_args copy_struct_from_user copy_from_user access_ok uargs size with
  | inr err => (err, s)
  | inl kargs => kernel_clone kargs s
  end.

(** init_idle_pids: every type of pid of the task is init_struct_pid. *)
Definition init_idle_pids {E} (idle : Z) : prog E unit :=
  init_task_pid idle PIDTYPE_PID init_struct_pid ;;;
  init_task_pid idle PIDTYPE_TGID init_struct_pid ;;;
  init_task_pid idle PIDTYPE_PGID init_struct_pid ;;;
  init_task_pid idle PIDTYPE_SID init_struct_pid.

Definition fork_idle (s : kst) : Z * kst :=
  let '(task, s1) := copy_process init_struct_pid false fork_idle_args s in
  if task <? 0 then (task, s1)
  else (task, snd ((init_idle_pids (E := jump) task ;;; xobj "init_idle" task) s1)).

Definition create_io_thread (fn arg : Z) : kst -> Z * kst := copy_process 0 false (create_io_thread_args fn arg).

End Clone.

Section Outcome.
Context `{World}.
Variable current : Z.
Variables MMF_INIT_MASK VM_INIT_DEF_MASK default_dump_filter : Z.
Variable init_struct_pid vfork : Z.

(** Starting the child changes of the kernel's objects at most its vfork_done. *)
Lemma start_child_confined args trace p :
  confined p [f_tgid; f_group_leader; f_pid; f_kv] (start_child vfork args trace p).
Proof. unfold start_child, wait_for_vfork_done. confine. Qed.

(** The child runs before the parent waits for it, in a trace that has its
    newest call first. *)
Definition waited (p : Z) (t : list (string * Z)) : Prop :=
  exists l1 l2 l3 killed,
    t = l1 ++ ("wait_for_completion_killable", killed) :: l2 ++ ("wake_up_new_task", p) :: l3.

(** What kernel_clone adds to the child: it is woken and, with CLONE_VFORK,
    waited for; its vfork_done is the completion unless the wait was killed. *)
Definition started (args : clone_args) (p : Z) (s' : kst) : Prop :=
  ("wake_up_new_task", p) ∈ trace s' /\
  (has (a_flags args) CLONE_VFORK = true ->
   waited p (trace s') /\
   fld s' p f_vfork_done = if nonzero (ext "wait_for_completion_killable") then 0 else vfork).

Lemma waited_here p k t :
  ("wake_up_new_task", p) ∈ t -> waited p (("wait_for_completion_killable", k) :: t).
Proof. intros (l2 & l3 & ->)%list_elem_of_split. by exists [], l2, l3, k. Qed.

Lemma waited_later p e t : waited p t -> waited p (e :: t).
Proof. intros (l1 & l2 & l3 & k & ->). by exists (e :: l1), l2, l3, k. Qed.

(** Facts that more calls do not undo. *)
Definition lasting (P : kst -> Prop) : Prop := forall s e, P s -> P (set_trace (e :: trace s) s).

Lemma lasting_xobj P name a : lasting P -> triple (E := jump) P (xobj name a) (fun _ => P) (fun _ _ => False).
Proof. intros HP s. apply HP. Qed.

Lemma lasting_xvoid P name : lasting P -> triple (E := jump) P (xvoid name) (fun _ => P) (fun _ _ => False).
Proof. intros HP s. apply HP. Qed.

Lemma lasting_xcall P name :
  lasting P -> triple (E := jump) P (xcall name) (fun x s => x = ext name /\ P s) (fun _ _ => False).
Proof. intros HP s Hs. split; [done|by apply HP]. Qed.

Lemma lasting_when P b m :
  triple (E := jump) P m (fun _ => P) (fun _ _ => False) -> triple P (when b m) (fun _ => P) (fun _ _ => False).
Proof. intros Hm. destruct b; [done|by apply triple_ret]. Qed.

Ltac last_by t :=
  repeat (eapply triple_seq; [first [apply lasting_xobj; t | apply lasting_xvoid; t
                                    | apply lasting_when, lasting_xobj; t]|]).

(** The completion is in place. *)
Definition armed (args : clone_args) (p : Z) (s : kst) : Prop :=
  is_Some (heap s !! p) /\ (has (a_flags args) CLONE_VFORK = true -> fld s p f_vfork_done = vfork).

Definition woken (args : clone_args) (p : Z) (s : kst) : Prop :=
  armed args p s /\ ("wake_up_new_task", p) ∈ trace s.

Lemma woken_lasting args p : lasting (woken args p).
Proof. intros s e [Ha Hw]. split; [done|]. by right. Qed.

Lemma started_lasting args p : lasting (started args p).
Proof. intros s e [Hw Hv]. split; [by right|]. intros E. destruct (Hv E). split; [by apply waited_later|done]. Qed.

(** The wait for the child. *)
Lemma wait_started args p :
  has (a_flags args) CLONE_VFORK = true ->
  triple (E := jump) (woken args p) (wait_for_vfork_done p vfork) (fun _ => started args p) (fun _ _ => False).
Proof.
  intros Hv. unfold wait_for_vfork_done. last_by ltac:(apply woken_lasting).
  eapply (triple_bind _ _ _ (fun k s => k = ext "wait_for_completion_killable" /\ woken args p s /\ waited p (trace s))).
  { intros s Hs. split; [done|]. split; [by apply woken_lasting|]. apply waited_here, Hs. }
  intros k. apply triple_pure. intros ->.
  last_by ltac:(intros s e [Hs Hw]; split; [by apply woken_lasting|by apply waited_later]).
  eapply (triple_seq _ _ _ (started args p)).
  - destruct (nonzero (ext "wait_for_completion_killable")) eqn:Ek; cbn [when].
    + apply triple_wr. intros s [[[Hl _] Hwk] Hw]. split; [done|]. intros _. split; [done|].
      rewrite Ek, fld_wr by done. by rewrite !decide_True.
    + apply triple_ret. intros s [[[Hl Ha] Hwk] Hw]. split; [done|]. intros _. rewrite Ek. auto.
  - last_by ltac:(apply started_lasting). apply triple_ret. done.
Qed.

Lemma start_child_started args tr p :
  triple (fun s => is_Some (heap s !! p)) (start_child vfork args tr p)
    (fun r s => r = ext "pid_vnr" /\ started args p s) (fun _ _ => False).
Proof.
  unfold start_child. last_by ltac:(by intros s e).
  eapply triple_bind; [apply lasting_xcall; by intros s e|]. intros nr. apply triple_pure. intros ->.
  last_by ltac:(by intros s e).
  eapply (triple_seq _ _ _ (armed args p)).
  { destruct (has (a_flags args) CLONE_VFORK) eqn:Ev; cbn [when].
    - eapply (triple_seq _ _ _ (armed args p)).
      + apply triple_wr. intros s Hl. split; [|intros _; rewrite fld_wr by done; by rewrite !decide_True].
        simpl. rewrite lookup_alter_is_Some. done.
      + last_by ltac:(by intros s e). apply lasting_xobj. by intros s e.
    - apply triple_ret. intros s Hl. split; [done|]. by rewrite Ev. }
  eapply (triple_seq _ _ _ (woken args p)).
  { intros s Hs. split; [done|]. by left. }
  last_by ltac:(apply woken_lasting).
  eapply (triple_seq _ _ _ (started args p)).
  - destruct (has (a_flags args) CLONE_VFORK) eqn:Ev; cbn [when].
    + eapply triple_bind; [by apply wait_started|]. intros k. apply lasting_when, lasting_xobj, started_lasting.
    + apply triple_ret. intros s [_ Hw]. split; [done|]. by rewrite Ev.
  - last_by ltac:(apply started_lasting). by apply triple_ret.
Qed.

End Outcome.


(** A vfork in the concrete kernel. *)
Definition demo_vfork : Z * kst :=
  kernel_clone (H := demo_world false "") 1 0 0 0 8 77 vfork_args demo_state.

