(* ===== verification/ForkUnshare.v ===== *)
(** * unshare (kernel/fork.c)

    ksys_unshare gives the current task its own fs_struct, file table,
    credentials and namespaces.  It is all or nothing, but for a set of
    namespaces that one error path forgets. *)

From S2P Require Import Prelude KVStore TaskState ForkState ForkTask ForkMm ForkArgs ForkCopy ForkLogic.
From S2P Require Import ForkLevels ForkUnwind ForkChild ForkDemo.

(** What fs/file.c and fs/fs_struct.c do with the last user of an object. *)
Class FileOps := {
  put_files_struct : Z -> gmap Z obj -> gmap Z obj;
  free_fs_struct : Z -> gmap Z obj -> gmap Z obj;
}.

(** Drop one reference counted in [cnt]; the last one frees the object. *)
Definition put_count (cnt : field) (a : Z) (h : gmap Z obj) : gmap Z obj :=
  match h !! a with
  | None => h
  | Some o => if o cnt =? 1 then delete a h else alter (upd cnt (o cnt - 1)) a h
  end.

Record file_ops_ok `{FileOps} : Prop := {
  fo_put_files : forall a h, put_files_struct a h = put_count f_files_count a h;
  fo_free_fs : forall a h, free_fs_struct a h = delete a h;
}.

Section Unshare.
Context `{World} `{FileOps}.
Context {E : Type}.
Variable current : Z.

(** The error and the new fs_struct (0 when there is none). *)
Definition unshare_fs (unshare_flags : Z) : prog E (Z * Z) :=
  let* fs := rd current f_fs in
  if negb (has unshare_flags CLONE_FS) || (fs =? 0) then ret (0, 0)
  else
    let* users := rd fs f_users in
    if users =? 1 then ret (0, 0)
    else
      let* new := run_alloc (copy_fs_struct fs) in
      ret (if new =? 0 then - ENOMEM else 0, new).

(** The error and the new file table (0 when there is none). *)
Definition unshare_fd (unshare_flags : Z) : prog E (Z * Z) :=
  let* fd := rd current f_files in
  let* count := rd fd f_files_count in
  if has unshare_flags CLONE_FILES && (nonzero fd && (1 <? count)) then
    let* new := run_alloc (dup_fd fd) in
    ret (if new <? 0 then (new, 0) else (0, new))
  else ret (0, 0).

(** The labels, each falling through to the next. *)
Definition bad_unshare_cleanup_fs (new_fs : Z) : prog E unit :=
  when (nonzero new_fs) (run_heap (free_fs_struct new_fs)).
Definition bad_unshare_cleanup_fd (new_fd new_fs : Z) : prog E unit :=
  when (nonzero new_fd) (run_heap (put_files_struct new_fd)) ;;;
  bad_unshare_cleanup_fs new_fs.
Definition bad_unshare_cleanup_cred (new_cred new_fd new_fs : Z) : prog E unit :=
  when (nonzero new_cred) (xobj "put_cred" new_cred) ;;;
  bad_unshare_cleanup_fd new_fd new_fs.

(** current->fs = new_fs; the old one when this was its last user. *)
Definition install_fs (new_fs : Z) : prog E Z :=
  let* fs := rd current f_fs in
  wr current f_fs new_fs ;;;
  let* last := dec_and_test fs f_users in
  ret (if last then fs else 0).

(** current->files = new_fd; the old one. *)
Definition install_fd (new_fd : Z) : prog E Z :=
  let* fd := rd current f_files in
  wr current f_files new_fd ;;;
  ret fd.

(** The new parts are put in place: what is left of new_fd and new_fs. *)
Definition unshare_install (unshare_flags : Z) (do_sysvsem : bool) (new_fs new_fd new_cred new_nsproxy : Z)
  : prog E (Z * Z) :=
  when do_sysvsem (xobj "exit_sem" current) ;;;
  when (has unshare_flags CLONE_NEWIPC) (xobj "exit_shm" current ;;; xobj "shm_init_task" current) ;;;
  when (nonzero new_nsproxy) (xobj "switch_task_namespaces" new_nsproxy) ;;;
  xobj "task_lock" current ;;;
  let* old_fs := if nonzero new_fs then install_fs new_fs else ret 0 in
  let* old_fd := if nonzero new_fd then install_fd new_fd else ret 0 in
  xobj "task_unlock" current ;;;
  when (nonzero new_cred) (xobj "commit_creds" new_cred) ;;;
  ret (old_fd, old_fs).

Definition ksys_unshare (flags : Z) : prog E Z :=
  let unshare_flags := unshare_closure flags in
  let* sighand := rd current f_sighand in
  let* count := rd sighand f_sig_count in
  let err := check_unshare_flags (nonzero (ext "thread_group_empty")) (nonzero (ext "current_is_single_threaded"))
               count unshare_flags in
  if nonzero err then ret err
  else
    let do_sysvsem := has unshare_flags (Z.lor CLONE_NEWIPC CLONE_SYSVSEM) in
    let* (err, new_fs) := unshare_fs unshare_flags in
    if nonzero err then ret err
    else
      let* (err, new_fd) := unshare_fd unshare_flags in
      if nonzero err then bad_unshare_cleanup_fs new_fs ;;; ret err
      else
        let* err := xcall "unshare_userns" in
        if nonzero err then bad_unshare_cleanup_fd new_fd new_fs ;;; ret err
        else
          let* new_cred := xcall "new_cred" in
          let* err := xcall "unshare_nsproxy_namespaces" in
          if nonzero err then bad_unshare_cleanup_cred new_cred new_fd new_fs ;;; ret err
          else
            let* new_nsproxy := xcall "new_nsproxy" in
            let* err := if nonzero new_cred then xcall "set_cred_ucounts" else ret 0 in
            if nonzero err then bad_unshare_cleanup_cred new_cred new_fd new_fs ;;; ret err
            else
              let* (old_fd, old_fs, old_cred) :=
                if nonzero new_fs || nonzero new_fd || do_sysvsem || nonzero new_cred || nonzero new_nsproxy then
                  let* (old_fd, old_fs) :=
                    unshare_install unshare_flags do_sysvsem new_fs new_fd new_cred new_nsproxy in
                  ret (old_fd, old_fs, 0)
                else ret (new_fd, new_fs, new_cred) in
              xobj "perf_event_namespaces" current ;;;
              bad_unshare_cleanup_cred old_cred old_fd old_fs ;;;
              ret 0.

Definition sys_unshare (unshare_flags : Z) : prog E Z := ksys_unshare unshare_flags.

(** unshare_files, for exec. *)
Definition unshare_files : prog E Z :=
  let* (error, copy) := unshare_fd CLONE_FILES in
  if nonzero error || (copy =? 0) then ret error
  else
    let* old := rd current f_files in
    xobj "task_lock" current ;;;
    wr current f_files copy ;;;
    xobj "task_unlock" current ;;;
    run_heap (put_files_struct old) ;;;
    ret 0.

End Unshare.

(** ** What is held *)

(** The objects acquired by [acq] (when it returns one) less those given up. *)
Definition balance (acq : string) (rels : list string) (t : list (string * Z)) : Z :=
  foldr (fun e n => n + if String.eqb (fst e) acq then (if nonzero (snd e) then 1 else 0)
                        else if existsb (String.eqb (fst e)) rels then -1 else 0) 0 t.

Abbreviation cred_held := (balance "new_cred" ["put_cred"; "commit_creds"]).
Abbreviation ns_held := (balance "new_nsproxy" ["switch_task_namespaces"]).

Definition hfld (h : gmap Z obj) (a : Z) (f : field) : Z :=
  match h !! a with Some o => o f | None => 0 end.

Lemma hfld_new h a o b g : h !! a = None -> b <> a -> hfld (<[a := o]> h) b g = hfld h b g.
Proof. intros Ha Hb. unfold hfld. by rewrite lookup_insert_ne. Qed.

Lemma hfld_upd h a f v b g :
  is_Some (h !! a) -> hfld (alter (upd f v) a h) b g = if decide (b = a /\ g = f) then v else hfld h b g.
Proof.
  intros [o Ho]. unfold hfld. rewrite lookup_alter. destruct (decide (a = b)) as [<-|Hb].
  - rewrite Ho. cbn. unfold upd. destruct (decide (g = f)) as [->|Hg].
    + by rewrite decide_True.
    + rewrite decide_False; [done|tauto].
  - rewrite decide_False; [done|]. intros [-> _]. done.
Qed.

Section UnshareSpec.
Context `{World} `{FileOps}.
Hypothesis Hw : world_ok.
Hypothesis Hf : file_ops_ok.
Variable current : Z.
Variable s0 : kst.
Context {E : Type}.

(** [s0] with the heap [h], [c] credentials and [n] namespaces held. *)
Definition st (h : gmap Z obj) (c n : Z) (s : kst) : Prop :=
  set_trace [] s = set_trace [] (set_heap h s0) /\ cred_held (trace s) = c /\ ns_held (trace s) = n.

Abbreviation never := (fun (_ : E) (_ : kst) => False).

Lemma st_heap h c n s : st h c n s -> heap s = h.
Proof. intros [Hs _]. apply (f_equal heap) in Hs. done. Qed.

Lemma st_rd h c n a f : triple (st h c n) (rd a f) (fun x s => x = hfld h a f /\ st h c n s) never.
Proof. apply triple_rd. intros s Hs. split; [|done]. unfold fld, hfld. by rewrite (st_heap _ _ _ _ Hs). Qed.

Lemma st_update h h' c n s : st h c n s -> st h' c n (set_heap h' s).
Proof.
  intros (Hs & Hc & Hn). split; [|done].
  change (set_trace [] (set_heap h' s)) with (set_heap h' (set_trace [] s)). by rewrite Hs.
Qed.

Lemma st_run_heap h c n g : triple (st h c n) (run_heap g) (fun _ => st (g h) c n) never.
Proof. intros s Hs. cbn. rewrite (st_heap _ _ _ _ Hs). by apply (st_update h). Qed.

Lemma st_wr h c n a f v : triple (st h c n) (wr a f v) (fun _ => st (alter (upd f v) a h) c n) never.
Proof. apply st_run_heap. Qed.

Lemma st_run_alloc h c n g :
  triple (st h c n) (run_alloc g) (fun x s => x = fst (g h) /\ st (snd (g h)) c n s) never.
Proof. intros s Hs. cbn. rewrite (st_heap _ _ _ _ Hs). split; [done|]. by apply (st_update h). Qed.

(** A call moves the balances by what its name says. *)
Definition moves (name : string) (x c c' n n' : Z) : Prop :=
  (c' - c = cred_held [(name, x)]) /\ (n' - n = ns_held [(name, x)]).

Lemma st_event name x h c c' n n' s :
  moves name x c c' n n' -> st h c n s -> st h c' n' (set_trace ((name, x) :: trace s) s).
Proof.
  unfold moves, st, balance. cbn [foldr fst snd trace set_trace]. intros [Hc Hn] (Hs & <- & <-).
  split; [done|]. lia.
Qed.

Lemma st_xobj name x h c c' n n' :
  moves name x c c' n n' -> triple (st h c n) (xobj name x) (fun _ => st h c' n') never.
Proof. intros Hm s. by apply st_event. Qed.

Lemma st_xcall name h c c' n n' :
  moves name (ext name) c c' n n' ->
  triple (st h c n) (xcall name) (fun x s => x = ext name /\ st h c' n' s) never.
Proof. intros Hm s Hs. split; [done|]. by apply (st_event _ _ _ c _ n). Qed.

Ltac neutral_move := unfold moves, balance; cbn; lia.

(** ** Making the copies *)

(** The result of a copy: none wanted, none to be had, or a new object with
    one reference. *)
Inductive got (want : bool) (cnt : field) (h : gmap Z obj) : Z * Z -> gmap Z obj -> Prop :=
| got_none : want = false -> got want cnt h (0, 0) h
| got_err e : want = true -> e < 0 -> got want cnt h (e, 0) h
| got_new a o : want = true -> 0 < a -> h !! a = None -> o cnt = 1 -> got want cnt h (0, a) (<[a := o]> h).

Definition wants (uf flag : Z) (ptr cnt : field) (h : gmap Z obj) : bool :=
  let x := hfld h current ptr in has uf flag && nonzero x && (1 <? hfld h x cnt).

Ltac read := eapply triple_bind; [apply st_rd|intros ?; apply triple_pure; intros ->].

Lemma unshare_fs_got uf h c n :
  (hfld h current f_fs <> 0 -> 1 <= hfld h (hfld h current f_fs) f_users) ->
  triple (st h c n) (unshare_fs current uf)
    (fun r s => exists h', got (wants uf CLONE_FS f_fs f_users h) f_users h r h' /\ st h' c n s) never.
Proof.
  intros Hu. unfold unshare_fs, wants. read. set (fs := hfld h current f_fs) in *.
  destruct (has uf CLONE_FS) eqn:Ef; cbn [negb orb andb].
  2:{ apply triple_ret. intros s Hs. exists h. split; [by apply got_none|done]. }
  unfold nonzero. destruct (Z.eqb_spec fs 0) as [E0|E0]; cbn [negb andb].
  { apply triple_ret. intros s Hs. exists h. split; [by apply got_none|done]. }
  read. specialize (Hu E0). destruct (Z.eqb_spec (hfld h fs f_users) 1) as [E1|E1].
  { apply triple_ret. intros s Hs. exists h. split; [apply got_none; lia|done]. }
  eapply triple_bind; [apply st_run_alloc|]. intros new. apply triple_pure. intros ->.
  apply triple_ret. intros s. rewrite (proj2 (Z.ltb_lt 1 _)) by lia.
  destruct (wo_copy_fs Hw fs h) as [->|(a & o & Ha & Hn & Ho & ->)]; cbn; intros Hs; eexists; (split; [|exact Hs]).
  - by apply got_err.
  - rewrite (proj2 (Z.eqb_neq a 0)) by lia. by apply got_new.
Qed.

Lemma unshare_fd_got uf h c n :
  triple (st h c n) (unshare_fd current uf)
    (fun r s => exists h', got (wants uf CLONE_FILES f_files f_files_count h) f_files_count h r h' /\ st h' c n s) never.
Proof.
  unfold unshare_fd, wants. read. read. set (fd := hfld h current f_files) in *. rewrite andb_assoc.
  destruct (_ && _) eqn:Ea.
  2:{ apply triple_ret. intros s Hs. exists h. split; [by apply got_none|done]. }
  eapply triple_bind; [apply st_run_alloc|]. intros new. apply triple_pure. intros ->. apply triple_ret. intros s.
  destruct (wo_dup_fd Hw fd h) as [(e & He & ->)|(a & o & Ha & Hn & Ho & ->)]; cbn; intros Hs; eexists; (split; [|exact Hs]).
  - rewrite (proj2 (Z.ltb_lt e 0)) by lia. apply got_err; [done|lia].
  - rewrite (proj2 (Z.ltb_ge a 0)) by lia. by apply got_new.
Qed.

(** ** Undoing them *)

Lemma undo_fs want h r h' c n :
  got want f_users h r h' -> triple (st h' c n) (bad_unshare_cleanup_fs (snd r)) (fun _ => st h c n) never.
Proof.
  intros Hg. unfold bad_unshare_cleanup_fs. destruct Hg as [_|e _ _|a o _ Ha Hn _]; cbn; try by apply triple_ret.
  rewrite (proj2 (nonzero_true a)) by lia. cbn [when]. eapply triple_post; [apply st_run_heap|].
  intros [] s. rewrite (fo_free_fs Hf), delete_insert_id; done.
Qed.

Lemma undo_fd want want' h r h1 r' h2 c n :
  got want f_users h r h1 -> got want' f_files_count h1 r' h2 ->
  triple (st h2 c n) (bad_unshare_cleanup_fd (snd r') (snd r)) (fun _ => st h c n) never.
Proof.
  intros Hr Hr'. unfold bad_unshare_cleanup_fd. eapply triple_seq; [|by eapply undo_fs].
  destruct Hr' as [_|e _ _|a o _ Ha Hn Ho]; cbn; try by apply triple_ret.
  rewrite (proj2 (nonzero_true a)) by lia. cbn [when]. eapply triple_post; [apply st_run_heap|].
  intros [] s. rewrite (fo_put_files Hf). unfold put_count. rewrite lookup_insert_eq, Ho, delete_insert_id; done.
Qed.

Lemma undo_cred want want' h r h1 r' h2 c n cred :
  got want f_users h r h1 -> got want' f_files_count h1 r' h2 ->
  triple (st h2 (c + if nonzero cred then 1 else 0) n) (bad_unshare_cleanup_cred cred (snd r') (snd r))
    (fun _ => st h c n) never.
Proof.
  intros Hr Hr'. unfold bad_unshare_cleanup_cred. eapply triple_seq; [|by eapply undo_fd].
  destruct (nonzero cred); cbn [when].
  - apply st_xobj. neutral_move.
  - apply triple_ret. intros s. by rewrite Z.add_0_r.
Qed.

(** ** Putting them in place *)

(** The pointer [ptr] of current moves to [new], and what it pointed to loses
    one reference. *)
Definition shifted (ptr cnt : field) (new : Z) (h h' : gmap Z obj) : Prop :=
  dom h' = dom h /\
  forall b g, hfld h' b g =
    if decide (b = current /\ g = ptr) then new
    else if decide (b = hfld h current ptr /\ g = cnt) then hfld h b cnt - 1 else hfld h b g.

Definition placed (ptr cnt : field) (new : Z) (h h' : gmap Z obj) : Prop :=
  if nonzero new then shifted ptr cnt new h h' else h' = h.

(** The object a copy was made of is there, with more than one reference. *)
Definition source_ok (ptr cnt : field) (new : Z) (h : gmap Z obj) : Prop :=
  nonzero new = true ->
  is_Some (h !! current) /\ is_Some (h !! hfld h current ptr) /\ 1 < hfld h (hfld h current ptr) cnt /\
  nonzero (hfld h current ptr) = true.

Lemma shift_heap ptr cnt new h :
  ptr <> cnt -> is_Some (h !! current) -> is_Some (h !! hfld h current ptr) ->
  shifted ptr cnt new h
    (alter (upd cnt (hfld h (hfld h current ptr) cnt - 1)) (hfld h current ptr) (alter (upd ptr new) current h)).
Proof.
  intros Hne Hc Hx. split; [by rewrite !dom_alter_L|]. intros b g.
  assert (Hx' : is_Some (alter (upd ptr new) current h !! hfld h current ptr)) by by rewrite lookup_alter_is_Some.
  rewrite (hfld_upd _ _ _ _ _ _ Hx'), (hfld_upd _ _ _ _ _ _ Hc).
  destruct (decide (b = hfld h current ptr /\ g = cnt)) as [[-> ->]|Hn]; [|done].
  rewrite decide_False; [done|]. intros [_ ?]. congruence.
Qed.

Lemma install_fs_placed h c n new :
  nonzero new = true -> source_ok f_fs f_users new h ->
  triple (st h c n) (install_fs current new)
    (fun old s => old = 0 /\ exists h', placed f_fs f_users new h h' /\ st h' c n s) never.
Proof.
  intros Hnz Hok. destruct (Hok Hnz) as (Hc & Hx & Hu & _). unfold placed. rewrite Hnz.
  unfold install_fs, dec_and_test. read. eapply triple_seq; [apply st_wr|].
  eapply (triple_bind _ _ _ (fun b s => b = false /\ exists h', shifted f_fs f_users new h h' /\ st h' c n s)).
  - read. rewrite (hfld_upd _ _ _ _ _ _ Hc), decide_False by (intros [_ ?]; discriminate).
    eapply triple_seq; [apply st_wr|]. apply triple_ret. intros s Hs. split; [lia|].
    eexists. split; [|exact Hs]. by apply shift_heap.
  - intros b. apply triple_pure. intros ->. by apply triple_ret.
Qed.

Lemma put_files_placed h new :
  nonzero new = true -> source_ok f_files f_files_count new h ->
  placed f_files f_files_count new h
    (put_files_struct (hfld h current f_files) (alter (upd f_files new) current h)).
Proof.
  intros Hnz Hok. destruct (Hok Hnz) as (Hc & Hx & Hu & _). unfold placed. rewrite Hnz, (fo_put_files Hf).
  unfold put_count. pose proof (shift_heap f_files f_files_count new h ltac:(done) Hc Hx) as Hs.
  destruct (alter (upd f_files new) current h !! hfld h current f_files) as [o|] eqn:Eo.
  - assert (Ho : o f_files_count = hfld h (hfld h current f_files) f_files_count).
    { pose proof (hfld_upd h current f_files new (hfld h current f_files) f_files_count Hc) as Hh.
      unfold hfld at 1 in Hh. rewrite Eo, decide_False in Hh by (intros [_ ?]; discriminate). done. }
    rewrite Ho, (proj2 (Z.eqb_neq _ 1)) by lia. done.
  - rewrite <- lookup_alter_is_Some in Hx. rewrite Eo in Hx. by destruct Hx.
Qed.

Abbreviation one x := (if nonzero x then 1 else 0).

Lemma when_move b name x h c c' n n' :
  (b = true -> moves name x c c' n n') -> (b = false -> c' = c /\ n' = n) ->
  triple (st h c n) (when b (xobj name x)) (fun _ => st h c' n') never.
Proof.
  intros Ht Hn. destruct b; cbn [when]; [by apply st_xobj, Ht|]. destruct (Hn eq_refl) as [-> ->]. by apply triple_ret.
Qed.

Lemma st_quiet name x h c n : moves name x c c n n -> triple (st h c n) (xobj name x) (fun _ => st h c n) never.
Proof. apply st_xobj. Qed.

Lemma when_quiet b name x h c n :
  moves name x c c n n -> triple (st h c n) (when b (xobj name x)) (fun _ => st h c n) never.
Proof. intros Hm. by apply when_move. Qed.

Ltac quiet := eapply triple_seq; [first [apply st_quiet; neutral_move | apply when_quiet; neutral_move]|].

Lemma install_placed uf b new_fs new_fd cred nsp h c n :
  source_ok f_fs f_users new_fs h ->
  triple (st h (c + one cred) (n + one nsp)) (unshare_install current uf b new_fs new_fd cred nsp)
    (fun r s => snd r = 0 /\ exists h3, placed f_fs f_users new_fs h h3 /\
       fst r = (if nonzero new_fd then hfld h3 current f_files else 0) /\
       st (if nonzero new_fd then alter (upd f_files new_fd) current h3 else h3) c n s) never.
Proof.
  intros Hok. unfold unshare_install. quiet.
  eapply (triple_seq _ _ _ (st h (c + one cred) (n + one nsp))).
  { destruct (has uf CLONE_NEWIPC); cbn [when]; [|by apply triple_ret]. quiet. apply st_xobj. neutral_move. }
  eapply (triple_seq _ _ _ (st h (c + one cred) n)).
  { apply when_move; intros Eb; rewrite Eb; [|lia]. neutral_move. }
  quiet.
  eapply (triple_bind _ _ _ (fun o s => o = 0 /\ exists h3, placed f_fs f_users new_fs h h3 /\ st h3 (c + one cred) n s)).
  { destruct (nonzero new_fs) eqn:En; [by apply install_fs_placed|]. apply triple_ret. intros s Hs. split; [done|].
    exists h. unfold placed. by rewrite En. }
  intros o. apply triple_pure. intros ->. apply triple_exists. intros h3. apply triple_pure. intros Hp.
  eapply (triple_bind _ _ _ (fun o s => o = (if nonzero new_fd then hfld h3 current f_files else 0) /\
    st (if nonzero new_fd then alter (upd f_files new_fd) current h3 else h3) (c + one cred) n s)).
  { destruct (nonzero new_fd); [|by apply triple_ret]. unfold install_fd. read.
    eapply triple_seq; [apply st_wr|]. by apply triple_ret. }
  intros o. apply triple_pure. intros ->. quiet.
  eapply (triple_seq _ _ _ (st (if nonzero new_fd then alter (upd f_files new_fd) current h3 else h3) c n)).
  { apply when_move; intros Eb; rewrite Eb; [|lia]. neutral_move. }
  apply triple_ret. intros s Hs. split; [done|]. by exists h3.
Qed.

(** The rest of ksys_unshare when nothing failed. *)
Lemma tail_placed uf b new_fs new_fd cred nsp h c n :
  source_ok f_fs f_users new_fs h ->
  (forall h3, placed f_fs f_users new_fs h h3 -> source_ok f_files f_files_count new_fd h3) ->
  triple (st h (c + one cred) (n + one nsp))
    (let* (old_fd, old_fs, old_cred) :=
       if nonzero new_fs || nonzero new_fd || b || nonzero cred || nonzero nsp then
         let* (old_fd, old_fs) := unshare_install current uf b new_fs new_fd cred nsp in
         ret (old_fd, old_fs, 0)
       else ret (new_fd, new_fs, cred) in
     xobj "perf_event_namespaces" current ;;;
     bad_unshare_cleanup_cred old_cred old_fd old_fs ;;;
     ret 0)
    (fun r s => r = 0 /\ exists h3 h4, placed f_fs f_users new_fs h h3 /\ placed f_files f_files_count new_fd h3 h4 /\
       st h4 c n s) never.
Proof.
  intros Hok Hok'.
  eapply (triple_bind _ _ _ (fun r s => r.1.2 = 0 /\ r.2 = 0 /\ exists h3, placed f_fs f_users new_fs h h3 /\
    r.1.1 = (if nonzero new_fd then hfld h3 current f_files else 0) /\
    st (if nonzero new_fd then alter (upd f_files new_fd) current h3 else h3) c n s)).
  - destruct (_ || _) eqn:Eb.
    + eapply triple_bind; [by apply install_placed|]. intros [ofd ofs]. apply triple_ret. cbn. intros s (-> & Hs). done.
    + apply triple_ret. cbn. rewrite !orb_false_iff in Eb. destruct Eb as [[[[E1 E2] _] E3] E4]. intros s Hs.
      rewrite E2. rewrite E3, E4, !Z.add_0_r in Hs. unfold placed. rewrite E1.
      apply nonzero_false in E1, E2, E3. subst. split_and!; try done. by exists h.
  - intros [[ofd ofs] oc]. cbn. apply triple_pure. intros ->. apply triple_pure. intros ->.
    apply triple_exists. intros h3. apply triple_pure. intros Hp. apply triple_pure. intros ->. quiet.
    unfold bad_unshare_cleanup_cred, bad_unshare_cleanup_fd, bad_unshare_cleanup_fs. cbn [when nonzero Z.eqb negb].
    eapply (triple_seq _ _ _ (fun s => exists h4, placed f_files f_files_count new_fd h3 h4 /\ st h4 c n s)).
    + eapply (triple_seq _ _ _ _); [apply triple_ret; intros s Hs; exact Hs|].
      eapply (triple_seq _ _ _ (fun s => exists h4, placed f_files f_files_count new_fd h3 h4 /\ st h4 c n s)).
      2:{ by apply triple_ret. }
      destruct (nonzero new_fd) eqn:En; cbn [when nonzero Z.eqb negb].
      * destruct (Hok' h3 Hp En) as (_ & _ & _ & Hnz). rewrite Hnz. cbn [when].
        eapply triple_post; [apply st_run_heap|]. intros [] s Hs. eexists. split; [|exact Hs].
        by apply put_files_placed, Hok'.
      * apply triple_ret. intros s Hs. exists h3. unfold placed. by rewrite En.
    + apply triple_ret. intros s (h4 & Hp4 & Hs). split; [done|]. by exists h3, h4.
Qed.

(** ** The outcome *)

(** The task has its own copy if it wanted one, and the old object one
    reference less; else both are as they were. *)
Definition detached (uf flag : Z) (ptr cnt : field) (h h' : gmap Z obj) : Prop :=
  let x := hfld h current ptr in
  if wants uf flag ptr cnt h then
    h !! hfld h' current ptr = None /\ hfld h' (hfld h' current ptr) cnt = 1 /\ hfld h' x cnt = hfld h x cnt - 1
  else hfld h' current ptr = x /\ hfld h' x cnt = hfld h x cnt.

Lemma got_old want cnt h r h' b g :
  got want cnt h r h' -> is_Some (h !! b) \/ b = 0 -> hfld h' b g = hfld h b g.
Proof.
  intros [_|e _ _|a o _ Ha Hn _] Hb; try done. apply hfld_new; [done|]. intros ->.
  destruct Hb as [Hb| ->]; [rewrite Hn in Hb; by destruct Hb|lia].
Qed.

Lemma got_live want cnt h r h' b : got want cnt h r h' -> is_Some (h !! b) -> is_Some (h' !! b).
Proof. intros [_|e _ _|a o _ Ha Hn _] Hb; try done. rewrite lookup_insert_is_Some'. by right. Qed.

Lemma placed_other ptr cnt new h h' b g : placed ptr cnt new h h' -> g <> ptr -> g <> cnt -> hfld h' b g = hfld h b g.
Proof.
  unfold placed. destruct (nonzero new); [|by intros ->]. intros [_ Hp] H1 H2. rewrite Hp.
  rewrite !decide_False by (intros [_ ?]; done). done.
Qed.

Lemma placed_live ptr cnt new h h' b : placed ptr cnt new h h' -> is_Some (h !! b) -> is_Some (h' !! b).
Proof.
  unfold placed. destruct (nonzero new); [|by intros ->]. intros [Hd _]. rewrite <- !elem_of_dom. by rewrite Hd.
Qed.

(** One resource: a copy made from [h], its source untouched until the pointer
    moves between [h2] and [h3]; [h4] agrees on the two fields. *)
Lemma detach uf flag ptr cnt h r h1 h2 h3 h4 :
  ptr <> cnt -> let x := hfld h current ptr in
  is_Some (h !! current) -> is_Some (h !! x) \/ x = 0 ->
  got (wants uf flag ptr cnt h) cnt h r h1 -> fst r = 0 ->
  (forall b g, is_Some (h1 !! b) \/ b = 0 -> g = ptr \/ g = cnt -> hfld h2 b g = hfld h1 b g) ->
  placed ptr cnt (snd r) h2 h3 ->
  (forall b g, g = ptr \/ g = cnt -> hfld h4 b g = hfld h3 b g) ->
  detached uf flag ptr cnt h h4.
Proof.
  intros Hne x Hc Hx Hg Hr H12 Hp H34. unfold detached. fold x.
  assert (Hold : forall b g, is_Some (h !! b) \/ b = 0 -> g = ptr \/ g = cnt -> hfld h2 b g = hfld h b g).
  { intros b g Hb Hg'. rewrite H12, (got_old _ _ _ _ _ _ _ Hg); try done. destruct Hb; [left; by eapply got_live|by right]. }
  rewrite !H34 by auto. remember (wants uf flag ptr cnt h) as w eqn:Ew.
  destruct Hg as [Hwt|e _ He|a o Hwt Ha Hn Ho]; rewrite ?Hwt; cbn in *; [|lia|].
  - subst h3. rewrite !Hold by auto. done.
  - unfold placed in Hp. rewrite (proj2 (nonzero_true a)) in Hp by lia. destruct Hp as [_ Hp].
    assert (Hcur : hfld h3 current ptr = a) by (rewrite Hp; by rewrite decide_True).
    rewrite Hcur. rewrite Hwt in Ew. unfold wants in Ew. fold x in Ew. symmetry in Ew. apply andb_prop in Ew as [Ew _].
    apply andb_prop in Ew as [_ Ex]. apply nonzero_true in Ex. destruct Hx as [Hx|Hx]; [|done].
    rewrite !Hp, !(decide_False (P := _ /\ cnt = ptr)) by (intros [_ ?]; congruence).
    rewrite (Hold current ptr) by auto. fold x. rewrite (decide_True (P := x = x /\ cnt = cnt)) by done.
    rewrite (decide_False (P := a = x /\ cnt = cnt)) by (intros [-> _]; rewrite Hn in Hx; by destruct Hx).
    split; [done|]. split; [|rewrite Hold; auto].
    rewrite H12; [|left; rewrite lookup_insert_eq; eauto|auto].
    unfold hfld. by rewrite lookup_insert_eq.
Qed.

(** The source of a copy that was made. *)
Lemma got_source uf flag ptr cnt h r h1 h2 :
  is_Some (h !! current) -> is_Some (h !! hfld h current ptr) \/ hfld h current ptr = 0 ->
  got (wants uf flag ptr cnt h) cnt h r h1 ->
  (forall b, is_Some (h !! b) -> is_Some (h2 !! b)) ->
  (forall b g, is_Some (h !! b) -> g = ptr \/ g = cnt -> hfld h2 b g = hfld h b g) ->
  source_ok ptr cnt (snd r) h2.
Proof.
  intros Hc Hx Hg Hl Hh Hnz. destruct Hg as [_|e _ _|a o Ew Ha _ _]; try done.
  unfold wants in Ew. apply andb_prop in Ew as [Ew Hu]. apply andb_prop in Ew as [_ Ex].
  destruct Hx as [Hx|Hx]; [|by rewrite Hx in Ex]. rewrite (Hh current) by auto. rewrite Hh by auto.
  split_and!; auto. lia.
Qed.

Section Task.
Hypothesis Hs0 : start_ok current s0.
Variable flags : Z.
Abbreviation uf := (unshare_closure flags).
Abbreviation h0 := (heap s0).

Lemma fs_source : is_Some (h0 !! hfld h0 current f_fs) \/ hfld h0 current f_fs = 0.
Proof. left. apply (so_fs _ _ Hs0). Qed.

Lemma files_source : is_Some (h0 !! hfld h0 current f_files) \/ hfld h0 current f_files = 0.
Proof.
  destruct (decide (hfld h0 current f_files = 0)) as [?|Hn]; [by right|]. left. by apply (so_files _ _ Hs0).
Qed.

Abbreviation own_fs := (wants uf CLONE_FS f_fs f_users h0).

(** The copy of fs_struct does not change what unshare_fd looks at. *)
Lemma files_after want cnt r h1 :
  got want cnt h0 r h1 ->
  hfld h1 current f_files = hfld h0 current f_files /\
  wants uf CLONE_FILES f_files f_files_count h1 = wants uf CLONE_FILES f_files f_files_count h0 /\
  (is_Some (h1 !! hfld h1 current f_files) \/ hfld h1 current f_files = 0).
Proof.
  intros Hg. pose proof (so_current _ _ Hs0) as Hc. unfold wants.
  rewrite !(got_old _ _ _ _ _ current _ Hg) by auto.
  rewrite (got_old _ _ _ _ _ (hfld h0 current f_files) _ Hg) by apply files_source. split_and!; try done.
  destruct files_source; [left; by eapply got_live|by right].
Qed.

Lemma all_detached r h1 r' h2 h3 h4 :
  got own_fs f_users h0 r h1 -> got (wants uf CLONE_FILES f_files f_files_count h1) f_files_count h1 r' h2 ->
  fst r = 0 -> fst r' = 0 ->
  placed f_fs f_users (snd r) h2 h3 -> placed f_files f_files_count (snd r') h3 h4 ->
  detached uf CLONE_FS f_fs f_users h0 h4 /\ detached uf CLONE_FILES f_files f_files_count h0 h4.
Proof.
  intros Hg Hg' Hr Hr' Hp Hp'. pose proof (so_current _ _ Hs0) as Hc.
  destruct (files_after _ _ _ _ Hg) as (Hfd & Hwant & Hsrc). split.
  - eapply (detach uf CLONE_FS f_fs f_users h0 r h1 h2 h3 h4); try done; [apply fs_source| |].
    + intros b g Hb _. by eapply got_old.
    + intros b g Hb. eapply placed_other; [done| |]; destruct Hb; subst; done.
  - assert (Hd : detached uf CLONE_FILES f_files f_files_count h1 h4).
    { eapply (detach uf CLONE_FILES f_files f_files_count h1 r' h2 h3 h4 h4); try done; [by eapply got_live|].
      intros b g _ Hb. eapply placed_other; [done| |]; destruct Hb; subst; done. }
    unfold detached in *. cbv zeta in *. rewrite Hwant, Hfd in Hd. destruct (wants uf CLONE_FILES f_files f_files_count h0) eqn:Ew.
    + destruct Hd as (Hd1 & Hd2 & Hd3). split_and!; try done.
      * destruct (h0 !! hfld h4 current f_files) as [o|] eqn:Eo; [|done].
        destruct (got_live _ _ _ _ _ (hfld h4 current f_files) Hg) as [? Hl]; [by rewrite Eo|congruence].
      * rewrite Hd3. by rewrite (got_old _ _ _ _ _ _ _ Hg files_source).
    + by rewrite (got_old _ _ _ _ _ _ _ Hg files_source) in Hd.
Qed.

(** What ksys_unshare leaves: nothing changed, or everything in place. *)
Definition unshared (c n r : Z) (s : kst) : Prop :=
  (r <> 0 /\ exists n', st h0 c n' s /\ (ext "new_cred" = 0 -> n' = n)) \/
  (r = 0 /\ exists h', st h' c n s /\ detached uf CLONE_FS f_fs f_users h0 h' /\
     detached uf CLONE_FILES f_files f_files_count h0 h').

(** Leaving with an error after undoing what was done. *)
Lemma fail_unshared h c c1 n n1 (undo : prog E unit) e :
  nonzero e = true -> (ext "new_cred" = 0 -> n1 = n) ->
  triple (st h c1 n1) undo (fun _ => st h0 c n1) never ->
  triple (st h c1 n1) (undo ;;; ret e) (unshared c n) never.
Proof.
  intros He Hn Hu. eapply triple_seq; [exact Hu|]. apply triple_ret. intros s Hs. left.
  split; [by apply nonzero_true|]. by exists n1.
Qed.

Lemma success_unshared c n r h1 r' h2 b cred nsp :
  got own_fs f_users h0 r h1 -> got (wants uf CLONE_FILES f_files f_files_count h1) f_files_count h1 r' h2 ->
  fst r = 0 -> fst r' = 0 ->
  triple (st h2 (c + one cred) (n + one nsp))
    (let* (old_fd, old_fs, old_cred) :=
       if nonzero (snd r) || nonzero (snd r') || b || nonzero cred || nonzero nsp then
         let* (old_fd, old_fs) := unshare_install current uf b (snd r) (snd r') cred nsp in
         ret (old_fd, old_fs, 0)
       else ret (snd r', snd r, cred) in
     xobj "perf_event_namespaces" current ;;;
     bad_unshare_cleanup_cred old_cred old_fd old_fs ;;;
     ret 0) (unshared c n) never.
Proof.
  intros Hg Hg' Hr Hr'. pose proof (so_current _ _ Hs0) as Hc.
  destruct (files_after _ _ _ _ Hg) as (_ & _ & Hsrc).
  assert (H1 : forall b0, is_Some (h0 !! b0) -> is_Some (h1 !! b0)) by (intros b0; by eapply got_live).
  eapply triple_post; [apply tail_placed|].
  - eapply got_source; [done|apply fs_source|done| |]; [intros a Ha; eapply got_live; eauto|].
    intros a g Ha _. rewrite (got_old _ _ _ _ _ _ _ Hg'), (got_old _ _ _ _ _ _ _ Hg); auto.
  - intros h3 Hp. eapply (got_source uf CLONE_FILES _ _ h1); [auto|done|done| |].
    + intros a Ha. eapply placed_live; [done|]. by eapply got_live.
    + intros a g Ha Hgf. rewrite (placed_other _ _ _ _ _ _ _ Hp) by (destruct Hgf; by subst).
      eapply got_old; eauto.
  - intros x s (-> & h3 & h4 & Hp & Hp' & Hs). right. split; [done|]. exists h4. split; [done|].
    by eapply all_detached.
Qed.

Lemma ksys_unshare_unshared c n : triple (st h0 c n) (ksys_unshare current flags) (unshared c n) never.
Proof.
  unfold ksys_unshare. read. read. destruct (nonzero (check_unshare_flags _ _ _ _)) eqn:Ee.
  { apply triple_ret. intros s Hs. left. split; [by apply nonzero_true|]. by exists n. }
  eapply triple_bind; [apply unshare_fs_got; intros _; apply (so_fs _ _ Hs0)|]. intros [e new_fs].
  apply triple_exists. intros h1. apply triple_pure. intros Hg. destruct (nonzero e) eqn:E1.
  { apply triple_ret. intros s Hs. left. split; [by apply nonzero_true|]. exists n. inversion Hg; subst; done. }
  eapply triple_bind; [apply unshare_fd_got|]. intros [e' new_fd].
  apply triple_exists. intros h2. apply triple_pure. intros Hg'. destruct (nonzero e') eqn:E2.
  { apply fail_unshared; [done|done|]. inversion Hg'; subst; try done.
    by apply (undo_fs _ _ (e, new_fs) _ c n Hg). }
  eapply triple_bind; [apply (st_xcall _ _ _ c _ n); unfold moves, balance; cbn; lia|].
  intros e3. apply triple_pure. intros ->. destruct (nonzero (ext "unshare_userns")) eqn:E3.
  { apply fail_unshared; [done|done|]. by apply (undo_fd _ _ _ (e, new_fs) _ (e', new_fd) _ c n Hg Hg'). }
  eapply triple_bind; [apply (st_xcall _ _ _ (c + one (ext "new_cred")) _ n); unfold moves, balance; cbn; lia|].
  intros cred. apply triple_pure. intros ->.
  eapply triple_bind; [apply (st_xcall _ _ _ (c + one (ext "new_cred")) _ n); unfold moves, balance; cbn; lia|].
  intros e4. apply triple_pure. intros ->. destruct (nonzero (ext "unshare_nsproxy_namespaces")) eqn:E4.
  { apply fail_unshared; [done|done|]. by apply (undo_cred _ _ _ (e, new_fs) _ (e', new_fd) _ c n _ Hg Hg'). }
  eapply triple_bind; [apply (st_xcall _ _ _ (c + one (ext "new_cred")) _ (n + one (ext "new_nsproxy")));
    unfold moves, balance; cbn; lia|].
  intros nsp. apply triple_pure. intros ->.
  eapply (triple_bind _ _ _ (fun e s => (ext "new_cred" = 0 -> e = 0) /\
    st h2 (c + one (ext "new_cred")) (n + one (ext "new_nsproxy")) s)).
  { destruct (nonzero (ext "new_cred")) eqn:E5.
    - intros s Hs. cbn. split; [intros E0; by rewrite E0 in E5|].
      revert Hs. apply st_event. unfold moves, balance. cbn. lia.
    - by apply triple_ret. }
  intros e5. apply triple_pure. intros Hz. destruct (nonzero e5) eqn:E5.
  { apply fail_unshared; [done| |].
    - intros E0. rewrite (Hz E0) in E5. done.
    - by apply (undo_cred _ _ _ (e, new_fs) _ (e', new_fd) _ c _ _ Hg Hg'). }
  apply nonzero_false in E1, E2.
  by apply (success_unshared c n (e, new_fs) h1 (e', new_fd) h2).
Qed.

End Task.
End UnshareSpec.

(** C8: unshare returns, and either fails with every object of the kernel as
    it was, or succeeds with the task on its own copy of what it asked to
    unshare (the fs_struct, the file table), each with one reference, the old
    object having one reference less; what was not shared stays.  The new
    credentials are committed or put back in either case; the new namespaces
    too, unless new credentials had been made and unshare failed. *)
Theorem unshare_all_or_nothing `{World} `{FileOps} current flags s :
  world_ok -> file_ops_ok -> start_ok current s ->
  exists r s', ksys_unshare (E := jump) current flags s = (inl r, s') /\
    cred_held (trace s') = cred_held (trace s) /\
    (r = 0 \/ ext "new_cred" = 0 -> ns_held (trace s') = ns_held (trace s)) /\
    (r <> 0 -> set_trace [] s' = set_trace [] s) /\
    (r = 0 -> detached current (unshare_closure flags) CLONE_FS f_fs f_users (heap s) (heap s') /\
       detached current (unshare_closure flags) CLONE_FILES f_files f_files_count (heap s) (heap s')).
Proof.
  intros Hw Hf Hs.
  pose proof (ksys_unshare_unshared (E := jump) Hw Hf current s Hs flags (cred_held (trace s)) (ns_held (trace s)) s) as Hu.
  destruct (ksys_unshare current flags s) as [[r|j] s']; [|by destruct Hu].
  exists r, s'. split; [done|].
  destruct Hu as [(Hr & n' & (Hst & Hc & Hn) & Hz)|(-> & h' & (Hst & Hc & Hn) & Hd)]; [by destruct s|..].
  - split; [done|]. split; [intros [?|E0]; [done|by rewrite Hn, Hz]|]. split; [|done]. intros _. rewrite Hst. by destruct s.
  - split; [done|]. split; [done|]. split; [done|]. intros _. rewrite (st_heap _ _ _ _ _ (conj Hst (conj Hc Hn))). done.
Qed.

(** ** On the concrete kernel *)

#[local] Instance demo_files : FileOps := {|
  put_files_struct := put_count f_files_count;
  free_fs_struct := delete;
|}.

Lemma demo_files_ok : file_ops_ok.
Proof. by split. Qed.

(** The task shares its files and its fs_struct with another one. *)
Definition demo_shared : kst :=
  set_heap (alter (upd f_files_count 2) 2 (alter (upd f_users 2) 3 demo_heap)) demo_state.

Lemma demo_shared_start : start_ok 1 demo_shared.
Proof.
  split; intros; split_and?; try (eexists; reflexivity); try (vm_compute; discriminate); try reflexivity.
  right. eexists. reflexivity.
Qed.

Lemma unshare_all_or_nothing_witness :
  exists r s', ksys_unshare (H := demo_world false "") (E := jump) 1 (Z.lor CLONE_FS CLONE_FILES) demo_shared = (inl r, s') /\
    (r = 0 -> detached 1 (Z.lor CLONE_FS CLONE_FILES) CLONE_FS f_fs f_users (heap demo_shared) (heap s')).
Proof.
  destruct (unshare_all_or_nothing (H := demo_world false "") 1 (Z.lor CLONE_FS CLONE_FILES) demo_shared
    (demo_world_ok _ _) demo_files_ok demo_shared_start) as (r & s' & Hr & _ & _ & _ & Hd).
  exists r, s'. split; [exact Hr|]. intros E0. apply (Hd E0).
Defined.

(** A world in which new credentials and namespaces are made and then
    set_cred_ucounts fails. *)
#[local] Instance ucounts_world : World :=
  let W := demo_world false "set_cred_ucounts" in
  {| config := @config W;
     ext := fun name => if String.eqb name "new_cred" then 21 else if String.eqb name "new_nsproxy" then 22
                        else if String.eqb name "thread_group_empty" then 1 else @ext W name;
     ext_at := @ext_at W; copy_page_range := @copy_page_range W; kmem_cache_alloc := @kmem_cache_alloc W;
     garbage := @garbage W; stack_alloc := @stack_alloc W; fresh_stack_clean := @fresh_stack_clean W;
     kmalloc := @kmalloc W; kv_garbage := @kv_garbage W; copy_fs_struct := @copy_fs_struct W;
     dup_fd := @dup_fd W; exit_fs := @exit_fs W; exit_files := @exit_files W |}.

(** The namespaces unshare has made are lost when set_cred_ucounts fails:
    the label it jumps to puts the credentials back and nothing else. *)
Theorem unshare_leaks_nsproxy :
  let '(r, s') := ksys_unshare (H := ucounts_world) (E := jump) 1 (Z.lor CLONE_NEWUSER CLONE_NEWUTS) demo_state in
  r = inl (- EAGAIN) /\ cred_held (trace s') = 0 /\ ns_held (trace s') = 1.
Proof. vm_compute. done. Qed.
