(* ===== verification/ForkTree.v ===== *)
(** * Walking the process tree (kernel/fork.c)

    walk_process_tree visits the descendants of a process without a stack: it
    jumps into the middle of its two nested loops to go back up.  On every
    kernel state whose lists form a tree it does what a recursive walk does,
    and it terminates. *)

From S2P Require Import Prelude KVStore TaskState ForkState.

(** The elements after the first [x]. *)
Fixpoint after (x : Z) (l : list Z) : list Z :=
  match l with
  | [] => []
  | y :: l' => if decide (y = x) then l' else after x l'
  end.

Section Walk.
Variable s : kst.
Context {D : Type}.
(** The visitor, which may change its data. *)
Variable visitor : Z -> D -> Z * D.

(** for_each_thread(leader, parent) *)
Definition threads_of (leader : Z) : list Z := default [] (thread_head s !! fld s leader f_signal).
(** list_for_each_entry(child, &parent->children, sibling) *)
Definition children_of (parent : Z) : list Z := default [] (children s !! parent).

(** The pairs the two loops go through, from the threads [ts] on. *)
Definition loops (ts : list Z) : list (Z * Z) := ts ≫= fun parent => pair parent <$> children_of parent.

(** label down: both loops from their start *)
Definition down (leader : Z) : list (Z * Z) := loops (threads_of leader).

(** label up: the loops after [child] and [parent] *)
Definition up (leader parent child : Z) : list (Z * Z) :=
  (pair parent <$> after child (children_of parent)) ++ loops (after parent (threads_of leader)).

(** The walk, at a point where the loops of [leader] still have [todo] to do. *)
Fixpoint walk (fuel : nat) (top leader : Z) (todo : list (Z * Z)) (data : D) : option D :=
  match fuel with
  | O => None
  | S fuel' =>
      match todo with
      | [] =>
          if leader =? top then Some data
          else
            let child := leader in
            let parent := fld s child f_real_parent in
            let leader' := fld s parent f_group_leader in
            walk fuel' top leader' (up leader' parent child) data
      | (parent, child) :: todo' =>
          let '(res, data') := visitor child data in
          if nonzero res then
            if res <? 0 then Some data'
            else walk fuel' top child (down child) data'
          else walk fuel' top leader todo' data'
      end
  end.

Definition walk_process_tree (fuel : nat) (top : Z) (data : D) : option D :=
  let top := fld s top f_group_leader in
  walk fuel top top (down top) data.

(** ** The recursive walk *)

(** A process with its children, each with the thread whose child it is. *)
Inductive ptree := PNode (leader : Z) (kids : list (Z * ptree)).

Definition root (t : ptree) : Z := match t with PNode l _ => l end.
Definition kids (t : ptree) : list (Z * ptree) := match t with PNode _ ks => ks end.

(** Visit the children [ks] in order, going below those for which the visitor
    returns a positive value, until it returns a negative one: whether it did,
    and the data. *)
Definition over (below : ptree -> D -> bool * D) : list (Z * ptree) -> D -> bool * D :=
  fix go ks data :=
    match ks with
    | [] => (false, data)
    | (_, k) :: ks' =>
        let '(res, data) := visitor (root k) data in
        if res <? 0 then (true, data)
        else if 0 <? res then
          let '(stop, data) := below k data in
          if stop then (true, data) else go ks' data
        else go ks' data
    end.

Fixpoint dfs (t : ptree) (data : D) : bool * D := match t with PNode _ ks => over dfs ks data end.

Fixpoint size (t : ptree) : nat := match t with PNode _ ks => S (sum_list_with (fun pk => size (snd pk)) ks) end.

(** The lists of the kernel below [root t] form the tree [t], in which [top]
    does not occur again. *)
Inductive describes (top : Z) : ptree -> Prop :=
| describes_node l ks :
    down l = prod_map id root <$> ks ->
    NoDup (threads_of l) -> (forall t, t ∈ threads_of l -> NoDup (children_of t)) ->
    Forall (fun pk => fld s (root (snd pk)) f_real_parent = fst pk /\ fld s (fst pk) f_group_leader = l /\
                      root (snd pk) <> top /\ describes top (snd pk)) ks ->
    describes top (PNode l ks).

(** ** Going up resumes the loops where they were left *)

Lemma after_split x l1 l2 : ~ (x ∈ l1) -> after x (l1 ++ x :: l2) = l2.
Proof.
  induction l1 as [|y l1 IH]; intros Hx; cbn; [by rewrite decide_True|].
  rewrite decide_False by (intros ->; apply Hx; left). apply IH. intros Hl. apply Hx. by right.
Qed.

Lemma loops_in ts p c : (p, c) ∈ loops ts -> p ∈ ts /\ c ∈ children_of p.
Proof.
  intros (t & Hin & Ht)%list_elem_of_bind. apply list_elem_of_fmap in Hin as (c' & [= -> ->] & Hc). done.
Qed.

Lemma loops_split ts p c pre suf :
  NoDup ts -> (forall t, t ∈ ts -> NoDup (children_of t)) -> loops ts = pre ++ (p, c) :: suf ->
  suf = (pair p <$> after c (children_of p)) ++ loops (after p ts).
Proof.
  revert pre. induction ts as [|t ts IH]; intros pre Hnd Hch Heq; [by destruct pre|].
  apply NoDup_cons in Hnd as [Ht Hnd]. change (loops (t :: ts)) with ((pair t <$> children_of t) ++ loops ts) in Heq.
  apply app_eq_inv in Heq as [(k & Hmap & Hsuf)|(k & Hpre & Hk)].
  - destruct k as [|[t' c'] k]; cbn in Hsuf.
    + assert (Hin : (p, c) ∈ loops ts) by (rewrite <- Hsuf; left). apply loops_in in Hin as [Hin _].
      cbn. rewrite decide_False by (intros ->; done). apply (IH []); [done| |done].
      intros t' Ht'. apply Hch. by right.
    + injection Hsuf as -> -> ->. apply fmap_app_inv in Hmap as (l1 & l2 & -> & Hl2 & Hl).
      symmetry in Hl2. apply fmap_cons_inv in Hl2 as (y & l3 & [= -> <-] & -> & ->).
      specialize (Hch t (list_elem_of_here _ _)). rewrite Hl in Hch |- *. apply NoDup_app in Hch as (_ & Hd & _).
      rewrite after_split; [|intros Hin; apply (Hd c' Hin); left]. cbn. by rewrite decide_True.
  - assert (Hin : (p, c) ∈ loops ts) by (rewrite Hk; set_solver). apply loops_in in Hin as [Hin _].
    cbn. rewrite decide_False by (intros ->; done). apply (IH k); [done| |done].
    intros t' Ht'. apply Hch. by right.
Qed.

(** ** The walk is the recursive one *)

Lemma walk_more top n m l todo data r :
  (n <= m)%nat -> walk n top l todo data = Some r -> walk m top l todo data = Some r.
Proof.
  revert m l todo data. induction n as [|n IH]; intros m l todo data Hm; [done|]. destruct m as [|m]; [lia|]. cbn.
  destruct todo as [|[p c] todo]; [destruct (l =? top); [done|]; apply IH; lia|].
  destruct (visitor c data) as [res d]. destruct (nonzero res); [destruct (res <? 0); [done|]|]; apply IH; lia.
Qed.

(** Steps for the children [ks]: a visit and a way back up for each process. *)
Definition cost (ks : list (Z * ptree)) : nat := sum_list_with (fun pk => 2 * size (snd pk))%nat ks.

Lemma cost_kids t : (2 * size t = 2 + cost (kids t))%nat.
Proof.
  destruct t as [l ks]. cbn [size kids]. unfold cost.
  induction ks as [|k ks IH]; cbn [sum_list_with foldr] in *; lia.
Qed.

(** What is left to do leads to the result [r] once the children [ks] are done. *)
Definition continues (top l : Z) (m : nat) (o : bool * D) (r : D) : Prop :=
  if fst o then r = snd o else walk m top l [] (snd o) = Some r.

Lemma continues_more top l n m o r : (n <= m)%nat -> continues top l n o r -> continues top l m o r.
Proof. unfold continues. destruct (fst o); [done|]. apply walk_more. Qed.

Lemma walk_dfs top n t pre ks data m r :
  (size t <= n)%nat -> describes top t -> kids t = pre ++ ks ->
  continues top (root t) m (over dfs ks data) r ->
  walk (cost ks + m) top (root t) (prod_map id root <$> ks) data = Some r.
Proof.
  revert t pre ks data m r. induction n as [|n IHn]; intros t pre ks data m r Hsz Hd; [destruct t; cbn in Hsz; lia|].
  revert pre data m r. induction ks as [|[p k] ks IHks]; intros pre data m r Hk Hc; [exact Hc|].
  pose proof Hd as Hd'. inversion Hd' as [l ks0 Hdown Hnd Hch Hall Et]. subst t. cbn [kids root] in *. subst ks0.
  assert (Hpk : (p, k) ∈ pre ++ (p, k) :: ks) by set_solver. rewrite Forall_forall in Hall.
  destruct (Hall _ Hpk) as (Hp & Hl & Htop & Hdk). cbn [fst snd] in *.
  assert (Hszk : (size k <= n)%nat).
  { cbn in Hsz. rewrite sum_list_with_app in Hsz. cbn in Hsz. lia. }
  assert (Hrest : forall d m', continues top l m' (over dfs ks d) r ->
    walk (cost ks + m') top l (prod_map id root <$> ks) d = Some r).
  { intros d m' Hd2. apply (IHks (pre ++ [(p, k)])); [by rewrite <- app_assoc|done]. }
  assert (Hup : up l p (root k) = prod_map id root <$> ks).
  { unfold down in Hdown. rewrite fmap_app in Hdown. symmetry.
    by apply (loops_split (threads_of l) p (root k) (prod_map id root <$> pre)). }
  pose proof (cost_kids k) as Hck. cbn [over] in Hc.
  replace (cost ((p, k) :: ks) + m)%nat with (S (cost (kids k) + (1 + (cost ks + m))))%nat
    by (unfold cost at 2; cbn; fold (cost ks); lia).
  cbn [fmap list_fmap walk prod_map id fst snd]. destruct (visitor (root k) data) as [res d].
  unfold nonzero. destruct (Z.ltb_spec res 0) as [Hneg|Hpos].
  { rewrite (proj2 (Z.eqb_neq res 0)) by lia. cbn in Hc |- *. by rewrite Hc. }
  destruct (Z.ltb_spec 0 res) as [Hgt|Hle].
  - rewrite (proj2 (Z.eqb_neq res 0)) by lia. cbn [negb]. pose proof Hdk as Hdk'.
    inversion Hdk' as [lk kk Hdownk _ _ _ Ek]. rewrite <- Ek in *. cbn [root kids] in *. rewrite Hdownk.
    apply (IHn (PNode lk kk) [] kk); [done|done|done|]. unfold continues.
    cbn [dfs] in Hc. destruct (over dfs kk d) as [[] d']; cbn [fst snd]; [exact Hc|].
    cbn [walk Nat.add root].
    rewrite (proj2 (Z.eqb_neq lk top)), Hp, Hl, Hup by done. by apply Hrest.
  - replace res with 0 by lia. cbn [Z.eqb negb].
    replace (cost (kids k) + (1 + (cost ks + m)))%nat with (cost ks + (cost (kids k) + (1 + m)))%nat by lia.
    apply Hrest. eapply continues_more; [|done]. lia.
Qed.

End Walk.

(** C16: walk_process_tree terminates, within two steps for every process of
    the tree, and does what the recursive walk does: it visits the descendants
    of the thread group of [top] in the same order, goes below the same ones
    and stops at the same one. *)
Theorem walk_process_tree_dfs {D} s (visitor : Z -> D -> Z * D) top t data :
  describes s (fld s top f_group_leader) t -> root t = fld s top f_group_leader ->
  walk_process_tree s visitor (2 * size t) top data = Some (snd (dfs visitor t data)).
Proof.
  intros Hd Hr. unfold walk_process_tree. rewrite <- Hr in Hd |- *. rewrite cost_kids, Nat.add_comm.
  replace (down s (root t)) with (prod_map id root <$> kids t) by by inversion Hd.
  apply (walk_dfs s visitor (root t) (size t) t []); [done|done|done|].
  unfold continues. destruct t as [l ks]. cbn [kids root dfs]. destruct (over visitor (dfs visitor) ks data) as [[] d]; [done|].
  cbn [fst snd walk]. by rewrite Z.eqb_refl.
Qed.

(** A process 1 with a second thread 2; 3 is a child of 1 and 4 of 2; 5 is a
    child of 3. *)
Definition demo_task (parent leader signal : Z) : obj :=
  upd f_real_parent parent (upd f_group_leader leader (upd f_signal signal (fun _ => 0))).

Definition demo_tasks : kst :=
  Kst (list_to_map [(1, demo_task 0 1 11); (2, demo_task 0 1 11); (3, demo_task 1 3 13); (4, demo_task 2 4 14);
                    (5, demo_task 3 5 15)])
    (KvMem ∅ ∅) ∅ (list_to_map [(1, [3]); (2, [4]); (3, [5])]) ∅
    (list_to_map [(11, [1; 2]); (13, [3]); (14, [4]); (15, [5])]) [] ∅ ∅ [] [] 0 0 0 0 [].

Definition demo_tree : ptree := PNode 1 [(1, PNode 3 [(3, PNode 5 [])]); (2, PNode 4 [])].

(** Note every process, and go below all of them. *)
Definition demo_visitor (c : Z) (seen : list Z) : Z * list Z := (1, seen ++ [c]).

Ltac tree_node := constructor;
  [reflexivity | apply (bool_decide_unpack _); reflexivity | apply Forall_forall, (bool_decide_unpack _); reflexivity
  | repeat first [apply Forall_nil_2 | apply Forall_cons_2; [split_and!; [reflexivity|reflexivity|done|]|]]].

Lemma demo_describes : describes demo_tasks 1 demo_tree.
Proof. unfold demo_tree. repeat tree_node. Qed.

Lemma walk_process_tree_dfs_witness : walk_process_tree demo_tasks demo_visitor 8 2 [] = Some [3; 5; 4].
Proof. exact (walk_process_tree_dfs demo_tasks demo_visitor 2 demo_tree [] demo_describes eq_refl). Defined.
