(* ===== verification/ForkAreas.v ===== *)
(** * The areas of a duplicated address space (kernel/fork.c)

    What dup_mmap puts into the child: the areas of the parent in their order,
    without those marked VM_DONTCOPY, unlocked, and empty where VM_WIPEONFORK
    says so.  The areas of the parent stay as they are. *)

From S2P Require Import Prelude KVStore TaskState ForkState ForkTask ForkMm ForkArgs ForkCopy ForkLogic ForkMmSpec.
From S2P Require Import ForkLevels ForkUnwind ForkChild ForkDemo.

Section Areas.
Context `{World}.
Context {E : Type}.
Variables (mm oldmm : Z).

(** The child's area for the [i]-th one of the parent. *)
Definition inherited (i : Z) (v : vma) : vma :=
  set_pages (dup_area mm v)
    (if bool_decide (VM_WIPEONFORK ∈ v_flags v) then ∅ else snd (copy_page_range i (v_pages v))).

Fixpoint inherit_from (i : Z) (l : list vma) : list vma :=
  match l with
  | [] => []
  | v :: l' =>
      (if bool_decide (VM_DONTCOPY ∈ v_flags v) then [] else [inherited i v]) ++ inherit_from (i + 1) l'
  end.

(** The child has the areas [a], counted in map_count; the parent [b]. *)
Definition areas (a b : list vma) (s : kst) : Prop :=
  default [] (vmas s !! mm) = a /\ default [] (vmas s !! oldmm) = b /\
  fld s mm f_map_count = Z.of_nat (length a) /\ is_Some (heap s !! mm).

Abbreviation anyway := (fun (_ : E) (_ : kst) => True).

(** Calls and writes of other fields leave the areas alone. *)
Definition seen (s : kst) := (vmas s, fld s mm f_map_count, bool_decide (is_Some (heap s !! mm))).

Lemma seen_areas a b s s' : seen s' = seen s -> areas a b s -> areas a b s'.
Proof.
  unfold seen, areas. intros [= Hv Hf Hl] (Ha & Hb & Hc & Hs). rewrite Hv, Hf. split_and!; try done.
  apply (bool_decide_eq_true_1 (is_Some (heap s' !! mm))). rewrite Hl. by apply bool_decide_eq_true_2.
Qed.

Lemma keeps_areas {A} a b (m : prog E A) : keeps seen m -> triple (areas a b) m (fun _ => areas a b) anyway.
Proof.
  intros Hm s Hs. specialize (Hm s). destruct (m s) as [[x|e] s']; [|done]. by apply (seen_areas _ _ s).
Qed.

Lemma seen_wr f v a : f <> f_map_count -> keeps (E := E) seen (wr a f v).
Proof.
  intros Hf s. cbn [wr modify]. unfold seen. f_equal; [f_equal|].
  - pose proof (keeps_wr (E := E) mm f_map_count a f v ltac:(congruence) s) as Hk. exact Hk.
  - apply bool_decide_ext. simpl. by rewrite lookup_alter_is_Some.
Qed.

Ltac seen_leaf := first [apply seen_wr; discriminate | by intros s].

Ltac ask := eapply triple_bind; [apply keeps_areas; keep seen_leaf|intros ?].
Ltac give_back := try (eapply triple_seq; [apply keeps_areas; keep seen_leaf|]).

(** One area. *)
Lemma link_areas a b v :
  mm <> oldmm -> triple (E := E) (areas a b) (link_vma mm v) (fun _ => areas (a ++ [v]) b) anyway.
Proof.
  intros Hne s (Ha & Hb & Hc & Hl). unfold link_vma, bind, modify. rewrite inc_eq. unfold areas.
  rewrite fld_wr, decide_True by done. simpl. rewrite decide_True, Ha by done.
  rewrite lookup_insert_eq, lookup_insert_ne by done. split_and!; try done.
  - change (fld (set_vmas _ s)) with (fld s). rewrite Hc, length_app. simpl. lia.
  - by rewrite lookup_alter_is_Some.
Qed.

Lemma dup_one_areas a b i v :
  mm <> oldmm ->
  triple (areas a b) (dup_one mm i v)
    (fun o s => match o with
                | Some r => r <> 0
                | None => areas (a ++ if bool_decide (VM_DONTCOPY ∈ v_flags v) then [] else [inherited i v]) b s
                end) anyway.
Proof.
  intros Hne. unfold dup_one. destruct (decide (VM_DONTCOPY ∈ v_flags v)) as [Hd|Hd].
  { rewrite bool_decide_true, app_nil_r by done. eapply triple_seq; [apply keeps_areas; keep seen_leaf|].
    by apply triple_ret. }
  rewrite (bool_decide_false (VM_DONTCOPY ∈ _)) by done.
  ask. destruct (nonzero _); [by apply triple_ret|].
  ask. destruct (nonzero _); [give_back; by apply triple_ret|].
  ask. destruct (_ =? 0); [give_back; by apply triple_ret|].
  ask. destruct (nonzero _); [do 2 give_back; by apply triple_ret|].
  ask. ask. destruct (nonzero _); [do 3 give_back; by apply triple_ret|].
  eapply triple_seq; [apply keeps_areas; keep seen_leaf|]. ask.
  eapply triple_seq; [apply keeps_areas; keep seen_leaf|].
  unfold inherited. destruct (bool_decide (VM_WIPEONFORK ∈ v_flags v)); [|destruct (copy_page_range i (v_pages v)) as [r pages] eqn:Ep];
    (eapply triple_seq; [by apply link_areas|]); (eapply triple_seq; [apply keeps_areas; keep seen_leaf|]);
    apply triple_ret; intros s Hs; cbn [nonzero Z.eqb negb snd]; [done|].
  destruct (nonzero r) eqn:Er; [by apply nonzero_true|done].
Qed.

Lemma dup_areas_areas l a b i :
  mm <> oldmm ->
  triple (areas a b) (dup_areas mm i l)
    (fun o s => match o with Some r => r <> 0 | None => areas (a ++ inherit_from i l) b s end) anyway.
Proof.
  intros Hne. revert a i. induction l as [|v l IH]; intros a i; cbn [dup_areas inherit_from].
  { apply triple_ret. intros s Hs. by rewrite app_nil_r. }
  eapply triple_bind; [by apply dup_one_areas|]. intros [r|]; [by apply triple_ret|].
  rewrite app_assoc. apply IH.
Qed.

Lemma dup_mmap_areas b :
  config CONFIG_MMU = true -> mm <> oldmm ->
  triple (areas [] b) (dup_mmap mm oldmm) (fun r s => r = 0 -> areas (inherit_from 0 b) b s) anyway.
Proof.
  intros Hmmu Hne. unfold dup_mmap, dup_mm_exe_file, get_mm_exe_file, copy_field. rewrite Hmmu.
  eapply triple_seq; [apply keeps_areas; keep seen_leaf|]. ask. destruct (nonzero _).
  { give_back. by apply triple_ret. }
  do 8 (eapply triple_seq; [apply keeps_areas; keep seen_leaf|]). ask. ask.
  eapply (triple_bind _ _ _ (fun r s => r = 0 -> areas (inherit_from 0 b) b s)).
  - match goal with |- triple _ (if nonzero ?r then _ else _) _ _ => destruct (nonzero r) eqn:Er end; [apply triple_ret; intros s _ E0; by rewrite E0 in Er|].
    eapply (triple_bind _ _ _ (fun l s => l = b /\ areas [] b s)).
    { intros s Hs. cbn. split; [apply Hs|done]. }
    intros l. apply triple_pure. intros ->. eapply triple_bind; [by apply dup_areas_areas|].
    intros [r|]; [apply triple_ret; intros s Hr ->; done|]. intros s Hs. cbn. intros _. done.
  - intros r. destruct (decide (r = 0)) as [->|Hr].
    + intros s Hs. specialize (Hs eq_refl). revert s Hs.
      do 5 (eapply triple_seq; [apply keeps_areas; keep seen_leaf|]). by apply triple_ret.
    + intros s _. cbn. done.
Qed.

(** An area a child may have. *)
Definition child_area (v : vma) : Prop :=
  v_mm v = mm /\ ~ (VM_DONTCOPY ∈ v_flags v) /\ ~ (VM_LOCKED ∈ v_flags v) /\ ~ (VM_LOCKONFAULT ∈ v_flags v) /\
  (VM_WIPEONFORK ∈ v_flags v -> v_pages v = ∅ /\ v_anon v = 0).

Lemma unlocked_in f fl : f ∈ unlocked_flags fl <-> f ∈ fl /\ f <> VM_LOCKED /\ f <> VM_LOCKONFAULT.
Proof. unfold unlocked_flags. rewrite list_elem_of_filter. tauto. Qed.

Lemma inherit_child i l : Forall child_area (inherit_from i l).
Proof.
  revert i. induction l as [|v l IH]; intros i; cbn; [done|]. apply Forall_app. split; [|apply IH].
  destruct (bool_decide_reflect (VM_DONTCOPY ∈ v_flags v)) as [Hd|Hd]; [done|].
  apply Forall_singleton. unfold child_area, inherited, dup_area, set_pages. cbn.
  rewrite !unlocked_in. split_and!; [done|tauto|tauto|tauto|]. intros (Hw & _).
  by rewrite bool_decide_true, decide_True by done.
Qed.

End Areas.

(** C17: a dup_mmap that succeeds gives the child the areas of the parent in
    their order but for those marked VM_DONTCOPY; no area of the child is
    locked, an area with VM_WIPEONFORK is empty and without anon_vma, map_count
    counts the areas, and the areas of the parent are unchanged. *)
Theorem dup_mmap_inherits `{World} mm oldmm s s' :
  config CONFIG_MMU = true -> mm <> oldmm -> is_Some (heap s !! mm) ->
  fld s mm f_map_count = 0 -> default [] (vmas s !! mm) = [] ->
  dup_mmap (E := jump) mm oldmm s = (inl 0, s') ->
  let parent := default [] (vmas s !! oldmm) in
  let child := default [] (vmas s' !! mm) in
  child = inherit_from mm 0 parent /\ Forall (child_area mm) child /\
  fld s' mm f_map_count = Z.of_nat (length child) /\ default [] (vmas s' !! oldmm) = parent.
Proof.
  intros Hmmu Hne Hl Hc Hv Hr.
  pose proof (dup_mmap_areas (E := jump) mm oldmm (default [] (vmas s !! oldmm)) Hmmu Hne s) as Hd.
  rewrite Hr in Hd. destruct Hd as (Ha & Hb & Hn & _); [by unfold areas; rewrite Hv|done|].
  cbv zeta. rewrite Ha. split_and!; [done|apply inherit_child|done|done].
Qed.

(** An area that is locked, one that is wiped and one that is not copied. *)
Definition demo_areas : kst :=
  set_vmas {[ 6 := [demo_area; VmaR 8192 12288 [VM_READ; VM_WIPEONFORK] 0 6 5 {[ 2 := 43 ]};
                    VmaR 12288 16384 [VM_DONTCOPY] 0 6 0 ∅] ]}
    (set_heap (<[20 := fun _ => 0]> demo_heap) demo_state).

Lemma demo_dup_areas :
  dup_mmap (H := demo_world false "") (E := jump) 20 6 demo_areas =
  (inl 0, snd (dup_mmap (H := demo_world false "") (E := jump) 20 6 demo_areas)).
Proof. rewrite (surjective_pairing (dup_mmap _ _ _)) at 1. vm_compute. reflexivity. Qed.

Lemma dup_mmap_inherits_witness :
  default [] (vmas (snd (dup_mmap (H := demo_world false "") (E := jump) 20 6 demo_areas)) !! 20) =
  [VmaR 4096 8192 [VM_READ] 0 20 0 {[ 1 := 42 ]}; VmaR 8192 12288 [VM_READ; VM_WIPEONFORK] 0 20 0 ∅].
Proof.
  apply (dup_mmap_inherits (H := demo_world false "") 20 6 demo_areas _ eq_refl ltac:(discriminate)
    (ex_intro _ _ eq_refl) eq_refl eq_refl demo_dup_areas).
Defined.
