(* ===== verification/ForkArgsSpec.v ===== *)
(** * clone3 and clone (kernel/fork.c)

    The old system call packs the exit signal into its flags and takes the top
    of the stack; the new one has a structure and takes the stack's bounds.  A
    call that both can express gives kernel_clone the same arguments. *)

From S2P Require Import Prelude ForkState ForkArgs.

(** Flags that fit in 32 bits, without the signal and the dead bit. *)
Definition plain_flags (flags : Z) : Prop :=
  0 <= flags < 2 ^ 32 /\ Z.land flags (Z.lor CLONE_DETACHED CSIGNAL) = 0.

Lemma small_bits x k n : 0 <= x < 2 ^ k -> 0 <= k <= n -> Z.testbit x n = false.
Proof. intros Hx Hn. rewrite Z.testbit_false by lia. rewrite Z.div_small; [done|]. split; [lia|].
  apply Z.lt_le_trans with (2 ^ k); [lia|]. apply Z.pow_le_mono_r; lia. Qed.

Lemma no_bit x m n : Z.land x m = 0 -> Z.testbit m n = true -> Z.testbit x n = false.
Proof.
  intros Hx Hm. pose proof (Z.land_spec x m n) as Hl. rewrite Hx, Hm, Z.bits_0, andb_true_r in Hl. done.
Qed.

Lemma submask x m m' : Z.land x m = 0 -> Z.ldiff m' m = 0 -> Z.land x m' = 0.
Proof.
  intros Hx Hm. apply Z.bits_inj'. intros n Hn. rewrite Z.land_spec, Z.bits_0.
  destruct (Z.testbit m' n) eqn:Em'; [|apply andb_false_r]. rewrite andb_true_r. apply (no_bit x m n Hx).
  pose proof (Z.ldiff_spec m' m n) as Hd. rewrite Hm, Em', Z.bits_0 in Hd. by destruct (Z.testbit m n).
Qed.

Lemma low_byte n : 0 <= n -> Z.testbit CSIGNAL n = (n <? 8).
Proof. intros Hn. change CSIGNAL with (Z.ones 8). rewrite Z.testbit_ones_nonneg by lia. lia. Qed.

(** Unpacking what clone packs into one word. *)
Lemma unpack_flags flags sig :
  plain_flags flags -> 0 <= sig < 256 ->
  Z.ldiff (lower_32_bits (Z.lor flags sig)) CSIGNAL = flags /\ Z.land (lower_32_bits (Z.lor flags sig)) CSIGNAL = sig.
Proof.
  intros [Hf Hl] Hs.
  assert (Hb : forall n, 0 <= n < 8 -> Z.testbit flags n = false).
  { intros n Hn. apply (no_bit _ _ n Hl). rewrite Z.lor_spec, low_byte by lia. by rewrite (proj2 (Z.ltb_lt n 8)), orb_true_r by lia. }
  assert (Hsb : forall n, 8 <= n -> Z.testbit sig n = false) by (intros n Hn; apply (small_bits sig 8); lia).
  assert (Hw : lower_32_bits (Z.lor flags sig) = Z.lor flags sig).
  { unfold lower_32_bits, u32, uwrap. rewrite <- Z.land_ones by lia. apply Z.bits_inj'. intros n Hn.
    rewrite Z.land_spec, Z.lor_spec, Z.testbit_ones_nonneg by lia.
    destruct (Z.ltb_spec n 32) as [?|Hge]; [by rewrite andb_true_r|].
    rewrite (small_bits flags 32 n), Hsb by lia. done. }
  rewrite Hw. split; apply Z.bits_inj'; intros n Hn; rewrite ?Z.ldiff_spec, ?Z.land_spec, Z.lor_spec, low_byte by done;
    destruct (Z.ltb_spec n 8); rewrite ?Hb, ?Hsb by lia; destruct (Z.testbit _ n); done.
Qed.

(** The arguments of clone3 without the size of the stack, which clone does not
    know. *)
Definition forget_size (a : clone_args) : clone_args :=
  CloneArgs (a_flags a) (a_pidfd a) (a_child_tid a) (a_parent_tid a) (a_exit_signal a) (a_stack a) 0 (a_tls a)
    (a_set_tid a) (a_set_tid_size a) (a_cgroup a) (a_io_thread a).

Lemma plain_accepted flags stack_size sig stack parent child tls access_ok :
  plain_flags flags -> (has flags (Z.lor CLONE_THREAD CLONE_PARENT) = true -> sig = 0) ->
  0 < stack -> 0 < stack_size -> access_ok stack stack_size = true ->
  clone3_args_valid access_ok (CloneArgs flags parent child parent sig stack stack_size tls [] 0 0 false) =
  Some (CloneArgs flags parent child parent sig (u64 (stack + stack_size)) stack_size tls [] 0 0 false).
Proof.
  intros [Hf Hl] Ht Hst Hsz Ha. unfold clone3_args_valid. cbn [a_flags a_exit_signal].
  assert (Hd : Z.ldiff flags (flags_of [CLONE_LEGACY_FLAGS; CLONE_CLEAR_SIGHAND; CLONE_INTO_CGROUP]) = 0).
  { apply Z.bits_inj'. intros n Hn. rewrite Z.ldiff_spec, Z.bits_0. destruct (Z.ltb_spec n 32) as [Hlt|Hge].
    - change (flags_of _) with (Z.ones 34). rewrite Z.testbit_ones_nonneg by lia.
      rewrite (proj2 (Z.ltb_lt n 34)) by lia. apply andb_false_r.
    - by rewrite (small_bits flags 32 n) by lia. }
  rewrite Hd. cbn [nonzero Z.eqb negb]. unfold has at 1.
  rewrite (submask flags (Z.lor CLONE_DETACHED CSIGNAL)) by (done || reflexivity). cbn [nonzero Z.eqb negb].
  assert (Hh : has_all flags (Z.lor CLONE_SIGHAND CLONE_CLEAR_SIGHAND) = false).
  { unfold has_all. apply Z.eqb_neq. intros E0. apply (f_equal (fun z => Z.testbit z 32)) in E0.
    rewrite Z.land_spec, (small_bits flags 32 32) in E0 by lia. done. }
  rewrite Hh. destruct (has flags (Z.lor CLONE_THREAD CLONE_PARENT)) eqn:Eh; [rewrite (Ht eq_refl)|]; cbn [andb nonzero Z.eqb negb].
  all: unfold clone3_stack_valid; cbn [a_stack a_stack_size]; rewrite !(proj2 (Z.eqb_neq _ 0)) by lia; by rewrite Ha.
Qed.


