(* ===== verification/ForkStacks.v ===== *)
(** * The pool of kernel stacks (kernel/fork.c)

    Tasks get and give back stacks in any order; two freed stacks are kept for
    reuse.  No stack is ever in two places and none is lost. *)

From S2P Require Import Prelude KVStore TaskState ForkState ForkTask ForkArgs ForkCopy ForkLogic.
From S2P Require Import ForkLevels ForkUnwind ForkChild ForkDemo.

Section Stacks.
Context `{World}.
Hypothesis Hw : world_ok.
Hypothesis Hvmap : config CONFIG_VMAP_STACK = true.

(** The tasks that have a stack, with it, and the kernel. *)
Definition pool_state : Type := list (Z * Z) * kst.

Inductive stack_step : pool_state -> pool_state -> Prop :=
| step_alloc own tsk a s s' :
    ~ (tsk ∈ own.*1) -> is_Some (heap s !! tsk) ->
    alloc_thread_stack_node (E := jump) tsk s = (inl a, s') -> a <> 0 ->
    stack_step (own, s) ((tsk, a) :: own, s')
| step_alloc_fails own tsk s s' :
    ~ (tsk ∈ own.*1) -> is_Some (heap s !! tsk) ->
    alloc_thread_stack_node (E := jump) tsk s = (inl 0, s') ->
    stack_step (own, s) (own, s')
| step_free own1 own2 tsk a s s' :
    free_thread_stack (E := jump) tsk s = (inl tt, s') ->
    stack_step (own1 ++ (tsk, a) :: own2, s) (own1 ++ own2, s').

(** The stacks in the cache of the CPU. *)
Definition cached (s : kst) : list Z := omap id (cached_stacks s).

(** The stacks [st] are those of [l], each once. *)
Definition held (l : list Z) (st : gmap Z bool) : Prop :=
  NoDup l /\ Forall (fun a => a <> 0) l /\ dom st = list_to_set l.

(** Every stack there is belongs to one task or to one slot of the cache. *)
Record pool_ok (p : pool_state) : Prop := {
  po_slots : exists x y, cached_stacks (snd p) = [x; y];
  po_tasks : NoDup (fst p).*1;
  po_held : held ((fst p).*2 ++ cached (snd p)) (stacks (snd p));
  po_field : Forall (fun e => fld (snd p) (fst e) f_stack = snd e /\ fld (snd p) (fst e) f_stack_vm_area = snd e)
    (fst p);
}.

(** What allocation does to the pool. *)
Inductive taken_from (s : kst) : Z -> gmap Z bool -> list (option Z) -> Prop :=
| from_first a y : cached_stacks s = [Some a; y] -> taken_from s a (<[a := true]> (stacks s)) [None; y]
| from_second a : cached_stacks s = [None; Some a] -> taken_from s a (<[a := true]> (stacks s)) [None; None]
| from_new a : cached_stacks s = [None; None] -> ~ (a ∈ dom (stacks s)) -> 0 < a ->
    taken_from s a (<[a := fresh_stack_clean]> (stacks s)) [None; None]
| from_nowhere : cached_stacks s = [None; None] -> taken_from s 0 (stacks s) [None; None].

Lemma alloc_takes tsk s x y a s' :
  cached_stacks s = [x; y] -> Forall (fun a => a <> 0) (cached s) ->
  alloc_thread_stack_node (E := jump) tsk s = (inl a, s') ->
  taken_from s a (stacks s') (cached_stacks s') /\
  heap s' = if nonzero a then alter (upd f_stack a) tsk (alter (upd f_stack_vm_area a) tsk (heap s)) else heap s.
Proof.
  unfold cached. destruct s as [hp ? ? ? ? ? ? ? st cs ? ? ? ? ? ?]. cbn [cached_stacks heap]. intros -> Hnz Ha.
  unfold alloc_thread_stack_node in Ha. rewrite Hvmap in Ha. destruct x as [b|]; [|destruct y as [b|]].
  - injection Ha as <- <-. apply Forall_cons in Hnz as [Hb _].
    split; [by refine (from_first _ b y _)|]. by rewrite (proj2 (nonzero_true b) Hb).
  - injection Ha as <- <-. apply Forall_cons in Hnz as [Hb _].
    split; [by refine (from_second _ b _)|]. by rewrite (proj2 (nonzero_true b) Hb).
  - unfold bind, new_stack in Ha. cbn in Ha. destruct (stack_alloc (dom st)) as [b|] eqn:Eb.
    + destruct (wo_stack Hw _ _ Eb) as [Hn Hb]. unfold when in Ha. rewrite (proj2 (nonzero_true b)) in Ha by lia.
      injection Ha as <- <-. rewrite (proj2 (nonzero_true b)) by lia. split; [by refine (from_new _ b _ _ _)|done].
    + injection Ha as <- <-. split; [by refine (from_nowhere _ _)|done].
Qed.

(** Where a freed stack goes. *)
Inductive given_to (s : kst) (a : Z) : gmap Z bool -> list (option Z) -> Prop :=
| to_first y : cached_stacks s = [None; y] -> given_to s a (stacks s) [Some a; y]
| to_second x : cached_stacks s = [Some x; None] -> given_to s a (stacks s) [Some x; Some a]
| to_nowhere x y : cached_stacks s = [Some x; Some y] -> given_to s a (delete a (stacks s)) [Some x; Some y].

Lemma free_gives tsk s x y a s' :
  cached_stacks s = [x; y] -> a <> 0 -> fld s tsk f_stack = a -> fld s tsk f_stack_vm_area = a ->
  free_thread_stack (E := jump) tsk s = (inl tt, s') ->
  given_to s a (stacks s') (cached_stacks s') /\ heap s' = heap s.
Proof.
  intros Hc Ha Hs Hv Hf. unfold free_thread_stack, task_stack_vm_area in Hf. rewrite Hvmap in Hf.
  unfold bind at 1 2, rd at 1 2, gets in Hf. rewrite Hs, Hv, (proj2 (nonzero_true a) Ha) in Hf. clear Hs Hv.
  destruct s as [hp ? ? ? ? ? ? ? st cs ? ? ? ? ? ?]. cbn [cached_stacks heap] in *. subst cs.
  destruct x as [b|]; [destruct y as [c|]|].
  - injection Hf as <-. split; [by refine (to_nowhere _ _ b c _)|done].
  - injection Hf as <-. split; [by refine (to_second _ _ b _)|done].
  - injection Hf as <-. split; [by refine (to_first _ _ y _)|done].
Qed.

(** ** The invariant *)

#[local] Instance held_proper : Proper (Permutation ==> eq ==> iff) held.
Proof.
  intros l l' Hl st ? <-. unfold held.
  assert (Hs : list_to_set (C := gset Z) l = list_to_set l') by by rewrite Hl. by rewrite Hs, Hl.
Qed.

Lemma held_keep l st a v : held l st -> a ∈ l -> held l (<[a := v]> st).
Proof. intros (H1 & H2 & H3) Ha. split_and!; [done|done|]. rewrite dom_insert_L. set_solver. Qed.

Lemma held_new l st a v : held l st -> ~ (a ∈ dom st) -> a <> 0 -> held (a :: l) (<[a := v]> st).
Proof.
  intros (H1 & H2 & H3) Ha H0. split_and!.
  - apply NoDup_cons. split; [|done]. rewrite H3 in Ha. by rewrite elem_of_list_to_set in Ha.
  - by constructor.
  - rewrite dom_insert_L, H3. done.
Qed.

Lemma held_drop l st a : held (a :: l) st -> held l (delete a st).
Proof.
  intros (H1 & H2 & H3). apply NoDup_cons in H1 as [Hn H1]. apply Forall_cons in H2 as [_ H2]. split_and!; try done.
  rewrite dom_delete_L, H3. cbn. apply set_eq. intros b.
  rewrite elem_of_difference, elem_of_union, !elem_of_singleton, elem_of_list_to_set.
  split; [tauto|]. intros Hb. split; [by right|]. intros ->. done.
Qed.

Lemma taken_held s a st cs own :
  taken_from s a st cs -> held (own ++ cached s) (stacks s) ->
  (exists x y, cs = [x; y]) /\ held ((if nonzero a then a :: own else own) ++ omap id cs) st.
Proof.
  unfold cached. intros Ht Hh. split; [by destruct Ht; eauto|].
  destruct Ht as [a y Hc|a Hc|a Hc Hn Ha|Hc]; rewrite Hc in Hh; cbn [omap list_omap id] in *.
  - assert (Ha0 : a <> 0) by (apply (proj1 (Forall_forall _ _) (proj1 (proj2 Hh))); set_solver).
    rewrite (proj2 (nonzero_true a) Ha0). rewrite <- Permutation_middle in Hh. apply held_keep; [exact Hh|left].
  - assert (Ha0 : a <> 0) by (apply (proj1 (Forall_forall _ _) (proj1 (proj2 Hh))); set_solver).
    rewrite (proj2 (nonzero_true a) Ha0). rewrite <- Permutation_middle in Hh. apply held_keep; [exact Hh|left].
  - rewrite (proj2 (nonzero_true a)) by lia. apply held_new; [done|done|lia].
  - done.
Qed.

Lemma given_held s a st cs own :
  given_to s a st cs -> held (a :: own ++ cached s) (stacks s) ->
  (exists x y, cs = [x; y]) /\ held (own ++ omap id cs) st.
Proof.
  unfold cached. intros Hg Hh. split; [by destruct Hg; eauto|].
  destruct Hg as [y Hc|x Hc|x y Hc]; rewrite Hc in Hh; cbn [omap list_omap id] in *.
  - by rewrite <- Permutation_middle.
  - revert Hh. apply held_proper; [|done]. solve_Permutation.
  - by apply held_drop.
Qed.

Lemma alloc_fld s s' tsk a e f :
  heap s' = (if nonzero a then alter (upd f_stack a) tsk (alter (upd f_stack_vm_area a) tsk (heap s)) else heap s) ->
  e <> tsk -> fld s' e f = fld s e f.
Proof. intros Hh He. unfold fld. rewrite Hh. destruct (nonzero a); [|done]. by rewrite !lookup_alter_ne. Qed.

Lemma alloc_own s s' tsk a :
  heap s' = alter (upd f_stack a) tsk (alter (upd f_stack_vm_area a) tsk (heap s)) -> is_Some (heap s !! tsk) ->
  fld s' tsk f_stack = a /\ fld s' tsk f_stack_vm_area = a.
Proof.
  intros Hh [o Ho]. unfold fld. rewrite Hh, !lookup_alter_eq, Ho. done.
Qed.

Lemma pool_step p p' : pool_ok p -> stack_step p p' -> pool_ok p'.
Proof.
  intros [(x & y & Hc) Htasks Hheld Hfield] Hstep.
  destruct Hstep as [own tsk a s s' Hnew Hl Ha Ha0|own tsk s s' Hnew Hl Ha|own1 own2 tsk a s s' Hf]; cbn [fst snd] in *.
  - destruct (alloc_takes tsk s x y a s' Hc) as [Ht Hh]; [|done|].
    { apply (Forall_app _ own.*2), Hheld. }
    destruct (taken_held _ _ _ _ _ Ht Hheld) as [Hsl Hheld']. rewrite (proj2 (nonzero_true a) Ha0) in Hh, Hheld'.
    split; cbn [fst snd]; [done|by apply NoDup_cons|done|]. constructor; [by apply (alloc_own s)|].
    rewrite Forall_forall in Hfield |- *. intros e He. rewrite !(alloc_fld s s' tsk a); [by apply Hfield| | | |];
      try (by rewrite (proj2 (nonzero_true a) Ha0)); intros <-; apply Hnew, list_elem_of_fmap_2, He.
  - destruct (alloc_takes tsk s x y 0 s' Hc) as [Ht Hh]; [|done|].
    { apply (Forall_app _ own.*2), Hheld. }
    destruct (taken_held _ _ _ _ _ Ht Hheld) as [Hsl Hheld'].
    split; cbn [fst snd]; [done|done|done|]. rewrite Forall_forall in Hfield |- *. intros e He.
    unfold fld. rewrite Hh. by apply Hfield.
  - pose proof (proj1 (Forall_forall _ _) Hfield (tsk, a) ltac:(set_solver)) as [Hs Hv]. cbn in Hs, Hv.
    rewrite fmap_app, fmap_cons in Hheld, Htasks. cbn [fst snd] in Hheld, Htasks.
    rewrite <- app_assoc in Hheld. cbn in Hheld. rewrite <- Permutation_middle, app_assoc, <- fmap_app in Hheld.
    destruct (free_gives tsk s x y a s' Hc) as [Hg Hh]; [|done|done|done|].
    { destruct Hheld as (_ & Hz & _). by apply Forall_cons in Hz as [? _]. }
    destruct (given_held _ _ _ _ _ Hg Hheld) as [Hsl Hheld'].
    split; cbn [fst snd]; [done| |done|].
    + rewrite <- Permutation_middle, <- fmap_app in Htasks. by apply NoDup_cons in Htasks as [_ ?].
    + apply Forall_app in Hfield as [H1 H2]. apply Forall_cons in H2 as [_ H2].
      apply Forall_app. split; eapply Forall_impl; eauto; intros e; unfold fld; by rewrite Hh.
Qed.

Lemma pool_steps p p' : rtc stack_step p p' -> pool_ok p -> pool_ok p'.
Proof. induction 1; [done|]. intros Hp. eauto using pool_step. Qed.

End Stacks.

(** C18: from an empty pool, however tasks get and free their stacks: every
    stack that exists belongs to exactly one task or lies in exactly one slot
    of the cache, so that no stack is shared, freed while in use or lost, and
    at most two are cached. *)
Theorem stack_pool_sound `{World} s0 own s :
  world_ok -> config CONFIG_VMAP_STACK = true ->
  stacks s0 = ∅ -> cached_stacks s0 = replicate NR_CACHED_STACKS None ->
  rtc stack_step ([], s0) (own, s) ->
  NoDup (own.*2 ++ cached s) /\ dom (stacks s) = list_to_set (own.*2 ++ cached s) /\
  (length (cached s) <= NR_CACHED_STACKS)%nat.
Proof.
  intros Hw Hv Hs Hc Hrun. destruct (pool_steps Hw Hv _ _ Hrun) as [(x & y & Hslots) _ (H1 & _ & H2) _].
  - split; cbn; [rewrite Hc; by eexists _, _|constructor| |constructor]. unfold held, cached. rewrite Hs, Hc, dom_empty_L. cbn.
    split_and!; [constructor|constructor|done].
  - split_and!; [done|done|]. unfold cached. cbn in Hslots. rewrite Hslots. destruct x, y; cbn; unfold NR_CACHED_STACKS; lia.
Qed.

(** The concrete kernel with virtually mapped stacks. *)
#[local] Instance vmap_world : World :=
  let W := demo_world false "" in
  {| config := fun c => match c with CONFIG_VMAP_STACK => true | _ => @config W c end;
     ext := @ext W; ext_at := @ext_at W; copy_page_range := @copy_page_range W;
     kmem_cache_alloc := @kmem_cache_alloc W; garbage := @garbage W; stack_alloc := @stack_alloc W;
     fresh_stack_clean := @fresh_stack_clean W; kmalloc := @kmalloc W; kv_garbage := @kv_garbage W;
     copy_fs_struct := @copy_fs_struct W; dup_fd := @dup_fd W; exit_fs := @exit_fs W; exit_files := @exit_files W |}.

Lemma vmap_world_ok : world_ok.
Proof. destruct (demo_world_ok false ""). by split. Qed.

(** A task gets a stack, and gives it back to the cache. *)
Definition demo_got : kst := snd (alloc_thread_stack_node (E := jump) 1 demo_state).
Definition demo_freed : kst := snd (free_thread_stack (E := jump) 1 demo_got).

Lemma demo_run : rtc stack_step ([], demo_state) ([], demo_freed).
Proof.
  eapply rtc_l; [apply (step_alloc [] 1 4096 demo_state demo_got); [by intros ?%elem_of_nil|by eexists|reflexivity|done]|].
  eapply rtc_l; [apply (step_free [] [] 1 4096 demo_got demo_freed); reflexivity|]. apply rtc_refl.
Qed.

Lemma stack_pool_sound_witness : NoDup (cached demo_freed) /\ dom (stacks demo_freed) = list_to_set (cached demo_freed).
Proof.
  destruct (stack_pool_sound demo_state [] demo_freed vmap_world_ok eq_refl eq_refl eq_refl demo_run) as (H1 & H2 & _).
  by split.
Defined.
