(* ===== verification/ForkBoot.v ===== *)
(** * What kernel/fork.c sets up at boot

    The caches that fork_init, mm_cache_init, proc_caches_init and
    thread_stack_cache_init create, with the part of each object that copies
    from and to user space may touch.  For task_struct this part is computed
    from the place of the member thread, as [TaskLayout] has it. *)

From S2P Require Import Prelude CLayout TaskStruct TaskLayout ForkState ForkTask.

(** ** Caches *)

Inductive slab_flag := SLAB_PANIC | SLAB_ACCOUNT | SLAB_HWCACHE_ALIGN | SLAB_TYPESAFE_BY_RCU.

#[export] Instance slab_flag_eq_dec : EqDecision slab_flag.
Proof. solve_decision. Defined.

(** The arguments of kmem_cache_create_usercopy; without user copies the window
    is empty.  [k_ctor] names the constructor. *)
Record kcache := KCache {
  k_name : string; k_size : Z; k_align : Z; k_flags : list slab_flag; k_useroffset : Z; k_usersize : Z; k_ctor : option string }.

Definition kmem_cache_create (name : string) (sz al : Z) (flags : list slab_flag) (ctor : option string) : kcache :=
  KCache name sz al flags 0 0 ctor.

(** What the constructor makes of a sighand_struct: whether its lock is free and
    its queue of waiters empty. *)
Record sighand := Sighand { sh_locked : bool; sh_waiters : list Z }.
Definition sighand_ctor (data : sighand) : sighand := Sighand false [].

Section Boot.
Variable b : build.
(** Where thread_struct may be copied from (arch_thread_struct_whitelist), the
    size of the objects for task_struct, and constants of other headers *)
Variable arch_whitelist : Z * Z.
Variables (arch_task_struct_size L1_CACHE_BYTES ARCH_MIN_TASKALIGN ARCH_MIN_MMSTRUCT_ALIGN cpumask_size : Z).
(** offsetof and size of saved_auxv in mm_struct *)
Variables (offsetof_saved_auxv sizeof_saved_auxv : Z).

Definition sizeof (s : string) : Z := size (CLayout.ext b s).

(** offsetof(struct task_struct, thread) *)
Definition offsetof_thread : Z :=
  match last (task_places b) with Some (_, (s, _)) => s / 8 | None => 0 end.

(** The part of fork_init that makes the cache *)
Definition task_struct_cache : kcache :=
  let al := Z.max L1_CACHE_BYTES ARCH_MIN_TASKALIGN in
  let '(useroffset, usersize) := task_struct_whitelist arch_whitelist offsetof_thread in
  KCache "task_struct" arch_task_struct_size al [SLAB_PANIC; SLAB_ACCOUNT] useroffset usersize None.

Definition mm_cache_init : kcache :=
  let mm_size := sizeof "struct mm_struct" + cpumask_size in
  KCache "mm_struct" mm_size ARCH_MIN_MMSTRUCT_ALIGN [SLAB_HWCACHE_ALIGN; SLAB_PANIC; SLAB_ACCOUNT]
    offsetof_saved_auxv sizeof_saved_auxv None.

Definition proc_caches_init : list kcache :=
  [kmem_cache_create "sighand_cache" (sizeof "struct sighand_struct") 0
     [SLAB_HWCACHE_ALIGN; SLAB_PANIC; SLAB_TYPESAFE_BY_RCU; SLAB_ACCOUNT] (Some "sighand_ctor");
   kmem_cache_create "signal_cache" (sizeof "struct signal_struct") 0 [SLAB_HWCACHE_ALIGN; SLAB_PANIC; SLAB_ACCOUNT] None;
   kmem_cache_create "files_cache" (sizeof "struct files_struct") 0 [SLAB_HWCACHE_ALIGN; SLAB_PANIC; SLAB_ACCOUNT] None;
   kmem_cache_create "fs_cache" (sizeof "struct fs_struct") 0 [SLAB_HWCACHE_ALIGN; SLAB_PANIC; SLAB_ACCOUNT] None;
   kmem_cache_create "vm_area_struct" (sizeof "struct vm_area_struct") (align (CLayout.ext b "struct vm_area_struct"))
     [SLAB_PANIC; SLAB_ACCOUNT] None].

(** Only where a stack is smaller than a page *)
Definition thread_stack_cache : kcache :=
  KCache "thread_stack" THREAD_SIZE THREAD_SIZE [] 0 THREAD_SIZE None.

(** kmem_cache_create_usercopy of mm/: an address, or 0 *)
Variable create : kcache -> Z.

Definition thread_stack_cache_init : res Z :=
  let c := create thread_stack_cache in if c =? 0 then Fault BugOn else Ok c.

Definition boot_caches : list kcache := task_struct_cache :: mm_cache_init :: proc_caches_init.

(** "SLAB_PANIC: panic if kmem_cache_create() fails" *)
Hypothesis create_panics : forall c, SLAB_PANIC ∈ k_flags c -> create c <> 0.

(** No allocation of fork.c meets a cache that could not be made. *)
Lemma boot_caches_made : Forall (fun c => create c <> 0) boot_caches.
Proof.
  assert (Hp : Forall (fun c => SLAB_PANIC ∈ k_flags c) boot_caches).
  { unfold boot_caches, task_struct_cache. destruct (task_struct_whitelist _ _). repeat constructor; cbn; set_solver. }
  eapply Forall_impl; [exact Hp|exact create_panics].
Qed.

(** ** The window of task_struct *)

Lemma thread_place :
  build_ok b -> exists i s, task_places b !! i = Some (thread_member, (s, s + 8 * sizeof "struct thread_struct")) /\
    offsetof_thread = s / 8 /\ s mod 8 = 0 /\ 0 <= s /\ s + 8 * sizeof "struct thread_struct" <= 8 * sizeof_task_struct b /\
    S i = length (task_places b).
Proof.
  intros Hb. pose proof (task_members_ok b Hb) as Hf. pose proof (thread_last b) as Hl. rewrite <- (places_members b (sched_env b) 0 (seen b task_struct)) in Hl.
  unfold offsetof_thread. fold (task_places b) in Hl. rewrite fmap_last in Hl.
  destruct (last (task_places b)) as [[m [s e]]|] eqn:El; [|done]. injection Hl as ->.
  rewrite last_lookup in El. exists (pred (length (task_places b))), s.
  destruct (places_bounds b (sched_env b) 0 _ thread_member s e ltac:(lia) Hf (list_elem_of_lookup_2 _ _ _ El)) as (Hs & He & Hal).
  destruct (Hal eq_refl) as [Hm Hw]. change (ty_of b (sched_env b) (m_type thread_member)) with (CLayout.ext b "struct thread_struct") in *.
  destruct (layout_spec b (sched_env b) task_sdef Hb (sched_env_ok b Hb)) as [_ Hsz]; [by vm_compute|]. specialize (Hsz eq_refl).
  change (sd_members task_sdef) with task_struct in Hsz. fold (sizeof_task_struct b) in Hsz.
  pose proof (lookup_lt_Some _ _ _ El) as Hlt. pose proof (bo_ext b Hb "struct thread_struct") as [_ Hpos].
  split; [rewrite El; unfold sizeof; by rewrite Hw|]. split; [done|]. split.
  - apply Z.mod_divide; [lia|]. apply Z.mod_divide in Hm as [q Hq]; [|lia]. exists (q * align (CLayout.ext b "struct thread_struct")). lia.
  - split; [lia|]. unfold sizeof. split; lia.
Qed.

End Boot.


(** ** Filter of core dumps *)

Section Filter.
(** simple_strtoul with base 0, and the constants of sched/coredump.h *)
Variable simple_strtoul : string -> Z.
Variables (MMF_DUMP_FILTER_SHIFT MMF_DUMP_FILTER_MASK : Z).

(** The return value and default_dump_filter after *)
Definition coredump_filter_setup (s : string) : Z * Z :=
  (1, Z.land (u64 (Z.shiftl (simple_strtoul s) MMF_DUMP_FILTER_SHIFT)) MMF_DUMP_FILTER_MASK).

(** No text on the command line sets a flag outside the filter. *)
Lemma coredump_filter_masked s : Z.land (coredump_filter_setup s).2 (Z.lnot MMF_DUMP_FILTER_MASK) = 0.
Proof. cbn. rewrite <- Z.land_assoc, Z.land_lnot_diag. apply Z.land_0_r. Qed.
End Filter.
