(* ===== verification/Pidfd.v ===== *)
(** * Files that stand for processes (kernel/fork.c)

    pidfd_pid, pidfd_release, pidfd_show_fdinfo and pidfd_poll.  A struct pid has
    a number in its own namespace and in each namespace above it; how a number
    is looked up is in kernel/pid.c, and the comment of pidfd_show_fdinfo says
    what it relies on. *)

From Stdlib Require Import Ascii.
From stdpp Require Import pretty.
From S2P Require Import Prelude Paths.

(** struct pid: its level, for each level from the top the number and the
    namespace, whether a task has it, and whether its thread group has exited. *)
Record spid := SPid { p_level : Z; p_numbers : list (Z * Z); p_has_task : bool; p_exited : bool }.

(** struct file: f_op, and private_data as an address *)
Inductive file_ops := pidfd_fops | other_fops.
Record kfile := KFile { f_op : file_ops; private_data : Z }.

Definition EPOLLIN : Z := 1.
Definition EPOLLRDNORM : Z := 64.

(** An address, or a negative errno in place of it *)
Definition pidfd_pid (file : kfile) : Z + Z :=
  match f_op file with pidfd_fops => inr (private_data file) | other_fops => inl (- EBADF) end.

(** The file after, and the pid whose reference is put *)
Definition pidfd_release (file : kfile) : Z * kfile * Z :=
  let pid := private_data file in (0, KFile (f_op file) 0, pid).

(** It waits on the queue of the pid before it looks. *)
Definition pidfd_poll (pids : Z -> option spid) (file : kfile) : res (Z * Z) :=
  let! pid := of_option NullDeref (pids (private_data file)) in
  Ok (private_data file, if p_exited pid then Z.lor EPOLLIN EPOLLRDNORM else 0).

(** ** fdinfo *)

Definition tab : string := String (ascii_of_nat 9) "".
Definition newline : string := String (ascii_of_nat 10) "".

(** seq_put_decimal_ll *)
Definition put_decimal (m delimiter : string) (n : Z) : string := m +:+ delimiter +:+ pretty n.

Section Fdinfo.
Variable CONFIG_PID_NS : bool.
(** The level of a namespace, and kernel/pid.c *)
Variable ns_level : Z -> Z.
Variable pid_nr_ns : spid -> Z -> Z.

(** The loop from [i] on, [n] rounds of it *)
Fixpoint put_numbers (n : nat) (i : Z) (pid : spid) (m : string) : res string :=
  match n with
  | O => Ok m
  | S n =>
      let! (nr, _) := of_option OutOfBounds (if i <? 0 then None else p_numbers pid !! Z.to_nat i) in
      put_numbers n (i + 1) pid (put_decimal m tab nr)
  end.

(** [proc_ns] is proc_pid_ns of the procfs instance; [ns] is not initialised
    where no task has the pid. *)
Definition pidfd_show_fdinfo (proc_ns : Z) (pid : spid) (m : string) : res string :=
  let '(ns, nr) := if p_has_task pid then (Some proc_ns, pid_nr_ns pid proc_ns) else (None, -1) in
  let m := put_decimal m ("Pid:" +:+ tab) nr in
  let! m :=
    if CONFIG_PID_NS then
      let m := put_decimal m (newline +:+ "NSpid:" +:+ tab) nr in
      if 0 <? nr then
        let! ns := of_option NullDeref ns in
        put_numbers (Z.to_nat (p_level pid - ns_level ns)) (ns_level ns + 1) pid m
      else Ok m
    else Ok m in
  Ok (m +:+ newline).

(** What the comment says: numbers are positive, one for each level, and a pid is
    looked up as 0 where it is not seen. *)
Record pid_ok (pid : spid) : Prop := {
  po_length : Z.of_nat (length (p_numbers pid)) = p_level pid + 1;
  po_positive : Forall (fun p => 0 < fst p) (p_numbers pid) }.

Definition number_in (pid : spid) (ns : Z) : option Z :=
  match (if ns_level ns <? 0 then None else p_numbers pid !! Z.to_nat (ns_level ns)) with
  | Some (nr, ns') => if ns' =? ns then Some nr else None
  | None => None
  end.

Hypothesis pid_nr_ns_spec : forall pid ns, pid_nr_ns pid ns = default 0 (number_in pid ns).

(** The numbers that are shown: those of the levels from the procfs instance's
    down, 0 where it does not see the process, -1 where it is gone. *)
Definition shown (proc_ns : Z) (pid : spid) : list Z :=
  if p_has_task pid then
    match number_in pid proc_ns with
    | Some _ => (drop (Z.to_nat (ns_level proc_ns)) (p_numbers pid)).*1
    | None => [0]
    end
  else [-1].

Definition tab_list (l : list Z) : string := foldr (fun n s => tab +:+ pretty n +:+ s) "" l.

Lemma put_numbers_eq n i pid m :
  0 <= i -> i + Z.of_nat n = Z.of_nat (length (p_numbers pid)) ->
  put_numbers n i pid m = Ok (m +:+ tab_list (drop (Z.to_nat i) (p_numbers pid)).*1).
Proof.
  revert i m. induction n as [|n IH]; intros i m Hi Hn; cbn [put_numbers].
  - rewrite drop_ge by lia. cbn. by rewrite str_app_nil.
  - rewrite (proj2 (Z.ltb_ge _ _)) by lia. destruct (lookup_lt_is_Some_2 (p_numbers pid) (Z.to_nat i)) as [[nr ns] Hl]; [lia|].
    rewrite Hl. cbn. rewrite IH by lia. rewrite (drop_S _ _ _ Hl). cbn. unfold put_decimal.
    replace (Z.to_nat (i + 1)) with (S (Z.to_nat i)) by lia. by rewrite !str_app_assoc.
Qed.

(** C30: reading the fdinfo of a pidfd faults on no state of the process and of
    the namespaces, and prints the pid seen by the procfs instance twice,
    followed by the pids in all namespaces below it down to the process's own;
    0 alone if the instance does not see the process, and -1 if it is gone. *)
Theorem pidfd_fdinfo_spec proc_ns pid m :
  pid_ok pid -> CONFIG_PID_NS = true ->
  exists first rest, shown proc_ns pid = first :: rest /\
    pidfd_show_fdinfo proc_ns pid m =
      Ok (m +:+ "Pid:" +:+ tab +:+ pretty first +:+ newline +:+ "NSpid:" +:+ tab +:+ pretty first +:+ tab_list rest +:+ newline) /\
    (first = -1 <-> p_has_task pid = false) /\ (first = 0 <-> p_has_task pid = true /\ number_in pid proc_ns = None) /\
    (0 < first -> Z.of_nat (length rest) = p_level pid - ns_level proc_ns).
Proof.
  intros [Hlen Hpos] Hc. unfold pidfd_show_fdinfo, shown. rewrite Hc. destruct (p_has_task pid).
  2: { exists (-1), []. split; [done|]. split; [|split_and!; [done|naive_solver|lia]].
       cbn. unfold put_decimal. by rewrite !str_app_assoc. }
  rewrite pid_nr_ns_spec. destruct (number_in pid proc_ns) as [nr|] eqn:Hn; cbn [from_option]; unfold id.
  2: { exists 0, []. split; [done|]. split; [|split_and!; [done|naive_solver|lia]].
       cbn. unfold put_decimal. by rewrite !str_app_assoc. }
  unfold number_in in Hn. destruct (Z.ltb_spec (ns_level proc_ns) 0) as [|Hl]; [done|].
  destruct (p_numbers pid !! _) as [[nr' ns']|] eqn:Hlk; [|done]. destruct (ns' =? proc_ns); [|done]. injection Hn as ->.
  pose proof (lookup_lt_Some _ _ _ Hlk) as Hlt. assert (0 < nr) by (rewrite Forall_forall in Hpos; exact (Hpos (nr, ns') (list_elem_of_lookup_2 _ _ _ Hlk))).
  rewrite (drop_S _ _ _ Hlk). exists nr, (drop (S (Z.to_nat (ns_level proc_ns))) (p_numbers pid)).*1. split; [done|].
  rewrite (proj2 (Z.ltb_lt 0 nr)) by done. cbn [of_option res_bind]. rewrite put_numbers_eq by lia.
  replace (Z.to_nat (ns_level proc_ns + 1)) with (S (Z.to_nat (ns_level proc_ns))) by lia.
  split; [cbn; unfold put_decimal; by rewrite !str_app_assoc|]. split_and!; [split; [lia|done]|split; [lia|by intros []]|].
  intros _. rewrite length_fmap, length_drop. lia.
Qed.
End Fdinfo.

(** A process at level 2, seen from its parent namespace 11 of level 1: the
    procfs of 11 shows 40 and the inner 1. *)
Lemma pidfd_fdinfo_spec_witness :
  let ns_level ns := if ns =? 10 then 0 else if ns =? 11 then 1 else 2 in
  let pid := SPid 2 [(700, 10); (40, 11); (1, 12)] true false in
  pidfd_show_fdinfo true ns_level (fun p ns => default 0 (number_in ns_level p ns)) 11 pid "" =
    Ok ("Pid:" +:+ tab +:+ "40" +:+ newline +:+ "NSpid:" +:+ tab +:+ "40" +:+ tab +:+ "1" +:+ newline).
Proof.
  cbv zeta.
  destruct (pidfd_fdinfo_spec true (fun ns => if ns =? 10 then 0 else if ns =? 11 then 1 else 2)
    (fun p ns => default 0 (number_in (fun ns => if ns =? 10 then 0 else if ns =? 11 then 1 else 2) p ns)) (fun _ _ => eq_refl)
    11 (SPid 2 [(700, 10); (40, 11); (1, 12)] true false) "") as (first & rest & Hs & Hp & _).
  - split; [reflexivity|repeat constructor].
  - reflexivity.
  - rewrite Hp. injection Hs as <- <-. vm_compute. reflexivity.
Defined.
