(* ===== verification/VdsoTest.v ===== *)
(** * The programs that test the task window (syscall/vdso)

    test_vdso.cpp and test_vdso_all.cpp ask the vDSO for the pid of the caller,
    compare it with /proc/self/stat, and do so again in five children and, the
    second program, once more in the parent.  They run here on the window of
    VdsoFault.v, which a fork hands to the child as dup_mmap does (ForkAreas.v):
    map_vdso marks it VM_WIPEONFORK (VdsoMap.v), so a child finds it unmapped
    and faults in its own.  The vDSO function is that of the tree or that of
    the patch. *)

From S2P Require Import Prelude VdsoMap VdsoFault VdsoPatch.
From S2P Require Import ForkState ForkMm ForkAreas ForkDemo.

(** ** A window across fork *)

#[global] Instance pte_countable : Countable pte.
Proof.
  refine (inj_countable'
    (fun e => match e with PtePage p => inl p | PtePfn f d => inr (f, d) end)
    (fun x => match x with inl p => PtePage p | inr (f, d) => PtePfn f d end) _).
  by intros [].
Defined.

(** The entries of a page table as the pages of an area, which are numbers. *)
Definition pte_code (e : pte) : Z := Z.pos (encode e).
Definition pte_decode (z : Z) : option pte := decode (Z.to_pos z).

(** The area of the window as fork.c sees it, and back. *)
Definition window_area (vtask : vm_area) (w : window) : vma :=
  VmaR (vm_start vtask) (vm_end vtask) (vm_flags vtask) 0 0 0 (pte_code <$> w_pt w).
Definition area_window (v : vma) (pages : view_pages) : window :=
  Window (v_start v) pages (omap pte_decode (v_pages v)).

Section Fork.
Context `{World}.

(** The window of the child of a process with window [w]: what dup_mmap makes
    of its area, the [i]-th of the process. *)
Definition fork_window (mm i : Z) (vtask : vm_area) (w : window) : window :=
  area_window (inherited mm i (window_area vtask w)) (w_pages w).

End Fork.

(** ** The programs *)

(** Who writes a line. *)
Inductive speaker := Self | Child | Parent.

Inductive report :=
| PidMatches (who : speaker) (pid : Z)
| PidMismatch (who : speaker) (pid_proc pid_vdso : Z)
| FailedInfo (who : speaker)                    (** Failed to get task struct info *)
| FailedStat (who : speaker)                    (** Failed to open /proc/self/stat *)
| FailedFork.

(** A process of the program: whether func_sym is set, and its window. *)
Record uproc := UProc { func_sym : bool; u_window : window }.

Definition num_forks : Z := 5.

Section Program.
Context `{World}.

(** The function dlsym finds in the vDSO. *)
Variable vdso_info : ktask -> window -> res (Z * option task_info * window).
(** Whether dlopen and dlsym succeed. *)
Variables dlopen dlsym : bool.
(** The first number of /proc/self/stat, if it can be opened. *)
Variable proc_self_stat : ktask -> option Z.
(** The task fork makes in the [i]-th iteration, if it succeeds. *)
Variable fork : Z -> option ktask.
Variables (vtask : vm_area) (child_mm area_index : Z).

(** get_task_struct_info of the program. *)
Definition test_get_task_struct_info (current : ktask) (u : uproc) : res (Z * option task_info * uproc) :=
  if negb (func_sym u) && negb (dlopen && dlsym) then Ok (-1, None, u)
  else
    let! (r, w) := vdso_info current (u_window u) in
    Ok (r, UProc true w).

(** One comparison: the exit status of a failure, what is written. *)
Definition check_pid (who : speaker) (current : ktask) (u : uproc) : res (option Z * list report * uproc) :=
  let! (r, u1) := test_get_task_struct_info current u in
  let '(ret, info) := r in
  if nonzero ret then Ok (Some 1, [FailedInfo who], u1)
  else
    let! i := of_option NullDeref info in
    match proc_self_stat current with
    | None => Ok (Some 1, [FailedStat who], u1)
    | Some pid_proc =>
        Ok (None,
            [if pid_proc =? info_pid i then PidMatches who pid_proc
             else PidMismatch who pid_proc (info_pid i)], u1)
    end.

(** The loop: the parent waits for each child, whose view pages stay
    allocated. *)
Fixpoint fork_loop (l : list Z) (u : uproc) : res (option Z * list report * uproc) :=
  match l with
  | [] => Ok (None, [], u)
  | i :: l' =>
      match fork i with
      | None => Ok (Some 1, [FailedFork], u)
      | Some child =>
          let w := u_window u in
          let! (r, c) := check_pid Child child (UProc (func_sym u) (fork_window child_mm area_index vtask w)) in
          let u1 := UProc (func_sym u) (Window (w_start w) (w_pages (u_window c)) (w_pt w)) in
          let! (r', u2) := fork_loop l' u1 in
          Ok (fst r', snd r ++ snd r', u2)
      end
  end.

(** main; [again] is the last comparison of test_vdso_all.cpp. *)
Definition test_vdso_main (again : bool) (current : ktask) (u : uproc) : res (Z * list report * uproc) :=
  let! (r1, u1) := check_pid Self current u in
  match fst r1 with
  | Some code => Ok (code, snd r1, u1)
  | None =>
      let! (r2, u2) := fork_loop (seqZ 0 num_forks) u1 in
      match fst r2 with
      | Some code => Ok (code, snd r1 ++ snd r2, u2)
      | None =>
          if again then
            let! (r3, u3) := check_pid Parent current u2 in
            Ok (default 0 (fst r3), snd r1 ++ snd r2 ++ snd r3, u3)
          else Ok (0, snd r1 ++ snd r2, u2)
      end
  end.

End Program.

(** ** What a child inherits *)

Lemma pte_decode_code e : pte_decode (pte_code e) = Some e.
Proof. unfold pte_decode, pte_code. simpl. apply decode_encode. Qed.

(** The area keeps what the window holds. *)
Lemma area_window_area vtask w :
  vm_start vtask = w_start w -> area_window (window_area vtask w) (w_pages w) = w.
Proof.
  intros Hs. destruct w as [start pages pt]. unfold area_window, window_area. cbn [v_start v_pages w_pt w_pages].
  cbn [w_start] in Hs. rewrite Hs. f_equal. apply map_eq. intros p. rewrite lookup_omap, lookup_fmap.
  destruct (pt !! p) as [e|]; [|done]. simpl. apply pte_decode_code.
Qed.

(** A child starts with an empty window. *)
Lemma fork_window_wiped `{World} mm i vtask w :
  VM_WIPEONFORK ∈ vm_flags vtask ->
  fork_window mm i vtask w = Window (vm_start vtask) (w_pages w) ∅.
Proof.
  intros Hf. unfold fork_window, inherited, area_window, window_area. cbn [v_flags].
  rewrite bool_decide_eq_true_2 by done. cbn [set_pages v_pages v_start dup_area].
  by rewrite omap_empty.
Qed.

(** ** What the programs rely on *)

(** The vDSO function answers a task that finds the window at [start] unmapped
    with the pid of the task, from a view page that holds [refs] references,
    and repeats the answer as long as that page stays. *)
Class InfoService (sizeof start : Z) (alloc_page : gset Z -> option Z) (refs : Z) (ready : ktask -> Prop)
  (vdso_info : ktask -> window -> res (Z * option task_info * window)) : Prop :=
  info_first : forall cur w page,
    window_fresh sizeof w -> w_start w = start -> ready cur -> alloc_page (dom (w_pages w)) = Some page ->
    let view := (refs, View (k_pa cur mod PAGE_SIZE) (k_pid cur)) in
    exists info pt,
      info_pid info = k_pid cur /\
      vdso_info cur w = Ok (0, Some info, Window start (<[page := view]> (w_pages w)) pt) /\
      forall pages, pages !! page = Some view ->
        vdso_info cur (Window start pages pt) = Ok (0, Some info, Window start pages pt).

Inductive version := Tree | Patched.

Section Services.
Context `{PtLaws}.
Variables (sizeof start : Z) (alloc_page : gset Z -> option Z).
(** Physical memory while a task runs. *)
Variable mem : ktask -> Z -> Z.
Variable offsetof_pid : Z.
Hypothesis Hsize : 0 < sizeof < 2 ^ 31.
Hypothesis Hins : forall pt a pfn d, fst (vmf_insert_pfn_prot pt a pfn d) = VM_FAULT_NOPAGE.

Definition ready (t : ktask) : Prop := pid_in_window sizeof (mem t) offsetof_pid t.

(** The vDSO function of the tree; vvar_page is the page above the window. *)
Definition tree_info (t : ktask) (w : window) : res (Z * option task_info * window) :=
  get_task_struct_info sizeof (vtask_fault sizeof alloc_page) (mem t) offsetof_pid t
    (start + VTASK_SIZE sizeof) false w.

(** That of the patch. *)
Definition patch_info (t : ktask) (w : window) : res (Z * option task_info * window) :=
  patch_get_task_struct_info sizeof (patch_vtask_fault sizeof alloc_page) (mem t)
    (start + VTASK_SIZE sizeof + 128) offsetof_pid t false w.

Definition info_of (v : version) := match v with Tree => tree_info | Patched => patch_info end.
Definition refs_of (v : version) : Z := match v with Tree => 2 | Patched => 1 end.

Lemma tree_service : VTASK_SIZE sizeof = VVAR_SIZE -> InfoService sizeof start alloc_page 2 ready tree_info.
Proof.
  intros Hvt cur w page Hf Hs Hr Hal view. unfold tree_info.
  destruct (window_info_first sizeof alloc_page 2 Hsize Hins _ (vtask_fault_handler _ _ Hsize) (mem cur)
    offsetof_pid cur w page Hf Hr Hal) as (pt & E & Hl). rewrite Hs in E, Hl.
  exists (TaskInfo (start + k_pa cur mod PAGE_SIZE + PAGE_SIZE) (k_pid cur)), pt. split; [|split]; [| |intros pages Hp]; rewrite ?get_task_struct_info_window by done;
    [reflexivity|exact E|by apply Hl].
Qed.

Lemma patch_service : InfoService sizeof start alloc_page 1 ready patch_info.
Proof.
  intros cur w page Hf Hs Hr Hal view. unfold patch_info.
  destruct (window_info_first sizeof alloc_page 1 Hsize Hins _ (patch_fault_handler _ _ Hsize) (mem cur)
    offsetof_pid cur w page Hf Hr Hal) as (pt & E & Hl). rewrite Hs in E, Hl.
  assert (Hk : start + k_pa cur mod PAGE_SIZE + PAGE_SIZE <> 0).
  { destruct Hf as (_ & Hw0 & _). rewrite Hs in Hw0. pose proof (Z.mod_pos_bound (k_pa cur) PAGE_SIZE ltac:(done)).
    unfold PAGE_SIZE in *. lia. }
  exists (TaskInfo (start + k_pa cur mod PAGE_SIZE + PAGE_SIZE) (k_pid cur)), pt. split; [|split]; [| |intros pages Hp]; try (eapply patch_info_window; [|exact Hk]);
    [reflexivity|exact E|by apply Hl].
Qed.

Lemma info_service v :
  (v = Tree -> VTASK_SIZE sizeof = VVAR_SIZE) ->
  InfoService sizeof start alloc_page (refs_of v) ready (info_of v).
Proof. destruct v; intros Hv; [by apply tree_service, Hv|apply patch_service]. Qed.

End Services.

(** ** The programs succeed *)

Section Run.
Context `{World}.
Context (sizeof start : Z) (alloc_page : gset Z -> option Z) (refs : Z) (ready : ktask -> Prop).
Context (vdso_info : ktask -> window -> res (Z * option task_info * window)).
Context `{!InfoService sizeof start alloc_page refs ready vdso_info}.
Context (proc : ktask -> Z) (child : Z -> ktask) (parent : ktask) (vtask : vm_area) (mm i : Z).

Definition verdict (who : speaker) (t : ktask) : report :=
  if proc t =? k_pid t then PidMatches who (proc t) else PidMismatch who (proc t) (k_pid t).

Hypothesis Halloc : forall s, exists p, alloc_page s = Some p /\ ~ (p ∈ s).
Hypothesis Hwipe : VM_WIPEONFORK ∈ vm_flags vtask.
Hypothesis Hstart : vm_start vtask = start /\ start mod PAGE_SIZE = 0 /\ 0 <= start.

Abbreviation check := (check_pid vdso_info true true (fun t => Some (proc t))).

Lemma check_pid_ok who t sym w info w' :
  vdso_info t w = Ok (0, Some info, w') -> info_pid info = k_pid t ->
  check who t (UProc sym w) = Ok (None, [verdict who t], UProc true w').
Proof.
  intros E Hp. unfold check_pid, test_get_task_struct_info. cbn [func_sym u_window].
  rewrite andb_false_r, E. cbn [res_bind]. change (nonzero 0) with false.
  cbn [of_option res_bind]. unfold verdict. by rewrite Hp.
Qed.

(** The first comparison of a process: one more view page. *)
Lemma check_pid_first who t sym w :
  window_fresh sizeof w -> w_start w = start -> ready t ->
  exists page view info pt, w_pages w !! page = None /\ fst view = refs /\
    check who t (UProc sym w) =
      Ok (None, [verdict who t], UProc true (Window start (<[page := view]> (w_pages w)) pt)) /\
    info_pid info = k_pid t /\
    forall pages, pages !! page = Some view ->
      vdso_info t (Window start pages pt) = Ok (0, Some info, Window start pages pt).
Proof.
  intros Hf Hs Hr. destruct (Halloc (dom (w_pages w))) as (page & Ha & Hn).
  destruct (info_first t w page Hf Hs Hr Ha) as (info & pt & Hp & E & Hl).
  eexists page, _, info, pt. split_and!; [by apply not_elem_of_dom| |by eapply check_pid_ok|done|exact Hl].
  reflexivity.
Qed.

Lemma fresh_empty pages : window_fresh sizeof (Window start pages ∅).
Proof. split_and!; try apply Hstart. intros n _ _. apply lookup_empty. Qed.

Abbreviation loop := (fork_loop vdso_info true true (fun t => Some (proc t)) (fun k => Some (child k)) vtask mm i).

(** Each child adds its own view page, and the ones that are there stay. *)
Lemma fork_loop_ok l pages pt :
  (forall k, k ∈ l -> ready (child k)) ->
  exists pages', loop l (UProc true (Window start pages pt)) =
      Ok (None, map (fun k => verdict Child (child k)) l, UProc true (Window start pages' pt)) /\
    pages ⊆ pages' /\ size pages' = (size pages + length l)%nat /\
    forall p v, pages' !! p = Some v -> pages !! p = None -> fst v = refs.
Proof.
  revert pages. induction l as [|k l IH]; intros pages Hr.
  - exists pages. split_and!; [done|done|simpl; lia|congruence].
  - cbn [fork_loop u_window func_sym w_start w_pt]. rewrite (fork_window_wiped mm i vtask _ Hwipe).
    destruct Hstart as (Hst & _). rewrite Hst. cbn [w_pages].
    destruct (check_pid_first Child (child k) true (Window start pages ∅)) as (p & v & _ & pt' & Hn & Hv & E & _).
    { apply fresh_empty. } { done. } { apply Hr. left. }
    rewrite E. cbn [res_bind w_pages u_window snd]. cbn [w_pages] in Hn.
    destruct (IH (<[p := v]> pages)) as (pages' & E' & Hsub & Hsz & Hrefs).
    { intros k' Hk. apply Hr. by right. }
    rewrite E'. exists pages'. split_and!; [done| | |].
    + etrans; [by apply (insert_subseteq _ p v)|done].
    + rewrite Hsz, map_size_insert_None by done. simpl. lia.
    + intros p' v' Hp' Hnew. destruct (decide (p' = p)) as [->|Hne].
      * assert (E2 : pages' !! p = Some v) by (eapply lookup_weaken; [apply lookup_insert_eq|exact Hsub]).
        congruence.
      * eapply Hrefs; [exact Hp'|]. by rewrite lookup_insert_ne.
Qed.

Lemma test_vdso_main_ok again w :
  window_fresh sizeof w -> w_start w = start -> ready parent ->
  (forall k, 0 <= k < num_forks -> ready (child k)) ->
  exists u', test_vdso_main vdso_info true true (fun t => Some (proc t)) (fun k => Some (child k)) vtask mm i
      again parent (UProc false w) =
    Ok (0, verdict Self parent :: map (fun k => verdict Child (child k)) (seqZ 0 num_forks) ++
             (if again then [verdict Parent parent] else []), u') /\
    size (w_pages (u_window u')) = (size (w_pages w) + 6)%nat /\
    forall p v, w_pages (u_window u') !! p = Some v -> w_pages w !! p = None -> fst v = refs.
Proof.
  intros Hf Hs Hr Hrc. unfold test_vdso_main.
  destruct (check_pid_first Self parent false w Hf Hs Hr) as (p & v & info & pt & Hn & Hv & E & Hp & Hl).
  rewrite E. cbn [res_bind fst snd].
  destruct (fork_loop_ok (seqZ 0 num_forks) (<[p := v]> (w_pages w)) pt) as (pages & E2 & Hsub & Hsz & Hrefs).
  { intros k Hk. apply elem_of_seqZ in Hk. apply Hrc. lia. }
  rewrite E2. cbn [res_bind fst snd]. rewrite map_size_insert_None in Hsz by done.
  assert (Hlk : pages !! p = Some v) by (eapply lookup_weaken; [apply lookup_insert_eq|exact Hsub]).
  assert (Hall : forall p' v', pages !! p' = Some v' -> w_pages w !! p' = None -> fst v' = refs).
  { intros p' v' Hp' Hnew. destruct (decide (p' = p)) as [->|Hne]; [congruence|].
    eapply Hrefs; [exact Hp'|]. by rewrite lookup_insert_ne. }
  assert (Hsize : size pages = (size (w_pages w) + 6)%nat) by (rewrite Hsz, length_seqZ; unfold num_forks; lia).
  destruct again.
  - rewrite (check_pid_ok Parent parent true _ info _ (Hl pages Hlk) Hp). cbn [res_bind fst snd default].
    eexists. split; [reflexivity|]. by cbn [u_window w_pages].
  - eexists. rewrite app_nil_r. split; [reflexivity|]. by cbn [u_window w_pages].
Qed.

End Run.

(** C25: the programs find the right pids.  On a window laid out by map_vdso,
    with the vDSO function of the tree for a window of four pages or that of
    the patch for any size, memory available, and the pid field of every task
    within its window, test_vdso.cpp and test_vdso_all.cpp return 0 and write
    one line for the parent, one for each of the five children and, the second
    program, one more for the parent.  Each line compares /proc/self/stat with
    the pid of the process that writes it, so it says that they match exactly
    when /proc shows the pid of the initial namespace: the children do not see
    the window of the parent, and the parent still sees its own afterwards.
    Each of the six processes leaves one view page behind, with two references
    in the tree and one in the patch. *)
Theorem test_vdso_matches `{World} `{PtLaws} v sizeof alloc_page mem offsetof_pid image vtask vvar text
  proc child parent mm i pages again :
  0 < sizeof < 2 ^ 31 -> (v = Tree -> VTASK_SIZE sizeof = VVAR_SIZE) ->
  (forall pt a pfn d, fst (vmf_insert_pfn_prot pt a pfn d) = VM_FAULT_NOPAGE) ->
  (forall s, exists p, alloc_page s = Some p /\ ~ (p ∈ s)) ->
  vdso_layout sizeof (vm_start vtask) image vtask vvar text ->
  ready sizeof mem offsetof_pid parent ->
  (forall k, 0 <= k < num_forks -> ready sizeof mem offsetof_pid (child k)) ->
  exists u', test_vdso_main (info_of sizeof (vm_start vtask) alloc_page mem offsetof_pid v) true true
      (fun t => Some (proc t)) (fun k => Some (child k)) vtask mm i again parent
      (UProc false (Window (vm_start vtask) pages ∅)) =
    Ok (0, verdict proc Self parent :: map (fun k => verdict proc Child (child k)) (seqZ 0 num_forks) ++
             (if again then [verdict proc Parent parent] else []), u') /\
    size (w_pages (u_window u')) = (size pages + 6)%nat /\
    forall p view, w_pages (u_window u') !! p = Some view -> pages !! p = None -> fst view = refs_of v.
Proof.
  intros Hsz Hv Hins Hal [[Hb Hb0] _ _ _ _ _ Hwipe _] Hp Hc.
  pose proof (info_service sizeof (vm_start vtask) alloc_page mem offsetof_pid Hsz Hins v Hv) as Hsv.
  eapply (test_vdso_main_ok sizeof (vm_start vtask) alloc_page (refs_of v) (ready sizeof mem offsetof_pid)); try done.
Qed.

(** ** A run *)

Definition demo_parent : ktask := KTask 1000 42.
Definition demo_child (k : Z) : ktask := KTask (40960 * (k + 1) + 500) (43 + k).
Definition demo_vtask : vm_area :=
  Vma 65536 (65536 + VTASK_SIZE 9792) [VM_READ; VM_MAYREAD; VM_DONTDUMP; VM_IO; VM_PFNMAP; VM_WIPEONFORK]
    (Some vtask_mapping).
Definition demo_vvar_area : vm_area :=
  Vma (vm_end demo_vtask) (vm_end demo_vtask - sym_vvar_start demo_image) [] (Some vvar_mapping).
Definition demo_text : vm_area :=
  Vma (vm_end demo_vvar_area) (vm_end demo_vvar_area + img_size demo_image) [] (Some vdso_mapping).

Lemma test_vdso_matches_witness :
  exists u', test_vdso_main (H := ForkDemo.demo_world true "")
      (info_of (H := simple_pt) 9792 65536 (fun s => Some (fresh s)) (fun t _ => k_pid t) 2400 Tree) true true
      (fun t => Some (k_pid t)) (fun k => Some (demo_child k)) demo_vtask 7 0 true demo_parent
      (UProc false (Window 65536 ∅ ∅)) =
    Ok (0, PidMatches Self 42 :: map (PidMatches Child) [43; 44; 45; 46; 47] ++ [PidMatches Parent 42], u').
Proof.
  destruct (@test_vdso_matches (ForkDemo.demo_world true "") simple_pt simple_pt_laws Tree 9792
    (fun s => Some (fresh s)) (fun t _ => k_pid t) 2400 demo_image demo_vtask demo_vvar_area demo_text
    k_pid demo_child demo_parent 7 0 ∅ true) as (u' & E & _).
  - lia.
  - reflexivity.
  - reflexivity.
  - intros s. exists (fresh s). split; [reflexivity|apply is_fresh].
  - split; try (vm_compute; intuition congruence); vm_compute; set_solver.
  - split_and!; [discriminate|lia|reflexivity|reflexivity].
  - intros k Hk. split_and!; [cbn [demo_child k_pa]; lia|lia| |reflexivity].
    cbn [demo_child k_pa]. unfold PAGE_SIZE. change (VTASK_SIZE 9792) with 16384. zmod_lia.
  - exists u'. exact E.
Defined.
