(* ===== verification/Acpi.v ===== *)
(** * The ACPI tool for UEFI (HelloWorldPkg/HelloWorld.c)

    Finding, printing and changing ACPI tables in the memory of the firmware.
    Memory is a map from addresses to bytes; what Print writes is a list of
    formats with their arguments. *)

From S2P Require Import Prelude.

Definition mem : Type := Z -> Z.

(** Unsigned little-endian values. *)
Fixpoint le (n : nat) (m : mem) (a : Z) : Z :=
  match n with
  | O => 0
  | S n' => m a + 256 * le n' m (a + 1)
  end.

Definition rd16 : mem -> Z -> Z := le 2.
Definition rd32 : mem -> Z -> Z := le 4.
Definition rd64 : mem -> Z -> Z := le 8.

(** The sum of [n] bytes. *)
Fixpoint sum_bytes (m : mem) (a : Z) (n : nat) : Z :=
  match n with
  | O => 0
  | S n' => m a + sum_bytes m (a + 1) n'
  end.

Definition set_byte (a v : Z) (m : mem) : mem := fun b => if b =? a then v else m b.

(** Print with a format and its arguments. *)
Definition event : Type := string * list Z.

(** The libraries of EDK2. *)
Class Edk2 := {
  CopyMem : Z -> Z -> Z -> mem -> mem;
  CalculateCheckSum8 : mem -> Z -> Z -> Z;
  CompareGuid : mem -> Z -> list Z -> bool;
  AllocatePool : Z -> mem -> Z;   (** the buffer, or NULL *)
}.

(** CopyMem copies as if through a buffer; CalculateCheckSum8 is the two's
    complement of the sum of the bytes; CompareGuid compares 16 bytes. *)
Record edk2_ok `{Edk2} : Prop := {
  eo_copy : forall dst src n m a,
    CopyMem dst src n m a = if (dst <=? a) && (a <? dst + n) then m (src + (a - dst)) else m a;
  eo_sum : forall m a n, CalculateCheckSum8 m a n = (- sum_bytes m a (Z.to_nat n)) mod 256;
  eo_guid : forall m a g, CompareGuid m a g = true <-> map (fun i => m (a + i)) (seqZ 0 16) = g;
}.

(** ** Structures *)

(** EFI_ACPI_DESCRIPTION_HEADER, 36 bytes *)
Definition sizeof_header : Z := 36.
Definition h_Signature (m : mem) (h : Z) : Z := rd32 m h.
Definition h_Length (m : mem) (h : Z) : Z := rd32 m (h + 4).
Definition h_Revision (m : mem) (h : Z) : Z := m (h + 8).
Definition h_Checksum (m : mem) (h : Z) : Z := m (h + 9).
Definition h_OemId (m : mem) (h i : Z) : Z := m (h + 10 + i).
Definition h_OemTableId (m : mem) (h : Z) : Z := rd64 m (h + 16).
Definition h_OemRevision (m : mem) (h : Z) : Z := rd32 m (h + 24).
Definition h_CreatorId (m : mem) (h : Z) : Z := rd32 m (h + 28).
Definition h_CreatorRevision (m : mem) (h : Z) : Z := rd32 m (h + 32).

(** The root system description pointer *)
Definition r_Signature (m : mem) (r : Z) : Z := rd64 m r.
Definition r_Checksum (m : mem) (r : Z) : Z := m (r + 8).
Definition r_OemId (m : mem) (r i : Z) : Z := m (r + 9 + i).
Definition r_RsdtAddress (m : mem) (r : Z) : Z := rd32 m (r + 16).
Definition r_Length (m : mem) (r : Z) : Z := rd32 m (r + 20).
Definition r_XsdtAddress (m : mem) (r : Z) : Z := rd64 m (r + 24).

(** The fixed description table: two pointers to further tables *)
Definition f_FirmwareCtrl (m : mem) (f : Z) : Z := rd32 m (f + 36).
Definition f_Dsdt (m : mem) (f : Z) : Z := rd32 m (f + 40).

Definition SIGNATURE_32 (a b c d : Z) : Z := a + 256 * b + 65536 * c + 16777216 * d.
Definition FACP_SIGNATURE : Z := SIGNATURE_32 70 65 67 80.
Definition APIC_SIGNATURE : Z := SIGNATURE_32 65 80 73 67.

Definition gEfiAcpiTableGuid : list Z :=
  [48; 45; 157; 235; 136; 45; 211; 17; 154; 22; 0; 144; 39; 63; 193; 77].
Definition gEfiAcpi20TableGuid : list Z :=
  [113; 232; 104; 136; 241; 228; 211; 17; 188; 34; 0; 128; 199; 60; 136; 129].

(** TS: a signature from four characters, which are signed. *)
Definition TS (Signature : list Z) : Z :=
  foldl (fun Result i => u32 (Z.lor Result (Z.shiftl (u32 (swrap 8 (default 0 (Signature !! i)))) (Z.of_nat i * 8))))
    0 (seq 0 4).

(** ** Printing *)

Definition PrintGuid (m : mem) (Guid : Z) : list event :=
  [("%08x-%04x-%04x-%02x%02x-%02x%02x%02x%02x%02x%02x\n",
    [rd32 m Guid; rd16 m (Guid + 4); rd16 m (Guid + 6)] ++ map (fun i => m (Guid + 8 + i)) (seqZ 0 8))].

Definition byte_of (x i : Z) : Z := Z.land (Z.shiftr x (i * 8)) 255.

(** Print("%c", ...) in a loop *)
Definition PrintChars (l : list Z) : list event := map (fun c => ("%c", [c])) l.

Definition PrintAcpiHeader (m : mem) (Header : Z) : list event :=
  [("---------- %c%c%c%c HEADER ----------\n", map (byte_of (h_Signature m Header)) (seqZ 0 4));
   ("Address      : 0x%p\n", [Header]);
   ("Length       : %d\n", [h_Length m Header]);
   ("Revision     : %d\n", [h_Revision m Header]);
   ("Checksum     : %x\n", [h_Checksum m Header]);
   ("OEM ID       : ", [])] ++
  PrintChars (map (h_OemId m Header) (seqZ 0 6)) ++
  [("\n", []);
   ("OEM Table ID : %d\n", [h_OemTableId m Header]);
   ("OEM Revision : %d\n", [h_OemRevision m Header]);
   ("Creator ID   : %d\n", [h_CreatorId m Header]);
   ("Creator Rev  : %d\n", [h_CreatorRevision m Header]);
   ("\n", [])].

Definition print_rsdp (m : mem) (Root : Z) : list event :=
  [("---------- RSDP TABLE ----------\n", []);
   ("Address      : 0x%p\n", [Root]);
   ("Length       : %d\n", [r_Length m Root]);
   ("Signature    : ", [])] ++
  PrintChars (map (byte_of (r_Signature m Root)) (seqZ 0 8)) ++
  [("\n", []); ("OEM ID       : ", [])] ++
  PrintChars (map (r_OemId m Root) (seqZ 0 6)) ++
  [("\n", []);
   ("Checksum     : %d\n", [r_Checksum m Root]);
   ("RSDT address : 0x%p\n", [r_RsdtAddress m Root]);
   ("XSDT address : 0x%p\n", [r_XsdtAddress m Root]);
   ("\n", [])].

Definition print_xsdt (m : mem) (XSDT : Z) : list event :=
  [("---------- XSDT TABLE ----------\n", []);
   ("Address      : 0x%p\n", [XSDT]);
   ("Length       : %d\n", [h_Length m XSDT]);
   ("Signature    : ", [])] ++
  PrintChars (map (byte_of (h_Signature m XSDT)) (seqZ 0 4)) ++
  [("\n", []); ("OEM ID       : ", [])] ++
  PrintChars (map (h_OemId m XSDT) (seqZ 0 6)) ++
  [("\n", []); ("Checksum     : %d\n", [h_Checksum m XSDT]); ("\n", [])].

(** N: the number of entries, computed in unsigned 64-bit arithmetic. *)
Definition xsdt_entries (m : mem) (XSDT : Z) : Z := u64 (h_Length m XSDT - sizeof_header) / 8.

(** One entry: its header and, for the FADT, those of its sub-tables. *)
Definition print_entry (m : mem) (Entry : Z) : list event :=
  if Entry =? 0 then []
  else
    PrintAcpiHeader m Entry ++
    if h_Signature m Entry =? FACP_SIGNATURE then
      (if nonzero (f_Dsdt m Entry) then PrintAcpiHeader m (f_Dsdt m Entry) else []) ++
      (if nonzero (f_FirmwareCtrl m Entry) then PrintAcpiHeader m (f_FirmwareCtrl m Entry) else [])
    else [].

(** The loop over [EntryPtr]. *)
Fixpoint print_entries (m : mem) (EntryPtr : Z) (n : nat) : list event :=
  match n with
  | O => []
  | S n' => print_entry m (rd64 m EntryPtr) ++ print_entries m (EntryPtr + 8) n'
  end.

Section Tables.
Context `{Edk2}.

(** The system table: gST->ConfigurationTable and NumberOfTableEntries. *)
Variables (ConfigurationTable : Z) (NumberOfTableEntries : nat).

Definition is_acpi (m : mem) (configTab : Z) : bool :=
  CompareGuid m configTab gEfiAcpiTableGuid || CompareGuid m configTab gEfiAcpi20TableGuid.

Definition VendorTable (m : mem) (configTab : Z) : Z := rd64 m (configTab + 16).

Fixpoint print_config (m : mem) (configTab : Z) (n : nat) : list event :=
  match n with
  | O => []
  | S n' =>
      (if is_acpi m configTab then
         let Root := VendorTable m configTab in
         let XSDT := r_XsdtAddress m Root in
         [("Found ACPI table\n", []); ("Address : 0x%p\n\n", [configTab])] ++
         print_rsdp m Root ++ print_xsdt m XSDT ++
         print_entries m (XSDT + sizeof_header) (Z.to_nat (xsdt_entries m XSDT))
       else []) ++
      print_config m (configTab + 24) n'
  end.

Definition PrintAllACPITables (m : mem) : list event :=
  ("Print ACPI\n", []) :: print_config m ConfigurationTable NumberOfTableEntries.

(** ** Finding a table *)

(** One entry of the XSDT; 0 to go on. *)
Definition get_entry (m : mem) (Signature Entry : Z) : Z :=
  if Entry =? 0 then 0
  else if h_Signature m Entry =? Signature then Entry
  else if h_Signature m Entry =? FACP_SIGNATURE then
    if nonzero (f_Dsdt m Entry) && (h_Signature m (f_Dsdt m Entry) =? Signature) then f_Dsdt m Entry
    else if nonzero (f_FirmwareCtrl m Entry) && (h_Signature m (f_FirmwareCtrl m Entry) =? Signature)
    then f_FirmwareCtrl m Entry
    else 0
  else 0.

Fixpoint get_entries (m : mem) (Signature EntryPtr : Z) (n : nat) : Z :=
  match n with
  | O => 0
  | S n' =>
      let r := get_entry m Signature (rd64 m EntryPtr) in
      if nonzero r then r else get_entries m Signature (EntryPtr + 8) n'
  end.

Fixpoint get_config (m : mem) (Signature configTab : Z) (n : nat) : Z :=
  match n with
  | O => 0
  | S n' =>
      let r :=
        if is_acpi m configTab then
          let XSDT := r_XsdtAddress m (VendorTable m configTab) in
          get_entries m Signature (XSDT + sizeof_header) (Z.to_nat (xsdt_entries m XSDT))
        else 0 in
      if nonzero r then r else get_config m Signature (configTab + 24) n'
  end.

Definition GetACPITable (m : mem) (Signature : Z) : Z :=
  get_config m Signature ConfigurationTable NumberOfTableEntries.

(** ** Changing a table *)

Definition ModifyACPITable (entry NewTable : Z) (m : mem) : mem :=
  let m1 := CopyMem entry NewTable (h_Length m NewTable) m in
  let m2 := set_byte (entry + 9) 0 m1 in
  set_byte (entry + 9) (CalculateCheckSum8 m2 entry (h_Length m2 entry)) m2.

Definition ChangeACPITable (Signature NewTable : Z) (m : mem) : mem :=
  let entry := GetACPITable m Signature in
  if nonzero entry then ModifyACPITable entry NewTable m else m.

(** NewTable->OemId[i] = 'A' + i *)
Definition new_oem_id (NewTable : Z) (m : mem) : mem :=
  foldl (fun m i => set_byte (NewTable + 10 + i) (65 + i) m) m (seqZ 0 6).

Definition UefiMain (m : mem) : mem * list event :=
  let out := PrintAllACPITables m in
  let entry := GetACPITable m APIC_SIGNATURE in
  if nonzero entry then
    let NewTable := AllocatePool (h_Length m entry) m in
    let m1 := new_oem_id NewTable (CopyMem NewTable entry (h_Length m entry) m) in
    let m2 := ModifyACPITable entry NewTable m1 in
    (m2, out ++ [("Found ACPI table\n", [])] ++ PrintAcpiHeader m entry ++
         [("Modified ACPI table\n", [])] ++ PrintAcpiHeader m2 entry)
  else (m, out).

End Tables.

(** ** Which tables there are *)

(** The tables an entry of the XSDT leads to. *)
Definition entry_tables (m : mem) (Entry : Z) : list Z :=
  if Entry =? 0 then []
  else Entry :: (if h_Signature m Entry =? FACP_SIGNATURE
                 then filter (fun t => t <> 0) [f_Dsdt m Entry; f_FirmwareCtrl m Entry] else []).

Fixpoint xsdt_tables (m : mem) (EntryPtr : Z) (n : nat) : list Z :=
  match n with O => [] | S n' => entry_tables m (rd64 m EntryPtr) ++ xsdt_tables m (EntryPtr + 8) n' end.

Section Spec.
Context `{Edk2}.

Fixpoint all_tables (m : mem) (configTab : Z) (n : nat) : list Z :=
  match n with
  | O => []
  | S n' =>
      (if is_acpi m configTab then
         let XSDT := r_XsdtAddress m (VendorTable m configTab) in
         xsdt_tables m (XSDT + sizeof_header) (Z.to_nat (xsdt_entries m XSDT))
       else []) ++ all_tables m (configTab + 24) n'
  end.

(** The first table with a signature, or NULL. *)
Definition first_with (m : mem) (Signature : Z) (l : list Z) : Z :=
  default 0 (head (filter (fun t => h_Signature m t = Signature) l)).

Lemma first_with_app m sig l1 l2 :
  Forall (fun t => t <> 0) l1 ->
  first_with m sig (l1 ++ l2) = if nonzero (first_with m sig l1) then first_with m sig l1 else first_with m sig l2.
Proof.
  intros Hnz. unfold first_with. rewrite filter_app.
  destruct (filter _ l1) as [|t ts] eqn:Ef; cbn; [done|].
  assert (Ht : t ∈ l1) by (eapply list_elem_of_filter; rewrite Ef; left).
  rewrite Forall_forall in Hnz. by rewrite (proj2 (nonzero_true t) (Hnz t Ht)).
Qed.

Lemma entry_tables_nonnull m e : Forall (fun t => t <> 0) (entry_tables m e).
Proof.
  unfold entry_tables. destruct (Z.eqb_spec e 0); constructor; [done|].
  destruct (_ =? _); [|constructor]. apply Forall_forall. intros t Ht. by apply list_elem_of_filter in Ht as [? _].
Qed.

Lemma get_entry_first m sig e : get_entry m sig e = first_with m sig (entry_tables m e).
Proof.
  unfold get_entry, entry_tables. destruct (Z.eqb_spec e 0) as [|He]; [done|].
  unfold first_with. rewrite filter_cons. destruct (Z.eqb_spec (h_Signature m e) sig) as [Es|Es].
  { by rewrite decide_True. }
  rewrite decide_False by done. destruct (h_Signature m e =? FACP_SIGNATURE); [|done].
  rewrite !filter_cons, filter_nil. unfold nonzero.
  destruct (Z.eqb_spec (f_Dsdt m e) 0) as [Ed|Ed], (Z.eqb_spec (f_FirmwareCtrl m e) 0) as [Ef|Ef]; cbn [negb andb];
    repeat case_decide; try done; rewrite ?filter_cons, ?filter_nil;
    repeat match goal with |- context [?a =? sig] => destruct (Z.eqb_spec a sig) end;
    repeat case_decide; done.
Qed.

Lemma get_entries_first m sig p n : get_entries m sig p n = first_with m sig (xsdt_tables m p n).
Proof.
  revert p. induction n as [|n IH]; intros p; cbn [get_entries xsdt_tables]; [done|].
  rewrite first_with_app by apply entry_tables_nonnull. by rewrite get_entry_first, IH.
Qed.

Lemma xsdt_tables_nonnull m p n : Forall (fun t => t <> 0) (xsdt_tables m p n).
Proof.
  revert p. induction n as [|n IH]; intros p; cbn; [constructor|]. apply Forall_app. split; [apply entry_tables_nonnull|apply IH].
Qed.

Lemma get_config_first m sig c n : get_config m sig c n = first_with m sig (all_tables m c n).
Proof.
  revert c. induction n as [|n IH]; intros c; cbn [get_config all_tables]; [done|].
  destruct (is_acpi m c); cbv zeta.
  - rewrite first_with_app by apply xsdt_tables_nonnull. by rewrite get_entries_first, IH.
  - cbn. apply IH.
Qed.

Lemma all_tables_nonnull m c n : Forall (fun t => t <> 0) (all_tables m c n).
Proof.
  revert c. induction n as [|n IH]; intros c; cbn; [constructor|]. apply Forall_app. split; [|apply IH].
  destruct (is_acpi m c); [apply xsdt_tables_nonnull|constructor].
Qed.

(** The headers that are printed are those of the tables. *)
Lemma print_entry_tables m e : print_entry m e = flat_map (PrintAcpiHeader m) (entry_tables m e).
Proof.
  unfold print_entry, entry_tables. destruct (e =? 0); [done|]. cbn [flat_map]. f_equal.
  destruct (h_Signature m e =? FACP_SIGNATURE); [|done]. rewrite !filter_cons, filter_nil. unfold nonzero.
  destruct (Z.eqb_spec (f_Dsdt m e) 0) as [Ed|Ed], (Z.eqb_spec (f_FirmwareCtrl m e) 0) as [Ef|Ef]; cbn [negb];
    repeat case_decide; try done; cbn [flat_map]; by rewrite ?app_nil_r.
Qed.

Lemma print_entries_tables m p n : print_entries m p n = flat_map (PrintAcpiHeader m) (xsdt_tables m p n).
Proof.
  revert p. induction n as [|n IH]; intros p; cbn [print_entries xsdt_tables]; [done|].
  by rewrite flat_map_app, print_entry_tables, IH.
Qed.

Lemma print_config_tables m c n t : t ∈ all_tables m c n -> PrintAcpiHeader m t ⊆ print_config m c n.
Proof.
  revert c. induction n as [|n IH]; intros c; cbn [all_tables print_config]; [by intros ?%elem_of_nil|].
  rewrite elem_of_app. destruct (is_acpi m c); cbv zeta.
  - rewrite print_entries_tables. intros [Ht|Ht] e He; rewrite !elem_of_app; [|right; by apply (IH _ Ht)].
    left. right. right. right. apply list_elem_of_In, in_flat_map. exists t. by rewrite <- !list_elem_of_In.
  - intros [Ht|Ht] e He; [by apply elem_of_nil in Ht|]. rewrite elem_of_app. right. by apply (IH _ Ht).
Qed.

End Spec.

(** GetACPITable returns the first table with the signature among those
    the ACPI entries of the system table lead to (the entries of the XSDT and
    the two sub-tables of the FADT), and NULL only if there is none; whatever
    it returns, PrintAllACPITables has printed its header. *)
Theorem GetACPITable_first `{Edk2} table n m sig :
  let r := GetACPITable table n m sig in
  (r <> 0 -> r ∈ all_tables m table n /\ h_Signature m r = sig /\
     PrintAcpiHeader m r ⊆ PrintAllACPITables table n m) /\
  (r = 0 -> forall t, t ∈ all_tables m table n -> h_Signature m t <> sig).
Proof.
  cbv zeta. unfold GetACPITable. rewrite get_config_first. unfold first_with.
  pose proof (all_tables_nonnull m table n) as Hnz. rewrite Forall_forall in Hnz.
  destruct (filter _ _) as [|t ts] eqn:Ef; cbn; split; intros Hr; try done.
  - intros t Ht Hs. assert (Hin : t ∈ filter (fun t => h_Signature m t = sig) (all_tables m table n))
      by by apply list_elem_of_filter. rewrite Ef in Hin. by apply elem_of_nil in Hin.
  - assert (Hin : t ∈ filter (fun t => h_Signature m t = sig) (all_tables m table n)) by (rewrite Ef; left).
    apply list_elem_of_filter in Hin as [Hs Hin]. split_and!; [done|done|].
    intros e He. unfold PrintAllACPITables. right. by apply (print_config_tables _ _ _ t).
  - exfalso. apply (Hnz t); [|done]. eapply list_elem_of_filter. rewrite Ef. left.
Qed.

(** ** What a change leaves *)

Lemma sum_bytes_set m a n k v :
  (0 <= k < Z.of_nat n) -> sum_bytes (set_byte (a + k) v m) a n = sum_bytes m a n - m (a + k) + v.
Proof.
  assert (Hout : forall n' b, a + k < b -> sum_bytes (set_byte (a + k) v m) b n' = sum_bytes m b n').
  { induction n' as [|n' IH]; intros b Hb; cbn; [done|]. rewrite IH by lia. unfold set_byte at 1.
    by rewrite (proj2 (Z.eqb_neq b (a + k))) by lia. }
  revert a k Hout. induction n as [|n IH]; intros a k Hout Hk; [lia|]. cbn [sum_bytes]. unfold set_byte at 1.
  destruct (Z.eqb_spec a (a + k)) as [Ea|Ea].
  - rewrite Hout by lia. replace (a + k) with a by lia. lia.
  - replace (a + k) with (a + 1 + (k - 1)) in * by lia. rewrite IH; [lia| |lia]. intros n' b Hb. apply Hout. lia.
Qed.

Lemma le_shift n m m' a b : (forall i, 0 <= i < Z.of_nat n -> m (a + i) = m' (b + i)) -> le n m a = le n m' b.
Proof.
  revert a b. induction n as [|n IH]; intros a b Hm; cbn [le]; [done|].
  pose proof (Hm 0 ltac:(lia)) as H0. rewrite !Z.add_0_r in H0. rewrite H0.
  rewrite (IH (a + 1) (b + 1)); [done|]. intros i Hi. replace (a + 1 + i) with (a + (i + 1)) by lia.
  rewrite Hm by lia. f_equal. lia.
Qed.

Section Change.
Context `{Edk2}.
Hypothesis He : edk2_ok.

(** A table whose bytes add up to zero, as firmware and kernels check. *)
Definition checksum_ok (m : mem) (t : Z) : Prop := sum_bytes m t (Z.to_nat (h_Length m t)) mod 256 = 0.

Lemma copied dst src n m i : 0 <= i < n -> CopyMem dst src n m (dst + i) = m (src + i).
Proof.
  intros Hi. rewrite (eo_copy He), (proj2 (Z.leb_le dst _)), (proj2 (Z.ltb_lt _ _)) by lia. cbn. f_equal. lia.
Qed.

Lemma not_copied dst src n m a : ~ (dst <= a < dst + n) -> CopyMem dst src n m a = m a.
Proof.
  intros Ha. rewrite (eo_copy He). destruct (Z.leb_spec dst a), (Z.ltb_spec a (dst + n)); cbn; try done. lia.
Qed.

Lemma set_byte_ne a v m b : b <> a -> set_byte a v m b = m b.
Proof. intros Hb. unfold set_byte. by rewrite (proj2 (Z.eqb_neq b a)). Qed.

Lemma modify_bytes entry new m :
  let L := h_Length m new in
  let m' := ModifyACPITable entry new m in
  10 <= L ->
  (forall i, 0 <= i < L -> i <> 9 -> m' (entry + i) = m (new + i)) /\
  (forall a, ~ (entry <= a < entry + L) -> m' a = m a) /\ h_Length m' entry = L /\ checksum_ok m' entry.
Proof.
  intros L m' HL. unfold m', ModifyACPITable. fold L. set (m2 := set_byte (entry + 9) 0 _).
  assert (H2 : forall i, 0 <= i < L -> i <> 9 -> m2 (entry + i) = m (new + i)).
  { intros i Hi Hn. unfold m2. rewrite set_byte_ne by lia. by apply copied. }
  assert (HL2 : forall v, h_Length (set_byte (entry + 9) v m2) entry = L).
  { intros v. unfold h_Length, L, h_Length. apply le_shift. intros i Hi. cbn in Hi. rewrite set_byte_ne by lia.
    replace (entry + 4 + i) with (entry + (4 + i)) by lia. rewrite H2 by lia. f_equal. lia. }
  assert (HL0 : h_Length m2 entry = L).
  { rewrite <- (HL2 0). unfold h_Length. apply le_shift. intros i Hi. cbn in Hi. by rewrite set_byte_ne by lia. }
  rewrite HL0. split_and!.
  - intros i Hi Hn. rewrite set_byte_ne by lia. by apply H2.
  - intros a Ha. rewrite set_byte_ne by lia. unfold m2. rewrite set_byte_ne by lia. by apply not_copied.
  - apply HL2.
  - unfold checksum_ok. rewrite HL2, sum_bytes_set by lia. rewrite (eo_sum He).
    replace (m2 (entry + 9)) with 0 by (unfold m2, set_byte; by rewrite Z.eqb_refl).
    rewrite Z.sub_0_r, Z.add_mod_idemp_r by lia. by rewrite Z.add_opp_diag_r.
Qed.

Lemma new_oem_bytes p m i :
  new_oem_id p m (p + i) = if (10 <=? i) && (i <? 16) then 65 + (i - 10) else m (p + i).
Proof.
  unfold new_oem_id. change (seqZ 0 6) with [0; 1; 2; 3; 4; 5]. cbn [foldl]. unfold set_byte.
  repeat match goal with |- context [p + i =? ?x] => destruct (Z.eqb_spec (p + i) x) end;
    destruct (Z.leb_spec 10 i), (Z.ltb_spec i 16); cbn; first [done | lia].
Qed.

Lemma new_oem_outside p m a : ~ (p + 10 <= a < p + 16) -> new_oem_id p m a = m a.
Proof.
  intros Ha. replace a with (p + (a - p)) by lia. rewrite new_oem_bytes.
  destruct (Z.leb_spec 10 (a - p)), (Z.ltb_spec (a - p) 16); cbn; try done. lia.
Qed.

(** The buffer UefiMain fills. *)
Lemma buffer_bytes p entry m :
  let L := h_Length m entry in
  let m1 := new_oem_id p (CopyMem p entry L m) in
  16 <= L ->
  (forall i, 0 <= i < L -> m1 (p + i) = if (10 <=? i) && (i <? 16) then 65 + (i - 10) else m (entry + i)) /\
  (forall a, ~ (p <= a < p + L) -> m1 a = m a) /\ h_Length m1 p = L.
Proof.
  intros L m1 HL.
  assert (H1 : forall i, 0 <= i < L -> m1 (p + i) = if (10 <=? i) && (i <? 16) then 65 + (i - 10) else m (entry + i)).
  { intros i Hi. unfold m1. rewrite new_oem_bytes, copied by lia. done. }
  split_and!; [done| |].
  - intros a Ha. unfold m1. rewrite new_oem_outside by lia. by apply not_copied.
  - unfold h_Length. apply le_shift. intros i Hi. cbn in Hi. replace (p + 4 + i) with (p + (4 + i)) by lia.
    rewrite H1 by lia. rewrite (proj2 (Z.leb_gt 10 (4 + i))) by lia. cbn. f_equal. lia.
Qed.

End Change.

(** C37: UefiMain gives the first APIC table the OEM id ABCDEF and a valid
    checksum; no other byte of the table changes, and no other memory but the
    buffer it allocates. *)
Theorem UefiMain_modifies `{Edk2} table n m :
  edk2_ok ->
  let entry := GetACPITable table n m APIC_SIGNATURE in
  let L := h_Length m entry in
  let p := AllocatePool L m in
  let m' := fst (UefiMain table n m) in
  entry <> 0 -> 16 <= L ->
  (forall i, 0 <= i < 6 -> h_OemId m' entry i = 65 + i) /\ checksum_ok m' entry /\
  (forall i, 0 <= i < L -> i <> 9 -> ~ (10 <= i < 16) -> m' (entry + i) = m (entry + i)) /\
  (forall a, ~ (entry <= a < entry + L) -> ~ (p <= a < p + L) -> m' a = m a).
Proof.
  intros He entry L p m' Hn HL. unfold m', UefiMain. fold entry L p. rewrite (proj2 (nonzero_true entry) Hn). cbn [fst].
  destruct (buffer_bytes He p entry m HL) as (Hb & Hout & Hlen). fold L in Hb, Hout, Hlen.
  destruct (modify_bytes He entry p (new_oem_id p (CopyMem p entry L m))) as (Ht & Ho & _ & Hc); [lia|].
  rewrite Hlen in Ht, Ho. split_and!; [|done| |].
  - intros i Hi. unfold h_OemId. rewrite <- Z.add_assoc, Ht, Hb by lia.
    rewrite (proj2 (Z.leb_le 10 (10 + i))), (proj2 (Z.ltb_lt (10 + i) 16)) by lia. cbn. lia.
  - intros i Hi Hi9 Hoem. rewrite Ht, Hb by lia. destruct (Z.leb_spec 10 i), (Z.ltb_spec i 16); cbn; try done. lia.
  - intros a Ha Hp. rewrite Ho, Hout by done. done.
Qed.

(** UefiMain does not look at the result of AllocatePool: without memory
    it builds the new table over the first bytes of memory. *)
Theorem UefiMain_null_pool `{Edk2} table n m a :
  edk2_ok ->
  let entry := GetACPITable table n m APIC_SIGNATURE in
  let L := h_Length m entry in
  AllocatePool L m = 0 -> entry <> 0 -> 16 <= L -> 0 <= a < L -> a < entry ->
  fst (UefiMain table n m) a = if (10 <=? a) && (a <? 16) then 65 + (a - 10) else m (entry + a).
Proof.
  intros He entry L Hp Hn HL Ha Hlow. unfold UefiMain. fold entry L. rewrite (proj2 (nonzero_true entry) Hn), Hp. cbn [fst].
  destruct (buffer_bytes He 0 entry m HL) as (Hb & _ & Hlen). fold L in Hb, Hlen.
  destruct (modify_bytes He entry 0 (new_oem_id 0 (CopyMem 0 entry L m))) as (_ & Ho & _ & _); [lia|].
  rewrite Ho by lia. apply (Hb a). lia.
Qed.

(** ** A firmware image *)

Definition copy_mem (dst src n : Z) (m : mem) : mem :=
  fun a => if (dst <=? a) && (a <? dst + n) then m (src + (a - dst)) else m a.

(** EDK2 with the buffers of AllocatePool at [pool]. *)
Definition demo_edk2 (pool : Z) : Edk2 := {|
  CopyMem := copy_mem;
  CalculateCheckSum8 := fun m a n => (- sum_bytes m a (Z.to_nat n)) mod 256;
  CompareGuid := fun m a g => bool_decide (map (fun i => m (a + i)) (seqZ 0 16) = g);
  AllocatePool := fun _ _ => pool;
|}.

Lemma demo_edk2_ok pool : edk2_ok (H := demo_edk2 pool).
Proof. split; [done|done|]. intros m a g. apply bool_decide_eq_true. Qed.

Definition demo_bytes : list (Z * list Z) :=
  [(1000, gEfiAcpi20TableGuid ++ [208; 7; 0; 0; 0; 0; 0; 0]);           (* configuration table: RSDP at 2000 *)
   (2024, [184; 11; 0; 0; 0; 0; 0; 0]);                                 (* XSDT at 3000 *)
   (3000, [88; 83; 68; 84; 44; 0; 0; 0]);                               (* XSDT of 44 bytes: one entry *)
   (3036, [160; 15; 0; 0; 0; 0; 0; 0]);                                 (* at 4000 *)
   (4000, [65; 80; 73; 67; 40; 0; 0; 0; 3; 7; 66; 79; 67; 72; 83; 32])]. (* APIC of 40 bytes *)

Definition demo_mem : mem := fun a =>
  default 0 (head (omap (fun e => if (fst e <=? a) then snd e !! Z.to_nat (a - fst e) else None) demo_bytes)).

Lemma UefiMain_modifies_witness :
  checksum_ok (fst (UefiMain (H := demo_edk2 8192) 1000 1 demo_mem)) 4000 /\
  h_OemId (fst (UefiMain (H := demo_edk2 8192) 1000 1 demo_mem)) 4000 0 = 65.
Proof.
  assert (Hg : GetACPITable (H := demo_edk2 8192) 1000 1 demo_mem APIC_SIGNATURE = 4000) by (vm_compute; reflexivity).
  destruct (UefiMain_modifies (H := demo_edk2 8192) 1000 1 demo_mem (demo_edk2_ok 8192)) as (Ho & Hc & _);
    rewrite Hg in *; [done|vm_compute; discriminate|].
  split; [exact Hc|]. apply (Ho 0). lia.
Defined.

Lemma UefiMain_null_pool_witness : fst (UefiMain (H := demo_edk2 0) 1000 1 demo_mem) 12 = 67.
Proof.
  assert (Hg : GetACPITable (H := demo_edk2 0) 1000 1 demo_mem APIC_SIGNATURE = 4000) by (vm_compute; reflexivity).
  pose proof (UefiMain_null_pool (H := demo_edk2 0) 1000 1 demo_mem 12 (demo_edk2_ok 0)) as Hu. rewrite Hg in Hu.
  apply Hu; [reflexivity|done|vm_compute; discriminate|vm_compute; split; [discriminate|reflexivity]|lia].
Defined.
