(* ===== verification/Zhwi.v ===== *)
(** * The ZHWI hardware table (HardwareInfoApp.c and efi_custom_hwinfo.c)

    The UEFI driver fills in an ACPI table with a checksum and installs it; the
    kernel driver finds it and shows its values under sysfs. *)

From stdpp Require Import pretty.
From S2P Require Import Prelude Acpi.
#[local] Open Scope Z_scope.

(** ** The table of the firmware *)

Fixpoint le_bytes (n : nat) (v : Z) : list Z :=
  match n with O => [] | S n' => v mod 256 :: le_bytes n' (v / 256) end.

(** ZHWI_TABLE: the header without its checksum, and the values. *)
Record ZHWI_TABLE := Zhwi {
  z_Signature : Z; z_Length : Z; z_HeaderRevision : Z; z_OemId : list Z; z_OemTableId : Z;
  z_OemRevision : Z; z_CreatorId : Z; z_CreatorRevision : Z;
  z_Revision : Z; z_FanSpeed : Z; z_CpuTemp : Z; z_SystemLoad : Z; z_Timestamp : Z;
}.

Definition ZHWI_SIGNATURE : Z := SIGNATURE_32 90 72 87 73.

(** sizeof (ZHWI_TABLE): packed *)
Definition sizeof_ZHWI_TABLE : Z := sizeof_header + 4 + 4 + 4 + 4 + 8.

Definition mZhwiTable : ZHWI_TABLE :=
  Zhwi ZHWI_SIGNATURE sizeof_ZHWI_TABLE 1 [74; 65; 83; 79; 78; 0] 114514 1 19260817 1
    1 2500 420 30 1650000000.

(** The bytes of the structure, packed, with the checksum [c]. *)
Definition table_bytes (t : ZHWI_TABLE) (c : Z) : list Z :=
  le_bytes 4 (z_Signature t) ++ le_bytes 4 (z_Length t) ++ [z_HeaderRevision t; c] ++ z_OemId t ++
  le_bytes 8 (z_OemTableId t) ++ le_bytes 4 (z_OemRevision t) ++ le_bytes 4 (z_CreatorId t) ++
  le_bytes 4 (z_CreatorRevision t) ++ le_bytes 4 (z_Revision t) ++ le_bytes 4 (z_FanSpeed t) ++
  le_bytes 4 (z_CpuTemp t) ++ le_bytes 4 (z_SystemLoad t) ++ le_bytes 8 (z_Timestamp t).

(** The loop of AcpiCalculateChecksum. *)
Definition sum_u8 (Buffer : list Z) (Size : nat) : Z :=
  foldl (fun Sum Index => u8 (Sum + default 0 (Buffer !! Index))) 0 (seq 0 Size).

Definition AcpiCalculateChecksum (Buffer : list Z) (Size : nat) (ChecksumOffset : nat) : list Z :=
  let Buffer := <[ChecksumOffset := 0]> Buffer in
  let Sum := sum_u8 Buffer Size in
  <[ChecksumOffset := u8 (256 - Sum)]> Buffer.

(** EFI_ERROR: the top bit *)
Definition EFI_ERROR (Status : Z) : bool := 2 ^ 63 <=? Status.
Definition EFI_SUCCESS : Z := 0.

Section Firmware.
(** gBS->LocateProtocol, and InstallAcpiTable of the protocol. *)
Variable LocateProtocol : Z.
Variable ProtocolInstall : list Z -> Z -> Z.

(** The status, and the table that was handed to the protocol. *)
Definition InstallAcpiTable : Z * option (list Z) :=
  if EFI_ERROR LocateProtocol then (LocateProtocol, None)
  else
    let table := AcpiCalculateChecksum (table_bytes mZhwiTable 0) (Z.to_nat (z_Length mZhwiTable)) 9 in
    let Status := ProtocolInstall table (z_Length mZhwiTable) in
    if EFI_ERROR Status then (Status, None) else (EFI_SUCCESS, Some table).

Definition RuntimeInfoEntryPoint : Z * option (list Z) * list event :=
  let start := ("硬件信息 ACPI 驱动: 初始化中...\n", []) in
  let '(Status, table) := InstallAcpiTable in
  if EFI_ERROR Status then (Status, table, [start; ("安装ACPI表失败: %r\n", [Status])])
  else
    (EFI_SUCCESS, table,
     [start; ("硬件信息 ACPI 表已成功安装\n", []);
      ("风扇转速: %d RPM\n", [z_FanSpeed mZhwiTable]);
      ("CPU温度: %d.%d°C\n", [z_CpuTemp mZhwiTable / 10; z_CpuTemp mZhwiTable mod 10]);
      ("系统负载: %d%%\n", [z_SystemLoad mZhwiTable])]).

End Firmware.

(** ** The kernel driver *)

(** struct zhwi_table of the driver *)
Definition sizeof_zhwi_table : Z := sizeof_header + 4 + 4 + 4 + 4 + 8 + 8.
Definition k_fan_speed (m : mem) (t : Z) : Z := rd32 m (t + 40).
Definition k_cpu_temp (m : mem) (t : Z) : Z := rd32 m (t + 44).
Definition k_system_load (m : mem) (t : Z) : Z := rd32 m (t + 48).
Definition k_timestamp (m : mem) (t : Z) : Z := rd64 m (t + 52).
Definition k_runtime_functions_ptr (m : mem) (t : Z) : Z := rd64 m (t + 60).

(** struct zhwi_runtime_functions: each function, if its pointer is set *)
Record zhwi_runtime_functions := Runtime {
  get_fan_speed : option Z; get_cpu_temp : option Z; get_system_load : option Z; get_timestamp : option Z;
}.

(** The static variables. *)
Record hwinfo := Hw {
  zhwi_tbl : Z;
  hw_info_kobj : Z;
  runtime_funcs : option zhwi_runtime_functions;
}.

Definition no_hwinfo : hwinfo := Hw 0 0 None.

Definition newline : string := String (Ascii.ascii_of_nat 10) EmptyString.
Definition decimal (v : Z) : string := pretty v.

(** What a show function puts into the buffer, or an errno. *)
Definition fan_speed_show (m : mem) (k : hwinfo) : string + Z :=
  match runtime_funcs k ≫= get_fan_speed with
  | Some speed => inl (decimal speed +:+ newline)
  | None =>
      if zhwi_tbl k =? 0 then inr (- ENODEV) else inl (decimal (k_fan_speed m (zhwi_tbl k)) +:+ newline)
  end.

Definition tenths (v : Z) : string := decimal (v / 10) +:+ "." +:+ decimal (v mod 10) +:+ newline.

Definition cpu_temp_show (m : mem) (k : hwinfo) : string + Z :=
  match runtime_funcs k ≫= get_cpu_temp with
  | Some temp => inl (tenths temp)
  | None => if zhwi_tbl k =? 0 then inr (- ENODEV) else inl (tenths (k_cpu_temp m (zhwi_tbl k)))
  end.

Definition system_load_show (m : mem) (k : hwinfo) : string + Z :=
  match runtime_funcs k ≫= get_system_load with
  | Some load => inl (decimal load +:+ newline)
  | None =>
      if zhwi_tbl k =? 0 then inr (- ENODEV) else inl (decimal (k_system_load m (zhwi_tbl k)) +:+ newline)
  end.

Definition timestamp_show (m : mem) (k : hwinfo) : string + Z :=
  match runtime_funcs k ≫= get_timestamp with
  | Some timestamp => inl (decimal timestamp +:+ newline)
  | None =>
      if zhwi_tbl k =? 0 then inr (- ENODEV) else inl (decimal (k_timestamp m (zhwi_tbl k)) +:+ newline)
  end.

(** The attributes of the group "sensors", with their show functions. *)
Definition hw_info_attrs : list (string * (mem -> hwinfo -> string + Z)) :=
  [("fan_speed", fan_speed_show); ("cpu_temp", cpu_temp_show); ("system_load", system_load_show);
   ("timestamp", timestamp_show)].

(** ** Initialisation *)

Section Driver.
(** acpi_get_table: status and table; ioremap of the function table;
    kobject_create_and_add, sysfs_create_group, sysfs_create_link. *)
Variable acpi_get_table : Z * Z.
Variable ioremap : Z -> option zhwi_runtime_functions.
Variables (kobject_create_and_add sysfs_create_group efi_kobj sysfs_create_link : Z).

Definition avail (f : option Z) (msg : string) : list event := match f with Some _ => [(msg, [])] | None => [] end.

(** The result, the static variables and the kernel log.  The mapping of the
    run-time functions is switched off in the source by [&& FALSE]. *)
Definition read_zhwi_acpi_table (m : mem) (k : hwinfo) : Z * hwinfo * list event :=
  let '(status, tbl) := acpi_get_table in
  let k := Hw tbl (hw_info_kobj k) (runtime_funcs k) in
  if nonzero status then
    (- ENODEV, k, [("ZHWI HW Info: 无法找到 ZHWI ACPI 表 (status: 0x%x)，跳过初始化\n", [status])])
  else
    let warn :=
      if h_Length m tbl <? sizeof_zhwi_table
      then [("ZHWI HW Info: ACPI 表大小不匹配。期望 %zu，实际 %u\n", [sizeof_zhwi_table; h_Length m tbl])] else [] in
    let info :=
      [("ZHWI HW Info: 成功获取 ZHWI ACPI 表\n", []);
       ("ZHWI HW Info: 风扇转速: %u RPM, CPU温度: %u.%u°C, 系统负载: %u%%\n",
        [k_fan_speed m tbl; k_cpu_temp m tbl / 10; k_cpu_temp m tbl mod 10; k_system_load m tbl])] in
    if nonzero (k_runtime_functions_ptr m tbl) && false then
      match ioremap (k_runtime_functions_ptr m tbl) with
      | Some f =>
          (0, Hw tbl (hw_info_kobj k) (Some f),
           warn ++ info ++
           [("ZHWI HW Info: 成功映射运行时函数表 @ 0x%llx\n", [k_runtime_functions_ptr m tbl])] ++
           avail (get_fan_speed f) "ZHWI HW Info: 风扇转速运行时函数可用\n" ++
           avail (get_cpu_temp f) "ZHWI HW Info: CPU温度运行时函数可用\n" ++
           avail (get_system_load f) "ZHWI HW Info: 系统负载运行时函数可用\n" ++
           avail (get_timestamp f) "ZHWI HW Info: 时间戳运行时函数可用\n")
      | None => (0, Hw tbl (hw_info_kobj k) None, warn ++ info ++ [("ZHWI HW Info: 无法映射运行时函数表\n", [])])
      end
    else (0, k, warn ++ info ++ [("ZHWI HW Info: 运行时函数表不可用，将使用静态数据\n", [])]).

(** hw_info_init; the last component is the kobject that kobject_put gave up. *)
Definition hw_info_init (m : mem) (k : hwinfo) : Z * hwinfo * list event * option Z :=
  let '(ret, k1, log) := read_zhwi_acpi_table m k in
  if nonzero ret then (ret, k1, log, None)
  else
    let kobj := kobject_create_and_add in
    let k2 := Hw (zhwi_tbl k1) kobj (runtime_funcs k1) in
    if kobj =? 0 then (- ENOMEM, k2, log ++ [("ZHWI HW Info: 无法创建 kobject\n", [])], None)
    else if nonzero sysfs_create_group then
      (sysfs_create_group, k2, log ++ [("ZHWI HW Info: 无法创建 sysfs 属性组\n", [])], Some kobj)
    else
      let link :=
        if nonzero efi_kobj && nonzero sysfs_create_link
        then [("ZHWI HW Info: 无法创建到 efi_kobj 的符号链接\n", [])] else [] in
      (0, k2, log ++ link ++
        [("ZHWI HW Info: sysfs 接口已创建于 /sys/firmware/acpi/zhwi/sensors/\n", [])], None).

(** A fresh driver never gets run-time functions. *)
Lemma static_data m k : runtime_funcs k = None -> runtime_funcs (snd (fst (fst (hw_info_init m k)))) = None.
Proof.
  intros Hk. unfold hw_info_init, read_zhwi_acpi_table. destruct acpi_get_table as [status tbl].
  destruct (nonzero status); cbn; [done|]. rewrite andb_false_r. cbn.
  destruct (_ =? 0); cbn; [done|]. by destruct (nonzero sysfs_create_group).
Qed.

End Driver.

(** ** The checksum *)

Definition lsum (l : list Z) : Z := foldr Z.add 0 l.

Lemma lsum_app l1 l2 : lsum (l1 ++ l2) = lsum l1 + lsum l2.
Proof. unfold lsum. induction l1 as [|x l1 IH]; cbn; lia. Qed.

Lemma sum_u8_take B n : (n <= length B)%nat -> sum_u8 B n = u8 (lsum (take n B)).
Proof.
  induction n as [|n IH]; intros Hn; [done|]. unfold sum_u8 in *. rewrite seq_S, foldl_app, IH by lia. cbn.
  destruct (lookup_lt_is_Some_2 B n) as [x Hx]; [lia|]. rewrite Hx, (take_S_r _ _ _ Hx), lsum_app. cbn.
  unfold u8, uwrap. rewrite Z.add_0_r. by rewrite Z.add_mod_idemp_l by lia.
Qed.

Lemma lsum_insert B i v : (i < length B)%nat -> lsum (<[i := v]> B) = lsum B - default 0 (B !! i) + v.
Proof.
  intros Hi. destruct (lookup_lt_is_Some_2 B i Hi) as [x Hx]. rewrite Hx, insert_take_drop by done.
  rewrite <- (take_drop_middle B i x Hx) at 3. rewrite !lsum_app. cbn. unfold lsum. lia.
Qed.

(** AcpiCalculateChecksum makes the bytes of the buffer add up to zero
    modulo 256 and changes no byte but the checksum. *)
Theorem AcpiCalculateChecksum_zero Buffer ChecksumOffset :
  (ChecksumOffset < length Buffer)%nat ->
  let B := AcpiCalculateChecksum Buffer (length Buffer) ChecksumOffset in
  lsum B mod 256 = 0 /\ length B = length Buffer /\ (forall i, i <> ChecksumOffset -> B !! i = Buffer !! i).
Proof.
  intros Hlt. unfold AcpiCalculateChecksum. cbv zeta. split_and!.
  - rewrite lsum_insert by by rewrite length_insert. rewrite list_lookup_insert_eq by done. cbn.
    rewrite sum_u8_take by by rewrite length_insert. rewrite take_ge by by rewrite length_insert.
    unfold u8, uwrap. rewrite Z.sub_0_r, Z.add_mod_idemp_r by lia.
    change (2 ^ 8) with 256. set (S := lsum _). pose proof (Z.div_mod S 256 ltac:(lia)) as Hdm.
    replace (S + (256 - S mod 256)) with ((S / 256 + 1) * 256) by lia. apply Z.mod_mul. lia.
  - by rewrite !length_insert.
  - intros i Hi. by rewrite !list_lookup_insert_ne.
Qed.

(** The table of the firmware. *)
Lemma AcpiCalculateChecksum_zero_witness :
  lsum (AcpiCalculateChecksum (table_bytes mZhwiTable 0) 60 9) mod 256 = 0.
Proof. apply (AcpiCalculateChecksum_zero (table_bytes mZhwiTable 0) 9). vm_compute. lia. Defined.

(** ** From the firmware to sysfs *)

(** The bytes [l] are in memory at [a]. *)
Definition placed_at (m : mem) (a : Z) (l : list Z) : Prop :=
  forall i v, l !! i = Some v -> m (a + Z.of_nat i) = v.

Definition zhwi_bytes : list Z := AcpiCalculateChecksum (table_bytes mZhwiTable 0) 60 9.

Lemma placed_le m a l n k :
  placed_at m a l -> 0 <= k -> (Z.to_nat k + n <= length l)%nat ->
  le n m (a + k) = le n (fun b => default 0 (l !! Z.to_nat b)) k.
Proof.
  intros Hp Hk Hn. apply le_shift. intros j Hj.
  destruct (lookup_lt_is_Some_2 l (Z.to_nat (k + j))) as [v Hv]; [lia|]. rewrite Hv.
  replace (a + k + j) with (a + Z.of_nat (Z.to_nat (k + j))) by lia. apply (Hp _ _ Hv).
Qed.

Ltac table_field Hp := eapply eq_trans; [apply (placed_le _ _ zhwi_bytes _ _ Hp); first [lia | vm_compute; lia]|reflexivity].

(** C26: once the firmware has installed its table and ACPI hands it to the
    kernel, the driver comes up and its four files show the values of the
    firmware: the fan speed, the temperature with one decimal, the load and the
    time stamp.  It also logs that the table is shorter than the structure it
    expects. *)
Theorem zhwi_end_to_end locate install table m t ioremap kobj efi_kobj link :
  InstallAcpiTable locate install = (EFI_SUCCESS, Some table) ->
  placed_at m t table -> t <> 0 -> kobj <> 0 ->
  exists k log, hw_info_init (0, t) ioremap kobj 0 efi_kobj link m no_hwinfo = (0, k, log, None) /\
    map (fun a => (fst a, snd a m k)) hw_info_attrs =
      [("fan_speed", inl ("2500" +:+ newline)); ("cpu_temp", inl ("42.0" +:+ newline));
       ("system_load", inl ("30" +:+ newline)); ("timestamp", inl ("1650000000" +:+ newline))] /\
    ("ZHWI HW Info: ACPI 表大小不匹配。期望 %zu，实际 %u\n", [68; 60]) ∈ log.
Proof.
  intros Hi Hp Ht Hk. unfold InstallAcpiTable in Hi. destruct (EFI_ERROR locate) eqn:El; [done|].
  destruct (EFI_ERROR (install _ _)) eqn:Es; [done|]. injection Hi as <-. fold zhwi_bytes in Hp.
  change (placed_at m t zhwi_bytes) in Hp.
  assert (Hlen : h_Length m t = 60) by table_field Hp.
  assert (Hfan : k_fan_speed m t = 2500) by table_field Hp.
  assert (Hcpu : k_cpu_temp m t = 420) by table_field Hp.
  assert (Hload : k_system_load m t = 30) by table_field Hp.
  assert (Htime : k_timestamp m t = 1650000000) by table_field Hp.
  unfold hw_info_init, read_zhwi_acpi_table. rewrite Hlen, andb_false_r. cbn [nonzero Z.eqb negb].
  change (60 <? sizeof_zhwi_table) with true. cbn [fst snd zhwi_tbl hw_info_kobj runtime_funcs no_hwinfo].
  rewrite (proj2 (Z.eqb_neq kobj 0) Hk). eexists _, _. split; [done|]. split; [|set_solver].
  cbn [hw_info_attrs map fst snd]. unfold fan_speed_show, cpu_temp_show, system_load_show, timestamp_show.
  cbn [runtime_funcs zhwi_tbl mbind option_bind]. rewrite (proj2 (Z.eqb_neq t 0) Ht), Hfan, Hcpu, Hload, Htime. vm_compute. reflexivity.
Qed.

(** Memory with the table at 4096. *)
Lemma zhwi_end_to_end_witness :
  exists k log, hw_info_init (0, 4096) (fun _ => None) 1 0 0 0
    (fun a => default 0 (zhwi_bytes !! Z.to_nat (a - 4096))) no_hwinfo = (0, k, log, None) /\
    cpu_temp_show (fun a => default 0 (zhwi_bytes !! Z.to_nat (a - 4096))) k = inl ("42.0" +:+ newline).
Proof.
  destruct (zhwi_end_to_end 0 (fun _ _ => 0) zhwi_bytes (fun a => default 0 (zhwi_bytes !! Z.to_nat (a - 4096))) 4096
    (fun _ => None) 1 0 0) as (k & log & Hi & Hs & _); [reflexivity| |done|done|].
  - intros i v Hv. replace (Z.to_nat _) with i by lia. by rewrite Hv.
  - exists k, log. split; [exact Hi|]. injection Hs as _ Hs _. exact Hs.
Defined.
