(* ===== verification/ZhwiTimer.v ===== *)
(** * The ZHWI driver that updates its table (HardwareInfoApp.c.new)

    A later version of the UEFI driver fills the table with simulated readings
    from a linear congruential generator and installs it anew whenever a timer
    fires.  The table, its checksum and the kernel driver that reads it are
    those of Zhwi.v; the services of the firmware are the results they return. *)

From S2P Require Import Prelude Acpi Zhwi.

(** EFI_TIME *)
Record EFI_TIME := EfiTime { Year : Z; Month : Z; Day : Z; Hour : Z; Minute : Z; Second : Z }.

(** What the services return in one run of UpdateAndInstallAcpiTable. *)
Record services := Services {
  LocateProtocol : Z;
  ProtocolInstall : list Z -> Z -> Z;
  GetTime : EFI_TIME + Z;                   (** the time, or an error *)
}.

(** The variables of the driver: the table, the two static locals, and the
    tables the protocol has taken, the last one first. *)
Record driver := Driver {
  Table : ZHWI_TABLE;
  Seed : Z;
  SimTime : Z;
  taken : list (list Z);
}.

(** mZhwiTable of this version: the readings start at zero. *)
Definition mZhwiTable_new : ZHWI_TABLE :=
  Zhwi ZHWI_SIGNATURE sizeof_ZHWI_TABLE 1 [74; 65; 83; 79; 78; 0] 114514 1 19260817 1 1 0 0 0 0.

Definition driver_init : driver := Driver mZhwiTable_new 305441741 1650000000 [].

Definition set_readings (FanSpeed CpuTemp SystemLoad : Z) (t : ZHWI_TABLE) : ZHWI_TABLE :=
  Zhwi (z_Signature t) (z_Length t) (z_HeaderRevision t) (z_OemId t) (z_OemTableId t) (z_OemRevision t)
    (z_CreatorId t) (z_CreatorRevision t) (z_Revision t) FanSpeed CpuTemp SystemLoad (z_Timestamp t).

Definition set_timestamp (ts : Z) (t : ZHWI_TABLE) : ZHWI_TABLE :=
  Zhwi (z_Signature t) (z_Length t) (z_HeaderRevision t) (z_OemId t) (z_OemTableId t) (z_OemRevision t)
    (z_CreatorId t) (z_CreatorRevision t) (z_Revision t) (z_FanSpeed t) (z_CpuTemp t) (z_SystemLoad t) ts.

(** [Seed = (Seed * 1103515245 + 12345) & 0x7FFFFFFF] in UINT32 *)
Definition next_seed (Seed : Z) : Z := Z.land (u32 (Seed * 1103515245 + 12345)) 2147483647.

Definition GenerateSimulatedSensorData (d : driver) : driver :=
  let s1 := next_seed (Seed d) in
  let FanSpeed := u32 (1800 + s1 mod 1400) in
  let s2 := next_seed s1 in
  let CpuTemperature := u32 (350 + s2 mod 300) in
  let s3 := next_seed s2 in
  let SystemLoad := u32 (5 + s3 mod 90) in
  Driver (set_readings FanSpeed CpuTemperature SystemLoad (Table d)) s3 (SimTime d) (taken d).

(** The seconds, and the next SimTime. *)
Definition GetCurrentTimestamp (now : EFI_TIME + Z) (SimTime : Z) : Z * Z :=
  match now with
  | inr _ => (u64 (SimTime + 60), u64 (SimTime + 60))
  | inl t =>
      (u64 ((Year t - 1970) * 365 * 24 * 60 * 60 + Month t * 30 * 24 * 60 * 60 + Day t * 24 * 60 * 60 +
            Hour t * 60 * 60 + Minute t * 60 + Second t), SimTime)
  end.

(** [mZhwiTable.Timestamp = GetCurrentTimestamp()] *)
Definition update_timestamp (now : EFI_TIME + Z) (d : driver) : driver :=
  let '(ts, sim) := GetCurrentTimestamp now (SimTime d) in
  Driver (set_timestamp ts (Table d)) (Seed d) sim (taken d).

Definition UpdateAndInstallAcpiTable (sv : services) (SensorData : bool) (d : driver) : Z * driver :=
  if EFI_ERROR (LocateProtocol sv) then (LocateProtocol sv, d)
  else
    let d := if SensorData then update_timestamp (GetTime sv) (GenerateSimulatedSensorData d) else d in
    let table := AcpiCalculateChecksum (table_bytes (Table d) 0) (Z.to_nat (z_Length (Table d))) 9 in
    let Status := ProtocolInstall sv table (z_Length (Table d)) in
    if EFI_ERROR Status then (Status, d)
    else (EFI_SUCCESS, Driver (Table d) (Seed d) (SimTime d) (table :: taken d)).

Definition UpdateAcpiTableCallback (sv : services) (d : driver) : driver := snd (UpdateAndInstallAcpiTable sv true d).

(** The 100 units of SetTimer. *)
Definition TIMER_PERIOD : Z := 100.

(** RuntimeInfoEntryPoint: the status, whether the timer runs, the period it
    was given, and the driver.  CreateEvent and SetTimer return a status. *)
Definition EntryPoint_new (sv : services) (CreateEvent : Z) (SetTimer : Z -> Z) (d : driver)
  : Z * option Z * driver :=
  let d := update_timestamp (GetTime sv) (GenerateSimulatedSensorData d) in
  let '(Status, d) := UpdateAndInstallAcpiTable sv false d in
  if EFI_ERROR Status then (Status, None, d)
  else if EFI_ERROR CreateEvent then (EFI_SUCCESS, None, d)
  else if EFI_ERROR (SetTimer TIMER_PERIOD) then (EFI_SUCCESS, None, d)
  else (EFI_SUCCESS, Some TIMER_PERIOD, d).

(** The driver after its entry point and any number of timer events, if the
    timer runs. *)
Inductive runs (sv0 : services) (CreateEvent : Z) (SetTimer : Z -> Z) : driver -> Prop :=
| runs_entry : runs sv0 CreateEvent SetTimer (snd (EntryPoint_new sv0 CreateEvent SetTimer driver_init))
| runs_tick sv d :
    is_Some (snd (fst (EntryPoint_new sv0 CreateEvent SetTimer driver_init))) ->
    runs sv0 CreateEvent SetTimer d -> runs sv0 CreateEvent SetTimer (UpdateAcpiTableCallback sv d).

(** ** Readings and bytes *)

Definition table_of (fan temp load ts : Z) : ZHWI_TABLE := set_timestamp ts (set_readings fan temp load mZhwiTable_new).

(** The ranges of the simulated readings; a time stamp is a UINT64. *)
Definition in_range (fan temp load ts : Z) : Prop :=
  1800 <= fan <= 3199 /\ 350 <= temp <= 649 /\ 5 <= load <= 94 /\ in_u 64 ts.

(** A table the protocol may be given. *)
Definition reading_table (l : list Z) : Prop := exists fan temp load ts,
  in_range fan temp load ts /\ l = AcpiCalculateChecksum (table_bytes (table_of fan temp load ts) 0) 60 9.

Lemma le_of_bytes n v m a :
  (forall i x, le_bytes n v !! i = Some x -> m (a + Z.of_nat i) = x) -> 0 <= v < 256 ^ Z.of_nat n -> le n m a = v.
Proof.
  revert v a. induction n as [|n IH]; intros v a Hm Hv; cbn [le].
  - cbn in Hv. lia.
  - rewrite Nat2Z.inj_succ, Z.pow_succ_r in Hv by lia.
    pose proof (Hm 0%nat _ eq_refl) as H0. rewrite Z.add_0_r in H0. rewrite H0.
    rewrite (IH (v / 256)); [zmod_lia| |].
    + intros i x Hi. replace (a + 1 + Z.of_nat i) with (a + Z.of_nat (S i)) by lia. by apply Hm.
    + split; [zmod_lia|]. apply Z.div_lt_upper_bound; lia.
Qed.

(** A field above the checksum, read where the table lies. *)
Lemma placed_field m t A n v B sz :
  placed_at m t (AcpiCalculateChecksum (A ++ le_bytes n v ++ B) sz 9) -> (10 <= length A)%nat ->
  0 <= v < 256 ^ Z.of_nat n -> le n m (t + Z.of_nat (length A)) = v.
Proof.
  intros Hp HA Hv. apply le_of_bytes; [|done]. intros i x Hi.
  replace (t + Z.of_nat (length A) + Z.of_nat i) with (t + Z.of_nat (length A + i)) by lia. apply Hp.
  unfold AcpiCalculateChecksum. rewrite !list_lookup_insert_ne by lia.
  rewrite lookup_app_r by lia. replace (length A + i - length A)%nat with i by lia.
  by rewrite lookup_app_l by (by eapply lookup_lt_Some).
Qed.

Lemma table_bytes_length fan temp load ts : length (table_bytes (table_of fan temp load ts) 0) = 60%nat.
Proof. reflexivity. Qed.

(** What the kernel reads of such a table. *)
Lemma reading_table_read fan temp load ts m t :
  in_range fan temp load ts ->
  placed_at m t (AcpiCalculateChecksum (table_bytes (table_of fan temp load ts) 0) 60 9) ->
  k_fan_speed m t = fan /\ k_cpu_temp m t = temp /\ k_system_load m t = load /\ k_timestamp m t = ts.
Proof.
  intros (Hf & Ht & Hl & Hs) Hp. unfold in_u in Hs.
  set (A := take 40 (table_bytes (table_of 0 0 0 0) 0)).
  set (F := le_bytes 4 fan) in *. set (T := le_bytes 4 temp). set (L := le_bytes 4 load). set (S := le_bytes 8 ts).
  unfold k_fan_speed, k_cpu_temp, k_system_load, k_timestamp, rd32, rd64. split_and!.
  - apply (placed_field m t A 4 fan (T ++ L ++ S) 60 Hp); [vm_compute; lia|lia].
  - apply (placed_field m t (A ++ F) 4 temp (L ++ S) 60 Hp); [vm_compute; lia|lia].
  - apply (placed_field m t (A ++ F ++ T) 4 load S 60 Hp); [vm_compute; lia|lia].
  - apply (placed_field m t (A ++ F ++ T ++ L) 8 ts [] 60); [|vm_compute; lia|lia].
    rewrite app_nil_r. exact Hp.
Qed.

(** ** Every version of the table *)

(** The header is that of the initial table. *)
Definition plain (d : driver) : Prop := exists fan temp load ts, Table d = table_of fan temp load ts.

(** The readings have been made, and what was handed over is good. *)
Definition filled (d : driver) : Prop :=
  (exists fan temp load ts, in_range fan temp load ts /\ Table d = table_of fan temp load ts) /\
  Forall reading_table (taken d).

Lemma next_seed_range s : 0 <= next_seed s < 2 ^ 31.
Proof.
  unfold next_seed. change 2147483647 with (2 ^ 31 - 1). rewrite land_low_mod by lia. apply Z.mod_pos_bound. lia.
Qed.

Lemma generate_filled now d :
  plain d -> Forall reading_table (taken d) -> filled (update_timestamp now (GenerateSimulatedSensorData d)).
Proof.
  intros (fan & temp & load & ts & E) Ht. unfold update_timestamp, GenerateSimulatedSensorData. cbn [Table Seed SimTime taken].
  set (s1 := next_seed (Seed d)). set (s2 := next_seed s1). set (s3 := next_seed s2).
  destruct (GetCurrentTimestamp now (SimTime d)) as [ts' sim] eqn:Eg.
  assert (Hts : in_u 64 ts') by (unfold GetCurrentTimestamp in Eg; destruct now; injection Eg as <- _; by apply uwrap_range).
  pose proof (Z.mod_pos_bound s1 1400 ltac:(lia)). pose proof (Z.mod_pos_bound s2 300 ltac:(lia)).
  pose proof (Z.mod_pos_bound s3 90 ltac:(lia)).
  rewrite !u32_small by (unfold in_u; lia). split; [|done].
  exists (1800 + s1 mod 1400), (350 + s2 mod 300), (5 + s3 mod 90), ts'. split; [|cbn [Table]; by rewrite E].
  unfold in_range. split_and!; try lia; apply Hts.
Qed.

Lemma filled_plain d : filled d -> plain d.
Proof. intros ((fan & temp & load & ts & _ & E) & _). by exists fan, temp, load, ts. Qed.

Lemma install_filled sv b d : filled d -> filled (snd (UpdateAndInstallAcpiTable sv b d)).
Proof.
  intros Hd. unfold UpdateAndInstallAcpiTable. destruct (EFI_ERROR (LocateProtocol sv)); [done|].
  set (d1 := if b then _ else d).
  assert (Hd1 : filled d1) by (unfold d1; destruct b; [apply generate_filled; [by apply filled_plain|apply Hd]|done]).
  destruct (EFI_ERROR (ProtocolInstall _ _ _)); [done|]. destruct Hd1 as ((fan & temp & load & ts & Hr & E) & Ht).
  split; cbn [snd Table taken]; [by exists fan, temp, load, ts|]. constructor; [|done].
  exists fan, temp, load, ts. split; [done|]. by rewrite E.
Qed.

Lemma runs_filled sv0 CreateEvent SetTimer d : runs sv0 CreateEvent SetTimer d -> filled d.
Proof.
  induction 1 as [|sv d _ _ IH]; [|by apply install_filled].
  unfold EntryPoint_new. set (d0 := update_timestamp _ _).
  assert (H0 : filled d0) by (apply generate_filled; [by exists 0, 0, 0, 0|constructor]).
  pose proof (install_filled sv0 false d0 H0) as H1. destruct (UpdateAndInstallAcpiTable sv0 false d0) as [st d1].
  by repeat case_match.
Qed.

(** A timer event that reaches the protocol adds a table; the earlier ones are
    not taken back. *)
Lemma callback_taken sv d :
  taken (UpdateAcpiTableCallback sv d) = taken d \/
  exists table, taken (UpdateAcpiTableCallback sv d) = table :: taken d.
Proof.
  unfold UpdateAcpiTableCallback, UpdateAndInstallAcpiTable, update_timestamp, GenerateSimulatedSensorData.
  destruct (EFI_ERROR (LocateProtocol sv)); [by left|]. cbn [SimTime]. destruct (GetCurrentTimestamp _ _) as [ts sim].
  destruct (EFI_ERROR _); cbn [snd taken]; [by left|right; eauto].
Qed.

(** C31: whatever the services of the firmware return and however often the
    timer fires, every table the driver hands to the ACPI protocol is 60 bytes
    whose sum is zero modulo 256, and the kernel driver that finds it in memory
    reads a fan speed of 1800 to 3199 RPM, a temperature of 35.0 to 64.9
    degrees and a load of 5 to 94 percent.  A timer event adds at most one
    table and takes none back. *)
Theorem zhwi_timer_tables sv0 CreateEvent SetTimer d :
  runs sv0 CreateEvent SetTimer d ->
  (forall table, table ∈ taken d ->
     length table = 60%nat /\ lsum table mod 256 = 0 /\
     forall m t, placed_at m t table ->
       1800 <= k_fan_speed m t <= 3199 /\ 350 <= k_cpu_temp m t <= 649 /\ 5 <= k_system_load m t <= 94) /\
  forall sv, taken (UpdateAcpiTableCallback sv d) = taken d \/
    exists table, taken (UpdateAcpiTableCallback sv d) = table :: taken d.
Proof.
  intros Hr. split; [|intros sv; apply callback_taken]. intros table Hin. apply runs_filled in Hr as [_ Hall].
  apply (proj1 (Forall_forall _ _) Hall) in Hin as (fan & temp & load & ts & Hrg & ->).
  destruct (AcpiCalculateChecksum_zero (table_bytes (table_of fan temp load ts) 0) 9) as (Hz & Hl & _); [vm_compute; lia|].
  rewrite table_bytes_length in Hz, Hl. split_and!; [done|done|]. intros m t Hp.
  destruct (reading_table_read fan temp load ts m t Hrg Hp) as (-> & -> & -> & _). unfold in_range in Hrg. lia.
Qed.

(** The entry point and two timer events. *)
Definition demo_services : services := Services 0 (fun _ _ => 0) (inr (2 ^ 63)).
Definition demo_driver : driver :=
  UpdateAcpiTableCallback demo_services (UpdateAcpiTableCallback demo_services
    (snd (EntryPoint_new demo_services 0 (fun _ => 0) driver_init))).

Lemma zhwi_timer_tables_witness :
  length (taken demo_driver) = 3%nat /\ forall table, table ∈ taken demo_driver -> lsum table mod 256 = 0.
Proof.
  destruct (zhwi_timer_tables demo_services 0 (fun _ => 0) demo_driver) as [Hall _].
  - apply runs_tick; [vm_compute; eauto|]. apply runs_tick; [vm_compute; eauto|]. apply runs_entry.
  - split; [reflexivity|]. intros table Hin. apply (Hall table Hin).
Defined.
