(* ===== verification/Tcpdump.v ===== *)
(** * The packet printer (network/tcpdump/custom_tcpdump.c)

    packet_handler over the bytes that pcap captured.  A read past them is a
    fault. *)

From stdpp Require Import pretty.
From S2P Require Import Prelude.
#[local] Open Scope Z_scope.

Abbreviation packet := (list Z).

Definition byte (p : packet) (off : Z) : res Z := of_option OutOfBounds (p !! Z.to_nat off).

(** [n] bytes from [off] on. *)
Fixpoint bytes (p : packet) (off : Z) (n : nat) : res (list Z) :=
  match n with
  | O => Ok []
  | S n' =>
      let! b := byte p off in
      let! l := bytes p (off + 1) n' in
      Ok (b :: l)
  end.

(** ntohs and ntohl of what stands at an address: big-endian values. *)
Definition from_be (l : list Z) : Z := foldl (fun v b => 256 * v + b) 0 l.
Definition be (p : packet) (off : Z) (n : nat) : res Z := let! l := bytes p off n in Ok (from_be l).

Definition sizeof_ether_header : Z := 14.
Definition sizeof_ip6_hdr : Z := 40.
Definition ETHERTYPE_IP : Z := 2048.
Definition ETHERTYPE_IPV6 : Z := 34525.
Definition IPPROTO_ICMP : Z := 1.
Definition IPPROTO_TCP : Z := 6.
Definition IPPROTO_UDP : Z := 17.
Definition IPPROTO_ICMPV6 : Z := 58.

(** The line that is printed: its arguments in order. *)
Record line := Line {
  l_time : string; l_milliseconds : Z;
  l_src_ip : string; l_src_port : Z; l_dst_ip : string; l_dst_port : Z;
  l_proto : string; l_caplen : Z; l_desc : string;
}.

(** src_port, dst_port, proto_str and desc *)
Definition transport : Type := Z * Z * string * string.

Definition num (v : Z) : string := pretty v.

(** snprintf into a buffer of [size] bytes. *)
Definition snprintf (size : nat) (s : string) : string := String.substring 0 (size - 1) s.

Definition tcp_info (p : packet) (hdr : Z) : res transport :=
  let! src_port := be p hdr 2 in
  let! dst_port := be p (hdr + 2) 2 in
  let! seq := be p (hdr + 4) 4 in
  let! ack := be p (hdr + 8) 4 in
  Ok (src_port, dst_port, snprintf 8 "TCP", snprintf 64 ("Seq=" +:+ num seq +:+ " Ack=" +:+ num ack)).

Definition udp_info (p : packet) (hdr : Z) : res transport :=
  let! src_port := be p hdr 2 in
  let! dst_port := be p (hdr + 2) 2 in
  let! len := be p (hdr + 4) 2 in
  Ok (src_port, dst_port, snprintf 8 "UDP", snprintf 64 ("Len=" +:+ num len)).

Definition icmp_info (name : string) (p : packet) (hdr : Z) : res transport :=
  let! type := byte p hdr in
  let! code := byte p (hdr + 1) in
  Ok (0, 0, snprintf 8 name, snprintf 64 ("Type=" +:+ num type +:+ " Code=" +:+ num code)).

Section Handler.
(** inet_ntop for IPv4 and IPv6; the time of day as strftime formats it. *)
Variables (ntop4 ntop6 : list Z -> string) (timestr : Z -> string).

Definition ip_info (p : packet) : res (string * string * transport) :=
  let ip := sizeof_ether_header in
  let! src := bytes p (ip + 12) 4 in
  let! dst := bytes p (ip + 16) 4 in
  let! b0 := byte p ip in
  let ip_header_len := Z.land b0 15 * 4 in
  let transport_header := sizeof_ether_header + ip_header_len in
  let! ip_p := byte p (ip + 9) in
  let! t :=
    if ip_p =? IPPROTO_TCP then tcp_info p transport_header
    else if ip_p =? IPPROTO_UDP then udp_info p transport_header
    else if ip_p =? IPPROTO_ICMP then icmp_info "ICMP" p transport_header
    else Ok (0, 0, snprintf 8 "IP", "") in
  Ok (ntop4 src, ntop4 dst, t).

Definition ip6_info (p : packet) : res (string * string * transport) :=
  let ip6 := sizeof_ether_header in
  let! src := bytes p (ip6 + 8) 16 in
  let! dst := bytes p (ip6 + 24) 16 in
  let transport_header := sizeof_ether_header + sizeof_ip6_hdr in
  let! next_header := byte p (ip6 + 6) in
  let! t :=
    if next_header =? IPPROTO_TCP then tcp_info p transport_header
    else if next_header =? IPPROTO_UDP then udp_info p transport_header
    else if next_header =? IPPROTO_ICMPV6 then icmp_info "ICMPv6" p transport_header
    else Ok (0, 0, snprintf 8 "IPv6", "") in
  Ok (ntop6 src, ntop6 dst, t).

(** [None] when nothing is printed. *)
Definition packet_handler (tv_sec tv_usec : Z) (p : packet) : res (option line) :=
  let print (i : string * string * transport) :=
    let '(src_ip, dst_ip, (src_port, dst_port, proto_str, desc)) := i in
    Some (Line (snprintf 16 (timestr tv_sec)) (Z.quot tv_usec 1000) src_ip src_port dst_ip dst_port proto_str
            (Z.of_nat (length p)) desc) in
  let! eth_type := be p 12 2 in
  if eth_type =? ETHERTYPE_IP then let! i := ip_info p in Ok (print i)
  else if eth_type =? ETHERTYPE_IPV6 then let! i := ip6_info p in Ok (print i)
  else Ok None.

End Handler.

(** main: the calls of libpcap in order; the exit status and whether the
    capture was closed. *)
Definition tcpdump_main (argc : Z) (pcap_open_live : bool) (pcap_compile pcap_setfilter pcap_loop : Z) : Z * bool :=
  if negb (argc =? 3) then (1, false)
  else if negb pcap_open_live then (1, false)
  else if pcap_compile =? -1 then (1, false)
  else if pcap_setfilter =? -1 then (1, false)
  else if pcap_loop <? 0 then (1, false)
  else (0, true).

(** ** Which bytes are read *)

Definition is_ok {A} (r : res A) : bool := match r with Ok _ => true | Fault _ => false end.

Abbreviation len p := (Z.of_nat (length p)).

Lemma byte_at p off : 0 <= off < len p -> byte p off = Ok (default 0 (p !! Z.to_nat off)).
Proof.
  intros Ho. unfold byte. destruct (lookup_lt_is_Some_2 p (Z.to_nat off)) as [b Hb]; [lia|]. by rewrite Hb.
Qed.

Lemma byte_past p off : len p <= off -> byte p off = Fault OutOfBounds.
Proof. intros Ho. unfold byte. by rewrite (proj2 (lookup_ge_None p (Z.to_nat off))) by lia. Qed.

Lemma bytes_at p off n : 0 <= off -> off + Z.of_nat n <= len p -> bytes p off n = Ok (take n (drop (Z.to_nat off) p)).
Proof.
  revert off. induction n as [|n IH]; intros off Ho Hn; cbn [bytes]; [done|].
  rewrite byte_at, IH by lia. cbn. destruct (lookup_lt_is_Some_2 p (Z.to_nat off)) as [b Hb]; [lia|].
  rewrite Hb, (drop_S _ _ _ Hb). cbn. repeat f_equal. lia.
Qed.

Lemma bytes_past p off n : (0 < n)%nat -> 0 <= off -> len p < off + Z.of_nat n -> bytes p off n = Fault OutOfBounds.
Proof.
  revert off. induction n as [|n IH]; intros off Hn Ho Hl; [lia|]. cbn [bytes].
  destruct (decide (off < len p)) as [Hin|Hout]; [|by rewrite byte_past by lia].
  rewrite byte_at by lia. cbn. destruct n as [|n]; [lia|]. by rewrite IH by lia.
Qed.

Lemma be_at p off n : 0 <= off -> off + Z.of_nat n <= len p -> be p off n = Ok (from_be (take n (drop (Z.to_nat off) p))).
Proof. intros Ho Hn. unfold be. by rewrite bytes_at. Qed.

Lemma be_past p off n : (0 < n)%nat -> 0 <= off -> len p < off + Z.of_nat n -> be p off n = Fault OutOfBounds.
Proof. intros Hn Ho Hl. unfold be. by rewrite bytes_past. Qed.

(** A read that fails makes the whole computation fail. *)
Ltac skip_read := match goal with |- is_ok (res_bind ?m _) = _ => destruct m; cbn [res_bind]; [|done] end.

Lemma tcp_reads p h : 0 <= h -> is_ok (tcp_info p h) = (h + 12 <=? len p).
Proof.
  intros Hh. unfold tcp_info. destruct (Z.leb_spec (h + 12) (len p)); [by rewrite !be_at by lia|].
  do 3 skip_read. by rewrite be_past by lia.
Qed.

Lemma udp_reads p h : 0 <= h -> is_ok (udp_info p h) = (h + 6 <=? len p).
Proof.
  intros Hh. unfold udp_info. destruct (Z.leb_spec (h + 6) (len p)); [by rewrite !be_at by lia|].
  do 2 skip_read. by rewrite be_past by lia.
Qed.

Lemma icmp_reads name p h : 0 <= h -> is_ok (icmp_info name p h) = (h + 2 <=? len p).
Proof.
  intros Hh. unfold icmp_info. destruct (Z.leb_spec (h + 2) (len p)); [by rewrite !byte_at by lia|].
  skip_read. by rewrite byte_past by lia.
Qed.

Definition get (p : packet) (i : nat) : Z := default 0 (p !! i).

(** The bytes of the transport header that are looked at. *)
Definition transport_need (proto icmp : Z) : Z :=
  if proto =? IPPROTO_TCP then 12 else if proto =? IPPROTO_UDP then 6 else if proto =? icmp then 2 else 0.

(** How many bytes of the packet the handler reads. *)
Definition needed (p : packet) : Z :=
  if len p <? 14 then 14
  else
    let eth_type := 256 * get p 12 + get p 13 in
    if eth_type =? ETHERTYPE_IP then
      let need := transport_need (get p 23) IPPROTO_ICMP in
      if (len p <? 34) || (need =? 0) then 34 else Z.max 34 (14 + Z.land (get p 14) 15 * 4 + need)
    else if eth_type =? ETHERTYPE_IPV6 then 54 + (if len p <? 54 then 0 else transport_need (get p 20) IPPROTO_ICMPV6)
    else 14.

Lemma transport_reads p h proto icmp name other :
  0 <= h ->
  is_ok (if proto =? IPPROTO_TCP then tcp_info p h else if proto =? IPPROTO_UDP then udp_info p h
         else if proto =? icmp then icmp_info name p h else Ok (0, 0, other, "")) =
  (transport_need proto icmp =? 0) || (h + transport_need proto icmp <=? len p).
Proof.
  intros Hh. unfold transport_need.
  destruct (proto =? IPPROTO_TCP); [by rewrite tcp_reads|]. destruct (proto =? IPPROTO_UDP); [by rewrite udp_reads|].
  destruct (proto =? icmp); [by rewrite icmp_reads|done].
Qed.

Lemma is_ok_bind {A B} (m : res A) (k : A -> res B) : (forall a, is_ok (k a) = true) -> is_ok (res_bind m k) = is_ok m.
Proof. intros Hk. destruct m; cbn; [apply Hk|done]. Qed.

Section Bounds.
Variables (ntop4 ntop6 : list Z -> string) (timestr : Z -> string).

Lemma ip_reads p :
  is_ok (ip_info ntop4 p) =
  (34 <=? len p) &&
  ((transport_need (get p 23) IPPROTO_ICMP =? 0) ||
   (14 + Z.land (get p 14) 15 * 4 + transport_need (get p 23) IPPROTO_ICMP <=? len p)).
Proof.
  unfold ip_info, sizeof_ether_header. destruct (Z.leb_spec 34 (len p)) as [Hl|Hl]; cbn [andb].
  - rewrite !bytes_at, !byte_at by lia. cbn [res_bind]. rewrite is_ok_bind by done. apply transport_reads.
    pose proof (Z.land_nonneg (get p 14) 15). unfold get in *. lia.
  - skip_read. by rewrite bytes_past by lia.
Qed.

Lemma ip6_reads p :
  is_ok (ip6_info ntop6 p) = (54 <=? len p) && (54 + transport_need (get p 20) IPPROTO_ICMPV6 <=? len p).
Proof.
  unfold ip6_info, sizeof_ether_header, sizeof_ip6_hdr. destruct (Z.leb_spec 54 (len p)) as [Hl|Hl]; cbn [andb].
  - rewrite !bytes_at, !byte_at by lia. cbn [res_bind]. rewrite is_ok_bind by done. rewrite transport_reads by lia.
    unfold get. cbn [Z.to_nat Z.add Pos.to_nat]. change (Z.to_nat (14 + 6)) with 20%nat.
    destruct (Z.eqb_spec (transport_need (default 0 (p !! 20%nat)) IPPROTO_ICMPV6) 0) as [->|]; [|done].
    cbn [orb]. symmetry. apply Z.leb_le. lia.
  - skip_read. by rewrite bytes_past by lia.
Qed.

Lemma eth_type_at p : 14 <= len p -> be p 12 2 = Ok (256 * get p 12 + get p 13).
Proof.
  intros Hl. unfold be. cbn [bytes]. rewrite !byte_at by lia. cbn. unfold from_be, get. cbn. do 2 f_equal.
Qed.

End Bounds.

(** C32: packet_handler reads exactly the first [needed p] bytes of a packet: it
    gets through when they have been captured, and reads past the end of the
    capture otherwise. *)
Theorem packet_handler_bounds ntop4 ntop6 timestr tv_sec tv_usec p :
  is_ok (packet_handler ntop4 ntop6 timestr tv_sec tv_usec p) = (needed p <=? len p).
Proof.
  unfold packet_handler, needed. destruct (Z.ltb_spec (len p) 14) as [Hs|Hl].
  { rewrite be_past by lia. symmetry. cbn [res_bind is_ok]. apply Z.leb_gt. lia. }
  rewrite eth_type_at by lia. cbn [res_bind].
  destruct (_ =? ETHERTYPE_IP).
  - rewrite is_ok_bind, ip_reads by done. destruct (Z.ltb_spec (len p) 34) as [H34|H34]; cbn [orb].
    + by rewrite (proj2 (Z.leb_gt 34 (len p))) by lia.
    + rewrite (proj2 (Z.leb_le 34 (len p))) by lia. cbn [andb]. destruct (_ =? 0); cbn [orb]; [symmetry; apply Z.leb_le; lia|].
      destruct (Z.leb_spec (14 + Z.land (get p 14) 15 * 4 + transport_need (get p 23) IPPROTO_ICMP) (len p)); symmetry;
        [apply Z.leb_le|apply Z.leb_gt]; lia.
  - destruct (_ =? ETHERTYPE_IPV6); [|symmetry; apply Z.leb_le; lia].
    rewrite is_ok_bind, ip6_reads by done. destruct (Z.ltb_spec (len p) 54) as [H54|H54].
    + rewrite (proj2 (Z.leb_gt 54 (len p))) by lia. symmetry. apply Z.leb_gt. lia.
    + by rewrite (proj2 (Z.leb_le 54 (len p))) by lia.
Qed.

(** ** Printing a frame *)

(** Values in network byte order. *)
Definition htons (v : Z) : list Z := [v / 256; v mod 256].
Definition htonl (v : Z) : list Z := htons (v / 65536) ++ htons (v mod 65536).

Lemma from_htons v : from_be (htons v) = v.
Proof. unfold from_be, htons. cbn [foldl]. pose proof (Z.div_mod v 256 ltac:(lia)). lia. Qed.

Lemma from_htonl v : from_be (htonl v) = v.
Proof.
  unfold from_be, htonl, htons. cbn [foldl app]. pose proof (Z.div_mod v 65536 ltac:(lia)).
  pose proof (Z.div_mod (v / 65536) 256 ltac:(lia)). pose proof (Z.div_mod (v mod 65536) 256 ltac:(lia)). lia.
Qed.

Lemma bytes_field p a f c off n : p = a ++ f ++ c -> len a = off -> length f = n -> bytes p off n = Ok f.
Proof.
  intros -> <- <-. rewrite bytes_at by (rewrite ?length_app; lia). f_equal.
  rewrite Nat2Z.id, drop_app_length, take_app_length. done.
Qed.

Lemma be_field p a f c off n v :
  p = a ++ f ++ c -> len a = off -> length f = n -> from_be f = v -> be p off n = Ok v.
Proof. intros Hp Ha Hf <-. unfold be. by rewrite (bytes_field p a f c off n). Qed.

Lemma byte_field p a b c off : p = a ++ b :: c -> len a = off -> byte p off = Ok b.
Proof.
  intros -> <-. unfold byte. rewrite Nat2Z.id, lookup_app_r, Nat.sub_diag by lia. done.
Qed.

(** An Ethernet frame with a TCP segment over IPv4; [hl] is the length of the IP
    header in words, with options to match. *)
Definition tcp4_frame (macs mid sum src dst opts : list Z) (hl sport dport seq ack : Z) (rest : list Z) : packet :=
  macs ++ htons ETHERTYPE_IP ++ (64 + hl) :: mid ++ IPPROTO_TCP :: sum ++ src ++ dst ++ opts ++
  htons sport ++ htons dport ++ htonl seq ++ htonl ack ++ rest.

Ltac frame_eq := unfold tcp4_frame; rewrite <- ?app_assoc; cbn [app]; rewrite <- ?app_assoc; cbn [app]; reflexivity.

Section Frame.
Variables (macs mid sum src dst opts rest : list Z) (hl sport dport seq ack : Z).
Hypothesis Hmacs : length macs = 12%nat.
Hypothesis Hmid : length mid = 8%nat.
Hypothesis Hsum : length sum = 2%nat.
Hypothesis Hsrc : length src = 4%nat.
Hypothesis Hdst : length dst = 4%nat.
Hypothesis Hhl : 5 <= hl <= 15.
Hypothesis Hopts : len opts = 4 * (hl - 5).

Abbreviation frame := (tcp4_frame macs mid sum src dst opts hl sport dport seq ack rest).
Abbreviation ip_part := (macs ++ htons ETHERTYPE_IP ++ (64 + hl) :: mid ++ IPPROTO_TCP :: sum).
Abbreviation tcp_part := (ip_part ++ src ++ dst ++ opts).

Lemma ip_part_len : len ip_part = 26.
Proof. rewrite !length_app. cbn [length]. rewrite length_app. cbn [length]. rewrite Hmacs, Hmid, Hsum. done. Qed.

Lemma tcp_part_len : len tcp_part = 14 + hl * 4.
Proof.
  rewrite length_app, Nat2Z.inj_add, ip_part_len, !length_app, Hsrc, Hdst. lia.
Qed.

Lemma frame_tcp_info :
  tcp_info frame (14 + hl * 4) =
  Ok (sport, dport, snprintf 8 "TCP", snprintf 64 ("Seq=" +:+ num seq +:+ " Ack=" +:+ num ack)).
Proof.
  pose proof tcp_part_len as Hl. unfold tcp_info.
  rewrite (be_field frame tcp_part (htons sport) (htons dport ++ htonl seq ++ htonl ack ++ rest) _ 2 sport);
    [|frame_eq|done|done|apply from_htons].
  rewrite (be_field frame (tcp_part ++ htons sport) (htons dport) (htonl seq ++ htonl ack ++ rest) _ 2 dport);
    [|frame_eq|rewrite length_app, Nat2Z.inj_add, Hl; cbn; lia|done|apply from_htons].
  rewrite (be_field frame (tcp_part ++ htons sport ++ htons dport) (htonl seq) (htonl ack ++ rest) _ 4 seq);
    [|frame_eq|rewrite length_app, Nat2Z.inj_add, Hl; cbn; lia|done|apply from_htonl].
  rewrite (be_field frame (tcp_part ++ htons sport ++ htons dport ++ htonl seq) (htonl ack) rest _ 4 ack);
    [done|frame_eq|rewrite length_app, Nat2Z.inj_add, Hl; cbn; lia|done|apply from_htonl].
Qed.

Lemma frame_ip_info ntop4 :
  ip_info ntop4 frame =
  Ok (ntop4 src, ntop4 dst,
      (sport, dport, snprintf 8 "TCP", snprintf 64 ("Seq=" +:+ num seq +:+ " Ack=" +:+ num ack))).
Proof.
  pose proof ip_part_len as Hl. unfold ip_info, sizeof_ether_header.
  rewrite (bytes_field frame ip_part src (dst ++ opts ++ htons sport ++ htons dport ++ htonl seq ++ htonl ack ++ rest));
    [|frame_eq|done|done].
  rewrite (bytes_field frame (ip_part ++ src) dst (opts ++ htons sport ++ htons dport ++ htonl seq ++ htonl ack ++ rest));
    [|frame_eq|rewrite length_app, Nat2Z.inj_add, Hl, Hsrc; done|done].
  rewrite (byte_field frame (macs ++ htons ETHERTYPE_IP) (64 + hl)
    (mid ++ IPPROTO_TCP :: sum ++ src ++ dst ++ opts ++ htons sport ++ htons dport ++ htonl seq ++ htonl ack ++ rest));
    [|frame_eq|rewrite length_app, Hmacs; done].
  rewrite (byte_field frame (macs ++ htons ETHERTYPE_IP ++ (64 + hl) :: mid) IPPROTO_TCP
    (sum ++ src ++ dst ++ opts ++ htons sport ++ htons dport ++ htonl seq ++ htonl ack ++ rest));
    [|frame_eq|rewrite !length_app; cbn [length]; rewrite Hmacs, Hmid; done].
  cbn [res_bind]. replace (Z.land (64 + hl) 15) with hl.
  2:{ assert (hl = 5 \/ hl = 6 \/ hl = 7 \/ hl = 8 \/ hl = 9 \/ hl = 10 \/ hl = 11 \/ hl = 12 \/ hl = 13 \/ hl = 14 \/ hl = 15)
        as Hc by lia. repeat destruct Hc as [->|Hc]; try reflexivity. by subst. }
  change (IPPROTO_TCP =? IPPROTO_TCP) with true. cbv iota. by rewrite frame_tcp_info.
Qed.

End Frame.

(** C33: the line printed for a TCP segment over IPv4, with or without IP
    options, has the addresses, the ports and the sequence and acknowledgement
    numbers of the segment. *)
Theorem tcp4_frame_printed ntop4 ntop6 timestr tv_sec tv_usec macs mid sum src dst opts hl sport dport seq ack rest :
  length macs = 12%nat -> length mid = 8%nat -> length sum = 2%nat -> length src = 4%nat -> length dst = 4%nat ->
  5 <= hl <= 15 -> len opts = 4 * (hl - 5) ->
  let p := tcp4_frame macs mid sum src dst opts hl sport dport seq ack rest in
  packet_handler ntop4 ntop6 timestr tv_sec tv_usec p =
  Ok (Some (Line (snprintf 16 (timestr tv_sec)) (Z.quot tv_usec 1000) (ntop4 src) sport (ntop4 dst) dport
              (snprintf 8 "TCP") (len p) (snprintf 64 ("Seq=" +:+ num seq +:+ " Ack=" +:+ num ack)))).
Proof.
  intros Hmacs Hmid Hsum Hsrc Hdst Hhl Hopts p. unfold packet_handler.
  rewrite (be_field p macs (htons ETHERTYPE_IP) ((64 + hl) :: mid ++ IPPROTO_TCP :: sum ++ src ++ dst ++ opts ++
    htons sport ++ htons dport ++ htonl seq ++ htonl ack ++ rest) _ 2 ETHERTYPE_IP);
    [|unfold p; frame_eq|by rewrite Hmacs|done|apply from_htons].
  cbn [res_bind]. change (ETHERTYPE_IP =? ETHERTYPE_IP) with true. cbv iota.
  unfold p. by rewrite frame_ip_info.
Qed.

Lemma tcp4_frame_printed_witness :
  packet_handler (fun _ => "ip4") (fun _ => "ip6") (fun _ => "12:00:00") 0 7500
    (tcp4_frame (replicate 12 0) (replicate 8 0) [0; 0] [10; 0; 0; 1] [10; 0; 0; 2] [1; 1; 1; 1] 6 443 8080 1000 2000 []) =
  Ok (Some (Line "12:00:00" 7 "ip4" 443 "ip4" 8080 "TCP" 50 "Seq=1000 Ack=2000")).
Proof.
  exact (tcp4_frame_printed (fun _ => "ip4") (fun _ => "ip6") (fun _ => "12:00:00") 0 7500 (replicate 12 0) (replicate 8 0)
    [0; 0] [10; 0; 0; 1] [10; 0; 0; 2] [1; 1; 1; 1] 6 443 8080 1000 2000 [] eq_refl eq_refl eq_refl eq_refl eq_refl
    ltac:(lia) eq_refl).
Defined.
