(* ===== verification/Nccl.v ===== *)
(** * The NCCL programs (network/nccl)

    nccl_test.cpp and nccl_bandwidth_test.cpp are sequences of calls of CUDA and
    NCCL, each checked by a macro that leaves the program at the first failure.
    The model is the sequence of calls the loops make and the run that stops at
    a failure; whether a call succeeds is a parameter.  The rules of the two
    interfaces (what has to exist, what has to be inside a group, how much
    memory a reduction touches) are a monitor that follows the calls. *)

From S2P Require Import Prelude.

(** ** Calls *)

Inductive buffer := Send | Recv.
Inductive event_name := start | stop.

(** What a program creates and gives back; numbers are devices. *)
Inductive resource :=
| RBuf (b : buffer) (i : Z)
| RStream (i : Z)
| RComm (i : Z)
| REvent (e : event_name).

#[global] Instance buffer_eq_dec : EqDecision buffer.
Proof. solve_decision. Defined.
#[global] Instance event_name_eq_dec : EqDecision event_name.
Proof. solve_decision. Defined.
#[global] Instance resource_eq_dec : EqDecision resource.
Proof. solve_decision. Defined.

Inductive call :=
| cudaGetDeviceCount
| cudaSetDevice (i : Z)
| cudaMalloc (b : buffer) (i bytes : Z)
| cudaMemset (b : buffer) (i value bytes : Z)
| cudaStreamCreate (i : Z)
| ncclCommInitAll (ndev : Z) (devs : list Z)
| ncclGroupStart
| ncclAllReduce (i count : Z)            (** buffers, communicator and stream of index [i], ncclFloat, ncclSum *)
| ncclGroupEnd
| cudaStreamSynchronize (i : Z)
| cudaEventCreate (e : event_name)
| cudaEventRecord (e : event_name) (stream : Z)
| cudaEventSynchronize (e : event_name)
| cudaEventElapsedTime
| cudaFree (b : buffer) (i : Z)
| cudaStreamDestroy (i : Z)
| ncclCommDestroy (i : Z)
| cudaEventDestroy (e : event_name).

(** A call inside CHECK, NCCL_CHECK and their like, or one whose result is
    dropped. *)
Inductive stmt := Checked (c : call) | Unchecked (c : call).

Definition call_of (s : stmt) : call := match s with Checked c | Unchecked c => c end.

Definition EXIT_SUCCESS : Z := 0.
Definition EXIT_FAILURE : Z := 1.

(** The run: the exit status and the calls made; [ok n] says whether the n-th
    call succeeds. *)
Fixpoint run_calls (ok : nat -> bool) (n : nat) (p : list stmt) : Z * list call :=
  match p with
  | [] => (EXIT_SUCCESS, [])
  | s :: p =>
      match s with
      | Checked c => if ok n then let '(r, cs) := run_calls ok (S n) p in (r, c :: cs) else (EXIT_FAILURE, [c])
      | Unchecked c => let '(r, cs) := run_calls ok (S n) p in (r, c :: cs)
      end
  end.

(** [for (int i = 0; i < n; ++i) body] *)
Definition for_loop (n : Z) (body : Z -> list stmt) : list stmt := concat (map body (seqZ 0 n)).

(** sizeof(float) *)
Definition sizeof_float : Z := 4.

(** ** nccl_bandwidth_test.cpp *)

Definition nGPUs : Z := 4.
Definition dataSize : Z := 256 * 1024 * 1024.
Definition nIters : Z := 100.

(** ncclGroupStart, the reductions and ncclGroupEnd. *)
Definition all_reduce : list stmt :=
  [Checked ncclGroupStart] ++
  for_loop nGPUs (fun i => [Checked (cudaSetDevice i); Checked (ncclAllReduce i dataSize)]) ++
  [Checked ncclGroupEnd].

Definition synchronize : list stmt :=
  for_loop nGPUs (fun i => [Checked (cudaSetDevice i); Checked (cudaStreamSynchronize i)]).

Definition bandwidth_main : list stmt :=
  for_loop nGPUs (fun i =>
    [Checked (cudaSetDevice i);
     Checked (cudaMalloc Send i (dataSize * sizeof_float));
     Checked (cudaMalloc Recv i (dataSize * sizeof_float));
     Checked (cudaStreamCreate i)]) ++
  [Checked (ncclCommInitAll nGPUs (seqZ 0 nGPUs))] ++
  all_reduce ++ synchronize ++
  [Checked (cudaSetDevice 0); Checked (cudaEventCreate start); Checked (cudaEventCreate stop);
   Checked (cudaEventRecord start 0)] ++
  for_loop nIters (fun _ => all_reduce) ++
  [Checked (cudaSetDevice 0); Checked (cudaEventRecord stop 0)] ++
  synchronize ++
  [Checked (cudaEventSynchronize stop); Checked cudaEventElapsedTime] ++
  for_loop nGPUs (fun i =>
    [Checked (cudaSetDevice i); Unchecked (cudaFree Send i); Unchecked (cudaFree Recv i);
     Unchecked (cudaStreamDestroy i); Unchecked (ncclCommDestroy i)]) ++
  [Unchecked (cudaEventDestroy start); Unchecked (cudaEventDestroy stop)].

(** ** nccl_test.cpp *)

(** The variable size. *)
Definition count : Z := 32 * 1024 * 1024.
(** The length of comms and devs. *)
Definition max_devices : Z := 4.

(** What runs after at least two devices were found. *)
Definition nccl_test_body (nDev : Z) : list stmt :=
  for_loop nDev (fun i =>
    [Checked (cudaSetDevice i);
     Checked (cudaMalloc Send i (count * sizeof_float));
     Checked (cudaMalloc Recv i (count * sizeof_float));
     Checked (cudaMemset Send i 1 (count * sizeof_float));
     Checked (cudaMemset Recv i 0 (count * sizeof_float));
     Checked (cudaStreamCreate i)]) ++
  [Checked (ncclCommInitAll nDev (seqZ 0 max_devices)); Checked ncclGroupStart] ++
  for_loop nDev (fun i => [Checked (ncclAllReduce i count)]) ++
  [Checked ncclGroupEnd] ++
  for_loop nDev (fun i => [Checked (cudaSetDevice i); Checked (cudaStreamSynchronize i)]) ++
  for_loop nDev (fun i =>
    [Checked (cudaSetDevice i); Checked (cudaFree Send i); Checked (cudaFree Recv i)]) ++
  for_loop nDev (fun i => [Unchecked (ncclCommDestroy i)]).

(** main, with the number cudaGetDeviceCount gives. *)
Definition nccl_test_main (ok : nat -> bool) (nDev : Z) : Z * list call :=
  if negb (ok O) then (EXIT_FAILURE, [cudaGetDeviceCount])
  else if nDev <? 2 then (EXIT_FAILURE, [cudaGetDeviceCount])
  else let '(r, cs) := run_calls ok 1 (nccl_test_body nDev) in (r, cudaGetDeviceCount :: cs).

(** ** The rules *)

(** What exists, with the size of a buffer; the current device; whether a group
    is open and the communicators used in it. *)
Record monitor := Monitor { live : list (resource * Z); device : option Z; group : option (list Z) }.

Definition monitor0 : monitor := Monitor [] None None.

Definition find (r : resource) (m : monitor) : option Z := snd <$> head (filter (fun x => fst x = r) (live m)).
Definition exists_ (r : resource) (m : monitor) : bool := bool_decide (is_Some (find r m)).
Definition holds (r : resource) (bytes : Z) (m : monitor) : bool :=
  match find r m with Some n => bytes <=? n | None => false end.

Definition create (r : resource) (n : Z) (m : monitor) : option monitor :=
  if exists_ r m then None else Some (Monitor ((r, n) :: live m) (device m) (group m)).
Definition destroy (r : resource) (m : monitor) : option monitor :=
  if exists_ r m then Some (Monitor (filter (fun x => fst x <> r) (live m)) (device m) (group m)) else None.
Definition need (b : bool) (m : monitor) : option monitor := if b then Some m else None.

(** One successful call; None for a call that breaks a rule. *)
Definition step (m : monitor) (c : call) : option monitor :=
  match c with
  | cudaGetDeviceCount => Some m
  | cudaSetDevice i => Some (Monitor (live m) (Some i) (group m))
  | cudaMalloc b i bytes => if bool_decide (device m = Some i) then create (RBuf b i) bytes m else None
  | cudaMemset b i _ bytes => need (holds (RBuf b i) bytes m) m
  | cudaStreamCreate i => if bool_decide (device m = Some i) then create (RStream i) 0 m else None
  | ncclCommInitAll n devs =>
      (* devs has an entry for each communicator *)
      if n <=? Z.of_nat (length devs)
      then foldl (fun o i => o ≫= create (RComm i) 0) (Some m) (seqZ 0 n) else None
  | ncclGroupStart => match group m with Some _ => None | None => Some (Monitor (live m) (device m) (Some [])) end
  | ncclAllReduce i count =>
      (* several devices in one thread: inside a group, each communicator once *)
      match group m with
      | Some used =>
          if negb (bool_decide (i ∈ used)) && exists_ (RComm i) m && exists_ (RStream i) m &&
             holds (RBuf Send i) (count * sizeof_float) m && holds (RBuf Recv i) (count * sizeof_float) m
          then Some (Monitor (live m) (device m) (Some (i :: used))) else None
      | None => None
      end
  | ncclGroupEnd => match group m with Some _ => Some (Monitor (live m) (device m) None) | None => None end
  | cudaStreamSynchronize i => need (exists_ (RStream i) m && negb (bool_decide (is_Some (group m)))) m
  | cudaEventCreate e => create (REvent e) 0 m
  | cudaEventRecord e s => need (exists_ (REvent e) m && exists_ (RStream s) m && bool_decide (device m = Some s)) m
  | cudaEventSynchronize e => need (exists_ (REvent e) m) m
  | cudaEventElapsedTime => need (exists_ (REvent start) m && exists_ (REvent stop) m) m
  | cudaFree b i => destroy (RBuf b i) m
  | cudaStreamDestroy i => destroy (RStream i) m
  | ncclCommDestroy i => destroy (RComm i) m
  | cudaEventDestroy e => destroy (REvent e) m
  end.

Definition follow (cs : list call) (m : monitor) : option monitor := foldl (fun o c => o ≫= fun m => step m c) (Some m) cs.

(** ** Runs are prefixes *)

(** No checked call of [p] fails. *)
Fixpoint all_ok (ok : nat -> bool) (n : nat) (p : list stmt) : bool :=
  match p with
  | [] => true
  | Checked _ :: p => ok n && all_ok ok (S n) p
  | Unchecked _ :: p => all_ok ok (S n) p
  end.

Lemma run_success ok n p : all_ok ok n p = true -> run_calls ok n p = (EXIT_SUCCESS, map call_of p).
Proof.
  revert n. induction p as [|[c|c] p IH]; intros n Ha; cbn in *; [done| |by rewrite IH].
  apply andb_prop in Ha as [-> Ha]. by rewrite IH.
Qed.

(** A failure ends the run with the call that failed. *)
Lemma run_failure ok n p :
  all_ok ok n p = false ->
  exists done failed rest, run_calls ok n p = (EXIT_FAILURE, done ++ [failed]) /\
    map call_of p = done ++ failed :: rest /\ ok (n + length done)%nat = false.
Proof.
  revert n. induction p as [|s p IH]; intros n Ha; [done|].
  assert (Hrec : all_ok ok (S n) p = false -> exists done failed rest,
    (let '(r, cs) := run_calls ok (S n) p in (r, call_of s :: cs)) = (EXIT_FAILURE, done ++ [failed]) /\
    map call_of (s :: p) = done ++ failed :: rest /\ ok (n + length done)%nat = false).
  { intros Hf. destruct (IH (S n) Hf) as (done & failed & rest & -> & Em & Ho).
    exists (call_of s :: done), failed, rest. cbn [map length]. rewrite Em. split_and!; [done|done|].
    replace (n + S (length done))%nat with (S n + length done)%nat by lia. done. }
  destruct s as [c|c]; cbn [all_ok run_calls call_of] in *; [|by apply Hrec].
  destruct (ok n) eqn:Eo; [by apply Hrec|].
  exists [], c, (map call_of p). cbn. rewrite Nat.add_0_r. done.
Qed.

Lemma follow_app cs1 cs2 m : follow (cs1 ++ cs2) m = follow cs1 m ≫= follow cs2.
Proof.
  unfold follow. rewrite foldl_app. destruct (foldl _ (Some m) cs1) as [m'|]; [done|]. cbn.
  induction cs2 as [|c cs2 IH]; [done|]. exact IH.
Qed.

Lemma follow_prefix cs1 cs2 m : is_Some (follow (cs1 ++ cs2) m) -> is_Some (follow cs1 m).
Proof. rewrite follow_app. destruct (follow cs1 m); [eauto|]. by intros [? ?]. Qed.

(** A program that keeps the rules when nothing fails keeps them up to the
    first failure. *)
Lemma run_follows ok n p m0 m :
  follow (map call_of p) m0 = Some m ->
  (all_ok ok n p = true /\ run_calls ok n p = (EXIT_SUCCESS, map call_of p)) \/
  (exists done failed, run_calls ok n p = (EXIT_FAILURE, done ++ [failed]) /\ is_Some (follow done m0)).
Proof.
  intros Hf. destruct (all_ok ok n p) eqn:Ea; [left; split; [done|by apply run_success]|right].
  destruct (run_failure ok n p Ea) as (done & failed & rest & Er & Em & _). exists done, failed. split; [done|].
  apply (follow_prefix done (failed :: rest)). rewrite <- Em. eauto.
Qed.

Lemma bandwidth_follows : follow (map call_of bandwidth_main) monitor0 = Some (Monitor [] (Some 3) None).
Proof. vm_compute. reflexivity. Qed.

(** What the second program leaves: a stream for each device. *)
Definition streams_left (nDev : Z) : list (resource * Z) := map (fun i => (RStream i, 0)) (reverse (seqZ 0 nDev)).

Lemma nccl_test_follows nDev :
  2 <= nDev <= 4 ->
  follow (map call_of (nccl_test_body nDev)) monitor0 = Some (Monitor (streams_left nDev) (Some (nDev - 1)) None).
Proof.
  intros Hn. assert (nDev = 2 \/ nDev = 3 \/ nDev = 4) as [-> | [-> | ->]] by lia; vm_compute; reflexivity.
Qed.

(** With more devices than devs has entries the rules are broken. *)
Lemma nccl_test_overflows nDev m : 4 < nDev -> follow (map call_of (nccl_test_body nDev)) m = None.
Proof.
  intros Hn. unfold nccl_test_body. rewrite map_app, follow_app.
  destruct (follow _ m) as [m1|]; [|done]. cbn [mbind option_bind map app call_of]. unfold follow. cbn [foldl].
  assert (E : step m1 (ncclCommInitAll nDev (seqZ 0 max_devices)) = None).
  { cbn [step]. rewrite length_seqZ, (proj2 (Z.leb_gt _ _)); [done|]. unfold max_devices. lia. }
  cbn [mbind option_bind]. rewrite E. cbn [mbind option_bind].
  by induction (map call_of _).
Qed.

(** The calls of both programs keep the rules of CUDA and NCCL (memory,
    streams, communicators and events exist when they are used, reductions run
    inside a group, once per communicator, within the buffers) up to the first
    call that fails, where the program exits with EXIT_FAILURE.  When none
    fails nccl_bandwidth_test.cpp has given back everything it created.
    nccl_test.cpp does the same on two to four devices but for its streams,
    which it never destroys; on more than four it hands arrays of four entries
    to ncclCommInitAll. *)
Lemma nccl_programs_follow ok nDev :
  ((exists m, run_calls ok 0 bandwidth_main = (EXIT_SUCCESS, map call_of bandwidth_main) /\
      follow (map call_of bandwidth_main) monitor0 = Some m /\ live m = [] /\ group m = None) \/
   (exists done failed, run_calls ok 0 bandwidth_main = (EXIT_FAILURE, done ++ [failed]) /\ is_Some (follow done monitor0))) /\
  (2 <= nDev <= 4 ->
   (exists cs m, nccl_test_main ok nDev = (EXIT_SUCCESS, cs) /\
      follow cs monitor0 = Some m /\ live m = streams_left nDev /\ group m = None) \/
   (exists done failed, nccl_test_main ok nDev = (EXIT_FAILURE, done ++ [failed]) /\ is_Some (follow done monitor0))) /\
  (nDev < 2 -> nccl_test_main ok nDev = (EXIT_FAILURE, [cudaGetDeviceCount])) /\
  (4 < nDev -> (forall n, ok n = true) ->
   exists cs, nccl_test_main ok nDev = (EXIT_SUCCESS, cs) /\ follow cs monitor0 = None).
Proof.
  split_and!.
  - destruct (run_follows ok 0 bandwidth_main monitor0 _ bandwidth_follows) as [[_ E]|Hf]; [left|by right].
    eexists. split; [exact E|]. split; [apply bandwidth_follows|done].
  - intros Hn. unfold nccl_test_main. destruct (ok 0%nat); cbn [negb]; [|right; by exists [], cudaGetDeviceCount; eauto].
    rewrite (proj2 (Z.ltb_ge nDev 2)) by lia.
    destruct (run_follows ok 1 (nccl_test_body nDev) monitor0 _ (nccl_test_follows nDev Hn)) as [[_ E]|(done & failed & E & Hf)].
    + left. rewrite E. eexists _, _. split; [reflexivity|]. change (cudaGetDeviceCount :: ?l) with ([cudaGetDeviceCount] ++ l).
      rewrite follow_app. split; [apply (nccl_test_follows nDev Hn)|done].
    + right. rewrite E. exists (cudaGetDeviceCount :: done), failed. split; [done|].
      change (cudaGetDeviceCount :: done) with ([cudaGetDeviceCount] ++ done). by rewrite follow_app.
  - intros Hn. unfold nccl_test_main. rewrite (proj2 (Z.ltb_lt nDev 2)) by lia. by destruct (ok 0%nat).
  - intros Hn Hok. unfold nccl_test_main. rewrite Hok, (proj2 (Z.ltb_ge nDev 2)) by lia. cbn [negb].
    rewrite run_success.
    + eexists. split; [reflexivity|]. change (cudaGetDeviceCount :: ?l) with ([cudaGetDeviceCount] ++ l).
      rewrite follow_app. apply (nccl_test_overflows nDev _ Hn).
    + generalize 1%nat. induction (nccl_test_body nDev) as [|[c|c] p IH]; intros k; cbn; [done| |apply IH].
      by rewrite Hok, IH.
Qed.
