(* ===== verification/Mmap.v ===== *)
(** * Memory mapping exercises (memctrl/mmap/impl.c)

    mmap_remap moves an anonymous region to a new address; file_mmap_write
    writes into a file through a shared mapping. *)

From S2P Require Import Prelude.

(** The process: file contents, open descriptors (by file name), the number of
    file mappings, and its anonymous regions by start address. *)
Record os := Os {
  files : gmap string (list Z);
  fds : list string;
  nmaps : Z;
  regions : gmap Z (list Z);
}.

(** Which of the system calls succeed. *)
Record syscalls := Sys { r_open : bool; r_fstat : bool; r_ftruncate : bool; r_mmap : bool; r_msync : bool }.

Definition set_file (name : string) (c : list Z) (s : os) : os := Os (<[name := c]> (files s)) (fds s) (nmaps s) (regions s).
Definition set_fds (l : list string) (s : os) : os := Os (files s) l (nmaps s) (regions s).
Definition add_map (n : Z) (s : os) : os := Os (files s) (fds s) (nmaps s + n) (regions s).

(** close(fd): the descriptor opened last goes away. *)
Definition close (s : os) : os := set_fds (tail (fds s)) s.

Definition contents (name : string) (s : os) : list Z := default [] (files s !! name).

(** Bytes [c] stored from [off] on, as far as the file reaches. *)
Definition store (off : nat) (c l : list Z) : list Z :=
  take off l ++ take (length l - off) c ++ drop (off + length c) l.

(** file_mmap_write; [content] is a C string without its terminator. *)
Definition file_mmap_write (sys : syscalls) (filename : string) (offset : Z) (content : list Z) (s : os)
  : res (Z * os) :=
  if negb (r_open sys) then Ok (-1, s)
  else
    (* O_CREAT *)
    let s := set_fds (filename :: fds s) (set_file filename (contents filename s) s) in
    let content_len := Z.of_nat (length content) in
    let total_len := s64 (u64 (offset + content_len)) in
    if negb (r_fstat sys) then Ok (-1, close s)
    else
      let grow := Z.of_nat (length (contents filename s)) <? total_len in
      if grow && negb (r_ftruncate sys) then Ok (-1, close s)
      else
        let s := if grow then set_file filename (resize (Z.to_nat total_len) 0 (contents filename s)) s else s in
        if negb (r_mmap sys) then Ok (-1, close s)
        else
          let s := add_map 1 s in
          (* memcpy(map + offset, content, content_len) *)
          if PAGE_ALIGN (u64 total_len) <? offset + content_len then Fault OutOfBounds
          else
            let s := set_file filename (store (Z.to_nat offset) content (contents filename s)) s in
            if negb (r_msync sys) then Ok (-1, add_map (-1) s)
            else Ok (0, close (add_map (-1) s)).

Section Remap.
(** mmap of anonymous memory: a new address, or None for MAP_FAILED. *)
Variable mmap : gmap Z (list Z) -> Z -> option Z.

(** munmap of the first [size] bytes of a region. *)
Definition munmap (addr : Z) (size : nat) (r : gmap Z (list Z)) : gmap Z (list Z) :=
  match r !! addr with
  | None => r
  | Some l =>
      if (length l <=? size)%nat then delete addr r
      else <[addr + Z.of_nat size := drop size l]> (delete addr r)
  end.

(** mmap_remap: the new address, or 0 (NULL). *)
Definition mmap_remap (addr : Z) (size : nat) (s : os) : res (Z * os) :=
  match mmap (regions s) (Z.of_nat size) with
  | None => Ok (0, s)
  | Some new_addr =>
      let r := <[new_addr := replicate size 0]> (regions s) in
      if nonzero addr then
        match r !! addr with
        | Some l =>
            (* memcpy(new_addr, addr, size) *)
            if (length l <? size)%nat then Fault OutOfBounds
            else Ok (new_addr, Os (files s) (fds s) (nmaps s) (munmap addr size (<[new_addr := take size l]> r)))
        | None => Fault NullDeref
        end
      else Ok (new_addr, Os (files s) (fds s) (nmaps s) r)
  end.

(** mmap returns memory that is not in use. *)
Definition mmap_fresh : Prop := forall r n a, mmap r n = Some a -> r !! a = None /\ a <> 0.

End Remap.

(** ** What is left *)

Lemma store_fits off c l :
  (off + length c <= length l)%nat -> store off c l = take off l ++ c ++ drop (off + length c) l.
Proof. intros Hl. unfold store. by rewrite (take_ge c) by lia. Qed.

Lemma page_align_le x : 0 <= x -> x <= PAGE_ALIGN x.
Proof.
  intros Hx. unfold PAGE_ALIGN, ALIGN, PAGE_SIZE.
  change (Z.lnot (4096 - 1)) with (Z.lnot (Z.ones 12)). rewrite <- Z.ldiff_land, Z.ldiff_ones_r by lia.
  rewrite Z.shiftr_div_pow2, Z.shiftl_mul_pow2 by lia. change (2 ^ 12) with 4096.
  pose proof (Z.div_mod (x + (4096 - 1)) 4096 ltac:(lia)). pose proof (Z.mod_pos_bound (x + (4096 - 1)) 4096 ltac:(lia)). lia.
Qed.

Lemma contents_set name c s : contents name (set_file name c s) = c.
Proof. unfold contents, set_file. cbn. by rewrite lookup_insert_eq. Qed.

(** The file once it is long enough for the mapping. *)
Definition grown (name : string) (total : nat) (s : os) : list Z :=
  let old := contents name s in resize (length old `max` total) 0 old.

Lemma grown_cases name total s (b : bool) :
  b = (Z.of_nat (length (contents name s)) <? Z.of_nat total) ->
  (if b then resize total 0 (contents name s) else contents name s) = grown name total s.
Proof.
  intros ->. unfold grown. destruct (Z.ltb_spec (Z.of_nat (length (contents name s))) (Z.of_nat total)).
  - by rewrite Nat.max_r by lia.
  - rewrite Nat.max_l by lia. by rewrite resize_all.
Qed.

(** The calls that have to succeed before the content can be copied. *)
Definition mapped (sys : syscalls) (name : string) (total : nat) (s : os) : bool :=
  r_open sys && r_fstat sys && (r_ftruncate sys || negb (Z.of_nat (length (contents name s)) <? Z.of_nat total)) &&
  r_mmap sys.

(** From the mapping on, with the file grown. *)
Lemma write_tail sys name offset content s s2 (total := (Z.to_nat offset + length content)%nat) :
  0 <= offset -> offset + Z.of_nat (length content) < 2 ^ 63 ->
  contents name s2 = grown name total s -> fds s2 = name :: fds s -> nmaps s2 = nmaps s -> regions s2 = regions s ->
  (forall n, n <> name -> files s2 !! n = files s !! n) ->
  exists s',
    (if negb (r_mmap sys) then Ok (-1, close s2)
     else
       let s3 := add_map 1 s2 in
       if PAGE_ALIGN (u64 (Z.of_nat total)) <? offset + Z.of_nat (length content) then Fault OutOfBounds
       else
         let s4 := set_file name (store (Z.to_nat offset) content (contents name s3)) s3 in
         if negb (r_msync sys) then Ok (-1, add_map (-1) s4) else Ok (0, close (add_map (-1) s4)))
    = Ok (if r_mmap sys && r_msync sys then 0 else -1, s') /\
    nmaps s' = nmaps s /\ regions s' = regions s /\ (forall n, n <> name -> files s' !! n = files s !! n) /\
    fds s' = (if r_mmap sys && negb (r_msync sys) then name :: fds s else fds s) /\
    (r_mmap sys = true -> contents name s' =
       take (Z.to_nat offset) (grown name total s) ++ content ++ drop total (grown name total s)).
Proof.
  intros Ho Hfit Hc Hfd Hn Hr Hoth. destruct (r_mmap sys); cbn [negb andb].
  2:{ eexists. split_and!; [done|done|done|done| |done]. cbn. by rewrite Hfd. }
  assert (Hp : offset + Z.of_nat (length content) <= PAGE_ALIGN (u64 (Z.of_nat total))).
  { unfold u64. rewrite uwrap_small by (unfold in_u; lia). etrans; [|apply page_align_le; lia]. lia. }
  rewrite (proj2 (Z.ltb_ge _ _) Hp). cbv zeta. change (contents name (add_map 1 s2)) with (contents name s2).
  rewrite Hc, store_fits by (unfold grown; rewrite length_resize; lia). fold total.
  destruct (r_msync sys); cbn [negb]; eexists; (split; [done|]); cbn; rewrite Hfd, Hn;
    (split; [lia|]); (split; [done|]); (split; [intros n Hne; by rewrite lookup_insert_ne, Hoth by done|]); (split; [done|]);
    intros _; unfold contents; cbn; by rewrite lookup_insert_eq.
Qed.

(** The outcome of file_mmap_write on every path. *)
Lemma file_mmap_write_post sys name offset content s :
  0 <= offset -> offset + Z.of_nat (length content) < 2 ^ 63 ->
  let off := Z.to_nat offset in
  let total := (off + length content)%nat in
  let file := grown name total s in
  exists s', file_mmap_write sys name offset content s = Ok (if mapped sys name total s && r_msync sys then 0 else -1, s') /\
    nmaps s' = nmaps s /\ regions s' = regions s /\ (forall n, n <> name -> files s' !! n = files s !! n) /\
    fds s' = (if mapped sys name total s && negb (r_msync sys) then name :: fds s else fds s) /\
    (mapped sys name total s = true -> contents name s' = take off file ++ content ++ drop total file).
Proof.
  intros Ho Hfit off total file. unfold file_mmap_write, mapped.
  assert (Ht : s64 (u64 (offset + Z.of_nat (length content))) = Z.of_nat total).
  { unfold s64, u64. rewrite uwrap_small, swrap_small by (unfold in_u, in_s; lia). lia. }
  rewrite Ht. destruct (r_open sys); cbn [negb andb]; [|by exists s].
  assert (Hc : contents name (set_fds (name :: fds s) (set_file name (contents name s) s)) = contents name s)
    by apply contents_set.
  rewrite Hc, Nat2Z.id. pose proof (grown_cases name total s _ eq_refl) as Hgrown.
  set (grow := Z.of_nat (length (contents name s)) <? Z.of_nat total) in *.
  assert (Hother : forall c n, n <> name -> <[name := c]> (files s) !! n = files s !! n)
    by (intros c n Hn; by apply lookup_insert_ne).
  destruct (r_fstat sys); cbn [negb andb]; [|eexists; split_and!; [done|done|done|apply Hother|done|done]].
  destruct (grow && negb (r_ftruncate sys)) eqn:Eg.
  { apply andb_prop in Eg as [-> Et]. apply negb_true_iff in Et. rewrite Et.
    eexists; split_and!; [done|done|done|apply Hother|done|done]. }
  assert (Eg' : r_ftruncate sys || negb grow = true) by (destruct grow, (r_ftruncate sys); done).
  rewrite Eg'. cbn [andb]. apply (write_tail sys name offset content s); try done.
  - etrans; [|exact Hgrown]. destruct grow; [apply contents_set|done].
  - by destruct grow.
  - by destruct grow.
  - by destruct grow.
  - intros n Hn. destruct grow; cbn; rewrite ?lookup_insert_ne by done; done.
Qed.

(** C39: file_mmap_write, for an offset and a content that fit in the address
    space, leaves no mapping behind and touches no other memory or file.  It returns 0 if
    every call succeeds, and then the content is in the file at the offset, the
    file extended with zeros where it was shorter; else it returns -1.  The
    descriptor is closed but in one case: when msync fails it stays open. *)
Theorem file_mmap_write_spec sys name offset content s :
  0 <= offset -> offset + Z.of_nat (length content) < 2 ^ 63 ->
  let off := Z.to_nat offset in
  let total := (off + length content)%nat in
  let file := grown name total s in
  exists s', file_mmap_write sys name offset content s = Ok (if mapped sys name total s && r_msync sys then 0 else -1, s') /\
    nmaps s' = nmaps s /\ regions s' = regions s /\ (forall n, n <> name -> files s' !! n = files s !! n) /\
    fds s' = (if mapped sys name total s && negb (r_msync sys) then name :: fds s else fds s) /\
    (mapped sys name total s = true -> contents name s' = take off file ++ content ++ drop total file).
Proof. apply file_mmap_write_post. Qed.

(** Writing behind the end of a file of two bytes. *)
Lemma file_mmap_write_spec_witness :
  exists s', file_mmap_write (Sys true true true true true) "f" 4 [65; 66] (Os {[ "f" := [1; 2] ]} [] 0 ∅) = Ok (0, s') /\
    fds s' = [] /\ contents "f" s' = [1; 2; 0; 0; 65; 66].
Proof.
  destruct (file_mmap_write_spec (Sys true true true true true) "f" 4 [65; 66] (Os {[ "f" := [1; 2] ]} [] 0 ∅))
    as (s' & Hw & _ & _ & _ & Hf & Hc); [lia|cbn; lia|].
  exists s'. split; [exact Hw|]. split; [exact Hf|]. rewrite (Hc eq_refl). reflexivity.
Defined.

(** Mmap_remap of a whole region moves its bytes to new memory: the old
    address is unmapped, other regions are untouched, and if there is no memory
    nothing changes. *)
Theorem mmap_remap_moves mmap addr l s :
  mmap_fresh mmap -> addr <> 0 -> regions s !! addr = Some l ->
  mmap_remap mmap addr (length l) s = Ok (0, s) \/
  exists a s', a <> 0 /\ a <> addr /\ regions s !! a = None /\ mmap_remap mmap addr (length l) s = Ok (a, s') /\
    regions s' = <[a := l]> (delete addr (regions s)) /\ files s' = files s /\ fds s' = fds s.
Proof.
  intros Hm Ha Hl. unfold mmap_remap. destruct (mmap _ _) as [a|] eqn:Em; [right|by left].
  destruct (Hm _ _ _ Em) as [Hn H0]. assert (Hne : a <> addr) by congruence.
  rewrite (proj2 (nonzero_true addr) Ha), lookup_insert_ne, Hl by done. rewrite Nat.ltb_irrefl.
  eexists a, _. split_and!; try done. cbn. unfold munmap. rewrite insert_insert_eq.
  rewrite lookup_insert_ne, Hl by done. rewrite Nat.leb_refl, firstn_all. by rewrite delete_insert_ne.
Qed.

(** A region at 4096 that moves to 8192. *)
Lemma mmap_remap_moves_witness :
  exists a s', mmap_remap (fun r _ => if decide (r !! 8192 = None) then Some 8192 else None) 4096 3
      (Os ∅ [] 0 {[ 4096 := [7; 8; 9] ]}) = Ok (a, s') /\ regions s' !! a = Some [7; 8; 9].
Proof.
  destruct (mmap_remap_moves (fun r _ => if decide (r !! 8192 = None) then Some 8192 else None) 4096 [7; 8; 9]
    (Os ∅ [] 0 {[ 4096 := [7; 8; 9] ]})) as [Hr|(a & s' & _ & _ & _ & Hr & Hs & _)].
  - intros r n a. case_decide; intros [= <-]. done.
  - done.
  - reflexivity.
  - exfalso. vm_compute in Hr. discriminate.
  - exists a, s'. split; [exact Hr|]. rewrite Hs. apply lookup_insert_eq.
Defined.
