(* ===== verification/MmapTest.v ===== *)
(** * The program that tests the mapping exercises (memctrl/mmap/test.c)

    test.c moves a region with mmap_remap and writes into files with
    file_mmap_write, and compares the files with references it writes through
    stdio.  It runs here on the process of Mmap.v.  The reference side is a
    model of fopen, fputc, fseek and fwrite; pagemap, which the kernel fills,
    and the command cmp are parameters. *)

From S2P Require Import Prelude Paths Mmap.

Definition LARGE_SIZE : Z := 1024 * 1024.
#[global] Opaque LARGE_SIZE.

(** snprintf into a buffer of 256 bytes. *)
Definition snprintf256 (s : string) : string := String.substring 0 255 s.

(** ** stdio *)

(** fseek to [off] and fwrite of [c]: a gap before [off] reads as zeros. *)
Definition fwrite_at (off : nat) (c l : list Z) : list Z :=
  match c with
  | [] => l
  | _ => take off (l ++ replicate (off - length l) 0) ++ c ++ drop (off + length c) l
  end.

(** fputc('A' + (i % 26), fp) for every i below [size]. *)
Definition pattern (size : nat) : list Z := map (fun i => 65 + Z.of_nat i mod 26) (seq 0 size).

Definition unlink (name : string) (s : os) : os := Os (delete name (files s)) (fds s) (nmaps s) (regions s).

Section Test.
Variable sys : syscalls.
Variable mmap : gmap Z (list Z) -> Z -> option Z.
(** Whether fopen of a file for writing succeeds. *)
Variable fopen : string -> bool.
(** The entry of /proc/self/pagemap for an address, if pread gives 8 bytes. *)
Variable pagemap : gmap Z (list Z) -> Z -> option Z.
(** The exit status of a command. *)
Variable system : string -> os -> Z.

Definition get_physical_address (virtual_address : Z) (s : os) : Z :=
  match pagemap (regions s) virtual_address with
  | None => 0
  | Some entry =>
      if Z.land entry (2 ^ 63) =? 0 then 0
      else u64 (Z.land entry (2 ^ 54 - 1) * PAGE_SIZE)
  end.

Definition create_test_file (filename : string) (size : nat) (s : os) : os :=
  if fopen filename then set_file filename (pattern size) s else s.

(** Zero if the files are the same. *)
Definition compare_files (file1 file2 : string) (s : os) : Z :=
  system (snprintf256 ("cmp " +:+ file1 +:+ " " +:+ file2 +:+ " > /dev/null 2>&1")) s.

(** assert *)
Definition assert (b : bool) : res unit := if b then Ok tt else Fault BugOn.

Definition set_regions (r : gmap Z (list Z)) (s : os) : os := Os (files s) (fds s) (nmaps s) r.

(** memset over a whole region; MAP_FAILED is no region. *)
Definition memset (addr c : Z) (size : nat) (s : os) : res os :=
  match regions s !! addr with
  | Some l =>
      if (length l <? size)%nat then Fault OutOfBounds
      else Ok (set_regions (<[addr := replicate size c ++ drop size l]> (regions s)) s)
  | None => Fault NullDeref
  end.

Definition test_mmap_remap (s : os) : res os :=
  let size := Z.to_nat (PAGE_SIZE * 2) in
  let '(addr1, s) :=
    match mmap (regions s) (Z.of_nat size) with
    | Some a => (a, set_regions (<[a := replicate size 0]> (regions s)) s)
    | None => (-1, s)
    end in
  let! s := memset addr1 170 size s in
  let! (addr2, s) := mmap_remap mmap addr1 size s in
  let! _ := assert (nonzero addr2) in
  let! _ := assert (negb (addr1 =? addr2)) in
  let! _ := assert (negb (get_physical_address addr1 s =? get_physical_address addr2 s)) in
  let! l := of_option NullDeref (regions s !! addr2) in
  let! _ := assert (forallb (fun i => default 0 (l !! i) =? 170) (seq 0 size)) in
  Ok (set_regions (munmap addr2 size (munmap addr1 size (regions s))) s).

Definition content1 : list Z := bytes_of "TEST_CONTENT_1".
Definition content2 : list Z := replicate (Z.to_nat (PAGE_SIZE + 99)) 66.
Definition content3 : list Z := bytes_of "APPEND_TEST".

(** assert(file_mmap_write(...) == 0) *)
Definition write_ok (filename : string) (offset : Z) (content : list Z) (s : os) : res os :=
  let! (ret, s) := file_mmap_write sys filename offset content s in
  let! _ := assert (ret =? 0) in
  Ok s.

(** The reference file. *)
Definition reference (filesize : nat) : list Z :=
  fwrite_at filesize content3 (fwrite_at (Z.to_nat (PAGE_SIZE - 50)) content2
    (fwrite_at 0 content1 (pattern filesize))).

Definition ref_filename (filename : string) : string := snprintf256 (filename +:+ ".ref").

(** The verdict the function prints: true for a successful comparison. *)
Definition test_file_operations (filename : string) (filesize : nat) (s : os) : res (bool * os) :=
  let s := create_test_file filename filesize s in
  let! s := write_ok filename 0 content1 s in
  let! s := write_ok filename (PAGE_SIZE - 50) content2 s in
  let! s := write_ok filename (Z.of_nat filesize) content3 s in
  let s := if fopen (ref_filename filename) then set_file (ref_filename filename) (reference filesize) s else s in
  Ok (compare_files filename (ref_filename filename) s =? 0, s).

(** The exit status and the three verdicts. *)
Definition mmap_test_main (is_root : bool) (s : os) : res (Z * list bool * os) :=
  if negb is_root then Ok (1, [], s)
  else
    let! s := test_mmap_remap s in
    let! (b1, s) := test_file_operations "empty.txt" 0 s in
    let! (b2, s) := test_file_operations "small.txt" (Z.to_nat PAGE_SIZE) s in
    let! (b3, s) := test_file_operations "large.txt" (Z.to_nat LARGE_SIZE) s in
    let s := foldl (fun s name => unlink name s) s
               ["empty.txt"; "small.txt"; "large.txt"; "empty.txt.ref"; "small.txt.ref"; "large.txt.ref"] in
    Ok (0, [b1; b2; b3], s).

End Test.

(** ** Writing through a mapping is writing at an offset *)

Lemma resize_app_zeros (n : nat) (l : list Z) : (length l <= n)%nat -> resize n 0 l = l ++ replicate (n - length l) 0.
Proof. intros Hl. by rewrite resize_ge. Qed.

Lemma fwrite_at_grown name off content s :
  content <> [] -> let file := grown name (off + length content) s in
  take off file ++ content ++ drop (off + length content) file = fwrite_at off content (contents name s).
Proof.
  intros Hne. unfold grown. set (l := contents name s). destruct content as [|c cs] eqn:E; [done|]. rewrite <- E.
  assert (Ef : fwrite_at off content l = take off (l ++ replicate (off - length l) 0) ++ content ++ drop (off + length content) l)
    by (unfold fwrite_at; by rewrite E). rewrite Ef.
  rewrite resize_app_zeros by lia. f_equal; [|f_equal].
  - rewrite !take_app, !take_replicate. f_equal. f_equal. lia.
  - rewrite drop_app, drop_replicate. replace (_ - _ - _)%nat with 0%nat by lia. apply app_nil_r.
Qed.

Section Proof.
Variable sys : syscalls.
Variable mmap : gmap Z (list Z) -> Z -> option Z.
Variable pagemap : gmap Z (list Z) -> Z -> option Z.
Variable system : string -> os -> Z.
Hypothesis Hsys : sys = Sys true true true true true.

(** What a state keeps of the process besides its files. *)
Definition same_process (s s' : os) : Prop := fds s' = fds s /\ nmaps s' = nmaps s /\ regions s' = regions s.

Lemma write_ok_eq name offset content s :
  0 <= offset -> offset + Z.of_nat (length content) < 2 ^ 63 -> content <> [] ->
  exists s', write_ok sys name offset content s = Ok s' /\
    contents name s' = fwrite_at (Z.to_nat offset) content (contents name s) /\
    (forall n, n <> name -> files s' !! n = files s !! n) /\ same_process s s'.
Proof.
  intros Ho Hfit Hne.
  destruct (file_mmap_write_post sys name offset content s Ho Hfit) as (s' & E & Hn & Hr & Hf & Hd & Hc).
  unfold write_ok. rewrite E. unfold mapped in *. rewrite Hsys in *. cbn in Hd, Hc. cbn.
  exists s'. split_and!; [done| |done|done]. rewrite (Hc eq_refl). by apply fwrite_at_grown.
Qed.

Lemma content1_len : length content1 = 14%nat.
Proof. reflexivity. Qed.
Lemma content2_len : Z.of_nat (length content2) = PAGE_SIZE + 99.
Proof. unfold content2. rewrite length_replicate. unfold PAGE_SIZE. lia. Qed.
Lemma content3_len : length content3 = 11%nat.
Proof. reflexivity. Qed.
Lemma content2_nonempty : content2 <> [].
Proof. intros E%(f_equal length). pose proof content2_len. rewrite E in *. done. Qed.

(** What cmp says of two files it is asked to compare. *)
Definition cmp_agrees (name : string) : Prop := forall s,
  compare_files system name (ref_filename name) s = 0 <->
  files s !! name = files s !! ref_filename name /\ is_Some (files s !! name).

(** The file written through mappings is the reference, whatever its size. *)
Lemma test_file_operations_eq name size s :
  Z.of_nat size < 2 ^ 62 -> ref_filename name <> name -> cmp_agrees name ->
  exists s', test_file_operations sys (fun _ => true) system name size s = Ok (true, s') /\
    files s' !! name = Some (reference size) /\ files s' !! ref_filename name = Some (reference size) /\
    (forall n, n <> name -> n <> ref_filename name -> files s' !! n = files s !! n) /\ same_process s s'.
Proof.
  intros Hsize Hne Hcmp. unfold test_file_operations. cbn [create_test_file].
  set (s0 := set_file name (pattern size) s).
  destruct (write_ok_eq name 0 content1 s0) as (s1 & E1 & C1 & F1 & D1 & N1 & R1);
    [done|by rewrite content1_len|done|].
  destruct (write_ok_eq name (PAGE_SIZE - 50) content2 s1) as (s2 & E2 & C2 & F2 & D2 & N2 & R2);
    [done|rewrite content2_len; by vm_compute|apply content2_nonempty|].
  destruct (write_ok_eq name (Z.of_nat size) content3 s2) as (s3 & E3 & C3 & F3 & D3 & N3 & R3);
    [lia|rewrite content3_len; lia|done|].
  rewrite E1. cbn [res_bind]. rewrite E2. cbn [res_bind]. rewrite E3. cbn [res_bind].
  assert (Hc : contents name s3 = reference size).
  { rewrite C3, C2, C1, Nat2Z.id. unfold s0. by rewrite contents_set. }
  assert (Hs3 : files s3 !! name = Some (reference size)).
  { unfold contents in Hc. destruct (files s3 !! name) as [l|]; [by f_equal|]. cbn in Hc.
    apply (f_equal length) in Hc. unfold reference, fwrite_at in Hc. change content3 with (65 :: tail content3) in Hc.
    cbv beta iota in Hc. rewrite !length_app in Hc. cbn in Hc. lia. }
  set (s4 := set_file (ref_filename name) (reference size) s3).
  assert (Ha : files s4 !! name = Some (reference size)) by (cbn; by rewrite lookup_insert_ne).
  assert (Hb : files s4 !! ref_filename name = Some (reference size)) by (cbn; by rewrite lookup_insert_eq).
  assert (Hz : compare_files system name (ref_filename name) s4 = 0) by (apply Hcmp; rewrite Ha, Hb; eauto).
  rewrite Hz. exists s4. split; [done|]. split_and!; [done|done| |].
  - intros n H1 H2. cbn. rewrite lookup_insert_ne, F3, F2, F1 by done. cbn. by rewrite lookup_insert_ne.
  - unfold same_process. cbn. rewrite D3, N3, R3, D2, N2, R2, D1, N1, R1. done.
Qed.

(** ** The region that moves *)

(** mmap finds memory that is not in use. *)
Hypothesis Hmmap : forall r n, exists a, mmap r n = Some a /\ r !! a = None /\ a <> 0.
(** pagemap marks the pages of mapped, touched memory present, with their
    frames, and no others. *)
Hypothesis Hpm_in : forall r a, is_Some (r !! a) -> exists e,
  pagemap r a = Some e /\ Z.land e (2 ^ 63) <> 0 /\ 0 < Z.land e (2 ^ 54 - 1) < 2 ^ 52.
Hypothesis Hpm_out : forall r a, r !! a = None -> forall e, pagemap r a = Some e -> Z.land e (2 ^ 63) = 0.

Lemma physical_out a s : regions s !! a = None -> get_physical_address pagemap a s = 0.
Proof.
  intros Hn. unfold get_physical_address. destruct (pagemap (regions s) a) as [e|] eqn:E; [|done].
  by rewrite (Hpm_out _ _ Hn _ E).
Qed.

Lemma physical_in a s : is_Some (regions s !! a) -> get_physical_address pagemap a s <> 0.
Proof.
  intros Hs. destruct (Hpm_in _ _ Hs) as (e & E & Hb & Hp). unfold get_physical_address. rewrite E.
  rewrite (proj2 (Z.eqb_neq _ _) Hb), u64_small; unfold in_u, PAGE_SIZE; lia.
Qed.

Lemma munmap_all a size r l : r !! a = Some l -> length l = size -> munmap a size r = delete a r.
Proof. intros Hl Hn. unfold munmap. by rewrite Hl, Hn, Nat.leb_refl. Qed.

(** The region is moved with its bytes, and nothing is left mapped. *)
Lemma test_mmap_remap_eq s : test_mmap_remap mmap pagemap s = Ok s.
Proof.
  unfold test_mmap_remap. set (size := Z.to_nat (PAGE_SIZE * 2)). clearbody size.
  destruct (Hmmap (regions s) (Z.of_nat size)) as (a1 & E1 & F1 & Z1). rewrite E1. cbn [res_bind].
  unfold memset. cbn [regions set_regions]. rewrite lookup_insert_eq, length_replicate, Nat.ltb_irrefl. cbn [res_bind].
  rewrite drop_replicate, Nat.sub_diag, app_nil_r, insert_insert_eq. unfold set_regions. cbn [regions files fds nmaps].
  set (r1 := <[a1 := replicate size 170]> (regions s)). unfold mmap_remap. cbn [regions files fds nmaps].
  destruct (Hmmap r1 (Z.of_nat size)) as (a2 & E2 & F2 & Z2). rewrite E2.
  assert (Hne : a2 <> a1) by (intros ->; unfold r1 in F2; by rewrite lookup_insert_eq in F2).
  rewrite (proj2 (nonzero_true a1) Z1), lookup_insert_ne by done. unfold r1 at 1.
  rewrite lookup_insert_eq, length_replicate, Nat.ltb_irrefl. cbn [res_bind].
  rewrite (proj2 (nonzero_true a2) Z2). cbn [assert res_bind]. rewrite (proj2 (Z.eqb_neq a1 a2)) by congruence.
  cbn [negb assert res_bind]. rewrite insert_insert_eq, take_replicate, Nat.min_id.
  rewrite (munmap_all a1 size _ (replicate size 170)) by
    (rewrite ?lookup_insert_ne by done; unfold r1; rewrite ?lookup_insert_eq, ?length_replicate; done).
  rewrite delete_insert_ne by done. unfold r1. rewrite delete_insert_id by done.
  set (r2 := <[a2 := _]> (regions s)). set (s2 := Os _ _ _ r2).
  assert (Hr1 : r2 !! a1 = None) by (unfold r2; by rewrite lookup_insert_ne).
  assert (Hr2 : r2 !! a2 = Some (replicate size 170)) by (unfold r2; by rewrite lookup_insert_eq).
  rewrite (physical_out a1 s2 Hr1). rewrite (proj2 (Z.eqb_neq 0 _)) by (symmetry; apply physical_in; eauto).
  cbn [negb assert res_bind]. cbn [s2 regions]. rewrite Hr2. cbn [of_option res_bind].
  assert (Hall : forallb (fun i => default 0 (replicate size 170 !! i) =? 170) (seq 0 size) = true).
  { apply forallb_forall. intros i Hi%in_seq. rewrite lookup_replicate_2 by lia. done. }
  rewrite Hall. cbn [assert res_bind files fds nmaps]. unfold munmap at 2. rewrite Hr1.
  rewrite (munmap_all a2 size _ _ Hr2) by apply length_replicate. unfold r2. rewrite delete_insert_id.
  - by destruct s.
  - unfold r1 in F2. by rewrite lookup_insert_ne in F2.
Qed.

(** ** The program *)

Definition test_files : list string := ["empty.txt"; "small.txt"; "large.txt"].

Lemma unlink_all names s n :
  files (foldl (fun s name => unlink name s) s names) !! n = if decide (n ∈ names) then None else files s !! n.
Proof.
  revert s. induction names as [|x xs IH]; intros s; [done|]. cbn [foldl]. rewrite IH.
  destruct (decide (n ∈ xs)) as [Hi|Hi]; [by rewrite decide_True by (by right)|]. cbn [unlink files].
  destruct (decide (n = x)) as [->|Hx].
  - rewrite decide_True by left. by rewrite lookup_delete_eq.
  - rewrite decide_False by (intros [?|?]%elem_of_cons; done). by rewrite lookup_delete_ne.
Qed.

Lemma unlink_process names s : same_process s (foldl (fun s name => unlink name s) s names).
Proof. revert s. induction names as [|x xs IH]; intros s; [done|]. cbn [foldl]. apply (IH (unlink x s)). Qed.

Lemma same_process_trans s1 s2 s3 : same_process s1 s2 -> same_process s2 s3 -> same_process s1 s3.
Proof. unfold same_process. intuition congruence. Qed.

Lemma mmap_test_main_eq s :
  (forall name, name ∈ test_files -> cmp_agrees name) ->
  exists s', mmap_test_main sys mmap (fun _ => true) pagemap system true s = Ok (0, [true; true; true], s') /\
    same_process s s' /\
    forall n, files s' !! n = if decide (n ∈ test_files ++ map ref_filename test_files) then None else files s !! n.
Proof.
  intros Hcmp. unfold mmap_test_main. cbn [negb]. rewrite test_mmap_remap_eq. cbn [res_bind].
  destruct (test_file_operations_eq "empty.txt" 0 s) as (s1 & E1 & _ & _ & F1 & P1); [done|done|apply Hcmp; set_solver|].
  destruct (test_file_operations_eq "small.txt" (Z.to_nat PAGE_SIZE) s1) as (s2 & E2 & _ & _ & F2 & P2);
    [by vm_compute|done|apply Hcmp; set_solver|].
  destruct (test_file_operations_eq "large.txt" (Z.to_nat LARGE_SIZE) s2) as (s3 & E3 & _ & _ & F3 & P3);
    [by vm_compute|done|apply Hcmp; set_solver|].
  rewrite E1. cbn [res_bind]. rewrite E2. cbn [res_bind]. rewrite E3. cbn [res_bind].
  eexists. split; [reflexivity|]. split.
  - eauto using same_process_trans, unlink_process.
  - intros n. rewrite unlink_all. change (map ref_filename test_files) with ["empty.txt.ref"; "small.txt.ref"; "large.txt.ref"].
    unfold test_files. cbn [app]. destruct (decide _) as [|Hn]; [done|].
    rewrite F3, F2, F1; [done|..]; intros ->; apply Hn; vm_compute; set_solver.
Qed.

End Proof.

(** C38: test.c passes.  With every call succeeding, as root, with memory to be
    had and a pagemap that marks present what is mapped, no assertion fires,
    the three files written through mappings (empty, of one page, of a
    megabyte) are byte for byte the references written through stdio, and the
    program leaves the descriptors, mappings and regions of the process as they
    were and none of its files behind.  Without root it stops at once. *)
Theorem mmap_test_passes mmap pagemap system s :
  (forall r n, exists a, mmap r n = Some a /\ r !! a = None /\ a <> 0) ->
  (forall r a, is_Some (r !! a) -> exists e,
     pagemap r a = Some e /\ Z.land e (2 ^ 63) <> 0 /\ 0 < Z.land e (2 ^ 54 - 1) < 2 ^ 52) ->
  (forall r a, r !! a = None -> forall e, pagemap r a = Some e -> Z.land e (2 ^ 63) = 0) ->
  (forall name, name ∈ test_files -> cmp_agrees system name) ->
  let run := mmap_test_main (Sys true true true true true) mmap (fun _ => true) pagemap system in
  run false s = Ok (1, [], s) /\
  exists s', run true s = Ok (0, [true; true; true], s') /\ same_process s s' /\
    forall n, files s' !! n = if decide (n ∈ test_files ++ map ref_filename test_files) then None else files s !! n.
Proof. intros Hm Hi Ho Hc run. split; [done|]. by apply mmap_test_main_eq. Qed.

(** ** A process *)

(** cmp of the two files a command names. *)
Definition cmp_names (cmd : string) : option string :=
  head (filter (fun name => cmd = "cmp " +:+ name +:+ " " +:+ ref_filename name +:+ " > /dev/null 2>&1") test_files).
Definition demo_cmp (cmd : string) (s : os) : Z :=
  match cmp_names cmd with
  | Some name => if decide (files s !! name = files s !! ref_filename name /\ is_Some (files s !! name)) then 0 else 1
  | None => 2
  end.

Lemma demo_cmp_agrees name : name ∈ test_files -> cmp_agrees demo_cmp name.
Proof.
  intros Hn s.
  assert (E : cmp_names (snprintf256 ("cmp " +:+ name +:+ " " +:+ ref_filename name +:+ " > /dev/null 2>&1")) = Some name).
  { unfold test_files in Hn. rewrite !elem_of_cons, elem_of_nil in Hn.
    destruct Hn as [->|[->|[->|[]]]]; vm_compute; reflexivity. }
  unfold compare_files, demo_cmp. rewrite E. case_decide; split; by intros.
Qed.

Definition demo_mmap (r : gmap Z (list Z)) (_ : Z) : option Z := Some (fresh ({[0]} ∪ dom r)).
Definition demo_pagemap (r : gmap Z (list Z)) (a : Z) : option Z := match r !! a with Some _ => Some (2 ^ 63 + 77) | None => Some 0 end.

Lemma mmap_test_passes_witness :
  exists s', mmap_test_main (Sys true true true true true) demo_mmap (fun _ => true) demo_pagemap demo_cmp true
    (Os {[ "notes" := [1] ]} [] 0 ∅) = Ok (0, [true; true; true], s') /\ files s' !! "notes" = Some [1].
Proof.
  destruct (mmap_test_passes demo_mmap demo_pagemap demo_cmp (Os {[ "notes" := [1] ]} [] 0 ∅))
    as (_ & s' & E & _ & Hf).
  - intros r n. eexists. split; [reflexivity|]. pose proof (is_fresh ({[0]} ∪ dom r)) as Hfr.
    split; [apply not_elem_of_dom; set_solver|set_solver].
  - intros r a [l Hl]. unfold demo_pagemap. rewrite Hl. eexists. split; [reflexivity|]. by vm_compute.
  - intros r a Hn e. unfold demo_pagemap. rewrite Hn. intros [= <-]. reflexivity.
  - exact demo_cmp_agrees.
  - exists s'. split; [exact E|]. rewrite Hf. reflexivity.
Defined.
