(* ===== verification/Ramfs.v ===== *)
(** * The ramfs that keeps a copy on disk (memctrl/ramfs/ramfs.patch)

    fsync of a file of the patched ramfs runs mkdir and cp to bring a copy into
    the directory given by the mount option sync_dir, at the path the file has
    below the root of the ramfs.  The model has the allocations of the code, the
    buffers it builds paths in and the commands it starts; whether an
    allocation succeeds, what d_path returns and how the commands end are
    parameters. *)

From Stdlib Require Import Ascii.
From S2P Require Import Prelude Paths.

(** struct dentry: what the code reads of it. *)
Record dentry := Dentry { d_name : string; d_parent : Z }.

(** struct ramfs_fs_info *)
Record ramfs_fs_info := FsInfo { mode : Z; sync_dir : option string; sync_enabled : bool }.

(** Allocations so far, those not freed, the commands started and the mutex. *)
Record rst := Rst { nalloc : nat; live : gset nat; cmds : list (list string); held : bool }.

(** A pointer to a string of the heap, or NULL. *)
Abbreviation ptr := (option (nat * string)).

(** kasprintf(GFP_KERNEL, "%s/%s/%s", ...) and "%s/%s" *)
Definition sync_path_of (dir rel name : string) : string := dir +:+ slash +:+ rel +:+ slash +:+ name.
Definition sync_pathdir_of (dir rel : string) : string := dir +:+ slash +:+ rel.

(** strcat into a buffer of [cap] bytes. *)
Definition strcat (cap : nat) (buf s : string) : res string :=
  if (String.length buf + String.length s + 1 <=? cap)%nat then Ok (buf +:+ s) else Fault OutOfBounds.

Section Sync.
Variable alloc_ok : nat -> bool.
(** Result of the n-th command. *)
Variable umh : nat -> Z.
(** The path of a dentry, or a negative errno. *)
Variable d_path : Z -> Z + string.

Definition kmalloc_str (s : string) (st : rst) : ptr * rst :=
  if alloc_ok (nalloc st)
  then (Some (nalloc st, s), Rst (S (nalloc st)) ({[nalloc st]} ∪ live st) (cmds st) (held st))
  else (None, Rst (S (nalloc st)) (live st) (cmds st) (held st)).

Definition kfree (p : ptr) (st : rst) : res rst :=
  match p with
  | None => Ok st
  | Some (id, _) =>
      if decide (id ∈ live st) then Ok (Rst (nalloc st) (live st ∖ {[id]}) (cmds st) (held st)) else Fault NullDeref
  end.

Fixpoint kfree_all (ps : list ptr) (st : rst) : res rst :=
  match ps with
  | [] => Ok st
  | p :: ps => let! st := kfree p st in kfree_all ps st
  end.

Definition call_usermodehelper (argv : list string) (st : rst) : Z * rst :=
  (umh (length (cmds st)), Rst (nalloc st) (live st) (cmds st ++ [argv]) (held st)).

(** The result of mkdir is overwritten. *)
Definition ramfs_sync_with_cp (source_path dest_path dest_dir : string) (st : rst) : Z * rst :=
  let '(_, st) := call_usermodehelper ["/bin/mkdir"; "-p"; dest_dir] st in
  call_usermodehelper ["/bin/cp"; source_path; dest_path] st.

(** ** build_relative_dir *)

Variable dentries : gmap Z dentry.
Variable root : Z.

(** The while loop, [n] = 32 - depth: the components and total_len. *)
Fixpoint path_components (n : nat) (temp : Z) (st : rst) : res (list ptr * nat * rst) :=
  match n with
  | O => Ok ([], O, st)
  | S n =>
      if (temp =? 0) || (temp =? root) then Ok ([], O, st)
      else
        let! d := of_option NullDeref (dentries !! temp) in
        let '(p, st) := kmalloc_str (d_name d) st in
        let! (ps, total_len, st) := path_components n (d_parent d) st in
        Ok (p :: ps, (String.length (d_name d) + 1 + total_len)%nat, st)
  end.

(** The for loop, over the components from depth - 1 down to 1. *)
Fixpoint concat_components (cap : nat) (first : bool) (ps : list ptr) (buf : string) : res string :=
  match ps with
  | [] => Ok buf
  | p :: ps =>
      let! buf := if first then Ok buf else strcat cap buf slash in
      let! (_, s) := of_option NullDeref p in
      let! buf := strcat cap buf s in
      concat_components cap false ps buf
  end.

Definition build_relative_dir (dentry : Z) (st : rst) : res (ptr * rst) :=
  let! (ps, total_len, st) := path_components 32 dentry st in
  match ps with
  | [] => Ok (kmalloc_str "." st)
  | _ :: dirs =>
      let '(result, st) := kmalloc_str "" st in
      match result with
      | None => let! st := kfree_all ps st in Ok (None, st)
      | Some (id, buf) =>
          let! buf := concat_components (total_len + 1) true (rev dirs) buf in
          let! st := kfree_all ps st in
          Ok (Some (id, buf), st)
      end
  end.

(** ** ramfs_sync_file_to_disk *)

Definition mutex_lock (st : rst) : res rst :=
  if held st then Fault Deadlock else Ok (Rst (nalloc st) (live st) (cmds st) true).
Definition mutex_unlock (st : rst) : rst := Rst (nalloc st) (live st) (cmds st) false.

(** The label cleanup. *)
Definition cleanup (ret : Z) (ps : list ptr) (st : rst) : res (Z * rst) :=
  let! st := kfree_all ps st in Ok (ret, st).

Definition ramfs_sync_file_to_disk (fsi : option ramfs_fs_info) (dentry : Z) (st : rst) : res (Z * rst) :=
  match fsi with
  | None => Ok (0, st)
  | Some fsi =>
      match sync_enabled fsi, sync_dir fsi with
      | true, Some dir =>
          let! (relative_dir, st) := build_relative_dir dentry st in
          match relative_dir with
          | None => Ok (- ENOMEM, st)
          | Some (_, rel) =>
              let '(path_buffer, st) := kmalloc_str "" st in
              match path_buffer with
              | None => cleanup (- ENOMEM) [relative_dir; None; None; None] st
              | Some _ =>
                  match d_path dentry with
                  | inl err => cleanup err [relative_dir; None; None; path_buffer] st
                  | inr source_path =>
                      let! d := of_option NullDeref (dentries !! dentry) in
                      let '(sync_path, st) := kmalloc_str (sync_path_of dir rel (d_name d)) st in
                      let '(sync_pathdir, st) := kmalloc_str (sync_pathdir_of dir rel) st in
                      match sync_path, sync_pathdir with
                      | Some (_, dest), Some (_, dest_dir) =>
                          let! st := mutex_lock st in
                          let '(ret, st) := ramfs_sync_with_cp source_path dest dest_dir st in
                          let st := mutex_unlock st in
                          cleanup ret [relative_dir; sync_path; sync_pathdir; path_buffer] st
                      | _, _ => cleanup (- ENOMEM) [relative_dir; sync_path; sync_pathdir; path_buffer] st
                      end
                  end
              end
          end
      | _, _ => Ok (0, st)
      end
  end.

Definition ramfs_fsync (fsi : option ramfs_fs_info) (dentry : Z) (st : rst) : res (Z * rst) :=
  ramfs_sync_file_to_disk fsi dentry st.

End Sync.

(** ** Paths below the root *)

(** The names from a dentry up to the root. *)
Inductive chain (dentries : gmap Z dentry) (root : Z) : Z -> list string -> Prop :=
| chain_root : chain dentries root root []
| chain_up d e ns : d <> 0 -> d <> root -> dentries !! d = Some e -> chain dentries root (d_parent e) ns ->
    chain dentries root d (d_name e :: ns).

(** The directory of a path that is given from the file upwards. *)
Definition rel_dir (ns : list string) : string := match ns with [] => "." | _ :: dirs => join (rev dirs) end.

Definition total (ss : list string) : nat := foldr (fun s n => String.length s + 1 + n)%nat 0%nat ss.

(** The strings of [ns] at the addresses from [k] on. *)
Fixpoint ptrs (k : nat) (ns : list string) : list ptr :=
  match ns with [] => [] | s :: ns => Some (k, s) :: ptrs (S k) ns end.

Definition ids (k n : nat) : gset nat := list_to_set (seq k n).

(** Addresses are given out in order. *)
Definition fresh_from (st : rst) : Prop := forall id, id ∈ live st -> (id < nalloc st)%nat.

Definition holds (ps : list ptr) (ss : list string) : Prop := Forall2 (fun p s => exists id, p = Some (id, s)) ps ss.

Lemma total_app xs ys : total (xs ++ ys) = (total xs + total ys)%nat.
Proof. induction xs; cbn; [done|]. unfold total in *. lia. Qed.

Lemma total_rev ss : total (rev ss) = total ss.
Proof. induction ss as [|s ss IH]; [done|]. cbn [rev]. rewrite total_app, IH. unfold total. cbn. lia. Qed.

Lemma ids_S k n : ids k (S n) = {[k]} ∪ ids (S k) n.
Proof. done. Qed.

Lemma elem_of_ids i k n : i ∈ ids k n <-> (k <= i < k + n)%nat.
Proof. unfold ids. rewrite elem_of_list_to_set, elem_of_seq. lia. Qed.

Lemma ptrs_holds k ns : holds (ptrs k ns) ns.
Proof. revert k. induction ns; intros k; constructor; [by eexists|apply IHns]. Qed.

Lemma holds_rev ps ss : holds ps ss -> holds (rev ps) (rev ss).
Proof. induction 1; cbn; [constructor|]. apply Forall2_app; [done|]. by repeat constructor. Qed.

Lemma path_components_eq alloc_ok dentries root n d ns st :
  chain dentries root d ns -> (length ns <= n)%nat ->
  (forall i, (nalloc st <= i < nalloc st + length ns)%nat -> alloc_ok i = true) ->
  path_components alloc_ok dentries root n d st =
    Ok (ptrs (nalloc st) ns, total ns,
        Rst (nalloc st + length ns) (ids (nalloc st) (length ns) ∪ live st) (cmds st) (held st)).
Proof.
  intros Hc. revert n st. induction Hc as [|d e ns H0 Hr Hd _ IH]; intros n st Hn Ha.
  - destruct st. cbn. rewrite Nat.add_0_r, union_empty_l_L. destruct n; cbn; [done|]. by rewrite Z.eqb_refl, orb_true_r.
  - destruct n as [|n]; cbn in Hn; [lia|]. cbn [path_components].
    rewrite (proj2 (Z.eqb_neq _ _) H0), (proj2 (Z.eqb_neq _ _) Hr), Hd. cbn. unfold kmalloc_str.
    rewrite Ha by (cbn; lia). rewrite IH; cbn [nalloc]; [|lia|intros i Hi; apply Ha; cbn; lia]. cbn [res_bind].
    assert (Hids : ids (S (nalloc st)) (length ns) ∪ ({[nalloc st]} ∪ live st) = ids (nalloc st) (S (length ns)) ∪ live st)
      by (rewrite ids_S; set_solver).
    cbn [live cmds held length]. rewrite Hids. do 3 f_equal. lia.
Qed.

Lemma kfree_all_ptrs k ns st :
  ids k (length ns) ⊆ live st ->
  kfree_all (ptrs k ns) st = Ok (Rst (nalloc st) (live st ∖ ids k (length ns)) (cmds st) (held st)).
Proof.
  revert k st. induction ns as [|s ns IH]; intros k st Hsub.
  - destruct st. cbn. by rewrite difference_empty_L.
  - change (length (s :: ns)) with (S (length ns)) in *. rewrite ids_S in *. cbn.
    rewrite decide_True by set_solver. cbn. rewrite IH; cbn.
    + do 2 f_equal. set_solver.
    + assert (k ∉ ids (S k) (length ns)) by (rewrite elem_of_ids; lia). set_solver.
Qed.

Lemma strcat_fits cap buf s :
  (String.length buf + String.length s + 1 <= cap)%nat -> strcat cap buf s = Ok (buf +:+ s).
Proof. intros H. unfold strcat. by rewrite (proj2 (Nat.leb_le _ _) H). Qed.

(** total_len is enough for the directories and their separators. *)
Lemma concat_components_eq cap ps ss first buf :
  holds ps ss -> (String.length buf + total ss + 1 <= cap)%nat ->
  concat_components cap first ps buf = Ok (buf +:+ (if first then join ss else tail_join ss)).
Proof.
  intros Hh. revert first buf. induction Hh as [|p s ps ss [id ->] _ IH]; intros first buf Hc.
  - cbn. destruct first; by rewrite str_app_nil.
  - change (total (s :: ss)) with (String.length s + 1 + total ss)%nat in Hc. cbn [concat_components]. destruct first; cbn.
    + rewrite strcat_fits by lia. cbn. rewrite IH by (rewrite str_len; lia). by rewrite str_app_assoc.
    + rewrite strcat_fits by (cbn; lia). cbn. rewrite strcat_fits by (rewrite str_len; cbn; lia). cbn.
      rewrite IH by (rewrite !str_len; cbn; lia). f_equal. cbn. by rewrite !str_app_assoc.
Qed.

(** The state after [n] allocations of which [new] are still there. *)
Definition grew (n : nat) (new : gset nat) (st : rst) : rst :=
  Rst (nalloc st + n) (new ∪ live st) (cmds st) (held st).

Section Spec.
Variable alloc_ok : nat -> bool.
Variable dentries : gmap Z dentry.
Variable root : Z.

(** The components of the path can be copied. *)
Definition names_copied (ns : list string) (st : rst) : Prop :=
  forall i, (nalloc st <= i < nalloc st + length ns)%nat -> alloc_ok i = true.

Lemma build_relative_dir_eq d ns st :
  chain dentries root d ns -> (length ns <= 32)%nat -> fresh_from st -> names_copied ns st ->
  let id := (nalloc st + length ns)%nat in
  build_relative_dir alloc_ok dentries root d st =
    Ok (if alloc_ok id then (Some (id, rel_dir ns), grew (length ns + 1) {[id]} st) else (None, grew (length ns + 1) ∅ st)).
Proof.
  intros Hc Hn Hf Ha id. unfold build_relative_dir. rewrite (path_components_eq _ _ _ 32 d ns st Hc Hn Ha).
  cbn [res_bind]. unfold grew. destruct ns as [|n ns].
  - cbn. unfold kmalloc_str. cbn. subst id. cbn. rewrite !Nat.add_0_r, (Nat.add_comm (nalloc st) 1).
    destruct (alloc_ok (nalloc st)); do 3 f_equal; set_solver.
  - cbn [ptrs]. unfold kmalloc_str. cbn [nalloc live cmds held]. fold id.
    assert (Hids : forall i, i ∈ ids (nalloc st) (length (n :: ns)) -> (i < id)%nat /\ i ∉ live st).
    { intros i Hi%elem_of_ids. split; [subst id; lia|]. intros Hl%Hf. lia. }
    assert (Hs : forall new : gset nat, (forall i, i ∈ new -> i ∉ ids (nalloc st) (length (n :: ns))) ->
      (new ∪ (ids (nalloc st) (length (n :: ns)) ∪ live st)) ∖ ids (nalloc st) (length (n :: ns)) = new ∪ live st).
    { intros new Hnew. apply set_eq. intros x. specialize (Hids x). specialize (Hnew x). set_solver. }
    change (Some (nalloc st, n) :: ptrs (S (nalloc st)) ns) with (ptrs (nalloc st) (n :: ns)).
    replace (nalloc st + (length (n :: ns) + 1))%nat with (S id) by (subst id; lia). destruct (alloc_ok id).
    + rewrite (concat_components_eq _ _ (rev ns)).
      * cbn [res_bind]. rewrite kfree_all_ptrs by (cbn [live]; set_solver). cbn [res_bind live nalloc cmds held].
        rewrite (Hs {[id]}); [done|]. intros i ->%elem_of_singleton [? _]%Hids. lia.
      * apply holds_rev, ptrs_holds.
      * rewrite total_rev. change (total (n :: ns)) with (String.length n + 1 + total ns)%nat. cbn. lia.
    + rewrite kfree_all_ptrs by (cbn [live]; set_solver). cbn [res_bind live nalloc cmds held].
      rewrite <- (Hs ∅) by set_solver. by rewrite union_empty_l_L.
Qed.

(** The pointers a function still holds, freed at its end. *)
Definition ptr_ids (ps : list ptr) : list nat := omap (fun p => fst <$> p) ps.

Lemma kfree_all_eq ps st :
  NoDup (ptr_ids ps) -> (forall id, id ∈ ptr_ids ps -> id ∈ live st) ->
  kfree_all ps st = Ok (Rst (nalloc st) (live st ∖ list_to_set (ptr_ids ps)) (cmds st) (held st)).
Proof.
  revert st. induction ps as [|[[id s]|] ps IH]; intros st Hnd Hin; cbn.
  - destruct st. cbn. by rewrite difference_empty_L.
  - cbn in Hnd, Hin. apply NoDup_cons in Hnd as [Hid Hnd]. rewrite decide_True by (apply Hin; by left). cbn.
    rewrite IH; cbn; [|done|].
    + do 2 f_equal. unfold ptr_ids. set_solver.
    + intros x Hx. apply elem_of_difference. split; [apply Hin; by right|]. intros ->%elem_of_singleton. done.
  - by apply IH.
Qed.

(** The label cleanup gives back what the function allocated. *)
Lemma cleanup_eq ret ps n cs h st :
  fresh_from st -> NoDup (ptr_ids ps) -> (forall id, id ∈ ptr_ids ps -> (nalloc st <= id)%nat) ->
  cleanup ret ps (Rst n (list_to_set (ptr_ids ps) ∪ live st) cs h) = Ok (ret, Rst n (live st) cs h).
Proof.
  intros Hf Hnd Hge. unfold cleanup. rewrite kfree_all_eq; cbn; [|done|set_solver].
  assert (Hs : (list_to_set (ptr_ids ps) ∪ live st) ∖ list_to_set (ptr_ids ps) = live st); [|by rewrite Hs].
  apply set_eq. intros x. specialize (Hge x). specialize (Hf x).
  assert (x ∈ live st -> x ∉ ptr_ids ps) by (intros Hl Hp; specialize (Hf Hl); specialize (Hge Hp); lia). set_solver.
Qed.

(** The two commands that copy a file. *)
Definition copy_cmds (dir src name : string) (ns : list string) : list (list string) :=
  [["/bin/mkdir"; "-p"; sync_pathdir_of dir (rel_dir ns)]; ["/bin/cp"; src; sync_path_of dir (rel_dir ns) name]].

Variable umh : nat -> Z.
Variable d_path : Z -> Z + string.

Ltac give_back st :=
  match goal with |- context [cleanup _ ?ps (Rst ?n ?l ?cs ?h)] =>
    replace l with (list_to_set (ptr_ids ps) ∪ live st) by (cbn; set_solver);
    rewrite cleanup_eq; [|assumption|cbn; repeat constructor; set_solver by lia|cbn; set_solver by lia] end.

(** What fsync does when memory and the path are there *)
Lemma ramfs_fsync_copies fsi dir d e ns src st :
  sync_enabled fsi = true -> sync_dir fsi = Some dir -> dentries !! d = Some e -> chain dentries root d ns ->
  (length ns <= 32)%nat -> fresh_from st -> held st = false -> (forall i, alloc_ok i = true) -> d_path d = inr src ->
  ramfs_fsync alloc_ok umh d_path dentries root (Some fsi) d st =
    Ok (umh (S (length (cmds st))),
        Rst (nalloc st + length ns + 4) (live st) (cmds st ++ copy_cmds dir src (d_name e) ns) false).
Proof.
  intros Hen Hdir He Hc Hn Hf Hh Hall Hp. unfold ramfs_fsync, ramfs_sync_file_to_disk. rewrite Hen, Hdir.
  rewrite (build_relative_dir_eq d ns st Hc Hn Hf) by (intros ? ?; apply Hall). set (id := (nalloc st + length ns)%nat).
  assert (Hid : (nalloc st <= id)%nat) by (subst id; lia). unfold grew.
  replace (nalloc st + (length ns + 1))%nat with (S id) by (subst id; lia). clearbody id.
  rewrite Hall. cbn. unfold kmalloc_str at 1. cbn. rewrite Hall, Hp, He. cbn. unfold kmalloc_str. cbn [nalloc live cmds held].
  rewrite !Hall. cbn [nalloc live cmds held]. unfold mutex_lock. cbn [held]. rewrite Hh. cbn [res_bind].
  unfold ramfs_sync_with_cp, call_usermodehelper, mutex_unlock. cbn [nalloc live cmds held]. give_back st.
  rewrite <- app_assoc, length_app, (Nat.add_comm (length (cmds st))), (Nat.add_comm id 4). done.
Qed.


End Spec.

(** ** Different files have different copies *)

(** The place of a copy as a list of components; the directory of a file in the
    root is the empty string. *)
Definition place (n : string) (dirs : list string) : list string :=
  match dirs with [] => [""; n] | _ => rev dirs ++ [n] end.

Lemma sync_path_place dir n dirs : sync_path_of dir (rel_dir (n :: dirs)) n = dir +:+ tail_join (place n dirs).
Proof.
  unfold sync_path_of. f_equal. destruct dirs as [|d dirs]; [cbn; by rewrite str_app_nil|].
  unfold place, rel_dir. rewrite tail_join_app. destruct (rev (d :: dirs)) as [|x xs] eqn:E.
  { apply (f_equal length) in E. rewrite length_rev in E. done. }
  cbn. by rewrite !str_app_assoc, str_app_nil.
Qed.

Lemma place_inj n1 n2 ds1 ds2 :
  Forall name_ok (n1 :: ds1) -> Forall name_ok (n2 :: ds2) -> place n1 ds1 = place n2 ds2 -> n1 :: ds1 = n2 :: ds2.
Proof.
  assert (Hne : forall n n' d ds, Forall name_ok (n :: d :: ds) -> rev (d :: ds) ++ [n] <> [""; n']).
  { intros n n' d ds Hf E. apply (app_inj_2 (rev (d :: ds)) [""]) in E as [E _]; [|done].
    apply (f_equal (@rev string)) in E. rewrite rev_involutive in E. injection E as -> ->. inversion_clear Hf as [|?? _ Hd].
    by apply Forall_inv in Hd as []. }
  intros H1 H2 E. destruct ds1 as [|d1 ds1], ds2 as [|d2 ds2]; cbn [place] in E.
  - by injection E as ->.
  - symmetry in E. by destruct (Hne _ _ _ _ H2 E).
  - by destruct (Hne _ _ _ _ H1 E).
  - apply app_inj_2 in E as [E [= ->]]; [|done]. f_equal. rewrite <- (rev_involutive (d1 :: ds1)), E. apply rev_involutive.
Qed.

Lemma chain_inj dentries root d1 d2 ns :
  (forall a b ea eb, a <> root -> b <> root -> dentries !! a = Some ea -> dentries !! b = Some eb ->
     d_name ea = d_name eb -> d_parent ea = d_parent eb -> a = b) ->
  chain dentries root d1 ns -> chain dentries root d2 ns -> d1 = d2.
Proof.
  intros Hs Hc. revert d2. induction Hc as [|d e ns H0 Hr Hd _ IH]; intros d2 H2; inversion H2 as [|d' e' ns' H0' Hr' Hd' Hc' Ed En]; subst; [done|].
  eapply Hs; eauto.
Qed.

(** Two files at most 32 levels down are never copied to one place: the
    paths built for different dentries differ.  (The names of a directory are
    distinct, not empty and without a slash.) *)
Theorem ramfs_copies_distinct alloc_ok dentries root dir d1 d2 e1 e2 ns1 ns2 st1 st2 i1 i2 rel1 rel2 st1' st2' :
  (forall a b ea eb, a <> root -> b <> root -> dentries !! a = Some ea -> dentries !! b = Some eb ->
     d_name ea = d_name eb -> d_parent ea = d_parent eb -> a = b) ->
  d1 <> root -> d2 <> root -> dentries !! d1 = Some e1 -> dentries !! d2 = Some e2 ->
  chain dentries root d1 ns1 -> chain dentries root d2 ns2 -> Forall name_ok ns1 -> Forall name_ok ns2 ->
  (length ns1 <= 32)%nat -> (length ns2 <= 32)%nat ->
  fresh_from st1 -> fresh_from st2 -> names_copied alloc_ok ns1 st1 -> names_copied alloc_ok ns2 st2 ->
  build_relative_dir alloc_ok dentries root d1 st1 = Ok (Some (i1, rel1), st1') ->
  build_relative_dir alloc_ok dentries root d2 st2 = Ok (Some (i2, rel2), st2') ->
  d1 <> d2 -> sync_path_of dir rel1 (d_name e1) <> sync_path_of dir rel2 (d_name e2).
Proof.
  intros Hs R1 R2 E1 E2 C1 C2 N1 N2 L1 L2 F1 F2 A1 A2 B1 B2 Hne Heq. apply Hne. clear Hne.
  rewrite (build_relative_dir_eq _ _ _ _ _ _ C1 L1 F1 A1) in B1. rewrite (build_relative_dir_eq _ _ _ _ _ _ C2 L2 F2 A2) in B2.
  destruct (alloc_ok _); [|done]. destruct (alloc_ok _); [|done]. injection B1 as _ <- _. injection B2 as _ <- _.
  pose proof C1 as C1'. pose proof C2 as C2'. inversion C1' as [|? ? ns1' _ _ E1' _]; [by subst|]. inversion C2' as [|? ? ns2' _ _ E2' _]; [by subst|].
  subst. rewrite E1 in E1'. rewrite E2 in E2'. simplify_eq. rewrite !sync_path_place in Heq. apply str_app_inj, tail_join_inj in Heq.
  - apply place_inj in Heq; [|done..]. eapply chain_inj; [done|exact C1|by rewrite Heq].
  - clear -N1. apply Forall_cons in N1 as [[_ N1] Hd]. destruct ns1' as [|x xs]; cbn [place]; [by repeat constructor|].
    apply Forall_app. split; [apply Forall_rev|by constructor]. eapply Forall_impl; [exact Hd|]. by intros ? [].
  - clear -N2. apply Forall_cons in N2 as [[_ N2] Hd]. destruct ns2' as [|x xs]; cbn [place]; [by repeat constructor|].
    apply Forall_app. split; [apply Forall_rev|by constructor]. eapply Forall_impl; [exact Hd|]. by intros ? [].
Qed.

(** ** Concrete file systems *)

(** The root 1 with the directory 2, a, in which 3 is the file f. *)
Definition small_fs : gmap Z dentry := {[ 1 := Dentry "/" 1; 2 := Dentry "a" 1; 3 := Dentry "f" 2 ]}.
Definition idle : rst := Rst 0 ∅ [] false.

Lemma small_chain : chain small_fs 1 3 ["f"; "a"].
Proof.
  apply (chain_up _ _ 3 (Dentry "f" 2)); [done..|]. apply (chain_up _ _ 2 (Dentry "a" 1)); [done..|]. apply chain_root.
Qed.


Lemma small_siblings a b ea eb :
  a <> 1 -> b <> 1 -> small_fs !! a = Some ea -> small_fs !! b = Some eb -> d_name ea = d_name eb -> d_parent ea = d_parent eb -> a = b.
Proof.
  assert (Hin : forall a ea, a <> 1 -> small_fs !! a = Some ea -> (a = 2 /\ ea = Dentry "a" 1) \/ (a = 3 /\ ea = Dentry "f" 2)).
  { intros x ex Hx H. unfold small_fs in H. apply lookup_insert_Some in H as [[<- _]|[_ H]]; [done|].
    apply lookup_insert_Some in H as [[<- <-]|[_ H]]; [by left|]. apply lookup_singleton_Some in H as [<- <-]. by right. }
  intros Ha Hb Ea Eb Hn _. destruct (Hin _ _ Ha Ea) as [[-> ->]|[-> ->]], (Hin _ _ Hb Eb) as [[-> ->]|[-> ->]]; done.
Qed.

Lemma ramfs_copies_distinct_witness :
  sync_path_of "/disk" "" "a" <> sync_path_of "/disk" "a" "f".
Proof.
  assert (Hok : forall s, negb (String.eqb s "") && no_slash s = true -> name_ok s).
  { intros s [Hs ?]%andb_prop. split; [|done]. by apply negb_true_iff, String.eqb_neq in Hs. }
  eapply (ramfs_copies_distinct (fun _ => true) small_fs 1 "/disk" 2 3 (Dentry "a" 1) (Dentry "f" 2) ["a"] ["f"; "a"] idle idle).
  - exact small_siblings.
  - done.
  - done.
  - reflexivity.
  - reflexivity.
  - apply (chain_up _ _ 2 (Dentry "a" 1)); [done..|]. apply chain_root.
  - exact small_chain.
  - repeat constructor; by apply Hok.
  - repeat constructor; by apply Hok.
  - cbn. lia.
  - cbn. lia.
  - intros i Hi. set_solver.
  - intros i Hi. set_solver.
  - done.
  - done.
  - vm_compute. reflexivity.
  - vm_compute. reflexivity.
  - done.
Defined.

(** Thirty-four levels: the directory at the top is t1 or t2. *)
Definition deep_branch (b : Z) (top : string) : list (Z * dentry) :=
  (fun i => (b + i, if i =? 33 then Dentry top 1 else Dentry "x" (b + i + 1))) <$> seqZ 0 34.
Definition deep_fs : gmap Z dentry := list_to_map (deep_branch 100 "t1" ++ deep_branch 200 "t2").

(** Below 32 levels the top of the path is lost: files of different
    directories are copied to one place. *)
Lemma deep_files_collide :
  exists rel st1 st2, build_relative_dir (fun _ => true) deep_fs 1 100 idle = Ok (Some rel, st1) /\
    build_relative_dir (fun _ => true) deep_fs 1 200 idle = Ok (Some rel, st2) /\ deep_fs !! 133 <> deep_fs !! 233.
Proof. eexists _, _, _. split; [|split]; [vm_compute; reflexivity..|vm_compute; congruence]. Qed.
