(* ===== verification/RamfsMount.v ===== *)
(** * Mounting the persistent ramfs (memctrl/ramfs/ramfs.patch)

    The mount option sync_dir in ramfs_parse_param, its check in
    ramfs_fill_super and the release of a context in ramfs_free_fc, with the
    string the option owns on the heap of Ramfs.v.  The caller, which hands the
    options over one by one and stops at the first error, is in the VFS;
    fs_parse and kern_path are its functions too, and their results are
    arguments. *)

From S2P Require Import Prelude Paths Ramfs.

(** What fs_parse makes of an option: its number with the value, or an error. *)
Inductive parsed :=
| Opt_mode (uint_32 : Z)
| Opt_sync_dir (string : string)
| parse_error (opt : Z).

(** struct ramfs_fs_info, with sync_dir a pointer. *)
Record mount_info := MountInfo { m_mode : Z; m_sync_dir : ptr; m_sync_enabled : bool }.

Definition ENOPARAM : Z := 519.
(** 07777 *)
Definition S_IALLUGO : Z := 4095.

Section Mount.
Variable alloc_ok : nat -> bool.

Definition ramfs_parse_param (param : parsed) (fsi : mount_info) (st : rst) : res (Z * mount_info * rst) :=
  match param with
  | parse_error opt => Ok (if opt =? - ENOPARAM then 0 else opt, fsi, st)
  | Opt_mode v => Ok (0, MountInfo (Z.land v S_IALLUGO) (m_sync_dir fsi) (m_sync_enabled fsi), st)
  | Opt_sync_dir s =>
      let! st := kfree (m_sync_dir fsi) st in
      let '(p, st) := kmalloc_str alloc_ok s st in
      match p with
      | None => Ok (- ENOMEM, MountInfo (m_mode fsi) None (m_sync_enabled fsi), st)
      | Some _ => Ok (0, MountInfo (m_mode fsi) p true, st)
      end
  end.

(** The options in their order, up to the first error. *)
Fixpoint parse_params (params : list parsed) (fsi : mount_info) (st : rst) : res (Z * mount_info * rst) :=
  match params with
  | [] => Ok (0, fsi, st)
  | param :: params =>
      let! (r, st) := ramfs_parse_param param fsi st in
      let '(ret, fsi) := r in
      if nonzero ret then Ok (ret, fsi, st) else parse_params params fsi st
  end.

(** The lines of ramfs_fill_super on sync_dir: the mutex is new, and a
    directory that cannot be reached turns the copies off. *)
Definition fill_super_sync (kern_path : string -> Z) (fsi : mount_info) (st : rst) : mount_info * rst :=
  let st := Rst (nalloc st) (live st) (cmds st) false in
  match m_sync_enabled fsi, m_sync_dir fsi with
  | true, Some (_, dir) =>
      if nonzero (kern_path dir) then (MountInfo (m_mode fsi) (m_sync_dir fsi) false, st) else (fsi, st)
  | _, _ => (fsi, st)
  end.

(** ramfs_free_fc; s_fs_info is the address of the structure and its contents. *)
Definition ramfs_free_fc (s_fs_info : option (nat * mount_info)) (st : rst) : res rst :=
  match s_fs_info with
  | None => Ok st
  | Some (id, fsi) =>
      let! st := kfree (m_sync_dir fsi) st in
      kfree (Some (id, "")) st
  end.

End Mount.

(** What fsync reads of the structure. *)
Definition fs_info_of (fsi : mount_info) : ramfs_fs_info :=
  FsInfo (m_mode fsi) (snd <$> m_sync_dir fsi) (m_sync_enabled fsi).

(** ** The options *)

(** The value of the last option of a kind. *)
Definition last_mode (params : list parsed) (m : Z) : Z :=
  fold_left (fun m p => match p with Opt_mode v => Z.land v S_IALLUGO | _ => m end) params m.
Definition last_dir (params : list parsed) (d : option string) : option string :=
  fold_left (fun d p => match p with Opt_sync_dir s => Some s | _ => d end) params d.

(** The string of the option is allocated, apart from the [n] allocations made
    before the context, and it is all the context has. *)
Definition owns (base : gset nat) (n : nat) (fsi : mount_info) (st : rst) : Prop :=
  fresh_from st /\ (n <= nalloc st)%nat /\
  live st = list_to_set (ptr_ids [m_sync_dir fsi]) ∪ base /\ forall id, id ∈ ptr_ids [m_sync_dir fsi] -> (n <= id)%nat.

Lemma kfree_dir base n fsi st :
  owns base n fsi st -> (forall id, id ∈ base -> (id < n)%nat) ->
  kfree (m_sync_dir fsi) st = Ok (Rst (nalloc st) base (cmds st) (held st)).
Proof.
  intros (_ & _ & Hl & Hid) Hb. destruct (m_sync_dir fsi) as [[id s]|]; cbn in Hl, Hid.
  - cbn. rewrite Hl, decide_True by set_solver. do 2 f_equal.
    assert (id ∉ base) by (intros Hin%Hb; specialize (Hid id ltac:(set_solver)); lia). set_solver.
  - cbn. destruct st; cbn in *. rewrite Hl. do 2 f_equal. set_solver.
Qed.

Section Options.
Variable alloc_ok : nat -> bool.
Variables (base : gset nat) (n : nat).
Hypothesis Hbase : forall id, id ∈ base -> (id < n)%nat.

(** A parameter keeps what the context owns in order. *)
Lemma parse_param_owns param fsi st :
  owns base n fsi st ->
  exists ret fsi' st', ramfs_parse_param alloc_ok param fsi st = Ok (ret, fsi', st') /\
    owns base n fsi' st' /\ cmds st' = cmds st /\ held st' = held st /\
    (ret = 0 ->
       m_mode fsi' = last_mode [param] (m_mode fsi) /\
       snd <$> m_sync_dir fsi' = last_dir [param] (snd <$> m_sync_dir fsi) /\
       m_sync_enabled fsi' = match param with Opt_sync_dir _ => true | _ => m_sync_enabled fsi end).
Proof.
  intros Ho. destruct param as [v|s|opt]; cbn [ramfs_parse_param].
  - eexists _, _, _. split; [done|]. by split_and!.
  - rewrite (kfree_dir base n fsi st Ho Hbase). cbn [res_bind].
    destruct Ho as (Hf & Hn & _ & _). unfold kmalloc_str. cbn [nalloc live cmds held].
    destruct (alloc_ok (nalloc st)); eexists _, _, _; (split; [reflexivity|]);
      (split_and!; [|done|done|done]); (split_and!; cbn; [|lia|set_solver|set_solver by lia]);
      intros id Hid; cbn in *; [apply elem_of_union in Hid as [->%elem_of_singleton|Hid]; [lia|]|];
      specialize (Hbase id Hid); lia.
  - eexists _, _, _. split; [done|]. by split_and!.
Qed.

Lemma parse_params_owns params fsi st :
  owns base n fsi st ->
  exists ret fsi' st', parse_params alloc_ok params fsi st = Ok (ret, fsi', st') /\
    owns base n fsi' st' /\ cmds st' = cmds st /\ held st' = held st /\
    (ret = 0 ->
       m_mode fsi' = last_mode params (m_mode fsi) /\
       snd <$> m_sync_dir fsi' = last_dir params (snd <$> m_sync_dir fsi) /\
       (m_sync_enabled fsi = bool_decide (is_Some (m_sync_dir fsi)) ->
        m_sync_enabled fsi' = bool_decide (is_Some (m_sync_dir fsi')))).
Proof.
  revert fsi st. induction params as [|param params IH]; intros fsi st Ho.
  - eexists _, _, _. split; [done|]. by split_and!.
  - cbn [parse_params]. destruct (parse_param_owns param fsi st Ho) as (ret & fsi1 & st1 & E & Ho1 & Hc & Hh & Hr).
    rewrite E. cbn [res_bind]. unfold nonzero. destruct (Z.eqb_spec ret 0) as [->|Hne]; cbn [negb].
    + destruct (IH fsi1 st1 Ho1) as (ret & fsi' & st' & E' & Ho' & Hc' & Hh' & Hr').
      destruct (Hr eq_refl) as (Hm & Hd & He). exists ret, fsi', st'. split; [done|].
      split_and!; [done|congruence|congruence|]. intros Hz. destruct (Hr' Hz) as (Hm' & Hd' & He').
      split_and!; [by rewrite Hm', Hm|by rewrite Hd', Hd|].
      intros Hen. apply He'. rewrite He. destruct param; cbn in Hd; rewrite ?Hen;
        destruct (m_sync_dir fsi1), (m_sync_dir fsi); done.
    + exists ret, fsi1, st1. by split_and!.
Qed.

End Options.

(** ** From the options to fsync *)

(** C20: mounting with any options, allocations succeeding or not.  No option
    frees a string twice or loses one: releasing the context afterwards, also
    after an error, leaves exactly the memory there was before, without the
    structure itself.  When every option is accepted the last one of each kind
    counts; fsync then copies a file at most 32 levels down into the directory
    of the last sync_dir, and does nothing when there was no such option or
    ramfs_fill_super could not reach the directory. *)
Theorem ramfs_mount_spec alloc_ok umh d_path dentries root kern_path params m0 id st :
  fresh_from st -> id ∈ live st ->
  exists ret fsi st1, parse_params alloc_ok params (MountInfo m0 None false) st = Ok (ret, fsi, st1) /\
    (exists st2, ramfs_free_fc (Some (id, fsi)) st1 = Ok st2 /\ live st2 = live st ∖ {[id]}) /\
    (ret = 0 ->
       let '(fsi', st3) := fill_super_sync kern_path fsi st1 in
       let fsync d := ramfs_fsync alloc_ok umh d_path dentries root (Some (fs_info_of fsi')) d st3 in
       m_mode fsi' = last_mode params m0 /\
       match last_dir params None with
       | Some dir =>
           if kern_path dir =? 0 then
             forall d e ns src,
               dentries !! d = Some e -> chain dentries root d ns -> (length ns <= 32)%nat ->
               (forall i, alloc_ok i = true) -> d_path d = inr src ->
               exists st4, fsync d = Ok (umh (S (length (cmds st3))), st4) /\ live st4 = live st3 /\
                 cmds st4 = cmds st3 ++ copy_cmds dir src (d_name e) ns
           else forall d, fsync d = Ok (0, st3)
       | None => forall d, fsync d = Ok (0, st3)
       end).
Proof.
  intros Hf Hid.
  destruct (parse_params_owns alloc_ok (live st) (nalloc st) Hf params (MountInfo m0 None false) st)
    as (ret & fsi & st1 & E & Ho & Hc & Hh & Hr).
  { split_and!; [done|lia|cbn; set_solver|cbn; set_solver]. }
  exists ret, fsi, st1. split; [done|]. split.
  { unfold ramfs_free_fc. rewrite (kfree_dir (live st) (nalloc st) fsi st1 Ho Hf). cbn [res_bind kfree live].
    rewrite decide_True by done. eexists. split; [reflexivity|done]. }
  intros Hz. destruct (Hr Hz) as (Hm & Hd & He). specialize (He eq_refl). cbn [m_mode m_sync_dir fmap option_fmap option_map] in Hm, Hd.
  unfold fill_super_sync. rewrite He, <- Hd. destruct fsi as [m dirp en]. cbn [m_mode m_sync_dir m_sync_enabled] in *.
  destruct dirp as [[i dir]|]; cbn in He; subst en; cbn [bool_decide fmap option_fmap option_map snd]; [|by split].
  unfold nonzero. destruct (kern_path dir =? 0) eqn:Ek; cbn [negb]; [|by split].
  split; [done|]. intros d e ns src Hde Hch Hn Hal Hp. destruct Ho as (Hf1 & _).
  eexists. split; [by eapply ramfs_fsync_copies|done].
Qed.

(** ** The script of the directory

    memctrl/ramfs/test.sh mounts with sync_dir=/tmp/ramfs_sync and runs fsync on
    test.txt and on 233/test2.txt. *)

Definition script_fs : gmap Z dentry :=
  {[ 1 := Dentry "/" 1; 2 := Dentry "test.txt" 1; 3 := Dentry "233" 1; 4 := Dentry "test2.txt" 3 ]}.

Lemma ramfs_mount_spec_witness :
  exists fsi st1, parse_params (fun _ => true) [Opt_mode 511; Opt_sync_dir "/tmp"; Opt_sync_dir "/tmp/ramfs_sync"]
      (MountInfo 493 None false) (Rst 1 {[0%nat]} [] false) = Ok (0, fsi, st1) /\
    let '(fsi', st3) := fill_super_sync (fun _ => 0) fsi st1 in
    exists st4, ramfs_fsync (fun _ => true) (fun _ => 0) (fun _ => inr "/mnt/ramfs/233/test2.txt") script_fs 1
        (Some (fs_info_of fsi')) 4 st3 = Ok (0, st4) /\
      cmds st4 = [["/bin/mkdir"; "-p"; "/tmp/ramfs_sync/233"];
                  ["/bin/cp"; "/mnt/ramfs/233/test2.txt"; "/tmp/ramfs_sync/233/test2.txt"]].
Proof.
  destruct (ramfs_mount_spec (fun _ => true) (fun _ => 0) (fun _ => inr "/mnt/ramfs/233/test2.txt") script_fs 1
    (fun _ => 0) [Opt_mode 511; Opt_sync_dir "/tmp"; Opt_sync_dir "/tmp/ramfs_sync"] 493 0
    (Rst 1 {[0%nat]} [] false)) as (ret & fsi & st1 & E & _ & Hok).
  - intros i Hi. cbn in Hi. apply elem_of_singleton in Hi as ->. cbn. lia.
  - set_solver.
  - assert (Er : ret = 0 /\ cmds st1 = []) by (vm_compute in E; by simplify_eq). destruct Er as [-> Ec].
    exists fsi, st1. split; [exact E|]. specialize (Hok eq_refl). revert Hok. unfold fill_super_sync.
    assert (Ef : m_sync_enabled fsi = true /\ m_sync_dir fsi = Some (2%nat, "/tmp/ramfs_sync")) by (vm_compute in E; by simplify_eq).
    destruct Ef as [-> ->]. intros [_ Hok].
    destruct (Hok 4 (Dentry "test2.txt" 3) ["test2.txt"; "233"] "/mnt/ramfs/233/test2.txt") as (st4 & E4 & _ & Ec4).
    + reflexivity.
    + apply (chain_up _ _ 4 (Dentry "test2.txt" 3)); [done..|]. apply (chain_up _ _ 3 (Dentry "233" 1)); [done..|].
      apply chain_root.
    + cbn. lia.
    + reflexivity.
    + reflexivity.
    + exists st4. split; [exact E4|]. rewrite Ec4. cbn [cmds]. rewrite Ec. reflexivity.
Defined.
