(* ===== verification/RamfsTest.v ===== *)
(** * The programs that test the persistent ramfs (memctrl/ramfs/test1.c to test3.c)

    The programs write to a file of the ramfs and call fsync.  What they need of
    the file system is a class: the contents of the file, the copy on disk, and
    that an fsync that returns 0 makes them equal.  The ramfs of [Ramfs] is an
    instance, where fsync starts cp. *)

From stdpp Require Import gmap pretty.
From S2P Require Import Prelude Paths Ramfs.

Abbreviation octets := (list Z).

(** A file with a copy on disk *)
Class Durable := {
  dstate : Type;
  dok : dstate -> Prop;
  file : dstate -> octets;
  copy : dstate -> option octets;
  put : octets -> dstate -> dstate;
  dsync : dstate -> Z * dstate;
  ok_put : forall b s, dok s -> dok (put b s);
  file_put : forall b s, file (put b s) = b;
  copy_put : forall b s, copy (put b s) = copy s;
  ok_sync : forall s, dok s -> dok (dsync s).2;
  file_sync : forall s, dok s -> file (dsync s).2 = file s;
  copy_sync : forall s, dok s -> (dsync s).1 = 0 -> copy (dsync s).2 = Some (file s) }.

(** ** The ramfs keeps the promise *)

Section RamfsDurable.
Variables (alloc_ok : nat -> bool) (umh : nat -> Z) (d_path : Z -> Z + string).
Variables (dentries : gmap Z dentry) (root : Z).
Variables (fsi : ramfs_fs_info) (dir : string) (d : Z) (e : dentry) (ns : list string) (src : string).
(** What a cp that fails leaves of its target *)
Variable cp_fails : option octets -> octets -> option octets.

Definition dst : string := sync_path_of dir (rel_dir ns) (d_name e).

Hypothesis Henabled : sync_enabled fsi = true.
Hypothesis Hdir : sync_dir fsi = Some dir.
Hypothesis Hd : dentries !! d = Some e.
Hypothesis Hchain : chain dentries root d ns.
Hypothesis Hdepth : (length ns <= 32)%nat.
Hypothesis Halloc : forall i, alloc_ok i = true.
Hypothesis Hpath : d_path d = inr src.
Hypothesis Hapart : src <> dst.

(** The contents of all files by path, and the state of the ramfs *)
Record machine := Machine { m_files : gmap string octets; m_rst : rst }.

(** cp copies; mkdir changes no file. *)
Definition run_cmd (ret : Z) (argv : list string) (fs : gmap string octets) : gmap string octets :=
  match argv with
  | [prog; a; b] =>
      if String.eqb prog "/bin/cp" then
        let old := default [] (fs !! a) in
        if ret =? 0 then <[b := old]> fs
        else match cp_fails (fs !! b) old with Some c => <[b := c]> fs | None => delete b fs end
      else fs
  | _ => fs
  end.

Fixpoint run_cmds (k : nat) (l : list (list string)) (fs : gmap string octets) : gmap string octets :=
  match l with [] => fs | argv :: l => run_cmds (S k) l (run_cmd (umh k) argv fs) end.

(** fsync and the commands it starts; it does not fault. *)
Definition machine_fsync (m : machine) : Z * machine :=
  match ramfs_fsync alloc_ok umh d_path dentries root (Some fsi) d (m_rst m) with
  | Ok (ret, st) =>
      let k := length (cmds (m_rst m)) in (ret, Machine (run_cmds k (drop k (cmds st)) (m_files m)) st)
  | Fault _ => (-1, m)
  end.

Definition machine_ok (m : machine) : Prop := fresh_from (m_rst m) /\ held (m_rst m) = false.

Lemma machine_fsync_eq m :
  machine_ok m ->
  let k := length (cmds (m_rst m)) in
  machine_fsync m =
    (umh (S k), Machine (run_cmd (umh (S k)) ["/bin/cp"; src; dst] (m_files m))
       (Rst (nalloc (m_rst m) + length ns + 4) (live (m_rst m)) (cmds (m_rst m) ++ copy_cmds dir src (d_name e) ns) false)).
Proof.
  intros [Hf Hh] k. unfold machine_fsync.
  rewrite (ramfs_fsync_copies _ _ _ _ _ fsi dir d e ns src) by done. cbn [cmds]. rewrite drop_app_length. fold k. done.
Qed.

#[export] Program Instance ramfs_durable : Durable := {|
  dstate := machine; dok := machine_ok;
  file m := default [] (m_files m !! src); copy m := m_files m !! dst;
  put b m := Machine (<[src := b]> (m_files m)) (m_rst m); dsync := machine_fsync |}.
Next Obligation. done. Qed.
Next Obligation. intros b m. cbn. by rewrite lookup_insert_eq. Qed.
Next Obligation. intros b m. cbn. by rewrite lookup_insert_ne. Qed.
Next Obligation.
  intros m [Hf Hh]. rewrite machine_fsync_eq by done. split; [|done]. intros id Hid. cbn in *. specialize (Hf id Hid). lia.
Qed.
Next Obligation.
  intros m Hm. rewrite machine_fsync_eq by done. cbn. unfold run_cmd. cbn.
  repeat case_match; rewrite ?lookup_insert_ne, ?lookup_delete_ne by done; done.
Qed.
Next Obligation.
  intros m Hm. rewrite machine_fsync_eq by done. cbn [fst snd m_files]. intros Hr. rewrite Hr. unfold run_cmd.
  rewrite String.eqb_refl, Z.eqb_refl. apply lookup_insert_eq.
Qed.
End RamfsDurable.

(** ** test1.c: one file, written in pieces *)

Definition FILE_SIZE_MB : Z := 64.
Definition TIMER_INTERVAL_SECONDS : Z := 5.
Definition total_size : Z := FILE_SIZE_MB * 1024 * 1024.
Definition chunk : Z := 1 * 1024 * 1024.

(** write at the position [pos] inside or at the end of the file *)
Definition overwrite (b data : octets) (pos : nat) : octets := take pos b ++ data ++ drop (pos + length data) b.

Lemma overwrite_app b d1 d2 :
  overwrite (overwrite b d1 0) d2 (length d1) = overwrite b (d1 ++ d2) 0.
Proof.
  unfold overwrite. rewrite !take_0, !app_nil_l, !Nat.add_0_l, take_app_length, <- app_assoc. do 2 f_equal.
  rewrite drop_app_ge by lia. rewrite drop_drop, length_app. f_equal. lia.
Qed.

(** The messages *)
Inductive output_line := Written (mb : Z) | Immediate | Periodic (mb : Z) | Final | Completed | WriteError | OpenFailed.

Create HintDb rounds discriminated.

Section Test1.
Context `{Durable}.
(** The result of open, whether malloc succeeds, and the results of the calls
    of rand, of time and of write, in order. *)
Variables (fd : Z) (malloc_ok : bool) (rand time write_ret : nat -> Z).

Record t1 := T1 { t_fs : dstate; t_pos : nat; t_rands : nat; t_times : nat; t_writes : nat; t_out : list output_line }.

(** How the program ends *)
Inductive ending := OutOfFuel | Exit (code : Z) (s : t1) | Segfault.

(** buf[i] = rand() % 256 for a char *)
Definition random_fill (k : nat) (size : Z) : octets :=
  (fun i => swrap 8 (Z.rem (rand (k + i)) 256)) <$> seq 0 (Z.to_nat size).

Definition say (m : output_line) (s : t1) : t1 := T1 (t_fs s) (t_pos s) (t_rands s) (t_times s) (t_writes s) (t_out s ++ [m]).
Definition fsync (s : t1) : t1 := T1 (dsync (t_fs s)).2 (t_pos s) (t_rands s) (t_times s) (t_writes s) (t_out s).
Definition get_time (s : t1) : Z * t1 :=
  (time (t_times s), T1 (t_fs s) (t_pos s) (t_rands s) (S (t_times s)) (t_writes s) (t_out s)).

(** random_fill(buf, chunk) and write(fd, buf, chunk) *)
Definition fill_and_write (s : t1) : Z * t1 :=
  let buf := random_fill (t_rands s) chunk in
  let ret := write_ret (t_writes s) in
  let done := take (Z.to_nat ret) buf in
  (ret, T1 (put (overwrite (file (t_fs s)) done (t_pos s)) (t_fs s)) (t_pos s + length done)
          (t_rands s + Z.to_nat chunk) (t_times s) (S (t_writes s)) (t_out s)).

Fixpoint test1_loop (fuel : nat) (written last_flush : Z) (s : t1) : ending :=
  match fuel with
  | O => OutOfFuel
  | S fuel =>
      if written <? total_size then
        let '(ret, s) := fill_and_write s in
        if negb (ret =? chunk) then Exit 1 (say WriteError s)
        else
          let mb := (written + chunk) / (1024 * 1024) in
          let s := say (Written mb) s in
          let s := if written =? 0 then say Immediate (fsync s) else s in
          let '(now, s) := get_time s in
          let '(last_flush, s) :=
            if TIMER_INTERVAL_SECONDS <=? now - last_flush then get_time (say (Periodic mb) (fsync s)) else (last_flush, s) in
          test1_loop fuel (written + chunk) last_flush s
      else Exit 0 (say Completed (say Final (fsync s)))
  end.

Definition test1_main (fuel : nat) (fs : dstate) : ending :=
  let s := T1 fs 0 0 0 0 [] in
  if fd <? 0 then Exit 1 (say OpenFailed s)
  else
    let '(last_flush, s) := get_time s in
    if malloc_ok then test1_loop fuel 0 last_flush s else Segfault.

(** The state after [i] complete rounds on a file that held [old] *)
Record rounds (old : octets) (i : nat) (s : t1) : Prop := {
  r_ok : dok (t_fs s);
  r_file : file (t_fs s) = overwrite old (random_fill 0 (Z.of_nat i * chunk)) 0;
  r_pos : t_pos s = (i * Z.to_nat chunk)%nat;
  r_rands : t_rands s = (i * Z.to_nat chunk)%nat;
  r_writes : t_writes s = i }.

Lemma length_random_fill k size : length (random_fill k size) = Z.to_nat size.
Proof. unfold random_fill. by rewrite length_fmap, length_seq. Qed.

Lemma random_fill_app n m : 0 <= n -> 0 <= m -> random_fill 0 n ++ random_fill (Z.to_nat n) m = random_fill 0 (n + m).
Proof.
  intros Hn Hm. unfold random_fill. rewrite Z2Nat.inj_add by lia. rewrite seq_app, fmap_app. f_equal. cbn.
  generalize (Z.to_nat n) (Z.to_nat m). intros a b. clear.
  replace (seq a b) with (Nat.add a <$> seq 0 b) by (rewrite fmap_add_seq; f_equal; lia).
  rewrite <- list_fmap_compose. apply list_fmap_ext. by intros ? x _.
Qed.

Lemma rounds_say old i s m : rounds old i s -> rounds old i (say m s).
Proof. by intros []. Qed.
Lemma rounds_fsync old i s : rounds old i s -> rounds old i (fsync s).
Proof. intros []. split; cbn; try done; [by apply ok_sync|by rewrite file_sync]. Qed.
Lemma rounds_time old i s : rounds old i s -> rounds old i (get_time s).2.
Proof. by intros []. Qed.
#[local] Hint Resolve rounds_say rounds_fsync rounds_time : rounds.

Lemma rounds_write old i s :
  rounds old i s -> write_ret i = chunk -> (fill_and_write s).1 = chunk /\ rounds old (S i) (fill_and_write s).2.
Proof.
  intros [Hok Hf Hp Hr Hw] Hret. unfold fill_and_write. cbn [fst snd]. rewrite Hw, Hret. split; [done|].
  rewrite take_ge by (by rewrite length_random_fill). rewrite Hr, Hp, Hf. split; cbn [t_fs t_pos t_rands t_writes].
  - by apply ok_put.
  - rewrite file_put. pose proof (overwrite_app old (random_fill 0 (Z.of_nat i * chunk)) (random_fill (i * Z.to_nat chunk) chunk)) as Ho.
    rewrite length_random_fill in Ho.
    replace (Z.to_nat (Z.of_nat i * chunk)) with (i * Z.to_nat chunk)%nat in Ho by (unfold chunk; lia). rewrite Ho.
    replace (i * Z.to_nat chunk)%nat with (Z.to_nat (Z.of_nat i * chunk)) by (unfold chunk; lia).
    rewrite random_fill_app by (unfold chunk; lia). do 2 f_equal. lia.
  - rewrite length_random_fill. lia.
  - lia.
  - done.
Qed.

Lemma at_chunk i : (Z.of_nat i * chunk <? total_size) = (i <? 64)%nat.
Proof. unfold total_size, FILE_SIZE_MB, chunk. destruct (Nat.ltb_spec i 64); [apply Z.ltb_lt|apply Z.ltb_ge]; lia. Qed.

Lemma loop_round old i fuel lf s :
  rounds old i s -> (i < 64)%nat -> write_ret i = chunk ->
  exists lf' s', test1_loop (S fuel) (Z.of_nat i * chunk) lf s = test1_loop fuel (Z.of_nat (S i) * chunk) lf' s' /\ rounds old (S i) s'.
Proof.
  intros Hr Hi Hw. destruct (rounds_write old i s Hr Hw) as [Hret Hs]. cbn [test1_loop].
  rewrite at_chunk, (proj2 (Nat.ltb_lt _ _) Hi). destruct (fill_and_write s) as [ret s1]. cbn [fst snd] in Hret, Hs. subst ret.
  rewrite Z.eqb_refl. cbn [negb]. replace (Z.of_nat i * chunk + chunk) with (Z.of_nat (S i) * chunk) by lia.
  set (s2 := if Z.of_nat i * chunk =? 0 then _ else _).
  assert (H2 : rounds old (S i) s2) by (subst s2; destruct (_ =? 0); auto with rounds).
  apply rounds_time in H2 as H3. destruct (get_time s2) as [now s3]. cbn [snd] in H3.
  destruct (_ <=? now - lf); [|by exists lf, s3].
  match goal with |- context [get_time ?x] => assert (H4 : rounds old (S i) (get_time x).2) by auto with rounds;
    destruct (get_time x) as [lf' s4] end. by exists lf', s4.
Qed.

Lemma loop_fails old i fuel lf s :
  rounds old i s -> (i < 64)%nat -> write_ret i <> chunk ->
  exists s', test1_loop (S fuel) (Z.of_nat i * chunk) lf s = Exit 1 s' /\ t_writes s' = S i.
Proof.
  intros [_ _ _ _ Hw] Hi Hf. cbn [test1_loop]. rewrite at_chunk, (proj2 (Nat.ltb_lt _ _) Hi). unfold fill_and_write.
  rewrite Hw, (proj2 (Z.eqb_neq _ _) Hf). by eexists.
Qed.

Lemma loop_ends i fuel lf s :
  (64 <= i)%nat -> test1_loop (S fuel) (Z.of_nat i * chunk) lf s = Exit 0 (say Completed (say Final (fsync s))).
Proof. intros Hi. cbn [test1_loop]. by rewrite at_chunk, (proj2 (Nat.ltb_ge _ _) Hi). Qed.

(** The loop ends with the first write that is not complete, or after 64. *)
Lemma loop_returns old i n fuel lf s :
  rounds old i s -> (i + n = 64)%nat -> (n < fuel)%nat ->
  (exists k s', (i <= k < 64)%nat /\ write_ret k <> chunk /\ (forall j, (i <= j < k)%nat -> write_ret j = chunk) /\
     test1_loop fuel (Z.of_nat i * chunk) lf s = Exit 1 s' /\ t_writes s' = S k) \/
  (exists s', (forall j, (i <= j < 64)%nat -> write_ret j = chunk) /\ rounds old 64 s' /\
     test1_loop fuel (Z.of_nat i * chunk) lf s = Exit 0 (say Completed (say Final (fsync s')))).
Proof.
  revert i fuel lf s. induction n as [|n IH]; intros i fuel lf s Hr Hi Hf; (destruct fuel as [|fuel]; [lia|]).
  - right. exists s. replace i with 64%nat in * by lia. split; [intros; lia|]. split; [done|]. by apply loop_ends.
  - destruct (decide (write_ret i = chunk)) as [Hw|Hw].
    + destruct (loop_round old i fuel lf s Hr ltac:(lia) Hw) as (lf' & s' & -> & Hs').
      assert (Hext : forall k, (forall j, (S i <= j < k)%nat -> write_ret j = chunk) -> forall j, (i <= j < k)%nat -> write_ret j = chunk).
      { intros k Hk j Hj. destruct (decide (j = i)) as [->|]; [done|apply Hk; lia]. }
      destruct (IH (S i) fuel lf' s' Hs' ltac:(lia) ltac:(lia)) as [(k & s2 & Hk & H1 & H2 & H3)|(s2 & H1 & H2 & H3)].
      * left. exists k, s2. repeat split; [lia|lia|done|by apply Hext|apply H3|apply H3].
      * right. exists s2. repeat split; [by apply Hext|apply H2..|done].
    + destruct (loop_fails old i fuel lf s Hr ltac:(lia) Hw) as (s' & Hl & Hs'). left. exists i, s'.
      repeat split; [lia|lia|done|intros; lia|done|done].
Qed.

(** C28: test1.c always ends, whatever open, malloc, write, rand and the clock
    do, after at most 64 rounds.  If every write is complete it exits with 0 and
    the file begins with the 64 MiB of random bytes in the order they were drawn,
    with what was behind them before; and if the last fsync returned 0, the
    copy is the file.  Otherwise it exits with 1 after the first such write. *)
Theorem test1_terminates fuel fs (old := file fs) :
  dok fs -> (64 < fuel)%nat ->
  (fd < 0 -> exists s, test1_main fuel fs = Exit 1 s /\ t_fs s = fs) /\
  (0 <= fd -> malloc_ok = false -> test1_main fuel fs = Segfault) /\
  (0 <= fd -> malloc_ok = true ->
   (exists k s, (k < 64)%nat /\ write_ret k <> chunk /\ (forall j, (j < k)%nat -> write_ret j = chunk) /\
      test1_main fuel fs = Exit 1 s /\ t_writes s = S k) \/
   (exists s before, (forall j, (j < 64)%nat -> write_ret j = chunk) /\ test1_main fuel fs = Exit 0 s /\
      file (t_fs s) = overwrite old (random_fill 0 total_size) 0 /\ dok before /\ t_fs s = (dsync before).2 /\
      ((dsync before).1 = 0 -> copy (t_fs s) = Some (file (t_fs s))))).
Proof.
  intros Hok Hfuel. unfold test1_main. split; [|split].
  - intros Hfd. rewrite (proj2 (Z.ltb_lt _ _) Hfd). by eexists.
  - intros Hfd ->. by rewrite (proj2 (Z.ltb_ge _ _) Hfd).
  - intros Hfd ->. rewrite (proj2 (Z.ltb_ge _ _) Hfd). unfold get_time.
    cbn [t_fs t_pos t_rands t_times t_writes t_out]. set (s0 := T1 fs 0 0 1 0 []). set (lf := time 0).
    assert (Hr : rounds old 0 s0) by (by split).
    destruct (loop_returns old 0 64 fuel lf s0 Hr eq_refl Hfuel) as [(k & s & Hk & H1 & H2 & H3)|(s & H1 & H2 & H3)].
    + left. exists k, s. repeat split; [lia|done|intros; apply H2; lia|apply H3..].
    + right. apply rounds_fsync in H2 as H4. exists (say Completed (say Final (fsync s))), (t_fs s).
      repeat split; [intros; apply H1; lia|done|apply (r_file _ _ _ H4)|apply H2|].
      intros H0. cbn. rewrite (copy_sync _ (r_ok _ _ _ H2) H0), (file_sync _ (r_ok _ _ _ H2)). done.
Qed.
End Test1.

(** ** test2.c: producers and consumers *)

Definition THREAD_PRODUCERS : nat := 10.
Definition THREAD_CONSUMERS : nat := 3.
Definition ITERATIONS : nat := 1000.
Definition ENTRY_SIZE : nat := 128.

(** What snprintf leaves in entry, up to the NUL *)
Definition entry_text (tid stamp : Z) (i : nat) : octets :=
  take (ENTRY_SIZE - 1) (bytes_of ("[TID-" +:+ pretty tid +:+ "] timestamp: " +:+ pretty stamp +:+
    " iteration: " +:+ pretty (Z.of_nat i) +:+ String (Ascii.ascii_of_nat 10) "")).

(** Where a thread is: before open or fopen, before the lock of round [k], inside
    it before and after the call, and at its end *)
Inductive thr := Start | Ready (k : nat) | Locked (k : nat) | Called (k : nat) | Done.
#[export] Instance thr_eq_dec : EqDecision thr.
Proof. solve_decision. Defined.

#[local] Opaque ITERATIONS.

Section Test2.
Context `{Durable}.
(** Whether open succeeds for a producer, whether write does in its round, its
    thread id and the time it reads *)
Variables (open_ok : nat -> bool) (write_ok : nat -> nat -> bool) (tid : nat -> Z) (stamp : nat -> nat -> Z).

Definition is_producer (i : nat) : bool := (i <? THREAD_PRODUCERS)%nat.

(** The lock, whether the file exists, the file system, the threads; the entries
    written, and whether the last fsync returned 0, are for the statements. *)
Record g2 := G2 { g_lock : option nat; g_exists : bool; g_fs : dstate; g_threads : list thr;
  g_log : list (nat * nat); g_synced : bool }.

Definition set_thr (i : nat) (t : thr) (g : g2) : g2 :=
  G2 (g_lock g) (g_exists g) (g_fs g) (<[i := t]> (g_threads g)) (g_log g) (g_synced g).
Definition set_mutex (l : option nat) (g : g2) : g2 :=
  G2 l (g_exists g) (g_fs g) (g_threads g) (g_log g) (g_synced g).

(** open(FILEPATH, O_CREAT | ...) and fopen(FILEPATH, "r+") *)
Definition start_thread (i : nat) (g : g2) : g2 :=
  if is_producer i then
    if open_ok i then G2 (g_lock g) true (g_fs g) (<[i := Ready 0]> (g_threads g)) (g_log g) (g_synced g)
    else set_thr i Done g
  else if g_exists g then set_thr i (Ready 0) g else set_thr i Done g.

(** write with O_APPEND of a producer, fsync of a consumer *)
Definition call_thread (i k : nat) (g : g2) : g2 :=
  if is_producer i then
    if write_ok i k
    then G2 (g_lock g) (g_exists g) (put (file (g_fs g) ++ entry_text (tid i) (stamp i k) k) (g_fs g)) (g_threads g)
           (g_log g ++ [(i, k)]) (g_synced g)
    else g
  else let '(ret, fs) := dsync (g_fs g) in
    G2 (g_lock g) (g_exists g) fs (g_threads g) (g_log g) (ret =? 0).

(** One step of thread [i]; [None] if it is blocked or has ended *)
Definition test2_step (i : nat) (g : g2) : option g2 :=
  match g_threads g !! i with
  | Some Start => Some (start_thread i g)
  | Some (Ready k) =>
      if (k <? ITERATIONS)%nat then
        match g_lock g with None => Some (set_mutex (Some i) (set_thr i (Locked k) g)) | Some _ => None end
      else Some (set_thr i Done g)
  | Some (Locked k) => Some (set_thr i (Called k) (call_thread i k g))
  | Some (Called k) => Some (set_mutex None (set_thr i (Ready (S k)) g))
  | Some Done | None => None
  end.

Definition test2_init (fs : dstate) (there : bool) : g2 :=
  G2 None there fs (replicate (THREAD_PRODUCERS + THREAD_CONSUMERS) Start) [] false.

(** A run of [n] steps of the threads in any order *)
Inductive runs (g0 : g2) : nat -> g2 -> Prop :=
| runs_0 : runs g0 0 g0
| runs_S n g g' i : runs g0 n g -> test2_step i g = Some g' -> runs g0 (S n) g'.

(** The run of a schedule *)
Fixpoint run_schedule (l : list nat) (g : g2) : option g2 :=
  match l with [] => Some g | i :: l => test2_step i g ≫= run_schedule l end.

Lemma runs_schedule l g0 n g g' : runs g0 n g -> run_schedule l g = Some g' -> runs g0 (n + length l) g'.
Proof.
  revert n g. induction l as [|i l IH]; intros n g Hr Hs; cbn in *.
  - injection Hs as <-. by rewrite Nat.add_0_r.
  - destruct (test2_step i g) as [g1|] eqn:E; [|done]. rewrite Nat.add_succ_r. apply (IH (S n) g1); [by econstructor|done].
Qed.

(** *** What the file holds *)

Definition entries (log : list (nat * nat)) : octets := log ≫= (fun '(i, k) => entry_text (tid i) (stamp i k) k).

(** The rounds of [i] whose write has been done *)
Definition rounds_done (t : thr) : nat := match t with Start | Done => 0 | Ready k | Locked k => k | Called k => S k end.

(** The entries a producer has written, in order; at its end they are all of
    its rounds, or none if it could not open the file. *)
Definition own_entries (i : nat) (t : thr) : list (nat * nat) :=
  (fun k => (i, k)) <$> List.filter (write_ok i)
    (seq 0 (match t with Done => if open_ok i then ITERATIONS else 0 | _ => rounds_done t end)).

Definition in_section (t : thr) : bool := match t with Locked _ | Called _ => true | _ => false end.

Definition round_ok (t : thr) : Prop :=
  match t with Ready k => (k <= ITERATIONS)%nat | Locked k | Called k => (k < ITERATIONS)%nat | _ => True end.

(** A thread at [t] fits the log and the lock. *)
Record thr_ok (log : list (nat * nat)) (lock : option nat) (i : nat) (t : thr) : Prop := {
  to_own : is_producer i = true -> List.filter (fun p => Nat.eqb (fst p) i) log = own_entries i t;
  to_round : round_ok t;
  to_opened : is_producer i = true -> t <> Start -> t <> Done -> open_ok i = true;
  to_lock : lock = Some i <-> in_section t = true }.

Record inv2 (old : octets) (g : g2) : Prop := {
  i_ok : dok (g_fs g);
  i_file : file (g_fs g) = old ++ entries (g_log g);
  i_threads : forall i t, g_threads g !! i = Some t -> thr_ok (g_log g) (g_lock g) i t;
  i_count : length (g_threads g) = (THREAD_PRODUCERS + THREAD_CONSUMERS)%nat;
  i_from : Forall (fun p => is_producer (fst p) = true) (g_log g);
  i_owner : forall i, g_lock g = Some i -> is_Some (g_threads g !! i);
  i_synced : g_synced g = true -> exists log, log `prefix_of` g_log g /\ copy (g_fs g) = Some (old ++ entries log) }.

(** Other threads do not see that [i] takes or gives back the lock. *)
Lemma thr_ok_lock log lock lock' i j t :
  i <> j -> (lock = None \/ lock = Some i) -> (lock' = None \/ lock' = Some i) -> thr_ok log lock j t -> thr_ok log lock' j t.
Proof.
  intros Hn Hl Hl' [H1 H2 H3 H4]. split; [done..|]. assert (lock <> Some j) by (destruct Hl; congruence).
  assert (lock' <> Some j) by (destruct Hl'; congruence). tauto.
Qed.

Lemma thr_ok_log log lock i k j t : i <> j -> thr_ok log lock j t -> thr_ok (log ++ [(i, k)]) lock j t.
Proof.
  intros Hn [H1 H2 H3 H4]. split; [|done..]. intros Hp. rewrite List.filter_app, H1 by done. cbn.
  rewrite (proj2 (Nat.eqb_neq _ _) Hn). apply app_nil_r.
Qed.

Lemma threads_update (P Q : nat -> thr -> Prop) (ts : list thr) i t' :
  (forall j t, ts !! j = Some t -> P j t) -> Q i t' -> (forall j t, i <> j -> P j t -> Q j t) ->
  forall j t, <[i := t']> ts !! j = Some t -> Q j t.
Proof.
  intros HP Hi Hj j t Ht. destruct (decide (i = j)) as [<-|Hn].
  - apply list_lookup_insert_Some in Ht as [(_ & <- & _)|[? _]]; done.
  - rewrite list_lookup_insert_ne in Ht by done. auto.
Qed.

(** A step that moves only thread [i] *)
Lemma inv2_move old g i t t' :
  inv2 old g -> g_threads g !! i = Some t -> thr_ok (g_log g) (g_lock g) i t' -> inv2 old (set_thr i t' g).
Proof.
  intros [] Ht Hok. split; cbn; try done.
  - by eapply (threads_update (thr_ok (g_log g) (g_lock g))).
  - by rewrite length_insert.
  - intros j Hj. rewrite lookup_lt_is_Some, length_insert, <- lookup_lt_is_Some. auto.
Qed.

Lemma own_step i k : write_ok i k = true -> own_entries i (Called k) = own_entries i (Locked k) ++ [(i, k)].
Proof. intros Hw. unfold own_entries. cbn [rounds_done]. rewrite seq_S, List.filter_app, fmap_app. cbn. by rewrite Hw. Qed.
Lemma own_skip i k : write_ok i k = false -> own_entries i (Called k) = own_entries i (Locked k).
Proof. intros Hw. unfold own_entries. cbn [rounds_done]. rewrite seq_S, List.filter_app, fmap_app. cbn. rewrite Hw. apply app_nil_r. Qed.

Lemma start_inv old g i : inv2 old g -> g_threads g !! i = Some Start -> inv2 old (start_thread i g).
Proof.
  intros Hi Ht. destruct (i_threads _ _ Hi i _ Ht) as [H1 H2 H3 H4]. cbn in H4.
  assert (Hr : (is_producer i = true -> open_ok i = true) -> inv2 old (set_thr i (Ready 0) g)).
  { intros Ho. eapply inv2_move; [done..|]. split; [exact H1|cbn; lia|auto|exact H4]. }
  assert (Hd : (is_producer i = true -> open_ok i = false) -> inv2 old (set_thr i Done g)).
  { intros Ho. eapply inv2_move; [done..|]. split; [|done..|exact H4]. intros Hp. rewrite H1 by done. unfold own_entries.
    by rewrite Ho. }
  unfold start_thread. destruct (is_producer i).
  - destruct (open_ok i); [|auto]. destruct (Hr (fun _ => eq_refl)) as [? ? ? ? ? ? ?]. by split.
  - destruct (g_exists g); [apply Hr|apply Hd]; done.
Qed.

Lemma lock_inv old g i k :
  inv2 old g -> g_threads g !! i = Some (Ready k) -> (k < ITERATIONS)%nat -> g_lock g = None ->
  inv2 old (set_mutex (Some i) (set_thr i (Locked k) g)).
Proof.
  intros Hi Ht Hk Hl. destruct (i_threads _ _ Hi i _ Ht) as [H1 H2 H3 H4]. destruct Hi as [Hok Hf Hts Hn Hfr Hown Hs].
  split; cbn; try done.
  - eapply threads_update; [exact Hts|split; [exact H1|exact Hk|intros; by apply H3|done]|]. intros j t Hj. apply (thr_ok_lock _ _ _ i); auto.
  - by rewrite length_insert.
  - intros j [= <-]. rewrite lookup_lt_is_Some, length_insert, <- lookup_lt_is_Some. by eexists.
Qed.

Lemma unlock_inv old g i k :
  inv2 old g -> g_threads g !! i = Some (Called k) -> inv2 old (set_mutex None (set_thr i (Ready (S k)) g)).
Proof.
  intros Hi Ht. destruct (i_threads _ _ Hi i _ Ht) as [H1 H2 H3 H4]. destruct Hi as [Hok Hf Hts Hn Hfr Hown Hs].
  cbn in H2. pose proof (proj2 H4 eq_refl) as Hl. split; cbn; try done.
  - eapply threads_update; [exact Hts|split; [exact H1|cbn; lia|intros; by apply H3|by split]|]. intros j t Hj. apply (thr_ok_lock _ _ _ i); auto.
  - by rewrite length_insert.
Qed.

Lemma call_inv old g i k :
  inv2 old g -> g_threads g !! i = Some (Locked k) -> inv2 old (set_thr i (Called k) (call_thread i k g)).
Proof.
  intros Hi Ht. destruct (i_threads _ _ Hi i _ Ht) as [H1 H2 H3 H4].
  assert (Hsame : own_entries i (Called k) = own_entries i (Locked k) \/ is_producer i = false -> inv2 old (set_thr i (Called k) g)).
  { intros Ho. eapply inv2_move; [done..|]. split; [|exact H2|intros; by apply H3|exact H4]. intros Hp. rewrite H1 by done.
    destruct Ho; congruence. }
  unfold call_thread. destruct (is_producer i) eqn:Hp; [destruct (write_ok i k) eqn:Hw|].
  - destruct Hi as [Hok Hf Hts Hn Hfr Hown Hs]. split; cbn.
    + by apply ok_put.
    + rewrite file_put, Hf, <- app_assoc. f_equal. unfold entries. rewrite bind_app. cbn. by rewrite app_nil_r.
    + eapply threads_update; [exact Hts| |intros j t Hj; by apply thr_ok_log].
      split; [|exact H2|intros; by apply H3|exact H4]. intros _.
      rewrite List.filter_app, H1, own_step by done. cbn. by rewrite Nat.eqb_refl.
    + by rewrite length_insert.
    + apply Forall_app. split; [done|]. by constructor.
    + intros j Hj. rewrite lookup_lt_is_Some, length_insert, <- lookup_lt_is_Some. auto.
    + intros Hy. destruct (Hs Hy) as (log & Hlog & Hc). exists log. rewrite copy_put. split; [by apply prefix_app_r|done].
  - apply Hsame. left. by apply own_skip.
  - destruct (Hsame (or_intror eq_refl)) as [Hok Hf Hts Hn Hfr Hown Hs]. cbn in Hok, Hf. unfold call_thread.
    pose proof (ok_sync _ Hok) as Hok'. pose proof (file_sync _ Hok) as Hf'. pose proof (copy_sync _ Hok) as Hc'.
    destruct (dsync (g_fs g)) as [ret fs]. cbn in *. split; cbn; try done; [congruence|].
    intros Hy%Z.eqb_eq. exists (g_log g). split; [done|]. rewrite Hc' by done. by rewrite Hf.
Qed.

Lemma finish_inv old g i k :
  inv2 old g -> g_threads g !! i = Some (Ready k) -> (ITERATIONS <= k)%nat -> inv2 old (set_thr i Done g).
Proof.
  intros Hi Ht Hk. destruct (i_threads _ _ Hi i _ Ht) as [H1 H2 H3 H4]. eapply inv2_move; [done..|].
  split; [|done..|exact H4]. intros Hp. rewrite H1 by done. unfold own_entries. rewrite H3 by done. cbn in H2 |- *.
  by replace k with ITERATIONS by lia.
Qed.

Lemma test2_step_inv old g g' i : inv2 old g -> test2_step i g = Some g' -> inv2 old g'.
Proof.
  unfold test2_step. intros Hi. destruct (g_threads g !! i) as [[|k|k|k|]|] eqn:Ht; [| | | |done..].
  - intros [= <-]. by apply start_inv.
  - destruct (Nat.ltb_spec k ITERATIONS).
    + destruct (g_lock g) eqn:Hl; [done|]. intros [= <-]. by apply lock_inv.
    + intros [= <-]. by apply (finish_inv old g i k).
  - intros [= <-]. by apply call_inv.
  - intros [= <-]. by apply unlock_inv.
Qed.

Lemma test2_init_inv fs there : dok fs -> inv2 (file fs) (test2_init fs there).
Proof.
  intros Hok. split; cbn [test2_init g_fs g_log g_threads g_lock g_synced]; try done.
  - cbn. by rewrite app_nil_r.
  - intros i t [-> _]%lookup_replicate_1. by split.
Qed.

Lemma runs_inv fs there n g : dok fs -> runs (test2_init fs there) n g -> inv2 (file fs) g.
Proof. intros Hok. induction 1; [by apply test2_init_inv|by eapply test2_step_inv]. Qed.

(** *** The threads end *)

(** Steps a thread has still to make *)
Definition todo (t : thr) : nat :=
  match t with
  | Start => 3 * ITERATIONS + 2 | Ready k => 3 * (ITERATIONS - k) + 1 | Locked k => 3 * (ITERATIONS - k)
  | Called k => 3 * (ITERATIONS - k) - 1 | Done => 0
  end%nat.
Definition todos (g : g2) : nat := sum_list_with todo (g_threads g).

Lemma todos_insert (ts : list thr) i t t' :
  ts !! i = Some t -> (sum_list_with todo (<[i := t']> ts) + todo t = sum_list_with todo ts + todo t')%nat.
Proof.
  revert i. induction ts as [|x ts IH]; intros [|i] Ht; [done|done| |].
  - injection Ht as ->. change (todo t' + sum_list_with todo ts + todo t = todo t + sum_list_with todo ts + todo t')%nat. lia.
  - specialize (IH i Ht).
    change (todo x + sum_list_with todo (<[i := t']> ts) + todo t = todo x + sum_list_with todo ts + todo t')%nat. lia.
Qed.

Lemma call_threads i k g : g_threads (call_thread i k g) = g_threads g.
Proof. unfold call_thread. by repeat case_match. Qed.

Lemma test2_step_todos old g g' i : inv2 old g -> test2_step i g = Some g' -> (todos g' < todos g)%nat.
Proof.
  unfold test2_step, todos. intros Hi. destruct (g_threads g !! i) as [[|k|k|k|]|] eqn:Ht; [| | | |done..];
    pose proof (to_round _ _ _ _ (i_threads _ _ Hi i _ Ht)) as Hk; cbn in Hk.
  - pose proof (todos_insert _ i Start (Ready 0) Ht). pose proof (todos_insert _ i Start Done Ht).
    intros [= <-]. unfold start_thread. repeat case_match; cbn in *; lia.
  - destruct (Nat.ltb_spec k ITERATIONS).
    + pose proof (todos_insert _ i _ (Locked k) Ht). destruct (g_lock g); [done|]. intros [= <-]. cbn in *. lia.
    + pose proof (todos_insert _ i _ Done Ht). intros [= <-]. cbn in *. lia.
  - pose proof (todos_insert _ i _ (Called k) Ht). intros [= <-]. cbn [set_thr g_threads]. rewrite call_threads. cbn [todo] in *. lia.
  - pose proof (todos_insert _ i _ (Ready (S k)) Ht). intros [= <-]. cbn in *. lia.
Qed.

(** Whoever holds the lock can go on, and if nobody does everybody can. *)
Lemma thread_progress old g i t :
  inv2 old g -> g_threads g !! i = Some t -> t <> Done -> exists j g', test2_step j g = Some g'.
Proof.
  intros Hi Ht Hd. destruct (g_lock g) as [j|] eqn:Hl.
  - destruct (i_owner _ _ Hi j Hl) as [tj Hj]. pose proof (proj1 (to_lock _ _ _ _ (i_threads _ _ Hi j _ Hj)) Hl) as Hs.
    exists j. unfold test2_step. rewrite Hj. destruct tj; try done; by eexists.
  - exists i. unfold test2_step. rewrite Ht, Hl. destruct t; try done; try (by eexists). case_match; by eexists.
Qed.

Lemma runs_bounded fs there n g :
  dok fs -> runs (test2_init fs there) n g -> (n + todos g <= (THREAD_PRODUCERS + THREAD_CONSUMERS) * (3 * ITERATIONS + 2))%nat.
Proof.
  intros Hok. induction 1 as [|n g g' i Hr IH Hs].
  - unfold todos, test2_init. cbn [g_threads Nat.add]. generalize (THREAD_PRODUCERS + THREAD_CONSUMERS)%nat. intros m.
    induction m as [|m IH]; [done|]. cbn [replicate sum_list_with todo]. lia.
  - pose proof (test2_step_todos _ _ _ _ (runs_inv _ _ _ _ Hok Hr) Hs). lia.
Qed.

End Test2.

(** ** test3.c: a crash after fsync *)

Section Test3.
Context `{Durable}.
(** The results of the two calls of open and of the first write *)
Variables (fd kfd ret : Z).

(** What is left of the file at the end: a crash leaves the copy only. *)
Inductive test3_end := Exited (code : Z) (fs : dstate) | Crashed (disk : option octets).

Definition test3_data : octets := replicate (Z.to_nat (1024 * 1024)) 0.

Definition test3_main (fs : dstate) : test3_end :=
  if fd <? 0 then Exited 1 fs
  else
    let fs := put (overwrite (file fs) (take (Z.to_nat ret) test3_data) 0) fs in
    let '(_, fs) := dsync fs in
    if kfd <? 0 then Exited 1 fs else Crashed (copy fs).

(** The data survive the crash if write was complete and fsync returned 0; the
    program crashes the machine also if they were not. *)
Lemma test3_survives fs (fs1 := put (overwrite (file fs) (take (Z.to_nat ret) test3_data) 0) fs) :
  dok fs -> 0 <= fd -> 0 <= kfd -> ret = 1024 * 1024 -> (dsync fs1).1 = 0 ->
  test3_main fs = Crashed (Some (overwrite (file fs) test3_data 0)).
Proof.
  intros Hok Hfd Hk Hr Hs. unfold test3_main. rewrite !(proj2 (Z.ltb_ge _ _)) by lia. fold fs1.
  pose proof (copy_sync fs1 (ok_put _ _ Hok) Hs) as Hc. destruct (dsync fs1) as [r fs2]. cbn [snd] in Hc. rewrite Hc.
  subst fs1. rewrite file_put, take_ge; [done|]. unfold test3_data. rewrite length_replicate. lia.
Qed.
End Test3.

(** ** On a small ramfs *)

(** The file "f" in the directory "a", copied below "/d" by a cp that works *)
Definition small_sync : ramfs_fs_info := FsInfo 493 (Some "/d") true.
Definition small_path (d : Z) : Z + string := inr "/mnt/a/f".
Definition small_machine : machine := Machine {[ "/mnt/a/f" := [1; 2; 3] ]} idle.

#[local] Instance small_durable : Durable.
Proof.
  refine (ramfs_durable (fun _ => true) (fun _ => 0) small_path small_fs 1 small_sync "/d" 3 (Dentry "f" 2) ["f"; "a"] "/mnt/a/f"
    (fun old _ => old) eq_refl eq_refl eq_refl small_chain _ (fun _ => eq_refl) eq_refl _); [cbn; lia|by vm_compute].
Defined.

Lemma small_ok : dok (small_machine : @dstate small_durable).
Proof. split; [|done]. intros id Hid. by apply not_elem_of_empty in Hid. Qed.

Lemma small_sync_works (m : @dstate small_durable) : dok m -> (dsync m).1 = 0.
Proof.
  intros Hm. cbn. unfold dsync. cbn. rewrite (machine_fsync_eq _ _ _ _ _ _ "/d" 3 (Dentry "f" 2) ["f"; "a"] "/mnt/a/f"); try done.
  - apply small_chain.
  - cbn. lia.
Qed.

(** With complete writes test1.c leaves its 64 MiB in the file and in the copy. *)
Lemma test1_terminates_witness :
  exists s, @test1_main small_durable 3 true (fun k => Z.of_nat k) (fun _ => 0) (fun _ => chunk) 65 small_machine = Exit 0 s /\
    copy (t_fs s) = Some (file (t_fs s)).
Proof.
  destruct (@test1_terminates small_durable 3 true (fun k => Z.of_nat k) (fun _ => 0) (fun _ => chunk) 65 small_machine small_ok ltac:(lia))
    as (_ & _ & H). destruct (H ltac:(lia) eq_refl) as [(k & s & _ & Hk & _)|(s & before & _ & Hm & _ & Hb & _ & Hc)]; [by destruct Hk|].
  exists s. split; [exact Hm|]. by apply Hc, small_sync_works.
Defined.

