(* ===== verification/Fuse.v ===== *)
(** * File systems in user space (filesystem/fuse)

    GPT_FUSE.py, where a directory is a conversation whose file input is
    answered in output or error, and hello_fuse.py, one file of bytes.  Python's
    slices, dictionaries and exceptions are written out; the service that
    answers, and the codec between text and bytes, are variables.  Both are
    compared with files as POSIX has them. *)

From Stdlib Require Import Ascii.
From stdpp Require Import gmap strings.
From S2P Require Import Prelude Paths.

(** ** Python *)

Abbreviation octets := (list ascii).

(** Python raises either the error number meant for the caller or anything else. *)
Inductive exc := FuseOSError (e : Z) | OtherError.

Definition ENOENT : Z := 2.
Definition ENOTDIR : Z := 20.
Definition S_IFDIR : Z := 16384.
Definition S_IFREG : Z := 32768.

Definition len {A} (l : list A) : Z := Z.of_nat (length l).

(** The bounds of a slice are cut to the sequence; negative ones count from its end. *)
Definition slice_index (n i : Z) : Z := if i <? 0 then Z.max 0 (i + n) else Z.min i n.
Definition slice {A} (l : list A) (i j : Z) : list A :=
  let a := slice_index (len l) i in
  let b := slice_index (len l) j in
  take (Z.to_nat (b - a)) (drop (Z.to_nat a) l).

(** b"\0" * n *)
Definition zeros (n : Z) : octets := replicate (Z.to_nat n) Ascii.zero.

(** b[:offset] + data + b[offset + len(data):] *)
Definition splice (b data : octets) (offset : Z) : octets :=
  slice b 0 offset ++ data ++ slice b (offset + len data) (len b).

(** A value that the code treats as a sequence of bytes; it is a str where the
    code stores the literal "". *)
Inductive content := Bytes (b : octets) | Str (s : octets).
Definition data_of (c : content) : octets := match c with Bytes b | Str b => b end.
Definition slice_content (c : content) (i j : Z) : content :=
  match c with Bytes b => Bytes (slice b i j) | Str s => Str (slice s i j) end.

Record attr := Attr { st_mode : Z; st_nlink : Z; st_size : option Z; st_time : Z }.

(** ** GPT_FUSE.py *)

Record session := Session { s_input : content; s_output : content; s_error : content }.

(** self.sessions, in the order of insertion *)
Abbreviation sessions := (list (string * session)).

Fixpoint dict_get (k : string) (d : sessions) : option session :=
  match d with [] => None | (k', s) :: d => if String.eqb k k' then Some s else dict_get k d end.

(** d[k] = s for a key that is there or not *)
Fixpoint dict_set (k : string) (s : session) (d : sessions) : sessions :=
  match d with
  | [] => [(k, s)]
  | (k', s') :: d => if String.eqb k k' then (k', s) :: d else (k', s') :: dict_set k s d
  end.

Definition file_of (s : session) (filename : string) : option content :=
  if String.eqb filename "input" then Some (s_input s)
  else if String.eqb filename "output" then Some (s_output s)
  else if String.eqb filename "error" then Some (s_error s)
  else None.

Section GPTfs.
(** bytes.decode and str.encode; on the left the text of the exception *)
Variable decode : octets -> string + string.
Variable encode : string -> string + octets.
(** The request to the service: its answer, or the text of what went wrong *)
Variable requests_post : string -> string + string.
(** int(time.time()) *)
Variable now : Z.

Definition call_ollama (prompt : string) : string + string :=
  match requests_post prompt with
  | inl e => inl ("Ollama error: " +:+ e)
  | inr response => inr response
  end.

Definition parts (path : string) : list string := split (strip path).

Definition readdir (path : string) (d : sessions) : exc + list string :=
  if String.eqb path "/" then inr (["."; ".."] ++ d.*1)
  else match parts path with
  | [s] => match dict_get s d with
           | None => inl (FuseOSError ENOENT)
           | Some _ => inr ["."; ".."; "input"; "output"; "error"] end
  | _ => inl (FuseOSError ENOTDIR)
  end.

(** The modes are 0o755, 0o644 and 0o444. *)
Definition dir_attr : attr := Attr (Z.lor S_IFDIR 493) 2 None now.

Definition getattr (path : string) (d : sessions) : exc + attr :=
  if String.eqb path "/" then inr dir_attr
  else match parts path with
  | [s] => match dict_get s d with None => inl (FuseOSError ENOENT) | Some _ => inr dir_attr end
  | [s; filename] =>
      match dict_get s d with
      | None => inl (FuseOSError ENOENT)
      | Some ss =>
          if String.eqb filename "input" then
            inr (Attr (Z.lor S_IFREG 420) 1 (Some (len (data_of (s_input ss)))) now)
          else match file_of ss filename with
          | Some c => inr (Attr (Z.lor S_IFREG 292) 1 (Some (len (data_of c))) now)
          | None => inl (FuseOSError ENOENT)
          end
      end
  | _ => inl (FuseOSError ENOENT)
  end.

Definition mkdir (path : string) (d : sessions) : (exc + unit) * sessions :=
  match parts path with
  | [s] => match dict_get s d with
           | None => (inr tt, dict_set s (Session (Bytes []) (Bytes []) (Bytes [])) d)
           | Some _ => (inl (FuseOSError EEXIST), d) end
  | _ => (inl (FuseOSError ENOENT), d)
  end.

Definition read (path : string) (size offset : Z) (d : sessions) : exc + content :=
  match parts path with
  | [s; filename] =>
      match dict_get s d with
      | None => inl (FuseOSError ENOENT)
      | Some ss => match file_of ss filename with
                   | None => inl (FuseOSError ENOENT)
                   | Some c => inr (slice_content c offset (offset + size)) end
      end
  | _ => inl (FuseOSError ENOENT)
  end.

(** The try block of write: the bytes for output, or the text of the exception *)
Definition ask (input : octets) : string + octets :=
  match decode input with
  | inl e => inl e
  | inr prompt => match call_ollama prompt with inl e => inl e | inr answer => encode answer end
  end.

Definition write (path : string) (data : octets) (offset : Z) (d : sessions) : (exc + Z) * sessions :=
  match parts path with
  | [_] => (inl (FuseOSError ENOENT), d)
  | [s; filename] =>
      match dict_get s d with
      | None => (inl (FuseOSError ENOENT), d)
      | Some ss =>
          if negb (String.eqb filename "input") then (inl (FuseOSError ENOENT), d)
          else match s_input ss with
          | Str _ => (inl OtherError, d)
          | Bytes b =>
              let b' := splice b data offset in
              match ask b' with
              | inr output => (inr (len data), dict_set s (Session (Bytes b') (Bytes output) (Str [])) d)
              | inl e =>
                  match encode e with
                  | inr msg => (inr (len data), dict_set s (Session (Bytes b') (Str []) (Bytes msg)) d)
                  | inl _ => (inl OtherError, dict_set s (Session (Bytes b') (Str []) (s_error ss)) d)
                  end
              end
          end
      end
  | _ => (inl (FuseOSError ENOENT), d)
  end.

Definition open (path : string) (d : sessions) : exc + Z :=
  match parts path with
  | [s; filename] =>
      match dict_get s d with
      | None => inl (FuseOSError ENOENT)
      | Some ss => match file_of ss filename with None => inl (FuseOSError ENOENT) | Some _ => inr 0 end
      end
  | _ => inl (FuseOSError ENOENT)
  end.

Definition truncate (path : string) (length : Z) (d : sessions) : (exc + Z) * sessions :=
  match parts path with
  | [s; filename] =>
      match dict_get s d with
      | None => (inl (FuseOSError ENOENT), d)
      | Some ss =>
          if negb (String.eqb filename "input") then (inl (FuseOSError ENOENT), d)
          else if length <? 0 then (inl (FuseOSError EINVAL), d)
          else
            let content := s_input ss in
            let store c := dict_set s (Session c (s_output ss) (s_error ss)) d in
            if length <? len (data_of content) then (inr length, store (slice_content content 0 length))
            else if length >? len (data_of content) then
              match content with
              | Bytes b => (inr length, store (Bytes (b ++ zeros (length - len b))))
              | Str _ => (inl OtherError, d)
              end
            else (inr length, d)
      end
  | _ => (inl (FuseOSError ENOENT), d)
  end.
End GPTfs.

(** ** hello_fuse.py *)

Definition hello_path : string := "/hello.txt".
Definition hello_init : octets := String.list_ascii_of_string ("Hello, world!" +:+ String (ascii_of_nat 10) "").

(** The modes are 0o755 and 0o666. *)
Definition hello_getattr (path : string) (hello : octets) : exc + attr :=
  if String.eqb path "/" then inr (Attr (Z.lor 493 S_IFDIR) 2 None 0)
  else if String.eqb path hello_path then inr (Attr (Z.lor 438 S_IFREG) 1 (Some (len hello)) 0)
  else inl (FuseOSError ENOENT).
Definition hello_readdir (path : string) : list string := ["."; ".."; "hello.txt"].
Definition hello_read (path : string) (size offset : Z) (hello : octets) : octets :=
  if String.eqb path hello_path then slice hello offset (offset + size) else [].
Definition hello_open (path : string) : exc + Z :=
  if negb (String.eqb path hello_path) then inl (FuseOSError ENOENT) else inr 0.
Definition hello_write (path : string) (data : octets) (offset : Z) (hello : octets) : (exc + Z) * octets :=
  if String.eqb path hello_path then (inr (len data), splice hello data offset)
  else (inl (FuseOSError ENOENT), hello).
Definition hello_truncate (path : string) (length : Z) (hello : octets) : (exc + Z) * octets :=
  if String.eqb path hello_path then
    (inr length,
     if length <? len hello then slice hello 0 length
     else if length >? len hello then hello ++ zeros (length - len hello)
     else hello)
  else (inl (FuseOSError ENOENT), hello).

(** ** Files of bytes, as POSIX has them *)

Definition pread (b : octets) (size offset : nat) : octets := take size (drop offset b).
(** A hole between the old end and the data is filled with zeros. *)
Definition pwrite (b data : octets) (offset : nat) : octets :=
  take offset (b ++ replicate (offset - length b) Ascii.zero) ++ data ++ drop (offset + length data) b.
Definition ftruncate (b : octets) (n : nat) : octets := resize n Ascii.zero b.

Lemma slice_pread {A} (l : list A) (size offset : nat) :
  slice l (Z.of_nat offset) (Z.of_nat offset + Z.of_nat size) = take size (drop offset l).
Proof.
  unfold slice, slice_index, len. rewrite !(proj2 (Z.ltb_ge _ _)) by lia.
  destruct (decide (offset <= length l)%nat).
  - replace (Z.to_nat (Z.min (Z.of_nat offset) (Z.of_nat (length l)))) with offset by lia.
    destruct (decide (offset + size <= length l)%nat).
    + f_equal. lia.
    + rewrite !take_ge; rewrite ?length_drop; [done|lia|lia].
  - rewrite !(drop_ge l) by lia. by rewrite !take_nil.
Qed.

Lemma slice_take {A} (l : list A) (n : nat) : slice l 0 (Z.of_nat n) = take n l.
Proof. pose proof (slice_pread l n 0) as H. cbn in H. by rewrite drop_0 in H. Qed.

Lemma slice_drop {A} (l : list A) (n : nat) : slice l (Z.of_nat n) (len l) = drop n l.
Proof.
  destruct (decide (n <= length l)%nat).
  - replace (len l) with (Z.of_nat n + Z.of_nat (length l - n)) by (unfold len; lia). rewrite slice_pread.
    apply take_ge. rewrite length_drop. lia.
  - rewrite drop_ge by lia. unfold slice, slice_index, len. rewrite !(proj2 (Z.ltb_ge _ _)) by lia.
    rewrite !Z.min_r by lia. by rewrite Z.sub_diag.
Qed.

(** What the code writes is POSIX's write as long as it leaves no hole. *)
Lemma splice_pwrite b data offset :
  (offset <= length b)%nat -> splice b data (Z.of_nat offset) = pwrite b data offset.
Proof.
  intros Ho. unfold splice, pwrite. rewrite slice_take. replace (offset - length b)%nat with 0%nat by lia.
  cbn [replicate]. rewrite app_nil_r. unfold len at 1. rewrite <- Nat2Z.inj_add, slice_drop. done.
Qed.

(** Past the end the data lands at the end instead of at its offset. *)
Lemma splice_hole b data offset : (length b <= offset)%nat -> splice b data (Z.of_nat offset) = b ++ data.
Proof.
  intros Ho. unfold splice. rewrite slice_take. unfold len at 1. rewrite <- Nat2Z.inj_add, slice_drop.
  rewrite take_ge, drop_ge by lia. by rewrite app_nil_r.
Qed.

Lemma truncate_resize b (n : nat) :
  (if Z.of_nat n <? len b then slice b 0 (Z.of_nat n)
   else if Z.of_nat n >? len b then b ++ zeros (Z.of_nat n - len b) else b) = ftruncate b n.
Proof.
  unfold ftruncate, len, zeros. destruct (Z.ltb_spec (Z.of_nat n) (Z.of_nat (length b))).
  - rewrite slice_take, resize_le by lia. done.
  - rewrite Z.gtb_ltb. destruct (Z.ltb_spec (Z.of_nat (length b)) (Z.of_nat n)).
    + rewrite resize_ge by lia. do 2 f_equal. lia.
    + by rewrite resize_all_alt by lia.
Qed.

Lemma pwrite_pread b data offset : (offset <= length b)%nat -> pread (pwrite b data offset) (length data) offset = data.
Proof.
  intros Ho. unfold pread, pwrite. replace (offset - length b)%nat with 0%nat by lia. cbn. rewrite app_nil_r.
  rewrite drop_app_length' by (rewrite length_take; lia). apply take_app_length.
Qed.

(** hello_fuse.py keeps one such file. *)
Lemma hello_file b (offset size n : nat) data :
  hello_read hello_path (Z.of_nat size) (Z.of_nat offset) b = pread b size offset /\
  ((offset <= length b)%nat ->
   hello_write hello_path data (Z.of_nat offset) b = (inr (len data), pwrite b data offset)) /\
  hello_truncate hello_path (Z.of_nat n) b = (inr (Z.of_nat n), ftruncate b n).
Proof.
  unfold hello_read, hello_write, hello_truncate. rewrite String.eqb_refl. split; [apply slice_pread|].
  split; [intros Ho; by rewrite splice_pwrite|by rewrite truncate_resize].
Qed.

(** ** What the conversations promise *)

(** The operations of the file system on one path, and what they answer *)
Inductive fop :=
| Readdir | Getattr | Mkdir | Open
| Read (size offset : nat) | Write (data : octets) (offset : nat) | Truncate (n : nat).
Inductive answer := Names (l : list string) | Stat (a : attr) | Content (b : octets) | Ret (n : Z).

Record asession := ASession { a_input : octets; a_output : octets; a_error : octets }.
Abbreviation conversations := (gmap string asession).

(** The object a path leads to *)
Inductive obj :=
| ORoot | OSession (s : string) (a : asession) | OFile (s f : string) (a : asession) (b : octets).

Definition afile (a : asession) (f : string) : option octets :=
  if String.eqb f "input" then Some (a_input a) else if String.eqb f "output" then Some (a_output a)
  else if String.eqb f "error" then Some (a_error a) else None.

Definition lookup_path (A : conversations) (path : list string) : option obj :=
  match path with
  | [] => Some ORoot
  | [s] => OSession s <$> A !! s
  | [s; f] => match A !! s with Some a => OFile s f a <$> afile a f | None => None end
  | _ => None
  end.

Definition writable (f : string) : bool := String.eqb f "input".

Section Spec.
Variable decode : octets -> string + string.
Variable encode : string -> string + octets.
Variable requests_post : string -> string + string.
Variable now : Z.

Definition stat_of (o : obj) : attr :=
  match o with
  | OFile _ f _ b => Attr (Z.lor S_IFREG (if writable f then 420 else 292)) 1 (Some (len b)) now
  | _ => dir_attr now
  end.

(** A session after its input became [b], and what the writer is told of [n]
    bytes: exactly one of the other two files holds the outcome. *)
Definition answered (a : asession) (b : octets) (n : Z) : (exc + answer) * asession :=
  match ask decode encode requests_post b with
  | inr out => (inr (Ret n), ASession b out [])
  | inl e => match encode e with
             | inr msg => (inr (Ret n), ASession b [] msg)
             | inl _ => (inl OtherError, ASession b [] (a_error a)) end
  end.

Definition spec_op (f : fop) (path : list string) (A : conversations) : (exc + answer) * conversations :=
  let no := (inl (FuseOSError ENOENT), A) in
  match f, lookup_path A path with
  | Readdir, Some ORoot => (inr (Names ("." :: ".." :: elements (dom A))), A)
  | Readdir, Some (OSession _ _) => (inr (Names ["."; ".."; "input"; "output"; "error"]), A)
  | Readdir, _ => match path with [_] => no | _ => (inl (FuseOSError ENOTDIR), A) end
  | Getattr, Some o => (inr (Stat (stat_of o)), A)
  | Mkdir, Some (OSession _ _) => (inl (FuseOSError EEXIST), A)
  | Mkdir, None => match path with [s] => (inr (Ret 0), <[s := ASession [] [] []]> A) | _ => no end
  | Open, Some (OFile _ _ _ _) => (inr (Ret 0), A)
  | Read size offset, Some (OFile _ _ _ b) => (inr (Content (pread b size offset)), A)
  | Write data offset, Some (OFile s f a b) =>
      if writable f then
        let '(r, a') := answered a (pwrite b data offset) (len data) in (r, <[s := a']> A)
      else no
  | Truncate n, Some (OFile s f a b) =>
      if writable f then
        (inr (Ret (Z.of_nat n)), <[s := ASession (ftruncate b n) (a_output a) (a_error a)]> A)
      else no
  | _, _ => no
  end.

(** The calls of the program that an operation stands for *)
Definition gpt_op (f : fop) (path : list string) (d : sessions) : (exc + answer) * sessions :=
  let p := path_of path in
  match f with
  | Readdir => (sum_map id Names (readdir p d), d)
  | Getattr => (sum_map id Stat (getattr now p d), d)
  | Mkdir => prod_map (sum_map id (fun _ => Ret 0)) id (mkdir p d)
  | Open => (sum_map id Ret (open p d), d)
  | Read size offset => (sum_map id (fun c => Content (data_of c)) (read p (Z.of_nat size) (Z.of_nat offset) d), d)
  | Write data offset => prod_map (sum_map id Ret) id (write decode encode requests_post p data (Z.of_nat offset) d)
  | Truncate n => prod_map (sum_map id Ret) id (truncate p (Z.of_nat n) d)
  end.

Fixpoint gpt_run (l : list (fop * list string)) (d : sessions) : list (exc + answer) * sessions :=
  match l with
  | [] => ([], d)
  | (f, p) :: l => let '(r, d) := gpt_op f p d in let '(rs, d) := gpt_run l d in (r :: rs, d)
  end.

Fixpoint spec_run (l : list (fop * list string)) (A : conversations) : list (exc + answer) * conversations :=
  match l with
  | [] => ([], A)
  | (f, p) :: l => let '(r, A) := spec_op f p A in let '(rs, A) := spec_run l A in (r :: rs, A)
  end.

(** The kernel resolves a path before it calls: it does not make the root, and
    the names are proper; a write leaves no hole behind the end. *)
Definition op_ok (A : conversations) (f : fop) (path : list string) : Prop :=
  Forall name_ok path /\
  match f with
  | Mkdir => path <> []
  | Write _ offset => forall s a b, lookup_path A path = Some (OFile s "input" a b) -> (offset <= length b)%nat
  | _ => True
  end.

Fixpoint run_ok (l : list (fop * list string)) (A : conversations) : Prop :=
  match l with [] => True | (f, p) :: l => op_ok A f p /\ run_ok l (spec_op f p A).2 end.
End Spec.

(** The order in which a directory is listed does not matter. *)
Definition same_answer (x y : exc + answer) : Prop :=
  match x, y with
  | inr (Names l), inr (Names l') => l ≡ₚ l'
  | _, _ => x = y
  end.

(** ** The dictionary is the map *)

Definition abs_session (s : session) : asession :=
  ASession (data_of (s_input s)) (data_of (s_output s)) (data_of (s_error s)).
Definition abs (d : sessions) : conversations := list_to_map (prod_map id abs_session <$> d).

Record gpt_inv (d : sessions) : Prop := {
  gi_keys : NoDup d.*1;
  gi_input : forall k s, dict_get k d = Some s -> exists b, s_input s = Bytes b }.

Lemma dict_get_abs k d : abs d !! k = abs_session <$> dict_get k d.
Proof.
  unfold abs. induction d as [|[k' s] d IH]; [done|]. cbn. destruct (String.eqb_spec k k') as [->|Hn].
  - by rewrite lookup_insert_eq.
  - by rewrite lookup_insert_ne.
Qed.

Lemma dict_set_abs k s d : abs (dict_set k s d) = <[k := abs_session s]> (abs d).
Proof.
  unfold abs. induction d as [|[k' s'] d IH]; [done|]. cbn. destruct (String.eqb_spec k k') as [->|Hn]; cbn.
  - by rewrite insert_insert_eq.
  - rewrite IH. by apply insert_insert_ne.
Qed.

Lemma dict_get_set k s d k' : dict_get k' (dict_set k s d) = if String.eqb k' k then Some s else dict_get k' d.
Proof.
  induction d as [|[k2 s2] d IH]; [done|]. cbn. destruct (String.eqb_spec k k2) as [->|Hn]; cbn.
  - by destruct (String.eqb k' k2).
  - destruct (String.eqb_spec k' k2) as [->|]; [|done]. by destruct (String.eqb_spec k2 k).
Qed.

Lemma dict_get_in k d : is_Some (dict_get k d) <-> k ∈ d.*1.
Proof.
  induction d as [|[k' s] d IH]; cbn.
  - split; [intros [? [=]]|intros []%not_elem_of_nil].
  - rewrite elem_of_cons. destruct (String.eqb_spec k k'); [naive_solver|rewrite IH; naive_solver].
Qed.

Lemma dict_set_keys k s d : (dict_set k s d).*1 = if decide (k ∈ d.*1) then d.*1 else d.*1 ++ [k].
Proof.
  induction d as [|[k' s'] d IH]; [done|]. cbn. destruct (String.eqb_spec k k') as [->|Hn]; cbn.
  - by rewrite decide_True by set_solver.
  - rewrite IH. repeat case_decide; set_solver.
Qed.

Lemma dict_set_inv k s d b : s_input s = Bytes b -> gpt_inv d -> gpt_inv (dict_set k s d).
Proof.
  intros Hs [Hk Hi]. split.
  - rewrite dict_set_keys. case_decide; [done|]. apply NoDup_app. split; [done|]. split; [set_solver|]. apply NoDup_singleton.
  - intros k' s'. rewrite dict_get_set. destruct (String.eqb k' k); [intros [= <-]; by eexists|apply Hi].
Qed.

Lemma dom_abs d : dom (abs d) = list_to_set d.*1.
Proof.
  apply set_eq. intros k. rewrite elem_of_dom, dict_get_abs, fmap_is_Some, dict_get_in. by rewrite elem_of_list_to_set.
Qed.

Lemma keys_listed d : NoDup d.*1 -> d.*1 ≡ₚ elements (dom (abs d)).
Proof. intros Hd. rewrite dom_abs. by rewrite elements_list_to_set. Qed.

Lemma root_path path : Forall name_ok path -> String.eqb (path_of path) "/" = match path with [] => true | _ => false end.
Proof.
  intros Hp. destruct path as [|n ns]; [done|]. inversion_clear Hp as [|? ? [Hn _] _]. destruct n as [|c n]; [done|].
  by apply String.eqb_neq.
Qed.

Lemma afile_abs s f : afile (abs_session s) f = data_of <$> file_of s f.
Proof. unfold afile, file_of. by repeat case_match. Qed.

Lemma slice_content_data c i j : data_of (slice_content c i j) = slice (data_of c) i j.
Proof. by destruct c. Qed.

#[local] Arguments abs : simpl never.
#[local] Arguments dict_set : simpl never.

Section Refinement.
Variable decode : octets -> string + string.
Variable encode : string -> string + octets.
Variable requests_post : string -> string + string.
Variable now : Z.
Abbreviation gpt := (gpt_op decode encode requests_post now).
Abbreviation spec := (spec_op decode encode requests_post now).

Definition simulated (f : fop) (path : list string) (d : sessions) : Prop :=
  same_answer (gpt f path d).1 (spec f path (abs d)).1 /\
  abs (gpt f path d).2 = (spec f path (abs d)).2 /\ gpt_inv (gpt f path d).2.

(** An operation that leaves the sessions alone *)
Lemma sim_query f path d r :
  gpt_inv d -> (gpt f path d) = (r, d) -> (spec f path (abs d)) = (r, abs d) -> simulated f path d.
Proof. intros Hi Hg Hs. unfold simulated. rewrite Hg, Hs. split; [|done]. destruct r as [?|[]]; cbn; reflexivity. Qed.

Lemma sim_root f d : f <> Mkdir -> gpt_inv d -> simulated f [] d.
Proof.
  intros Hf Hi. destruct f; try by (eapply sim_query; [done|reflexivity|reflexivity]).
  - split; [|done]. change ("." :: ".." :: d.*1 ≡ₚ "." :: ".." :: elements (dom (abs d))).
    do 2 apply perm_skip. apply keys_listed, Hi.
  - done.
Qed.

Ltac unchanged := split; [cbn; reflexivity|]; split; [reflexivity|assumption].

(** Both sides on a path that was taken apart *)
Ltac both Hp :=
  unfold simulated; cbn [gpt_op spec_op lookup_path];
  unfold readdir, getattr, mkdir, read, write, open, truncate, parts;
  rewrite ?(root_path _ Hp), ?(path_parts _ Hp); cbn [parts_of]; rewrite ?dict_get_abs.

Lemma sim_session f s d : name_ok s -> gpt_inv d -> simulated f [s] d.
Proof.
  intros Hs Hi. assert (Hp : Forall name_ok [s]) by auto.
  destruct f; both Hp; destruct (dict_get s d) as [ss|]; try unchanged.
  cbn. split; [done|]. split; [apply dict_set_abs|]. by eapply dict_set_inv.
Qed.

Lemma sim_beyond f s1 s2 s3 ns d : Forall name_ok (s1 :: s2 :: s3 :: ns) -> gpt_inv d -> simulated f (s1 :: s2 :: s3 :: ns) d.
Proof. intros Hp Hi. destruct f; both Hp; unchanged. Qed.

Lemma sim_file_query f s n d :
  Forall name_ok [s; n] -> gpt_inv d -> match f with Write _ _ | Truncate _ => False | _ => True end -> simulated f [s; n] d.
Proof.
  intros Hp Hi Hf. destruct f; try done; both Hp; destruct (dict_get s d) as [ss|]; cbn [fmap option_fmap option_map];
    rewrite ?afile_abs; unfold file_of; repeat case_match; simplify_eq/=; try unchanged.
  1-3: unfold writable; match goal with H : (_ =? "input")%string = _ |- _ => rewrite H end; unchanged.
  all: rewrite slice_content_data, slice_pread; unchanged.
Qed.

(** The files a write or a truncation does not reach *)
Lemma sim_read_only f s n d :
  Forall name_ok [s; n] -> gpt_inv d -> dict_get s d = None \/ n <> "input" -> simulated f [s; n] d.
Proof.
  intros Hp Hi Hn. destruct f as [| | | |size offset|data offset|k]; try by apply sim_file_query.
  all: both Hp; destruct (dict_get s d) as [ss|]; [|unchanged].
  all: destruct Hn as [|Hn%String.eqb_neq]; [done|]; unfold writable; rewrite Hn; cbn [negb].
  all: cbn [fmap option_fmap option_map]; destruct (afile _ _); cbn; rewrite ?Hn; unchanged.
Qed.

Lemma sim_write data offset s d ss b :
  Forall name_ok [s; "input"] -> gpt_inv d -> dict_get s d = Some ss -> s_input ss = Bytes b -> (offset <= length b)%nat ->
  simulated (Write data offset) [s; "input"] d.
Proof.
  intros Hp Hi Hs Hb Ho. both Hp. rewrite Hs. cbn [fmap option_fmap option_map afile abs_session a_input String.eqb Ascii.eqb].
  cbn. rewrite Hb. cbn [data_of]. rewrite splice_pwrite by done. unfold answered.
  destruct (ask _ _ _ _) as [e|out]; [destruct (encode e) as [?|msg]|]; cbn; rewrite dict_set_abs; cbn;
    (split; [done|]; split; [done|]; by eapply dict_set_inv).
Qed.

Lemma sim_truncate n s d ss b :
  Forall name_ok [s; "input"] -> gpt_inv d -> dict_get s d = Some ss -> s_input ss = Bytes b ->
  simulated (Truncate n) [s; "input"] d.
Proof.
  intros Hp Hi Hs Hb. both Hp. rewrite Hs. cbn. rewrite Hb. cbn [data_of]. rewrite <- truncate_resize.
  rewrite (proj2 (Z.ltb_ge _ _)) by lia.
  destruct (_ <? _); [|destruct (_ >? _)]; cbn; rewrite ?dict_set_abs; cbn.
  - split; [done|]. split; [done|]. by eapply dict_set_inv.
  - split; [done|]. split; [done|]. by eapply dict_set_inv.
  - split; [done|]. split; [|done]. symmetry. apply insert_id. rewrite dict_get_abs, Hs. cbn. unfold abs_session. by rewrite Hb.
Qed.

Lemma gpt_op_sim f path d : op_ok (abs d) f path -> gpt_inv d -> simulated f path d.
Proof.
  intros [Hp Hok] Hi. destruct path as [|s [|n [|s3 ns]]].
  - apply sim_root; [|done]. by intros ->.
  - inversion_clear Hp. by apply sim_session.
  - destruct (dict_get s d) as [ss|] eqn:Hs; [|apply sim_read_only; auto].
    destruct (String.eqb_spec n "input") as [->|Hn]; [|apply sim_read_only; auto].
    destruct (gi_input d Hi s ss Hs) as [b Hb]. destruct f; try by apply sim_file_query.
    + eapply sim_write; [done..|]. apply (Hok s (abs_session ss) b). cbn. rewrite dict_get_abs, Hs. cbn. by rewrite Hb.
    + by eapply sim_truncate.
  - by apply sim_beyond.
Qed.

Lemma gpt_run_sim l d :
  run_ok decode encode requests_post now l (abs d) -> gpt_inv d ->
  Forall2 same_answer (gpt_run decode encode requests_post now l d).1 (spec_run decode encode requests_post now l (abs d)).1 /\
  abs (gpt_run decode encode requests_post now l d).2 = (spec_run decode encode requests_post now l (abs d)).2 /\
  gpt_inv (gpt_run decode encode requests_post now l d).2.
Proof.
  revert d. induction l as [|[f p] l IH]; intros d Hok Hi; [done|]. destruct Hok as [Ho Hok].
  destruct (gpt_op_sim f p d Ho Hi) as (Ha & Hd & Hi'). cbn [gpt_run spec_run].
  destruct (gpt_op _ _ _ _ f p d) as [r d']. destruct (spec_op _ _ _ _ f p (abs d)) as [r' A']. cbn in *. subst A'.
  destruct (IH d' Hok Hi') as (H1 & H2 & H3).
  destruct (gpt_run _ _ _ _ l d') as [rs d'']. destruct (spec_run _ _ _ _ l (abs d')) as [rs' A'']. cbn in *. auto.
Qed.


(** make_session of test.sh: mkdir -p, echo into input, which opens it
    with O_TRUNC, and cat of output and error with a buffer of [n] bytes. *)
Definition make_session (s : string) (text : octets) (n : nat) : list (fop * list string) :=
  [(Mkdir, [s]); (Open, [s; "input"]); (Truncate 0, [s; "input"]); (Write text 0, [s; "input"]);
   (Read n 0, [s; "output"]); (Read n 0, [s; "error"])].

Lemma make_session_ok s text n A : name_ok s -> run_ok decode encode requests_post now (make_session s text n) A.
Proof.
  intros Hs. cbn [run_ok make_session].
  assert (Hf : forall f, f = "input" \/ f = "output" \/ f = "error" -> Forall name_ok [s; f]).
  { intros f Hf. repeat constructor; [apply Hs|apply Hs| |]; by destruct Hf as [-> | [-> | ->]]. }
  repeat split; auto; cbn; lia.
Qed.

Lemma spec_mkdir s A :
  exists A1 a r0, spec_op decode encode requests_post now Mkdir [s] A = (r0, A1) /\ A1 !! s = Some a /\
    (forall k, k <> s -> A1 !! k = A !! k).
Proof.
  cbn [spec_op lookup_path]. destruct (A !! s) as [a|] eqn:E; cbn.
  - by exists A, a, (inl (FuseOSError EEXIST)).
  - eexists _, _, _. split; [done|]. split; [apply lookup_insert_eq|]. intros k Hk. by apply lookup_insert_ne.
Qed.

Definition outcome (text : octets) : option (octets * octets) :=
  match ask decode encode requests_post text with
  | inr out => Some (out, [])
  | inl e => match encode e with inr msg => Some ([], msg) | inl _ => None end
  end.

Lemma spec_make_session_run s text n A out err :
  outcome text = Some (out, err) ->
  exists r0 A', spec_run decode encode requests_post now (make_session s text n) A =
    ([r0; inr (Ret 0); inr (Ret 0); inr (Ret (len text)); inr (Content (take n out)); inr (Content (take n err))], A') /\
    A' !! s = Some (ASession text out err) /\ (forall k, k <> s -> A' !! k = A !! k).
Proof.
  intros Ho. destruct (spec_mkdir s A) as (A1 & a & r0 & Hm & Ha & Hk). exists r0.
  unfold make_session. cbn [spec_run]. rewrite Hm. cbn. rewrite Ha. cbn. rewrite Ha. cbn.
  rewrite lookup_insert_eq. cbn.
  unfold ftruncate. rewrite resize_0. unfold pwrite. cbn. rewrite drop_nil, app_nil_r. unfold answered. unfold outcome in Ho.
  destruct (ask _ _ _ _) as [e|o]; [destruct (encode e) as [?|msg]|]; simplify_eq; cbn; rewrite !lookup_insert_eq; cbn;
    (eexists; split; [unfold pread; by rewrite ?drop_0|]; rewrite lookup_insert_eq; split; [done|]; intros k Hn;
     rewrite !lookup_insert_ne by done; by apply Hk).
Qed.

Lemma run_ok_app l1 l2 A :
  run_ok decode encode requests_post now l1 A ->
  run_ok decode encode requests_post now l2 (spec_run decode encode requests_post now l1 A).2 ->
  run_ok decode encode requests_post now (l1 ++ l2) A.
Proof.
  revert A. induction l1 as [|[f p] l1 IH]; intros A H1 H2; [done|]. destruct H1 as [Ho H1]. split; [done|]. apply IH; [done|].
  cbn [spec_run] in H2. destruct (spec_op _ _ _ _ f p A) as [r A']. cbn [snd] in *. by destruct (spec_run _ _ _ _ l1 A').
Qed.

(** A user of GPT_FUSE.py who makes a session (or uses one again), echoes
    a text into its input and reads the two files gets the answer to exactly
    this text, whatever was there before: in output with an empty error, or the
    message in error with an empty output; the other sessions do not change. *)
Theorem make_session_answered s text n d out err (run := gpt_run decode encode requests_post now (make_session s text n) d) :
  gpt_inv d -> name_ok s -> outcome text = Some (out, err) -> (length out <= n)%nat -> (length err <= n)%nat ->
  run.1 !! 4%nat = Some (inr (Content out)) /\ run.1 !! 5%nat = Some (inr (Content err)) /\
  abs run.2 !! s = Some (ASession text out err) /\ (forall k, k <> s -> abs run.2 !! k = abs d !! k) /\ gpt_inv run.2.
Proof.
  intros Hi Hs Ho Hn1 Hn2. destruct (gpt_run_sim (make_session s text n) d (make_session_ok s text n _ Hs) Hi) as (Ha & Hd & Hi').
  destruct (spec_make_session_run s text n (abs d) out err Ho) as (r0 & A' & Hr & HA & Hk). fold run in Ha, Hd, Hi'.
  rewrite Hr in Ha, Hd. cbn [fst snd] in Ha, Hd. rewrite Hd. destruct run as [rs d']. cbn [fst] in *. rewrite !take_ge in Ha by done.
  assert (Hsame : forall (x : exc + answer) b, same_answer x (inr (Content b)) -> x = inr (Content b)).
  { intros [e|[l|a|c|z]] b; cbn; congruence. }
  do 4 (apply Forall2_cons_inv_r in Ha as (? & ? & _ & Ha & ->)). apply Forall2_cons_inv_r in Ha as (y4 & ? & H4 & Ha & ->).
  apply Forall2_cons_inv_r in Ha as (y5 & ? & H5 & Ha & ->). cbn. apply Hsame in H4 as ->, H5 as ->. auto.
Qed.
End Refinement.

(** A service that repeats the text, except that it fails on the empty one *)
Definition echo_post (p : string) : string + string := if String.eqb p "" then inl "no prompt" else inr p.
Definition ascii_decode (b : octets) : string + string := inr (String.string_of_list_ascii b).
Definition ascii_encode (s : string) : string + octets := inr (String.list_ascii_of_string s).


Lemma make_session_answered_witness :
  (gpt_run ascii_decode ascii_encode echo_post 0 (make_session "a" ["h"; "i"]%char 9) []).1 !! 4%nat =
    Some (inr (Content ["h"; "i"]%char)).
Proof.
  apply (make_session_answered ascii_decode ascii_encode echo_post 0 "a" ["h"; "i"]%char 9 [] ["h"; "i"]%char []).
  - split; [apply NoDup_nil_2|done].
  - done.
  - vm_compute. reflexivity.
  - cbn. lia.
  - cbn. lia.
Defined.
