(* ===== verification/SocketFair.v ===== *)
(** * Limits on the sockets of a thread (network/socket/socket.patch)

    The patch adds a limit and a count to every task, checks the limit when a
    socket is created and keeps the count at creation and release.  The rest of
    __sock_create and __sock_release is not in the tree: what it returns is an
    argument of the definitions.  A critical section of the spinlock, which
    only guards two accesses, is one step. *)

From S2P Require Import Prelude.

Definition EMFILE : Z := 24.
Definition ESRCH : Z := 3.

Record socket_fairness := Fair { max_socket_allowed : Z; current_socket_count : Z }.

Definition SOCKET_FAIR_DEFAULT_MAX : Z := 1024.

(** The version in include/linux/socket_fair.h, which copy_process calls. *)
Definition socket_fairness_init_inline : socket_fairness := Fair SOCKET_FAIR_DEFAULT_MAX 0.

(** The version in net/socket_fair.c. *)
Definition socket_fairness_init : socket_fairness := Fair 0 0.

(** A socket: whether it has a file and a sock; [owner] is history, the task
    that created it, and [kern] whether the kernel did so for itself. *)
Record sock := Sock { owner : Z; kern : bool; file : bool }.

Record nsys := NSys { fairs : gmap Z socket_fairness; socks : gmap Z sock }.

Definition set_fair (t : Z) (f : socket_fairness) (s : nsys) : nsys := NSys (<[t := f]> (fairs s)) (socks s).
Definition set_socks (m : gmap Z sock) (s : nsys) : nsys := NSys (fairs s) m.

(** [None] is the NULL task. *)
Definition socket_fairness_check_allowed (task : option socket_fairness) : bool :=
  match task with
  | None => true
  | Some sf => negb (max_socket_allowed sf <=? current_socket_count sf)
  end.

Definition atomic_add (n : Z) (sf : socket_fairness) : socket_fairness :=
  Fair (max_socket_allowed sf) (s32 (current_socket_count sf + n)).

Definition socket_fairness_inc_count (task : Z) (s : nsys) : Z * nsys :=
  match fairs s !! task with
  | None => (- EINVAL, s)
  | Some sf => (0, set_fair task (atomic_add 1 sf) s)
  end.

Definition socket_fairness_dec_count (task : Z) (s : nsys) : nsys :=
  match fairs s !! task with
  | None => s
  | Some sf => set_fair task (atomic_add (-1) sf) s
  end.

Definition socket_fairness_configure (pid max_sockets : Z) (s : nsys) : Z * nsys :=
  if (max_sockets <? 0) || (65536 <? max_sockets) then (- EINVAL, s)
  else match fairs s !! pid with
       | None => (- ESRCH, s)
       | Some sf => (0, set_fair pid (Fair max_sockets (current_socket_count sf)) s)
       end.

Definition sys_configure_socket_fairness (thread_id max_socket_allowed : Z) (s : nsys) : Z * nsys :=
  socket_fairness_configure thread_id max_socket_allowed s.

(** __sock_create: [pre] is the result of the checks before the hook, [rest]
    that of allocating the socket and setting its family up. *)
Definition sock_create (current : Z) (k : bool) (id pre rest : Z) (s : nsys) : Z * nsys :=
  if nonzero pre then (pre, s)
  else if negb k && negb (socket_fairness_check_allowed (fairs s !! current)) then (- EMFILE, s)
  else if nonzero rest then (rest, s)
  else
    let s := if k then s else snd (socket_fairness_inc_count current s) in
    (0, set_socks (<[id := Sock current k false]> (socks s)) s).

(** __sock_release of a socket that was set up. *)
Definition sock_release (current id : Z) (s : nsys) : nsys :=
  match socks s !! id with
  | None => s
  | Some sk =>
      let s := if file sk then socket_fairness_dec_count current s else s in
      set_socks (delete id (socks s)) s
  end.

(** ** What tasks do *)

Inductive nevent :=
| NFork (child : Z)
| NCreate (task : Z) (k : bool) (id pre rest : Z)
| NFile (id : Z)  (** the socket gets a file *)
| NRelease (task id : Z)
| NConfigure (pid max_sockets : Z).

Definition nstep (e : nevent) (s : nsys) : nsys :=
  match e with
  | NFork child => set_fair child socket_fairness_init_inline s
  | NCreate task k id pre rest => snd (sock_create task k id pre rest s)
  | NFile id =>
      match socks s !! id with
      | Some sk => set_socks (<[id := Sock (owner sk) (kern sk) true]> (socks s)) s
      | None => s
      end
  | NRelease task id => sock_release task id s
  | NConfigure pid n => snd (sys_configure_socket_fairness pid n s)
  end.

(** The sockets of a user task that it has created and are still there. *)
Definition open_of (t : Z) (m : gmap Z sock) : Z :=
  Z.of_nat (length (filter (fun p : Z * sock => owner p.2 = t /\ kern p.2 = false) (map_to_list m))).

(** Sockets are released by the task that created them, those of user space
    when they have a file and those of the kernel without one. *)
Definition orderly (s : nsys) (e : nevent) : Prop :=
  match e with
  | NFork child => fairs s !! child = None
  | NCreate task k id _ _ => is_Some (fairs s !! task) /\ socks s !! id = None
  | NFile id => exists sk, socks s !! id = Some sk /\ kern sk = false
  | NRelease task id => exists sk, socks s !! id = Some sk /\ owner sk = task /\ file sk = negb (kern sk)
  | NConfigure _ _ => True
  end.

Definition nboot : nsys := NSys {[ 1 := socket_fairness_init_inline ]} ∅.

Inductive nreach : nsys -> Prop :=
| nreach_boot : nreach nboot
| nreach_step s e : nreach s -> orderly s e -> nreach (nstep e s).

(** ** The count is the number of open sockets *)

Definition counted (t : Z) (sk : sock) : bool := bool_decide (owner sk = t /\ kern sk = false).

Lemma open_of_insert t m id sk :
  m !! id = None -> open_of t (<[id := sk]> m) = (if counted t sk then 1 else 0) + open_of t m.
Proof.
  intros H. unfold open_of, counted. rewrite (map_to_list_insert m id sk H), filter_cons. cbn.
  case_decide; [rewrite bool_decide_true by done|rewrite bool_decide_false by done]; cbn; lia.
Qed.

Lemma open_of_delete t m id sk :
  m !! id = Some sk -> open_of t (delete id m) = open_of t m - (if counted t sk then 1 else 0).
Proof.
  intros H. rewrite <- (insert_delete_id m id sk H) at 2. rewrite open_of_insert by apply lookup_delete_eq. lia.
Qed.

Lemma open_of_file t m id sk :
  m !! id = Some sk -> open_of t (<[id := Sock (owner sk) (kern sk) true]> m) = open_of t m.
Proof.
  intros H. rewrite <- insert_delete_eq, open_of_insert by apply lookup_delete_eq.
  rewrite (open_of_delete t m id sk H). unfold counted. cbn. lia.
Qed.

Lemma open_of_none t m : (forall id sk, m !! id = Some sk -> owner sk <> t) -> open_of t m = 0.
Proof.
  intros H. unfold open_of. destruct (filter _ _) as [|[id sk] l] eqn:E; [done|].
  assert (Hin : (id, sk) ∈ (id, sk) :: l) by left. rewrite <- E in Hin.
  apply list_elem_of_filter in Hin as [[Ho _] Hin%elem_of_map_to_list]. cbn in Ho. by destruct (H id sk).
Qed.

Record ninv (s : nsys) : Prop := {
  ni_count : forall t f, fairs s !! t = Some f -> current_socket_count f = open_of t (socks s);
  ni_max : forall t f, fairs s !! t = Some f -> 0 <= max_socket_allowed f <= 65536 /\ open_of t (socks s) <= 65536;
  ni_owner : forall id sk, socks s !! id = Some sk -> is_Some (fairs s !! owner sk);
}.

Lemma s32_small n : - 2 ^ 31 <= n < 2 ^ 31 -> s32 n = n.
Proof. intros. apply swrap_small; [lia|]. unfold in_s. lia. Qed.

Lemma open_of_nonneg t m : 0 <= open_of t m.
Proof. unfold open_of. lia. Qed.

(** Changing the fairness of one task to what it should be. *)
Lemma ninv_change s t f f' m' :
  ninv s -> fairs s !! t = Some f -> current_socket_count f' = open_of t m' ->
  0 <= max_socket_allowed f' <= 65536 -> open_of t m' <= 65536 ->
  (forall t', t' <> t -> open_of t' m' = open_of t' (socks s)) ->
  (forall id sk, m' !! id = Some sk -> is_Some (fairs s !! owner sk)) ->
  ninv (NSys (<[t := f']> (fairs s)) m').
Proof.
  intros [Hc Hm Ho] Ht Hf Hmax Hopen Hoth Hown. split; cbn.
  - intros t' g. rewrite lookup_insert. case_decide; [by intros; simplify_eq|]. intros. rewrite Hoth by done. by apply Hc.
  - intros t' g. rewrite lookup_insert. case_decide; [by intros; simplify_eq|]. intros. rewrite Hoth by done. by eapply Hm.
  - intros id sk Hsk. rewrite lookup_insert. case_decide; [by eexists|]. by eapply Hown.
Qed.

(** The sockets change and the tasks do not. *)
Lemma ninv_socks s m' :
  ninv s -> (forall t, open_of t m' = open_of t (socks s)) ->
  (forall id sk, m' !! id = Some sk -> is_Some (fairs s !! owner sk)) -> ninv (set_socks m' s).
Proof.
  intros [Hc Hm Ho] Hsame Hown. split; cbn; [| |done]; intros t f Hf; rewrite Hsame; [by apply Hc|by eapply Hm].
Qed.

Lemma create_inv s task k id pre rest :
  ninv s -> is_Some (fairs s !! task) -> socks s !! id = None -> ninv (snd (sock_create task k id pre rest s)).
Proof.
  intros Hi [f Hf] Hid. unfold sock_create. destruct (nonzero pre); [done|]. rewrite Hf. cbn.
  destruct (negb k && _) eqn:Ea; [done|]. destruct (nonzero rest); [done|]. cbn.
  assert (Hown : forall i sk, <[id := Sock task k false]> (socks s) !! i = Some sk -> is_Some (fairs s !! owner sk)).
  { intros i sk. rewrite lookup_insert. case_decide; [intros; simplify_eq; by eexists|apply Hi]. }
  destruct k; cbn in *.
  - apply ninv_socks; [done| |done]. intros t. rewrite open_of_insert by done. unfold counted.
    by rewrite bool_decide_false by (cbn; intros [? ?]; congruence).
  - rewrite negb_involutive in Ea. apply Z.leb_gt in Ea. unfold socket_fairness_inc_count. rewrite Hf. cbn.
    pose proof (ni_max _ Hi _ _ Hf) as [Hmax Hopen]. rewrite (ni_count _ Hi _ _ Hf) in Ea.
    assert (Hn : open_of task (<[id := Sock task false false]> (socks s)) = 1 + open_of task (socks s))
      by (rewrite open_of_insert by done; unfold counted; by rewrite bool_decide_true).
    pose proof (open_of_nonneg task (socks s)). eapply ninv_change; [done|done| |done| | |done]; cbn.
    + rewrite Hn, (ni_count _ Hi _ _ Hf), s32_small by lia. lia.
    + lia.
    + intros t' Ht. rewrite open_of_insert by done. unfold counted. by rewrite bool_decide_false by (cbn; intros [? ?]; congruence).
Qed.

Lemma release_inv s task id sk :
  ninv s -> socks s !! id = Some sk -> owner sk = task -> file sk = negb (kern sk) -> ninv (sock_release task id s).
Proof.
  intros Hi Hsk Ho Hf. unfold sock_release. rewrite Hsk, Hf.
  assert (Hown : forall i sk', delete id (socks s) !! i = Some sk' -> is_Some (fairs s !! owner sk'))
    by (intros i sk' [_ H]%lookup_delete_Some; by apply (ni_owner _ Hi _ _ H)).
  destruct (kern sk) eqn:Ek; cbn.
  - apply ninv_socks; [done| |done]. intros t. rewrite (open_of_delete t _ _ sk Hsk). unfold counted.
    rewrite bool_decide_false by (intros [? ?]; congruence). lia.
  - destruct (ni_owner _ Hi _ _ Hsk) as [f Hff]. rewrite Ho in Hff. unfold socket_fairness_dec_count. rewrite Hff. cbn.
    pose proof (ni_max _ Hi _ _ Hff) as [Hmax Hopen].
    assert (Hn : open_of task (delete id (socks s)) = open_of task (socks s) - 1)
      by (rewrite (open_of_delete task _ _ sk Hsk); unfold counted; by rewrite bool_decide_true).
    pose proof (open_of_nonneg task (delete id (socks s))). eapply ninv_change; [done|done| |done| | |done]; cbn.
    + rewrite Hn, (ni_count _ Hi _ _ Hff), s32_small by lia. lia.
    + lia.
    + intros t' Ht. rewrite (open_of_delete t' _ _ sk Hsk). unfold counted.
      rewrite bool_decide_false by (intros [? ?]; congruence). lia.
Qed.

Lemma nstep_inv s e : ninv s -> orderly s e -> ninv (nstep e s).
Proof.
  intros Hi He. destruct e as [c|t k id pre rest|id|t id|pid n]; cbn in He |- *.
  - assert (Hz : open_of c (socks s) = 0).
    { apply open_of_none. intros id sk Hsk <-. destruct (ni_owner _ Hi _ _ Hsk). congruence. }
    destruct Hi as [Hc Hm Ho]. split; cbn.
    + intros t f. rewrite lookup_insert. case_decide; [intros [= <-]; subst; by rewrite Hz|apply Hc].
    + intros t f. rewrite lookup_insert. case_decide; [intros [= <-]; subst; rewrite Hz; cbn; unfold SOCKET_FAIR_DEFAULT_MAX; lia|apply Hm].
    + intros id sk Hsk. rewrite lookup_insert. case_decide; [by eexists|by eapply Ho].
  - destruct He. by apply create_inv.
  - destruct He as (sk & Hsk & _). rewrite Hsk. apply ninv_socks; [done| |].
    + intros t. by apply open_of_file.
    + intros i sk'. rewrite lookup_insert. case_decide; [intros; simplify_eq; by apply (ni_owner _ Hi _ _ Hsk)|apply Hi].
  - destruct He as (sk & Hsk & Ho & Hf). by eapply release_inv.
  - unfold sys_configure_socket_fairness, socket_fairness_configure.
    destruct (Z.ltb_spec n 0); [done|]. destruct (Z.ltb_spec 65536 n); [done|]. cbn.
    destruct (fairs s !! pid) as [f|] eqn:Ef; [|done]. cbn. pose proof (ni_max _ Hi _ _ Ef) as [_ Hopen].
    eapply ninv_change; [done|done|exact (ni_count _ Hi _ _ Ef)|cbn; lia|done|done|apply Hi].
Qed.

Lemma nreach_inv s : nreach s -> ninv s.
Proof.
  induction 1 as [|s e _ IH He]; [|by apply nstep_inv]. split; cbn.
  - intros t f [<- <-]%lookup_singleton_Some. reflexivity.
  - intros t f [<- <-]%lookup_singleton_Some. unfold open_of. cbn. unfold SOCKET_FAIR_DEFAULT_MAX. rewrite map_to_list_empty. cbn. lia.
  - intros id sk H. by rewrite lookup_empty in H.
Qed.


(** Task 1 has the limit 1 and one socket. *)
Definition one_socket : nsys := nstep (NCreate 1 false 10 0 0) (nstep (NConfigure 1 1) nboot).


(** The version of the initialiser in net/socket_fair.c, whose comment says
    that 0 is no limit, allows no socket at all. *)
Lemma init_denies : socket_fairness_check_allowed (Some socket_fairness_init) = false.
Proof. reflexivity. Qed.

(** Releasing the socket of another task lowers the wrong count: task 2, with
    the limit 1, has two sockets open. *)
Lemma foreign_release_exceeds :
  let s := foldl (fun s e => nstep e s) nboot
    [NFork 2; NConfigure 2 1; NCreate 1 false 10 0 0; NFile 10; NRelease 2 10; NCreate 2 false 11 0 0; NCreate 2 false 12 0 0] in
  (max_socket_allowed <$> fairs s !! 2) = Some 1 /\ open_of 2 (socks s) = 2.
Proof. by vm_compute. Qed.
