(* ===== verification/SocketTest.v ===== *)
(** * The test of socket fairness (network/socket/socket_fair_test.c)

    The program sets limits, opens sockets until one is refused and closes
    them, on the kernel of [SocketFair].  Opening a socket fails for no other
    reason. *)

From S2P Require Import Prelude SocketFair.

Section Program.
(** gettid(); closing gives back a file of the thread that opened it. *)
Variable tid : Z.

(** syscall() returns -1 in place of a negative errno. *)
Definition configure (thread_id limit : Z) (s : nsys) : Z * nsys :=
  let '(r, s) := sys_configure_socket_fairness thread_id limit s in (if r <? 0 then -1 else r, s).

(** for (i = 0; i < n; i++) { sockets[i] = socket(...); if fails break; }, the
    sockets that were made *)
Fixpoint open_sockets (n : nat) (s : nsys) : list Z * nsys :=
  match n with
  | O => ([], s)
  | S n =>
      let id := fresh (dom (socks s)) in
      let '(r, s) := sock_create tid false id 0 0 s in
      if r <? 0 then ([], s)
      else let '(ids, s) := open_sockets n (nstep (NFile id) s) in (id :: ids, s)
  end.

Definition close_sockets (ids : list Z) (s : nsys) : nsys := foldl (fun s id => sock_release tid id s) s ids.

Definition test_basic_syscall (s : nsys) : Z * nsys :=
  let '(result, s) := configure tid 5 s in (if result =? 0 then 0 else -1, s).

Definition test_socket_limits (s : nsys) : Z * nsys :=
  let limit := 3 in
  let '(result, s) := configure tid limit s in
  if negb (result =? 0) then (-1, s)
  else
    let '(sockets, s) := open_sockets 6 s in
    let created := Z.of_nat (length sockets) in
    let s := close_sockets sockets s in
    (if created <=? limit then 0 else -1, s).

Definition test_error_handling (s : nsys) : Z * nsys :=
  let '(result, s) := configure tid (-1) s in
  if negb (result <? 0) then (-1, s)
  else
    let '(result, s) := configure tid 100000 s in
    if negb (result <? 0) then (-1, s)
    else
      let '(result, s) := configure 99999 10 s in
      if negb (result <? 0) then (-1, s) else (0, s).

Definition test_reset_limits (s : nsys) : Z * nsys :=
  let '(result, s) := configure tid 2 s in
  if negb (result =? 0) then (-1, s)
  else
    let '(sockets, s) := open_sockets 4 s in
    let created_before := Z.of_nat (length sockets) in
    let s := close_sockets sockets s in
    let '(result, s) := configure tid 5 s in
    if negb (result =? 0) then (-1, s)
    else
      let '(sockets, s) := open_sockets 7 s in
      let created_after := Z.of_nat (length sockets) in
      let s := close_sockets sockets s in
      (if (created_before <=? 2) && (created_after <=? 5) && (created_before <? created_after) then 0 else -1, s).

(** The number of tests passed and the exit code *)
Definition socket_test_main (s : nsys) : Z * Z * nsys :=
  let '(r1, s) := test_basic_syscall s in
  let '(r2, s) := test_socket_limits s in
  let '(r3, s) := test_error_handling s in
  let '(r4, s) := test_reset_limits s in
  let passed := Z.of_nat (length (filter (fun r => r = 0) [r1; r2; r3; r4])) in
  (passed, if passed =? 4 then 0 else 1, s).

(** ** What the kernel does for it *)

(** The thread has the limit [m] and [c] sockets, and nobody has the id 99999. *)
Record tested (m c : Z) (s : nsys) : Prop := {
  ts_fair : fairs s !! tid = Some (Fair m c);
  ts_nobody : fairs s !! 99999 = None }.

Hypothesis Htid : tid <> 99999.

Lemma configure_spec n m c s : tested m c s -> 0 <= n <= 65536 -> exists s', configure tid n s = (0, s') /\ tested n c s'.
Proof.
  intros [Hf Hn] Hr. unfold configure, sys_configure_socket_fairness, socket_fairness_configure.
  rewrite !(proj2 (Z.ltb_ge _ _)) by lia. cbn. rewrite Hf. eexists. split; [done|]. split; cbn.
  - by rewrite lookup_insert_eq.
  - by rewrite lookup_insert_ne.
Qed.

Lemma configure_refused pid n m c s :
  tested m c s -> n < 0 \/ 65536 < n \/ pid = 99999 -> configure pid n s = (-1, s).
Proof.
  intros [Hf Hn] Hr. unfold configure, sys_configure_socket_fairness, socket_fairness_configure.
  destruct (Z.ltb_spec n 0); [done|]. destruct (Z.ltb_spec 65536 n); [done|]. cbn. destruct Hr as [|[| ->]]; [lia|lia|]. by rewrite Hn.
Qed.

(** The sockets [ids] are open files of the thread. *)
Definition opened (ids : list Z) (s : nsys) : Prop :=
  NoDup ids /\ Forall (fun id => socks s !! id = Some (Sock tid false true)) ids.

Lemma open_one m c s (id := fresh (dom (socks s))) :
  tested m c s -> 0 <= c -> c < m <= 65536 ->
  exists s', sock_create tid false id 0 0 s = (0, s') /\ tested m (c + 1) (nstep (NFile id) s') /\
    socks (nstep (NFile id) s') = <[id := Sock tid false true]> (socks s).
Proof.
  intros [Hf Hn] Hc Hm. unfold sock_create. rewrite Hf. cbn. rewrite (proj2 (Z.leb_gt _ _)) by lia. cbn.
  unfold socket_fairness_inc_count. rewrite Hf. cbn. eexists. split; [done|]. cbn. rewrite lookup_insert_eq. cbn. split.
  - split; cbn; [rewrite lookup_insert_eq|by rewrite lookup_insert_ne]. unfold atomic_add. cbn. by rewrite s32_small by lia.
  - by rewrite insert_insert_eq.
Qed.

Lemma open_refused m c s n : tested m c s -> m <= c -> open_sockets (S n) s = ([], s).
Proof.
  intros [Hf _] Hc. cbn [open_sockets]. unfold sock_create. rewrite Hf. cbn. rewrite (proj2 (Z.leb_le _ _)) by lia. done.
Qed.

Lemma open_sockets_spec n m c s :
  tested m c s -> 0 <= c -> c <= m <= 65536 ->
  exists ids s', open_sockets n s = (ids, s') /\ Z.of_nat (length ids) = Z.min (Z.of_nat n) (m - c) /\
    tested m (c + Z.of_nat (length ids)) s' /\ opened ids s' /\
    (forall id sk, socks s !! id = Some sk -> socks s' !! id = Some sk) /\ (forall id, id ∈ ids -> socks s !! id = None).
Proof.
  revert c s. induction n as [|n IH]; intros c s Ht Hc Hm.
  { exists [], s. cbn. rewrite Z.add_0_r. split_and!; [done|lia|done|split; [apply NoDup_nil_2|done]|done|by intros ? ?%not_elem_of_nil]. }
  destruct (decide (c < m)) as [Hlt|Hge].
  2: { exists [], s. rewrite (open_refused m c) by (done || lia). cbn [length]. rewrite Z.add_0_r.
       split_and!; [done|lia|done|split; [apply NoDup_nil_2|done]|done|by intros ? ?%not_elem_of_nil]. }
  destruct (open_one m c s Ht Hc ltac:(lia)) as (s1 & Hs1 & Ht1 & Hk). cbn [open_sockets]. rewrite Hs1. cbn [Z.ltb Z.compare].
  set (id := fresh (dom (socks s))) in *. set (s2 := nstep (NFile id) s1) in *.
  assert (Hid : socks s !! id = None) by (apply not_elem_of_dom; apply is_fresh).
  destruct (IH (c + 1) s2 Ht1 ltac:(lia) ltac:(lia)) as (ids & s' & -> & Hl & Ht' & [Hnd Hop] & Hkeep & Hnew).
  exists (id :: ids), s'. cbn [length]. rewrite Nat2Z.inj_succ. split_and!; [done|lia| |split| |].
  - replace (c + Z.succ (Z.of_nat (length ids))) with (c + 1 + Z.of_nat (length ids)) by lia. done.
  - constructor; [|done]. intros Hin%Hnew. rewrite Hk, lookup_insert_eq in Hin. done.
  - constructor; [|done]. apply Hkeep. by rewrite Hk, lookup_insert_eq.
  - intros i sk Hi. apply Hkeep. rewrite Hk, lookup_insert_ne; [done|]. intros <-. congruence.
  - intros i [-> | Hi]%elem_of_cons; [done|]. specialize (Hnew i Hi). rewrite Hk in Hnew. by apply lookup_insert_None in Hnew as [? _].
Qed.

Lemma close_sockets_spec ids m c s :
  tested m c s -> opened ids s -> - 2 ^ 30 <= c - Z.of_nat (length ids) -> c < 2 ^ 30 ->
  tested m (c - Z.of_nat (length ids)) (close_sockets ids s).
Proof.
  revert c s. induction ids as [|id ids IH]; intros c s Ht [Hnd Hop] Hlo Hhi; [cbn; by rewrite Z.sub_0_r|].
  apply NoDup_cons in Hnd as [Hid Hnd]. inversion_clear Hop as [|? ? Hsk Hops]. cbn [length] in Hlo |- *.
  change (close_sockets (id :: ids) s) with (close_sockets ids (sock_release tid id s)).
  replace (c - Z.of_nat (S (length ids))) with (c - 1 - Z.of_nat (length ids)) by lia. destruct Ht as [Hf Hn].
  assert (Hr : sock_release tid id s = NSys (<[tid := Fair m (c - 1)]> (fairs s)) (delete id (socks s))).
  { unfold sock_release. rewrite Hsk. cbn [file]. unfold socket_fairness_dec_count. rewrite Hf. unfold atomic_add. cbn.
    rewrite s32_small by lia. done. }
  rewrite Hr. apply IH; [| |lia|lia].
  - split; cbn; [by rewrite lookup_insert_eq|by rewrite lookup_insert_ne].
  - split; [done|]. cbn. apply Forall_forall. intros i Hi. rewrite Forall_forall in Hops.
    rewrite lookup_delete_ne by (intros <-; done). by apply Hops.
Qed.

(** Opening up to a limit and closing again *)
Lemma open_close n m s :
  tested m 0 s -> 0 <= m <= 65536 ->
  exists ids s', open_sockets n s = (ids, s') /\ Z.of_nat (length ids) = Z.min (Z.of_nat n) m /\ tested m 0 (close_sockets ids s').
Proof.
  intros Ht Hm. destruct (open_sockets_spec n m 0 s Ht ltac:(lia) ltac:(lia)) as (ids & s' & Ho & Hl & Ht' & Hop & _).
  exists ids, s'. split; [done|]. split; [lia|]. pose proof (close_sockets_spec ids m _ s' Ht' Hop ltac:(lia) ltac:(lia)) as Hc.
  by replace (0 + Z.of_nat (length ids) - Z.of_nat (length ids)) with 0 in Hc by lia.
Qed.

(** A thread without open sockets passes all four tests: each limit is met
    exactly, and what must be refused is. *)
Lemma socket_test_passes m s : tested m 0 s -> exists s', socket_test_main s = (4, 0, s') /\ tested 5 0 s'.
Proof.
  intros Ht. unfold socket_test_main, test_basic_syscall.
  destruct (configure_spec 5 m 0 s Ht ltac:(lia)) as (s1 & -> & H1). cbn [Z.eqb]. unfold test_socket_limits.
  destruct (configure_spec 3 5 0 s1 H1 ltac:(lia)) as (s2 & -> & H2). cbn [Z.eqb negb].
  destruct (open_close 6 3 s2 H2 ltac:(lia)) as (ids & s3 & -> & Hl & H3). rewrite Hl. unfold test_error_handling.
  rewrite (configure_refused tid (-1) _ _ _ H3), (configure_refused tid 100000 _ _ _ H3), (configure_refused 99999 10 _ _ _ H3) by lia.
  cbn [Z.ltb Z.compare negb]. unfold test_reset_limits.
  destruct (configure_spec 2 _ _ _ H3 ltac:(lia)) as (s4 & -> & H4). cbn [Z.eqb negb].
  destruct (open_close 4 2 s4 H4 ltac:(lia)) as (ids2 & s5 & -> & Hl2 & H5).
  destruct (configure_spec 5 _ _ _ H5 ltac:(lia)) as (s6 & -> & H6). cbn [Z.eqb negb].
  destruct (open_close 7 5 s6 H6 ltac:(lia)) as (ids3 & s7 & -> & Hl3 & H7). rewrite Hl2, Hl3. eexists. split; [reflexivity|done].
Qed.
End Program.
