(* ===== verification/Syscalls.v ===== *)
(** * System call numbers, tables and prototypes

    The generic table (include/uapi/asm-generic/unistd.h), the table of x86-64
    (arch/x86/entry/syscalls/syscall_64.tbl), the prototypes of the handlers
    (include/linux/syscalls.h) and what selects an entry. *)

From S2P Require Import Prelude.

(** ** unistd.h *)

(** The preprocessor conditions around the entries. *)
Inductive guard := Always | Bits32 | Time32 | NewStat | Mmu | Want (s : string) | NoWant (s : string).

(** The macros an entry is made with: the handler, that of 32 and of 64 bits,
    with that of the compatibility table. *)
Inductive sc :=
| SYSCALL (sys : string)
| SC_3264 (sys32 sys64 : string)
| SC_COMP (sys comp : string)
| SC_COMP_3264 (sys32 sys64 comp : string).

Record unistd_entry := Entry { e_guard : guard; e_name : string; e_nr : Z; e_sc : sc }.

(** An architecture: __BITS_PER_LONG == 32, __SYSCALL_COMPAT, __ARCH_NOMMU and
    the __ARCH_WANT_ macros it defines. *)
Record arch := Arch { bits32 : bool; compat : bool; nommu : bool; wants : string -> bool }.

Definition guard_on (a : arch) (g : guard) : bool :=
  match g with
  | Always => true
  | Bits32 => bits32 a
  | Time32 => wants a "TIME32_SYSCALLS" || negb (bits32 a)
  | NewStat => wants a "NEW_STAT" || wants a "STAT64"
  | Mmu => negb (nommu a)
  | Want s => wants a s
  | NoWant s => negb (wants a s)
  end.

(** __SC_3264 *)
Definition sc_3264 (a : arch) (sys32 sys64 : string) : string := if bits32 a || compat a then sys32 else sys64.

(** The handler an entry puts into the table. *)
Definition resolve (a : arch) (m : sc) : string :=
  match m with
  | SYSCALL sys => sys
  | SC_3264 sys32 sys64 => sc_3264 a sys32 sys64
  | SC_COMP sys comp => if compat a then comp else sys
  | SC_COMP_3264 sys32 sys64 comp => if compat a then comp else sc_3264 a sys32 sys64
  end.

Definition unistd_from_0 : list unistd_entry :=
  [
   Entry Always "NR_io_setup" 0 (SC_COMP "sys_io_setup" "compat_sys_io_setup");
   Entry Always "NR_io_destroy" 1 (SYSCALL "sys_io_destroy");
   Entry Always "NR_io_submit" 2 (SC_COMP "sys_io_submit" "compat_sys_io_submit");
   Entry Always "NR_io_cancel" 3 (SYSCALL "sys_io_cancel");
   Entry Time32 "NR_io_getevents" 4 (SC_3264 "sys_io_getevents_time32" "sys_io_getevents");
   Entry Always "NR_setxattr" 5 (SYSCALL "sys_setxattr");
   Entry Always "NR_lsetxattr" 6 (SYSCALL "sys_lsetxattr");
   Entry Always "NR_fsetxattr" 7 (SYSCALL "sys_fsetxattr");
   Entry Always "NR_getxattr" 8 (SYSCALL "sys_getxattr");
   Entry Always "NR_lgetxattr" 9 (SYSCALL "sys_lgetxattr");
   Entry Always "NR_fgetxattr" 10 (SYSCALL "sys_fgetxattr");
   Entry Always "NR_listxattr" 11 (SYSCALL "sys_listxattr");
   Entry Always "NR_llistxattr" 12 (SYSCALL "sys_llistxattr");
   Entry Always "NR_flistxattr" 13 (SYSCALL "sys_flistxattr");
   Entry Always "NR_removexattr" 14 (SYSCALL "sys_removexattr");
   Entry Always "NR_lremovexattr" 15 (SYSCALL "sys_lremovexattr");
   Entry Always "NR_fremovexattr" 16 (SYSCALL "sys_fremovexattr");
   Entry Always "NR_getcwd" 17 (SYSCALL "sys_getcwd");
   Entry Always "NR_lookup_dcookie" 18 (SC_COMP "sys_lookup_dcookie" "compat_sys_lookup_dcookie");
   Entry Always "NR_eventfd2" 19 (SYSCALL "sys_eventfd2");
   Entry Always "NR_epoll_create1" 20 (SYSCALL "sys_epoll_create1");
   Entry Always "NR_epoll_ctl" 21 (SYSCALL "sys_epoll_ctl");
   Entry Always "NR_epoll_pwait" 22 (SC_COMP "sys_epoll_pwait" "compat_sys_epoll_pwait");
   Entry Always "NR_dup" 23 (SYSCALL "sys_dup");
   Entry Always "NR_dup3" 24 (SYSCALL "sys_dup3");
   Entry Always "NR3264_fcntl" 25 (SC_COMP_3264 "sys_fcntl64" "sys_fcntl" "compat_sys_fcntl64");
   Entry Always "NR_inotify_init1" 26 (SYSCALL "sys_inotify_init1");
   Entry Always "NR_inotify_add_watch" 27 (SYSCALL "sys_inotify_add_watch");
   Entry Always "NR_inotify_rm_watch" 28 (SYSCALL "sys_inotify_rm_watch");
   Entry Always "NR_ioctl" 29 (SC_COMP "sys_ioctl" "compat_sys_ioctl");
   Entry Always "NR_ioprio_set" 30 (SYSCALL "sys_ioprio_set");
   Entry Always "NR_ioprio_get" 31 (SYSCALL "sys_ioprio_get");
   Entry Always "NR_flock" 32 (SYSCALL "sys_flock");
   Entry Always "NR_mknodat" 33 (SYSCALL "sys_mknodat");
   Entry Always "NR_mkdirat" 34 (SYSCALL "sys_mkdirat");
   Entry Always "NR_unlinkat" 35 (SYSCALL "sys_unlinkat");
   Entry Always "NR_symlinkat" 36 (SYSCALL "sys_symlinkat");
   Entry Always "NR_linkat" 37 (SYSCALL "sys_linkat");
   Entry (Want "RENAMEAT") "NR_renameat" 38 (SYSCALL "sys_renameat");
   Entry Always "NR_umount2" 39 (SYSCALL "sys_umount");
   Entry Always "NR_mount" 40 (SYSCALL "sys_mount");
   Entry Always "NR_pivot_root" 41 (SYSCALL "sys_pivot_root");
   Entry Always "NR_nfsservctl" 42 (SYSCALL "sys_ni_syscall");
   Entry Always "NR3264_statfs" 43 (SC_COMP_3264 "sys_statfs64" "sys_statfs" "compat_sys_statfs64");
   Entry Always "NR3264_fstatfs" 44 (SC_COMP_3264 "sys_fstatfs64" "sys_fstatfs" "compat_sys_fstatfs64");
   Entry Always "NR3264_truncate" 45 (SC_COMP_3264 "sys_truncate64" "sys_truncate" "compat_sys_truncate64");
   Entry Always "NR3264_ftruncate" 46 (SC_COMP_3264 "sys_ftruncate64" "sys_ftruncate" "compat_sys_ftruncate64");
   Entry Always "NR_fallocate" 47 (SC_COMP "sys_fallocate" "compat_sys_fallocate");
   Entry Always "NR_faccessat" 48 (SYSCALL "sys_faccessat");
   Entry Always "NR_chdir" 49 (SYSCALL "sys_chdir");
   Entry Always "NR_fchdir" 50 (SYSCALL "sys_fchdir");
   Entry Always "NR_chroot" 51 (SYSCALL "sys_chroot");
   Entry Always "NR_fchmod" 52 (SYSCALL "sys_fchmod");
   Entry Always "NR_fchmodat" 53 (SYSCALL "sys_fchmodat");
   Entry Always "NR_fchownat" 54 (SYSCALL "sys_fchownat")
  ].

Definition unistd_from_55 : list unistd_entry :=
  [
   Entry Always "NR_fchown" 55 (SYSCALL "sys_fchown");
   Entry Always "NR_openat" 56 (SYSCALL "sys_openat");
   Entry Always "NR_close" 57 (SYSCALL "sys_close");
   Entry Always "NR_vhangup" 58 (SYSCALL "sys_vhangup");
   Entry Always "NR_pipe2" 59 (SYSCALL "sys_pipe2");
   Entry Always "NR_quotactl" 60 (SYSCALL "sys_quotactl");
   Entry Always "NR_getdents64" 61 (SYSCALL "sys_getdents64");
   Entry Always "NR3264_lseek" 62 (SC_3264 "sys_llseek" "sys_lseek");
   Entry Always "NR_read" 63 (SYSCALL "sys_read");
   Entry Always "NR_write" 64 (SYSCALL "sys_write");
   Entry Always "NR_readv" 65 (SC_COMP "sys_readv" "sys_readv");
   Entry Always "NR_writev" 66 (SC_COMP "sys_writev" "sys_writev");
   Entry Always "NR_pread64" 67 (SC_COMP "sys_pread64" "compat_sys_pread64");
   Entry Always "NR_pwrite64" 68 (SC_COMP "sys_pwrite64" "compat_sys_pwrite64");
   Entry Always "NR_preadv" 69 (SC_COMP "sys_preadv" "compat_sys_preadv");
   Entry Always "NR_pwritev" 70 (SC_COMP "sys_pwritev" "compat_sys_pwritev");
   Entry Always "NR3264_sendfile" 71 (SYSCALL "sys_sendfile64");
   Entry Time32 "NR_pselect6" 72 (SC_COMP_3264 "sys_pselect6_time32" "sys_pselect6" "compat_sys_pselect6_time32");
   Entry Time32 "NR_ppoll" 73 (SC_COMP_3264 "sys_ppoll_time32" "sys_ppoll" "compat_sys_ppoll_time32");
   Entry Always "NR_signalfd4" 74 (SC_COMP "sys_signalfd4" "compat_sys_signalfd4");
   Entry Always "NR_vmsplice" 75 (SYSCALL "sys_vmsplice");
   Entry Always "NR_splice" 76 (SYSCALL "sys_splice");
   Entry Always "NR_tee" 77 (SYSCALL "sys_tee");
   Entry Always "NR_readlinkat" 78 (SYSCALL "sys_readlinkat");
   Entry NewStat "NR3264_fstatat" 79 (SC_3264 "sys_fstatat64" "sys_newfstatat");
   Entry NewStat "NR3264_fstat" 80 (SC_3264 "sys_fstat64" "sys_newfstat");
   Entry Always "NR_sync" 81 (SYSCALL "sys_sync");
   Entry Always "NR_fsync" 82 (SYSCALL "sys_fsync");
   Entry Always "NR_fdatasync" 83 (SYSCALL "sys_fdatasync");
   Entry (Want "SYNC_FILE_RANGE2") "NR_sync_file_range2" 84 (SC_COMP "sys_sync_file_range2" "compat_sys_sync_file_range2");
   Entry (NoWant "SYNC_FILE_RANGE2") "NR_sync_file_range" 84 (SC_COMP "sys_sync_file_range" "compat_sys_sync_file_range");
   Entry Always "NR_timerfd_create" 85 (SYSCALL "sys_timerfd_create");
   Entry Time32 "NR_timerfd_settime" 86 (SC_3264 "sys_timerfd_settime32" "sys_timerfd_settime");
   Entry Time32 "NR_timerfd_gettime" 87 (SC_3264 "sys_timerfd_gettime32" "sys_timerfd_gettime");
   Entry Time32 "NR_utimensat" 88 (SC_3264 "sys_utimensat_time32" "sys_utimensat");
   Entry Always "NR_acct" 89 (SYSCALL "sys_acct");
   Entry Always "NR_capget" 90 (SYSCALL "sys_capget");
   Entry Always "NR_capset" 91 (SYSCALL "sys_capset");
   Entry Always "NR_personality" 92 (SYSCALL "sys_personality");
   Entry Always "NR_exit" 93 (SYSCALL "sys_exit");
   Entry Always "NR_exit_group" 94 (SYSCALL "sys_exit_group");
   Entry Always "NR_waitid" 95 (SC_COMP "sys_waitid" "compat_sys_waitid");
   Entry Always "NR_set_tid_address" 96 (SYSCALL "sys_set_tid_address");
   Entry Always "NR_unshare" 97 (SYSCALL "sys_unshare");
   Entry Time32 "NR_futex" 98 (SC_3264 "sys_futex_time32" "sys_futex");
   Entry Always "NR_set_robust_list" 99 (SC_COMP "sys_set_robust_list" "compat_sys_set_robust_list");
   Entry Always "NR_get_robust_list" 100 (SC_COMP "sys_get_robust_list" "compat_sys_get_robust_list")
  ].

Definition unistd_from_101 : list unistd_entry :=
  [
   Entry Time32 "NR_nanosleep" 101 (SC_3264 "sys_nanosleep_time32" "sys_nanosleep");
   Entry Always "NR_getitimer" 102 (SC_COMP "sys_getitimer" "compat_sys_getitimer");
   Entry Always "NR_setitimer" 103 (SC_COMP "sys_setitimer" "compat_sys_setitimer");
   Entry Always "NR_kexec_load" 104 (SC_COMP "sys_kexec_load" "compat_sys_kexec_load");
   Entry Always "NR_init_module" 105 (SYSCALL "sys_init_module");
   Entry Always "NR_delete_module" 106 (SYSCALL "sys_delete_module");
   Entry Always "NR_timer_create" 107 (SC_COMP "sys_timer_create" "compat_sys_timer_create");
   Entry Time32 "NR_timer_gettime" 108 (SC_3264 "sys_timer_gettime32" "sys_timer_gettime");
   Entry Always "NR_timer_getoverrun" 109 (SYSCALL "sys_timer_getoverrun");
   Entry Time32 "NR_timer_settime" 110 (SC_3264 "sys_timer_settime32" "sys_timer_settime");
   Entry Always "NR_timer_delete" 111 (SYSCALL "sys_timer_delete");
   Entry Time32 "NR_clock_settime" 112 (SC_3264 "sys_clock_settime32" "sys_clock_settime");
   Entry Time32 "NR_clock_gettime" 113 (SC_3264 "sys_clock_gettime32" "sys_clock_gettime");
   Entry Time32 "NR_clock_getres" 114 (SC_3264 "sys_clock_getres_time32" "sys_clock_getres");
   Entry Time32 "NR_clock_nanosleep" 115 (SC_3264 "sys_clock_nanosleep_time32" "sys_clock_nanosleep");
   Entry Always "NR_syslog" 116 (SYSCALL "sys_syslog");
   Entry Always "NR_ptrace" 117 (SYSCALL "sys_ptrace");
   Entry Always "NR_sched_setparam" 118 (SYSCALL "sys_sched_setparam");
   Entry Always "NR_sched_setscheduler" 119 (SYSCALL "sys_sched_setscheduler");
   Entry Always "NR_sched_getscheduler" 120 (SYSCALL "sys_sched_getscheduler");
   Entry Always "NR_sched_getparam" 121 (SYSCALL "sys_sched_getparam");
   Entry Always "NR_sched_setaffinity" 122 (SC_COMP "sys_sched_setaffinity" "compat_sys_sched_setaffinity");
   Entry Always "NR_sched_getaffinity" 123 (SC_COMP "sys_sched_getaffinity" "compat_sys_sched_getaffinity");
   Entry Always "NR_sched_yield" 124 (SYSCALL "sys_sched_yield");
   Entry Always "NR_sched_get_priority_max" 125 (SYSCALL "sys_sched_get_priority_max");
   Entry Always "NR_sched_get_priority_min" 126 (SYSCALL "sys_sched_get_priority_min");
   Entry Time32 "NR_sched_rr_get_interval" 127 (SC_3264 "sys_sched_rr_get_interval_time32" "sys_sched_rr_get_interval");
   Entry Always "NR_restart_syscall" 128 (SYSCALL "sys_restart_syscall");
   Entry Always "NR_kill" 129 (SYSCALL "sys_kill");
   Entry Always "NR_tkill" 130 (SYSCALL "sys_tkill");
   Entry Always "NR_tgkill" 131 (SYSCALL "sys_tgkill");
   Entry Always "NR_sigaltstack" 132 (SC_COMP "sys_sigaltstack" "compat_sys_sigaltstack");
   Entry Always "NR_rt_sigsuspend" 133 (SC_COMP "sys_rt_sigsuspend" "compat_sys_rt_sigsuspend");
   Entry Always "NR_rt_sigaction" 134 (SC_COMP "sys_rt_sigaction" "compat_sys_rt_sigaction");
   Entry Always "NR_rt_sigprocmask" 135 (SC_COMP "sys_rt_sigprocmask" "compat_sys_rt_sigprocmask");
   Entry Always "NR_rt_sigpending" 136 (SC_COMP "sys_rt_sigpending" "compat_sys_rt_sigpending");
   Entry Time32 "NR_rt_sigtimedwait" 137 (SC_COMP_3264 "sys_rt_sigtimedwait_time32" "sys_rt_sigtimedwait" "compat_sys_rt_sigtimedwait_time32");
   Entry Always "NR_rt_sigqueueinfo" 138 (SC_COMP "sys_rt_sigqueueinfo" "compat_sys_rt_sigqueueinfo");
   Entry Always "NR_rt_sigreturn" 139 (SC_COMP "sys_rt_sigreturn" "compat_sys_rt_sigreturn");
   Entry Always "NR_setpriority" 140 (SYSCALL "sys_setpriority");
   Entry Always "NR_getpriority" 141 (SYSCALL "sys_getpriority");
   Entry Always "NR_reboot" 142 (SYSCALL "sys_reboot");
   Entry Always "NR_setregid" 143 (SYSCALL "sys_setregid");
   Entry Always "NR_setgid" 144 (SYSCALL "sys_setgid");
   Entry Always "NR_setreuid" 145 (SYSCALL "sys_setreuid");
   Entry Always "NR_setuid" 146 (SYSCALL "sys_setuid");
   Entry Always "NR_setresuid" 147 (SYSCALL "sys_setresuid");
   Entry Always "NR_getresuid" 148 (SYSCALL "sys_getresuid");
   Entry Always "NR_setresgid" 149 (SYSCALL "sys_setresgid");
   Entry Always "NR_getresgid" 150 (SYSCALL "sys_getresgid");
   Entry Always "NR_setfsuid" 151 (SYSCALL "sys_setfsuid");
   Entry Always "NR_setfsgid" 152 (SYSCALL "sys_setfsgid");
   Entry Always "NR_times" 153 (SC_COMP "sys_times" "compat_sys_times");
   Entry Always "NR_setpgid" 154 (SYSCALL "sys_setpgid");
   Entry Always "NR_getpgid" 155 (SYSCALL "sys_getpgid");
   Entry Always "NR_getsid" 156 (SYSCALL "sys_getsid");
   Entry Always "NR_setsid" 157 (SYSCALL "sys_setsid")
  ].

Definition unistd_from_158 : list unistd_entry :=
  [
   Entry Always "NR_getgroups" 158 (SYSCALL "sys_getgroups");
   Entry Always "NR_setgroups" 159 (SYSCALL "sys_setgroups");
   Entry Always "NR_uname" 160 (SYSCALL "sys_newuname");
   Entry Always "NR_sethostname" 161 (SYSCALL "sys_sethostname");
   Entry Always "NR_setdomainname" 162 (SYSCALL "sys_setdomainname");
   Entry (Want "SET_GET_RLIMIT") "NR_getrlimit" 163 (SC_COMP "sys_getrlimit" "compat_sys_getrlimit");
   Entry (Want "SET_GET_RLIMIT") "NR_setrlimit" 164 (SC_COMP "sys_setrlimit" "compat_sys_setrlimit");
   Entry Always "NR_getrusage" 165 (SC_COMP "sys_getrusage" "compat_sys_getrusage");
   Entry Always "NR_umask" 166 (SYSCALL "sys_umask");
   Entry Always "NR_prctl" 167 (SYSCALL "sys_prctl");
   Entry Always "NR_getcpu" 168 (SYSCALL "sys_getcpu");
   Entry Time32 "NR_gettimeofday" 169 (SC_COMP "sys_gettimeofday" "compat_sys_gettimeofday");
   Entry Time32 "NR_settimeofday" 170 (SC_COMP "sys_settimeofday" "compat_sys_settimeofday");
   Entry Time32 "NR_adjtimex" 171 (SC_3264 "sys_adjtimex_time32" "sys_adjtimex");
   Entry Always "NR_getpid" 172 (SYSCALL "sys_getpid");
   Entry Always "NR_getppid" 173 (SYSCALL "sys_getppid");
   Entry Always "NR_getuid" 174 (SYSCALL "sys_getuid");
   Entry Always "NR_geteuid" 175 (SYSCALL "sys_geteuid");
   Entry Always "NR_getgid" 176 (SYSCALL "sys_getgid");
   Entry Always "NR_getegid" 177 (SYSCALL "sys_getegid");
   Entry Always "NR_gettid" 178 (SYSCALL "sys_gettid");
   Entry Always "NR_sysinfo" 179 (SC_COMP "sys_sysinfo" "compat_sys_sysinfo");
   Entry Always "NR_mq_open" 180 (SC_COMP "sys_mq_open" "compat_sys_mq_open");
   Entry Always "NR_mq_unlink" 181 (SYSCALL "sys_mq_unlink");
   Entry Time32 "NR_mq_timedsend" 182 (SC_3264 "sys_mq_timedsend_time32" "sys_mq_timedsend");
   Entry Time32 "NR_mq_timedreceive" 183 (SC_3264 "sys_mq_timedreceive_time32" "sys_mq_timedreceive");
   Entry Always "NR_mq_notify" 184 (SC_COMP "sys_mq_notify" "compat_sys_mq_notify");
   Entry Always "NR_mq_getsetattr" 185 (SC_COMP "sys_mq_getsetattr" "compat_sys_mq_getsetattr");
   Entry Always "NR_msgget" 186 (SYSCALL "sys_msgget");
   Entry Always "NR_msgctl" 187 (SC_COMP "sys_msgctl" "compat_sys_msgctl");
   Entry Always "NR_msgrcv" 188 (SC_COMP "sys_msgrcv" "compat_sys_msgrcv");
   Entry Always "NR_msgsnd" 189 (SC_COMP "sys_msgsnd" "compat_sys_msgsnd");
   Entry Always "NR_semget" 190 (SYSCALL "sys_semget");
   Entry Always "NR_semctl" 191 (SC_COMP "sys_semctl" "compat_sys_semctl");
   Entry Time32 "NR_semtimedop" 192 (SC_3264 "sys_semtimedop_time32" "sys_semtimedop");
   Entry Always "NR_semop" 193 (SYSCALL "sys_semop");
   Entry Always "NR_shmget" 194 (SYSCALL "sys_shmget");
   Entry Always "NR_shmctl" 195 (SC_COMP "sys_shmctl" "compat_sys_shmctl");
   Entry Always "NR_shmat" 196 (SC_COMP "sys_shmat" "compat_sys_shmat");
   Entry Always "NR_shmdt" 197 (SYSCALL "sys_shmdt");
   Entry Always "NR_socket" 198 (SYSCALL "sys_socket");
   Entry Always "NR_socketpair" 199 (SYSCALL "sys_socketpair");
   Entry Always "NR_bind" 200 (SYSCALL "sys_bind");
   Entry Always "NR_listen" 201 (SYSCALL "sys_listen");
   Entry Always "NR_accept" 202 (SYSCALL "sys_accept");
   Entry Always "NR_connect" 203 (SYSCALL "sys_connect");
   Entry Always "NR_getsockname" 204 (SYSCALL "sys_getsockname");
   Entry Always "NR_getpeername" 205 (SYSCALL "sys_getpeername");
   Entry Always "NR_sendto" 206 (SYSCALL "sys_sendto");
   Entry Always "NR_recvfrom" 207 (SC_COMP "sys_recvfrom" "compat_sys_recvfrom");
   Entry Always "NR_setsockopt" 208 (SC_COMP "sys_setsockopt" "sys_setsockopt");
   Entry Always "NR_getsockopt" 209 (SC_COMP "sys_getsockopt" "sys_getsockopt");
   Entry Always "NR_shutdown" 210 (SYSCALL "sys_shutdown");
   Entry Always "NR_sendmsg" 211 (SC_COMP "sys_sendmsg" "compat_sys_sendmsg");
   Entry Always "NR_recvmsg" 212 (SC_COMP "sys_recvmsg" "compat_sys_recvmsg");
   Entry Always "NR_readahead" 213 (SC_COMP "sys_readahead" "compat_sys_readahead");
   Entry Always "NR_brk" 214 (SYSCALL "sys_brk");
   Entry Always "NR_munmap" 215 (SYSCALL "sys_munmap");
   Entry Always "NR_mremap" 216 (SYSCALL "sys_mremap")
  ].

Definition unistd_from_217 : list unistd_entry :=
  [
   Entry Always "NR_add_key" 217 (SYSCALL "sys_add_key");
   Entry Always "NR_request_key" 218 (SYSCALL "sys_request_key");
   Entry Always "NR_keyctl" 219 (SC_COMP "sys_keyctl" "compat_sys_keyctl");
   Entry Always "NR_clone" 220 (SYSCALL "sys_clone");
   Entry Always "NR_execve" 221 (SC_COMP "sys_execve" "compat_sys_execve");
   Entry Always "NR3264_mmap" 222 (SC_3264 "sys_mmap2" "sys_mmap");
   Entry Always "NR3264_fadvise64" 223 (SC_COMP "sys_fadvise64_64" "compat_sys_fadvise64_64");
   Entry Mmu "NR_swapon" 224 (SYSCALL "sys_swapon");
   Entry Mmu "NR_swapoff" 225 (SYSCALL "sys_swapoff");
   Entry Mmu "NR_mprotect" 226 (SYSCALL "sys_mprotect");
   Entry Mmu "NR_msync" 227 (SYSCALL "sys_msync");
   Entry Mmu "NR_mlock" 228 (SYSCALL "sys_mlock");
   Entry Mmu "NR_munlock" 229 (SYSCALL "sys_munlock");
   Entry Mmu "NR_mlockall" 230 (SYSCALL "sys_mlockall");
   Entry Mmu "NR_munlockall" 231 (SYSCALL "sys_munlockall");
   Entry Mmu "NR_mincore" 232 (SYSCALL "sys_mincore");
   Entry Mmu "NR_madvise" 233 (SYSCALL "sys_madvise");
   Entry Mmu "NR_remap_file_pages" 234 (SYSCALL "sys_remap_file_pages");
   Entry Mmu "NR_mbind" 235 (SYSCALL "sys_mbind");
   Entry Mmu "NR_get_mempolicy" 236 (SYSCALL "sys_get_mempolicy");
   Entry Mmu "NR_set_mempolicy" 237 (SYSCALL "sys_set_mempolicy");
   Entry Mmu "NR_migrate_pages" 238 (SYSCALL "sys_migrate_pages");
   Entry Mmu "NR_move_pages" 239 (SYSCALL "sys_move_pages");
   Entry Always "NR_rt_tgsigqueueinfo" 240 (SC_COMP "sys_rt_tgsigqueueinfo" "compat_sys_rt_tgsigqueueinfo");
   Entry Always "NR_perf_event_open" 241 (SYSCALL "sys_perf_event_open");
   Entry Always "NR_accept4" 242 (SYSCALL "sys_accept4");
   Entry Time32 "NR_recvmmsg" 243 (SC_COMP_3264 "sys_recvmmsg_time32" "sys_recvmmsg" "compat_sys_recvmmsg_time32");
   Entry Time32 "NR_wait4" 260 (SC_COMP "sys_wait4" "compat_sys_wait4");
   Entry Always "NR_prlimit64" 261 (SYSCALL "sys_prlimit64");
   Entry Always "NR_fanotify_init" 262 (SYSCALL "sys_fanotify_init");
   Entry Always "NR_fanotify_mark" 263 (SYSCALL "sys_fanotify_mark");
   Entry Always "NR_name_to_handle_at" 264 (SYSCALL "sys_name_to_handle_at");
   Entry Always "NR_open_by_handle_at" 265 (SYSCALL "sys_open_by_handle_at");
   Entry Time32 "NR_clock_adjtime" 266 (SC_3264 "sys_clock_adjtime32" "sys_clock_adjtime");
   Entry Always "NR_syncfs" 267 (SYSCALL "sys_syncfs");
   Entry Always "NR_setns" 268 (SYSCALL "sys_setns");
   Entry Always "NR_sendmmsg" 269 (SC_COMP "sys_sendmmsg" "compat_sys_sendmmsg");
   Entry Always "NR_process_vm_readv" 270 (SYSCALL "sys_process_vm_readv");
   Entry Always "NR_process_vm_writev" 271 (SYSCALL "sys_process_vm_writev");
   Entry Always "NR_kcmp" 272 (SYSCALL "sys_kcmp");
   Entry Always "NR_finit_module" 273 (SYSCALL "sys_finit_module");
   Entry Always "NR_sched_setattr" 274 (SYSCALL "sys_sched_setattr");
   Entry Always "NR_sched_getattr" 275 (SYSCALL "sys_sched_getattr");
   Entry Always "NR_renameat2" 276 (SYSCALL "sys_renameat2");
   Entry Always "NR_seccomp" 277 (SYSCALL "sys_seccomp");
   Entry Always "NR_getrandom" 278 (SYSCALL "sys_getrandom");
   Entry Always "NR_memfd_create" 279 (SYSCALL "sys_memfd_create");
   Entry Always "NR_bpf" 280 (SYSCALL "sys_bpf");
   Entry Always "NR_execveat" 281 (SC_COMP "sys_execveat" "compat_sys_execveat");
   Entry Always "NR_userfaultfd" 282 (SYSCALL "sys_userfaultfd");
   Entry Always "NR_membarrier" 283 (SYSCALL "sys_membarrier");
   Entry Always "NR_mlock2" 284 (SYSCALL "sys_mlock2");
   Entry Always "NR_copy_file_range" 285 (SYSCALL "sys_copy_file_range");
   Entry Always "NR_preadv2" 286 (SC_COMP "sys_preadv2" "compat_sys_preadv2");
   Entry Always "NR_pwritev2" 287 (SC_COMP "sys_pwritev2" "compat_sys_pwritev2");
   Entry Always "NR_pkey_mprotect" 288 (SYSCALL "sys_pkey_mprotect");
   Entry Always "NR_pkey_alloc" 289 (SYSCALL "sys_pkey_alloc");
   Entry Always "NR_pkey_free" 290 (SYSCALL "sys_pkey_free");
   Entry Always "NR_statx" 291 (SYSCALL "sys_statx");
   Entry Time32 "NR_io_pgetevents" 292 (SC_COMP_3264 "sys_io_pgetevents_time32" "sys_io_pgetevents" "compat_sys_io_pgetevents");
   Entry Always "NR_rseq" 293 (SYSCALL "sys_rseq");
   Entry Always "NR_kexec_file_load" 294 (SYSCALL "sys_kexec_file_load")
  ].

Definition unistd_from_403 : list unistd_entry :=
  [
   Entry Bits32 "NR_clock_gettime64" 403 (SYSCALL "sys_clock_gettime");
   Entry Bits32 "NR_clock_settime64" 404 (SYSCALL "sys_clock_settime");
   Entry Bits32 "NR_clock_adjtime64" 405 (SYSCALL "sys_clock_adjtime");
   Entry Bits32 "NR_clock_getres_time64" 406 (SYSCALL "sys_clock_getres");
   Entry Bits32 "NR_clock_nanosleep_time64" 407 (SYSCALL "sys_clock_nanosleep");
   Entry Bits32 "NR_timer_gettime64" 408 (SYSCALL "sys_timer_gettime");
   Entry Bits32 "NR_timer_settime64" 409 (SYSCALL "sys_timer_settime");
   Entry Bits32 "NR_timerfd_gettime64" 410 (SYSCALL "sys_timerfd_gettime");
   Entry Bits32 "NR_timerfd_settime64" 411 (SYSCALL "sys_timerfd_settime");
   Entry Bits32 "NR_utimensat_time64" 412 (SYSCALL "sys_utimensat");
   Entry Bits32 "NR_pselect6_time64" 413 (SC_COMP "sys_pselect6" "compat_sys_pselect6_time64");
   Entry Bits32 "NR_ppoll_time64" 414 (SC_COMP "sys_ppoll" "compat_sys_ppoll_time64");
   Entry Bits32 "NR_io_pgetevents_time64" 416 (SC_COMP "sys_io_pgetevents" "compat_sys_io_pgetevents_time64");
   Entry Bits32 "NR_recvmmsg_time64" 417 (SC_COMP "sys_recvmmsg" "compat_sys_recvmmsg_time64");
   Entry Bits32 "NR_mq_timedsend_time64" 418 (SYSCALL "sys_mq_timedsend");
   Entry Bits32 "NR_mq_timedreceive_time64" 419 (SYSCALL "sys_mq_timedreceive");
   Entry Bits32 "NR_semtimedop_time64" 420 (SYSCALL "sys_semtimedop");
   Entry Bits32 "NR_rt_sigtimedwait_time64" 421 (SC_COMP "sys_rt_sigtimedwait" "compat_sys_rt_sigtimedwait_time64");
   Entry Bits32 "NR_futex_time64" 422 (SYSCALL "sys_futex");
   Entry Bits32 "NR_sched_rr_get_interval_time64" 423 (SYSCALL "sys_sched_rr_get_interval");
   Entry Always "NR_pidfd_send_signal" 424 (SYSCALL "sys_pidfd_send_signal");
   Entry Always "NR_io_uring_setup" 425 (SYSCALL "sys_io_uring_setup");
   Entry Always "NR_io_uring_enter" 426 (SYSCALL "sys_io_uring_enter");
   Entry Always "NR_io_uring_register" 427 (SYSCALL "sys_io_uring_register");
   Entry Always "NR_open_tree" 428 (SYSCALL "sys_open_tree");
   Entry Always "NR_move_mount" 429 (SYSCALL "sys_move_mount");
   Entry Always "NR_fsopen" 430 (SYSCALL "sys_fsopen");
   Entry Always "NR_fsconfig" 431 (SYSCALL "sys_fsconfig");
   Entry Always "NR_fsmount" 432 (SYSCALL "sys_fsmount");
   Entry Always "NR_fspick" 433 (SYSCALL "sys_fspick");
   Entry Always "NR_pidfd_open" 434 (SYSCALL "sys_pidfd_open");
   Entry (Want "SYS_CLONE3") "NR_clone3" 435 (SYSCALL "sys_clone3");
   Entry Always "NR_close_range" 436 (SYSCALL "sys_close_range");
   Entry Always "NR_openat2" 437 (SYSCALL "sys_openat2");
   Entry Always "NR_pidfd_getfd" 438 (SYSCALL "sys_pidfd_getfd");
   Entry Always "NR_faccessat2" 439 (SYSCALL "sys_faccessat2");
   Entry Always "NR_process_madvise" 440 (SYSCALL "sys_process_madvise");
   Entry Always "NR_epoll_pwait2" 441 (SC_COMP "sys_epoll_pwait2" "compat_sys_epoll_pwait2");
   Entry Always "NR_mount_setattr" 442 (SYSCALL "sys_mount_setattr");
   Entry Always "NR_quotactl_fd" 443 (SYSCALL "sys_quotactl_fd");
   Entry Always "NR_landlock_create_ruleset" 444 (SYSCALL "sys_landlock_create_ruleset");
   Entry Always "NR_landlock_add_rule" 445 (SYSCALL "sys_landlock_add_rule");
   Entry Always "NR_landlock_restrict_self" 446 (SYSCALL "sys_landlock_restrict_self");
   Entry (Want "MEMFD_SECRET") "NR_memfd_secret" 447 (SYSCALL "sys_memfd_secret");
   Entry Always "NR_process_mrelease" 448 (SYSCALL "sys_process_mrelease");
   Entry Always "NR_write_kv" 449 (SYSCALL "sys_write_kv");
   Entry Always "NR_read_kv" 450 (SYSCALL "sys_read_kv")
  ].

Definition unistd : list unistd_entry :=
  unistd_from_0 ++ unistd_from_55 ++ unistd_from_101 ++ unistd_from_158 ++ unistd_from_217 ++ unistd_from_403.

Definition NR_syscalls : Z := 451.

(** The table an architecture gets. *)
Definition syscall_table (a : arch) : list (Z * string) :=
  (fun e => (e_nr e, resolve a (e_sc e))) <$> filter (fun e => guard_on a (e_guard e) = true) unistd.

(** The number a name stands for. *)
Definition unistd_nr (name : string) : option Z :=
  e_nr <$> head (filter (fun e => e_name e = name) unistd).

(** The names of the entries that differ in the width of off_t: [__NR_x] for
    [__NR3264_y]. *)

Definition names_64 : list (string * string) :=
  [("NR_fcntl", "NR3264_fcntl");
   ("NR_statfs", "NR3264_statfs");
   ("NR_fstatfs", "NR3264_fstatfs");
   ("NR_truncate", "NR3264_truncate");
   ("NR_ftruncate", "NR3264_ftruncate");
   ("NR_lseek", "NR3264_lseek");
   ("NR_sendfile", "NR3264_sendfile");
   ("NR_newfstatat", "NR3264_fstatat");
   ("NR_fstat", "NR3264_fstat");
   ("NR_mmap", "NR3264_mmap");
   ("NR_fadvise64", "NR3264_fadvise64");
   ("NR_stat", "NR3264_stat");
   ("NR_lstat", "NR3264_lstat")].

Definition names_32 : list (string * string) :=
  [("NR_fcntl64", "NR3264_fcntl");
   ("NR_statfs64", "NR3264_statfs");
   ("NR_fstatfs64", "NR3264_fstatfs");
   ("NR_truncate64", "NR3264_truncate");
   ("NR_ftruncate64", "NR3264_ftruncate");
   ("NR_llseek", "NR3264_lseek");
   ("NR_sendfile64", "NR3264_sendfile");
   ("NR_fstatat64", "NR3264_fstatat");
   ("NR_fstat64", "NR3264_fstat");
   ("NR_mmap2", "NR3264_mmap");
   ("NR_fadvise64_64", "NR3264_fadvise64");
   ("NR_stat64", "NR3264_stat");
   ("NR_lstat64", "NR3264_lstat")].

(** ** syscall_64.tbl *)

Inductive abi := Common | Abi64 | X32.

(** A row; the entry point is empty for calls that are not implemented. *)
Record tbl_row := Row { r_nr : Z; r_abi : abi; r_name : string; r_entry : string }.

Definition tbl_from_0 : list tbl_row :=
  [
   Row 0 Common "read" "sys_read";
   Row 1 Common "write" "sys_write";
   Row 2 Common "open" "sys_open";
   Row 3 Common "close" "sys_close";
   Row 4 Common "stat" "sys_newstat";
   Row 5 Common "fstat" "sys_newfstat";
   Row 6 Common "lstat" "sys_newlstat";
   Row 7 Common "poll" "sys_poll";
   Row 8 Common "lseek" "sys_lseek";
   Row 9 Common "mmap" "sys_mmap";
   Row 10 Common "mprotect" "sys_mprotect";
   Row 11 Common "munmap" "sys_munmap";
   Row 12 Common "brk" "sys_brk";
   Row 13 Abi64 "rt_sigaction" "sys_rt_sigaction";
   Row 14 Common "rt_sigprocmask" "sys_rt_sigprocmask";
   Row 15 Abi64 "rt_sigreturn" "sys_rt_sigreturn";
   Row 16 Abi64 "ioctl" "sys_ioctl";
   Row 17 Common "pread64" "sys_pread64";
   Row 18 Common "pwrite64" "sys_pwrite64";
   Row 19 Abi64 "readv" "sys_readv";
   Row 20 Abi64 "writev" "sys_writev";
   Row 21 Common "access" "sys_access";
   Row 22 Common "pipe" "sys_pipe";
   Row 23 Common "select" "sys_select";
   Row 24 Common "sched_yield" "sys_sched_yield";
   Row 25 Common "mremap" "sys_mremap";
   Row 26 Common "msync" "sys_msync";
   Row 27 Common "mincore" "sys_mincore";
   Row 28 Common "madvise" "sys_madvise";
   Row 29 Common "shmget" "sys_shmget";
   Row 30 Common "shmat" "sys_shmat";
   Row 31 Common "shmctl" "sys_shmctl";
   Row 32 Common "dup" "sys_dup";
   Row 33 Common "dup2" "sys_dup2";
   Row 34 Common "pause" "sys_pause";
   Row 35 Common "nanosleep" "sys_nanosleep";
   Row 36 Common "getitimer" "sys_getitimer";
   Row 37 Common "alarm" "sys_alarm";
   Row 38 Common "setitimer" "sys_setitimer";
   Row 39 Common "getpid" "sys_getpid";
   Row 40 Common "sendfile" "sys_sendfile64";
   Row 41 Common "socket" "sys_socket";
   Row 42 Common "connect" "sys_connect";
   Row 43 Common "accept" "sys_accept";
   Row 44 Common "sendto" "sys_sendto";
   Row 45 Abi64 "recvfrom" "sys_recvfrom";
   Row 46 Abi64 "sendmsg" "sys_sendmsg";
   Row 47 Abi64 "recvmsg" "sys_recvmsg";
   Row 48 Common "shutdown" "sys_shutdown";
   Row 49 Common "bind" "sys_bind";
   Row 50 Common "listen" "sys_listen";
   Row 51 Common "getsockname" "sys_getsockname";
   Row 52 Common "getpeername" "sys_getpeername";
   Row 53 Common "socketpair" "sys_socketpair";
   Row 54 Abi64 "setsockopt" "sys_setsockopt";
   Row 55 Abi64 "getsockopt" "sys_getsockopt";
   Row 56 Common "clone" "sys_clone";
   Row 57 Common "fork" "sys_fork";
   Row 58 Common "vfork" "sys_vfork";
   Row 59 Abi64 "execve" "sys_execve";
   Row 60 Common "exit" "sys_exit";
   Row 61 Common "wait4" "sys_wait4";
   Row 62 Common "kill" "sys_kill";
   Row 63 Common "uname" "sys_newuname";
   Row 64 Common "semget" "sys_semget";
   Row 65 Common "semop" "sys_semop";
   Row 66 Common "semctl" "sys_semctl";
   Row 67 Common "shmdt" "sys_shmdt";
   Row 68 Common "msgget" "sys_msgget";
   Row 69 Common "msgsnd" "sys_msgsnd";
   Row 70 Common "msgrcv" "sys_msgrcv";
   Row 71 Common "msgctl" "sys_msgctl";
   Row 72 Common "fcntl" "sys_fcntl";
   Row 73 Common "flock" "sys_flock";
   Row 74 Common "fsync" "sys_fsync";
   Row 75 Common "fdatasync" "sys_fdatasync";
   Row 76 Common "truncate" "sys_truncate";
   Row 77 Common "ftruncate" "sys_ftruncate";
   Row 78 Common "getdents" "sys_getdents";
   Row 79 Common "getcwd" "sys_getcwd";
   Row 80 Common "chdir" "sys_chdir";
   Row 81 Common "fchdir" "sys_fchdir";
   Row 82 Common "rename" "sys_rename";
   Row 83 Common "mkdir" "sys_mkdir";
   Row 84 Common "rmdir" "sys_rmdir";
   Row 85 Common "creat" "sys_creat";
   Row 86 Common "link" "sys_link";
   Row 87 Common "unlink" "sys_unlink";
   Row 88 Common "symlink" "sys_symlink";
   Row 89 Common "readlink" "sys_readlink";
   Row 90 Common "chmod" "sys_chmod";
   Row 91 Common "fchmod" "sys_fchmod";
   Row 92 Common "chown" "sys_chown";
   Row 93 Common "fchown" "sys_fchown";
   Row 94 Common "lchown" "sys_lchown";
   Row 95 Common "umask" "sys_umask";
   Row 96 Common "gettimeofday" "sys_gettimeofday";
   Row 97 Common "getrlimit" "sys_getrlimit";
   Row 98 Common "getrusage" "sys_getrusage";
   Row 99 Common "sysinfo" "sys_sysinfo";
   Row 100 Common "times" "sys_times";
   Row 101 Abi64 "ptrace" "sys_ptrace";
   Row 102 Common "getuid" "sys_getuid";
   Row 103 Common "syslog" "sys_syslog";
   Row 104 Common "getgid" "sys_getgid";
   Row 105 Common "setuid" "sys_setuid";
   Row 106 Common "setgid" "sys_setgid";
   Row 107 Common "geteuid" "sys_geteuid";
   Row 108 Common "getegid" "sys_getegid";
   Row 109 Common "setpgid" "sys_setpgid";
   Row 110 Common "getppid" "sys_getppid";
   Row 111 Common "getpgrp" "sys_getpgrp";
   Row 112 Common "setsid" "sys_setsid";
   Row 113 Common "setreuid" "sys_setreuid";
   Row 114 Common "setregid" "sys_setregid";
   Row 115 Common "getgroups" "sys_getgroups";
   Row 116 Common "setgroups" "sys_setgroups";
   Row 117 Common "setresuid" "sys_setresuid";
   Row 118 Common "getresuid" "sys_getresuid";
   Row 119 Common "setresgid" "sys_setresgid";
   Row 120 Common "getresgid" "sys_getresgid";
   Row 121 Common "getpgid" "sys_getpgid";
   Row 122 Common "setfsuid" "sys_setfsuid";
   Row 123 Common "setfsgid" "sys_setfsgid";
   Row 124 Common "getsid" "sys_getsid";
   Row 125 Common "capget" "sys_capget";
   Row 126 Common "capset" "sys_capset";
   Row 127 Abi64 "rt_sigpending" "sys_rt_sigpending";
   Row 128 Abi64 "rt_sigtimedwait" "sys_rt_sigtimedwait";
   Row 129 Abi64 "rt_sigqueueinfo" "sys_rt_sigqueueinfo";
   Row 130 Common "rt_sigsuspend" "sys_rt_sigsuspend";
   Row 131 Abi64 "sigaltstack" "sys_sigaltstack";
   Row 132 Common "utime" "sys_utime";
   Row 133 Common "mknod" "sys_mknod";
   Row 134 Abi64 "uselib" "";
   Row 135 Common "personality" "sys_personality";
   Row 136 Common "ustat" "sys_ustat";
   Row 137 Common "statfs" "sys_statfs";
   Row 138 Common "fstatfs" "sys_fstatfs";
   Row 139 Common "sysfs" "sys_sysfs";
   Row 140 Common "getpriority" "sys_getpriority";
   Row 141 Common "setpriority" "sys_setpriority";
   Row 142 Common "sched_setparam" "sys_sched_setparam";
   Row 143 Common "sched_getparam" "sys_sched_getparam";
   Row 144 Common "sched_setscheduler" "sys_sched_setscheduler";
   Row 145 Common "sched_getscheduler" "sys_sched_getscheduler";
   Row 146 Common "sched_get_priority_max" "sys_sched_get_priority_max";
   Row 147 Common "sched_get_priority_min" "sys_sched_get_priority_min"
  ].

Definition tbl_from_148 : list tbl_row :=
  [
   Row 148 Common "sched_rr_get_interval" "sys_sched_rr_get_interval";
   Row 149 Common "mlock" "sys_mlock";
   Row 150 Common "munlock" "sys_munlock";
   Row 151 Common "mlockall" "sys_mlockall";
   Row 152 Common "munlockall" "sys_munlockall";
   Row 153 Common "vhangup" "sys_vhangup";
   Row 154 Common "modify_ldt" "sys_modify_ldt";
   Row 155 Common "pivot_root" "sys_pivot_root";
   Row 156 Abi64 "_sysctl" "sys_ni_syscall";
   Row 157 Common "prctl" "sys_prctl";
   Row 158 Common "arch_prctl" "sys_arch_prctl";
   Row 159 Common "adjtimex" "sys_adjtimex";
   Row 160 Common "setrlimit" "sys_setrlimit";
   Row 161 Common "chroot" "sys_chroot";
   Row 162 Common "sync" "sys_sync";
   Row 163 Common "acct" "sys_acct";
   Row 164 Common "settimeofday" "sys_settimeofday";
   Row 165 Common "mount" "sys_mount";
   Row 166 Common "umount2" "sys_umount";
   Row 167 Common "swapon" "sys_swapon";
   Row 168 Common "swapoff" "sys_swapoff";
   Row 169 Common "reboot" "sys_reboot";
   Row 170 Common "sethostname" "sys_sethostname";
   Row 171 Common "setdomainname" "sys_setdomainname";
   Row 172 Common "iopl" "sys_iopl";
   Row 173 Common "ioperm" "sys_ioperm";
   Row 174 Abi64 "create_module" "";
   Row 175 Common "init_module" "sys_init_module";
   Row 176 Common "delete_module" "sys_delete_module";
   Row 177 Abi64 "get_kernel_syms" "";
   Row 178 Abi64 "query_module" "";
   Row 179 Common "quotactl" "sys_quotactl";
   Row 180 Abi64 "nfsservctl" "";
   Row 181 Common "getpmsg" "";
   Row 182 Common "putpmsg" "";
   Row 183 Common "afs_syscall" "";
   Row 184 Common "tuxcall" "";
   Row 185 Common "security" "";
   Row 186 Common "gettid" "sys_gettid";
   Row 187 Common "readahead" "sys_readahead";
   Row 188 Common "setxattr" "sys_setxattr";
   Row 189 Common "lsetxattr" "sys_lsetxattr";
   Row 190 Common "fsetxattr" "sys_fsetxattr";
   Row 191 Common "getxattr" "sys_getxattr";
   Row 192 Common "lgetxattr" "sys_lgetxattr";
   Row 193 Common "fgetxattr" "sys_fgetxattr";
   Row 194 Common "listxattr" "sys_listxattr";
   Row 195 Common "llistxattr" "sys_llistxattr";
   Row 196 Common "flistxattr" "sys_flistxattr";
   Row 197 Common "removexattr" "sys_removexattr";
   Row 198 Common "lremovexattr" "sys_lremovexattr";
   Row 199 Common "fremovexattr" "sys_fremovexattr";
   Row 200 Common "tkill" "sys_tkill";
   Row 201 Common "time" "sys_time";
   Row 202 Common "futex" "sys_futex";
   Row 203 Common "sched_setaffinity" "sys_sched_setaffinity";
   Row 204 Common "sched_getaffinity" "sys_sched_getaffinity";
   Row 205 Abi64 "set_thread_area" "";
   Row 206 Abi64 "io_setup" "sys_io_setup";
   Row 207 Common "io_destroy" "sys_io_destroy";
   Row 208 Common "io_getevents" "sys_io_getevents";
   Row 209 Abi64 "io_submit" "sys_io_submit";
   Row 210 Common "io_cancel" "sys_io_cancel";
   Row 211 Abi64 "get_thread_area" "";
   Row 212 Common "lookup_dcookie" "sys_lookup_dcookie";
   Row 213 Common "epoll_create" "sys_epoll_create";
   Row 214 Abi64 "epoll_ctl_old" "";
   Row 215 Abi64 "epoll_wait_old" "";
   Row 216 Common "remap_file_pages" "sys_remap_file_pages";
   Row 217 Common "getdents64" "sys_getdents64";
   Row 218 Common "set_tid_address" "sys_set_tid_address";
   Row 219 Common "restart_syscall" "sys_restart_syscall";
   Row 220 Common "semtimedop" "sys_semtimedop";
   Row 221 Common "fadvise64" "sys_fadvise64";
   Row 222 Abi64 "timer_create" "sys_timer_create";
   Row 223 Common "timer_settime" "sys_timer_settime";
   Row 224 Common "timer_gettime" "sys_timer_gettime";
   Row 225 Common "timer_getoverrun" "sys_timer_getoverrun";
   Row 226 Common "timer_delete" "sys_timer_delete";
   Row 227 Common "clock_settime" "sys_clock_settime";
   Row 228 Common "clock_gettime" "sys_clock_gettime";
   Row 229 Common "clock_getres" "sys_clock_getres";
   Row 230 Common "clock_nanosleep" "sys_clock_nanosleep";
   Row 231 Common "exit_group" "sys_exit_group";
   Row 232 Common "epoll_wait" "sys_epoll_wait";
   Row 233 Common "epoll_ctl" "sys_epoll_ctl";
   Row 234 Common "tgkill" "sys_tgkill";
   Row 235 Common "utimes" "sys_utimes";
   Row 236 Abi64 "vserver" "";
   Row 237 Common "mbind" "sys_mbind";
   Row 238 Common "set_mempolicy" "sys_set_mempolicy";
   Row 239 Common "get_mempolicy" "sys_get_mempolicy";
   Row 240 Common "mq_open" "sys_mq_open";
   Row 241 Common "mq_unlink" "sys_mq_unlink";
   Row 242 Common "mq_timedsend" "sys_mq_timedsend";
   Row 243 Common "mq_timedreceive" "sys_mq_timedreceive";
   Row 244 Abi64 "mq_notify" "sys_mq_notify";
   Row 245 Common "mq_getsetattr" "sys_mq_getsetattr";
   Row 246 Abi64 "kexec_load" "sys_kexec_load";
   Row 247 Abi64 "waitid" "sys_waitid";
   Row 248 Common "add_key" "sys_add_key";
   Row 249 Common "request_key" "sys_request_key";
   Row 250 Common "keyctl" "sys_keyctl";
   Row 251 Common "ioprio_set" "sys_ioprio_set";
   Row 252 Common "ioprio_get" "sys_ioprio_get";
   Row 253 Common "inotify_init" "sys_inotify_init";
   Row 254 Common "inotify_add_watch" "sys_inotify_add_watch";
   Row 255 Common "inotify_rm_watch" "sys_inotify_rm_watch";
   Row 256 Common "migrate_pages" "sys_migrate_pages";
   Row 257 Common "openat" "sys_openat";
   Row 258 Common "mkdirat" "sys_mkdirat";
   Row 259 Common "mknodat" "sys_mknodat";
   Row 260 Common "fchownat" "sys_fchownat";
   Row 261 Common "futimesat" "sys_futimesat";
   Row 262 Common "newfstatat" "sys_newfstatat";
   Row 263 Common "unlinkat" "sys_unlinkat";
   Row 264 Common "renameat" "sys_renameat";
   Row 265 Common "linkat" "sys_linkat";
   Row 266 Common "symlinkat" "sys_symlinkat";
   Row 267 Common "readlinkat" "sys_readlinkat";
   Row 268 Common "fchmodat" "sys_fchmodat";
   Row 269 Common "faccessat" "sys_faccessat";
   Row 270 Common "pselect6" "sys_pselect6";
   Row 271 Common "ppoll" "sys_ppoll";
   Row 272 Common "unshare" "sys_unshare";
   Row 273 Abi64 "set_robust_list" "sys_set_robust_list";
   Row 274 Abi64 "get_robust_list" "sys_get_robust_list";
   Row 275 Common "splice" "sys_splice";
   Row 276 Common "tee" "sys_tee";
   Row 277 Common "sync_file_range" "sys_sync_file_range";
   Row 278 Abi64 "vmsplice" "sys_vmsplice";
   Row 279 Abi64 "move_pages" "sys_move_pages";
   Row 280 Common "utimensat" "sys_utimensat";
   Row 281 Common "epoll_pwait" "sys_epoll_pwait";
   Row 282 Common "signalfd" "sys_signalfd";
   Row 283 Common "timerfd_create" "sys_timerfd_create";
   Row 284 Common "eventfd" "sys_eventfd";
   Row 285 Common "fallocate" "sys_fallocate";
   Row 286 Common "timerfd_settime" "sys_timerfd_settime";
   Row 287 Common "timerfd_gettime" "sys_timerfd_gettime";
   Row 288 Common "accept4" "sys_accept4";
   Row 289 Common "signalfd4" "sys_signalfd4";
   Row 290 Common "eventfd2" "sys_eventfd2";
   Row 291 Common "epoll_create1" "sys_epoll_create1";
   Row 292 Common "dup3" "sys_dup3";
   Row 293 Common "pipe2" "sys_pipe2";
   Row 294 Common "inotify_init1" "sys_inotify_init1";
   Row 295 Abi64 "preadv" "sys_preadv"
  ].

Definition tbl_from_296 : list tbl_row :=
  [
   Row 296 Abi64 "pwritev" "sys_pwritev";
   Row 297 Abi64 "rt_tgsigqueueinfo" "sys_rt_tgsigqueueinfo";
   Row 298 Common "perf_event_open" "sys_perf_event_open";
   Row 299 Abi64 "recvmmsg" "sys_recvmmsg";
   Row 300 Common "fanotify_init" "sys_fanotify_init";
   Row 301 Common "fanotify_mark" "sys_fanotify_mark";
   Row 302 Common "prlimit64" "sys_prlimit64";
   Row 303 Common "name_to_handle_at" "sys_name_to_handle_at";
   Row 304 Common "open_by_handle_at" "sys_open_by_handle_at";
   Row 305 Common "clock_adjtime" "sys_clock_adjtime";
   Row 306 Common "syncfs" "sys_syncfs";
   Row 307 Abi64 "sendmmsg" "sys_sendmmsg";
   Row 308 Common "setns" "sys_setns";
   Row 309 Common "getcpu" "sys_getcpu";
   Row 310 Abi64 "process_vm_readv" "sys_process_vm_readv";
   Row 311 Abi64 "process_vm_writev" "sys_process_vm_writev";
   Row 312 Common "kcmp" "sys_kcmp";
   Row 313 Common "finit_module" "sys_finit_module";
   Row 314 Common "sched_setattr" "sys_sched_setattr";
   Row 315 Common "sched_getattr" "sys_sched_getattr";
   Row 316 Common "renameat2" "sys_renameat2";
   Row 317 Common "seccomp" "sys_seccomp";
   Row 318 Common "getrandom" "sys_getrandom";
   Row 319 Common "memfd_create" "sys_memfd_create";
   Row 320 Common "kexec_file_load" "sys_kexec_file_load";
   Row 321 Common "bpf" "sys_bpf";
   Row 322 Abi64 "execveat" "sys_execveat";
   Row 323 Common "userfaultfd" "sys_userfaultfd";
   Row 324 Common "membarrier" "sys_membarrier";
   Row 325 Common "mlock2" "sys_mlock2";
   Row 326 Common "copy_file_range" "sys_copy_file_range";
   Row 327 Abi64 "preadv2" "sys_preadv2";
   Row 328 Abi64 "pwritev2" "sys_pwritev2";
   Row 329 Common "pkey_mprotect" "sys_pkey_mprotect";
   Row 330 Common "pkey_alloc" "sys_pkey_alloc";
   Row 331 Common "pkey_free" "sys_pkey_free";
   Row 332 Common "statx" "sys_statx";
   Row 333 Common "io_pgetevents" "sys_io_pgetevents";
   Row 334 Common "rseq" "sys_rseq";
   Row 424 Common "pidfd_send_signal" "sys_pidfd_send_signal";
   Row 425 Common "io_uring_setup" "sys_io_uring_setup";
   Row 426 Common "io_uring_enter" "sys_io_uring_enter";
   Row 427 Common "io_uring_register" "sys_io_uring_register";
   Row 428 Common "open_tree" "sys_open_tree";
   Row 429 Common "move_mount" "sys_move_mount";
   Row 430 Common "fsopen" "sys_fsopen";
   Row 431 Common "fsconfig" "sys_fsconfig";
   Row 432 Common "fsmount" "sys_fsmount";
   Row 433 Common "fspick" "sys_fspick";
   Row 434 Common "pidfd_open" "sys_pidfd_open";
   Row 435 Common "clone3" "sys_clone3";
   Row 436 Common "close_range" "sys_close_range";
   Row 437 Common "openat2" "sys_openat2";
   Row 438 Common "pidfd_getfd" "sys_pidfd_getfd";
   Row 439 Common "faccessat2" "sys_faccessat2";
   Row 440 Common "process_madvise" "sys_process_madvise";
   Row 441 Common "epoll_pwait2" "sys_epoll_pwait2";
   Row 442 Common "mount_setattr" "sys_mount_setattr";
   Row 443 Common "quotactl_fd" "sys_quotactl_fd";
   Row 444 Common "landlock_create_ruleset" "sys_landlock_create_ruleset";
   Row 445 Common "landlock_add_rule" "sys_landlock_add_rule";
   Row 446 Common "landlock_restrict_self" "sys_landlock_restrict_self";
   Row 447 Common "memfd_secret" "sys_memfd_secret";
   Row 448 Common "process_mrelease" "sys_process_mrelease";
   Row 449 Common "write_kv" "sys_write_kv";
   Row 450 Common "read_kv" "sys_read_kv";
   Row 512 X32 "rt_sigaction" "compat_sys_rt_sigaction";
   Row 513 X32 "rt_sigreturn" "compat_sys_x32_rt_sigreturn";
   Row 514 X32 "ioctl" "compat_sys_ioctl";
   Row 515 X32 "readv" "sys_readv";
   Row 516 X32 "writev" "sys_writev";
   Row 517 X32 "recvfrom" "compat_sys_recvfrom";
   Row 518 X32 "sendmsg" "compat_sys_sendmsg";
   Row 519 X32 "recvmsg" "compat_sys_recvmsg";
   Row 520 X32 "execve" "compat_sys_execve";
   Row 521 X32 "ptrace" "compat_sys_ptrace";
   Row 522 X32 "rt_sigpending" "compat_sys_rt_sigpending";
   Row 523 X32 "rt_sigtimedwait" "compat_sys_rt_sigtimedwait_time64";
   Row 524 X32 "rt_sigqueueinfo" "compat_sys_rt_sigqueueinfo";
   Row 525 X32 "sigaltstack" "compat_sys_sigaltstack";
   Row 526 X32 "timer_create" "compat_sys_timer_create";
   Row 527 X32 "mq_notify" "compat_sys_mq_notify";
   Row 528 X32 "kexec_load" "compat_sys_kexec_load";
   Row 529 X32 "waitid" "compat_sys_waitid";
   Row 530 X32 "set_robust_list" "compat_sys_set_robust_list";
   Row 531 X32 "get_robust_list" "compat_sys_get_robust_list";
   Row 532 X32 "vmsplice" "sys_vmsplice";
   Row 533 X32 "move_pages" "sys_move_pages";
   Row 534 X32 "preadv" "compat_sys_preadv64";
   Row 535 X32 "pwritev" "compat_sys_pwritev64";
   Row 536 X32 "rt_tgsigqueueinfo" "compat_sys_rt_tgsigqueueinfo";
   Row 537 X32 "recvmmsg" "compat_sys_recvmmsg_time64";
   Row 538 X32 "sendmmsg" "compat_sys_sendmmsg";
   Row 539 X32 "process_vm_readv" "sys_process_vm_readv";
   Row 540 X32 "process_vm_writev" "sys_process_vm_writev";
   Row 541 X32 "setsockopt" "sys_setsockopt";
   Row 542 X32 "getsockopt" "sys_getsockopt";
   Row 543 X32 "io_setup" "compat_sys_io_setup";
   Row 544 X32 "io_submit" "compat_sys_io_submit";
   Row 545 X32 "execveat" "compat_sys_execveat";
   Row 546 X32 "preadv2" "compat_sys_preadv64v2";
   Row 547 X32 "pwritev2" "compat_sys_pwritev64v2"
  ].

Definition syscall_64_tbl : list tbl_row := tbl_from_0 ++ tbl_from_148 ++ tbl_from_296.

#[global] Instance abi_eq_dec : EqDecision abi.
Proof. solve_decision. Defined.

(** The rows of one table: the common ones and those of an ABI. *)
Definition rows_of (b : abi) : list tbl_row :=
  filter (fun r => r_abi r = Common \/ r_abi r = b) syscall_64_tbl.

(** The handler of a number, in the table that is built from the rows. *)
Definition sys_call_table (b : abi) (nr : Z) : string :=
  match head (filter (fun r => r_nr r = nr) (rows_of b)) with
  | Some r => if String.eqb (r_entry r) "" then "sys_ni_syscall" else r_entry r
  | None => "sys_ni_syscall"
  end.

(** __NR_name of asm/unistd_64.h, which is generated from the rows. *)
Definition NR_64 (name : string) : Z :=
  match head (filter (fun r => r_name r = name) (rows_of Abi64)) with Some r => r_nr r | None => -1 end.

(** ** syscalls.h *)

(** The conditions around the prototypes: BITS_PER_LONG == 32, a macro that is
    defined, one of two, and the negation that #ifndef and #else make. *)
Inductive pcond := Long32 | Def (s : string) | EitherDef (s t : string) | Not (c : pcond).

Fixpoint pcond_on (long32 : bool) (def : string -> bool) (c : pcond) : bool :=
  match c with
  | Long32 => long32
  | Def s => def s
  | EitherDef s t => def s || def t
  | Not c => negb (pcond_on long32 def c)
  end.

(** The prototype of a handler: the conditions it stands under, its name and
    the types of its arguments. *)
Record proto := Proto { p_if : list pcond; p_name : string; p_types : list string }.

Definition protos_line_316 : list proto :=
  [
   Proto [] "sys_io_setup" ["unsigned"; "aio_context_t __user *"];
   Proto [] "sys_io_destroy" ["aio_context_t"];
   Proto [] "sys_io_submit" ["aio_context_t"; "long"; "struct iocb __user * __user *"];
   Proto [] "sys_io_cancel" ["aio_context_t"; "struct iocb __user *"; "struct io_event __user *"];
   Proto [] "sys_io_getevents"
     ["aio_context_t"; "long"; "long"; "struct io_event __user *"; "struct __kernel_timespec __user *"];
   Proto [] "sys_io_getevents_time32"
     ["__u32"; "__s32"; "__s32"; "struct io_event __user *"; "struct old_timespec32 __user *"];
   Proto [] "sys_io_pgetevents"
     ["aio_context_t"; "long"; "long"; "struct io_event __user *"; "struct __kernel_timespec __user *";
      "const struct __aio_sigset *"];
   Proto [] "sys_io_pgetevents_time32"
     ["aio_context_t"; "long"; "long"; "struct io_event __user *"; "struct old_timespec32 __user *";
      "const struct __aio_sigset *"];
   Proto [] "sys_io_uring_setup" ["u32"; "struct io_uring_params __user *"];
   Proto [] "sys_io_uring_enter" ["unsigned int"; "u32"; "u32"; "u32"; "const void __user *"; "size_t"];
   Proto [] "sys_io_uring_register" ["unsigned int"; "unsigned int"; "void __user *"; "unsigned int"];
   Proto [] "sys_setxattr" ["const char __user *"; "const char __user *"; "const void __user *"; "size_t"; "int"];
   Proto [] "sys_lsetxattr" ["const char __user *"; "const char __user *"; "const void __user *"; "size_t"; "int"];
   Proto [] "sys_fsetxattr" ["int"; "const char __user *"; "const void __user *"; "size_t"; "int"];
   Proto [] "sys_getxattr" ["const char __user *"; "const char __user *"; "void __user *"; "size_t"];
   Proto [] "sys_lgetxattr" ["const char __user *"; "const char __user *"; "void __user *"; "size_t"];
   Proto [] "sys_fgetxattr" ["int"; "const char __user *"; "void __user *"; "size_t"];
   Proto [] "sys_listxattr" ["const char __user *"; "char __user *"; "size_t"];
   Proto [] "sys_llistxattr" ["const char __user *"; "char __user *"; "size_t"];
   Proto [] "sys_flistxattr" ["int"; "char __user *"; "size_t"];
   Proto [] "sys_removexattr" ["const char __user *"; "const char __user *"];
   Proto [] "sys_lremovexattr" ["const char __user *"; "const char __user *"];
   Proto [] "sys_fremovexattr" ["int"; "const char __user *"];
   Proto [] "sys_getcwd" ["char __user *"; "unsigned long"];
   Proto [] "sys_lookup_dcookie" ["u64"; "char __user *"; "size_t"];
   Proto [] "sys_eventfd2" ["unsigned int"; "int"];
   Proto [] "sys_epoll_create1" ["int"];
   Proto [] "sys_epoll_ctl" ["int"; "int"; "int"; "struct epoll_event __user *"];
   Proto [] "sys_epoll_pwait" ["int"; "struct epoll_event __user *"; "int"; "int"; "const sigset_t __user *"; "size_t"];
   Proto [] "sys_epoll_pwait2"
     ["int"; "struct epoll_event __user *"; "int"; "const struct __kernel_timespec __user *";
      "const sigset_t __user *"; "size_t"];
   Proto [] "sys_dup" ["unsigned int"];
   Proto [] "sys_dup3" ["unsigned int"; "unsigned int"; "int"];
   Proto [] "sys_fcntl" ["unsigned int"; "unsigned int"; "unsigned long"];
   Proto [Long32] "sys_fcntl64" ["unsigned int"; "unsigned int"; "unsigned long"];
   Proto [] "sys_inotify_init1" ["int"];
   Proto [] "sys_inotify_add_watch" ["int"; "const char __user *"; "u32"];
   Proto [] "sys_inotify_rm_watch" ["int"; "__s32"];
   Proto [] "sys_ioctl" ["unsigned int"; "unsigned int"; "unsigned long"];
   Proto [] "sys_ioprio_set" ["int"; "int"; "int"];
   Proto [] "sys_ioprio_get" ["int"; "int"];
   Proto [] "sys_flock" ["unsigned int"; "unsigned int"];
   Proto [] "sys_mknodat" ["int"; "const char __user *"; "umode_t"; "unsigned"];
   Proto [] "sys_mkdirat" ["int"; "const char __user *"; "umode_t"];
   Proto [] "sys_unlinkat" ["int"; "const char __user *"; "int"];
   Proto [] "sys_symlinkat" ["const char __user *"; "int"; "const char __user *"];
   Proto [] "sys_linkat" ["int"; "const char __user *"; "int"; "const char __user *"; "int"];
   Proto [] "sys_renameat" ["int"; "const char __user *"; "int"; "const char __user *"];
   Proto [] "sys_umount" ["char __user *"; "int"];
   Proto [] "sys_mount" ["char __user *"; "char __user *"; "char __user *"; "unsigned long"; "void __user *"];
   Proto [] "sys_pivot_root" ["const char __user *"; "const char __user *"];
   Proto [] "sys_statfs" ["const char __user *"; "struct statfs __user *"];
   Proto [] "sys_statfs64" ["const char __user *"; "size_t"; "struct statfs64 __user *"];
   Proto [] "sys_fstatfs" ["unsigned int"; "struct statfs __user *"];
   Proto [] "sys_fstatfs64" ["unsigned int"; "size_t"; "struct statfs64 __user *"];
   Proto [] "sys_truncate" ["const char __user *"; "long"];
   Proto [] "sys_ftruncate" ["unsigned int"; "off_t"];
   Proto [Long32] "sys_truncate64" ["const char __user *"; "loff_t"];
   Proto [Long32] "sys_ftruncate64" ["unsigned int"; "loff_t"];
   Proto [] "sys_fallocate" ["int"; "int"; "loff_t"; "loff_t"];
   Proto [] "sys_faccessat" ["int"; "const char __user *"; "int"]
  ].

Definition protos_line_463 : list proto :=
  [
   Proto [] "sys_faccessat2" ["int"; "const char __user *"; "int"; "int"];
   Proto [] "sys_chdir" ["const char __user *"];
   Proto [] "sys_fchdir" ["unsigned int"];
   Proto [] "sys_chroot" ["const char __user *"];
   Proto [] "sys_fchmod" ["unsigned int"; "umode_t"];
   Proto [] "sys_fchmodat" ["int"; "const char __user *"; "umode_t"];
   Proto [] "sys_fchownat" ["int"; "const char __user *"; "uid_t"; "gid_t"; "int"];
   Proto [] "sys_fchown" ["unsigned int"; "uid_t"; "gid_t"];
   Proto [] "sys_openat" ["int"; "const char __user *"; "int"; "umode_t"];
   Proto [] "sys_openat2" ["int"; "const char __user *"; "struct open_how *"; "size_t"];
   Proto [] "sys_close" ["unsigned int"];
   Proto [] "sys_close_range" ["unsigned int"; "unsigned int"; "unsigned int"];
   Proto [] "sys_vhangup" [];
   Proto [] "sys_pipe2" ["int __user *"; "int"];
   Proto [] "sys_quotactl" ["unsigned int"; "const char __user *"; "qid_t"; "void __user *"];
   Proto [] "sys_quotactl_fd" ["unsigned int"; "unsigned int"; "qid_t"; "void __user *"];
   Proto [] "sys_getdents64" ["unsigned int"; "struct linux_dirent64 __user *"; "unsigned int"];
   Proto [] "sys_llseek" ["unsigned int"; "unsigned long"; "unsigned long"; "loff_t __user *"; "unsigned int"];
   Proto [] "sys_lseek" ["unsigned int"; "off_t"; "unsigned int"];
   Proto [] "sys_read" ["unsigned int"; "char __user *"; "size_t"];
   Proto [] "sys_write" ["unsigned int"; "const char __user *"; "size_t"];
   Proto [] "sys_readv" ["unsigned long"; "const struct iovec __user *"; "unsigned long"];
   Proto [] "sys_writev" ["unsigned long"; "const struct iovec __user *"; "unsigned long"];
   Proto [] "sys_pread64" ["unsigned int"; "char __user *"; "size_t"; "loff_t"];
   Proto [] "sys_pwrite64" ["unsigned int"; "const char __user *"; "size_t"; "loff_t"];
   Proto [] "sys_preadv"
     ["unsigned long"; "const struct iovec __user *"; "unsigned long"; "unsigned long"; "unsigned long"];
   Proto [] "sys_pwritev"
     ["unsigned long"; "const struct iovec __user *"; "unsigned long"; "unsigned long"; "unsigned long"];
   Proto [] "sys_sendfile64" ["int"; "int"; "loff_t __user *"; "size_t"];
   Proto [] "sys_pselect6"
     ["int"; "fd_set __user *"; "fd_set __user *"; "fd_set __user *"; "struct __kernel_timespec __user *";
      "void __user *"];
   Proto [] "sys_pselect6_time32"
     ["int"; "fd_set __user *"; "fd_set __user *"; "fd_set __user *"; "struct old_timespec32 __user *";
      "void __user *"];
   Proto [] "sys_ppoll"
     ["struct pollfd __user *"; "unsigned int"; "struct __kernel_timespec __user *"; "const sigset_t __user *";
      "size_t"];
   Proto [] "sys_ppoll_time32"
     ["struct pollfd __user *"; "unsigned int"; "struct old_timespec32 __user *"; "const sigset_t __user *";
      "size_t"];
   Proto [] "sys_signalfd4" ["int"; "sigset_t __user *"; "size_t"; "int"];
   Proto [] "sys_vmsplice" ["int"; "const struct iovec __user *"; "unsigned long"; "unsigned int"];
   Proto [] "sys_splice" ["int"; "loff_t __user *"; "int"; "loff_t __user *"; "size_t"; "unsigned int"];
   Proto [] "sys_tee" ["int"; "int"; "size_t"; "unsigned int"];
   Proto [] "sys_readlinkat" ["int"; "const char __user *"; "char __user *"; "int"];
   Proto [] "sys_newfstatat" ["int"; "const char __user *"; "struct stat __user *"; "int"];
   Proto [] "sys_newfstat" ["unsigned int"; "struct stat __user *"];
   Proto [EitherDef "__ARCH_WANT_STAT64" "__ARCH_WANT_COMPAT_STAT64"] "sys_fstat64"
     ["unsigned long"; "struct stat64 __user *"];
   Proto [EitherDef "__ARCH_WANT_STAT64" "__ARCH_WANT_COMPAT_STAT64"] "sys_fstatat64"
     ["int"; "const char __user *"; "struct stat64 __user *"; "int"];
   Proto [] "sys_sync" [];
   Proto [] "sys_fsync" ["unsigned int"];
   Proto [] "sys_fdatasync" ["unsigned int"];
   Proto [] "sys_sync_file_range2" ["int"; "unsigned int"; "loff_t"; "loff_t"];
   Proto [] "sys_sync_file_range" ["int"; "loff_t"; "loff_t"; "unsigned int"];
   Proto [] "sys_timerfd_create" ["int"; "int"];
   Proto [] "sys_timerfd_settime"
     ["int"; "int"; "const struct __kernel_itimerspec __user *"; "struct __kernel_itimerspec __user *"];
   Proto [] "sys_timerfd_gettime" ["int"; "struct __kernel_itimerspec __user *"];
   Proto [] "sys_timerfd_gettime32" ["int"; "struct old_itimerspec32 __user *"];
   Proto [] "sys_timerfd_settime32"
     ["int"; "int"; "const struct old_itimerspec32 __user *"; "struct old_itimerspec32 __user *"];
   Proto [] "sys_utimensat" ["int"; "const char __user *"; "struct __kernel_timespec __user *"; "int"];
   Proto [] "sys_utimensat_time32" ["unsigned int"; "const char __user *"; "struct old_timespec32 __user *"; "int"];
   Proto [] "sys_acct" ["const char __user *"];
   Proto [] "sys_capget" ["cap_user_header_t"; "cap_user_data_t"];
   Proto [] "sys_capset" ["cap_user_header_t"; "const cap_user_data_t"];
   Proto [] "sys_personality" ["unsigned int"];
   Proto [] "sys_exit" ["int"];
   Proto [] "sys_exit_group" ["int"];
   Proto [] "sys_waitid" ["int"; "pid_t"; "struct siginfo __user *"; "int"; "struct rusage __user *"]
  ].

Definition protos_line_611 : list proto :=
  [
   Proto [] "sys_set_tid_address" ["int __user *"];
   Proto [] "sys_unshare" ["unsigned long"];
   Proto [] "sys_futex" ["u32 __user *"; "int"; "u32"; "const struct __kernel_timespec __user *"; "u32 __user *"; "u32"];
   Proto [] "sys_futex_time32"
     ["u32 __user *"; "int"; "u32"; "const struct old_timespec32 __user *"; "u32 __user *"; "u32"];
   Proto [] "sys_get_robust_list" ["int"; "struct robust_list_head __user * __user *"; "size_t __user *"];
   Proto [] "sys_set_robust_list" ["struct robust_list_head __user *"; "size_t"];
   Proto [] "sys_nanosleep" ["struct __kernel_timespec __user *"; "struct __kernel_timespec __user *"];
   Proto [] "sys_nanosleep_time32" ["struct old_timespec32 __user *"; "struct old_timespec32 __user *"];
   Proto [] "sys_getitimer" ["int"; "struct __kernel_old_itimerval __user *"];
   Proto [] "sys_setitimer" ["int"; "struct __kernel_old_itimerval __user *"; "struct __kernel_old_itimerval __user *"];
   Proto [] "sys_kexec_load" ["unsigned long"; "unsigned long"; "struct kexec_segment __user *"; "unsigned long"];
   Proto [] "sys_init_module" ["void __user *"; "unsigned long"; "const char __user *"];
   Proto [] "sys_delete_module" ["const char __user *"; "unsigned int"];
   Proto [] "sys_timer_create" ["clockid_t"; "struct sigevent __user *"; "timer_t __user *"];
   Proto [] "sys_timer_gettime" ["timer_t"; "struct __kernel_itimerspec __user *"];
   Proto [] "sys_timer_getoverrun" ["timer_t"];
   Proto [] "sys_timer_settime"
     ["timer_t"; "int"; "const struct __kernel_itimerspec __user *"; "struct __kernel_itimerspec __user *"];
   Proto [] "sys_timer_delete" ["timer_t"];
   Proto [] "sys_clock_settime" ["clockid_t"; "const struct __kernel_timespec __user *"];
   Proto [] "sys_clock_gettime" ["clockid_t"; "struct __kernel_timespec __user *"];
   Proto [] "sys_clock_getres" ["clockid_t"; "struct __kernel_timespec __user *"];
   Proto [] "sys_clock_nanosleep"
     ["clockid_t"; "int"; "const struct __kernel_timespec __user *"; "struct __kernel_timespec __user *"];
   Proto [] "sys_timer_gettime32" ["timer_t"; "struct old_itimerspec32 __user *"];
   Proto [] "sys_timer_settime32"
     ["timer_t"; "int"; "struct old_itimerspec32 __user *"; "struct old_itimerspec32 __user *"];
   Proto [] "sys_clock_settime32" ["clockid_t"; "struct old_timespec32 __user *"];
   Proto [] "sys_clock_gettime32" ["clockid_t"; "struct old_timespec32 __user *"];
   Proto [] "sys_clock_getres_time32" ["clockid_t"; "struct old_timespec32 __user *"];
   Proto [] "sys_clock_nanosleep_time32"
     ["clockid_t"; "int"; "struct old_timespec32 __user *"; "struct old_timespec32 __user *"];
   Proto [] "sys_syslog" ["int"; "char __user *"; "int"];
   Proto [] "sys_ptrace" ["long"; "long"; "unsigned long"; "unsigned long"];
   Proto [] "sys_sched_setparam" ["pid_t"; "struct sched_param __user *"];
   Proto [] "sys_sched_setscheduler" ["pid_t"; "int"; "struct sched_param __user *"];
   Proto [] "sys_sched_getscheduler" ["pid_t"];
   Proto [] "sys_sched_getparam" ["pid_t"; "struct sched_param __user *"];
   Proto [] "sys_sched_setaffinity" ["pid_t"; "unsigned int"; "unsigned long __user *"];
   Proto [] "sys_sched_getaffinity" ["pid_t"; "unsigned int"; "unsigned long __user *"];
   Proto [] "sys_sched_yield" [];
   Proto [] "sys_sched_get_priority_max" ["int"];
   Proto [] "sys_sched_get_priority_min" ["int"];
   Proto [] "sys_sched_rr_get_interval" ["pid_t"; "struct __kernel_timespec __user *"];
   Proto [] "sys_sched_rr_get_interval_time32" ["pid_t"; "struct old_timespec32 __user *"];
   Proto [] "sys_restart_syscall" [];
   Proto [] "sys_kill" ["pid_t"; "int"];
   Proto [] "sys_tkill" ["pid_t"; "int"];
   Proto [] "sys_tgkill" ["pid_t"; "pid_t"; "int"];
   Proto [] "sys_sigaltstack" ["const struct sigaltstack __user *"; "struct sigaltstack __user *"];
   Proto [] "sys_rt_sigsuspend" ["sigset_t __user *"; "size_t"];
   Proto [Not (Def "CONFIG_ODD_RT_SIGACTION")] "sys_rt_sigaction"
     ["int"; "const struct sigaction __user *"; "struct sigaction __user *"; "size_t"];
   Proto [] "sys_rt_sigprocmask" ["int"; "sigset_t __user *"; "sigset_t __user *"; "size_t"];
   Proto [] "sys_rt_sigpending" ["sigset_t __user *"; "size_t"];
   Proto [] "sys_rt_sigtimedwait"
     ["const sigset_t __user *"; "siginfo_t __user *"; "const struct __kernel_timespec __user *"; "size_t"];
   Proto [] "sys_rt_sigtimedwait_time32"
     ["const sigset_t __user *"; "siginfo_t __user *"; "const struct old_timespec32 __user *"; "size_t"];
   Proto [] "sys_rt_sigqueueinfo" ["pid_t"; "int"; "siginfo_t __user *"];
   Proto [] "sys_setpriority" ["int"; "int"; "int"];
   Proto [] "sys_getpriority" ["int"; "int"];
   Proto [] "sys_reboot" ["int"; "int"; "unsigned int"; "void __user *"];
   Proto [] "sys_setregid" ["gid_t"; "gid_t"];
   Proto [] "sys_setgid" ["gid_t"];
   Proto [] "sys_setreuid" ["uid_t"; "uid_t"];
   Proto [] "sys_setuid" ["uid_t"];
   Proto [] "sys_setresuid" ["uid_t"; "uid_t"; "uid_t"];
   Proto [] "sys_getresuid" ["uid_t __user *"; "uid_t __user *"; "uid_t __user *"];
   Proto [] "sys_setresgid" ["gid_t"; "gid_t"; "gid_t"];
   Proto [] "sys_getresgid" ["gid_t __user *"; "gid_t __user *"; "gid_t __user *"];
   Proto [] "sys_setfsuid" ["uid_t"];
   Proto [] "sys_setfsgid" ["gid_t"];
   Proto [] "sys_times" ["struct tms __user *"];
   Proto [] "sys_setpgid" ["pid_t"; "pid_t"];
   Proto [] "sys_getpgid" ["pid_t"];
   Proto [] "sys_getsid" ["pid_t"];
   Proto [] "sys_setsid" []
  ].

Definition protos_line_759 : list proto :=
  [
   Proto [] "sys_getgroups" ["int"; "gid_t __user *"];
   Proto [] "sys_setgroups" ["int"; "gid_t __user *"];
   Proto [] "sys_newuname" ["struct new_utsname __user *"];
   Proto [] "sys_sethostname" ["char __user *"; "int"];
   Proto [] "sys_setdomainname" ["char __user *"; "int"];
   Proto [] "sys_getrlimit" ["unsigned int"; "struct rlimit __user *"];
   Proto [] "sys_setrlimit" ["unsigned int"; "struct rlimit __user *"];
   Proto [] "sys_getrusage" ["int"; "struct rusage __user *"];
   Proto [] "sys_umask" ["int"];
   Proto [] "sys_prctl" ["int"; "unsigned long"; "unsigned long"; "unsigned long"; "unsigned long"];
   Proto [] "sys_getcpu" ["unsigned __user *"; "unsigned __user *"; "struct getcpu_cache __user *"];
   Proto [] "sys_gettimeofday" ["struct __kernel_old_timeval __user *"; "struct timezone __user *"];
   Proto [] "sys_settimeofday" ["struct __kernel_old_timeval __user *"; "struct timezone __user *"];
   Proto [] "sys_adjtimex" ["struct __kernel_timex __user *"];
   Proto [] "sys_adjtimex_time32" ["struct old_timex32 __user *"];
   Proto [] "sys_getpid" [];
   Proto [] "sys_getppid" [];
   Proto [] "sys_getuid" [];
   Proto [] "sys_geteuid" [];
   Proto [] "sys_getgid" [];
   Proto [] "sys_getegid" [];
   Proto [] "sys_gettid" [];
   Proto [] "sys_sysinfo" ["struct sysinfo __user *"];
   Proto [] "sys_mq_open" ["const char __user *"; "int"; "umode_t"; "struct mq_attr __user *"];
   Proto [] "sys_mq_unlink" ["const char __user *"];
   Proto [] "sys_mq_timedsend"
     ["mqd_t"; "const char __user *"; "size_t"; "unsigned int"; "const struct __kernel_timespec __user *"];
   Proto [] "sys_mq_timedreceive"
     ["mqd_t"; "char __user *"; "size_t"; "unsigned int __user *"; "const struct __kernel_timespec __user *"];
   Proto [] "sys_mq_notify" ["mqd_t"; "const struct sigevent __user *"];
   Proto [] "sys_mq_getsetattr" ["mqd_t"; "const struct mq_attr __user *"; "struct mq_attr __user *"];
   Proto [] "sys_mq_timedreceive_time32"
     ["mqd_t"; "char __user *"; "unsigned int"; "unsigned int __user *"; "const struct old_timespec32 __user *"];
   Proto [] "sys_mq_timedsend_time32"
     ["mqd_t"; "const char __user *"; "unsigned int"; "unsigned int"; "const struct old_timespec32 __user *"];
   Proto [] "sys_msgget" ["key_t"; "int"];
   Proto [] "sys_old_msgctl" ["int"; "int"; "struct msqid_ds __user *"];
   Proto [] "sys_msgctl" ["int"; "int"; "struct msqid_ds __user *"];
   Proto [] "sys_msgrcv" ["int"; "struct msgbuf __user *"; "size_t"; "long"; "int"];
   Proto [] "sys_msgsnd" ["int"; "struct msgbuf __user *"; "size_t"; "int"];
   Proto [] "sys_semget" ["key_t"; "int"; "int"];
   Proto [] "sys_semctl" ["int"; "int"; "int"; "unsigned long"];
   Proto [] "sys_old_semctl" ["int"; "int"; "int"; "unsigned long"];
   Proto [] "sys_semtimedop" ["int"; "struct sembuf __user *"; "unsigned"; "const struct __kernel_timespec __user *"];
   Proto [] "sys_semtimedop_time32"
     ["int"; "struct sembuf __user *"; "unsigned"; "const struct old_timespec32 __user *"];
   Proto [] "sys_semop" ["int"; "struct sembuf __user *"; "unsigned"];
   Proto [] "sys_shmget" ["key_t"; "size_t"; "int"];
   Proto [] "sys_old_shmctl" ["int"; "int"; "struct shmid_ds __user *"];
   Proto [] "sys_shmctl" ["int"; "int"; "struct shmid_ds __user *"];
   Proto [] "sys_shmat" ["int"; "char __user *"; "int"];
   Proto [] "sys_shmdt" ["char __user *"];
   Proto [] "sys_socket" ["int"; "int"; "int"];
   Proto [] "sys_socketpair" ["int"; "int"; "int"; "int __user *"];
   Proto [] "sys_bind" ["int"; "struct sockaddr __user *"; "int"];
   Proto [] "sys_listen" ["int"; "int"];
   Proto [] "sys_accept" ["int"; "struct sockaddr __user *"; "int __user *"];
   Proto [] "sys_connect" ["int"; "struct sockaddr __user *"; "int"];
   Proto [] "sys_getsockname" ["int"; "struct sockaddr __user *"; "int __user *"];
   Proto [] "sys_getpeername" ["int"; "struct sockaddr __user *"; "int __user *"];
   Proto [] "sys_sendto" ["int"; "void __user *"; "size_t"; "unsigned"; "struct sockaddr __user *"; "int"];
   Proto [] "sys_recvfrom" ["int"; "void __user *"; "size_t"; "unsigned"; "struct sockaddr __user *"; "int __user *"];
   Proto [] "sys_setsockopt" ["int"; "int"; "int"; "char __user *"; "int"];
   Proto [] "sys_getsockopt" ["int"; "int"; "int"; "char __user *"; "int __user *"];
   Proto [] "sys_shutdown" ["int"; "int"];
   Proto [] "sys_sendmsg" ["int"; "struct user_msghdr __user *"; "unsigned"];
   Proto [] "sys_recvmsg" ["int"; "struct user_msghdr __user *"; "unsigned"];
   Proto [] "sys_readahead" ["int"; "loff_t"; "size_t"];
   Proto [] "sys_brk" ["unsigned long"];
   Proto [] "sys_munmap" ["unsigned long"; "size_t"];
   Proto [] "sys_mremap" ["unsigned long"; "unsigned long"; "unsigned long"; "unsigned long"; "unsigned long"];
   Proto [] "sys_add_key"
     ["const char __user *"; "const char __user *"; "const void __user *"; "size_t"; "key_serial_t"];
   Proto [] "sys_request_key" ["const char __user *"; "const char __user *"; "const char __user *"; "key_serial_t"];
   Proto [] "sys_keyctl" ["int"; "unsigned long"; "unsigned long"; "unsigned long"; "unsigned long"];
   Proto [Def "CONFIG_CLONE_BACKWARDS"] "sys_clone"
     ["unsigned long"; "unsigned long"; "int __user *"; "unsigned long"; "int __user *"];
   Proto [Not (Def "CONFIG_CLONE_BACKWARDS"); Def "CONFIG_CLONE_BACKWARDS3"] "sys_clone"
     ["unsigned long"; "unsigned long"; "int"; "int __user *"; "int __user *"; "unsigned long"];
   Proto [Not (Def "CONFIG_CLONE_BACKWARDS"); Not (Def "CONFIG_CLONE_BACKWARDS3")] "sys_clone"
     ["unsigned long"; "unsigned long"; "int __user *"; "int __user *"; "unsigned long"];
   Proto [] "sys_clone3" ["struct clone_args __user *"; "size_t"];
   Proto [] "sys_execve"
     ["const char __user *"; "const char __user * const __user *"; "const char __user * const __user *"];
   Proto [] "sys_fadvise64_64" ["int"; "loff_t"; "loff_t"; "int"];
   Proto [] "sys_swapon" ["const char __user *"; "int"];
   Proto [] "sys_swapoff" ["const char __user *"]
  ].

Definition protos_line_907 : list proto :=
  [
   Proto [] "sys_mprotect" ["unsigned long"; "size_t"; "unsigned long"];
   Proto [] "sys_msync" ["unsigned long"; "size_t"; "int"];
   Proto [] "sys_mlock" ["unsigned long"; "size_t"];
   Proto [] "sys_munlock" ["unsigned long"; "size_t"];
   Proto [] "sys_mlockall" ["int"];
   Proto [] "sys_munlockall" [];
   Proto [] "sys_mincore" ["unsigned long"; "size_t"; "unsigned char __user *"];
   Proto [] "sys_madvise" ["unsigned long"; "size_t"; "int"];
   Proto [] "sys_process_madvise" ["int"; "const struct iovec __user *"; "size_t"; "int"; "unsigned int"];
   Proto [] "sys_process_mrelease" ["int"; "unsigned int"];
   Proto [] "sys_remap_file_pages" ["unsigned long"; "unsigned long"; "unsigned long"; "unsigned long"; "unsigned long"];
   Proto [] "sys_mbind"
     ["unsigned long"; "unsigned long"; "unsigned long"; "const unsigned long __user *"; "unsigned long"; "unsigned"];
   Proto [] "sys_get_mempolicy"
     ["int __user *"; "unsigned long __user *"; "unsigned long"; "unsigned long"; "unsigned long"];
   Proto [] "sys_set_mempolicy" ["int"; "const unsigned long __user *"; "unsigned long"];
   Proto [] "sys_migrate_pages"
     ["pid_t"; "unsigned long"; "const unsigned long __user *"; "const unsigned long __user *"];
   Proto [] "sys_move_pages"
     ["pid_t"; "unsigned long"; "const void __user * __user *"; "const int __user *"; "int __user *"; "int"];
   Proto [] "sys_rt_tgsigqueueinfo" ["pid_t"; "pid_t"; "int"; "siginfo_t __user *"];
   Proto [] "sys_perf_event_open" ["struct perf_event_attr __user *"; "pid_t"; "int"; "int"; "unsigned long"];
   Proto [] "sys_accept4" ["int"; "struct sockaddr __user *"; "int __user *"; "int"];
   Proto [] "sys_recvmmsg"
     ["int"; "struct mmsghdr __user *"; "unsigned int"; "unsigned"; "struct __kernel_timespec __user *"];
   Proto [] "sys_recvmmsg_time32"
     ["int"; "struct mmsghdr __user *"; "unsigned int"; "unsigned"; "struct old_timespec32 __user *"];
   Proto [] "sys_wait4" ["pid_t"; "int __user *"; "int"; "struct rusage __user *"];
   Proto [] "sys_prlimit64" ["pid_t"; "unsigned int"; "const struct rlimit64 __user *"; "struct rlimit64 __user *"];
   Proto [] "sys_fanotify_init" ["unsigned int"; "unsigned int"];
   Proto [Def "CONFIG_ARCH_SPLIT_ARG64"] "sys_fanotify_mark"
     ["int"; "unsigned int"; "unsigned int"; "unsigned int"; "int"; "const char __user *"];
   Proto [Not (Def "CONFIG_ARCH_SPLIT_ARG64")] "sys_fanotify_mark"
     ["int"; "unsigned int"; "u64"; "int"; "const char __user *"];
   Proto [] "sys_name_to_handle_at" ["int"; "const char __user *"; "struct file_handle __user *"; "int __user *"; "int"];
   Proto [] "sys_open_by_handle_at" ["int"; "struct file_handle __user *"; "int"];
   Proto [] "sys_clock_adjtime" ["clockid_t"; "struct __kernel_timex __user *"];
   Proto [] "sys_clock_adjtime32" ["clockid_t"; "struct old_timex32 __user *"];
   Proto [] "sys_syncfs" ["int"];
   Proto [] "sys_setns" ["int"; "int"];
   Proto [] "sys_pidfd_open" ["pid_t"; "unsigned int"];
   Proto [] "sys_sendmmsg" ["int"; "struct mmsghdr __user *"; "unsigned int"; "unsigned"];
   Proto [] "sys_process_vm_readv"
     ["pid_t"; "const struct iovec __user *"; "unsigned long"; "const struct iovec __user *"; "unsigned long";
      "unsigned long"];
   Proto [] "sys_process_vm_writev"
     ["pid_t"; "const struct iovec __user *"; "unsigned long"; "const struct iovec __user *"; "unsigned long";
      "unsigned long"];
   Proto [] "sys_kcmp" ["pid_t"; "pid_t"; "int"; "unsigned long"; "unsigned long"];
   Proto [] "sys_finit_module" ["int"; "const char __user *"; "int"];
   Proto [] "sys_sched_setattr" ["pid_t"; "struct sched_attr __user *"; "unsigned int"];
   Proto [] "sys_sched_getattr" ["pid_t"; "struct sched_attr __user *"; "unsigned int"; "unsigned int"];
   Proto [] "sys_renameat2" ["int"; "const char __user *"; "int"; "const char __user *"; "unsigned int"];
   Proto [] "sys_seccomp" ["unsigned int"; "unsigned int"; "void __user *"];
   Proto [] "sys_getrandom" ["char __user *"; "size_t"; "unsigned int"];
   Proto [] "sys_memfd_create" ["const char __user *"; "unsigned int"];
   Proto [] "sys_bpf" ["int"; "union bpf_attr *"; "unsigned int"];
   Proto [] "sys_execveat"
     ["int"; "const char __user *"; "const char __user * const __user *"; "const char __user * const __user *";
      "int"];
   Proto [] "sys_userfaultfd" ["int"];
   Proto [] "sys_membarrier" ["int"; "unsigned int"; "int"];
   Proto [] "sys_mlock2" ["unsigned long"; "size_t"; "int"];
   Proto [] "sys_copy_file_range" ["int"; "loff_t __user *"; "int"; "loff_t __user *"; "size_t"; "unsigned int"];
   Proto [] "sys_preadv2"
     ["unsigned long"; "const struct iovec __user *"; "unsigned long"; "unsigned long"; "unsigned long"; "rwf_t"];
   Proto [] "sys_pwritev2"
     ["unsigned long"; "const struct iovec __user *"; "unsigned long"; "unsigned long"; "unsigned long"; "rwf_t"];
   Proto [] "sys_pkey_mprotect" ["unsigned long"; "size_t"; "unsigned long"; "int"];
   Proto [] "sys_pkey_alloc" ["unsigned long"; "unsigned long"];
   Proto [] "sys_pkey_free" ["int"];
   Proto [] "sys_statx" ["int"; "const char __user *"; "unsigned"; "unsigned"; "struct statx __user *"];
   Proto [] "sys_rseq" ["struct rseq __user *"; "uint32_t"; "int"; "uint32_t"];
   Proto [] "sys_open_tree" ["int"; "const char __user *"; "unsigned"];
   Proto [] "sys_move_mount" ["int"; "const char __user *"; "int"; "const char __user *"; "unsigned int"];
   Proto [] "sys_mount_setattr" ["int"; "const char __user *"; "unsigned int"; "struct mount_attr __user *"; "size_t"];
   Proto [] "sys_fsopen" ["const char __user *"; "unsigned int"];
   Proto [] "sys_fsconfig" ["int"; "unsigned int"; "const char __user *"; "const void __user *"; "int"];
   Proto [] "sys_fsmount" ["int"; "unsigned int"; "unsigned int"];
   Proto [] "sys_fspick" ["int"; "const char __user *"; "unsigned int"];
   Proto [] "sys_pidfd_send_signal" ["int"; "int"; "siginfo_t __user *"; "unsigned int"]
  ].

Definition protos_line_1055 : list proto :=
  [
   Proto [] "sys_pidfd_getfd" ["int"; "int"; "unsigned int"];
   Proto [] "sys_landlock_create_ruleset" ["const struct landlock_ruleset_attr __user *"; "size_t"; "__u32"];
   Proto [] "sys_landlock_add_rule" ["int"; "enum landlock_rule_type"; "const void __user *"; "__u32"];
   Proto [] "sys_landlock_restrict_self" ["int"; "__u32"];
   Proto [] "sys_memfd_secret" ["unsigned int"];
   Proto [] "sys_ioperm" ["unsigned long"; "unsigned long"; "int"];
   Proto [] "sys_pciconfig_read" ["unsigned long"; "unsigned long"; "unsigned long"; "unsigned long"; "void __user *"];
   Proto [] "sys_pciconfig_write" ["unsigned long"; "unsigned long"; "unsigned long"; "unsigned long"; "void __user *"];
   Proto [] "sys_pciconfig_iobase" ["long"; "unsigned long"; "unsigned long"];
   Proto [] "sys_spu_run" ["int"; "__u32 __user *"; "__u32 __user *"];
   Proto [] "sys_spu_create" ["const char __user *"; "unsigned int"; "umode_t"; "int"];
   Proto [] "sys_open" ["const char __user *"; "int"; "umode_t"];
   Proto [] "sys_link" ["const char __user *"; "const char __user *"];
   Proto [] "sys_unlink" ["const char __user *"];
   Proto [] "sys_mknod" ["const char __user *"; "umode_t"; "unsigned"];
   Proto [] "sys_chmod" ["const char __user *"; "umode_t"];
   Proto [] "sys_chown" ["const char __user *"; "uid_t"; "gid_t"];
   Proto [] "sys_mkdir" ["const char __user *"; "umode_t"];
   Proto [] "sys_rmdir" ["const char __user *"];
   Proto [] "sys_lchown" ["const char __user *"; "uid_t"; "gid_t"];
   Proto [] "sys_access" ["const char __user *"; "int"];
   Proto [] "sys_rename" ["const char __user *"; "const char __user *"];
   Proto [] "sys_symlink" ["const char __user *"; "const char __user *"];
   Proto [EitherDef "__ARCH_WANT_STAT64" "__ARCH_WANT_COMPAT_STAT64"] "sys_stat64"
     ["const char __user *"; "struct stat64 __user *"];
   Proto [EitherDef "__ARCH_WANT_STAT64" "__ARCH_WANT_COMPAT_STAT64"] "sys_lstat64"
     ["const char __user *"; "struct stat64 __user *"];
   Proto [] "sys_pipe" ["int __user *"];
   Proto [] "sys_dup2" ["unsigned int"; "unsigned int"];
   Proto [] "sys_epoll_create" ["int"];
   Proto [] "sys_inotify_init" [];
   Proto [] "sys_eventfd" ["unsigned int"];
   Proto [] "sys_signalfd" ["int"; "sigset_t __user *"; "size_t"];
   Proto [] "sys_sendfile" ["int"; "int"; "off_t __user *"; "size_t"];
   Proto [] "sys_newstat" ["const char __user *"; "struct stat __user *"];
   Proto [] "sys_newlstat" ["const char __user *"; "struct stat __user *"];
   Proto [] "sys_fadvise64" ["int"; "loff_t"; "size_t"; "int"];
   Proto [] "sys_alarm" ["unsigned int"];
   Proto [] "sys_getpgrp" [];
   Proto [] "sys_pause" [];
   Proto [] "sys_time" ["__kernel_old_time_t __user *"];
   Proto [] "sys_time32" ["old_time32_t __user *"];
   Proto [Def "__ARCH_WANT_SYS_UTIME"] "sys_utime" ["char __user *"; "struct utimbuf __user *"];
   Proto [Def "__ARCH_WANT_SYS_UTIME"] "sys_utimes" ["char __user *"; "struct __kernel_old_timeval __user *"];
   Proto [Def "__ARCH_WANT_SYS_UTIME"] "sys_futimesat"
     ["int"; "const char __user *"; "struct __kernel_old_timeval __user *"];
   Proto [] "sys_futimesat_time32" ["unsigned int"; "const char __user *"; "struct old_timeval32 __user *"];
   Proto [] "sys_utime32" ["const char __user *"; "struct old_utimbuf32 __user *"];
   Proto [] "sys_utimes_time32" ["const char __user *"; "struct old_timeval32 __user *"];
   Proto [] "sys_creat" ["const char __user *"; "umode_t"];
   Proto [] "sys_getdents" ["unsigned int"; "struct linux_dirent __user *"; "unsigned int"];
   Proto [] "sys_select"
     ["int"; "fd_set __user *"; "fd_set __user *"; "fd_set __user *"; "struct __kernel_old_timeval __user *"];
   Proto [] "sys_poll" ["struct pollfd __user *"; "unsigned int"; "int"];
   Proto [] "sys_epoll_wait" ["int"; "struct epoll_event __user *"; "int"; "int"];
   Proto [] "sys_ustat" ["unsigned"; "struct ustat __user *"];
   Proto [] "sys_vfork" [];
   Proto [] "sys_recv" ["int"; "void __user *"; "size_t"; "unsigned"];
   Proto [] "sys_send" ["int"; "void __user *"; "size_t"; "unsigned"];
   Proto [] "sys_oldumount" ["char __user *"];
   Proto [] "sys_uselib" ["const char __user *"];
   Proto [] "sys_sysfs" ["int"; "unsigned long"; "unsigned long"];
   Proto [] "sys_fork" [];
   Proto [] "sys_stime" ["__kernel_old_time_t __user *"];
   Proto [] "sys_stime32" ["old_time32_t __user *"];
   Proto [] "sys_sigpending" ["old_sigset_t __user *"];
   Proto [] "sys_sigprocmask" ["int"; "old_sigset_t __user *"; "old_sigset_t __user *"];
   Proto [Def "CONFIG_OLD_SIGSUSPEND"] "sys_sigsuspend" ["old_sigset_t"];
   Proto [Def "CONFIG_OLD_SIGSUSPEND3"] "sys_sigsuspend" ["int"; "int"; "old_sigset_t"];
   Proto [Def "CONFIG_OLD_SIGACTION"] "sys_sigaction"
     ["int"; "const struct old_sigaction __user *"; "struct old_sigaction __user *"];
   Proto [] "sys_sgetmask" [];
   Proto [] "sys_ssetmask" ["int"];
   Proto [] "sys_signal" ["int"; "__sighandler_t"];
   Proto [] "sys_nice" ["int"]
  ].

Definition protos_line_1203 : list proto :=
  [
   Proto [] "sys_kexec_file_load" ["int"; "int"; "unsigned long"; "const char __user *"; "unsigned long"];
   Proto [] "sys_waitpid" ["pid_t"; "int __user *"; "int"];
   Proto [Def "CONFIG_HAVE_UID16"] "sys_chown16" ["const char __user *"; "old_uid_t"; "old_gid_t"];
   Proto [Def "CONFIG_HAVE_UID16"] "sys_lchown16" ["const char __user *"; "old_uid_t"; "old_gid_t"];
   Proto [Def "CONFIG_HAVE_UID16"] "sys_fchown16" ["unsigned int"; "old_uid_t"; "old_gid_t"];
   Proto [Def "CONFIG_HAVE_UID16"] "sys_setregid16" ["old_gid_t"; "old_gid_t"];
   Proto [Def "CONFIG_HAVE_UID16"] "sys_setgid16" ["old_gid_t"];
   Proto [Def "CONFIG_HAVE_UID16"] "sys_setreuid16" ["old_uid_t"; "old_uid_t"];
   Proto [Def "CONFIG_HAVE_UID16"] "sys_setuid16" ["old_uid_t"];
   Proto [Def "CONFIG_HAVE_UID16"] "sys_setresuid16" ["old_uid_t"; "old_uid_t"; "old_uid_t"];
   Proto [Def "CONFIG_HAVE_UID16"] "sys_getresuid16" ["old_uid_t __user *"; "old_uid_t __user *"; "old_uid_t __user *"];
   Proto [Def "CONFIG_HAVE_UID16"] "sys_setresgid16" ["old_gid_t"; "old_gid_t"; "old_gid_t"];
   Proto [Def "CONFIG_HAVE_UID16"] "sys_getresgid16" ["old_gid_t __user *"; "old_gid_t __user *"; "old_gid_t __user *"];
   Proto [Def "CONFIG_HAVE_UID16"] "sys_setfsuid16" ["old_uid_t"];
   Proto [Def "CONFIG_HAVE_UID16"] "sys_setfsgid16" ["old_gid_t"];
   Proto [Def "CONFIG_HAVE_UID16"] "sys_getgroups16" ["int"; "old_gid_t __user *"];
   Proto [Def "CONFIG_HAVE_UID16"] "sys_setgroups16" ["int"; "old_gid_t __user *"];
   Proto [Def "CONFIG_HAVE_UID16"] "sys_getuid16" [];
   Proto [Def "CONFIG_HAVE_UID16"] "sys_geteuid16" [];
   Proto [Def "CONFIG_HAVE_UID16"] "sys_getgid16" [];
   Proto [Def "CONFIG_HAVE_UID16"] "sys_getegid16" [];
   Proto [] "sys_socketcall" ["int"; "unsigned long __user *"];
   Proto [] "sys_stat" ["const char __user *"; "struct __old_kernel_stat __user *"];
   Proto [] "sys_lstat" ["const char __user *"; "struct __old_kernel_stat __user *"];
   Proto [] "sys_fstat" ["unsigned int"; "struct __old_kernel_stat __user *"];
   Proto [] "sys_readlink" ["const char __user *"; "char __user *"; "int"];
   Proto [] "sys_old_select" ["struct sel_arg_struct __user *"];
   Proto [] "sys_old_readdir" ["unsigned int"; "struct old_linux_dirent __user *"; "unsigned int"];
   Proto [] "sys_gethostname" ["char __user *"; "int"];
   Proto [] "sys_uname" ["struct old_utsname __user *"];
   Proto [] "sys_olduname" ["struct oldold_utsname __user *"];
   Proto [Def "__ARCH_WANT_SYS_OLD_GETRLIMIT"] "sys_old_getrlimit" ["unsigned int"; "struct rlimit __user *"];
   Proto [] "sys_ipc" ["unsigned int"; "int"; "unsigned long"; "unsigned long"; "void __user *"; "long"];
   Proto [] "sys_mmap_pgoff"
     ["unsigned long"; "unsigned long"; "unsigned long"; "unsigned long"; "unsigned long"; "unsigned long"];
   Proto [] "sys_old_mmap" ["struct mmap_arg_struct __user *"];
   Proto [] "sys_ni_syscall" [];
   Proto [] "sys_write_kv" ["int"; "int"];
   Proto [] "sys_read_kv" ["int"]
  ].

Definition protos : list proto :=
  protos_line_316 ++ protos_line_463 ++ protos_line_611 ++ protos_line_759 ++ protos_line_907 ++ protos_line_1055 ++ protos_line_1203.

(** The prototypes a configuration declares; an architecture with wrappers of its
    own (CONFIG_ARCH_HAS_SYSCALL_WRAPPER) declares none of them. *)
Definition prototypes (long32 : bool) (def : string -> bool) : list proto :=
  if def "CONFIG_ARCH_HAS_SYSCALL_WRAPPER" then []
  else filter (fun p => forallb (pcond_on long32 def) (p_if p) = true) protos.
