(* ===== verification/SyscallSpec.v ===== *)
(** * The system call tables agree

    No number is given twice, every handler is declared and fits into the six
    argument registers, the definitions in fork.c and kv_store.c have the types
    of their prototypes, and the new calls (write_kv, read_kv) and the wrappers
    of the extended-attribute exercise (filesystem/inode/impl.c) reach their
    handlers. *)

From S2P Require Import Prelude KVStore KVClient Syscalls.

(** ** The wrappers of filesystem/inode/impl.c *)

(** syscall(nr, ...): the handler that runs, and its arguments. *)
Definition x64_syscall (nr : Z) (args : list Z) : string * list Z := (sys_call_table Abi64 nr, args).

Definition get_xattr (path name value size : Z) : string * list Z :=
  x64_syscall (NR_64 "getxattr") [path; name; value; size].
Definition set_xattr (path name value size flags : Z) : string * list Z :=
  x64_syscall (NR_64 "setxattr") [path; name; value; size; flags].
Definition remove_xattr (path name : Z) : string * list Z := x64_syscall (NR_64 "removexattr") [path; name].
Definition list_xattr (path buf size : Z) : string * list Z := x64_syscall (NR_64 "listxattr") [path; buf; size].

(** ** Distinct numbers *)

Lemma nodup_filter {A} (f : A -> Z) (P Q : A -> Prop) `{!forall x, Decision (P x), !forall x, Decision (Q x)} l :
  NoDup (f <$> filter Q l) -> (forall x, x ∈ l -> P x -> Q x) -> NoDup (f <$> filter P l).
Proof.
  intros Hn Hpq. eapply sublist_NoDup; [exact Hn|]. clear Hn. apply fmap_sublist.
  induction l as [|x l IH]; [done|]. rewrite !filter_cons.
  assert (Hs : filter P l `sublist_of` filter Q l) by (apply IH; intros y Hy; apply Hpq; by right).
  case_decide as HP; [rewrite decide_True by (apply Hpq; [left|done]); by apply sublist_skip|].
  destruct (decide (Q x)); [by apply sublist_cons|done].
Qed.

(** Entries of which an architecture has at most one. *)
Definition not_guard (g : guard) (e : unistd_entry) : Prop := e_guard e <> g.

#[local] Instance guard_eq_dec : EqDecision guard.
Proof. solve_decision. Defined.
#[local] Instance not_guard_dec g e : Decision (not_guard g e).
Proof. unfold not_guard. apply _. Defined.

Lemma unistd_nodup (g : guard) :
  g = Want "SYNC_FILE_RANGE2" \/ g = NoWant "SYNC_FILE_RANGE2" -> NoDup (e_nr <$> filter (not_guard g) unistd).
Proof. intros [->| ->]; apply (bool_decide_unpack _); vm_compute; exact I. Qed.

Lemma table_nodup a : NoDup (syscall_table a).*1.
Proof.
  unfold syscall_table. rewrite <- list_fmap_compose.
  change (fst ∘ _) with e_nr.
  destruct (wants a "SYNC_FILE_RANGE2") eqn:Ew.
  - apply (nodup_filter _ _ (not_guard (NoWant "SYNC_FILE_RANGE2"))); [apply unistd_nodup; auto|].
    intros e _ He Hg. rewrite Hg in He. cbn in He. by rewrite Ew in He.
  - apply (nodup_filter _ _ (not_guard (Want "SYNC_FILE_RANGE2"))); [apply unistd_nodup; auto|].
    intros e _ He Hg. rewrite Hg in He. cbn in He. by rewrite Ew in He.
Qed.

Lemma unistd_bound : Forall (fun e => 0 <= e_nr e < NR_syscalls) unistd.
Proof. apply (bool_decide_unpack _). vm_compute. exact I. Qed.

Lemma table_bound a : Forall (fun r => 0 <= fst r < NR_syscalls) (syscall_table a).
Proof.
  unfold syscall_table. apply Forall_fmap, Forall_forall. intros e He. apply list_elem_of_filter in He as [_ He].
  exact (proj1 (Forall_forall _ _) unistd_bound e He).
Qed.

Lemma rows_nodup b : b = Abi64 \/ b = X32 -> NoDup (r_nr <$> rows_of b).
Proof. intros [->| ->]; apply (bool_decide_unpack _); vm_compute; exact I. Qed.

(** ** Declared handlers *)

(** Handlers of x86, which arch/x86/include/asm/syscalls.h and the signal code
    declare. *)
Definition x86_handlers : list string :=
  ["sys_mmap"; "sys_rt_sigreturn"; "sys_modify_ldt"; "sys_arch_prctl"; "sys_iopl"].

Definition declared (h : string) : Prop := h ∈ (p_name <$> protos) \/ h ∈ x86_handlers \/ h = "".

#[local] Instance declared_dec h : Decision (declared h).
Proof. unfold declared. apply _. Defined.

Lemma rows_declared : Forall (fun r => declared (r_entry r)) (rows_of Abi64).
Proof. apply (bool_decide_unpack _). vm_compute. exact I. Qed.

Lemma protos_args : Forall (fun p => (length (p_types p) <= 6)%nat) protos.
Proof. apply (bool_decide_unpack _). vm_compute. exact I. Qed.

Definition arity (p : proto) : string * nat := (p_name p, length (p_types p)).

(** A call: number, handler and prototype fit together. *)
Definition well_called (c : string * list Z) : Prop := (fst c, length (snd c)) ∈ arity <$> protos.

#[local] Instance sc_eq_dec : EqDecision sc.
Proof. solve_decision. Defined.
#[local] Instance entry_eq_dec : EqDecision unistd_entry.
Proof. solve_decision. Defined.

Lemma kv_in_table a e :
  bool_decide (e ∈ unistd) = true -> e_guard e = Always -> (e_nr e, resolve a (e_sc e)) ∈ syscall_table a.
Proof.
  intros Hu%bool_decide_eq_true_1 Hg. apply list_elem_of_fmap. exists e. split; [done|].
  apply list_elem_of_filter. by rewrite Hg.
Qed.

(** ** Definitions and prototypes *)

(** The system calls of kernel/fork.c and kernel/kv_store.c, with the types
    their SYSCALL_DEFINE gives them. *)
Definition clone_types (def : string -> bool) : list string :=
  if def "CONFIG_CLONE_BACKWARDS" then
    ["unsigned long"; "unsigned long"; "int __user *"; "unsigned long"; "int __user *"]
  else if def "CONFIG_CLONE_BACKWARDS2" then
    ["unsigned long"; "unsigned long"; "int __user *"; "int __user *"; "unsigned long"]
  else if def "CONFIG_CLONE_BACKWARDS3" then
    ["unsigned long"; "unsigned long"; "int"; "int __user *"; "int __user *"; "unsigned long"]
  else
    ["unsigned long"; "unsigned long"; "int __user *"; "int __user *"; "unsigned long"].

Definition fork_c_calls (def : string -> bool) : list (string * list string) :=
  [("sys_set_tid_address", ["int __user *"])] ++
  (if def "__ARCH_WANT_SYS_FORK" then [("sys_fork", [])] else []) ++
  (if def "__ARCH_WANT_SYS_VFORK" then [("sys_vfork", [])] else []) ++
  (if def "__ARCH_WANT_SYS_CLONE" then [("sys_clone", clone_types def)] else []) ++
  (if def "__ARCH_WANT_SYS_CLONE3" then [("sys_clone3", ["struct clone_args __user *"; "size_t"])] else []) ++
  [("sys_unshare", ["unsigned long"])].

Definition kv_store_calls : list (string * list string) :=
  [("sys_write_kv", ["int"; "int"]); ("sys_read_kv", ["int"])].

(** What a prototype and a definition have to agree on. *)
Definition signature (p : proto) : string * list string := (p_name p, p_types p).

(** A configuration without wrappers, in which options that Kconfig never sets
    together are not set together. *)
Record config_ok (def : string -> bool) : Prop := {
  no_wrapper : def "CONFIG_ARCH_HAS_SYSCALL_WRAPPER" = false;
  one_sigsuspend : def "CONFIG_OLD_SIGSUSPEND" && def "CONFIG_OLD_SIGSUSPEND3" = false;
  one_clone : def "CONFIG_CLONE_BACKWARDS2" && def "CONFIG_CLONE_BACKWARDS3" = false;
}.

#[local] Instance pcond_eq_dec : EqDecision pcond.
Proof. solve_decision. Defined.
#[local] Instance proto_eq_dec : EqDecision proto.
Proof. solve_decision. Defined.

(** Two conditions that do not hold together. *)
Definition contrary (c d : pcond) : bool :=
  bool_decide (c = Not d) || bool_decide (d = Not c) ||
  bool_decide ((c, d) = (Def "CONFIG_OLD_SIGSUSPEND", Def "CONFIG_OLD_SIGSUSPEND3")).

(** Prototypes of the same name stand under contrary conditions. *)
Fixpoint apart (l : list proto) : bool :=
  match l with
  | [] => true
  | p :: l =>
      forallb (fun q => negb (String.eqb (p_name p) (p_name q)) ||
                 existsb (fun c => existsb (contrary c) (p_if q)) (p_if p)) l && apart l
  end.

Section Config.
Context (long32 : bool) (def : string -> bool).
Hypothesis Hdef : config_ok def.
#[local] Abbreviation on := (pcond_on long32 def).
#[local] Abbreviation chosen p := (forallb on (p_if p) = true).

Lemma contrary_off c d : contrary c d = true -> on c = true -> on d = true -> False.
Proof.
  unfold contrary. rewrite !orb_true_iff, !bool_decide_eq_true. intros [[-> | ->] | [= -> ->]]; cbn.
  - intros Hc%negb_true_iff. congruence.
  - intros Hc Hd%negb_true_iff. congruence.
  - intros Hc Hd. pose proof (one_sigsuspend def Hdef) as Ho. rewrite Hc, Hd in Ho. done.
Qed.

Lemma apart_nodup l : apart l = true -> NoDup (p_name <$> filter (fun p => chosen p) l).
Proof.
  induction l as [|p l IH]; [constructor|]. cbn [apart]. intros [Hp Hl]%andb_true_iff.
  rewrite filter_cons. case_decide as Hc; [|by apply IH]. cbn. constructor; [|by apply IH].
  intros (q & Hn & [Hq Hin]%list_elem_of_filter)%list_elem_of_fmap.
  rewrite forallb_forall in Hp. specialize (Hp q ltac:(by apply list_elem_of_In)).
  rewrite Hn, String.eqb_refl in Hp. cbn in Hp.
  apply existsb_exists in Hp as (c & Hcin & (d & Hdin & Hcd)%existsb_exists).
  rewrite forallb_forall in Hc, Hq. exact (contrary_off c d Hcd (Hc c Hcin) (Hq d Hdin)).
Qed.

Lemma prototypes_nodup : NoDup (p_name <$> prototypes long32 def).
Proof. unfold prototypes. rewrite (no_wrapper def Hdef). apply apart_nodup. vm_compute. reflexivity. Qed.

Lemma in_prototypes p : bool_decide (p ∈ protos) = true -> chosen p -> signature p ∈ signature <$> prototypes long32 def.
Proof.
  intros Hin%bool_decide_eq_true_1 Hc. apply list_elem_of_fmap_2. unfold prototypes.
  rewrite (no_wrapper def Hdef). by apply list_elem_of_filter.
Qed.

Lemma unconditional n ts : bool_decide (Proto [] n ts ∈ protos) = true -> (n, ts) ∈ signature <$> prototypes long32 def.
Proof. intros H. by apply (in_prototypes (Proto [] n ts)). Qed.

Lemma clone_declared : ("sys_clone", clone_types def) ∈ signature <$> prototypes long32 def.
Proof.
  pose proof (one_clone def Hdef) as H1. unfold clone_types. destruct (def "CONFIG_CLONE_BACKWARDS") eqn:E1.
  - apply (in_prototypes (Proto [Def "CONFIG_CLONE_BACKWARDS"] "sys_clone" _)); [vm_compute; reflexivity|].
    cbn. by rewrite E1.
  - destruct (def "CONFIG_CLONE_BACKWARDS3") eqn:E3.
    + rewrite andb_true_r in H1. rewrite H1.
      apply (in_prototypes (Proto [Not (Def "CONFIG_CLONE_BACKWARDS"); Def "CONFIG_CLONE_BACKWARDS3"] "sys_clone" _));
        [vm_compute; reflexivity|]. cbn. by rewrite E1, E3.
    + assert (Hin : forall ts, bool_decide (Proto [Not (Def "CONFIG_CLONE_BACKWARDS"); Not (Def "CONFIG_CLONE_BACKWARDS3")]
        "sys_clone" ts ∈ protos) = true -> ("sys_clone", ts) ∈ signature <$> prototypes long32 def).
      { intros ts Hts. apply (in_prototypes _ Hts). cbn. by rewrite E1, E3. }
      destruct (def "CONFIG_CLONE_BACKWARDS2"); apply Hin; vm_compute; reflexivity.
Qed.

Lemma calls_declared : Forall (fun c => c ∈ signature <$> prototypes long32 def) (fork_c_calls def ++ kv_store_calls).
Proof.
  unfold fork_c_calls. rewrite !Forall_app.
  split_and!; repeat case_match; repeat constructor;
    (apply clone_declared || (apply unconditional; vm_compute; reflexivity)).
Qed.
End Config.

(** A configuration as an architecture without wrappers has it. *)
Lemma config_ok_generic : config_ok (fun s => bool_decide (s ∈ ["__ARCH_WANT_SYS_CLONE"; "__ARCH_WANT_SYS_CLONE3"])).
Proof. by constructor. Qed.

