(* ===== verification/XattrTest.v ===== *)
(** * The program that tests the extended attributes exercise
      (filesystem/inode/test.c)

    run_full_test sets, gets, lists and removes an attribute with the four
    wrappers of impl.c, then with the functions of the C library on the file
    made anew, and compare_results compares what came back.  The wrappers reach
    the kernel through the x86-64 table (SyscallSpec.v).  The handlers of the
    kernel and the file system are the class [XattrKernel], with the behaviour
    their manual pages describe; the functions of the C library are thin
    wrappers of the same handlers. *)

From S2P Require Import Prelude Paths Syscalls SyscallSpec.

Definition ENOENT : Z := 2.
Definition ERANGE : Z := 34.
Definition ENODATA : Z := 61.

(** Memory of the program: buffers and strings, without terminator, by address. *)
Abbreviation umem := (gmap Z (list Z)).

Class XattrKernel := {
  kst : Type;
  (** The attributes of the file at a path, if there is one. *)
  attrs : kst -> list Z -> option (gmap string (list Z));
  (** Those of a new file, and the list of names listxattr gives for a set. *)
  new_attrs : gmap string (list Z);
  listing : gmap string (list Z) -> list Z;
  (** A handler with its arguments. *)
  handler : string -> list Z -> umem * kst -> Z * (umem * kst);
  (** open with O_CREAT, then close; unlink. *)
  creat : list Z -> kst -> bool * kst;
  unlink : list Z -> kst -> kst;
}.

(** A buffer of [size] bytes at [b] receives [x], or the length is asked for. *)
Definition give (b size : Z) (x : list Z) (m : umem) : Z * umem :=
  if size =? 0 then (Z.of_nat (length x), m)
  else if size <? Z.of_nat (length x) then (- ERANGE, m)
  else (Z.of_nat (length x), <[b := x ++ drop (length x) (default [] (m !! b))]> m).

Class XattrLaws `{XattrKernel} : Prop := {
  law_get : forall p n b size m s path name,
    m !! p = Some path -> m !! n = Some (bytes_of name) -> is_Some (m !! b) ->
    handler "sys_getxattr" [p; n; b; size] (m, s) =
    match attrs s path with
    | None => (- ENOENT, (m, s))
    | Some a => match a !! name with
                | None => (- ENODATA, (m, s))
                | Some x => let '(r, m') := give b size x m in (r, (m', s))
                end
    end;
  (** A value of [size] bytes, neither XATTR_CREATE nor XATTR_REPLACE. *)
  law_set : forall p n v size m s path name value a,
    m !! p = Some path -> m !! n = Some (bytes_of name) -> m !! v = Some value ->
    Z.of_nat (length value) = size -> attrs s path = Some a ->
    exists s', handler "sys_setxattr" [p; n; v; size; 0] (m, s) = (0, (m, s')) /\
      attrs s' path = Some (<[name := value]> a);
  law_list : forall p b size m s path a,
    m !! p = Some path -> is_Some (m !! b) -> attrs s path = Some a ->
    handler "sys_listxattr" [p; b; size] (m, s) =
    let '(r, m') := give b size (listing a) m in (r, (m', s));
  law_remove : forall p n m s path name a,
    m !! p = Some path -> m !! n = Some (bytes_of name) -> attrs s path = Some a -> is_Some (a !! name) ->
    exists s', handler "sys_removexattr" [p; n] (m, s) = (0, (m, s')) /\
      attrs s' path = Some (delete name a);
  law_creat : forall path s, exists s', creat path s = (true, s') /\
    attrs s' path = Some (default new_attrs (attrs s path));
  law_unlink : forall path s, attrs (unlink path s) path = None;
}.

(** ** The program *)

Section Program.
Context `{XattrKernel}.

(** How the C library turns the result of a handler into that of a call. *)
Definition libc_ret (r : Z) : Z := if (- MAX_ERRNO <=? r) && (r <? 0) then -1 else r.

Definition syscall (c : string * list Z) (st : umem * kst) : Z * (umem * kst) :=
  let '(r, st') := handler (fst c) (snd c) st in (libc_ret r, st').

(** The four functions a run uses; the first three return int. *)
Record xattr_fns := Fns {
  set_fn : Z -> Z -> Z -> Z -> Z -> umem * kst -> Z * (umem * kst);
  get_fn : Z -> Z -> Z -> Z -> umem * kst -> Z * (umem * kst);
  list_fn : Z -> Z -> Z -> umem * kst -> Z * (umem * kst);
  remove_fn : Z -> Z -> umem * kst -> Z * (umem * kst);
}.

Definition as_int (x : Z * (umem * kst)) : Z * (umem * kst) := (s32 (fst x), snd x).

Definition custom_fns : xattr_fns := {|
  set_fn p n v size flags st := as_int (syscall (set_xattr p n v size flags) st);
  get_fn p n v size st := as_int (syscall (get_xattr p n v size) st);
  list_fn p b size st := syscall (list_xattr p b size) st;
  remove_fn p n st := as_int (syscall (remove_xattr p n) st);
|}.

(** setxattr and its like, called through pointers to functions that return
    int. *)
Variable libc : string -> list Z -> umem * kst -> Z * (umem * kst).

Definition standard_fns : xattr_fns := {|
  set_fn p n v size flags st := as_int (libc "setxattr" [p; n; v; size; flags] st);
  get_fn p n v size st := as_int (libc "getxattr" [p; n; v; size] st);
  list_fn p b size st := libc "listxattr" [p; b; size] st;
  remove_fn p n st := as_int (libc "removexattr" [p; n] st);
|}.

(** TestResults; the two buffers are addresses. *)
Record results := Results {
  set_result : Z; get_result : Z; list_result : Z; remove_result : Z; get_after_remove_result : Z;
}.

Definition get_size : Z := 100.
Definition list_size : Z := 1024.

(** memset of a buffer *)
Definition clear (b size : Z) (st : umem * kst) : umem * kst := (<[b := replicate (Z.to_nat size) 0]> (fst st), snd st).

(** run_full_test; [path], [attr_name] and [attr_value] are the addresses of the
    strings, [value_len] is strlen(attr_value). *)
Definition run_full_test (fns : xattr_fns) (path attr_name attr_value value_len get_buffer list_buffer : Z)
  (st : umem * kst) : results * (umem * kst) :=
  let '(r1, st) := set_fn fns path attr_name attr_value value_len 0 st in
  let st := clear get_buffer get_size st in
  let '(r2, st) := get_fn fns path attr_name get_buffer get_size st in
  let st := clear list_buffer list_size st in
  let '(r3, st) := list_fn fns path list_buffer list_size st in
  let '(r4, st) := remove_fn fns path attr_name st in
  let '(r5, st) := get_fn fns path attr_name get_buffer get_size st in
  (Results r1 r2 (s32 r3) r4 r5, st).

(** The bytes of a buffer up to the first NUL. *)
Fixpoint c_str (l : list Z) : list Z :=
  match l with [] => [] | c :: l => if c =? 0 then [] else c :: c_str l end.

(** compare_results: whether each of the seven lines says that the two are the
    same; [g] and [l] are the buffers. *)
Definition compare_results (custom standard : results) (g1 g2 l1 l2 : list Z) : res (list bool) :=
  if (list_result custom <? 0) || (list_size <? list_result custom) then Fault OutOfBounds
  else
    let n := Z.to_nat (list_result custom) in
    Ok [set_result custom =? set_result standard;
        get_result custom =? get_result standard;
        bool_decide (c_str g1 = c_str g2);
        list_result custom =? list_result standard;
        bool_decide (take n l1 = take n l2);
        remove_result custom =? remove_result standard;
        get_after_remove_result custom =? get_after_remove_result standard].

(** The addresses xattr_test_main uses. *)
Record addresses := Addresses {
  a_path : Z; a_name : Z; a_value : Z; custom_get : Z; custom_list : Z; standard_get : Z; standard_list : Z;
}.

(** xattr_test_main with its argument: the status, the two results and the comparison. *)
Definition xattr_test_main (path : list Z) (value_len : Z) (a : addresses) (st : umem * kst)
  : res (Z * option (results * results * list bool)) :=
  let '(m, s) := st in
  let '(ok, s) := creat path s in
  if negb ok then Ok (1, None)
  else
    let '(r1, (m, s)) :=
      run_full_test custom_fns (a_path a) (a_name a) (a_value a) value_len (custom_get a) (custom_list a) (m, s) in
    let s := unlink path s in
    let '(ok, s) := creat path s in
    if negb ok then Ok (1, None)
    else
      let '(r2, (m, s)) :=
        run_full_test standard_fns (a_path a) (a_name a) (a_value a) value_len (standard_get a) (standard_list a) (m, s) in
      let buf b := default [] (m !! b) in
      let! c := compare_results r1 r2 (buf (custom_get a)) (buf (standard_get a))
                  (buf (custom_list a)) (buf (standard_list a)) in
      Ok (0, Some (r1, r2, c)).

End Program.

(** ** Both runs see the same kernel *)

(** Open a [NoDup] of addresses into disequalities, and build one from them. *)
Ltac open_nodup H := rewrite !NoDup_cons, !not_elem_of_cons in H; destruct_and! H.
Ltac nodup :=
  rewrite ?NoDup_cons, ?not_elem_of_cons;
  split_and!; first [apply not_elem_of_nil | apply NoDup_nil_2 | congruence].

Section Proof.
Context `{XattrLaws}.

Definition attr_name : string := "user.test_attr".
Definition attr_value : list Z := bytes_of "Hello, xattr!".

(** Functions that are calls of the four handlers. *)
Record calls_handlers (fns : xattr_fns) : Prop := {
  ch_set : forall p n v size flags st, set_fn fns p n v size flags st = as_int (syscall ("sys_setxattr", [p; n; v; size; flags]) st);
  ch_get : forall p n v size st, get_fn fns p n v size st = as_int (syscall ("sys_getxattr", [p; n; v; size]) st);
  ch_list : forall p b size st, list_fn fns p b size st = syscall ("sys_listxattr", [p; b; size]) st;
  ch_remove : forall p n st, remove_fn fns p n st = as_int (syscall ("sys_removexattr", [p; n]) st);
}.

(** The numbers of the table lead the wrappers to the right handlers. *)
Lemma custom_calls_handlers : calls_handlers custom_fns.
Proof.
  assert (E : forall name, sys_call_table Abi64 (NR_64 name) = "sys_" +:+ name ->
    forall args, x64_syscall (NR_64 name) args = ("sys_" +:+ name, args)) by (intros name E args; unfold x64_syscall; by rewrite E).
  split; intros; cbn [set_fn get_fn list_fn remove_fn custom_fns];
    unfold set_xattr, get_xattr, list_xattr, remove_xattr; rewrite E by (vm_compute; reflexivity); done.
Qed.

(** The C library wraps the same handlers. *)
Definition libc_wraps (libc : string -> list Z -> umem * kst -> Z * (umem * kst)) : Prop :=
  forall name args st, libc name args st = syscall ("sys_" +:+ name, args) st.

Lemma standard_calls_handlers libc : libc_wraps libc -> calls_handlers (standard_fns libc).
Proof. intros Hw. split; intros; cbn [set_fn get_fn list_fn remove_fn standard_fns]; by rewrite Hw. Qed.

(** The strings are in memory, apart from the buffers of a run. *)
Definition strings_at (path : list Z) (p n v g l : Z) (m : umem) : Prop :=
  m !! p = Some path /\ m !! n = Some (bytes_of attr_name) /\ m !! v = Some attr_value /\
  NoDup [p; n; v; g; l].

Definition zeros (n : nat) : list Z := replicate n 0.

(** What a run returns and leaves, the file being there with attributes [at0]. *)
Definition listed (at0 : gmap string (list Z)) : list Z := listing (<[attr_name := attr_value]> at0).
Definition good_results (at0 : gmap string (list Z)) : results := Results 0 13 (Z.of_nat (length (listed at0))) 0 (-1).

Lemma give_fits b size x m n :
  m !! b = Some (zeros n) -> 0 < size -> Z.of_nat (length x) <= size ->
  give b size x m = (Z.of_nat (length x), <[b := x ++ zeros (n - length x)]> m).
Proof.
  intros Hb Hs Hx. unfold give. rewrite (proj2 (Z.eqb_neq _ _)), (proj2 (Z.ltb_ge _ _)) by lia.
  rewrite Hb. unfold zeros. cbn [from_option id]. do 3 f_equal. apply drop_replicate.
Qed.

Lemma libc_ret_ok r : 0 <= r -> libc_ret r = r.
Proof. intros Hr. unfold libc_ret. by rewrite (proj2 (Z.ltb_ge r 0)), andb_false_r. Qed.

Lemma run_full_test_eq fns path p n v g l m s at0 :
  calls_handlers fns -> strings_at path p n v g l m -> attrs s path = Some at0 ->
  Z.of_nat (length (listed at0)) <= list_size ->
  exists s', run_full_test fns p n v 13 g l (m, s) =
    (good_results at0,
     (<[l := listed at0 ++ zeros (1024 - length (listed at0))]>
        (<[g := attr_value ++ zeros 87]> m), s')).
Proof.
  intros Hf (Hp & Hn & Hv & Hnd) Ha Hlen. unfold run_full_test, list_size, get_size in *.
  open_nodup Hnd.
  rewrite (ch_set _ Hf). unfold syscall. cbn [fst snd].
  destruct (law_set p n v 13 m s path attr_name attr_value at0 Hp Hn Hv eq_refl Ha) as (s1 & E1 & A1). rewrite E1.
  change (as_int (libc_ret 0, (m, s1))) with (0, (m, s1)). cbv beta iota. unfold clear. cbn [fst snd].
  set (m1 := <[g := _]> m). rewrite (ch_get _ Hf). unfold syscall. cbn [fst snd].
  assert (Hp1 : m1 !! p = Some path) by (unfold m1; by rewrite lookup_insert_ne).
  assert (Hn1 : m1 !! n = Some (bytes_of attr_name)) by (unfold m1; by rewrite lookup_insert_ne).
  rewrite (law_get p n g 100 m1 s1 path attr_name Hp1 Hn1) by (unfold m1; rewrite lookup_insert_eq; eauto).
  rewrite A1, lookup_insert_eq. rewrite (give_fits g 100 attr_value m1 100) by (unfold m1; rewrite ?lookup_insert_eq; done).
  change (as_int (libc_ret (Z.of_nat (length attr_value)), ?st)) with (13, st). cbv beta iota. cbn [fst snd].
  unfold m1. rewrite insert_insert_eq. change (100 - length attr_value)%nat with 87%nat.
  set (m2 := <[g := attr_value ++ zeros 87]> m). set (m3 := <[l := replicate (Z.to_nat 1024) 0]> m2).
  assert (Hp3 : m3 !! p = Some path) by (unfold m3, m2; by rewrite !lookup_insert_ne).
  assert (Hn3 : m3 !! n = Some (bytes_of attr_name)) by (unfold m3, m2; by rewrite !lookup_insert_ne).
  assert (Hl3 : m3 !! l = Some (zeros 1024)) by (unfold m3; by rewrite lookup_insert_eq).
  rewrite (ch_list _ Hf). unfold syscall. cbn [fst snd].
  rewrite (law_list p l 1024 m3 s1 path _ Hp3 (mk_is_Some _ _ Hl3) A1). fold (listed at0).
  rewrite (give_fits l 1024 (listed at0) m3 1024 Hl3) by lia.
  rewrite libc_ret_ok by lia. unfold m3 at 1. rewrite insert_insert_eq.
  set (m4 := <[l := listed at0 ++ _]> m2). rewrite (ch_remove _ Hf). unfold syscall. cbn [fst snd].
  assert (Hp4 : m4 !! p = Some path) by (unfold m4, m2; by rewrite !lookup_insert_ne).
  assert (Hn4 : m4 !! n = Some (bytes_of attr_name)) by (unfold m4, m2; by rewrite !lookup_insert_ne).
  destruct (law_remove p n m4 s1 path attr_name _ Hp4 Hn4 A1) as (s2 & E2 & A2); [rewrite lookup_insert_eq; eauto|].
  rewrite E2. change (as_int (libc_ret 0, (m4, s2))) with (0, (m4, s2)). cbv beta iota.
  rewrite (ch_get _ Hf). unfold syscall. cbn [fst snd].
  rewrite (law_get p n g 100 m4 s2 path attr_name Hp4 Hn4)
    by (unfold m4, m2; rewrite lookup_insert_ne, lookup_insert_eq by done; eauto).
  rewrite A2, lookup_delete_eq. change (as_int (libc_ret (- ENODATA), (m4, s2))) with (-1, (m4, s2)). cbv beta iota.
  exists s2. unfold good_results. f_equal. f_equal. unfold s32. apply swrap_small; [lia|]. unfold in_s. lia.
Qed.

Definition all_addresses (a : addresses) : list Z :=
  [a_path a; a_name a; a_value a; custom_get a; custom_list a; standard_get a; standard_list a].

Lemma compare_same at0 l1 l2 x g :
  Z.of_nat (length (listed at0)) <= list_size -> l1 = listed at0 ++ x -> l2 = listed at0 ++ x ->
  compare_results (good_results at0) (good_results at0) g g l1 l2 = Ok (replicate 7 true).
Proof.
  intros Hl -> ->. unfold compare_results. cbn [list_result good_results].
  rewrite (proj2 (Z.ltb_ge _ 0)), (proj2 (Z.ltb_ge list_size _)) by lia. cbn [orb].
  rewrite !Z.eqb_refl, !bool_decide_eq_true_2 by done. done.
Qed.

Lemma xattr_test_main_eq libc path a m s :
  libc_wraps libc -> (attrs s path = None \/ attrs s path = Some new_attrs) ->
  Z.of_nat (length (listed new_attrs)) <= list_size ->
  m !! a_path a = Some path -> m !! a_name a = Some (bytes_of attr_name) -> m !! a_value a = Some attr_value ->
  NoDup (all_addresses a) ->
  xattr_test_main libc path 13 a (m, s) = Ok (0, Some (good_results new_attrs, good_results new_attrs, replicate 7 true)).
Proof.
  intros Hl Hs Hlen Hp Hn Hv Hnd. unfold xattr_test_main.
  destruct (law_creat path s) as (s1 & -> & A1). cbn [negb].
  replace (default new_attrs (attrs s path)) with new_attrs in A1 by (by destruct Hs as [-> | ->]).
  unfold all_addresses in Hnd. open_nodup Hnd.
  destruct (run_full_test_eq custom_fns path (a_path a) (a_name a) (a_value a) (custom_get a) (custom_list a) m s1 new_attrs
    custom_calls_handlers) as (s2 & ->); [|done|done|].
  { split_and!; try done. nodup. }
  destruct (law_creat path (unlink path s2)) as (s3 & -> & A3). cbn [negb]. rewrite law_unlink in A3. cbn in A3.
  set (m1 := <[custom_list a := _]> _).
  assert (Hm1 : forall x, x <> custom_list a -> x <> custom_get a -> m1 !! x = m !! x)
    by (intros x ? ?; unfold m1; by rewrite !lookup_insert_ne by congruence).
  destruct (run_full_test_eq (standard_fns libc) path (a_path a) (a_name a) (a_value a) (standard_get a) (standard_list a) m1 s3
    new_attrs (standard_calls_handlers libc Hl)) as (s4 & ->); [|done|done|].
  { split_and!; rewrite ?Hm1 by congruence; try done. nodup. }
  unfold m1. repeat first [rewrite lookup_insert_eq | rewrite lookup_insert_ne by congruence].
  cbn [default]. erewrite compare_same; [done|done|reflexivity|reflexivity].
Qed.

End Proof.


(** ** A kernel *)

Definition demo_listing (a : gmap string (list Z)) : list Z :=
  concat ((fun kv => bytes_of (fst kv) ++ [0]) <$> map_to_list a).

(** Handlers over files with their attributes; names are found by their bytes. *)
Definition demo_handler (h : string) (args : list Z) (st : umem * gmap (list Z) (gmap string (list Z)))
  : Z * (umem * gmap (list Z) (gmap string (list Z))) :=
  let '(m, s) := st in
  let str x := default [] (m !! x) in
  let name x := String.string_of_list_ascii (Ascii.ascii_of_N <$> (Z.to_N <$> str x)) in
  match args with
  | p :: args =>
      match s !! str p with
      | None => (- ENOENT, st)
      | Some a =>
          match String.eqb h "sys_getxattr", String.eqb h "sys_setxattr", String.eqb h "sys_listxattr", args with
          | true, _, _, [n; b; size] =>
              match a !! name n with
              | None => (- ENODATA, st)
              | Some x => let '(r, m') := give b size x m in (r, (m', s))
              end
          | _, true, _, [n; v; size; flags] => (0, (m, <[str p := <[name n := str v]> a]> s))
          | _, _, true, [b; size] => let '(r, m') := give b size (demo_listing a) m in (r, (m', s))
          | _, _, _, [n] =>
              match a !! name n with
              | None => (- ENODATA, st)
              | Some _ => (0, (m, <[str p := delete (name n) a]> s))
              end
          | _, _, _, _ => (- EINVAL, st)
          end
      end
  | [] => (- EINVAL, st)
  end.

#[local] Instance demo_xattrs : XattrKernel := {|
  kst := gmap (list Z) (gmap string (list Z));
  attrs s path := s !! path;
  new_attrs := {[ "security.selinux" := [1] ]};
  listing := demo_listing;
  handler := demo_handler;
  creat path s := (true, <[path := default {[ "security.selinux" := [1] ]} (s !! path)]> s);
  unlink path s := delete path s;
|}.

Lemma bytes_of_string s :
  String.string_of_list_ascii (Ascii.ascii_of_N <$> (Z.to_N <$> bytes_of s)) = s.
Proof.
  unfold bytes_of. rewrite <- list_fmap_compose. induction s as [|c s IH]; [done|]. cbn. rewrite IH, N2Z.id, Ascii.ascii_N_embedding. done.
Qed.

#[local] Instance demo_xattr_laws : XattrLaws.
Proof.
  set (st := gmap (list Z) (gmap string (list Z))).
  split.
  - intros p n b size m s path name Hp Hn [buf Hb]. change st in s. unfold st in s. cbn. rewrite Hp, Hn. cbn [from_option id].
    by rewrite bytes_of_string.
  - intros p n v size m s path name value a Hp Hn Hv _. change st in s. unfold st in s. intros Ha. cbn in *.
    rewrite Hp, Hn, Hv. cbn [from_option id]. rewrite Ha, bytes_of_string.
    eexists. split; [reflexivity|]. by rewrite lookup_insert_eq.
  - intros p b size m s path a Hp [buf Hb]. change st in s. unfold st in s. intros Ha. cbn in *. rewrite Hp. cbn [from_option id].
    by rewrite Ha.
  - intros p n m s path name a Hp Hn. change st in s. unfold st in s. intros Ha [x Hx]. cbn in *.
    rewrite Hp, Hn. cbn [from_option id]. rewrite Ha, bytes_of_string, Hx.
    eexists. split; [reflexivity|]. by rewrite lookup_insert_eq.
  - intros path s. eexists. split; [reflexivity|]. cbn. by rewrite lookup_insert_eq.
  - intros path s. cbn. by rewrite lookup_delete_eq.
Qed.

Definition demo_addresses : addresses := Addresses 1 2 3 4 5 6 7.
Definition demo_umem : umem := {[ 1 := bytes_of "f"; 2 := bytes_of attr_name; 3 := attr_value ]}.

Definition demo_kst : @kst demo_xattrs := (∅ : gmap (list Z) (gmap string (list Z))).

Lemma demo_listed : Z.of_nat (length (listed new_attrs)) = 32.
Proof. vm_compute. reflexivity. Qed.

