(* ===== verification/SyscallArgs.v ===== *)
(** * The definition of a system call (include/linux/syscalls.h)

    SYSCALL_DEFINEx makes of a function with typed parameters the stub that the
    entry code calls with registers: it takes every argument as a long, or a
    long long, and casts it to its type.  Here are the macros, what the function
    gets, and the small functions at the two ends of the header. *)

From S2P Require Import Prelude KVStore KVClient Syscalls.

(** ** Types of arguments *)

(** A scalar type: its name, its bits, its sign, and whether it is the type long
    long or unsigned long long. *)
Record ctype := CType { c_name : string; c_bits : Z; c_signed : bool; c_ll : bool }.

Definition c_int : ctype := CType "int" 32 true false.
Definition c_uint : ctype := CType "unsigned int" 32 false false.
Definition c_u32 : ctype := CType "u32" 32 false false.

(** (__force t) a *)
Definition cast (t : ctype) (a : Z) : Z := if c_signed t then swrap (c_bits t) a else uwrap (c_bits t) a.

Definition in_type (t : ctype) (v : Z) : Prop :=
  if c_signed t then - 2 ^ (c_bits t - 1) <= v < 2 ^ (c_bits t - 1) else 0 <= v < 2 ^ c_bits t.

Section Define.
(** The bits of a long *)
Variable BITS_PER_LONG : Z.

Definition TYPE_IS_LL (t : ctype) : bool := c_ll t.
(** The type of the stub's parameter *)
Definition SC_LONG (t : ctype) : ctype :=
  if TYPE_IS_LL t then CType "long long" 64 true true else CType "long" BITS_PER_LONG true false.
Definition SC_CAST (t : ctype) (a : Z) : Z := cast t a.
(** Whether the translation is accepted *)
Definition SC_TEST (t : ctype) : bool := negb (negb (TYPE_IS_LL t) && (BITS_PER_LONG <? c_bits t)).

(** __MAP(n, m, t1, a1, ...): [None] if there are fewer pairs than [n], whose
    expansion is not a C program. *)
Fixpoint MAP {A B : Type} (n : nat) (m : ctype -> A -> B) (args : list (ctype * A)) : option (list B) :=
  match n with
  | O => Some []
  | S n =>
      match args with
      | (t, a) :: args => match MAP n m args with Some l => Some (m t a :: l) | None => None end
      | [] => None
      end
  end.

(** __SYSCALL_DEFINEx: __se_sys##name, given the values of the registers (on the
    stack for long long on a machine of 32 bits) *)
Definition SYSCALL_DEFINEx {R} (x : nat) (params : list (ctype * string)) (do_sys : list Z -> R) (regs : list Z) : option R :=
  match MAP x (fun t _ => SC_TEST t) params with
  | Some tests =>
      if forallb id tests then
        match MAP x (fun t r => cast (SC_LONG t) r) (zip params.*1 regs) with
        | Some longs => option_map do_sys (MAP x SC_CAST (zip params.*1 longs))
        | None => None
        end
      else None
  | None => None
  end.

(** ** What the function gets *)

(** Conversion to a wider signed type and back *)
Lemma cast_through_long t r :
  1 <= c_bits t <= 64 -> 1 <= BITS_PER_LONG -> SC_TEST t = true -> cast t (cast (SC_LONG t) r) = cast t r.
Proof.
  intros Hb HL Ht. assert (Hw : exists w, c_bits t <= w /\ cast (SC_LONG t) r = swrap w r).
  { unfold SC_TEST, TYPE_IS_LL, SC_LONG in *. destruct (c_ll t) eqn:E; cbn in *.
    - exists 64. unfold TYPE_IS_LL. rewrite E. split; [lia|done].
    - exists BITS_PER_LONG. unfold TYPE_IS_LL. rewrite E. split; [|done]. destruct (Z.ltb_spec BITS_PER_LONG (c_bits t)); [done|lia]. }
  destruct Hw as (w & Hw & ->).
  assert (Hm : forall y, (swrap w r + y) mod 2 ^ c_bits t = (r + y) mod 2 ^ c_bits t).
  { intros y. unfold swrap. rewrite (Z.mod_eq (r + 2 ^ (w - 1)) (2 ^ w)) by lia.
    replace w with (c_bits t + (w - c_bits t)) at 2 by lia. rewrite Z.pow_add_r by lia.
    match goal with |- (?a - ?p * ?q * ?c - ?d + y) mod _ = _ =>
      replace (a - p * q * c - d + y) with (r + y + (- (q * c)) * p) by lia end.
    rewrite Z_mod_plus_full. done. }
  unfold cast. destruct (c_signed t).
  - unfold swrap at 1 3. by rewrite Hm.
  - unfold uwrap. rewrite <- (Z.add_0_r (swrap w r)), Hm, Z.add_0_r. done.
Qed.

Lemma cast_in_type t r : 1 <= c_bits t -> in_type t (cast t r).
Proof.
  intros Hb. unfold in_type, cast. destruct (c_signed t).
  - apply swrap_range. lia.
  - apply uwrap_range. lia.
Qed.

Lemma cast_id t v : 1 <= c_bits t -> in_type t v -> cast t v = v.
Proof.
  unfold in_type, cast. intros Hb Hv. destruct (c_signed t); [apply swrap_small; [lia|done]|by apply uwrap_small].
Qed.

Lemma cast_congruent t r r' : r mod 2 ^ c_bits t = r' mod 2 ^ c_bits t -> cast t r = cast t r'.
Proof.
  intros Hr. unfold cast, swrap, uwrap. destruct (c_signed t); [|done]. by rewrite <- Zplus_mod_idemp_l, Hr, Zplus_mod_idemp_l.
Qed.

Lemma MAP_zip {A B} (m : ctype -> A -> B) (ts : list ctype) (l : list A) :
  length ts = length l -> MAP (length ts) m (zip ts l) = Some (zip_with m ts l).
Proof.
  revert l. induction ts as [|t ts IH]; intros [|a l] Hl; try done. cbn in *. by rewrite IH by lia.
Qed.

Lemma MAP_short {A B} (m : ctype -> A -> B) n args : (length args < n)%nat -> MAP n m args = None.
Proof. revert args. induction n as [|n IH]; intros [|[t a] args] Hl; cbn in *; try done; try lia. by rewrite IH by lia. Qed.

(** A list of parameters that the compiler takes *)
Definition params_ok (params : list (ctype * string)) : Prop :=
  Forall (fun p => 1 <= c_bits p.1 <= 64 /\ SC_TEST p.1 = true) params.

Lemma cast_args params regs :
  1 <= BITS_PER_LONG -> params_ok params -> length params = length regs ->
  zip_with SC_CAST params.*1 (zip_with (fun t r => cast (SC_LONG t) r) params.*1 regs) = zip_with cast params.*1 regs.
Proof.
  intros HL Hp. revert regs. induction Hp as [|[t a] params [Hb Ht] _ IH]; intros [|r regs] Hl; try done.
  cbn in *. rewrite IH by lia. unfold SC_CAST. by rewrite cast_through_long.
Qed.

Lemma define_eq {R} params (do_sys : list Z -> R) regs :
  1 <= BITS_PER_LONG -> params_ok params -> length params = length regs ->
  SYSCALL_DEFINEx (length params) params do_sys regs = Some (do_sys (zip_with cast params.*1 regs)).
Proof.
  intros HL Hp Hl. unfold SYSCALL_DEFINEx.
  assert (Ht : exists tests, MAP (length params) (fun t (_ : string) => SC_TEST t) params = Some tests /\ forallb id tests = true).
  { clear Hl. induction Hp as [|[t a] ps [_ Ht] _ (tests & IH & Hi)]; [by exists []|]. cbn in *. rewrite IH. eexists. split; [done|].
    cbn. by rewrite Ht. }
  destruct Ht as (tests & -> & ->). rewrite <- (length_fmap fst params), MAP_zip by (by rewrite length_fmap).
  rewrite MAP_zip by (rewrite length_zip_with, length_fmap; lia). cbn. by rewrite cast_args.
Qed.

Lemma casts_in_type params regs :
  params_ok params -> length params = length regs -> Forall2 in_type params.*1 (zip_with cast params.*1 regs).
Proof.
  intros Hp. revert regs. induction Hp as [|[t a] ps [Hb _] _ IH]; intros [|r regs] Hl; try done; cbn in *; constructor.
  - apply cast_in_type. lia.
  - apply IH. lia.
Qed.

Lemma casts_id params args : params_ok params -> Forall2 in_type params.*1 args -> zip_with cast params.*1 args = args.
Proof.
  intros Hp. revert args. induction Hp as [|[t a] ps [Hb _] _ IH]; intros args Ha; inversion_clear Ha; [done|].
  cbn in Hb |- *. rewrite cast_id; [|lia|done]. f_equal. by apply IH.
Qed.

(** C22: the stub that SYSCALL_DEFINEx makes calls the function once, with every
    argument in the range of its type whatever the registers held; arguments
    that were in range arrive unchanged; and bits of a register above its
    type never matter. *)
Theorem syscall_args_sanitized {R} params (do_sys : list Z -> R) regs :
  1 <= BITS_PER_LONG -> params_ok params -> length params = length regs ->
  exists args, SYSCALL_DEFINEx (length params) params do_sys regs = Some (do_sys args) /\
    Forall2 in_type params.*1 args /\
    (Forall2 in_type params.*1 regs -> args = regs) /\
    (forall regs', Forall2 (fun t rr => rr.1 mod 2 ^ c_bits t = rr.2 mod 2 ^ c_bits t) params.*1 (zip regs regs') ->
       length regs' = length regs -> SYSCALL_DEFINEx (length params) params do_sys regs' = Some (do_sys args)).
Proof.
  intros HL Hp Hl. exists (zip_with cast params.*1 regs). split; [by apply define_eq|]. split; [by apply casts_in_type|].
  split; [by apply casts_id|]. intros regs' Hr Hl'. rewrite define_eq by (done || lia). do 2 f_equal. clear Hp.
  revert regs regs' Hl Hl' Hr. induction params as [|[t a] ps IH]; intros [|r regs] [|r' regs'] Hl Hl' Hr; try done.
  cbn in *. inversion_clear Hr as [|? ? ? ? Hc Hcs]. f_equal; [symmetry; by apply cast_congruent|]. apply IH; [lia..|done].
Qed.
End Define.

(** ** The calls of the store *)

Definition write_kv_params : list (ctype * string) := [(c_int, "k"); (c_int, "v")].
Definition read_kv_params : list (ctype * string) := [(c_int, "k")].

(** The entry of the store's system calls is what the macro makes of them. *)
Lemma kernel_entry_defined {T} `{TaskKv T} kmalloc (task : T) a0 a1 m :
  SYSCALL_DEFINEx 64 2 write_kv_params (fun args => write_kv kmalloc task (args !!! 0%nat) (args !!! 1%nat) m) [a0; a1] =
    Some (kernel_entry kmalloc task NR_write_kv a0 a1 m) /\
  SYSCALL_DEFINEx 64 1 read_kv_params (fun args => read_kv task (args !!! 0%nat) m) [a0] =
    Some (kernel_entry kmalloc task NR_read_kv a0 a1 m).
Proof.
  assert (Hok : params_ok 64 write_kv_params) by (repeat constructor; cbn; lia).
  assert (Hok1 : params_ok 64 read_kv_params) by (repeat constructor; cbn; lia).
  split; [apply (define_eq 64 write_kv_params)|apply (define_eq 64 read_kv_params)]; done || lia.
Qed.

(** Garbage above the 32 bits of an int does not reach the function. *)
Lemma syscall_args_sanitized_witness :
  SYSCALL_DEFINEx 64 2 write_kv_params id [2 ^ 40 + 7; -1] = Some [7; -1] /\
  SYSCALL_DEFINEx 64 2 write_kv_params id [7; 2 ^ 32 - 1] = Some [7; -1].
Proof.
  assert (Hok : params_ok 64 write_kv_params) by (repeat constructor; cbn; lia).
  destruct (syscall_args_sanitized 64 write_kv_params id [7; -1] ltac:(lia) Hok eq_refl) as (args & _ & _ & Hid & Hrest).
  rewrite Hid in Hrest by (repeat constructor; cbn; lia).
  split; (apply Hrest; [repeat constructor|reflexivity]).
Defined.

(** ** The stubs of the declared calls *)

Section Declared.
Variable BITS_PER_LONG : Z.
(** The types that other headers name *)
Variable typedef : string -> ctype.

Definition is_pointer (t : string) : bool := String.eqb (String.substring (String.length t - 1) 1 t) "*".

(** The type that the text of a prototype means *)
Definition type_of (t : string) : ctype :=
  if is_pointer t then CType t BITS_PER_LONG false false
  else if String.eqb t "int" then c_int
  else if String.eqb t "unsigned" || String.eqb t "unsigned int" then c_uint
  else if String.eqb t "long" then CType t BITS_PER_LONG true false
  else if String.eqb t "unsigned long" then CType t BITS_PER_LONG false false
  else typedef t.

(** A type that a register, or two for long long, can carry *)
Definition carried (c : ctype) : Prop := 1 <= c_bits c <= 64 /\ (c_ll c = true \/ c_bits c <= BITS_PER_LONG).

Hypothesis Hlong : 32 <= BITS_PER_LONG <= 64.
Hypothesis Htypedef : forall t, carried (typedef t).

Lemma type_carried t : carried (type_of t).
Proof. unfold type_of. repeat case_match; try apply Htypedef; split; cbn; lia || (right; cbn; lia). Qed.

Lemma declared_params_ok p : params_ok BITS_PER_LONG ((fun t => (type_of t, "")) <$> p_types p).
Proof.
  apply Forall_fmap, Forall_forall. intros t _. cbn. destruct (type_carried t) as [Hb Hl]. split; [done|].
  unfold SC_TEST, TYPE_IS_LL. destruct Hl as [-> | Hl]; [done|]. destruct (Z.ltb_spec BITS_PER_LONG (c_bits (type_of t))); [lia|].
  by destruct (c_ll (type_of t)).
Qed.

(** The stub of every declared system call is accepted and passes arguments of
    the declared types. *)
Lemma declared_stub {R} p (do_sys : list Z -> R) regs :
  length regs = length (p_types p) ->
  exists args, Forall2 (fun t v => in_type (type_of t) v) (p_types p) args /\
    SYSCALL_DEFINEx BITS_PER_LONG (length (p_types p)) ((fun t => (type_of t, "")) <$> p_types p) do_sys regs =
      Some (do_sys args).
Proof.
  intros Hl. pose proof (declared_params_ok p) as Hp. set (params := _ <$> p_types p) in *.
  assert (Hlen : length params = length (p_types p)) by apply length_fmap.
  exists (zip_with cast params.*1 regs). rewrite <- Hlen. split; [|by apply define_eq; [lia|done|lia]].
  pose proof (casts_in_type BITS_PER_LONG params regs Hp ltac:(lia)) as Hc. revert Hc.
  generalize (zip_with cast params.*1 regs). intros args. subst params. rewrite <- list_fmap_compose.
  by rewrite Forall2_fmap_l.
Qed.
End Declared.

(** ** Arguments of 64 bits on a machine of 32 *)

Section Split.
Variable LITTLE_ENDIAN : bool.

(** The two parameters, in the order of the registers *)
Definition SC_ARG64 (name : string) : list (ctype * string) :=
  if LITTLE_ENDIAN then [(c_u32, name +:+ "_lo"); (c_u32, name +:+ "_hi")]
  else [(c_u32, name +:+ "_hi"); (c_u32, name +:+ "_lo")].

(** ((type) name##_hi << 32 | name##_lo) *)
Definition SC_VAL64 (t : ctype) (hi lo : Z) : Z := cast t (Z.lor (Z.shiftl (cast t hi) 32) lo).

(** The registers a caller fills for the value [v] *)
Definition split_arg (v : Z) : list Z :=
  let lo := u32 v in
  let hi := u32 (Z.shiftr v 32) in
  if LITTLE_ENDIAN then [lo; hi] else [hi; lo].

Definition val64_of (t : ctype) (args : list Z) : Z :=
  match args with
  | [a; b] => if LITTLE_ENDIAN then SC_VAL64 t b a else SC_VAL64 t a b
  | _ => 0
  end.

Lemma split_value v : Z.lor (Z.shiftl (u32 (Z.shiftr v 32)) 32) (u32 v) = v mod 2 ^ 64.
Proof.
  apply Z.bits_inj'. intros n Hn. unfold u32, uwrap. rewrite Z.lor_spec, Z.shiftl_spec by done.
  destruct (decide (n < 32)).
  - rewrite (Z.testbit_neg_r _ (n - 32)) by lia. cbn. rewrite !Z.mod_pow2_bits_low by lia. done.
  - rewrite (Z.mod_pow2_bits_high v 32 n), orb_false_r by lia. destruct (decide (n < 64)).
    + rewrite !Z.mod_pow2_bits_low, Z.shiftr_spec by lia. f_equal. lia.
    + rewrite !Z.mod_pow2_bits_high by lia. done.
Qed.

(** A value of 64 bits comes through the stub of a machine of 32 bits in either
    order of bytes. *)
Lemma split_roundtrip t v :
  c_bits t = 64 -> in_type t v -> SYSCALL_DEFINEx 32 2 (SC_ARG64 "v") (val64_of t) (split_arg v) = Some v.
Proof.
  intros Ht Hv.
  assert (Hok : params_ok 32 (SC_ARG64 "v")) by (unfold SC_ARG64; destruct LITTLE_ENDIAN; repeat constructor; cbn; lia).
  assert (Hlen : length (SC_ARG64 "v") = 2%nat) by (unfold SC_ARG64; by destruct LITTLE_ENDIAN).
  assert (Hc : forall x, cast c_u32 (u32 x) = u32 x) by (intros x; unfold cast, u32, uwrap; cbn; apply Z.mod_mod; lia).
  assert (Hs : SC_VAL64 t (u32 (Z.shiftr v 32)) (u32 v) = v).
  { unfold SC_VAL64. rewrite (cast_id t (u32 _)).
    - rewrite split_value. transitivity (cast t v); [|by apply cast_id; [lia|]].
      apply cast_congruent. rewrite Ht. by apply Z.mod_mod.
    - lia.
    - pose proof (uwrap_range 32 (Z.shiftr v 32) ltac:(lia)) as Hu. unfold in_u, u32 in *. unfold in_type. rewrite Ht.
      destruct (c_signed t); lia. }
  pose proof (define_eq 32 (SC_ARG64 "v") (val64_of t) (split_arg v) ltac:(lia) Hok) as Hd. rewrite Hlen in Hd.
  rewrite Hd by (unfold split_arg; by destruct LITTLE_ENDIAN). f_equal. clear Hd Hok Hlen.
  unfold SC_ARG64, split_arg, val64_of. destruct LITTLE_ENDIAN; cbn [fmap list_fmap fst zip_with]; rewrite !Hc; exact Hs.
Qed.
End Split.

(** ** What tracing knows of a call *)

Inductive event_class := SyscallEnter | SyscallExit | OtherClass.

Record syscall_metadata := Metadata {
  md_name : string; md_nr : Z; md_nb_args : nat; md_types : option (list string); md_args : option (list string);
  md_enter : string; md_exit : string }.

Section Trace.
Variable CONFIG_FTRACE_SYSCALLS : bool.

(** [sname] carries its leading underscore. *)
Definition SYSCALL_METADATA (sname : string) (nb : nat) (params : list (ctype * string)) : option syscall_metadata :=
  if CONFIG_FTRACE_SYSCALLS then
    match MAP nb (fun t _ => c_name t) params, MAP nb (fun _ a => a) params with
    | Some types, Some args =>
        let keep l := match nb with O => None | _ => Some l end in
        Some (Metadata ("sys" +:+ sname) (-1) nb (keep types) (keep args) ("sys_enter" +:+ sname) ("sys_exit" +:+ sname))
    | _, _ => None
    end
  else None.

Definition is_syscall_trace_event (c : event_class) : bool :=
  if CONFIG_FTRACE_SYSCALLS then match c with SyscallEnter | SyscallExit => true | OtherClass => false end else false.

(** The names and types that are recorded are those of the definition. *)
Lemma metadata_of_params sname params :
  CONFIG_FTRACE_SYSCALLS = true -> params <> [] ->
  SYSCALL_METADATA sname (length params) params =
    Some (Metadata ("sys" +:+ sname) (-1) (length params) (Some (c_name <$> params.*1)) (Some params.*2)
      ("sys_enter" +:+ sname) ("sys_exit" +:+ sname)).
Proof.
  intros Hc Hp. unfold SYSCALL_METADATA. rewrite Hc.
  assert (HM : forall B (f : ctype -> string -> B), MAP (length params) f params = Some ((fun p => f p.1 p.2) <$> params)).
  { intros B f. clear. induction params as [|[t a] ps IH]; [done|]. cbn. by rewrite IH. }
  rewrite !HM. destruct params; [done|]. cbn. by rewrite <- !list_fmap_compose.
Qed.
End Trace.

(** ** Functions of the header *)

Section Functions.
(** do_fchownat, do_sys_ftruncate and do_sys_truncate of fs/, and constants *)
Variable do_fchownat : Z -> Z -> Z -> Z -> Z -> Z.
Variable do_sys_ftruncate : Z -> Z -> Z -> Z.
Variable do_sys_truncate : Z -> Z -> Z.
Variables AT_FDCWD AT_SYMLINK_NOFOLLOW EINVAL : Z.

Definition ksys_chown (filename user group : Z) : Z := do_fchownat AT_FDCWD filename user group 0.
Definition ksys_lchown (filename user group : Z) : Z := do_fchownat AT_FDCWD filename user group AT_SYMLINK_NOFOLLOW.
Definition ksys_ftruncate (fd length : Z) : Z := do_sys_ftruncate fd length 1.
Definition ksys_truncate (pathname length : Z) : Z := do_sys_truncate pathname length.
(** The version without CONFIG_ADVISE_SYSCALLS *)
Definition ksys_fadvise64_64_off : Z := - EINVAL.

(** set_personality of the architecture, on current->personality *)
Variable set_personality : Z -> Z -> Z.
Definition ksys_personality (personality : Z) (cur : Z) : Z * Z :=
  let old := cur in
  let cur := if negb (personality =? 0xffffffff) then set_personality personality cur else cur in
  (old, cur).

Lemma ksys_personality_query cur : ksys_personality 0xffffffff cur = (cur, cur).
Proof. done. Qed.

(** addr_limit_user_check: whether TIF_FSCHECK is defined and set, and whether
    the address limit is the kernel's; the signal sent and the flag after *)
Variable SIGKILL : Z.
Definition addr_limit_user_check (defined flag uaccess_kernel : bool) : option Z * bool :=
  if defined && negb flag then (None, flag)
  else (if uaccess_kernel then Some SIGKILL else None, if defined then false else flag).

(** A task that comes back with the limit of the kernel is killed, if the flag
    was set whenever the limit changed. *)
Lemma addr_limit_checked defined flag kernel :
  (kernel = true -> flag = true) -> (addr_limit_user_check defined flag kernel).1 = if kernel then Some SIGKILL else None.
Proof. unfold addr_limit_user_check. intros H. destruct defined, flag, kernel; cbn; naive_solver. Qed.
End Functions.
